(* ===== verification/_CoqProject ===== *)
-Q . S2P
Prelude.v
JsString.v
JsNumber.v
JsArray.v
Vdom.v
UrlCodec.v
Json.v
Endpoints.v
ApiClient.v
Api.v
ApiFacts.v
Auth.v
PollingHistory.v
OrgContext.v
Components.v
Charts.v
DesignSystem.v
DesignFacts.v
DevicesPage.v
DevicesView.v
DevicesFacts.v
DevicesDelete.v
Certificates.v
CertificatesView.v
CertificatesFacts.v
Navigation.v
NavigationFacts.v
Terminal.v
TerminalFacts.v
AuditLog.v
AuditFacts.v
DeviceLogs.v
DeviceLogsFacts.v
ManifestEditor.v
DeviceDetail.v
DeviceDetailView.v
DeviceDetailFacts.v
Settings.v
SettingsView.v
SettingsFacts.v
SettingsFlows.v
Dashboard.v
DashboardFacts.v
Queries.v
DesignPages.v
SignIn.v
Marquee.v
TerminalDemo.v
Discovery.v
Landing.v
Terms.v
EntryFacts.v
SessionPolling.v
Routing.v
Frame.v
