(* ===== verification/Prelude.v ===== *)
(** * EdgeGuardian dashboard: a verification development

    EdgeGuardian manages a fleet of edge devices. An agent (Go) runs on each
    device, a controller (Java) keeps the fleet's state and issues certificates,
    and a dashboard (TypeScript, Next.js and React, under src/ui) is where people
    see and change it. This development models the dashboard: the code that
    talks to the controller, the code that keeps the user signed in, and the
    pages with their state, handlers and rendered elements. The controller is
    the environment of the model.

    ** The program's parts and the files that model them

    - The JavaScript the source uses. [JsString]: strings, [includes], [split],
      [parseInt], [Number], property lookup with inherited members. [JsNumber]:
      IEEE 754 binary64 numbers. [JsArray]: [slice], stable [sort], insertion
      ordered sets, pages of a list. [UrlCodec]: [encodeURIComponent],
      [decodeURIComponent], [URLSearchParams]. [Json]: [JSON.stringify].
    - [Vdom]: React elements as trees, the handlers a rendered tree exposes to
      a user, and pages as transition systems whose user steps are exactly
      those handlers and whose other steps are query results, timers and
      mutation outcomes. An open dialog can be dismissed ([onOpenChange] with
      false); a closed one can be opened by its trigger, when it has one.
      [page_invariant], [user_invariant] and [run_relation] are the
      induction rules of the page theorems.
    - [Endpoints] (lib/api/endpoints.ts), [ApiClient] (lib/api-client.ts), [Api]
      (lib/api/*.ts) and [ApiFacts]: the calls to the controller as state
      transformers over the requests sent and the server's state, throwing what
      the code throws.
    - [Auth] (lib/auth.ts, middleware.ts, components/refresh-error-guard.tsx):
      the NextAuth callbacks [jwt] and [session_callback], the route guard, and
      the component that forces a new sign-in.
    - [OrgContext] (lib/hooks/use-organization.ts, components/org-switcher.tsx):
      the current organization and its stored choice. [PollingHistory]
      (lib/hooks/use-polling-history.ts): a store of arrays with the aliasing
      that handing them out creates.
    - [Components]: the presentational components of ui/components; [Charts]:
      the data, labels and trees handed to the chart library. [DesignSystem]: the
      components of ui/components/ui as the elements they render, and [expand],
      which draws a page with them; [DesignFacts] and [DesignPages] compare the
      two drawings of every page.
    - [DevicesPage], [DevicesView], [DevicesFacts], [DevicesDelete]
      (app/(dashboard)/devices/page.tsx).
    - [Certificates], [CertificatesView], [CertificatesFacts]
      (app/(dashboard)/certificates/page.tsx).
    - [Terminal], [TerminalFacts] (devices/[id]/terminal/page.tsx): the
      asynchronous effect that opens a shell, as interleaved runs.
    - [DeviceLogs], [DeviceLogsFacts] (devices/[id]/logs/page.tsx),
      [ManifestEditor] (devices/[id]/manifest/page.tsx), [AuditLog],
      [AuditFacts] (audit/page.tsx).
    - [DeviceDetail], [DeviceDetailView], [DeviceDetailFacts]
      (devices/[id]/page.tsx): the tabs of a device, its label editor and its
      manifest editor.
    - [Settings], [SettingsView], [SettingsFacts], [SettingsFlows]
      (app/(dashboard)/settings/page.tsx): the organization form with its
      optimistic update, members, tokens and API keys with their dialogs.
    - [Dashboard], [DashboardFacts] (app/(dashboard)/dashboard/page.tsx).
      [Queries]: the cache keys of all pages and the calls behind them.
    - [Navigation], [NavigationFacts]: breadcrumbs, sidebar, command palette,
      user menu and the dashboard layout.
    - The entry pages: [SignIn] (app/auth/login/page.tsx, logo.tsx, navbar.tsx),
      [Landing] (app/page.tsx) with its client components [Marquee],
      [TerminalDemo] and [Discovery], [Terms] (app/terms/page.tsx), and
      [EntryFacts].
    - Around the pages: [Frame] (root layout, providers, toaster, icons, scroll
      effects), [SessionPolling] (the session a page holds between two fetches of
      the provider), [Routing] (next.config.ts: the rewrites, next to the route
      guard of the middleware).

    A page calls the API through the mutations and queries of a cache; the
    model shows the call as an effect of the handler and its outcome as a later
    step of the page. A page's state is a record with a field for every
    [useState] and for every query or mutation flag it reads; a handler is a
    constructor of its action type and a branch of its [_update] function; the
    JSX is its [_view].

    ** What the theorems show

    - Sessions: when a token is kept, renewed, marked or final; when a
      browser is sent to sign in again; that refresh tokens are never
      lost; that unauthenticated requests are redirected ([Auth]).
    - Remote terminal: at most one live socket, only for an allowed role and the
      current token and device; runs that were cleaned up are silent
      ([TerminalFacts]).
    - Certificates: the effective state of a request against its
      specification, clamped paging, and that clicks only change what is shown
      ([CertificatesFacts]).
    - Device list: filtering and stable sorting against their specification,
      paging, selection, what bulk delete sends and what a failure leaves
      ([DevicesFacts], [DevicesDelete]).
    - API: outcome of every call, headers, disjoint paths, and round trips of
      the query parameters through a server's parser ([ApiClient], [Endpoints],
      [ApiFacts], [DeviceLogsFacts]).
    - Settings: clicks only send what the page shows, a failed save puts the
      cached organization back, every open dialog can be left and dismissed ([SettingsFacts],
      [SettingsFlows]). Dashboard: the counters and charts against the fleet
      ([DashboardFacts]). Cache: queries that share a key make the same call,
      with one exception ([Queries]).
    - Design system: every component of ui/components/ui has the handlers of
      the tag it is drawn for, and drawing a page with the components changes
      neither its user steps nor its reachable states, so the theorems on pages
      of element tags hold for the drawn pages ([DesignPages]).
    - Entry pages: where signing in leads, that the landing redirect is final,
      that the marquee's loop ends and the demo plays to its end ([EntryFacts]).
    - Composition: which server a request reaches, with the endpoints, the
      guard and the rewrites together ([Routing]); how long a page can hold an
      expired token, with the provider, the callbacks and the HTTP client
      together ([SessionPolling]); the frame changes no page ([Frame]).
    - Device page: the label editor refines a finite map, whatever clicks and
      polls interleave ([DeviceDetailFacts]). Layout: it renders exactly the
      well-formed paths, against a specification of percent-encoded UTF-8 that
      does not mention the decoder ([well_encoded], [NavigationFacts]).
    - Organization, history, navigation, logs, audit log and editor: invariants
      and round trips in the files named above.
    - Where the code does not do what it means to, the theorem states what it
      does: [retry_stops_at_deleted], [page_goes_stale],
      [select_all_counts_hidden], [previous_can_do_nothing],
      [cert_key_collision], [level_filter_never_cleared],
      [action_filter_hides_other_actions], [layout_throws_on_percent],
      [edit_during_save_is_dropped], [socket_failure_shows_closed],
      [count_collision], [poll_drops_label_edits], [draft_survives_hidden],
      [dismissed_key_is_lost], [failed_save_shows_unsavable_name],
      [audit_log_key_is_shared], [requested_page_is_forgotten],
      [expired_certificate_counts], [lost_organization_is_kept],
      [typed_text_is_hidden].

    ** Modelling choices and their bounds

    - Strings are sequences of bytes (UTF-8). Concatenation, search, split and
      percent encoding agree with UTF-16 strings; case mapping, indexing and
      truncation are exact on ASCII.
    - Integers that stay within the safe range (ids, counts, page numbers,
      timestamps) are in [Z]; measured values are binary64.
    - Only [fill_row] needs fuel, because its loop need not end: 24 rounds are
      enough for a list that is not empty, as [marquee_row_terminates] shows. The
      other recursions are structural.
    - Parameters, because their code is not under src/: the server behind
      [fetch], the URL parser and the environment variables ([AuthEnv]),
      collation ([Locale]), class merging ([Styling], [Variants]), date formatting
      ([Dates]), [Math.hypot], the framework's router ([Router], assumed only
      to forward plain paths by the two rules, whatever their case).
      Each theorem that needs something of them says so in a hypothesis, and
      its witness has a concrete instance.
    - A rendered tree over-approximates what a user can do: both panels of a tab
      set and the content of a dropdown menu count as reachable; the content of
      a closed dialog and the handlers of a disabled control do not. A theorem
      about all user steps therefore holds for the real page.
      The events of a dialog are exact, so that a theorem that says a dialog
      can be closed says it of events that occur.
    - React applies state updates between events, so a handler is one step.

    ** What is not modelled

    The insides of libraries: the query cache, the primitives that the design
    system wraps, the chart and terminal libraries, next-auth and next-themes.
    What the viewport shows is reported by the environment. [SessionPolling]
    assumes that fetches of the session are answered: what a page holds after
    a failed one is up to next-auth. The controller (Java), the agent (Go) and
    the deployment files are other programs. *)

From stdpp Require Export base list strings gmap pretty.
From Stdlib Require Export Ascii String ZArith Lia.
From stdpp Require Export base list strings.

(** ** Scope and notations of the development *)

Declare Scope js_scope.
Delimit Scope js_scope with js.

(** [a +++ b] is JavaScript string concatenation; template literals are chains of it. *)
Notation "a +++ b" := (String.append a b) (at level 60, right associativity) : js_scope.
(** [s ==s t] is [===] on strings. *)
Notation "s ==s t" := (String.eqb s t) (at level 70, no associativity) : js_scope.
(** [o ?? d] is nullish coalescing on an optional value. *)
Notation "o ?? d" := (default d o) (at level 62, right associativity) : js_scope.

Open Scope Z_scope.
Open Scope js_scope.

(** ** Hint databases *)

Create HintDb js discriminated.
Create Rewrite HintDb js_rew.

(** ** Tactics shared by the components *)

(** Turns boolean tests in hypotheses and goal into propositions. *)
Ltac bool_to_prop :=
  repeat match goal with
  | H : (_ && _)%bool = true |- _ => apply andb_prop in H; destruct H
  | H : (_ || _)%bool = false |- _ => apply orb_false_elim in H; destruct H
  | H : negb _ = true |- _ => apply negb_true_iff in H
  | H : negb _ = false |- _ => apply negb_false_iff in H
  | H : String.eqb _ _ = true |- _ => apply String.eqb_eq in H
  | H : String.eqb _ _ = false |- _ => apply String.eqb_neq in H
  | H : (_ =? _)%Z = true |- _ => apply Z.eqb_eq in H
  | H : (_ =? _)%Z = false |- _ => apply Z.eqb_neq in H
  | H : (_ <? _)%Z = true |- _ => apply Z.ltb_lt in H
  | H : (_ <? _)%Z = false |- _ => apply Z.ltb_ge in H
  | H : (_ <=? _)%Z = true |- _ => apply Z.leb_le in H
  | H : (_ <=? _)%Z = false |- _ => apply Z.leb_gt in H
  end.

(** Case analysis on every conditional of the goal, keeping the tests as
    propositions. *)
Ltac case_if :=
  repeat (match goal with
  | |- context [if ?b then _ else _] => destruct b eqn:?
  end; bool_to_prop).

(** A concrete list without duplicates. *)
Ltac solve_nodup :=
  vm_compute;
  repeat (apply List.NoDup_cons; [simpl; intuition discriminate|]);
  apply List.NoDup_nil.

(** ** Results of operations that throw *)

(** A computation returns a value or throws. *)
Inductive result (E A : Type) : Type :=
| Ok (a : A)
| Throw (e : E).
Arguments Ok {E A} a.
Arguments Throw {E A} e.

Definition result_bind {E A B} (m : result E A) (k : A -> result E B) : result E B :=
  match m with Ok a => k a | Throw e => Throw e end.

(** ** Lists *)

Lemma concat_map_cons {A B} (f : A -> list B) x l :
  concat (map f (x :: l)) = f x ++ concat (map f l).
Proof. reflexivity. Qed.

Lemma concat_map_nil {A B} (f : A -> list B) l :
  (forall x, In x l -> f x = []) -> concat (map f l) = [].
Proof.
  induction l as [|x l IH]; intros Hf; simpl; [reflexivity|].
  rewrite (Hf x) by (left; reflexivity). apply IH. intros y Hy. apply Hf. by right.
Qed.

Lemma in_concat_map {A B} (f : A -> list B) l y :
  In y (concat (map f l)) <-> exists x, In x l /\ In y (f x).
Proof.
  rewrite in_concat. split.
  - intros (z & Hz & Hy). apply in_map_iff in Hz as (x & <- & Hx). eauto.
  - intros (x & Hx & Hy). exists (f x). split; [|exact Hy]. by apply in_map.
Qed.

Lemma existsb_false_forall {A} (p : A -> bool) l :
  existsb p l = false <-> forall x, In x l -> p x = false.
Proof.
  induction l as [|a l IH]; simpl; [split; [intros _ x []|reflexivity]|].
  rewrite orb_false_iff, IH. split.
  - intros [Ha Hl] x [<-|Hx]; auto.
  - intros H. split; [|intros x Hx]; apply H; auto.
Qed.

Lemma filter_all_true {A} (p : A -> bool) (l : list A) :
  (forall x, In x l -> p x = true) -> List.filter p l = l.
Proof.
  induction l as [|x l IH]; intros H; simpl; [reflexivity|].
  rewrite (H x) by (left; reflexivity). f_equal. apply IH. intros y Hy. apply H. by right.
Qed.

Lemma filter_filter_and {A} (p q : A -> bool) (l : list A) :
  List.filter p (List.filter q l) = List.filter (fun x => q x && p x)%bool l.
Proof.
  induction l as [|x l IH]; simpl; [reflexivity|].
  destruct (q x) eqn:Hq; simpl; [destruct (p x)|]; by rewrite IH.
Qed.

#[export] Hint Rewrite @in_concat_map @existsb_false_forall : js_rew.
