(* ===== verification/JsString.v ===== *)
(** * Strings of the JavaScript runtime

    A JavaScript string is a [string] holding its UTF-8 bytes. Equality,
    concatenation, [includes], [startsWith], [split] and [join] then agree with
    the UTF-16 semantics; case mapping and the operations that count characters
    ([slice], [charAt]) are exact on ASCII text. *)

From S2P Require Import Prelude.

(** ** Characters *)

Definition code (c : ascii) : Z := Z.of_N (N_of_ascii c).

Definition in_range (lo hi : Z) (c : ascii) : bool := (lo <=? code c) && (code c <=? hi).
Definition is_upper : ascii -> bool := in_range 65 90.
Definition is_lower : ascii -> bool := in_range 97 122.
Definition is_digit : ascii -> bool := in_range 48 57.
(** [\w] of a regular expression. *)
Definition is_word (c : ascii) : bool :=
  is_upper c || is_lower c || is_digit c || (code c =? 95).
Definition is_ascii (c : ascii) : bool := code c <? 128.

Definition lower_char (c : ascii) : ascii :=
  if is_upper c then ascii_of_N (N_of_ascii c + 32) else c.
Definition upper_char (c : ascii) : ascii :=
  if is_lower c then ascii_of_N (N_of_ascii c - 32) else c.

Fixpoint map_string (f : ascii -> ascii) (s : string) : string :=
  match s with
  | EmptyString => EmptyString
  | String c s' => String (f c) (map_string f s')
  end.
Definition toLowerCase : string -> string := map_string lower_char.
Definition toUpperCase : string -> string := map_string upper_char.

Fixpoint forall_chars (p : ascii -> bool) (s : string) : bool :=
  match s with
  | EmptyString => true
  | String c s' => p c && forall_chars p s'
  end.

(** ** Searching and slicing *)

(** A string is falsy exactly when it is empty. *)
(** A double quote. *)
Definition dquote : string := String (ascii_of_nat 34) EmptyString.

Definition truthy (s : string) : bool := negb (String.eqb s "").

Definition startsWith (s p : string) : bool := String.prefix p s.

Fixpoint includes (s sub : string) : bool :=
  String.prefix sub s
  || match s with
     | EmptyString => false
     | String _ s' => includes s' sub
     end.

Fixpoint has_char (c : ascii) (s : string) : bool :=
  match s with
  | EmptyString => false
  | String d s' => Ascii.eqb c d || has_char c s'
  end.

Fixpoint drop_string (n : nat) (s : string) : string :=
  match n, s with
  | O, _ => s
  | S n', String _ s' => drop_string n' s'
  | S _, EmptyString => EmptyString
  end.

Fixpoint take_string (n : nat) (s : string) : string :=
  match n, s with
  | O, _ => EmptyString
  | S n', String c s' => String c (take_string n' s')
  | S _, EmptyString => EmptyString
  end.

(** [s[0]] as a one-character string; [None] is [undefined]. *)
Definition first_char (s : string) : option string :=
  match s with
  | EmptyString => None
  | String c _ => Some (String c EmptyString)
  end.

(** ** [split] on a one-character separator, and [join] *)

Fixpoint split_char (c : ascii) (s : string) : list string :=
  match s with
  | EmptyString => [EmptyString]
  | String d s' =>
      if Ascii.eqb d c then EmptyString :: split_char c s'
      else match split_char c s' with
           | x :: xs => String d x :: xs
           | [] => [String d EmptyString]
           end
  end.

Fixpoint join (sep : string) (l : list string) : string :=
  match l with
  | [] => EmptyString
  | [x] => x
  | x :: xs => x +++ sep +++ join sep xs
  end.

(** ** Numbers and strings *)

(** [String(n)] for an integer within the safe range. *)
Definition number_to_string (n : Z) : string := pretty n.

Definition digit_value (c : ascii) : Z := code c - 48.

(** The longest prefix of decimal digits, accumulated from the left; [seen]
    tells whether one was read. *)
Fixpoint digits_prefix (seen : bool) (acc : Z) (s : string) : option Z :=
  match s with
  | String c s' =>
      if is_digit c then digits_prefix true (10 * acc + digit_value c) s'
      else if seen then Some acc else None
  | EmptyString => if seen then Some acc else None
  end.

Definition is_space (c : ascii) : bool := (code c =? 32) || in_range 9 13 c.

Fixpoint trim_start (s : string) : string :=
  match s with
  | String c s' => if is_space c then trim_start s' else s
  | EmptyString => EmptyString
  end.

(** [parseInt(s, 10)]; [None] is [NaN]. *)
Definition parseInt (s : string) : option Z :=
  match trim_start s with
  | String c s' =>
      if Ascii.eqb c "-" then Z.opp <$> digits_prefix false 0 s'
      else if Ascii.eqb c "+" then digits_prefix false 0 s'
      else digits_prefix false 0 (String c s')
  | EmptyString => None
  end.

(** ** Property lookup on an object literal

    [o[k]] on an object literal finds an own property, or one inherited from
    [Object.prototype], or nothing. *)

Inductive prop_lookup (A : Type) : Type :=
| Own (a : A)
| Inherited
| Undefined.
Arguments Own {A} a.
Arguments Inherited {A}.
Arguments Undefined {A}.

Definition object_prototype_keys : list string :=
  ["constructor"; "__defineGetter__"; "__defineSetter__"; "hasOwnProperty";
   "__lookupGetter__"; "__lookupSetter__"; "isPrototypeOf";
   "propertyIsEnumerable"; "toString"; "valueOf"; "__proto__"; "toLocaleString"].

Fixpoint assoc {A} (k : string) (o : list (string * A)) : option A :=
  match o with
  | [] => None
  | (k', a) :: o' => if String.eqb k k' then Some a else assoc k o'
  end.

Definition obj_get {A} (o : list (string * A)) (k : string) : prop_lookup A :=
  match assoc k o with
  | Some a => Own a
  | None => if existsb (String.eqb k) object_prototype_keys then Inherited else Undefined
  end.

(** ** Lemmas *)

Lemma truthy_false s : truthy s = false <-> s = "".
Proof. unfold truthy. rewrite negb_false_iff. apply String.eqb_eq. Qed.

Lemma truthy_true s : truthy s = true <-> s <> "".
Proof. unfold truthy. rewrite negb_true_iff. apply String.eqb_neq. Qed.

Lemma append_nil_r (s : string) : s +++ "" = s.
Proof. induction s as [|c s IH]; simpl; [reflexivity|]. unfold String.append in *. simpl. by rewrite IH. Qed.

Lemma append_cons c (s t : string) : String c s +++ t = String c (s +++ t).
Proof. reflexivity. Qed.

Lemma append_assoc (s t u : string) : (s +++ t) +++ u = s +++ (t +++ u).
Proof. induction s as [|c s IH]; [reflexivity|]. rewrite !append_cons. by rewrite IH. Qed.

Lemma string_length_append (s t : string) :
  String.length (s +++ t) = (String.length s + String.length t)%nat.
Proof. induction s as [|c s IH]; [done|]. rewrite append_cons. cbn [String.length]. by rewrite IH. Qed.

Lemma drop_string_app p s : drop_string (String.length p) (p +++ s) = s.
Proof. induction p as [|c p IH]; [by destruct s|]. exact IH. Qed.

Lemma append_inj_l (s t u : string) : s +++ t = s +++ u -> t = u.
Proof. induction s as [|c s IH]; [done|]. rewrite !append_cons. intros [=]. auto. Qed.

(** Concatenations agree up to a separator that neither prefix contains. *)
Lemma append_sep_inj c (s s' t t' : string) :
  has_char c s = false -> has_char c s' = false ->
  s +++ String c t = s' +++ String c t' -> s = s' /\ t = t'.
Proof.
  revert s'. induction s as [|d s IH]; intros [|d' s'] Hs Hs' Heq;
    rewrite ?append_cons in Heq; simpl in *.
  - by injection Heq as ->.
  - injection Heq as <- _. rewrite Ascii.eqb_refl in Hs'. discriminate.
  - injection Heq as -> _. rewrite Ascii.eqb_refl in Hs. discriminate.
  - bool_to_prop. injection Heq as -> Heq. destruct (IH s') as [-> ->]; auto.
Qed.

Lemma has_char_append c s t : has_char c (s +++ t) = has_char c s || has_char c t.
Proof. induction s as [|d s IH]; [reflexivity|]. rewrite append_cons. simpl. by rewrite IH, orb_assoc. Qed.

Lemma split_char_nonempty c s : split_char c s <> [].
Proof. induction s as [|d s IH]; simpl; [done|]. destruct (Ascii.eqb d c); [done|]. by destruct (split_char c s). Qed.

Lemma join_cons_cons c (x y : string) l :
  join (String c "") (x :: y :: l) = x +++ String c (join (String c "") (y :: l)).
Proof. reflexivity. Qed.

(** Splitting and joining on the same separator is the identity. *)
Lemma join_split c s : join (String c "") (split_char c s) = s.
Proof.
  induction s as [|d s IH]; [reflexivity|]. cbn [split_char].
  pose proof (split_char_nonempty c s) as Hne.
  destruct (Ascii.eqb d c) eqn:E.
  - apply Ascii.eqb_eq in E as ->. destruct (split_char c s) as [|x xs]; [done|].
    rewrite join_cons_cons. by rewrite IH.
  - destruct (split_char c s) as [|x [|y l]]; [done| |].
    + simpl in *. by rewrite IH.
    + rewrite join_cons_cons in *. rewrite append_cons. by rewrite IH.
Qed.

Lemma split_pieces_free c s : Forall (fun x => has_char c x = false) (split_char c s).
Proof.
  induction s as [|d s IH]; simpl; [by repeat constructor|].
  destruct (Ascii.eqb d c) eqn:E; [by constructor|].
  assert (Ascii.eqb c d = false) as E' by (by rewrite Ascii.eqb_sym).
  destruct IH as [|x xs Hx Hxs]; constructor; simpl; rewrite ?E'; auto.
Qed.

Lemma split_no_sep c s : has_char c s = false -> split_char c s = [s].
Proof.
  induction s as [|d s IH]; simpl; [done|]. intros H. bool_to_prop.
  rewrite Ascii.eqb_sym, H. by rewrite IH.
Qed.

Lemma split_app_sep c s t :
  has_char c s = false -> split_char c (s +++ String c t) = s :: split_char c t.
Proof.
  induction s as [|d s IH]; intros H; rewrite ?append_cons; simpl in *.
  - by rewrite Ascii.eqb_refl.
  - bool_to_prop. rewrite Ascii.eqb_sym, H. by rewrite IH.
Qed.

(** Joining pieces free of the separator, then splitting, gives them back. *)
Lemma split_join c l :
  l <> [] -> Forall (fun x => has_char c x = false) l ->
  split_char c (join (String c "") l) = l.
Proof.
  intros Hne Hl. induction Hl as [|x l Hx Hl IH]; [done|].
  destruct l as [|y l]; [by apply split_no_sep|].
  rewrite join_cons_cons, split_app_sep by done. f_equal. by apply IH.
Qed.

Lemma prefix_app p s : String.prefix p (p +++ s) = true.
Proof.
  induction p as [|c p IH]; [by destruct s|].
  rewrite append_cons. simpl. destruct (ascii_dec c c); [exact IH|done].
Qed.

Lemma prefix_exists p s : String.prefix p s = true <-> exists t, s = p +++ t.
Proof.
  split; [|by intros [t ->]; apply prefix_app].
  revert s. induction p as [|c p IH]; intros s H; [by exists s|].
  destruct s as [|d s]; simpl in H; [discriminate|].
  destruct (ascii_dec c d) as [->|]; [|discriminate].
  destruct (IH s H) as [t ->]. by exists t.
Qed.

(** [includes] holds exactly when the argument occurs as a substring. *)
Lemma includes_spec s sub :
  includes s sub = true <-> exists pre post, s = pre +++ sub +++ post.
Proof.
  split.
  - induction s as [|c s IH]; intros H; simpl in H.
    + rewrite orb_false_r in H. change (String.prefix sub "" = true) in H. apply prefix_exists in H as [t Ht]. by exists "", t.
    + apply orb_prop in H as [H|H].
      * change (String.prefix sub (String c s) = true) in H.
        apply prefix_exists in H as [t Ht]. by exists "", t.
      * destruct (IH H) as (pre & post & ->). exists (String c pre), post. reflexivity.
  - intros (pre & post & ->). induction pre as [|c pre IH].
    + change ("" +++ sub +++ post) with (sub +++ post).
      destruct (sub +++ post) eqn:E; cbn [includes]; rewrite <- E, prefix_app; reflexivity.
    + rewrite append_cons. cbn [includes]. rewrite IH. apply orb_true_r.
Qed.

(** ** Printed numbers *)

Lemma pretty_N_char_digit x : (x < 10)%N ->
  is_digit (pretty_N_char x) = true /\ digit_value (pretty_N_char x) = Z.of_N x.
Proof.
  intros H. assert (x = 0 \/ x = 1 \/ x = 2 \/ x = 3 \/ x = 4 \/ x = 5 \/ x = 6 \/ x = 7
    \/ x = 8 \/ x = 9)%N as Hx by lia.
  repeat destruct Hx as [->|Hx]; subst; by vm_compute.
Qed.

(** Induction on the decimal digits of a number. *)
Lemma N_digit_ind (P : N -> Prop) :
  P 0%N -> (forall x, (0 < x)%N -> P (x / 10)%N -> P x) -> forall x, P x.
Proof.
  intros H0 HS x. induction x as [x IH] using (well_founded_ind N.lt_wf_0).
  destruct (N.eq_0_gt_0_cases x) as [->|Hx]; [done|]. apply HS; [done|].
  apply IH. by apply N.div_lt.
Qed.

Lemma digits_pretty x : forall s, forall_chars is_digit (pretty_N_go x s) = forall_chars is_digit s.
Proof.
  induction x as [|x Hx IH] using N_digit_ind; intros s; [by rewrite pretty_N_go_0|].
  rewrite pretty_N_go_step by done. rewrite IH. cbn [forall_chars].
  by rewrite (proj1 (pretty_N_char_digit (x mod 10) ltac:(by apply N.mod_lt))).
Qed.

Lemma pretty_N_go_nonempty x s : (0 < x)%N \/ s <> "" -> pretty_N_go x s <> "".
Proof.
  revert s. induction x as [|x Hx IH] using N_digit_ind; intros s H.
  - rewrite pretty_N_go_0. destruct H as [H|H]; [lia|done].
  - rewrite pretty_N_go_step by done. apply IH. by right.
Qed.

Lemma digits_prefix_pretty x : exists k, forall seen acc s,
  digits_prefix seen acc (pretty_N_go x s) =
  digits_prefix (seen || (0 <? x)%N) (acc * 10 ^ Z.of_nat k + Z.of_N x) s.
Proof.
  induction x as [|x Hx [k IH]] using N_digit_ind.
  - exists O. intros. rewrite pretty_N_go_0. simpl. rewrite orb_false_r. f_equal. lia.
  - exists (S k). intros. rewrite pretty_N_go_step by done. rewrite IH. cbn [digits_prefix].
    destruct (pretty_N_char_digit (x mod 10) ltac:(by apply N.mod_lt)) as [-> ->].
    rewrite (proj2 (N.ltb_lt 0 x) Hx), orb_true_r. f_equal.
    rewrite Nat2Z.inj_succ, Z.pow_succ_r by lia.
    pose proof (N.div_mod x 10 ltac:(lia)) as Hd.
    rewrite Hd at 3. rewrite N2Z.inj_add, N2Z.inj_mul. lia.
Qed.

Lemma pretty_N_unfold x : pretty x = if (x =? 0)%N then "0" else pretty_N_go x "".
Proof.
  unfold pretty, pretty_N. destruct (N.eqb_spec x 0) as [->|H]; [done|].
  by rewrite decide_False.
Qed.

Lemma pretty_N_digits (x : N) : forall_chars is_digit (pretty x) = true.
Proof. rewrite pretty_N_unfold. destruct (x =? 0)%N; [done|]. by rewrite digits_pretty. Qed.

Lemma pretty_N_nonempty (x : N) : pretty x <> "".
Proof.
  rewrite pretty_N_unfold. destruct (N.eqb_spec x 0) as [->|H]; [done|].
  apply pretty_N_go_nonempty. lia.
Qed.

Lemma digits_prefix_N (x : N) : digits_prefix false 0 (pretty x) = Some (Z.of_N x).
Proof.
  rewrite pretty_N_unfold. destruct (N.eqb_spec x 0) as [->|H]; [done|].
  destruct (digits_prefix_pretty x) as [k Hk]. rewrite Hk. cbn [digits_prefix].
  rewrite (proj2 (N.ltb_lt 0 x)) by lia. simpl. f_equal.
Qed.

Lemma digit_head c s : forall_chars is_digit (String c s) = true ->
  is_space c = false /\ Ascii.eqb c "-" = false /\ Ascii.eqb c "+" = false.
Proof.
  intros H. cbn [forall_chars] in H. bool_to_prop. clear s H0. revert c H.
  intros [[] [] [] [] [] [] [] []]; vm_compute; done.
Qed.

Lemma number_to_string_nonneg n : 0 <= n -> number_to_string n = pretty (Z.to_N n).
Proof. by destruct n. Qed.

Lemma number_to_string_nonempty n : number_to_string n <> "".
Proof.
  destruct n; try done. change (number_to_string (Z.pos p)) with (pretty (N.pos p)).
  apply pretty_N_nonempty.
Qed.

(** [parseInt(String(n), 10)] is [n]. *)
Lemma parseInt_number_to_string n : parseInt (number_to_string n) = Some n.
Proof.
  assert (forall x : N, parseInt (pretty x) = Some (Z.of_N x)) as Hpos.
  { intros x. unfold parseInt. pose proof (pretty_N_digits x) as Hd.
    pose proof (digits_prefix_N x) as Hp.
    destruct (pretty x) as [|c s] eqn:E; [by apply pretty_N_nonempty in E|].
    destruct (digit_head c s Hd) as (H1 & H2 & H3). cbn [trim_start]. by rewrite H1, H2, H3. }
  destruct n as [|p|p]; [done|apply (Hpos (N.pos p))|].
  change (Z.opp <$> digits_prefix false 0 (pretty (N.pos p)) = Some (Z.neg p)).
  by rewrite digits_prefix_N.
Qed.

Lemma number_to_string_inj m n : number_to_string m = number_to_string n -> m = n.
Proof. intros H. apply (f_equal parseInt) in H. rewrite !parseInt_number_to_string in H. congruence. Qed.

Lemma forall_chars_has_char p c s :
  p c = false -> forall_chars p s = true -> has_char c s = false.
Proof.
  intros Hc. induction s as [|d s IH]; [done|]. cbn [forall_chars has_char]. intros H.
  bool_to_prop. rewrite IH by done. rewrite orb_false_r.
  destruct (Ascii.eqb c d) eqn:E; [|done]. apply Ascii.eqb_eq in E as ->. congruence.
Qed.

(** A printed number holds no character other than digits and the sign. *)
Lemma number_to_string_no_char c n :
  is_digit c = false -> Ascii.eqb c "-" = false -> has_char c (number_to_string n) = false.
Proof.
  intros Hc Hm. assert (forall x : N, has_char c (pretty x) = false) as Hpos.
  { intros x. eapply forall_chars_has_char; [exact Hc|apply pretty_N_digits]. }
  destruct n as [|p|p]; [by apply (Hpos 0%N)|apply (Hpos (N.pos p))|].
  change (number_to_string (Z.neg p)) with (String "-" (pretty (N.pos p))).
  cbn [has_char]. by rewrite Hm, Hpos.
Qed.

(** ** [Number] on decimal integers

    [Number(s)] for a string that is blank or a decimal integer with an optional
    sign; [None] is [NaN]. Other numeric literals (fractions, exponents,
    hexadecimal) are outside this definition and its callers. *)

Fixpoint trim_end (s : string) : string :=
  match s with
  | EmptyString => EmptyString
  | String c s' =>
      match trim_end s' with
      | EmptyString => if is_space c then EmptyString else String c EmptyString
      | t => String c t
      end
  end.

Definition digits_only (s : string) : option Z :=
  if truthy s && forall_chars is_digit s then digits_prefix false 0 s else None.

Definition js_Number (s : string) : option Z :=
  match trim_end (trim_start s) with
  | EmptyString => Some 0
  | String c s' =>
      if Ascii.eqb c "-" then Z.opp <$> digits_only s'
      else if Ascii.eqb c "+" then digits_only s'
      else digits_only (String c s')
  end.

Lemma digit_not_space c : is_digit c = true -> is_space c = false.
Proof. revert c. intros [[] [] [] [] [] [] [] []]; vm_compute; done. Qed.

Lemma trim_end_digits s : forall_chars is_digit s = true -> trim_end s = s.
Proof.
  induction s as [|c s IH]; [done|]. cbn [forall_chars trim_end]. intros H. bool_to_prop.
  rewrite IH by done. destruct s; [|done]. by rewrite digit_not_space.
Qed.

(** [Number(String(n))] is [n]. *)
Lemma js_Number_number_to_string n : js_Number (number_to_string n) = Some n.
Proof.
  assert (forall x : N, digits_only (pretty x) = Some (Z.of_N x)) as Hd.
  { intros x. unfold digits_only. rewrite pretty_N_digits, digits_prefix_N.
    by rewrite (proj2 (truthy_true _) (pretty_N_nonempty x)). }
  assert (forall x : N, js_Number (pretty x) = Some (Z.of_N x)) as Hpos.
  { intros x. unfold js_Number. pose proof (Hd x) as Hx. pose proof (pretty_N_digits x) as Hp.
    destruct (pretty x) as [|c s] eqn:E; [by apply pretty_N_nonempty in E|].
    destruct (digit_head c s Hp) as (H1 & H2 & H3). cbn [trim_start]. rewrite H1.
    rewrite (trim_end_digits _ Hp). by rewrite H2, H3. }
  destruct n as [|p|p]; [done|apply (Hpos (N.pos p))|].
  change (number_to_string (Z.neg p)) with (String "-" (pretty (N.pos p))).
  unfold js_Number. cbn [trim_start]. change (is_space "-") with false. cbn iota.
  cbn [trim_end]. rewrite (trim_end_digits _ (pretty_N_digits _)).
  pose proof (pretty_N_nonempty (N.pos p)) as Hne. pose proof (Hd (N.pos p)) as Hx.
  destruct (pretty (N.pos p)) as [|c s]; [done|]. cbn [Ascii.eqb Bool.eqb].
  simpl Ascii.eqb. cbn iota. by rewrite Hx.
Qed.
