(* ===== verification/JsNumber.v ===== *)
(** * Numbers of the JavaScript runtime

    A [number] is an IEEE 754 binary64 value, [spec_float] of the Standard
    Library with 53 bits of precision and exponent bound 1024. Indices, counts,
    byte sizes and ids are integers within the safe range and are [Z]. *)

From S2P Require Import Prelude JsString.
From Stdlib Require Import SpecFloat.

Definition number : Type := spec_float.

Definition num_of_Z (z : Z) : number := binary_normalize 53 1024 z 0 false.
Definition num_add : number -> number -> number := SFadd 53 1024.
Definition num_sub : number -> number -> number := SFsub 53 1024.
Definition num_mul : number -> number -> number := SFmul 53 1024.
Definition num_div : number -> number -> number := SFdiv 53 1024.
Definition num_lt : number -> number -> bool := SFltb.
Definition num_gt (x y : number) : bool := SFltb y x.

Definition isNaN (x : number) : bool := match x with S754_nan => true | _ => false end.

(** [x || 0]: [NaN] and the zeros are falsy. *)
Definition or_zero (x : number) : number :=
  match x with S754_nan | S754_zero _ => S754_zero false | _ => x end.

(** The integer nearest to a finite value, halves rounded up. *)
Definition round_half_up (s : bool) (m : positive) (e : Z) : Z :=
  let v := if s then Z.neg m else Z.pos m in
  if 0 <=? e then v * 2 ^ e else (2 * v + 2 ^ (- e)) / 2 ^ (- e + 1).

(** [Math.round(x)] *)
Definition math_round (x : number) : number :=
  match x with
  | S754_finite s m e =>
      let r := round_half_up s m e in
      if r =? 0 then S754_zero s else num_of_Z r
  | _ => x
  end.

(** The integer a number is, when it is one. *)
Definition number_to_Z (x : number) : option Z :=
  match x with
  | S754_zero _ => Some 0
  | S754_finite s m e =>
      let v := if s then Z.neg m else Z.pos m in
      if 0 <=? e then Some (v * 2 ^ e)
      else if v mod 2 ^ (- e) =? 0 then Some (v / 2 ^ (- e)) else None
  | _ => None
  end.

(** [String(x)] for a number that is an integer below [10^21], an infinity or
    [NaN]; the pages print no other number this way. *)
Definition integral_to_string (x : number) : string :=
  match x with
  | S754_nan => "NaN"
  | S754_infinity s => if s then "-Infinity" else "Infinity"
  | _ => match number_to_Z x with Some z => number_to_string z | None => "" end
  end.

(** ** [String(x)]

    The shortest decimal digits that read back as [x], as the language
    prescribes: [x] is [s * 10^(n - k)] with the least number [k] of digits. *)

(** The number nearest to [s * 10^p]. *)
Definition decimal_value (s : positive) (p : Z) : number :=
  if 0 <=? p then num_of_Z (Z.pos s * 10 ^ p)
  else num_div (S754_finite false s 0) (S754_finite false (Z.to_pos (10 ^ (- p))) 0).

(** The least [n] with [m * 2^e < 10^n]. *)
Definition decimal_exponent (m : positive) (e : Z) : Z :=
  let below n :=
    if (0 <=? n) && (0 <=? e) then Z.pos m * 2 ^ e <? 10 ^ n
    else if 0 <=? n then Z.pos m <? 10 ^ n * 2 ^ (- e)
    else Z.pos m * 10 ^ (- n) * 2 ^ (Z.max 0 e) <? 2 ^ (Z.max 0 (- e)) in
  let guess := (Z.log2 (Z.pos m) + e) * 30103 / 100000 - 1 in
  hd (guess + 3) (List.filter below [guess; guess + 1; guess + 2]).

(** The integer nearest to [m * 2^e * 10^p]. *)
Definition nearest_scaled (m : positive) (e p : Z) : Z :=
  let num := Z.pos m * 2 ^ Z.max 0 e * 10 ^ Z.max 0 p in
  let den := 2 ^ Z.max 0 (- e) * 10 ^ Z.max 0 (- p) in
  (2 * num + den) / (2 * den).

Definition same_number (x y : number) : bool :=
  match SFcompare x y with Some Eq => true | _ => false end.

(** The digits and the position of the point. *)
Definition shortest_digits (m : positive) (e : Z) : Z * Z * Z :=
  let n := decimal_exponent m e in
  let good k :=
    let s := nearest_scaled m e (k - n) in
    (10 ^ (k - 1) <=? s) && (s <? 10 ^ k)
    && same_number (decimal_value (Z.to_pos s) (n - k)) (S754_finite false m e) in
  let k := hd 17 (List.filter good (map Z.of_nat (seq 1 17))) in
  (nearest_scaled m e (k - n), k, n).

Definition zeros (n : Z) : string := join "" (repeat "0" (Z.to_nat n)).

Definition positive_text (m : positive) (e : Z) : string :=
  let '(s, k, n) := shortest_digits m e in
  let digits := number_to_string s in
  if (k <=? n) && (n <=? 21) then digits +++ zeros (n - k)
  else if (0 <? n) && (n <=? 21) then
    take_string (Z.to_nat n) digits +++ "." +++ drop_string (Z.to_nat n) digits
  else if (-6 <? n) && (n <=? 0) then "0." +++ zeros (- n) +++ digits
  else
    take_string 1 digits +++ (if k =? 1 then "" else "." +++ drop_string 1 digits)
    +++ "e" +++ (if n - 1 <? 0 then "-" else "+") +++ number_to_string (Z.abs (n - 1)).

Definition number_text (x : number) : string :=
  match x with
  | S754_nan => "NaN"
  | S754_infinity s => if s then "-Infinity" else "Infinity"
  | S754_zero _ => "0"
  | S754_finite s m e => (if s then "-" else "") +++ positive_text m e
  end.

Example number_texts :
  map number_text
    [num_of_Z 0; num_of_Z 42; num_of_Z (-1500); num_div (num_of_Z 3) (num_of_Z 2);
     num_add (num_div (num_of_Z 1) (num_of_Z 10)) (num_div (num_of_Z 2) (num_of_Z 10));
     num_div (num_of_Z 1) (num_of_Z 3); num_of_Z (10 ^ 21); num_of_Z (123 * 10 ^ 18);
     num_div (num_of_Z 1) (num_of_Z 100000); num_div (num_of_Z 15) (num_of_Z (10 ^ 8))]
  = ["0"; "42"; "-1500"; "1.5"; "0.30000000000000004"; "0.3333333333333333"; "1e+21";
     "123000000000000000000"; "0.00001"; "1.5e-7"].
Proof. reflexivity. Qed.

Definition digit_string (n : Z) : string := String (ascii_of_N (Z.to_N (48 + n))) EmptyString.

(** [x.toFixed(d)] for [d] of 0 or 1 and [|x| < 10^21]: the decimal nearest to
    the exact binary value, halves away from zero. *)
Definition to_fixed (d : Z) (x : number) : string :=
  match x with
  | S754_nan => "NaN"
  | S754_infinity s => if s then "-Infinity" else "Infinity"
  | S754_zero _ => if d =? 0 then "0" else "0.0"
  | S754_finite s m e =>
      let n := (if 0 <=? e then Z.pos m * 2 ^ e * 10 ^ d
                else (2 * Z.pos m * 10 ^ d + 2 ^ (- e)) / 2 ^ (- e + 1)) in
      (if s then "-" else "") +++
      (if d =? 0 then number_to_string n
       else number_to_string (n / 10) +++ "." +++ digit_string (n mod 10))
  end.

Example round_halves : map (fun z => math_round (num_div (num_of_Z z) (num_of_Z 2))) [1; 3; -1; -3]
  = [num_of_Z 1; num_of_Z 2; S754_zero true; num_of_Z (-1)].
Proof. reflexivity. Qed.

Example fixed_samples :
  map (to_fixed 1) [num_div (num_of_Z 1) (num_of_Z 3); num_of_Z 42; num_div (num_of_Z 9999) (num_of_Z 100)]
  = ["0.3"; "42.0"; "100.0"].
Proof. reflexivity. Qed.
