(* ===== verification/JsArray.v ===== *)
(** * Arrays and sets of the JavaScript runtime

    [Array.prototype.slice] with its relative indices, the stable
    [Array.prototype.sort], the insertion-ordered [Set], and the pagination
    arithmetic that the list pages share. *)

From S2P Require Import Prelude JsString.
From Stdlib Require Import Sorting.Permutation Sorting.Sorted.

(** ** [slice] *)

Definition zlength {A} (l : list A) : Z := Z.of_nat (length l).

(** A relative index: negative ones count from the end, all are clamped. *)
Definition relative_index (len i : Z) : Z :=
  if i <? 0 then Z.max (len + i) 0 else Z.min i len.

Definition slice {A} (l : list A) (start finish : Z) : list A :=
  let s := relative_index (zlength l) start in
  let e := relative_index (zlength l) finish in
  take (Z.to_nat (e - s)) (drop (Z.to_nat s) l).

(** ** Stable sorting *)

Fixpoint insert_by {A} (cmp : A -> A -> Z) (x : A) (l : list A) : list A :=
  match l with
  | [] => [x]
  | y :: l' => if cmp x y <=? 0 then x :: y :: l' else y :: insert_by cmp x l'
  end.

(** [[...l].sort(cmp)]; for a consistent comparator the specification of
    [sort] determines the result, see [sort_by_unique]. *)
Definition sort_by {A} (cmp : A -> A -> Z) (l : list A) : list A :=
  foldr (insert_by cmp) [] l.

(** The consistency the language asks of a comparator. *)
Class ConsistentCmp {A} (cmp : A -> A -> Z) : Prop := {
  cmp_sgn : forall x y, Z.sgn (cmp x y) = - Z.sgn (cmp y x);
  cmp_trans : forall x y z, cmp x y <= 0 -> cmp y z <= 0 -> cmp x z <= 0
}.

(** The default order of [sort()]: by code units. *)
Definition string_cmp (a b : string) : Z :=
  match String.compare a b with Lt => -1 | Eq => 0 | Gt => 1 end.

(** ** Insertion-ordered sets of strings *)

Definition set_has (x : string) (s : list string) : bool := existsb (String.eqb x) s.
Definition set_add (x : string) (s : list string) : list string :=
  if set_has x s then s else s ++ [x].
Definition set_delete (x : string) (s : list string) : list string :=
  List.filter (fun y => negb (String.eqb x y)) s.
(** [new Set(l)] *)
Definition set_of_list (l : list string) : list string :=
  fold_left (fun s x => set_add x s) l [].

(** ** Pagination arithmetic *)

(** [Math.ceil(n / size)] for a positive [size]. *)
Definition total_pages (n size : Z) : Z := - ((- n) / size).

(** [l.slice(page * size, (page + 1) * size)] *)
Definition page_slice {A} (l : list A) (page size : Z) : list A :=
  slice l (page * size) ((page + 1) * size).

(** ** Lemmas: slices *)

Lemma zlength_nonneg {A} (l : list A) : 0 <= zlength l.
Proof. unfold zlength. lia. Qed.

Lemma zlength_pos {A} (l : list A) : l <> [] -> 0 < zlength l.
Proof. unfold zlength. destruct l; cbn [length]; [done|lia]. Qed.

Lemma zlength_zero {A} (l : list A) : zlength l = 0 <-> l = [].
Proof. unfold zlength. destruct l; simpl; split; intros; try done; lia. Qed.

Lemma slice_nonneg {A} (l : list A) s e :
  0 <= s <= e -> slice l s e = take (Z.to_nat (e - s)) (drop (Z.to_nat s) l).
Proof.
  intros [Hs He]. unfold slice, relative_index, zlength.
  rewrite (proj2 (Z.ltb_ge s 0)), (proj2 (Z.ltb_ge e 0)) by lia.
  destruct (Z.le_gt_cases s (Z.of_nat (length l))) as [Hle|Hgt].
  - rewrite (Z.min_l s) by lia.
    destruct (Z.le_gt_cases e (Z.of_nat (length l))) as [Hle'|Hgt'].
    + by rewrite (Z.min_l e) by lia.
    + rewrite (Z.min_r e) by lia. rewrite !take_ge; [done| |]; rewrite length_drop; lia.
  - rewrite !Z.min_r by lia. rewrite !drop_ge by lia. by rewrite !take_nil.
Qed.

Lemma page_slice_spec {A} (l : list A) p size :
  0 <= p -> 0 <= size ->
  page_slice l p size = take (Z.to_nat size) (drop (Z.to_nat (p * size)) l).
Proof.
  intros Hp Hs. unfold page_slice. rewrite slice_nonneg by nia. f_equal. lia.
Qed.

Lemma page_slice_length {A} (l : list A) p size :
  0 <= p -> 0 <= size ->
  zlength (page_slice l p size) = Z.max 0 (Z.min size (zlength l - p * size)).
Proof.
  intros Hp Hs. rewrite page_slice_spec by done.
  unfold zlength. rewrite length_take, length_drop. nia.
Qed.

Lemma page_slice_incl {A} (l : list A) p size x :
  0 <= p -> 0 <= size -> In x (page_slice l p size) -> In x l.
Proof.
  intros Hp Hs. rewrite page_slice_spec by done. intros H.
  set (n := Z.to_nat (p * size)) in *.
  rewrite <- (take_drop n l), in_app_iff. right.
  rewrite <- (take_drop (Z.to_nat size) (drop n l)), in_app_iff. by left.
Qed.

Lemma total_pages_bounds n size :
  0 < size -> n <= total_pages n size * size < n + size.
Proof. intros Hs. unfold total_pages. pose proof (Z.div_mod (- n) size ltac:(lia)).
  pose proof (Z.mod_pos_bound (- n) size Hs). nia. Qed.

(** A page is inside the range exactly when it starts before the end. *)
Lemma page_in_range n size p :
  0 < size -> (p < total_pages n size <-> p * size < n).
Proof. intros Hs. pose proof (total_pages_bounds n size Hs). split; intros; nia. Qed.

Lemma total_pages_pos n size : 0 < size -> 0 < n -> 0 < total_pages n size.
Proof. intros Hs Hn. apply page_in_range; lia. Qed.

Lemma total_pages_zero size : 0 < size -> total_pages 0 size = 0.
Proof. intros. unfold total_pages. by rewrite Z.div_0_l by lia. Qed.

(** A page of a paginated list is empty exactly when it is out of range. *)
Lemma page_slice_empty {A} (l : list A) p size :
  0 <= p -> 0 < size ->
  (page_slice l p size = [] <-> total_pages (zlength l) size <= p).
Proof.
  intros Hp Hs. rewrite <- zlength_zero, page_slice_length by lia.
  pose proof (page_in_range (zlength l) size p Hs). split; intros; nia.
Qed.

Lemma take_pages {A} (l : list A) size n :
  0 <= size ->
  concat (map (fun p => page_slice l (Z.of_nat p) size) (seq 0 n)) =
  take (n * Z.to_nat size) l.
Proof.
  intros Hs. induction n as [|n IH]; [done|].
  rewrite seq_S, map_app, concat_app, IH. cbn [map concat].
  rewrite app_nil_r, page_slice_spec by lia.
  replace (Z.to_nat (Z.of_nat (0 + n) * size)) with (n * Z.to_nat size)%nat by lia.
  replace (S n * Z.to_nat size)%nat with (n * Z.to_nat size + Z.to_nat size)%nat by lia.
  apply take_take_drop.
Qed.

(** The pages of a list, one after the other, are the list. *)
Lemma pages_partition {A} (l : list A) size :
  0 < size ->
  concat (map (fun p => page_slice l (Z.of_nat p) size)
              (seq 0 (Z.to_nat (total_pages (zlength l) size)))) = l.
Proof.
  intros Hs. rewrite take_pages by lia. apply take_ge.
  pose proof (total_pages_bounds (zlength l) size Hs). unfold zlength in *. nia.
Qed.

(** ** Lemmas: sorting *)

Lemma insert_by_perm {A} (cmp : A -> A -> Z) x l : Permutation (insert_by cmp x l) (x :: l).
Proof.
  induction l as [|y l IH]; simpl; [done|]. destruct (cmp x y <=? 0); [done|].
  rewrite IH. by apply perm_swap.
Qed.

Lemma sort_by_perm {A} (cmp : A -> A -> Z) l : Permutation (sort_by cmp l) l.
Proof. induction l as [|x l IH]; simpl; [done|]. rewrite insert_by_perm. by constructor. Qed.

Lemma sort_by_length {A} (cmp : A -> A -> Z) l : length (sort_by cmp l) = length l.
Proof. apply Permutation_length, sort_by_perm. Qed.

Section consistent.
Context {A : Type} (cmp : A -> A -> Z) `{!ConsistentCmp cmp}.

Let le x y := cmp x y <= 0.

Lemma cmp_refl x : cmp x x = 0.
Proof. pose proof (cmp_sgn x x). pose proof (Z.sgn_spec (cmp x x)). lia. Qed.

Lemma cmp_flip x y : cmp x y <= 0 <-> 0 <= cmp y x.
Proof.
  pose proof (cmp_sgn x y). pose proof (Z.sgn_spec (cmp x y)).
  pose proof (Z.sgn_spec (cmp y x)). lia.
Qed.

Lemma cmp_eq_flip x y : cmp x y = 0 <-> cmp y x = 0.
Proof.
  pose proof (cmp_sgn x y). pose proof (Z.sgn_spec (cmp x y)).
  pose proof (Z.sgn_spec (cmp y x)). lia.
Qed.

(** Elements equal to [x] compare alike with everything. *)
Lemma cmp_eq_trans x y z : cmp x y = 0 -> (cmp x z = 0 <-> cmp y z = 0).
Proof.
  intros Hxy. pose proof (proj1 (cmp_eq_flip x y) Hxy) as Hyx.
  assert (forall a b c, cmp a b = 0 -> cmp b a = 0 -> cmp a c = 0 -> cmp b c = 0) as Haux.
  { intros a b c Hab Hba Hac. pose proof (proj1 (cmp_eq_flip a c) Hac).
    pose proof (cmp_trans (cmp:=cmp) b a c ltac:(lia) ltac:(lia)).
    pose proof (cmp_trans (cmp:=cmp) c a b ltac:(lia) ltac:(lia)) as Hcb.
    apply cmp_flip in Hcb. lia. }
  split; intros; eapply Haux; eassumption.
Qed.

Lemma insert_by_sorted x l :
  StronglySorted le l -> StronglySorted le (insert_by cmp x l).
Proof.
  induction 1 as [|y l Hl IH Hy]; simpl; [by repeat constructor|].
  destruct (cmp x y <=? 0) eqn:E; bool_to_prop.
  - constructor; [by constructor|]. constructor; [exact E|].
    eapply Forall_impl; [exact Hy|]. intros z Hz. eapply cmp_trans; eassumption.
  - constructor; [exact IH|]. apply List.Forall_forall. intros z Hz.
    apply (Permutation_in _ (insert_by_perm cmp x l)) in Hz as [<-|Hz].
    + apply cmp_flip. lia.
    + by apply (proj1 (List.Forall_forall _ _) Hy).
Qed.

Lemma sort_by_sorted l : StronglySorted le (sort_by cmp l).
Proof. induction l as [|x l IH]; simpl; [constructor|]. by apply insert_by_sorted. Qed.

Definition tied (x y : A) : bool := cmp x y =? 0.

Lemma insert_by_stable z x l :
  StronglySorted le l ->
  List.filter (tied z) (insert_by cmp x l) = List.filter (tied z) (x :: l).
Proof.
  induction 1 as [|y l Hl IH Hy]; [done|]. cbn [insert_by].
  destruct (cmp x y <=? 0) eqn:E; [done|]. bool_to_prop.
  cbn [List.filter] in *. rewrite IH.
  destruct (tied z x) eqn:Ex, (tied z y) eqn:Ey; try done.
  exfalso. unfold tied in *. bool_to_prop.
  apply cmp_eq_flip in Ex. pose proof (cmp_trans (cmp:=cmp) x z y ltac:(lia) ltac:(lia)). lia.
Qed.

(** Elements that compare equal keep their order. *)
Lemma sort_by_stable z l :
  List.filter (tied z) (sort_by cmp l) = List.filter (tied z) l.
Proof.
  induction l as [|x l IH]; [done|]. cbn [sort_by foldr].
  rewrite insert_by_stable by apply sort_by_sorted.
  cbn [List.filter]. by rewrite <- IH.
Qed.

Lemma tied_refl x : tied x x = true.
Proof. unfold tied. rewrite cmp_refl. done. Qed.

Lemma sorted_stable_unique l1 l2 :
  StronglySorted le l1 -> StronglySorted le l2 ->
  (forall z, List.filter (tied z) l1 = List.filter (tied z) l2) -> l1 = l2.
Proof.
  intros Hs1. revert l2. induction Hs1 as [|x l1 Hs1 IH Hx]; intros l2 Hs2 Hf.
  - destruct l2 as [|y l2]; [done|]. specialize (Hf y). cbn [List.filter] in Hf.
    by rewrite tied_refl in Hf.
  - destruct Hs2 as [|y l2 Hs2 Hy].
    { specialize (Hf x). cbn [List.filter] in Hf. by rewrite tied_refl in Hf. }
    assert (forall a b k k', Forall (le a) k -> StronglySorted le k' -> Forall (le b) k' ->
      List.filter (tied a) (a :: k) = List.filter (tied a) (b :: k') -> le b a) as Hle.
    { intros a b k k' _ _ Hb Heq. assert (In a (b :: k')) as [->|Hin].
      { apply (proj1 (filter_In (tied a) a (b :: k'))). rewrite <- Heq. cbn [List.filter].
        rewrite tied_refl. by left. }
      - unfold le. rewrite cmp_refl. lia.
      - by apply (proj1 (List.Forall_forall _ _) Hb). }
    assert (tied x y = true) as Hxy.
    { pose proof (Hle x y l1 l2 Hx Hs2 Hy (Hf x)) as H1.
      pose proof (Hle y x l2 l1 Hy Hs1 Hx (eq_sym (Hf y))) as H2.
      unfold tied. apply Z.eqb_eq. unfold le in *. apply cmp_flip in H1. lia. }
    assert (x = y) as <-.
    { specialize (Hf x). cbn [List.filter] in Hf. rewrite tied_refl, Hxy in Hf. by injection Hf. }
    f_equal. apply IH; [done|]. intros z. specialize (Hf z). cbn [List.filter] in Hf.
    destruct (tied z x); [by injection Hf|done].
Qed.

(** Any stable sort returns the list that [sort_by] returns. *)
Lemma sort_by_unique l l' :
  StronglySorted le l' ->
  (forall z, List.filter (tied z) l' = List.filter (tied z) l) ->
  l' = sort_by cmp l.
Proof.
  intros Hs Hf. apply sorted_stable_unique; [done|apply sort_by_sorted|].
  intros z. by rewrite sort_by_stable.
Qed.
End consistent.

(** The reverse of a consistent comparator is consistent. *)
#[export] Instance neg_cmp_consistent {A} (cmp : A -> A -> Z) :
  ConsistentCmp cmp -> ConsistentCmp (fun x y => - cmp x y).
Proof.
  intros H. split.
  - intros x y. rewrite !Z.sgn_opp. f_equal. apply cmp_sgn.
  - intros x y z Hxy Hyz.
    pose proof (cmp_trans z y x) as Ht. rewrite !(cmp_flip cmp) in Ht. lia.
Qed.

(** A comparator read off a key is consistent. *)
#[export] Instance key_cmp_consistent {A B} (cmp : B -> B -> Z) (key : A -> B) :
  ConsistentCmp cmp -> ConsistentCmp (fun x y => cmp (key x) (key y)).
Proof. intros [H1 H2]. split; eauto. Qed.

#[export] Instance string_cmp_consistent : ConsistentCmp string_cmp.
Proof.
  split.
  - intros x y. unfold string_cmp. rewrite String.compare_antisym.
    by destruct (String.compare y x).
  - assert (forall x y, string_cmp x y <= 0 <-> String.le x y) as Hle.
    { intros x y. unfold string_cmp, String.le, String.leb.
      destruct (String.compare x y); split; intros; try done; lia. }
    intros x y z. rewrite !Hle. intros. by trans y.
Qed.

(** ** Lemmas: ordered sets *)

Lemma set_has_In x s : set_has x s = true <-> In x s.
Proof.
  unfold set_has. rewrite existsb_exists. split.
  - intros (y & Hy & E). apply String.eqb_eq in E as ->. done.
  - intros H. exists x. split; [done|apply String.eqb_refl].
Qed.

Lemma set_has_false x s : set_has x s = false <-> ~ In x s.
Proof. rewrite <- set_has_In. by destruct (set_has x s). Qed.

Lemma set_add_In x y s : In y (set_add x s) <-> y = x \/ In y s.
Proof.
  unfold set_add. destruct (set_has x s) eqn:E.
  - apply set_has_In in E. split; [by right|]. by intros [->|].
  - rewrite in_app_iff. simpl. firstorder.
Qed.

Lemma set_delete_In x y s : In y (set_delete x s) <-> y <> x /\ In y s.
Proof.
  unfold set_delete. rewrite filter_In, negb_true_iff, String.eqb_neq. firstorder.
Qed.

Lemma set_add_NoDup x s : List.NoDup s -> List.NoDup (set_add x s).
Proof.
  unfold set_add. destruct (set_has x s) eqn:E; [done|]. intros H.
  apply set_has_false in E. apply List.NoDup_app; [done|repeat constructor; auto|].
  by intros y Hy [<-|[]].
Qed.

Lemma set_delete_NoDup x s : List.NoDup s -> List.NoDup (set_delete x s).
Proof. apply List.NoDup_filter. Qed.

Lemma fold_set_add l s :
  (List.NoDup s -> List.NoDup (fold_left (fun s x => set_add x s) l s)) /\
  (forall y, In y (fold_left (fun s x => set_add x s) l s) <-> In y s \/ In y l).
Proof.
  revert s. induction l as [|x l IH]; intros s; cbn [fold_left].
  - split; [done|]. intros y. simpl. tauto.
  - destruct (IH (set_add x s)) as [Hn Hi]. split.
    + intros H. by apply Hn, set_add_NoDup.
    + intros y. rewrite Hi, set_add_In. simpl. split; intros; intuition (subst; auto).
Qed.

Lemma set_of_list_NoDup l : List.NoDup (set_of_list l).
Proof. apply fold_set_add. constructor. Qed.

Lemma set_of_list_In l y : In y (set_of_list l) <-> In y l.
Proof. unfold set_of_list. rewrite (proj2 (fold_set_add l [])). simpl. tauto. Qed.

Lemma set_of_list_id l : List.NoDup l -> set_of_list l = l.
Proof.
  unfold set_of_list. change l with ([] ++ l) at 1 3. generalize (@nil string) as s.
  induction l as [|x l IH]; intros s Hd; cbn [fold_left]; [by rewrite app_nil_r|].
  assert (~ In x s) as Hx.
  { intros Hin. apply List.NoDup_remove_2 in Hd. apply Hd, in_app_iff. by left. }
  unfold set_add at 2. rewrite (proj2 (set_has_false x s) Hx).
  rewrite (IH (s ++ [x])); rewrite <- app_assoc; done.
Qed.

#[export] Hint Resolve set_add_NoDup set_delete_NoDup set_of_list_NoDup : js.
