(* ===== verification/Vdom.v ===== *)
(** * React elements, and pages as transition systems

    A component's render function returns a tree of React elements; [node A] is
    that tree, with [A] the actions its event handlers perform. [events] reads
    off the tree which handlers a user can trigger: the handlers of a disabled
    control cannot fire, a closed dialog renders no content, an open dialog only
    asks to be closed, and a [Select] or [Tabs] only reports the value of one of
    its items. A page is then a
    transition system whose user steps are the handlers that its current
    rendering exposes. *)

From S2P Require Import Prelude JsString JsNumber.

(** ** Element trees *)

(** Array and object values of attributes. *)
#[warnings="-register-all"]
Inductive prop_value :=
| DStr (s : string)
| DInt (z : Z)
| DNum (x : number)
| DArr (l : list prop_value)
| DObj (l : list (string * prop_value)).

(** [Txt] is a text child, [Frag] an array or fragment of children ([Frag []]
    is [null]), [Elt] an element of a host or library component. Attribute
    [AOnStop] is a handler that only stops the propagation of the event;
    [AFormat] is a function the component calls with a name and a value to
    get a text. *)
#[warnings="-register-all"]
Inductive node (A : Type) : Type :=
| Txt (s : string)
| Frag (l : list (node A))
| Elt (tag : string) (attrs : list (attr A)) (kids : list (node A))
with attr (A : Type) : Type :=
| AStr (k v : string)
| ANum (k : string) (z : Z)
| ABool (k : string) (b : bool)
| AOn (k : string) (a : A)
| AOnStr (k : string) (f : string -> A)
| AOnBool (k : string) (f : bool -> A)
| AOnStop (k : string)
| AProp (k : string) (v : prop_value)
| AFormat (k : string) (f : string -> number -> string)
| ANode (k : string) (n : node A).
Arguments Txt {A} s.
Arguments Frag {A} l.
Arguments Elt {A} tag attrs kids.
Arguments AStr {A} k v.
Arguments ANum {A} k z.
Arguments ABool {A} k b.
Arguments AOn {A} k a.
Arguments AOnStr {A} k f.
Arguments AOnBool {A} k f.
Arguments AOnStop {A} k.
Arguments AProp {A} k v.
Arguments AFormat {A} k f.
Arguments ANode {A} k n.

Definition Nothing {A} : node A := Frag [].
(** [c && n] as a child. *)
Definition when {A} (c : bool) (n : node A) : node A := if c then n else Nothing.
(** The attribute most elements carry. *)
Definition cls {A} (s : string) : attr A := AStr "className" s.
(** An icon or another childless element. *)
Definition icon {A} (tag c : string) : node A := Elt tag [cls c] [].
(** [Array.from({ length: n }).map(f)] *)
Definition array_from {A} (n : nat) (f : Z -> node A) : node A :=
  Frag (map (fun i => f (Z.of_nat i)) (seq 0 n)).

(** ** Handlers a user can trigger *)

Inductive ui_event (A : Type) : Type :=
| EvUnit (a : A)
| EvStr (f : string -> A)
| EvChoice (f : string -> A) (choices : list string)
| EvBool (f : bool -> A).
Arguments EvUnit {A} a.
Arguments EvStr {A} f.
Arguments EvChoice {A} f choices.
Arguments EvBool {A} f.

(** The actions an event can perform. *)
Definition emits {A} (e : ui_event A) (a : A) : Prop :=
  match e with
  | EvUnit a0 => a = a0
  | EvStr f => exists s, a = f s
  | EvChoice f cs => exists s, In s cs /\ a = f s
  | EvBool f => exists b, a = f b
  end.

Definition attr_is (k : string) (b : bool) {A} (a : attr A) : bool :=
  match a with ABool k' b' => String.eqb k k' && Bool.eqb b b' | _ => false end.
Definition has_attr (k : string) (b : bool) {A} (l : list (attr A)) : bool :=
  existsb (attr_is k b) l.

(** Tags of the pages, and of the primitives that render them. *)
Definition choice_tag (tag : string) : bool :=
  String.eqb tag "SelectItem" || String.eqb tag "TabsTrigger"
  || String.eqb tag "SelectPrimitive.Item" || String.eqb tag "TabsPrimitive.Trigger".
Definition dialog_tag (tag : string) : bool :=
  String.eqb tag "Dialog" || String.eqb tag "AlertDialog" || String.eqb tag "Sheet"
  || String.eqb tag "DialogPrimitive.Root" || String.eqb tag "AlertDialogPrimitive.Root"
  || String.eqb tag "SheetPrimitive.Root".
Definition content_tag (tag : string) : bool :=
  String.eqb tag "DialogContent" || String.eqb tag "AlertDialogContent"
  || String.eqb tag "SheetContent" || String.eqb tag "DialogPrimitive.Content"
  || String.eqb tag "AlertDialogPrimitive.Content" || String.eqb tag "SheetPrimitive.Content".

Definition attr_value {A} (l : list (attr A)) : list string :=
  flat_map (fun a => match a with
                     | AStr k v => if String.eqb k "value" then [v] else []
                     | _ => []
                     end) l.

(** The values of the items below an element. *)
Fixpoint choices {A} (n : node A) : list string :=
  match n with
  | Txt _ => []
  | Frag l => concat (map choices l)
  | Elt tag attrs kids =>
      (if choice_tag tag then attr_value attrs else []) ++ concat (map choices kids)
  end.

(** The elements that open the dialog around them. *)
Definition trigger_tag (tag : string) : bool :=
  String.eqb tag "DialogTrigger" || String.eqb tag "AlertDialogTrigger" || String.eqb tag "SheetTrigger"
  || String.eqb tag "DialogPrimitive.Trigger" || String.eqb tag "AlertDialogPrimitive.Trigger"
  || String.eqb tag "SheetPrimitive.Trigger".
Fixpoint triggers {A} (n : node A) : bool :=
  match n with
  | Txt _ => false
  | Frag l => existsb triggers l
  | Elt tag _ kids => trigger_tag tag || existsb triggers kids
  end.

(** What a dialog can ask of its [onOpenChange]: an open one to be closed (with
    Escape, a click outside, or the Close and Cancel buttons inside it), a closed
    one to be opened, if it has a trigger. [None] for other elements. *)
Definition dialog_moves {A} (tag : string) (attrs : list (attr A)) (kids : list (node A))
    : option (list bool) :=
  if dialog_tag tag then
    Some (if has_attr "open" false attrs then (if existsb triggers kids then [true] else [])
          else if has_attr "open" true attrs then [false] else [false; true])
  else None.

Definition own_event {A} (moves : option (list bool)) (cs : list string) (a : attr A)
    : list (ui_event A) :=
  match a with
  | AOn _ x => [EvUnit x]
  | AOnStr k f => if String.eqb k "onValueChange" then [EvChoice f cs] else [EvStr f]
  | AOnBool _ f => match moves with Some l => map (fun b => EvUnit (f b)) l | None => [EvBool f] end
  | _ => []
  end.

Definition own_events {A} (moves : option (list bool)) (cs : list string) (attrs : list (attr A))
    : list (ui_event A) :=
  if has_attr "disabled" true attrs then [] else concat (map (own_event moves cs) attrs).

(** [events opened n]: the handlers of [n]; [opened] tells whether the nearest
    enclosing dialog is open. *)
Fixpoint events {A} (opened : bool) (n : node A) : list (ui_event A) :=
  match n with
  | Txt _ => []
  | Frag l => concat (map (events opened) l)
  | Elt tag attrs kids =>
      own_events (dialog_moves tag attrs kids) (concat (map choices kids)) attrs
      ++ concat (map (fun a => match a with ANode _ m => events opened m | _ => [] end) attrs)
      ++ (if content_tag tag && negb opened then []
          else let opened' := if dialog_tag tag
                              then negb (has_attr "open" false attrs) else opened in
               concat (map (events opened') kids))
  end.

(** [fires n a]: a user can make the rendered tree [n] perform [a]. *)
Definition fires {A} (n : node A) (a : A) : Prop :=
  exists e, In e (events true n) /\ emits e a.

(** All texts of a tree, in order. *)
Fixpoint texts {A} (n : node A) : list string :=
  match n with
  | Txt s => [s]
  | Frag l => concat (map texts l)
  | Elt _ _ kids => concat (map texts kids)
  end.

Definition attr_href {A} (l : list (attr A)) : list string :=
  flat_map (fun a => match a with
                     | AStr k v => if String.eqb k "href" then [v] else []
                     | _ => []
                     end) l.

(** The destinations of the links of a tree. *)
Fixpoint links {A} (n : node A) : list string :=
  match n with
  | Txt _ => []
  | Frag l => concat (map links l)
  | Elt tag attrs kids =>
      (if String.eqb tag "Link" then attr_href attrs else [])
      ++ concat (map links kids)
  end.

(** The targets of the plain anchors of a tree. *)
Fixpoint hrefs {A} (n : node A) : list string :=
  match n with
  | Txt _ => []
  | Frag l => concat (map hrefs l)
  | Elt tag attrs kids =>
      (if String.eqb tag "a" then attr_href attrs else [])
      ++ concat (map hrefs kids)
  end.

(** ** Pages as transition systems *)

Record page (St Act Eff : Type) : Type := {
  page_init : St -> Prop;
  page_view : St -> node Act;
  page_update : St -> Act -> St * list Eff;
  (** steps the user does not take: query results, timers, completions *)
  page_extern : St -> Act -> Prop
}.
Arguments page_init {St Act Eff} p s.
Arguments page_view {St Act Eff} p s.
Arguments page_update {St Act Eff} p s a.
Arguments page_extern {St Act Eff} p s a.

Section pages.
Context {St Act Eff : Type} (p : page St Act Eff).

Inductive page_step : St -> Act -> St -> Prop :=
| step_user s a : fires (page_view p s) a -> page_step s a (fst (page_update p s a))
| step_extern s a : page_extern p s a -> page_step s a (fst (page_update p s a)).

Inductive page_reachable : St -> Prop :=
| reach_init s : page_init p s -> page_reachable s
| reach_step s a s' : page_reachable s -> page_step s a s' -> page_reachable s'.

(** The steps of a run, by whoever takes them. *)
Inductive page_run : St -> list Act -> St -> Prop :=
| run_nil s : page_run s [] s
| run_cons s a s' l s'' : page_step s a s' -> page_run s' l s'' -> page_run s (a :: l) s''.

(** States reached by user steps alone. *)
Inductive user_steps : St -> St -> Prop :=
| user_refl s : user_steps s s
| user_step s a s' :
    fires (page_view p s) a -> user_steps (fst (page_update p s a)) s' -> user_steps s s'.

(** The invariant rule. *)
Lemma page_invariant (I : St -> Prop) :
  (forall s, page_init p s -> I s) ->
  (forall s a, I s -> fires (page_view p s) a \/ page_extern p s a ->
               I (fst (page_update p s a))) ->
  forall s, page_reachable s -> I s.
Proof.
  intros Hi Hs s Hr. induction Hr as [s H|s a s' _ IH Hst]; [by apply Hi|].
  destruct Hst; apply Hs; auto.
Qed.

Lemma page_step_inv s a s' :
  page_step s a s' -> s' = fst (page_update p s a) /\ (fires (page_view p s) a \/ page_extern p s a).
Proof. by destruct 1; auto. Qed.

(** A run keeps a relation with the history of its actions that every step keeps. *)
Lemma run_relation {Spec} (R : St -> Spec -> Prop) (f : Spec -> Act -> Spec) :
  (forall s m a, R s m -> fires (page_view p s) a \/ page_extern p s a -> R (fst (page_update p s a)) (f m a)) ->
  forall s l s', page_run s l s' -> forall m, R s m -> R s' (fold_left f l m).
Proof.
  intros Hf s l s' H. induction H as [|s a s' l s'' Hs _ IH]; intros m Hm; [done|].
  apply IH. apply page_step_inv in Hs as [-> Ha]. by apply Hf.
Qed.

Lemma user_invariant (I : St -> Prop) :
  (forall s a, I s -> fires (page_view p s) a -> I (fst (page_update p s a))) ->
  forall s s', user_steps s s' -> I s -> I s'.
Proof. intros Hs s s' H. induction H; eauto. Qed.
End pages.

(** ** Computing the handlers of a tree *)

Lemma events_when {A} o c (n : node A) :
  events o (when c n) = if c then events o n else [].
Proof. by destruct c. Qed.

Lemma events_Frag_map {A B} o (f : B -> node A) l :
  events o (Frag (map f l)) = concat (map (fun x => events o (f x)) l).
Proof. cbn [events]. by rewrite map_map. Qed.

Lemma events_array_from {A} o n (f : Z -> node A) :
  (forall i, events o (f i) = []) -> events o (array_from n f) = [].
Proof.
  intros H. unfold array_from. rewrite events_Frag_map.
  apply concat_map_nil. intros i _. apply H.
Qed.

Lemma choices_Frag_map {A B} (f : B -> node A) l :
  choices (Frag (map f l)) = concat (map (fun x => choices (f x)) l).
Proof. cbn [choices]. by rewrite map_map. Qed.

Lemma events_icon {A} o tag c : content_tag tag = false -> events o (@icon A tag c) = [].
Proof. intros H. unfold icon. cbn [events map concat]. rewrite H. by destruct (dialog_tag tag). Qed.

Lemma fires_intro {A} (n : node A) e a : In e (events true n) -> emits e a -> fires n a.
Proof. intros H1 H2. exists e. auto. Qed.

#[export] Hint Rewrite @events_when @events_Frag_map @choices_Frag_map : js_rew.

(** Unfolds the handlers of a concrete tree, leaving the data it mentions. *)
Ltac events_simpl :=
  cbn [events choices concat map app own_events own_event dialog_moves has_attr attr_is existsb
       String.eqb Ascii.eqb Bool.eqb andb orb negb choice_tag dialog_tag content_tag
       attr_value attr_href flat_map icon cls when Nothing].

Lemma concat_map_map {A B C} (g : B -> list C) (f : A -> B) l :
  concat (map g (map f l)) = concat (map (fun x => g (f x)) l).
Proof. by rewrite map_map. Qed.

Lemma concat_map_singleton {A B} (g : A -> list B) (f : A -> B) l :
  (forall x, g x = [f x]) -> concat (map g l) = map f l.
Proof. intros H. induction l as [|x l IH]; [done|]. cbn [map concat]. by rewrite H, IH. Qed.

(** ** Which actions a list of handlers can perform *)

Definition emitted {A} (l : list (ui_event A)) (a : A) : Prop :=
  List.Exists (fun e => emits e a) l.

Lemma fires_emitted {A} (n : node A) a : fires n a <-> emitted (events true n) a.
Proof. unfold fires, emitted. by rewrite List.Exists_exists. Qed.

Lemma emitted_nil {A} (a : A) : emitted [] a <-> False.
Proof. apply List.Exists_nil. Qed.
Lemma emitted_cons {A} (e : ui_event A) l a : emitted (e :: l) a <-> emits e a \/ emitted l a.
Proof. apply List.Exists_cons. Qed.
Lemma emitted_app {A} (l1 l2 : list (ui_event A)) a :
  emitted (l1 ++ l2) a <-> emitted l1 a \/ emitted l2 a.
Proof. apply List.Exists_app. Qed.

Lemma emitted_if {A} (c : bool) (e : ui_event A) a :
  emitted (if c then [e] else []) a <-> c = true /\ emits e a.
Proof. destruct c; rewrite ?emitted_cons, emitted_nil; intuition congruence. Qed.

Lemma emitted_unless {A} (c : bool) (e : ui_event A) a :
  emitted (if c then [] else [e]) a <-> c = false /\ emits e a.
Proof. destruct c; rewrite ?emitted_cons, emitted_nil; intuition congruence. Qed.

Lemma emitted_rows {A X} (f : X -> A) (l : list X) a :
  emitted (map (fun x => EvUnit (f x)) l) a <-> exists x, a = f x /\ In x l.
Proof.
  unfold emitted. rewrite List.Exists_exists. split.
  - intros (e & He & Hem). apply in_map_iff in He as (x & <- & Hx). cbn in Hem. eauto.
  - intros (x & -> & Hx). exists (EvUnit (f x)). split; [|done]. by apply (in_map (fun x => EvUnit (f x))).
Qed.

Create Rewrite HintDb emitted.
#[export] Hint Rewrite @emitted_nil @emitted_cons @emitted_app @emitted_if @emitted_unless
  @emitted_rows : emitted.

(** An equivalence between the disjuncts of an event list and a guard. *)
Ltac pick_disjunct :=
  match goal with
  | |- _ \/ _ => first [left; pick_disjunct | right; pick_disjunct]
  | |- ex _ => eexists; pick_disjunct
  | |- is_Some _ => eexists; first [reflexivity | eassumption]
  | |- _ /\ _ => split; pick_disjunct
  | |- _ => first [reflexivity | eassumption]
  end.
Ltac emits_solve :=
  split; intros;
  repeat match goal with
         | H : ex _ |- _ => destruct H
         | H : is_Some _ |- _ => destruct H
         | H : _ \/ _ |- _ => destruct H
         | H : _ /\ _ |- _ => destruct H
         end;
  simplify_eq; try done; first [pick_disjunct | exfalso; congruence].
