(* ===== verification/UrlCodec.v ===== *)
(** * URL encodings of the runtime

    [encodeURIComponent], [decodeURIComponent] and the
    application/x-www-form-urlencoded format of [URLSearchParams], on strings
    of UTF-8 bytes. *)

From S2P Require Import Prelude JsString.

(** ** Percent escapes *)

Definition hex_upper (n : Z) : ascii :=
  ascii_of_N (Z.to_N (if n <? 10 then 48 + n else 55 + n)).

Definition hex_value (c : ascii) : option Z :=
  if is_digit c then Some (code c - 48)
  else if in_range 65 70 c then Some (code c - 55)
  else if in_range 97 102 c then Some (code c - 87)
  else None.

Definition percent (c : ascii) (s : string) : string :=
  String "%" (String (hex_upper (code c / 16)) (String (hex_upper (code c mod 16)) s)).

Definition alphanumeric (c : ascii) : bool := is_upper c || is_lower c || is_digit c.

(** ** [encodeURIComponent] and [decodeURIComponent] *)

Definition unreserved (c : ascii) : bool :=
  alphanumeric c || has_char c "-_.!~*'()".

Fixpoint encodeURIComponent (s : string) : string :=
  match s with
  | EmptyString => EmptyString
  | String c s' =>
      if unreserved c then String c (encodeURIComponent s')
      else percent c (encodeURIComponent s')
  end.

(** The state of a UTF-8 decoder: the continuation bytes it still needs and the
    range of the next one. *)
Record utf8_state := Utf8 { u_need : Z; u_lo : Z; u_hi : Z }.
Definition utf8_start : utf8_state := Utf8 0 128 191.

Definition utf8_step (st : utf8_state) (b : Z) : option utf8_state :=
  if u_need st =? 0 then
    if b <? 128 then Some utf8_start
    else if (194 <=? b) && (b <=? 223) then Some (Utf8 1 128 191)
    else if (224 <=? b) && (b <=? 239) then
      Some (Utf8 2 (if b =? 224 then 160 else 128) (if b =? 237 then 159 else 191))
    else if (240 <=? b) && (b <=? 244) then
      Some (Utf8 3 (if b =? 240 then 144 else 128) (if b =? 244 then 143 else 191))
    else None
  else if (u_lo st <=? b) && (b <=? u_hi st) then Some (Utf8 (u_need st - 1) 128 191)
  else None.

Fixpoint utf8_valid_from (st : utf8_state) (s : string) : bool :=
  match s with
  | EmptyString => u_need st =? 0
  | String c s' =>
      match utf8_step st (code c) with
      | Some st' => utf8_valid_from st' s'
      | None => false
      end
  end.
Definition utf8_valid (s : string) : bool := utf8_valid_from utf8_start s.

(** [None] is [URIError]. *)
Fixpoint decode_uri_from (st : utf8_state) (s : string) : option string :=
  match s with
  | EmptyString => if u_need st =? 0 then Some EmptyString else None
  | String c s' =>
      if Ascii.eqb c "%" then
        match s' with
        | String h (String l s'') =>
            match hex_value h, hex_value l with
            | Some x, Some y =>
                match utf8_step st (16 * x + y) with
                | Some st' =>
                    String (ascii_of_N (Z.to_N (16 * x + y))) <$> decode_uri_from st' s''
                | None => None
                end
            | _, _ => None
            end
        | _ => None
        end
      else if u_need st =? 0 then String c <$> decode_uri_from st s'
      else None
  end.
Definition decodeURIComponent (s : string) : option string := decode_uri_from utf8_start s.

(** ** [URLSearchParams] *)

Definition params := list (string * string).

Definition form_safe (c : ascii) : bool := alphanumeric c || has_char c "*-._".

Fixpoint form_encode (s : string) : string :=
  match s with
  | EmptyString => EmptyString
  | String c s' =>
      if form_safe c then String c (form_encode s')
      else if Ascii.eqb c " " then String "+" (form_encode s')
      else percent c (form_encode s')
  end.

Definition form_pair (kv : string * string) : string :=
  form_encode (fst kv) +++ String "=" (form_encode (snd kv)).

(** [params.toString()] *)
Definition form_serialize (l : params) : string := join "&" (map form_pair l).

Fixpoint form_decode (s : string) : string :=
  match s with
  | EmptyString => EmptyString
  | String c s' =>
      if Ascii.eqb c "+" then String " " (form_decode s')
      else if Ascii.eqb c "%" then
        match s' with
        | String h (String l s'') =>
            match hex_value h, hex_value l with
            | Some x, Some y => String (ascii_of_N (Z.to_N (16 * x + y))) (form_decode s'')
            | _, _ => String c (form_decode s')
            end
        | _ => String c (form_decode s')
        end
      else String c (form_decode s')
  end.

(** The text before the first [=] and the text after it. *)
Fixpoint cut_eq (s : string) : string * string :=
  match s with
  | EmptyString => (EmptyString, EmptyString)
  | String c s' =>
      if Ascii.eqb c "=" then (EmptyString, s')
      else let '(a, b) := cut_eq s' in (String c a, b)
  end.

Definition form_parse_pair (s : string) : string * string :=
  let '(a, b) := cut_eq s in (form_decode a, form_decode b).

(** The parser a server applies to a query string. *)
Definition form_parse (s : string) : params :=
  map form_parse_pair (List.filter truthy (split_char "&" s)).

(** [params.set(k, v)] *)
Definition params_set (k v : string) (l : params) : params :=
  let fix go (l : params) : params :=
    match l with
    | [] => []
    | (k', v') :: l' =>
        if String.eqb k k' then (k, v) :: List.filter (fun kv => negb (String.eqb k (fst kv))) l'
        else (k', v') :: go l'
    end in
  if existsb (fun kv => String.eqb k (fst kv)) l then go l else l ++ [(k, v)].

(** ** Lemmas *)

Ltac by_chars := intros [[] [] [] [] [] [] [] []]; vm_compute; try reflexivity; try done.

Lemma hex_roundtrip c :
  hex_value (hex_upper (code c / 16)) = Some (code c / 16) /\
  hex_value (hex_upper (code c mod 16)) = Some (code c mod 16) /\
  ascii_of_N (Z.to_N (16 * (code c / 16) + code c mod 16)) = c.
Proof. revert c. by_chars. Qed.

Lemma form_decode_percent c s : form_decode (percent c s) = String c (form_decode s).
Proof.
  unfold percent. destruct (hex_roundtrip c) as (H1 & H2 & H3).
  cbn -[hex_value hex_upper code ascii_of_N Z.to_N Z.mul Z.div Z.modulo Z.add].
  by rewrite H1, H2, H3.
Qed.

Lemma form_safe_plain c : form_safe c = true ->
  Ascii.eqb c "+" = false /\ Ascii.eqb c "%" = false /\
  Ascii.eqb "=" c = false /\ Ascii.eqb "&" c = false.
Proof. revert c. by_chars. Qed.

Lemma unreserved_plain c : unreserved c = true ->
  Ascii.eqb c "+" = false /\ Ascii.eqb c "%" = false /\
  Ascii.eqb "=" c = false /\ Ascii.eqb "&" c = false.
Proof. revert c. by_chars. Qed.

Lemma percent_has_char d c s :
  has_char d (percent c s) =
  Ascii.eqb d "%" || Ascii.eqb d (hex_upper (code c / 16))
  || Ascii.eqb d (hex_upper (code c mod 16)) || has_char d s.
Proof. unfold percent. cbn [has_char]. by rewrite !orb_assoc. Qed.

Lemma percent_no_delim c :
  (Ascii.eqb "=" (hex_upper (code c / 16)) = false /\ Ascii.eqb "=" (hex_upper (code c mod 16)) = false) /\
  (Ascii.eqb "&" (hex_upper (code c / 16)) = false /\ Ascii.eqb "&" (hex_upper (code c mod 16)) = false).
Proof. revert c. by_chars. Qed.

(** Encoded text holds no delimiter. *)
Lemma form_encode_no_delim s :
  has_char "=" (form_encode s) = false /\ has_char "&" (form_encode s) = false.
Proof.
  induction s as [|c s [IH1 IH2]]; [done|]. cbn [form_encode].
  destruct (form_safe c) eqn:E; [|destruct (Ascii.eqb c " ")].
  - destruct (form_safe_plain c E) as (_ & _ & H1 & H2). cbn [has_char]. by rewrite H1, H2, IH1, IH2.
  - cbn [has_char]. by rewrite IH1, IH2.
  - rewrite !percent_has_char, IH1, IH2.
    destruct (percent_no_delim c) as [[-> ->] [-> ->]]. done.
Qed.

Lemma form_decode_encode s : form_decode (form_encode s) = s.
Proof.
  induction s as [|c s IH]; [done|]. cbn [form_encode].
  destruct (form_safe c) eqn:E; [|destruct (Ascii.eqb c " ") eqn:Es].
  - destruct (form_safe_plain c E) as (H1 & H2 & _). cbn [form_decode]. by rewrite H1, H2, IH.
  - apply Ascii.eqb_eq in Es as ->. cbn [form_decode]. rewrite IH. done.
  - by rewrite form_decode_percent, IH.
Qed.

Lemma cut_eq_app a b : has_char "=" a = false -> cut_eq (a +++ String "=" b) = (a, b).
Proof.
  induction a as [|c a IH]; intros H; rewrite ?append_cons; cbn [cut_eq has_char] in *; [done|].
  bool_to_prop. rewrite Ascii.eqb_sym, H. by rewrite IH.
Qed.

Lemma form_parse_pair_roundtrip kv : form_parse_pair (form_pair kv) = kv.
Proof.
  unfold form_parse_pair, form_pair. rewrite cut_eq_app by apply form_encode_no_delim.
  rewrite !form_decode_encode. by destruct kv.
Qed.

Lemma form_pair_shape kv : truthy (form_pair kv) = true /\ has_char "&" (form_pair kv) = false.
Proof.
  unfold form_pair. split.
  - apply truthy_true. by destruct (form_encode (fst kv)).
  - rewrite has_char_append. cbn [has_char].
    by rewrite !(proj2 (form_encode_no_delim _)).
Qed.

(** Parsing a serialised query gives the parameters back, in order. *)
Lemma form_parse_serialize l : form_parse (form_serialize l) = l.
Proof.
  destruct l as [|kv l]; [done|].
  unfold form_parse, form_serialize. rewrite split_join; [|done|].
  - rewrite filter_all_true.
    + rewrite map_map. rewrite <- (map_id (kv :: l)) at 2. apply map_ext.
      apply form_parse_pair_roundtrip.
    + intros x Hx. apply in_map_iff in Hx as (y & <- & _). apply form_pair_shape.
  - apply List.Forall_forall. intros x Hx. apply in_map_iff in Hx as (y & <- & _).
    apply form_pair_shape.
Qed.

(** A component encoded with [encodeURIComponent] decodes as a form value. *)
Lemma form_decode_component s : form_decode (encodeURIComponent s) = s.
Proof.
  induction s as [|c s IH]; [done|]. cbn [encodeURIComponent].
  destruct (unreserved c) eqn:E.
  - destruct (unreserved_plain c E) as (H1 & H2 & _). cbn [form_decode]. by rewrite H1, H2, IH.
  - by rewrite form_decode_percent, IH.
Qed.

Lemma component_no_delim s :
  has_char "=" (encodeURIComponent s) = false /\ has_char "&" (encodeURIComponent s) = false.
Proof.
  induction s as [|c s [IH1 IH2]]; [done|]. cbn [encodeURIComponent].
  destruct (unreserved c) eqn:E.
  - destruct (unreserved_plain c E) as (_ & _ & H1 & H2). cbn [has_char]. by rewrite H1, H2, IH1, IH2.
  - rewrite !percent_has_char, IH1, IH2.
    destruct (percent_no_delim c) as [[-> ->] [-> ->]]. done.
Qed.

Lemma component_no_slash s : has_char "/" (encodeURIComponent s) = false.
Proof.
  assert (forall c, unreserved c = true -> Ascii.eqb "/" c = false) as Hu by by_chars.
  assert (forall c, Ascii.eqb "/" (hex_upper (code c / 16)) = false /\ Ascii.eqb "/" (hex_upper (code c mod 16)) = false)
    as Hx by by_chars.
  induction s as [|c s IH]; [done|]. cbn [encodeURIComponent].
  destruct (unreserved c) eqn:E; [cbn [has_char]; by rewrite (Hu c E), IH|].
  rewrite percent_has_char, IH. by destruct (Hx c) as [-> ->].
Qed.

Lemma unreserved_ascii c : unreserved c = true -> code c < 128.
Proof. revert c. by_chars. Qed.

Lemma code_split c : 16 * (code c / 16) + code c mod 16 = code c.
Proof. symmetry. apply Z.div_mod. lia. Qed.

Lemma utf8_step_lo st b st' : utf8_step st b = Some st' -> 128 <= u_lo st'.
Proof.
  unfold utf8_step. intros H. repeat case_match; simplify_eq; simpl; lia.
Qed.

(** Encoding then decoding gives the string back exactly when its bytes are
    valid UTF-8; other byte sequences raise [URIError]. *)
Lemma decode_encode_from st s :
  128 <= u_lo st ->
  decode_uri_from st (encodeURIComponent s) =
  if utf8_valid_from st s then Some s else None.
Proof.
  revert st. induction s as [|c s IH]; intros st Hst; [done|].
  cbn [encodeURIComponent utf8_valid_from].
  destruct (unreserved c) eqn:E.
  - destruct (unreserved_plain c E) as (_ & H2 & _). cbn [decode_uri_from]. rewrite H2.
    pose proof (unreserved_ascii c E) as Hc. unfold utf8_step.
    destruct (u_need st =? 0) eqn:En.
    + rewrite (proj2 (Z.ltb_lt _ _) Hc). bool_to_prop. rewrite IH by done.
      rewrite <- IH by (simpl; lia). rewrite IH by (simpl; lia).
      assert (utf8_valid_from st s = utf8_valid_from utf8_start s) as ->.
      { destruct s as [|d s]; simpl; [by rewrite En|]. unfold utf8_step. by rewrite En. }
      by destruct (utf8_valid_from utf8_start s).
    + by rewrite (proj2 (Z.leb_gt (u_lo st) (code c))) by lia.
  - destruct (hex_roundtrip c) as (H1 & H2 & H3). unfold percent.
    cbn -[hex_value hex_upper code utf8_step utf8_valid_from Z.mul Z.div Z.modulo Z.add Z.to_N ascii_of_N].
    rewrite H1, H2, H3, code_split.
    destruct (utf8_step st (code c)) as [st'|] eqn:Es; [|done].
    rewrite (IH st') by (by eapply utf8_step_lo).
    by destruct (utf8_valid_from st' s).
Qed.

Lemma decodeURIComponent_encode s :
  utf8_valid s = true -> decodeURIComponent (encodeURIComponent s) = Some s.
Proof.
  intros H. unfold decodeURIComponent. rewrite decode_encode_from by (simpl; lia).
  unfold utf8_valid in H. by rewrite H.
Qed.

(** ** Well-formed percent encoding

    A string is well encoded when it is a sequence of plain characters and of
    escaped UTF-8 characters, as the Unicode standard tabulates them. *)

Definition continuation (b : Z) : Prop := 128 <= b <= 191.

Inductive utf8_char : list Z -> Prop :=
| utf8_1 a : 0 <= a <= 127 -> utf8_char [a]
| utf8_2 a b : 194 <= a <= 223 -> continuation b -> utf8_char [a; b]
| utf8_3 a b c : 224 <= a <= 239 -> continuation b -> continuation c ->
    (a = 224 -> 160 <= b) -> (a = 237 -> b <= 159) -> utf8_char [a; b; c]
| utf8_4 a b c d : 240 <= a <= 244 -> continuation b -> continuation c -> continuation d ->
    (a = 240 -> 144 <= b) -> (a = 244 -> b <= 143) -> utf8_char [a; b; c; d].

Inductive escaped : list Z -> string -> Prop :=
| escaped_nil : escaped [] ""
| escaped_cons h l x y bs s :
    hex_value h = Some x -> hex_value l = Some y -> escaped bs s ->
    escaped (16 * x + y :: bs) (String "%" (String h (String l s))).

Inductive well_encoded : string -> Prop :=
| well_nil : well_encoded ""
| well_plain c s : c <> "%"%char -> well_encoded s -> well_encoded (String c s)
| well_escaped bs e s : utf8_char bs -> escaped bs e -> well_encoded s -> well_encoded (e +++ s).

Definition decodes (st : utf8_state) (s : string) : Prop := decode_uri_from st s <> None.

Lemma fmap_some_ne {X Y} (f : X -> Y) (o : option X) : f <$> o <> None <-> o <> None.
Proof. by destruct o. Qed.

Lemma decodes_plain c s : c <> "%"%char -> (decodes utf8_start (String c s) <-> decodes utf8_start s).
Proof.
  intros Hc. unfold decodes. cbn [decode_uri_from].
  rewrite (proj2 (Ascii.eqb_neq c "%") Hc). cbn [u_need utf8_start Z.eqb]. apply fmap_some_ne.
Qed.

Lemma decodes_escape st h l x y s :
  hex_value h = Some x -> hex_value l = Some y ->
  (decodes st (String "%" (String h (String l s))) <->
   exists st', utf8_step st (16 * x + y) = Some st' /\ decodes st' s).
Proof.
  intros Hh Hl. unfold decodes. cbn [decode_uri_from Ascii.eqb Bool.eqb]. rewrite Hh, Hl.
  destruct (utf8_step st (16 * x + y)) as [st'|]; [rewrite fmap_some_ne|].
  - split; [eauto|]. by intros (? & [= <-] & ?).
  - split; [done|]. by intros (? & [=] & _).
Qed.

(** Where an escape is needed, there is one. *)
Lemma decodes_inv st s :
  decodes st s -> u_need st <> 0 \/ (exists s', s = String "%" s') ->
  exists h l x y s' st', s = String "%" (String h (String l s')) /\
    hex_value h = Some x /\ hex_value l = Some y /\ utf8_step st (16 * x + y) = Some st' /\ decodes st' s'.
Proof.
  unfold decodes. intros H Hn. destruct s as [|c s].
  - destruct Hn as [Hn|[s' [=]]]. cbn in H. destruct (u_need st =? 0) eqn:E; [bool_to_prop; lia|done].
  - cbn [decode_uri_from] in H. destruct (Ascii.eqb_spec c "%") as [->|Hc].
    + destruct s as [|h [|l s]]; [done|done|].
      destruct (hex_value h) as [x|] eqn:Eh; [|done]. destruct (hex_value l) as [y|] eqn:El; [|done].
      destruct (utf8_step st (16 * x + y)) as [st'|] eqn:Es; [|done].
      exists h, l, x, y, s, st'. split_and!; auto. by apply fmap_some_ne in H.
    + destruct Hn as [Hn|[s' [= -> _]]]; [|done]. destruct (u_need st =? 0) eqn:E; [bool_to_prop; lia|done].
Qed.

Lemma escaped_app bs1 e1 bs2 e2 : escaped bs1 e1 -> escaped bs2 e2 -> escaped (bs1 ++ bs2) (e1 +++ e2).
Proof. induction 1; intros H2; [done|]. cbn [app]. rewrite !append_cons. constructor; auto. Qed.

Fixpoint utf8_steps (st : utf8_state) (bs : list Z) : option utf8_state :=
  match bs with
  | [] => Some st
  | b :: bs => match utf8_step st b with Some st => utf8_steps st bs | None => None end
  end.

Lemma utf8_step_lead b :
  utf8_step utf8_start b =
  if b <? 128 then Some utf8_start
  else if (194 <=? b) && (b <=? 223) then Some (Utf8 1 128 191)
  else if (224 <=? b) && (b <=? 239) then
    Some (Utf8 2 (if b =? 224 then 160 else 128) (if b =? 237 then 159 else 191))
  else if (240 <=? b) && (b <=? 244) then
    Some (Utf8 3 (if b =? 240 then 144 else 128) (if b =? 244 then 143 else 191))
  else None.
Proof. reflexivity. Qed.

Lemma utf8_step_more n lo hi b :
  n <> 0 -> utf8_step (Utf8 n lo hi) b = if (lo <=? b) && (b <=? hi) then Some (Utf8 (n - 1) 128 191) else None.
Proof. intros H. unfold utf8_step. cbn [u_need u_lo u_hi]. by rewrite (proj2 (Z.eqb_neq n 0) H). Qed.

Ltac utf8_case :=
  match goal with
  | |- context [if ?x =? ?y then _ else _] => destruct (x =? y) eqn:?; bool_to_prop; try lia
  | |- context [if ?c then _ else _] =>
      destruct c eqn:?; rewrite ?andb_true_iff, ?andb_false_iff, ?Z.leb_le, ?Z.leb_gt in *; bool_to_prop;
      try lia
  end.

(** The bytes of one character lead the decoder back to its start. *)
Lemma utf8_char_steps bs : utf8_char bs -> utf8_steps utf8_start bs = Some utf8_start.
Proof.
  intros H. destruct H; unfold continuation in *; cbn [utf8_steps]; rewrite utf8_step_lead;
    repeat (rewrite ?utf8_step_more by lia; utf8_case); done.
Qed.

Lemma decodes_escaped bs e s st :
  escaped bs e -> (decodes st (e +++ s) <-> exists st', utf8_steps st bs = Some st' /\ decodes st' s).
Proof.
  intros H. revert st. induction H as [|h l x y bs e Hh Hl _ IH]; intros st; cbn [utf8_steps].
  - split; [eauto|]. by intros (? & [= <-] & ?).
  - rewrite !append_cons, (decodes_escape st h l x y) by done.
    destruct (utf8_step st (16 * x + y)) as [st'|].
    + rewrite <- IH. split; [by intros (? & [= <-] & ?)|eauto].
    + split; by intros (? & [=] & _).
Qed.

Lemma hex_value_nonneg c x : hex_value c = Some x -> 0 <= x.
Proof. revert x. revert c. intros [[] [] [] [] [] [] [] []] x; vm_compute; by intros [= <-]. Qed.

(** Inside a character the decoder takes an escaped byte of the range it is in. *)
Lemma decodes_inside n lo hi s :
  0 < n -> decodes (Utf8 n lo hi) s ->
  exists b e s', s = e +++ s' /\ escaped [b] e /\ lo <= b <= hi /\ decodes (Utf8 (n - 1) 128 191) s'.
Proof.
  intros Hn H. destruct (decodes_inv _ _ H) as (h & l & x & y & s' & st' & -> & Hh & Hl & Hs & Hd).
  { left. cbn. lia. }
  rewrite utf8_step_more in Hs by lia. destruct (_ && _) eqn:E in Hs; [|done]. bool_to_prop. simplify_eq.
  exists (16 * x + y), (String "%" (String h (String l ""))), s'. split_and!; [done| |lia|lia|done].
  repeat constructor; auto.
Qed.

Ltac next_byte H b e s He Hb :=
  apply decodes_inside in H as (b & e & s & -> & He & Hb & H); [|lia];
  change (2 - 1) with 1 in H; change (3 - 1) with 2 in H.

Lemma decodes_starts s :
  decodes utf8_start s ->
  s = "" \/ (exists c s', s = String c s' /\ c <> "%"%char /\ decodes utf8_start s') \/
  (exists bs e s', s = e +++ s' /\ escaped bs e /\ utf8_char bs /\ decodes utf8_start s').
Proof.
  intros H. destruct s as [|c s]; [by left|right]. destruct (Ascii.eqb_spec c "%") as [->|Hc].
  2: { left. exists c, s. by rewrite <- decodes_plain. }
  right. destruct (decodes_inv _ _ H) as (h & l & x & y & s' & st' & [= ->] & Hh & Hl & Hs & Hd); [eauto|].
  pose proof (hex_value_nonneg _ _ Hh). pose proof (hex_value_nonneg _ _ Hl).
  assert (escaped [16 * x + y] (String "%" (String h (String l "")))) as He by (repeat constructor; auto).
  revert He Hs. assert (0 <= 16 * x + y) as Ha by lia. revert Ha. generalize (16 * x + y) as a.
  intros a Ha He. rewrite utf8_step_lead.
  destruct (a <? 128) eqn:E1;
    [|destruct ((194 <=? a) && (a <=? 223)) eqn:E2;
      [|destruct ((224 <=? a) && (a <=? 239)) eqn:E3;
        [|destruct ((240 <=? a) && (a <=? 244)) eqn:E4; [|intros [=]]]]]; bool_to_prop; intros Hst;
    apply (inj Some) in Hst; subst st'.
  all: pose proof (fun bs e (H' : escaped bs e) => escaped_app [a] _ bs e He H') as Happ.
  all: set (e0 := String "%" (String h (String l ""))) in *.
  - exists [a], e0, s'. split_and!; [done|done| |done]. constructor. lia.
  - next_byte Hd b e1 s1 He1 Hb. exists [a; b], (e0 +++ e1), s1.
    split_and!; [|by apply Happ|by constructor|done]. unfold e0. by rewrite !append_cons.
  - next_byte Hd b e1 s1 He1 Hb. next_byte Hd c e2 s2 He2 Hc. exists [a; b; c], (e0 +++ (e1 +++ e2)), s2.
    split_and!; [|by apply Happ, (escaped_app [b] _ [c])| |done].
    + unfold e0. by rewrite !append_cons, !append_assoc.
    + destruct (Z.eqb_spec a 224), (Z.eqb_spec a 237); constructor; unfold continuation; lia.
  - next_byte Hd b e1 s1 He1 Hb. next_byte Hd c e2 s2 He2 Hc. next_byte Hd d e3 s3 He3 Hd3.
    exists [a; b; c; d], (e0 +++ (e1 +++ (e2 +++ e3))), s3.
    split_and!; [|by apply Happ, (escaped_app [b] _ [c; d]), (escaped_app [c] _ [d])| |done].
    + unfold e0. by rewrite !append_cons, !append_assoc.
    + destruct (Z.eqb_spec a 240), (Z.eqb_spec a 244); constructor; unfold continuation; lia.
Qed.

Lemma well_decodes s : well_encoded s -> decodes utf8_start s.
Proof.
  induction 1 as [|c s Hc _ IH|bs e s Hb He _ IH]; [done|by apply decodes_plain|].
  apply (decodes_escaped bs); [done|]. exists utf8_start. split; [by apply utf8_char_steps|done].
Qed.

Lemma escaped_nonempty bs e : utf8_char bs -> escaped bs e -> (0 < String.length e)%nat.
Proof. intros Hb He. destruct He; [by inversion Hb|]. cbn. lia. Qed.

(** Decoding succeeds exactly on well-formed percent encoding. *)
Lemma decodeURIComponent_well_encoded s : decodeURIComponent s <> None <-> well_encoded s.
Proof.
  split; [|apply well_decodes].
  change (decodes utf8_start s -> well_encoded s).
  induction s as [s IH] using (induction_ltof1 _ String.length). intros H.
  destruct (decodes_starts s H) as [->|[(c & s' & -> & Hc & Hd)|(bs & e & s' & -> & He & Hb & Hd)]].
  - constructor.
  - constructor; [done|]. apply IH; [unfold ltof; cbn; lia|done].
  - eapply well_escaped; [done|done|]. apply IH; [|done]. unfold ltof.
    rewrite string_length_append. pose proof (escaped_nonempty bs e Hb He). lia.
Qed.

(** A stray percent sign is not well formed. *)
Lemma stray_percent s t :
  match t with String h (String l _) => hex_value h = None \/ hex_value l = None | _ => True end ->
  ~ well_encoded (s +++ String "%" t).
Proof.
  intros Ht Hw. remember (s +++ String "%" t) as u eqn:Hu. revert s Hu.
  induction Hw as [|c w Hc Hw IH|bs e w Hb He Hw IH]; intros s Hu.
  - by destruct s.
  - destruct s as [|c' s]; [by injection Hu as -> _|].
    rewrite append_cons in Hu. injection Hu as -> Hu. eauto.
  - clear Hb. revert s Hu. induction He as [|h l x y bs e Hh Hl He IHe]; intros s Hu; [eauto|].
    destruct s as [|c0 [|c1 [|c2 s]]]; rewrite ?append_cons in Hu; injection Hu; intros; subst;
      [by destruct Ht; congruence|done|done|eauto].
Qed.
