(* ===== verification/Json.v ===== *)
(** * JSON values and [JSON.stringify] *)

From S2P Require Import Prelude JsString UrlCodec.

#[warnings="-register-all"]
Inductive json : Type :=
| JNull
| JBool (b : bool)
| JNum (n : Z)
| JStr (s : string)
| JArr (l : list json)
| JObj (l : list (string * json)).

Definition hex_lower (n : Z) : ascii :=
  ascii_of_N (Z.to_N (if n <? 10 then 48 + n else 87 + n)).

Definition chr (n : Z) : ascii := ascii_of_N (Z.to_N n).
Definition quote_mark : string := String (chr 34) EmptyString.

(** The escape of one character inside a quoted string. *)
Definition json_escape (c : ascii) : string :=
  let n := code c in
  if n =? 34 then String (chr 92) (String (chr 34) EmptyString)
  else if n =? 92 then String (chr 92) (String (chr 92) EmptyString)
  else if n =? 8 then String (chr 92) "b"
  else if n =? 9 then String (chr 92) "t"
  else if n =? 10 then String (chr 92) "n"
  else if n =? 12 then String (chr 92) "f"
  else if n =? 13 then String (chr 92) "r"
  else if n <? 32 then
    String (chr 92) ("u00" +++ String (hex_lower (n / 16)) (String (hex_lower (n mod 16)) EmptyString))
  else String c EmptyString.

Fixpoint json_escapes (s : string) : string :=
  match s with
  | EmptyString => EmptyString
  | String c s' => json_escape c +++ json_escapes s'
  end.

Definition json_quote (s : string) : string := quote_mark +++ json_escapes s +++ quote_mark.

Definition newline : string := String (chr 10) EmptyString.

(** Wraps the printed items of an array or object; with a non-empty [gap] each
    item is on its own line. *)
Definition json_wrap (gap indent opening closing : string) (items : list string) : string :=
  match items with
  | [] => opening +++ closing
  | _ =>
      if truthy gap then
        let inner := indent +++ gap in
        opening +++ newline +++ inner +++ join ("," +++ newline +++ inner) items
        +++ newline +++ indent +++ closing
      else opening +++ join "," items +++ closing
  end.

(** [JSON.stringify(v, null, gap)] *)
Fixpoint stringify_at (gap indent : string) (v : json) : string :=
  match v with
  | JNull => "null"
  | JBool b => if b then "true" else "false"
  | JNum n => number_to_string n
  | JStr s => json_quote s
  | JArr l => json_wrap gap indent "[" "]" (map (stringify_at gap (indent +++ gap)) l)
  | JObj l =>
      json_wrap gap indent "{" "}"
        (map (fun kv => json_quote (fst kv) +++ (if truthy gap then ": " else ":")
                        +++ stringify_at gap (indent +++ gap) (snd kv)) l)
  end.

Definition stringify (v : json) : string := stringify_at "" "" v.
Definition stringify_2 (v : json) : string := stringify_at "  " "" v.

Example stringify_sample :
  stringify (JObj [("rows", JNum 24); ("n", JArr [JNull; JBool true; JStr "a b"])])
  = "{" +++ json_quote "rows" +++ ":24," +++ json_quote "n" +++ ":[null,true,"
    +++ json_quote "a b" +++ "]}".
Proof. reflexivity. Qed.

(** No printed JSON value is the empty string. *)
Lemma stringify_truthy v : truthy (stringify v) = true.
Proof.
  unfold stringify. destruct v as [|[]|n| |[|]|[|]]; try reflexivity.
  apply truthy_true. apply number_to_string_nonempty.
Qed.
