(* ===== verification/Endpoints.v ===== *)
(** * REST endpoints: ui/lib/api/endpoints.ts

    The nested object [endpoints] is a tagged union, one constructor per leaf,
    and [endpoint_path] applies the leaf. *)

From S2P Require Import Prelude JsString.

Definition API_PREFIX : string := "/api/v1".

Definition path (suffix : string) : string := API_PREFIX +++ suffix.

Inductive endpoint : Type :=
| me
| organization_get | organization_update | organization_auditLog
| organization_members_list | organization_members_create
| organization_members_byId (memberId : Z)
| organization_invitations_list
| organization_invitations_byId (invitationId : Z)
| apiKeys_list | apiKeys_create | apiKeys_byId (keyId : Z)
| enrollmentTokens_list | enrollmentTokens_create | enrollmentTokens_byId (tokenId : Z)
| devices_list | devices_count
| devices_byId (deviceId : string)
| devices_manifest (deviceId : string)
| devices_labels (deviceId : string)
| devices_logs (deviceId : string)
| devices_telemetry (deviceId : string)
| devices_telemetryHourly (deviceId : string)
| devices_shell_sessions (deviceId : string)
| devices_shell_ws
| certificates_list | certificates_ca
| certificates_revoke (certId : Z)
| certificates_requests_list
| certificates_requests_approve (requestId : Z)
| certificates_requests_reject (requestId : Z)
| agent_installer.

Definition endpoint_path (e : endpoint) : string :=
  match e with
  | me => path "/me"
  | organization_get => path "/organization"
  | organization_update => path "/organization"
  | organization_auditLog => path "/organization/audit-log"
  | organization_members_list => path "/organization/members"
  | organization_members_create => path "/organization/members"
  | organization_members_byId memberId =>
      path ("/organization/members/" +++ number_to_string memberId)
  | organization_invitations_list => path "/organization/invitations"
  | organization_invitations_byId invitationId =>
      path ("/organization/invitations/" +++ number_to_string invitationId)
  | apiKeys_list => path "/api-keys"
  | apiKeys_create => path "/api-keys"
  | apiKeys_byId keyId => path ("/api-keys/" +++ number_to_string keyId)
  | enrollmentTokens_list => path "/enrollment-tokens"
  | enrollmentTokens_create => path "/enrollment-tokens"
  | enrollmentTokens_byId tokenId => path ("/enrollment-tokens/" +++ number_to_string tokenId)
  | devices_list => path "/devices"
  | devices_count => path "/devices/count"
  | devices_byId deviceId => path ("/devices/" +++ deviceId)
  | devices_manifest deviceId => path ("/devices/" +++ deviceId +++ "/manifest")
  | devices_labels deviceId => path ("/devices/" +++ deviceId +++ "/labels")
  | devices_logs deviceId => path ("/devices/" +++ deviceId +++ "/logs")
  | devices_telemetry deviceId => path ("/devices/" +++ deviceId +++ "/telemetry")
  | devices_telemetryHourly deviceId => path ("/devices/" +++ deviceId +++ "/telemetry/hourly")
  | devices_shell_sessions deviceId => path ("/devices/" +++ deviceId +++ "/shell/sessions")
  | devices_shell_ws => path "/devices/shell/ws"
  | certificates_list => path "/certificates"
  | certificates_ca => path "/certificates/ca"
  | certificates_revoke certId => path ("/certificates/" +++ number_to_string certId +++ "/revoke")
  | certificates_requests_list => path "/certificates/requests"
  | certificates_requests_approve requestId =>
      path ("/certificates/requests/" +++ number_to_string requestId +++ "/approve")
  | certificates_requests_reject requestId =>
      path ("/certificates/requests/" +++ number_to_string requestId +++ "/reject")
  | agent_installer => path "/agent/installer"
  end.

(** The device id of an endpoint, where it has one. *)
Definition endpoint_device (e : endpoint) : option string :=
  match e with
  | devices_byId d | devices_manifest d | devices_labels d | devices_logs d
  | devices_telemetry d | devices_telemetryHourly d | devices_shell_sessions d => Some d
  | _ => None
  end.

(** Endpoints that name one resource and differ by the HTTP method only. *)
Definition resource_of (e : endpoint) : endpoint :=
  match e with
  | organization_update => organization_get
  | organization_members_create => organization_members_list
  | apiKeys_create => apiKeys_list
  | enrollmentTokens_create => enrollmentTokens_list
  | _ => e
  end.

(** ** Path segments *)

(** The segments after the prefix. *)
Definition endpoint_segments (e : endpoint) : list string :=
  match e with
  | me => ["me"]
  | organization_get | organization_update => ["organization"]
  | organization_auditLog => ["organization"; "audit-log"]
  | organization_members_list | organization_members_create => ["organization"; "members"]
  | organization_members_byId n => ["organization"; "members"; number_to_string n]
  | organization_invitations_list => ["organization"; "invitations"]
  | organization_invitations_byId n => ["organization"; "invitations"; number_to_string n]
  | apiKeys_list | apiKeys_create => ["api-keys"]
  | apiKeys_byId n => ["api-keys"; number_to_string n]
  | enrollmentTokens_list | enrollmentTokens_create => ["enrollment-tokens"]
  | enrollmentTokens_byId n => ["enrollment-tokens"; number_to_string n]
  | devices_list => ["devices"]
  | devices_count => ["devices"; "count"]
  | devices_byId d => ["devices"; d]
  | devices_manifest d => ["devices"; d; "manifest"]
  | devices_labels d => ["devices"; d; "labels"]
  | devices_logs d => ["devices"; d; "logs"]
  | devices_telemetry d => ["devices"; d; "telemetry"]
  | devices_telemetryHourly d => ["devices"; d; "telemetry"; "hourly"]
  | devices_shell_sessions d => ["devices"; d; "shell"; "sessions"]
  | devices_shell_ws => ["devices"; "shell"; "ws"]
  | certificates_list => ["certificates"]
  | certificates_ca => ["certificates"; "ca"]
  | certificates_revoke n => ["certificates"; number_to_string n; "revoke"]
  | certificates_requests_list => ["certificates"; "requests"]
  | certificates_requests_approve n => ["certificates"; "requests"; number_to_string n; "approve"]
  | certificates_requests_reject n => ["certificates"; "requests"; number_to_string n; "reject"]
  | agent_installer => ["agent"; "installer"]
  end.

(** A device id that is one path segment. *)
Definition clean_id (e : endpoint) : Prop :=
  forall d, endpoint_device e = Some d -> has_char "/" d = false /\ d <> "count".

Lemma path_join e :
  endpoint_path e = join "/" ("" :: "api" :: "v1" :: endpoint_segments e).
Proof. by destruct e. Qed.

Lemma number_segment n : has_char "/" (number_to_string n) = false.
Proof. by apply number_to_string_no_char. Qed.
#[local] Hint Resolve number_segment : js.

Lemma segments_clean e : clean_id e ->
  Forall (fun x => has_char "/" x = false) ("" :: "api" :: "v1" :: endpoint_segments e).
Proof.
  intros H. unfold clean_id in H.
  destruct e; cbn [endpoint_segments endpoint_device] in *;
    repeat constructor; auto with js; by apply (proj1 (H _ eq_refl)).
Qed.

Lemma path_segments e : clean_id e ->
  split_char "/" (endpoint_path e) = "" :: "api" :: "v1" :: endpoint_segments e.
Proof. intros H. rewrite path_join. apply split_join; [done|]. by apply segments_clean. Qed.

Lemma segments_inj e1 e2 : clean_id e1 -> clean_id e2 ->
  endpoint_segments e1 = endpoint_segments e2 -> resource_of e1 = resource_of e2.
Proof.
  intros H1 H2 Heq. unfold clean_id in *.
  destruct e1, e2; cbn [endpoint_segments endpoint_device resource_of] in *;
    try discriminate Heq; try reflexivity; injection Heq; intros; subst; try done;
    try (f_equal; by apply number_to_string_inj);
    exfalso; try (by apply (proj2 (H1 _ eq_refl))); by apply (proj2 (H2 _ eq_refl)).
Qed.

(** C19. Different resources have different paths, when device ids are single path segments
    other than count. *)
Theorem endpoint_paths_disjoint e1 e2 :
  clean_id e1 -> clean_id e2 ->
  endpoint_path e1 = endpoint_path e2 -> resource_of e1 = resource_of e2.
Proof.
  intros H1 H2 Heq. apply segments_inj; [done|done|].
  apply (f_equal (split_char "/")) in Heq. rewrite !path_segments in Heq by done.
  congruence.
Qed.

Lemma endpoint_paths_disjoint_witness :
  endpoint_path (devices_logs "edge-1") = endpoint_path (devices_logs "edge-1") /\
  resource_of (devices_logs "edge-1") = resource_of (devices_logs "edge-1").
Proof.
  split; [reflexivity|].
  apply (endpoint_paths_disjoint (devices_logs "edge-1") (devices_logs "edge-1"));
    [intros d [= <-]; split; [reflexivity|discriminate]
    |intros d [= <-]; split; [reflexivity|discriminate]
    |reflexivity].
Defined.

(** Without that condition paths do collide: a device whose id is [count]
    answers at the path of the device count. *)
Lemma count_collision : endpoint_path (devices_byId "count") = endpoint_path devices_count.
Proof. reflexivity. Qed.
