(* ===== verification/ApiClient.v ===== *)
(** * HTTP client: ui/lib/api-client.ts

    [fetch] is the environment: a server [S] answers a request with a response
    or makes the promise reject. An asynchronous function is a state
    transformer over the requests sent so far and the server's state that
    returns a value or throws. *)

From S2P Require Import Prelude JsString Json.

Record Request := {
  rq_method : string;
  rq_url : string;
  rq_headers : list (string * string);
  rq_body : option string
}.

(** A response; its two readers are [text()] and [json()], the latter [None]
    when the body is not JSON. *)
Record Response := {
  status : Z;
  statusText : string;
  text_body : string;
  json_body : option json
}.

Definition response_ok (r : Response) : bool := (200 <=? status r) && (status r <=? 299).

(** What an API call can throw. *)
Inductive exn : Type :=
| ApiError (code : Z) (message : string)
| NetworkError (message : string)
| SyntaxError.

(** [err.message] *)
Definition exn_message (e : exn) : string :=
  match e with
  | ApiError _ m => m
  | NetworkError m => m
  | SyntaxError => "Unexpected token in JSON"
  end.

(** The environment: what [fetch] does, and the build-time base URL. *)
Class Environment (S : Type) := {
  server_fetch : Request -> S -> S * result string Response;
  API_BASE_URL : string
}.

Record net (S : Type) := Net { net_sent : list Request; net_server : S }.
Arguments Net {S} _ _.
Arguments net_sent {S} _.
Arguments net_server {S} _.

Definition io (S A : Type) : Type := net S -> net S * result exn A.

Definition io_ret {S A} (a : A) : io S A := fun w => (w, Ok a).
Definition io_throw {S A} (e : exn) : io S A := fun w => (w, Throw e).
Definition io_bind {S A B} (m : io S A) (k : A -> io S B) : io S B :=
  fun w => let '(w', r) := m w in
           match r with Ok a => k a w' | Throw e => (w', Throw e) end.

Notation "'let!' x := m 'in' k" := (io_bind m (fun x => k))
  (at level 10, x name, m at level 100, k at level 200) : js_scope.

(** Property assignment on an object of strings: an existing key keeps its place. *)
Fixpoint obj_set (k v : string) (o : list (string * string)) : list (string * string) :=
  match o with
  | [] => [(k, v)]
  | (k', v') :: o' => if String.eqb k k' then (k, v) :: o' else (k', v') :: obj_set k v o'
  end.

(** [{ ...o, ...more }] *)
Definition obj_spread (o more : list (string * string)) : list (string * string) :=
  fold_left (fun acc kv => obj_set (fst kv) (snd kv) acc) more o.

(** [FetchOptions]: the fields the callers use. *)
Record FetchOptions := {
  opt_method : option string;
  opt_headers : list (string * string);
  opt_body : option string;
  opt_token : option string
}.

Section client.
Context {S : Type} {env : Environment S}.

Definition absoluteUrl (path : string) : string := API_BASE_URL +++ path.

(** [fetch]: the promise rejects with a [TypeError] when the request fails. *)
Definition fetch (rq : Request) : io S Response :=
  fun w => let '(s', r) := server_fetch rq (net_server w) in
           (Net (net_sent w ++ [rq]) s',
            match r with Ok resp => Ok resp | Throw m => Throw (NetworkError m) end).

Definition rawFetch_headers (options : FetchOptions) : list (string * string) :=
  let headers := obj_spread [("Content-Type", "application/json")] (opt_headers options) in
  match opt_token options with
  | Some token =>
      if truthy token then obj_set "Authorization" ("Bearer " +++ token) headers else headers
  | None => headers
  end.

Definition rawFetch_request (path : string) (options : FetchOptions) : Request :=
  {| rq_method := opt_method options ?? "GET";
     rq_url := absoluteUrl path;
     rq_headers := rawFetch_headers options;
     rq_body := opt_body options |}.

Definition rawFetch (path : string) (options : FetchOptions) : io S Response :=
  let! response := fetch (rawFetch_request path options) in
  if response_ok response then io_ret response
  else let body := text_body response in
       io_throw (ApiError (status response)
                   (if truthy body then body else statusText response)).

(** The result is [None] ([undefined]) on status 204. *)
Definition apiFetch (path : string) (options : FetchOptions) : io S (option json) :=
  let! response := rawFetch path options in
  if status response =? 204 then io_ret None
  else match json_body response with
       | Some j => io_ret (Some j)
       | None => io_throw SyntaxError
       end.

Definition apiFetchText (path : string) (options : FetchOptions) : io S string :=
  let! response := rawFetch path options in
  io_ret (text_body response).
End client.

(** ** Lemmas *)

Lemma assoc_obj_set k v o k' :
  assoc k' (obj_set k v o) = if String.eqb k' k then Some v else assoc k' o.
Proof.
  induction o as [|[k0 v0] o IH]; cbn [obj_set assoc]; [done|].
  destruct (String.eqb_spec k k0) as [->|Hk]; cbn [assoc].
  - by destruct (String.eqb k' k0).
  - destruct (String.eqb_spec k' k0) as [->|Hk0]; [|done].
    by rewrite (proj2 (String.eqb_neq k0 k)).
Qed.

Lemma assoc_obj_spread o more k :
  assoc k (obj_spread o more) =
  match assoc k (rev more) with Some v => Some v | None => assoc k o end.
Proof.
  unfold obj_spread. revert o. induction more as [|[k0 v0] more IH]; intros o; [done|].
  cbn [fold_left rev fst snd]. rewrite IH.
  assert (forall l1 l2 : list (string * string),
    assoc k (l1 ++ l2) = match assoc k l1 with Some v => Some v | None => assoc k l2 end) as Happ.
  { induction l1 as [|[a b] l1 IHl]; intros; cbn [assoc app]; [done|]. by destruct (String.eqb k a). }
  rewrite Happ. destruct (assoc k (rev more)); [done|].
  rewrite assoc_obj_set. cbn [assoc]. by destruct (String.eqb k k0).
Qed.

Section client_facts.
Context {S : Type} {env : Environment S}.

(** The outcome of [rawFetch] for a server answer. *)
Definition raw_outcome (r : result string Response) : result exn Response :=
  match r with
  | Throw m => Throw (NetworkError m)
  | Ok resp =>
      if response_ok resp then Ok resp
      else Throw (ApiError (status resp)
             (if truthy (text_body resp) then text_body resp else statusText resp))
  end.

Lemma rawFetch_spec path options w :
  rawFetch path options w =
  let '(s', r) := server_fetch (rawFetch_request path options) (net_server w) in
  (Net (net_sent w ++ [rawFetch_request path options]) s', raw_outcome r).
Proof.
  unfold rawFetch, io_bind, fetch.
  destruct (server_fetch _ _) as [s' [resp|m]]; [|done]. cbn [raw_outcome].
  by destruct (response_ok resp).
Qed.

(** A call sends exactly one request. *)
Lemma apiFetch_sent path options w :
  net_sent (fst (apiFetch path options w)) = net_sent w ++ [rawFetch_request path options].
Proof.
  unfold apiFetch, io_bind. rewrite rawFetch_spec.
  destruct (server_fetch _ _) as [s' r]. destruct (raw_outcome r) as [resp|e]; [|done].
  destruct (status resp =? 204); [done|]. by destruct (json_body resp).
Qed.

(** The outcome of [apiFetch] for a server answer. *)
Definition api_outcome (r : result string Response) : result exn (option json) :=
  match raw_outcome r with
  | Throw e => Throw e
  | Ok resp =>
      if status resp =? 204 then Ok None
      else match json_body resp with Some j => Ok (Some j) | None => Throw SyntaxError end
  end.

(** C18. apiFetch sends one request and yields its JSON body, undefined on 204, or throws:
    the network error, an ApiError with the status and the body or status text, or a
    syntax error. *)
Theorem apiFetch_outcome path options w :
  apiFetch path options w =
  let '(s', r) := server_fetch (rawFetch_request path options) (net_server w) in
  (Net (net_sent w ++ [rawFetch_request path options]) s', api_outcome r).
Proof.
  unfold apiFetch, io_bind. rewrite rawFetch_spec.
  destruct (server_fetch _ _) as [s' r]. unfold api_outcome.
  destruct (raw_outcome r) as [resp|e]; [|done].
  destruct (status resp =? 204); [done|]. by destruct (json_body resp).
Qed.

(** A non-empty token is sent as a bearer Authorization header that overrides the
    caller, and the content type defaults to JSON. *)
Theorem rawFetch_request_headers path options :
  let hs := rq_headers (rawFetch_request path options) in
  (forall t, opt_token options = Some t -> t <> "" ->
             assoc "Authorization" hs = Some ("Bearer " +++ t)) /\
  ((opt_token options = None \/ opt_token options = Some "") ->
   assoc "Authorization" hs = assoc "Authorization" (rev (opt_headers options))) /\
  (assoc "Content-Type" hs =
   Some (assoc "Content-Type" (rev (opt_headers options)) ?? "application/json")).
Proof.
  cbn [rq_headers rawFetch_request]. unfold rawFetch_headers. split_and!.
  - intros t Ht Hne. rewrite Ht. rewrite (proj2 (truthy_true t) Hne).
    by rewrite assoc_obj_set.
  - intros [Ht|Ht]; rewrite Ht; simpl; rewrite assoc_obj_spread;
      by destruct (assoc "Authorization" _).
  - assert (assoc "Content-Type"
      (obj_spread [("Content-Type", "application/json")] (opt_headers options)) =
      Some (assoc "Content-Type" (rev (opt_headers options)) ?? "application/json")) as Hb.
    { rewrite assoc_obj_spread. by destruct (assoc "Content-Type" (rev _)). }
    destruct (opt_token options) as [t|]; [|exact Hb].
    destruct (truthy t); [|exact Hb]. rewrite assoc_obj_set. exact Hb.
Qed.
End client_facts.
