(* ===== verification/Api.v ===== *)
(** * REST calls: ui/lib/api/devices.ts, certificates.ts, organizations.ts, shell.ts

    The records the pages receive, and one definition per exported function.
    A function typed [Promise<T>] returns the parsed body, which TypeScript
    does not check; [None] is [undefined]. *)

From S2P Require Import Prelude JsString JsNumber UrlCodec Json Endpoints ApiClient.

(** ** Data *)

(** A metric the server may leave out is optional; the status itself is
    optional because the pages read it with [?.]. *)
Record DeviceStatus := {
  cpuUsagePercent : option number;
  memoryUsedBytes : Z;
  memoryTotalBytes : Z;
  diskUsedBytes : Z;
  diskTotalBytes : Z;
  uptimeSeconds : Z;
  lastReconcile : option string;
  reconcileStatus : string
}.

Record Device := {
  deviceId : string;
  hostname : string;
  architecture : string;
  os : string;
  agentVersion : string;
  labels : option (list (string * string));
  dev_state : string;
  registeredAt : string;
  lastHeartbeat : option string;
  autoUpdate : option bool;
  dev_status : option DeviceStatus
}.

Record CertificateRequest := {
  cr_id : Z;
  cr_deviceId : string;
  cr_name : string;
  cr_commonName : string;
  cr_sans : list string;
  cr_type : string;
  cr_state : string;
  cr_rejectReason : option string;
  cr_reviewedAt : option string;
  cr_createdAt : string
}.

Record Certificate := {
  c_id : Z;
  c_deviceId : string;
  c_name : string;
  c_commonName : string;
  c_serialNumber : string;
  c_status : string;
  c_notBefore : string;
  c_notAfter : string;
  c_revoked : bool;
  c_revokeReason : option string;
  c_createdAt : string
}.

Record OrgMembership := {
  om_id : Z;
  om_name : string;
  om_slug : string;
  om_role : string
}.

Record MeUser := {
  mu_id : Z;
  mu_email : string;
  mu_displayName : string;
  mu_avatarUrl : option string;
  mu_createdAt : string
}.

Record MeResponse := {
  me_user : MeUser;
  me_organizations : list OrgMembership
}.

Record AuditLogEntry := {
  al_id : Z;
  al_userId : Z;
  al_userEmail : option string;
  al_action : string;
  al_resourceType : string;
  al_resourceId : string;
  al_details : option json;
  al_createdAt : string
}.

Record TelemetryDataPoint := {
  tp_time : string;
  tp_cpuUsagePercent : option number;
  tp_memoryUsedBytes : Z;
  tp_memoryTotalBytes : Z;
  tp_diskUsedBytes : Z;
  tp_diskTotalBytes : Z;
  tp_uptimeSeconds : Z;
  tp_reconcileStatus : string
}.

Inductive TelemetryBucket := bucket_raw | bucket_hourly.

Record LogParams := {
  lp_start : option string;
  lp_end : option string;
  lp_limit : option Z;
  lp_level : option string;
  lp_search : option string
}.

(** ** Calls *)

Definition with_token (token : string) : FetchOptions :=
  {| opt_method := None; opt_headers := []; opt_body := None; opt_token := Some token |}.
Definition with_method (m token : string) : FetchOptions :=
  {| opt_method := Some m; opt_headers := []; opt_body := None; opt_token := Some token |}.
Definition with_body (m token body : string) : FetchOptions :=
  {| opt_method := Some m; opt_headers := []; opt_body := Some body; opt_token := Some token |}.

(** [if (v) q.set(k, v)] for an optional string. *)
Definition set_if (k : string) (v : option string) (q : params) : params :=
  match v with
  | Some s => if truthy s then params_set k s q else q
  | None => q
  end.
Definition set_if_num (k : string) (v : option Z) (q : params) : params :=
  match v with
  | Some n => if n =? 0 then q else params_set k (number_to_string n) q
  | None => q
  end.
(** [if (v !== undefined) q.set(k, String(v))] *)
Definition set_if_defined (k : string) (v : option Z) (q : params) : params :=
  match v with
  | Some n => params_set k (number_to_string n) q
  | None => q
  end.

Definition logs_query (p : LogParams) : params :=
  let q := [] in
  let q := set_if "start" (lp_start p) q in
  let q := set_if "end" (lp_end p) q in
  let q := set_if_num "limit" (lp_limit p) q in
  let q := set_if "level" (lp_level p) q in
  set_if "search" (lp_search p) q.

Definition audit_query (page size : option Z) (action resourceType : option string) : params :=
  let q := [] in
  let q := set_if_defined "page" page q in
  let q := set_if_defined "size" size q in
  let q := set_if "action" action q in
  set_if "resourceType" resourceType q.

Section calls.
Context {S : Type} {env : Environment S}.

(** *** devices.ts *)

Definition listDevices (token : string) : io S (option json) :=
  apiFetch (endpoint_path devices_list) (with_token token).

Definition getDevice (token deviceId : string) : io S (option json) :=
  apiFetch (endpoint_path (devices_byId deviceId)) (with_token token).

Definition deleteDevice (token deviceId : string) : io S (option json) :=
  apiFetch (endpoint_path (devices_byId deviceId)) (with_method "DELETE" token).

Definition getDeviceCount (token : string) : io S (option json) :=
  apiFetch (endpoint_path devices_count) (with_token token).

Definition getDeviceManifest (token deviceId : string) : io S (option json) :=
  apiFetch (endpoint_path (devices_manifest deviceId)) (with_token token).

Definition getDeviceLogs (token deviceId : string) (p : LogParams) : io S (option json) :=
  apiFetch (endpoint_path (devices_logs deviceId) +++ "?" +++ form_serialize (logs_query p))
    (with_token token).

Definition updateDeviceManifest (token deviceId yamlContent : string) : io S (option json) :=
  apiFetch (endpoint_path (devices_manifest deviceId))
    (with_body "PUT" token (stringify (JObj [("content", JStr yamlContent)]))).

Definition updateDeviceLabels (token deviceId : string) (ls : list (string * string))
  : io S (option json) :=
  apiFetch (endpoint_path (devices_labels deviceId))
    (with_body "PUT" token (stringify (JObj (map (fun kv => (fst kv, JStr (snd kv))) ls)))).

Definition getDeviceTelemetry (token deviceId start finish : string)
    (bucket : option TelemetryBucket) : io S (option json) :=
  let path := match bucket with
              | Some bucket_hourly => endpoint_path (devices_telemetryHourly deviceId)
              | _ => endpoint_path (devices_telemetry deviceId)
              end in
  apiFetch (path +++ "?" +++ form_serialize [("start", start); ("end", finish)])
    (with_token token).

(** *** certificates.ts *)

Definition listCertificateRequests (token : string) : io S (option json) :=
  apiFetch (endpoint_path certificates_requests_list) (with_token token).

Definition listCertificates (token : string) : io S (option json) :=
  apiFetch (endpoint_path certificates_list) (with_token token).

Definition approveCertRequest (token : string) (requestId : Z) : io S (option json) :=
  apiFetch (endpoint_path (certificates_requests_approve requestId)) (with_method "POST" token).

Definition rejectCertRequest (token : string) (requestId : Z) (reason : option string)
  : io S (option json) :=
  apiFetch (endpoint_path (certificates_requests_reject requestId))
    (with_body "POST" token (stringify (JObj [("reason", JStr (reason ?? ""))]))).

Definition revokeCertificate (token : string) (certId : Z) : io S (option json) :=
  apiFetch (endpoint_path (certificates_revoke certId)) (with_method "POST" token).

Definition getCaCert (token : string) : io S string :=
  apiFetchText (endpoint_path certificates_ca) (with_token token).

(** *** organizations.ts *)

Definition getMe (token : string) : io S (option json) :=
  apiFetch (endpoint_path me) (with_token token).

Definition getOrganization (token : string) : io S (option json) :=
  apiFetch (endpoint_path organization_get) (with_token token).

Definition opt_field (k : string) (v : option string) : list (string * json) :=
  match v with Some s => [(k, JStr s)] | None => [] end.

Definition updateOrganization (token : string) (name description : option string)
  : io S (option json) :=
  apiFetch (endpoint_path organization_update)
    (with_body "PUT" token
      (stringify (JObj (opt_field "name" name ++ opt_field "description" description)))).

Definition listMembers (token : string) : io S (option json) :=
  apiFetch (endpoint_path organization_members_list) (with_token token).

Definition inviteMember (token email role : string) : io S (option json) :=
  apiFetch (endpoint_path organization_members_create)
    (with_body "POST" token (stringify (JObj [("email", JStr email); ("role", JStr role)]))).

Definition removeMember (token : string) (memberId : Z) : io S (option json) :=
  apiFetch (endpoint_path (organization_members_byId memberId)) (with_method "DELETE" token).

Definition listInvitations (token : string) : io S (option json) :=
  apiFetch (endpoint_path organization_invitations_list) (with_token token).

Definition revokeInvitation (token : string) (invitationId : Z) : io S (option json) :=
  apiFetch (endpoint_path (organization_invitations_byId invitationId))
    (with_method "DELETE" token).

Definition updateMemberRole (token : string) (memberId : Z) (role : string)
  : io S (option json) :=
  apiFetch (endpoint_path (organization_members_byId memberId))
    (with_body "PATCH" token (stringify (JObj [("role", JStr role)]))).

Definition listEnrollmentTokens (token : string) : io S (option json) :=
  apiFetch (endpoint_path enrollmentTokens_list) (with_token token).

Definition createEnrollmentToken (token description : string) (maxUses : json)
  : io S (option json) :=
  apiFetch (endpoint_path enrollmentTokens_create)
    (with_body "POST" token
      (stringify (JObj [("description", JStr description); ("maxUses", maxUses)]))).

Definition deleteEnrollmentToken (token : string) (tokenId : Z) : io S (option json) :=
  apiFetch (endpoint_path (enrollmentTokens_byId tokenId)) (with_method "DELETE" token).

Definition buildInstallerUrl (os arch tokenSecret : string) : string :=
  absoluteUrl (endpoint_path agent_installer +++ "?" +++
    form_serialize [("os", os); ("arch", arch); ("token", tokenSecret)]).

Definition listApiKeys (token : string) : io S (option json) :=
  apiFetch (endpoint_path apiKeys_list) (with_token token).

Definition createApiKey (token name : string) : io S (option json) :=
  apiFetch (endpoint_path apiKeys_create)
    (with_body "POST" token (stringify (JObj [("name", JStr name)]))).

Definition deleteApiKey (token : string) (keyId : Z) : io S (option json) :=
  apiFetch (endpoint_path (apiKeys_byId keyId)) (with_method "DELETE" token).

Definition listAuditLog (token : string) (page size : option Z)
    (action resourceType : option string) : io S (option json) :=
  let qs := form_serialize (audit_query page size action resourceType) in
  apiFetch (endpoint_path organization_auditLog +++ (if truthy qs then "?" +++ qs else ""))
    (with_token token).

(** *** shell.ts *)

Definition createShellSession (token deviceId : string) (rows cols : Z) : io S (option json) :=
  apiFetch (endpoint_path (devices_shell_sessions deviceId))
    (with_body "POST" token (stringify (JObj [("rows", JNum rows); ("cols", JNum cols)]))).

(** [origin]: [window.location.origin], absent on the server. *)
Definition shellWebSocketUrl (origin : option string) (ticket : string) : string :=
  let base := if truthy API_BASE_URL then API_BASE_URL else origin ?? "" in
  let wsBase := if String.prefix "http" base then "ws" +++ drop_string 4 base else base in
  wsBase +++ endpoint_path devices_shell_ws +++ "?ticket=" +++ encodeURIComponent ticket.
End calls.

(** ** Lemmas *)

Lemma params_set_fresh k v q :
  existsb (fun kv => String.eqb k (fst kv)) q = false -> params_set k v q = q ++ [(k, v)].
Proof. intros H. unfold params_set. by rewrite H. Qed.

Definition keep (k : string) (v : option string) : params :=
  match v with Some s => if truthy s then [(k, s)] else [] | None => [] end.
Definition keep_num (k : string) (v : option Z) : params :=
  match v with Some n => if n =? 0 then [] else [(k, number_to_string n)] | None => [] end.
Definition keep_defined (k : string) (v : option Z) : params :=
  match v with Some n => [(k, number_to_string n)] | None => [] end.

Definition keys_avoid (k : string) (q : params) : Prop :=
  existsb (fun kv => String.eqb k (fst kv)) q = false.

Lemma set_if_keep k v q : keys_avoid k q -> set_if k v q = q ++ keep k v.
Proof.
  intros H. destruct v as [s|]; simpl; [|by rewrite app_nil_r].
  destruct (truthy s); [by apply params_set_fresh|by rewrite app_nil_r].
Qed.

Lemma set_if_num_keep k v q : keys_avoid k q -> set_if_num k v q = q ++ keep_num k v.
Proof.
  intros H. destruct v as [n|]; simpl; [|by rewrite app_nil_r].
  destruct (n =? 0); [by rewrite app_nil_r|by apply params_set_fresh].
Qed.

Lemma set_if_defined_keep k v q : keys_avoid k q -> set_if_defined k v q = q ++ keep_defined k v.
Proof.
  intros H. destruct v as [n|]; simpl; [|by rewrite app_nil_r]. by apply params_set_fresh.
Qed.

Lemma keys_avoid_app k q1 q2 : keys_avoid k q1 -> keys_avoid k q2 -> keys_avoid k (q1 ++ q2).
Proof. unfold keys_avoid. intros H1 H2. by rewrite existsb_app, H1, H2. Qed.

Lemma keys_avoid_keep k k' v : k <> k' -> keys_avoid k (keep k' v).
Proof.
  intros H. destruct v as [s|]; [|done]. simpl. destruct (truthy s); [|done].
  unfold keys_avoid. simpl. by rewrite (proj2 (String.eqb_neq k k') H).
Qed.
Lemma keys_avoid_keep_num k k' v : k <> k' -> keys_avoid k (keep_num k' v).
Proof.
  intros H. destruct v as [n|]; [|done]. simpl. destruct (n =? 0); [done|].
  unfold keys_avoid. simpl. by rewrite (proj2 (String.eqb_neq k k') H).
Qed.
Lemma keys_avoid_keep_defined k k' v : k <> k' -> keys_avoid k (keep_defined k' v).
Proof.
  intros H. destruct v as [n|]; [|done].
  unfold keys_avoid. simpl. by rewrite (proj2 (String.eqb_neq k k') H).
Qed.
Lemma keys_avoid_nil k : keys_avoid k [].
Proof. done. Qed.
#[export] Hint Resolve keys_avoid_app keys_avoid_keep keys_avoid_keep_num
  keys_avoid_keep_defined keys_avoid_nil : js.

Ltac solve_avoid := repeat apply keys_avoid_app;
  first [apply keys_avoid_nil | apply keys_avoid_keep | apply keys_avoid_keep_num
        | apply keys_avoid_keep_defined]; discriminate.

Lemma logs_query_spec p :
  logs_query p = keep "start" (lp_start p) ++ keep "end" (lp_end p)
    ++ keep_num "limit" (lp_limit p) ++ keep "level" (lp_level p) ++ keep "search" (lp_search p).
Proof.
  unfold logs_query.
  repeat (rewrite set_if_keep || rewrite set_if_num_keep); try solve_avoid.
  by rewrite app_nil_l, <- !app_assoc.
Qed.

Lemma audit_query_spec page size action rt :
  audit_query page size action rt = keep_defined "page" page ++ keep_defined "size" size
    ++ keep "action" action ++ keep "resourceType" rt.
Proof.
  unfold audit_query.
  repeat (rewrite set_if_keep || rewrite set_if_defined_keep); try solve_avoid.
  by rewrite app_nil_l, <- !app_assoc.
Qed.

(** The query of a URL: what follows its first question mark. *)
Fixpoint url_query (s : string) : string :=
  match s with
  | EmptyString => EmptyString
  | String c s' => if Ascii.eqb c "?" then s' else url_query s'
  end.

Lemma url_query_app a q : has_char "?" a = false -> url_query (a +++ String "?" q) = q.
Proof.
  induction a as [|c a IH]; intros H; rewrite ?append_cons; cbn [url_query has_char] in *; [done|].
  bool_to_prop. rewrite Ascii.eqb_sym, H. by apply IH.
Qed.
