(* ===== verification/ApiFacts.v ===== *)
(** * Properties of the API calls

    What reaches the server: the query parameters a call sends are read back
    by a form-urlencoded parser, and the URLs the dashboard hands out (agent
    installer, remote shell) carry their arguments unchanged. *)

From S2P Require Import Prelude JsString UrlCodec Json Endpoints ApiClient Api.

(** The query parameters a server reads off a URL. *)
Definition query_of (url : string) : params := form_parse (url_query url).

Lemma query_of_serialize a q :
  has_char "?" a = false -> query_of (a +++ "?" +++ form_serialize q) = q.
Proof.
  intros H. unfold query_of. change ("?" +++ form_serialize q) with (String "?" (form_serialize q)).
  rewrite url_query_app by done. apply form_parse_serialize.
Qed.

Lemma query_of_none a : has_char "?" a = false -> query_of a = [].
Proof.
  intros H. unfold query_of. replace (url_query a) with ""; [done|].
  induction a as [|c a IH]; cbn [url_query has_char] in *; [done|].
  bool_to_prop. rewrite Ascii.eqb_sym, H. by apply IH.
Qed.

(** The optional query suffix of a call. *)
Lemma query_of_optional a q :
  has_char "?" a = false ->
  query_of (a +++ (if truthy (form_serialize q) then "?" +++ form_serialize q else "")) = q.
Proof.
  intros H. destruct (truthy (form_serialize q)) eqn:E; [by apply query_of_serialize|].
  rewrite query_of_none by by rewrite has_char_append, H.
  rewrite <- (form_parse_serialize q). by destruct (form_serialize q).
Qed.

Lemma endpoint_no_query e :
  (forall d, endpoint_device e = Some d -> has_char "?" d = false) ->
  has_char "?" (endpoint_path e) = false.
Proof.
  assert (forall n, has_char "?" (number_to_string n) = false) as Hn
    by (intros; by apply number_to_string_no_char).
  intros H. destruct e; cbn [endpoint_path endpoint_device] in *; unfold path, API_PREFIX;
    rewrite ?has_char_append, ?Hn; cbn; try done; by rewrite ?(H _ eq_refl).
Qed.

Section facts.
Context {S : Type} {env : Environment S}.

(** The requests a call sends from a fresh client. *)
Definition requests_of {A} (m : io S A) (s : S) : list Request := net_sent (fst (m (Net [] s))).

(** C:logs_query *)
Theorem logs_request token id p s :
  has_char "?" API_BASE_URL = false -> has_char "?" id = false ->
  exists rq, requests_of (getDeviceLogs token id p) s = [rq] /\ rq_method rq = "GET" /\
    startsWith (rq_url rq) (API_BASE_URL +++ endpoint_path (devices_logs id) +++ "?") = true /\
    query_of (rq_url rq) =
      keep "start" (lp_start p) ++ keep "end" (lp_end p) ++ keep_num "limit" (lp_limit p)
      ++ keep "level" (lp_level p) ++ keep "search" (lp_search p).
Proof.
  intros Hb Hid. unfold requests_of, getDeviceLogs. rewrite apiFetch_sent. cbn [net_sent app].
  eexists. split; [done|]. cbn [rq_method rawFetch_request with_token opt_method rq_url].
  unfold absoluteUrl, startsWith. split_and!; [done| |].
  - rewrite <- !append_assoc. apply prefix_app.
  - rewrite <- append_assoc, query_of_serialize; [apply logs_query_spec|].
    rewrite has_char_append, Hb. apply endpoint_no_query. by intros d [= <-].
Qed.

(** The audit log call is one GET whose query carries exactly the parameters that were
    given. *)
Theorem audit_request token page size action rt s :
  has_char "?" API_BASE_URL = false ->
  exists rq, requests_of (listAuditLog token page size action rt) s = [rq] /\
    rq_method rq = "GET" /\
    startsWith (rq_url rq) (API_BASE_URL +++ endpoint_path organization_auditLog) = true /\
    query_of (rq_url rq) =
      keep_defined "page" page ++ keep_defined "size" size
      ++ keep "action" action ++ keep "resourceType" rt.
Proof.
  intros Hb. unfold requests_of, listAuditLog. rewrite apiFetch_sent. cbn [net_sent app].
  eexists. split; [done|]. cbn [rq_method rawFetch_request with_token opt_method rq_url].
  unfold absoluteUrl, startsWith. split_and!; [done| |].
  - rewrite <- !append_assoc. apply prefix_app.
  - rewrite <- append_assoc, query_of_optional; [apply audit_query_spec|].
    rewrite has_char_append, Hb. by apply endpoint_no_query.
Qed.

(** A server reads os, arch and token back from the installer URL unchanged. *)
Theorem installer_url os arch secret :
  has_char "?" API_BASE_URL = false ->
  startsWith (buildInstallerUrl os arch secret) (API_BASE_URL +++ "/api/v1/agent/installer?") = true /\
  query_of (buildInstallerUrl os arch secret) = [("os", os); ("arch", arch); ("token", secret)].
Proof.
  intros Hb. unfold buildInstallerUrl, absoluteUrl, startsWith. split.
  - change "/api/v1/agent/installer?" with (endpoint_path agent_installer +++ "?").
    rewrite <- !append_assoc. apply prefix_app.
  - rewrite <- append_assoc. apply query_of_serialize.
    rewrite has_char_append, Hb. by apply endpoint_no_query.
Qed.

(** The base of the shell URL: the API origin, or the page's own. *)
Definition shell_base (origin : option string) : string :=
  if truthy API_BASE_URL then API_BASE_URL else origin ?? "".

(** C20. The shell URL is the API origin with the ws scheme, and a server reads the ticket
    back from its query unchanged. *)
Theorem shell_url origin ticket rest :
  shell_base origin = "http" +++ rest -> has_char "?" rest = false ->
  startsWith (shellWebSocketUrl origin ticket) ("ws" +++ rest +++ "/api/v1/devices/shell/ws?") = true /\
  query_of (shellWebSocketUrl origin ticket) = [("ticket", ticket)].
Proof.
  unfold shell_base. intros Hb Hr. unfold shellWebSocketUrl. cbv zeta. rewrite Hb.
  rewrite prefix_app. change (drop_string 4 ("http" +++ rest)) with rest.
  unfold startsWith, query_of. split.
  - change "/api/v1/devices/shell/ws?" with (endpoint_path devices_shell_ws +++ "?").
    change ("?ticket=" +++ encodeURIComponent ticket)
      with ("?" +++ "ticket=" +++ encodeURIComponent ticket).
    generalize ("ticket=" +++ encodeURIComponent ticket) as q. intros q.
    rewrite <- !append_assoc. apply prefix_app.
  - rewrite <- append_assoc. change ("?ticket=" +++ encodeURIComponent ticket)
      with (String "?" ("ticket" +++ String "=" (encodeURIComponent ticket))).
    rewrite url_query_app.
    + unfold form_parse. rewrite split_no_sep.
      * transitivity [form_parse_pair ("ticket" +++ String "=" (encodeURIComponent ticket))]; [done|].
        unfold form_parse_pair. rewrite cut_eq_app by done. by rewrite form_decode_component.
      * rewrite has_char_append. cbn. by rewrite (proj2 (component_no_delim ticket)).
    + rewrite !has_char_append, Hr. done.
Qed.
End facts.

(** ** Witnesses *)

Definition silent_env : Environment unit := {|
  server_fetch := fun _ s => (s, Throw "offline"); API_BASE_URL := "https://api.example" |}.

Definition sample_log_params : LogParams := {|
  lp_start := Some "2024-01-01T00:00:00Z"; lp_end := None; lp_limit := Some 200;
  lp_level := Some "error"; lp_search := Some "disk & cpu = 100%" |}.

Lemma logs_request_witness :
  exists rq, requests_of (getDeviceLogs (env:=silent_env) "t" "edge-1" sample_log_params) tt = [rq] /\
    rq_method rq = "GET" /\
    startsWith (rq_url rq) ("https://api.example" +++ endpoint_path (devices_logs "edge-1") +++ "?") = true /\
    query_of (rq_url rq) = [("start", "2024-01-01T00:00:00Z"); ("limit", "200"); ("level", "error");
                            ("search", "disk & cpu = 100%")].
Proof. exact (logs_request (env:=silent_env) "t" "edge-1" sample_log_params tt eq_refl eq_refl). Defined.

Lemma audit_request_witness :
  exists rq, requests_of (listAuditLog (env:=silent_env) "t" (Some 0) (Some 25) None (Some "device")) tt = [rq] /\
    rq_method rq = "GET" /\
    startsWith (rq_url rq) ("https://api.example" +++ endpoint_path organization_auditLog) = true /\
    query_of (rq_url rq) = [("page", "0"); ("size", "25"); ("resourceType", "device")].
Proof. exact (audit_request (env:=silent_env) "t" (Some 0) (Some 25) None (Some "device") tt eq_refl). Defined.

Lemma installer_url_witness :
  startsWith (buildInstallerUrl (env:=silent_env) "linux" "arm64" "a+b/c=")
    ("https://api.example" +++ "/api/v1/agent/installer?") = true /\
  query_of (buildInstallerUrl (env:=silent_env) "linux" "arm64" "a+b/c=")
    = [("os", "linux"); ("arch", "arm64"); ("token", "a+b/c=")].
Proof. exact (installer_url (env:=silent_env) "linux" "arm64" "a+b/c=" eq_refl). Defined.

Lemma shell_url_witness :
  startsWith (shellWebSocketUrl (env:=silent_env) None "x+y&z")
    ("ws" +++ "s://api.example" +++ "/api/v1/devices/shell/ws?") = true /\
  query_of (shellWebSocketUrl (env:=silent_env) None "x+y&z") = [("ticket", "x+y&z")].
Proof. exact (shell_url (env:=silent_env) None "x+y&z" "s://api.example" eq_refl eq_refl). Defined.
