(* ===== verification/Auth.v ===== *)
(** * Sessions: ui/lib/auth.ts, ui/middleware.ts, ui/components/refresh-error-guard.tsx

    The NextAuth callbacks that keep a Keycloak token alive, the session they
    expose, the route guard, and the component that sends a user whose refresh
    failed for good back to the sign-in page. *)

From S2P Require Import Prelude JsString UrlCodec ApiClient.

(** ** Data *)

(** A number that may be [NaN]; times are whole numbers. *)
Inductive num := Num (n : Z) | NaN.

(** The JWT fields of ui/types/next-auth.d.ts. *)
Record JWT := {
  jwt_accessToken : option string;
  jwt_refreshToken : option string;
  jwt_idToken : option string;
  jwt_expiresAt : option num;
  jwt_error : option string
}.

(** The account NextAuth passes on sign-in. *)
Record Account := {
  access_token : option string;
  refresh_token : option string;
  id_token : option string;
  expires_at : option num
}.

Record Session := {
  s_accessToken : option string;
  s_idToken : option string;
  s_logoutUrl : option string;
  s_error : option string
}.

(** The JSON object of a token endpoint reply. *)
Record TokenBody := {
  tb_access_token : option string;
  tb_refresh_token : option string;
  tb_id_token : option string;
  tb_expires_in : option Z;
  tb_error : option string
}.

(** What [response.json()] yields. *)
Inductive reply_body := NotJson | JsonNull | JsonObj (b : TokenBody).

(** What [fetch] does: the promise rejects, or a response comes back. *)
Inductive reply := FetchRejects | Reply (status : Z) (body : reply_body).

(** [issuer], the Keycloak client and the URLs come from the process environment. *)
Class AuthEnv := {
  issuer : string;
  KEYCLOAK_CLIENT_ID : option string;
  KEYCLOAK_CLIENT_SECRET : option string;
  AUTH_URL : option string;
  NEXTAUTH_URL : option string;
  SKIP_AUTH : option string;
  (** [new URL(s).href] without a query, [None] when the constructor throws *)
  url_href : string -> option string;
  (** [new URL(s).origin] *)
  url_origin : string -> string
}.

(** [Math.floor(now / 1000) + expires_in] *)
Definition expiry (now : Z) (expires_in : option Z) : num :=
  match expires_in with Some d => Num (now / 1000 + d) | None => NaN end.

(** [typeof expiresAt === "number" && Date.now() < expiresAt * 1000] *)
Definition unexpired (now : Z) (expiresAt : option num) : bool :=
  match expiresAt with Some (Num e) => now <? e * 1000 | _ => false end.

Definition truthy_opt (o : option string) : bool :=
  match o with Some s => truthy s | None => false end.

Definition RefreshTokenError : string := "RefreshTokenError".

Section callbacks.
Context {env : AuthEnv}.

Definition client_id : string := KEYCLOAK_CLIENT_ID ?? "edgeguardian-ui".

Definition refresh_request (refreshToken : string) : Request :=
  {| rq_method := "POST";
     rq_url := issuer +++ "/protocol/openid-connect/token";
     rq_headers := [("Content-Type", "application/x-www-form-urlencoded")];
     rq_body := Some (form_serialize
       [("grant_type", "refresh_token"); ("client_id", client_id);
        ("client_secret", KEYCLOAK_CLIENT_SECRET ?? ""); ("refresh_token", refreshToken)]) |}.

Definition sign_in (account : option Account) (token : JWT) : JWT :=
  match account with
  | Some a =>
      {| jwt_accessToken := access_token a; jwt_refreshToken := refresh_token a;
         jwt_idToken := id_token a; jwt_expiresAt := expires_at a;
         jwt_error := jwt_error token |}
  | None => token
  end.

Definition set_error (e : string) (t : JWT) : JWT :=
  {| jwt_accessToken := jwt_accessToken t; jwt_refreshToken := jwt_refreshToken t;
     jwt_idToken := jwt_idToken t; jwt_expiresAt := jwt_expiresAt t; jwt_error := Some e |}.

(** The body of the [response.ok] branch; [now] is the time it runs. *)
Definition refreshed_token (now : Z) (b : TokenBody) (t : JWT) : JWT :=
  {| jwt_accessToken := tb_access_token b;
     jwt_refreshToken := match tb_refresh_token b with
                         | Some r => Some r
                         | None => jwt_refreshToken t
                         end;
     jwt_idToken := if truthy_opt (tb_id_token b) then tb_id_token b else jwt_idToken t;
     jwt_expiresAt := Some (expiry now (tb_expires_in b));
     jwt_error := None |}.

(** The [jwt] callback: [now] is the clock at the expiry test, [server] the
    token endpoint, [later] the clock after its reply. An exception inside the
    [try] leaves the token as it is. *)
Definition jwt (now : Z) (server : Request -> reply) (later : Z)
    (token0 : JWT) (account : option Account) : JWT :=
  let token := sign_in account token0 in
  if unexpired now (jwt_expiresAt token) then token
  else if negb (truthy_opt (jwt_refreshToken token)) then set_error RefreshTokenError token
  else
    match server (refresh_request (jwt_refreshToken token ?? "")) with
    | FetchRejects => token
    | Reply st body =>
        if (200 <=? st) && (st <=? 299) then
          match body with
          | JsonObj b => refreshed_token later b token
          | NotJson | JsonNull => token
          end
        else if (400 <=? st) && (st <? 500) then
          match body with
          | JsonObj b =>
              if match tb_error b with Some e => String.eqb e "invalid_grant" | None => false end
              then set_error RefreshTokenError token else token
          | NotJson => token  (* catch(() => ({})) *)
          | JsonNull => token (* body.error throws *)
          end
        else token
    end.

(** [base.replace(/\/$/, "")] *)
Fixpoint strip_slash (s : string) : string :=
  match s with
  | EmptyString => EmptyString
  | String c EmptyString => if Ascii.eqb c "/" then EmptyString else s
  | String c s' => String c (strip_slash s')
  end.

Definition logout_base : string :=
  match AUTH_URL with Some u => u | None => NEXTAUTH_URL ?? "" end.

Definition logout_params (token : JWT) : params :=
  let q := if truthy_opt (jwt_idToken token)
           then params_set "id_token_hint" (jwt_idToken token ?? "") []
           else params_set "client_id" client_id [] in
  if truthy logout_base
  then params_set "post_logout_redirect_uri" (strip_slash logout_base +++ "/auth/login") q
  else q.

Definition session_callback (sess : Session) (token : JWT) : result exn Session :=
  match url_href (issuer +++ "/protocol/openid-connect/logout") with
  | None => Throw (NetworkError "Invalid URL")
  | Some href =>
      Ok {| s_accessToken := jwt_accessToken token;
            s_idToken := if truthy_opt (jwt_idToken token) then jwt_idToken token
                         else s_idToken sess;
            s_logoutUrl := Some (href +++ "?" +++ form_serialize (logout_params token));
            s_error := if truthy_opt (jwt_error token) then jwt_error token
                       else s_error sess |}
  end.

Definition authorized (auth : option Session) : bool :=
  match auth with Some _ => true | None => false end.

(** ** ui/middleware.ts *)

Inductive route_decision := NextResponse_next | NextResponse_redirect (url : string).

Definition middleware (auth : option Session) (url : string) : route_decision :=
  if match SKIP_AUTH with Some v => String.eqb v "true" | None => false end
  then NextResponse_next
  else match auth with
       | None =>
           NextResponse_redirect (url_origin url +++ "/auth/login?" +++
             form_serialize (params_set "callbackUrl" url []))
       | Some _ => NextResponse_next
       end.

(** [matcher]: the paths the middleware runs on. *)
Definition matcher (pathname : string) : bool :=
  existsb (fun p => startsWith pathname ("/" +++ p))
    ["dashboard"; "devices"; "certificates"; "audit"; "settings"].
End callbacks.

(** ** ui/components/refresh-error-guard.tsx *)

Inductive guard_effect := SignIn (provider : string).

(** The effect that runs whenever the session changes. *)
Definition RefreshErrorGuard (sess : option Session) : list guard_effect :=
  match sess with
  | Some s =>
      match s_error s with
      | Some e => if String.eqb e RefreshTokenError then [SignIn "keycloak"] else []
      | None => []
      end
  | None => []
  end.

(** ** Properties *)

Section properties.
Context {env : AuthEnv}.

(** The token endpoint says the refresh token is no longer good. *)
Definition rejected (r : reply) : bool :=
  match r with
  | Reply st (JsonObj b) =>
      (400 <=? st) && (st <? 500) &&
      match tb_error b with Some e => String.eqb e "invalid_grant" | None => false end
  | _ => false
  end.

Definition granted (r : reply) : option TokenBody :=
  match r with
  | Reply st (JsonObj b) => if (200 <=? st) && (st <=? 299) then Some b else None
  | _ => None
  end.

(** The token cannot be used and cannot be renewed. *)
Definition must_sign_in (now : Z) (server : Request -> reply) (t : JWT) : bool :=
  negb (unexpired now (jwt_expiresAt t)) &&
  (negb (truthy_opt (jwt_refreshToken t))
   || rejected (server (refresh_request (jwt_refreshToken t ?? "")))).

Lemma granted_not_rejected r b : granted r = Some b -> rejected r = false.
Proof.
  destruct r as [|st [| |b']]; try done. simpl. intros H.
  destruct ((200 <=? st) && (st <=? 299)) eqn:E; [|done]. bool_to_prop.
  by rewrite (proj2 (Z.leb_gt 400 st)) by lia.
Qed.

(** The callback on a request that is not a sign-in. *)
Lemma jwt_step now server later t :
  jwt now server later t None =
  if unexpired now (jwt_expiresAt t) then t
  else if must_sign_in now server t then set_error RefreshTokenError t
  else match granted (server (refresh_request (jwt_refreshToken t ?? ""))) with
       | Some b => refreshed_token later b t
       | None => t
       end.
Proof.
  unfold jwt, must_sign_in. cbn [sign_in].
  destruct (unexpired now (jwt_expiresAt t)) eqn:Eu; [done|]. cbn [negb andb].
  destruct (truthy_opt (jwt_refreshToken t)) eqn:Er; [|done]. cbn [negb orb].
  destruct (server _) as [|st body]; [done|].
  destruct ((200 <=? st) && (st <=? 299)) eqn:Eok.
  - destruct body as [| |b]; try done; cbn [granted rejected]. rewrite Eok.
    bool_to_prop. by rewrite (proj2 (Z.leb_gt 400 st)) by lia.
  - destruct ((400 <=? st) && (st <? 500)) eqn:E4;
      destruct body as [| |b]; try done; cbn [granted rejected]; by rewrite Eok, E4.
Qed.

(** C1. The jwt callback returns an unexpired token unchanged; an expired one is marked
    RefreshTokenError when it has no refresh token or the token endpoint answers 4xx
    invalid_grant, is renewed when the endpoint grants new tokens, and is left unchanged
    on every other outcome (network failure, 5xx, a body that is not JSON). *)
Theorem jwt_cases now server later t :
  let t' := jwt now server later t None in
  let r := server (refresh_request (jwt_refreshToken t ?? "")) in
  (unexpired now (jwt_expiresAt t) = true -> t' = t) /\
  (unexpired now (jwt_expiresAt t) = false ->
     (truthy_opt (jwt_refreshToken t) = false -> t' = set_error RefreshTokenError t) /\
     (truthy_opt (jwt_refreshToken t) = true ->
        (rejected r = true -> t' = set_error RefreshTokenError t) /\
        (forall b, granted r = Some b -> t' = refreshed_token later b t) /\
        (rejected r = false -> granted r = None -> t' = t))).
Proof.
  cbv zeta. rewrite jwt_step. unfold must_sign_in.
  destruct (unexpired now (jwt_expiresAt t)); [by split|]. cbn [negb andb].
  split; [done|]. intros _. destruct (truthy_opt (jwt_refreshToken t)); cbn [negb orb];
    (split; [done|]); [|done]. intros _. split_and!.
  - by intros ->.
  - intros b Hb. by rewrite (granted_not_rejected _ _ Hb), Hb.
  - by intros -> ->.
Qed.

Definition fresh_session : Session :=
  {| s_accessToken := None; s_idToken := None; s_logoutUrl := None; s_error := None |}.

Lemma guard_error t s :
  session_callback fresh_session t = Ok s ->
  RefreshErrorGuard (Some s) =
  (if match jwt_error t with Some e => String.eqb e RefreshTokenError | None => false end
   then [SignIn "keycloak"] else []).
Proof.
  unfold session_callback. destruct (url_href _); [|done]. intros [= <-].
  unfold RefreshErrorGuard. cbn [s_error fresh_session].
  destruct (jwt_error t) as [e|]; [|done]. cbn [truthy_opt].
  destruct (truthy e) eqn:E; [done|]. apply truthy_false in E as ->. done.
Qed.

(** An earlier call marked the token. *)
Definition marked (t : JWT) : bool :=
  match jwt_error t with Some e => String.eqb e RefreshTokenError | None => false end.

(** This call renews the token. *)
Definition renewed (now : Z) (server : Request -> reply) (t : JWT) : bool :=
  negb (unexpired now (jwt_expiresAt t)) && truthy_opt (jwt_refreshToken t) &&
  match granted (server (refresh_request (jwt_refreshToken t ?? ""))) with Some _ => true | None => false end.

(** C2. The browser is sent to sign in again exactly when the token has expired and either
    there is no refresh token or the token endpoint rejected it, or when an earlier call
    marked the token and this one does not renew it. *)
Theorem forced_sign_in now server later t s :
  session_callback fresh_session (jwt now server later t None) = Ok s ->
  RefreshErrorGuard (Some s) =
  if must_sign_in now server t || marked t && negb (renewed now server t) then [SignIn "keycloak"] else [].
Proof.
  intros Hs. rewrite (guard_error _ _ Hs), jwt_step. unfold must_sign_in, renewed. fold (marked t).
  destruct (unexpired now (jwt_expiresAt t)) eqn:Eu; cbn [negb andb orb]; [by rewrite andb_true_r|].
  destruct (truthy_opt (jwt_refreshToken t)) eqn:Er; cbn [negb andb orb]; [|done].
  set (r := server _). destruct (rejected r) eqn:Ej; [done|]. cbn [orb].
  destruct (granted r) as [b|]; cbn [orb negb]; [by rewrite andb_false_r|]. by rewrite andb_true_r.
Qed.

Lemma unexpired_spec now e : unexpired now (Some (Num e)) = true <-> now < e * 1000.
Proof. apply Z.ltb_lt. Qed.

(** C11. A granted refresh installs the new access token, clears the error, and is used
    unchanged until its announced lifetime is over. *)
Theorem refreshed_token_is_used now server later t b d :
  unexpired now (jwt_expiresAt t) = false ->
  jwt_refreshToken t <> None -> jwt_refreshToken t <> Some "" ->
  granted (server (refresh_request (jwt_refreshToken t ?? ""))) = Some b ->
  tb_expires_in b = Some d ->
  let t' := jwt now server later t None in
  jwt_accessToken t' = tb_access_token b /\ jwt_error t' = None /\
  forall now' server' later', now' < (later / 1000 + d) * 1000 ->
    jwt now' server' later' t' None = t'.
Proof.
  intros Hu Hr1 Hr2 Hg Hd. cbv zeta.
  assert (jwt now server later t None = refreshed_token later b t) as ->.
  { rewrite jwt_step, Hu. unfold must_sign_in. rewrite Hu, Hg, (granted_not_rejected _ _ Hg).
    destruct (jwt_refreshToken t) as [r|]; [|done]. cbn [truthy_opt].
    rewrite (proj2 (truthy_true r)) by congruence. done. }
  split; [done|]. split; [done|]. intros now' server' later' Hn.
  rewrite jwt_step. cbn [refreshed_token jwt_expiresAt]. rewrite Hd. cbn [expiry].
  by rewrite (proj2 (unexpired_spec _ _) Hn).
Qed.

(** One call of the callback after another, each with its own clock readings
    and token endpoint. *)
Record call := { at_now : Z; at_server : Request -> reply; at_later : Z }.
Definition jwt_run (t : JWT) (calls : list call) : JWT :=
  fold_left (fun t c => jwt (at_now c) (at_server c) (at_later c) t None) calls t.

(** The endpoint never rotates a refresh token to the empty string. *)
Definition rotates_nonempty (c : call) : Prop :=
  forall rq b, granted (at_server c rq) = Some b -> tb_refresh_token b <> Some "".

Lemma jwt_keeps_refresh_token c t :
  rotates_nonempty c -> truthy_opt (jwt_refreshToken t) = true ->
  truthy_opt (jwt_refreshToken (jwt (at_now c) (at_server c) (at_later c) t None)) = true.
Proof.
  intros Hc Ht. rewrite jwt_step.
  destruct (unexpired _ _); [done|]. destruct (must_sign_in _ _ _); [done|].
  destruct (granted _) as [b|] eqn:Eg; [|done]. apply Hc in Eg. cbn [refreshed_token jwt_refreshToken].
  destruct (tb_refresh_token b) as [r|]; [|done]. apply truthy_true. congruence.
Qed.

(** C10. Over any sequence of jwt calls, a token that has a refresh token keeps one,
    provided the endpoint never rotates it to the empty string. *)
Theorem refresh_token_never_lost calls t :
  Forall rotates_nonempty calls -> truthy_opt (jwt_refreshToken t) = true ->
  truthy_opt (jwt_refreshToken (jwt_run t calls)) = true.
Proof.
  unfold jwt_run. intros Hc. revert t. induction Hc as [|c calls Hc Hcs IH]; intros t Ht; [done|].
  cbn [fold_left]. apply IH. by apply jwt_keeps_refresh_token.
Qed.

(** An expired token without a refresh token is marked once and stays marked: no later
    call revives it. *)
Theorem lost_session_is_final calls now server later t :
  unexpired now (jwt_expiresAt t) = false ->
  truthy_opt (jwt_refreshToken t) = false ->
  Forall (fun c => now <= at_now c) calls ->
  jwt_run (jwt now server later t None) calls = set_error RefreshTokenError t.
Proof.
  intros Hu Hr Hc.
  assert (forall n sv l u, now <= n -> u = t \/ u = set_error RefreshTokenError t ->
    jwt n sv l u None = set_error RefreshTokenError t) as Hstep.
  { intros n sv l u Hn Hor. rewrite jwt_step.
    assert (jwt_expiresAt u = jwt_expiresAt t /\ jwt_refreshToken u = jwt_refreshToken t) as [He Hf]
      by (by destruct Hor as [->| ->]).
    assert (unexpired n (jwt_expiresAt t) = false) as Hx.
    { destruct (jwt_expiresAt t) as [[e|]|]; try done. simpl in *. bool_to_prop. apply Z.ltb_ge. lia. }
    unfold must_sign_in. rewrite He, Hf, Hx, Hr. cbn [negb andb orb].
    by destruct Hor as [->| ->]. }
  rewrite (Hstep now server later t) by auto using Z.le_refl.
  unfold jwt_run. induction Hc as [|c calls Hc Hcs IH]; [done|].
  cbn [fold_left]. rewrite Hstep; auto.
Qed.

Lemma strip_slash_spec s : strip_slash (s +++ "/") = s.
Proof.
  induction s as [|c s IH]; [done|]. rewrite append_cons. cbn [strip_slash]. rewrite IH.
  destruct (s +++ "/") eqn:E; [|done]. by destruct s.
Qed.

(** The logout URL carries the id token as hint, or else the client id, and the login
    page to return to. *)
Theorem logout_url_query sess t s :
  session_callback sess t = Ok s ->
  exists href, url_href (issuer +++ "/protocol/openid-connect/logout") = Some href /\
    exists q, s_logoutUrl s = Some (href +++ "?" +++ q) /\
      form_parse q =
        (match jwt_idToken t with
         | Some i => if truthy i then ("id_token_hint", i) else ("client_id", client_id)
         | None => ("client_id", client_id)
         end) ::
        (if truthy logout_base
         then [("post_logout_redirect_uri", strip_slash logout_base +++ "/auth/login")] else []).
Proof.
  unfold session_callback. destruct (url_href _) as [href|]; [|done]. intros [= <-].
  exists href. split; [done|]. eexists. split; [done|]. rewrite form_parse_serialize.
  unfold logout_params. destruct (jwt_idToken t) as [i|]; cbn [truthy_opt];
    [destruct (truthy i)|]; by destruct (truthy logout_base).
Qed.

(** C12. Unless authentication is switched off, a request without a session is redirected to
    the login page with its own URL as callbackUrl, and one with a session never is. *)
Theorem middleware_protects auth url :
  SKIP_AUTH <> Some "true" ->
  (forall u, middleware auth url <> NextResponse_redirect u) /\ auth <> None \/
  auth = None /\ exists q,
    middleware auth url = NextResponse_redirect (url_origin url +++ "/auth/login?" +++ q) /\
    form_parse q = [("callbackUrl", url)].
Proof.
  intros Hskip. unfold middleware.
  assert (match SKIP_AUTH with Some v => String.eqb v "true" | None => false end = false) as ->.
  { destruct SKIP_AUTH as [v|]; [|done]. apply String.eqb_neq. congruence. }
  destruct auth; [by left|]. right. split; [done|].
  eexists. split; [done|]. by rewrite form_parse_serialize.
Qed.
End properties.

(** ** Concrete environment and witnesses *)

#[export] Instance sample_auth_env : AuthEnv := {|
  issuer := "http://localhost:3000/kc/realms/edgeguardian";
  KEYCLOAK_CLIENT_ID := None; KEYCLOAK_CLIENT_SECRET := None;
  AUTH_URL := Some "http://localhost:3000/"; NEXTAUTH_URL := None; SKIP_AUTH := None;
  url_href := Some; url_origin := fun _ => "http://localhost:3000"
|}.

Definition sample_token : JWT := {|
  jwt_accessToken := Some "a0"; jwt_refreshToken := Some "r0"; jwt_idToken := Some "i0";
  jwt_expiresAt := Some (Num 1000); jwt_error := None |}.

Definition sample_body : TokenBody := {|
  tb_access_token := Some "a1"; tb_refresh_token := None; tb_id_token := None;
  tb_expires_in := Some 300; tb_error := None |}.

Definition grants (_ : Request) : reply := Reply 200 (JsonObj sample_body).
Definition unavailable (_ : Request) : reply := Reply 503 NotJson.

Definition sample_session : Session :=
  match session_callback fresh_session (jwt 2000000 unavailable 2000100 sample_token None) with
  | Ok s => s
  | Throw _ => fresh_session
  end.

(** A marked token stays marked while the endpoint is unavailable. *)
Definition marked_session : Session :=
  match session_callback fresh_session
          (jwt 2000000 unavailable 2000100 (set_error RefreshTokenError sample_token) None) with
  | Ok s => s
  | Throw _ => fresh_session
  end.

Lemma forced_sign_in_witness :
  RefreshErrorGuard (Some sample_session) = [] /\ RefreshErrorGuard (Some marked_session) = [SignIn "keycloak"].
Proof.
  split.
  - exact (forced_sign_in 2000000 unavailable 2000100 sample_token sample_session eq_refl).
  - exact (forced_sign_in 2000000 unavailable 2000100 (set_error RefreshTokenError sample_token)
      marked_session eq_refl).
Defined.

Lemma refreshed_token_is_used_witness :
  jwt 2200000 unavailable 2200000 (jwt 2000000 grants 2000100 sample_token None) None
  = jwt 2000000 grants 2000100 sample_token None.
Proof.
  apply (refreshed_token_is_used 2000000 grants 2000100 sample_token sample_body 300);
    [reflexivity | discriminate | discriminate | reflexivity | reflexivity | reflexivity].
Defined.

Definition sample_calls : list call :=
  [{| at_now := 2000000; at_server := grants; at_later := 2000100 |};
   {| at_now := 9000000; at_server := unavailable; at_later := 9000100 |}].

Lemma refresh_token_never_lost_witness :
  truthy_opt (jwt_refreshToken (jwt_run sample_token sample_calls)) = true.
Proof.
  apply (refresh_token_never_lost sample_calls sample_token); [|reflexivity].
  repeat constructor; intros rq b; vm_compute; [intros [= <-]; discriminate|discriminate].
Defined.

Lemma lost_session_is_final_witness :
  jwt_run (jwt 2000000 grants 2000100 (set_error "x" {| jwt_accessToken := Some "a0";
    jwt_refreshToken := None; jwt_idToken := None; jwt_expiresAt := Some (Num 1000);
    jwt_error := None |}) None) sample_calls
  = set_error RefreshTokenError {| jwt_accessToken := Some "a0"; jwt_refreshToken := None;
      jwt_idToken := None; jwt_expiresAt := Some (Num 1000); jwt_error := None |}.
Proof.
  apply (lost_session_is_final sample_calls 2000000 grants 2000100
    (set_error "x" {| jwt_accessToken := Some "a0"; jwt_refreshToken := None;
       jwt_idToken := None; jwt_expiresAt := Some (Num 1000); jwt_error := None |}));
    [reflexivity | reflexivity | repeat constructor; discriminate].
Defined.

Lemma logout_url_query_witness :
  exists href, url_href (issuer +++ "/protocol/openid-connect/logout") = Some href /\
    exists q, s_logoutUrl sample_session = Some (href +++ "?" +++ q) /\
      form_parse q = [("id_token_hint", "i0");
                      ("post_logout_redirect_uri", "http://localhost:3000/auth/login")].
Proof. exact (logout_url_query fresh_session sample_token sample_session eq_refl). Defined.

Lemma middleware_protects_witness :
  (forall u, middleware None "http://localhost:3000/devices" <> NextResponse_redirect u)
    /\ @None Session <> None \/
  @None Session = None /\ exists q,
    middleware None "http://localhost:3000/devices" =
      NextResponse_redirect ("http://localhost:3000" +++ "/auth/login?" +++ q) /\
    form_parse q = [("callbackUrl", "http://localhost:3000/devices")].
Proof.
  refine (middleware_protects None "http://localhost:3000/devices" _). discriminate.
Defined.
