(* ===== verification/PollingHistory.v ===== *)
(** * Bounded metric history: ui/lib/hooks/use-polling-history.ts

    The hook keeps a [Map] from a metric name to an array that [push] mutates in
    place and [get] hands out by reference, so the arrays live in a store and
    the map holds their locations. *)

From S2P Require Import Prelude JsNumber JsArray.

Definition MAX_POINTS : Z := 30.

Record history := History {
  h_store : list (list number);
  h_map : gmap string nat
}.

Definition new_history : history := History [] ∅.

Definition read (st : history) (loc : nat) : list number := h_store st !! loc ?? [].

(** [history.get(key) ?? []]: a missing key gets a fresh array. *)
Definition locate (key : string) (st : history) : nat * history :=
  match h_map st !! key with
  | Some loc => (loc, st)
  | None => (length (h_store st), History (h_store st ++ [[]]) (h_map st))
  end.

(** [arr.splice(0, n)] *)
Definition splice_front (n : Z) (l : list number) : list number :=
  drop (Z.to_nat (Z.min n (zlength l))) l.

Definition bound (maxPoints : Z) (l : list number) : list number :=
  if maxPoints <? zlength l then splice_front (zlength l - maxPoints) l else l.

Definition push (maxPoints : Z) (key : string) (value : option number) (st : history) : history :=
  match value with
  | None => st
  | Some v =>
      if isNaN v then st
      else
        let '(loc, st1) := locate key st in
        let arr := bound maxPoints (read st1 loc ++ [v]) in
        History (<[loc := arr]> (h_store st1)) (<[key := loc]> (h_map st1))
  end.

(** [historyRef.current.get(key) ?? []], dereferenced. *)
Definition get (key : string) (st : history) : list number :=
  match h_map st !! key with Some loc => read st loc | None => [] end.

(** ** Behaviour *)

Definition push_all (maxPoints : Z) (ops : list (string * option number)) (st : history) : history :=
  fold_left (fun st op => push maxPoints (fst op) (snd op) st) ops st.

Definition accepted (key : string) (op : string * option number) : list number :=
  if String.eqb key (fst op)
  then match snd op with Some v => if isNaN v then [] else [v] | None => [] end
  else [].

(** What a key was given: its values that are neither missing nor [NaN]. *)
Definition samples (key : string) (ops : list (string * option number)) : list number :=
  flat_map (accepted key) ops.

Definition last_n {A} (n : nat) (l : list A) : list A := drop (length l - n) l.

(** Locations are allocated and keys do not share an array. *)
Record wf (st : history) : Prop := {
  wf_alloc : forall k loc, h_map st !! k = Some loc -> (loc < length (h_store st))%nat;
  wf_inj : forall k1 k2 loc, h_map st !! k1 = Some loc -> h_map st !! k2 = Some loc -> k1 = k2
}.

Lemma wf_new : wf new_history.
Proof. split; intros *; cbn [new_history h_map]; rewrite lookup_empty; discriminate. Qed.

Lemma bound_last_n m l : 0 <= m -> bound m l = last_n (Z.to_nat m) l.
Proof.
  intros Hm. unfold bound, splice_front, last_n, zlength.
  destruct (m <? Z.of_nat (length l)) eqn:E; bool_to_prop.
  - f_equal. lia.
  - replace (length l - Z.to_nat m)%nat with 0%nat by lia. done.
Qed.

Lemma last_n_snoc {A} n (l : list A) x : last_n n (last_n n l ++ [x]) = last_n n (l ++ [x]).
Proof.
  unfold last_n. rewrite !length_app, length_drop. cbn [length].
  destruct (Nat.le_gt_cases (length l) n) as [H|H].
  - replace (length l - n)%nat with 0%nat by lia. rewrite drop_0. f_equal. lia.
  - rewrite <- (drop_app_le l [x] (length l - n)) by lia. rewrite drop_drop. f_equal. lia.
Qed.

Lemma locate_spec key st : wf st ->
  let '(loc, st1) := locate key st in
  read st1 loc = get key st /\ (loc < length (h_store st1))%nat /\ h_map st1 = h_map st /\
  (h_map st !! key = Some loc \/ h_map st !! key = None /\ loc = length (h_store st)) /\
  (forall k, get k st1 = get k st) /\ (length (h_store st) <= length (h_store st1))%nat.
Proof.
  intros [Ha Hi]. unfold locate, get. destruct (h_map st !! key) as [loc|] eqn:E.
  - split_and!; auto. by eapply Ha.
  - unfold read. cbn [h_store h_map]. rewrite length_app. cbn [length]. split_and!; auto; try lia.
    + rewrite lookup_app_r, Nat.sub_diag by lia. done.
    + intros k. destruct (h_map st !! k) as [l|] eqn:Ek; [|done].
      rewrite lookup_app_l; [done|]. by eapply Ha.
Qed.

Lemma push_spec m key value st : wf st ->
  wf (push m key value st) /\
  (forall k, get k (push m key value st) =
     match accepted k (key, value) with [] => get k st | vs => bound m (get k st ++ vs) end) /\
  (forall k loc, h_map st !! k = Some loc -> h_map (push m key value st) !! k = Some loc).
Proof.
  intros Hwf. unfold accepted. cbn [fst snd].
  destruct value as [v|]; [|by split_and!; [|intros k; destruct (String.eqb k key)|]].
  unfold push. destruct (isNaN v); [by split_and!; [|intros k; destruct (String.eqb k key)|]|].
  pose proof (locate_spec key st Hwf) as Hl. destruct (locate key st) as [loc st1].
  destruct Hl as (Hr & Hlen & Hmap & Hcase & Hget & Hle). destruct Hwf as [Ha Hi].
  assert (forall k, k <> key -> h_map st !! k <> Some loc) as Hother.
  { intros k Hk Hs. destruct Hcase as [Hc|[_ ->]].
    - apply Hk. by eapply Hi.
    - apply Ha in Hs. lia. }
  split_and!.
  - split; cbn [h_map h_store]; rewrite ?length_insert, Hmap.
    + intros k l Hk. destruct (decide (key = k)) as [<-|Hne].
      * rewrite lookup_insert_eq in Hk. by injection Hk as <-.
      * rewrite lookup_insert_ne in Hk by done. apply Ha in Hk. lia.
    + intros k1 k2 l H1 H2.
      destruct (decide (key = k1)) as [<-|Hn1], (decide (key = k2)) as [<-|Hn2]; try done;
        simplify_map_eq.
      * exfalso. eapply (Hother k2); [by apply not_eq_sym|eassumption].
      * exfalso. eapply (Hother k1); [by apply not_eq_sym|eassumption].
      * by eapply Hi.
  - intros k. destruct (String.eqb_spec k key) as [->|Hne].
    + unfold get at 1. cbn [h_map]. rewrite lookup_insert_eq. unfold read at 1. cbn [h_store].
      rewrite list_lookup_insert_eq by done. by rewrite Hr.
    + rewrite <- (Hget k). unfold get. cbn [h_map]. rewrite lookup_insert_ne, Hmap by done.
      destruct (h_map st !! k) as [l|] eqn:Ek; [|done]. unfold read at 1. cbn [h_store].
      rewrite list_lookup_insert_ne; [done|]. intros <-. by eapply Hother.
  - intros k l Hk. cbn [h_map]. rewrite Hmap. destruct (decide (key = k)) as [<-|Hne].
    + rewrite lookup_insert_eq. destruct Hcase as [Hc|[Hc _]]; congruence.
    + by rewrite lookup_insert_ne.
Qed.

Lemma push_all_wf m ops st : wf st -> wf (push_all m ops st).
Proof.
  revert st. induction ops as [|op ops IH]; intros st H; [done|].
  cbn [push_all fold_left]. apply IH. by apply push_spec.
Qed.

(** C17. A polling history holds the most recent accepted samples of its key, at most
    maxPoints, in order. *)
Theorem history_is_recent_samples maxPoints ops key :
  0 <= maxPoints ->
  get key (push_all maxPoints ops new_history) =
  last_n (Z.to_nat maxPoints) (samples key ops).
Proof.
  intros Hm. induction ops as [|op ops IH] using rev_ind.
  - unfold get, push_all, new_history. cbn. by rewrite lookup_empty.
  - unfold push_all, samples. rewrite fold_left_app, flat_map_app. cbn [fold_left flat_map].
    rewrite app_nil_r. fold (push_all maxPoints ops new_history). fold (samples key ops).
    destruct (push_spec maxPoints (fst op) (snd op) (push_all maxPoints ops new_history)) as (_ & Hg & _).
    { apply push_all_wf, wf_new. }
    rewrite Hg. replace (fst op, snd op) with op by (by destruct op).
    assert (length (accepted key op) <= 1)%nat as Hlen.
    { unfold accepted. repeat case_match; simpl; lia. }
    destruct (accepted key op) as [|v [|? ?]]; [by rewrite app_nil_r, IH| |simpl in Hlen; lia].
    rewrite bound_last_n, IH by done. apply last_n_snoc.
Qed.

(** C:alias *)
Theorem handed_out_array_is_live maxPoints ops st key loc :
  wf st -> h_map st !! key = Some loc ->
  read (push_all maxPoints ops st) loc = get key (push_all maxPoints ops st).
Proof.
  intros Hwf Hk.
  assert (h_map (push_all maxPoints ops st) !! key = Some loc) as Hk'.
  { revert st Hwf Hk. induction ops as [|op ops IH]; intros st Hwf Hk; [done|].
    cbn [push_all fold_left]. apply IH; by apply push_spec. }
  unfold get. by rewrite Hk'.
Qed.

Lemma history_is_recent_samples_witness :
  get "cpu" (push_all 2 [("cpu", Some (num_of_Z 1)); ("memory", Some (num_of_Z 7)); ("cpu", None);
    ("cpu", Some (num_of_Z 2)); ("cpu", Some (num_of_Z 3))] new_history)
  = [num_of_Z 2; num_of_Z 3].
Proof.
  rewrite (history_is_recent_samples 2); [reflexivity|discriminate].
Defined.

Lemma handed_out_array_is_live_witness :
  read (push_all 2 [("cpu", Some (num_of_Z 5))] (push 2 "cpu" (Some (num_of_Z 1)) new_history)) 0
  = [num_of_Z 1; num_of_Z 5].
Proof.
  rewrite (handed_out_array_is_live 2 [("cpu", Some (num_of_Z 5))]
    (push 2 "cpu" (Some (num_of_Z 1)) new_history) "cpu" 0).
  - reflexivity.
  - apply (push_all_wf 2 [("cpu", Some (num_of_Z 1))] new_history wf_new).
  - reflexivity.
Defined.
