(* ===== verification/OrgContext.v ===== *)
(** * Current organization: ui/lib/hooks/use-organization.ts, ui/components/org-switcher.tsx

    The provider keeps the id of the selected organization, restores it from
    [localStorage] once the user is known, and offers it to every page; the
    switcher in the sidebar changes it. *)

From S2P Require Import Prelude JsString Vdom Api.

Record org_state := {
  org_me : option MeResponse;
  org_isLoading : bool;
  org_orgId : option Z;
  (** [localStorage["edgeguardian-org-id"]] *)
  org_stored : option string
}.

Definition org_find (id : option Z) (l : list OrgMembership) : option OrgMembership :=
  match id with
  | Some i => List.find (fun o => om_id o =? i) l
  | None => None
  end.

(** [undefined] and [0] are falsy. *)
Definition truthy_id (id : option Z) : bool :=
  match id with Some n => negb (n =? 0) | None => false end.

(** The effect that picks an organization once [me] is there and none is picked. *)
Definition org_effect (st : org_state) : org_state :=
  match org_me st with
  | Some m =>
      if truthy_id (org_orgId st) then st
      else
        let storedId := match org_stored st with
                        | Some s => if truthy s then parseInt s else None
                        | None => None
                        end in
        let found := org_find storedId (me_organizations m) in
        {| org_me := org_me st; org_isLoading := org_isLoading st;
           org_orgId := match found with
                        | Some o => Some (om_id o)
                        | None => om_id <$> head (me_organizations m)
                        end;
           org_stored := org_stored st |}
  | None => st
  end.

Inductive org_action :=
| SetOrgId (id : Z)
| MeArrives (m : MeResponse)
| MeFails
| Remount.

Definition setOrgId (id : Z) (st : org_state) : org_state :=
  {| org_me := org_me st; org_isLoading := org_isLoading st; org_orgId := Some id;
     org_stored := Some (number_to_string id) |}.

(** A change of state, then the effect that React runs after the render. *)
Definition org_update (st : org_state) (a : org_action) : org_state * list unit :=
  (org_effect
     match a with
     | SetOrgId id => setOrgId id st
     | MeArrives m =>
         {| org_me := Some m; org_isLoading := false; org_orgId := org_orgId st;
            org_stored := org_stored st |}
     | MeFails =>
         {| org_me := org_me st; org_isLoading := false; org_orgId := org_orgId st;
            org_stored := org_stored st |}
     | Remount =>
         {| org_me := None; org_isLoading := true; org_orgId := None; org_stored := org_stored st |}
     end, []).

Definition currentOrg (st : org_state) : option OrgMembership :=
  match org_me st with
  | Some m => org_find (org_orgId st) (me_organizations m)
  | None => None
  end.

(** ** ui/components/org-switcher.tsx *)

Definition org_item (org : OrgMembership) : node org_action :=
  Elt "SelectItem" [ANum "key" (om_id org); AStr "value" (number_to_string (om_id org))]
    [Elt "div" [cls "flex items-center gap-2"]
       [Elt "span" [] [Txt (om_name org)];
        Elt "Badge" [AStr "variant" "secondary"; cls "ml-auto text-[10px]"] [Txt (om_role org)]]].

Definition OrgSwitcher (st : org_state) : node org_action :=
  match org_me st with
  | None => Nothing
  | Some m =>
      match me_organizations m with
      | [] => Nothing
      | orgs =>
          Elt "Select"
            ((if truthy_id (org_orgId st)
              then [AStr "value" (number_to_string (org_orgId st ?? 0))] else [])
             ++ [AOnStr "onValueChange" (fun val => SetOrgId (js_Number val ?? 0))])
            [Elt "SelectTrigger" [cls "w-full"]
               [Elt "div" [cls "flex items-center gap-2 truncate"]
                  [icon "Building2" "h-4 w-4 shrink-0";
                   Elt "SelectValue" [AStr "placeholder" "Select organization"] []]];
             Elt "SelectContent" []
               [Frag (map org_item orgs)]]
      end
  end.

(** The switcher as a page. The profile is fetched again and again; [answers] are
    the profiles the server may answer with. *)
Definition org_page (answers : MeResponse -> Prop) : page org_state org_action unit := {|
  page_init := fun st => org_me st = None /\ org_orgId st = None;
  page_view := OrgSwitcher;
  page_update := org_update;
  page_extern := fun _ a =>
    match a with MeArrives m => answers m | MeFails | Remount => True | SetOrgId _ => False end
|}.

(** ** Properties *)

(** Database ids are positive and distinct. *)
Definition good_ids (m : MeResponse) : Prop :=
  List.NoDup (map om_id (me_organizations m)) /\
  Forall (fun o => 0 < om_id o) (me_organizations m).

Lemma org_find_In o l : List.NoDup (map om_id l) -> In o l -> org_find (Some (om_id o)) l = Some o.
Proof.
  induction l as [|x l IH]; intros Hd Hin; [done|]. cbn [map] in Hd.
  apply NoDup_cons_iff in Hd as [Hx Hd]. cbn [org_find List.find].
  destruct Hin as [->|Hin]; [by rewrite Z.eqb_refl|].
  destruct (om_id x =? om_id o) eqn:E; [|by apply IH]. bool_to_prop. exfalso. apply Hx.
  rewrite E. by apply in_map.
Qed.

Lemma org_find_sound id l o : org_find id l = Some o -> In o l /\ id = Some (om_id o).
Proof.
  destruct id as [i|]; [|done]. cbn [org_find]. intros H.
  apply List.find_some in H as [Hin Hi]. bool_to_prop. by subst.
Qed.

(** The organization the effect should end on. *)
Definition preferred (m : MeResponse) (stored : option string) : option OrgMembership :=
  match org_find (match stored with
                  | Some s => if truthy s then parseInt s else None
                  | None => None
                  end) (me_organizations m) with
  | Some o => Some o
  | None => head (me_organizations m)
  end.

(** C:org_restore *)
Theorem org_restored m st :
  good_ids m -> org_orgId st = None ->
  currentOrg (fst (org_update st (MeArrives m))) = preferred m (org_stored st).
Proof.
  intros [Hd _] Hn. unfold currentOrg, preferred, org_update, org_effect.
  cbn [fst org_me org_orgId org_stored]. rewrite Hn. cbn [truthy_id].
  destruct (org_find _ (me_organizations m)) as [o|] eqn:E; cbn [org_me org_orgId].
  - apply org_find_sound in E as [Hin _]. by apply org_find_In.
  - destruct (me_organizations m) as [|o l]; [done|]. apply org_find_In; [done|by left].
Qed.

(** The organization a user picked is the current one after the page is opened again. *)
Theorem org_choice_persists m st o :
  good_ids m -> In o (me_organizations m) ->
  currentOrg (fst (org_update (fst (org_update (fst (org_update st (SetOrgId (om_id o)))) Remount))
    (MeArrives m))) = Some o.
Proof.
  intros Hg Hin. set (st1 := fst (org_update st (SetOrgId (om_id o)))).
  assert (org_stored st1 = Some (number_to_string (om_id o))) as Hs.
  { unfold st1, org_update, org_effect, setOrgId. cbn [fst org_me org_orgId].
    destruct (org_me st); [|done]. by destruct (truthy_id _). }
  set (st2 := fst (org_update st1 Remount)).
  assert (org_orgId st2 = None /\ org_stored st2 = org_stored st1) as [Hn Hs2] by done.
  rewrite (org_restored m st2 Hg Hn), Hs2, Hs. unfold preferred.
  rewrite (proj2 (truthy_true _) (number_to_string_nonempty _)), parseInt_number_to_string.
  rewrite (org_find_In o); [done|apply Hg|done].
Qed.

Lemma org_switcher_events st :
  events true (OrgSwitcher st) =
  match org_me st with
  | Some m =>
      match me_organizations m with
      | [] => []
      | orgs => [EvChoice (fun val => SetOrgId (js_Number val ?? 0))
                   (map (fun o => number_to_string (om_id o)) orgs)]
      end
  | None => []
  end.
Proof.
  unfold OrgSwitcher. destruct (org_me st) as [m|]; [|done].
  destruct (me_organizations m) as [|o l]; [done|]. set (orgs := o :: l).
  assert (concat (map choices (map org_item orgs)) =
          map (fun o => number_to_string (om_id o)) orgs) as Hc.
  { rewrite concat_map_map. by apply concat_map_singleton. }
  assert (concat (map (events true) (map org_item orgs)) = []) as He.
  { rewrite concat_map_map. by apply concat_map_nil. }
  destruct (truthy_id (org_orgId st)); events_simpl; by rewrite !app_nil_r, Hc, He.
Qed.

Definition org_ids (m : MeResponse) : list Z := map om_id (me_organizations m).

Section members.
Context (answers : MeResponse -> Prop).
Hypothesis answers_good : forall m, answers m -> good_ids m.

(** The picked id comes from some profile, and is there once one with
    organizations was. *)
Record org_inv (st : org_state) : Prop := {
  oi_me : forall m, org_me st = Some m -> answers m;
  oi_id : forall id, org_orgId st = Some id -> exists m, answers m /\ In id (org_ids m);
  oi_picked : forall m, org_me st = Some m -> me_organizations m <> [] -> org_orgId st <> None
}.

Lemma org_id_truthy m id : answers m -> In id (org_ids m) -> truthy_id (Some id) = true.
Proof.
  intros Hm Hi. destruct (answers_good m Hm) as [_ Hp]. apply in_map_iff in Hi as (o & <- & Ho).
  rewrite List.Forall_forall in Hp. specialize (Hp o Ho). cbn. apply negb_true_iff, Z.eqb_neq. lia.
Qed.

Lemma org_effect_inv st :
  (forall m, org_me st = Some m -> answers m) ->
  (forall id, org_orgId st = Some id -> exists m, answers m /\ In id (org_ids m)) ->
  org_inv (org_effect st).
Proof.
  intros Hme Hid. unfold org_effect. destruct (org_me st) as [m|] eqn:Em.
  2: { split; [by rewrite Em|done|by rewrite Em]. }
  destruct (org_orgId st) as [id|] eqn:Eid.
  - destruct (Hid id eq_refl) as (m' & Hm' & Hi). rewrite (org_id_truthy m' id Hm' Hi).
    split; [by rewrite Em|by rewrite Eid|by rewrite Eid].
  - cbn [truthy_id]. set (sid := match org_stored st with Some _ => _ | None => _ end).
    pose proof (Hme m eq_refl) as Hm. split; cbn [org_me org_orgId]; [exact Hme| |].
    + destruct (org_find sid (me_organizations m)) as [o|] eqn:E.
      * apply org_find_sound in E as [Ho _]. intros id [= <-]. exists m. split; [done|]. by apply in_map.
      * intros id H. destruct (me_organizations m) as [|o l] eqn:El; [done|]. injection H as <-.
        exists m. split; [done|]. unfold org_ids. rewrite El. by left.
    + intros ? [= <-] Hne. destruct (org_find sid (me_organizations m)); [done|].
      by destruct (me_organizations m).
Qed.

Lemma org_inv_step st a :
  org_inv st -> fires (OrgSwitcher st) a \/ page_extern (org_page answers) st a ->
  org_inv (fst (org_update st a)).
Proof.
  intros [H1 H2 H3] Ha. unfold org_update. cbn [fst]. apply org_effect_inv.
  - destruct a; cbn [setOrgId org_me]; auto; [|discriminate]. intros m' [= <-].
    destruct Ha as [Ha|Ha]; [|done]. destruct Ha as (e & He & Hem). rewrite org_switcher_events in He.
    destruct (org_me st) as [m0|]; [|done]. destruct (me_organizations m0); [done|].
    destruct He as [<-|[]]. by destruct Hem as (? & _ & ?).
  - destruct a; cbn [setOrgId org_orgId]; auto; [|discriminate]. intros id' [= <-].
    destruct Ha as [(e & He & Hemit)|[]]. rewrite org_switcher_events in He.
    destruct (org_me st) as [m|] eqn:Em; [|done].
    exists m. split; [by apply H1|]. unfold org_ids. destruct (me_organizations m) as [|o l]; [done|].
    destruct He as [<-|[]]. destruct Hemit as (s & Hs & [= ->]). apply in_map_iff in Hs as (x & <- & Hx).
    rewrite js_Number_number_to_string. exact (in_map om_id _ _ Hx).
Qed.

Lemma org_reachable_inv st : page_reachable (org_page answers) st -> org_inv st.
Proof.
  revert st. apply page_invariant.
  - intros st [Hm Ho]. split; rewrite ?Hm, ?Ho; congruence.
  - intros st a Hi Ha. by apply org_inv_step.
Qed.

(** C16. Whatever profiles arrive (each with distinct, positive organization ids), fail to
    arrive or arrive again, and whatever the user picks: the current organization is the
    picked one as the loaded profile lists it. There is none exactly when the profile
    has no organizations or no longer the picked one, which cannot be while all profiles
    list the same ids, at least one. *)
Theorem org_always_member st m :
  page_reachable (org_page answers) st -> org_me st = Some m ->
  (forall o, currentOrg st = Some o -> In o (me_organizations m) /\ org_orgId st = Some (om_id o)) /\
  (currentOrg st = None <->
   me_organizations m = [] \/ exists id, org_orgId st = Some id /\ ~ In id (org_ids m)) /\
  ((forall m1 m2, answers m1 -> answers m2 -> org_ids m1 = org_ids m2) -> me_organizations m <> [] ->
   exists o, currentOrg st = Some o).
Proof.
  intros Hr Hm. apply org_reachable_inv in Hr as [H1 H2 H3]. specialize (H1 m Hm). specialize (H3 m Hm).
  assert (currentOrg st = None <->
    me_organizations m = [] \/ exists id, org_orgId st = Some id /\ ~ In id (org_ids m)) as Hnone.
  { unfold currentOrg. rewrite Hm. split.
    - intros H. destruct (decide (me_organizations m = [])) as [|Hne]; [by left|]. right.
      destruct (org_orgId st) as [id|]; [|by destruct (H3 Hne)]. exists id. split; [done|].
      intros Hi. apply in_map_iff in Hi as (o & <- & Ho).
      rewrite (org_find_In o) in H; [done|by apply answers_good|done].
    - intros [He|(id & Hid & Hn)]; [rewrite He; by destruct (org_orgId st)|].
      rewrite Hid. destruct (org_find _ _) as [o|] eqn:E; [|done].
      apply org_find_sound in E as [Ho [= ->]]. destruct Hn. exact (in_map om_id _ _ Ho). }
  split_and!; [|exact Hnone|].
  - intros o Ho. unfold currentOrg in Ho. rewrite Hm in Ho. by apply org_find_sound in Ho.
  - intros Hst Hne. destruct (currentOrg st) as [o|]; [by exists o|].
    destruct (proj1 Hnone eq_refl) as [E|(id & Hid & Hn)]; [done|].
    destruct (H2 id Hid) as (m' & Hm' & Hi). by rewrite (Hst m' m Hm' H1) in Hi.
Qed.
End members.

Definition sample_me : MeResponse := {|
  me_user := {| mu_id := 1; mu_email := "a@b.c"; mu_displayName := "A"; mu_avatarUrl := None;
                mu_createdAt := "2025-01-01" |};
  me_organizations :=
    [{| om_id := 7; om_name := "Acme"; om_slug := "acme"; om_role := "OWNER" |};
     {| om_id := 9; om_name := "Edge"; om_slug := "edge"; om_role := "VIEWER" |}] |}.

Definition sample_org_state : org_state :=
  {| org_me := None; org_isLoading := true; org_orgId := None; org_stored := Some "9" |}.

Lemma sample_me_good : good_ids sample_me.
Proof.
  split; [|by repeat constructor]. cbn. repeat constructor; cbn; intuition congruence.
Qed.

Lemma org_restored_witness :
  currentOrg (fst (org_update sample_org_state (MeArrives sample_me)))
  = preferred sample_me (Some "9").
Proof. exact (org_restored sample_me sample_org_state sample_me_good eq_refl). Defined.

Definition acme : OrgMembership :=
  {| om_id := 7; om_name := "Acme"; om_slug := "acme"; om_role := "OWNER" |}.

Lemma org_choice_persists_witness :
  currentOrg (fst (org_update (fst (org_update (fst (org_update sample_org_state
    (SetOrgId 7))) Remount)) (MeArrives sample_me))) = Some acme.
Proof.
  refine (org_choice_persists sample_me sample_org_state acme sample_me_good _). left. reflexivity.
Defined.

(** The user has left organization 9 in the meantime. *)
Definition sample_left : MeResponse := {| me_user := me_user sample_me; me_organizations := [acme] |}.

Definition sample_answers (m : MeResponse) : Prop := m = sample_me \/ m = sample_left.

Definition sample_loaded : org_state := fst (org_update sample_org_state (MeArrives sample_me)).
Definition sample_refetched : org_state := fst (org_update sample_loaded (MeArrives sample_left)).

Lemma sample_loaded_reachable : page_reachable (org_page sample_answers) sample_loaded.
Proof.
  eapply reach_step; [apply (reach_init (org_page sample_answers) sample_org_state); split; reflexivity|].
  apply (step_extern (org_page sample_answers) sample_org_state (MeArrives sample_me)). by left.
Qed.

Lemma sample_refetched_reachable : page_reachable (org_page sample_answers) sample_refetched.
Proof.
  apply (reach_step _ sample_loaded (MeArrives sample_left) _ sample_loaded_reachable).
  apply (step_extern (org_page sample_answers) sample_loaded (MeArrives sample_left)). by right.
Qed.

Lemma sample_answers_good m : sample_answers m -> good_ids m.
Proof.
  intros [->| ->]; [exact sample_me_good|]. split; [|by repeat constructor].
  cbn. repeat constructor; cbn; intuition congruence.
Qed.

(** The picked organization is gone, and no other one is current. *)
Lemma lost_organization_is_kept :
  org_orgId sample_refetched = Some 9 /\ currentOrg sample_refetched = None.
Proof. split; reflexivity. Qed.

Lemma org_always_member_witness :
  (exists o, currentOrg sample_loaded = Some o /\ In o (me_organizations sample_me)) /\
  (currentOrg sample_refetched = None <->
   me_organizations sample_left = [] \/
   exists id, org_orgId sample_refetched = Some id /\ ~ In id (org_ids sample_left)).
Proof.
  split.
  - eexists. split; [reflexivity|].
    exact (proj1 (proj1 (org_always_member sample_answers sample_answers_good sample_loaded sample_me
      sample_loaded_reachable eq_refl) _ eq_refl)).
  - exact (proj1 (proj2 (org_always_member sample_answers sample_answers_good sample_refetched sample_left
      sample_refetched_reachable eq_refl))).
Defined.
