(* ===== verification/Components.v ===== *)
(** * Shared components: ui/components

    The presentational components the pages are built from. Elements of
    ui/components/ui (Button, Badge, Card, ...) and of libraries are element
    tags; their props are attributes. *)

From S2P Require Import Prelude JsString Vdom.

(** [clsx] and [twMerge] are library code; [cn] of ui/lib/utils.ts composes them. *)
Class Styling := {
  clsx : list (option string) -> string;
  twMerge : string -> string
}.

(** date-fns and the formatting of dates: [formatDistanceToNow(new Date(s), { addSuffix: true })],
    [format(new Date(s), "yyyy-MM-dd HH:mm:ss")] and
    [new Date(s).toLocaleDateString("en-US", ...)]. *)
Class Dates := {
  formatDistanceToNow : string -> string;
  format_full : string -> string;
  toLocaleDateString : string -> string;
  (** [new Date(s).getTime()], in milliseconds; [None] is [NaN] *)
  getTime : string -> option Z;
  (** [new Date(ms).toISOString()] *)
  toISOString : Z -> string
}.

Section components.
Context {styling : Styling} {A : Type}.

Definition cn (inputs : list (option string)) : string := twMerge (clsx inputs).

(** A string-valued [&&]: false leaves the class out. *)
Definition class_if (c : bool) (s : string) : option string := if c then Some s else None.

(** An optional string prop, left out when [undefined]. *)
Definition opt_cls (c : option string) : list (attr A) :=
  match c with Some s => [cls s] | None => [] end.

(** ** page-header.tsx *)

Definition PageHeader (title : string) (description : option string)
    (children : list (node A)) (className : option string) : node A :=
  Elt "div" [cls (cn [Some "flex flex-col gap-1 sm:flex-row sm:items-center sm:justify-between"; className])]
    [Elt "div" []
       [Elt "h1" [cls "text-2xl font-bold tracking-tight"] [Txt title];
        match description with
        | Some d => when (truthy d) (Elt "p" [cls "text-sm text-muted-foreground mt-0.5"] [Txt d])
        | None => Nothing
        end];
     match children with
     | [] => Nothing
     | _ => Elt "div" [cls "flex items-center gap-2"] children
     end].

(** ** empty-state.tsx *)

Definition EmptyState (Icon : option string) (title : string) (description : option string)
    (children : list (node A)) : node A :=
  Elt "div" [cls "flex flex-col items-center justify-center py-12 text-center"]
    [Elt "div" [cls "flex h-16 w-16 items-center justify-center rounded-2xl bg-muted/50 border border-border/50"]
       [icon (Icon ?? "Inbox") "h-8 w-8 text-muted-foreground/50"];
     Elt "h3" [cls "mt-4 text-lg font-semibold"] [Txt title];
     match description with
     | Some d => when (truthy d) (Elt "p" [cls "mt-1 max-w-sm text-sm text-muted-foreground"] [Txt d])
     | None => Nothing
     end;
     match children with
     | [] => Nothing
     | _ => Elt "div" [cls "mt-4"] children
     end].

(** ** confirm-dialog.tsx *)

Inductive dialog_variant := variant_default | variant_destructive.

Definition ConfirmDialog (open : bool) (onOpenChange : bool -> A) (title description : string)
    (confirmLabel : option string) (variant : dialog_variant) (onConfirm : A) (loading : bool)
    : node A :=
  Elt "AlertDialog" [ABool "open" open; AOnBool "onOpenChange" onOpenChange]
    [Elt "AlertDialogContent" []
       [Elt "AlertDialogHeader" []
          [Elt "AlertDialogTitle" [] [Txt title];
           Elt "AlertDialogDescription" [] [Txt description]];
        Elt "AlertDialogFooter" []
          [Elt "AlertDialogCancel" [ABool "disabled" loading] [Txt "Cancel"];
           Elt "AlertDialogAction"
             ([AOn "onClick" onConfirm; ABool "disabled" loading] ++
              match variant with
              | variant_destructive =>
                  [cls "bg-destructive text-destructive-foreground hover:bg-destructive/90"]
              | variant_default => []
              end)
             [Txt (if loading then "Loading..." else confirmLabel ?? "Confirm")]]]].

(** ** state-badge.tsx *)

Record state_style := { classes : string; dot : string }.

Definition OFFLINE_style : state_style :=
  {| classes := "border-zinc-400/30 bg-zinc-400/10 text-zinc-500 dark:border-zinc-500/30 dark:bg-zinc-500/10 dark:text-zinc-400";
     dot := "bg-zinc-400 dark:bg-zinc-500" |}.

Definition stateConfig : list (string * state_style) :=
  [("ONLINE",
    {| classes := "border-emerald-500/30 bg-emerald-500/10 text-emerald-600 dark:border-emerald-400/30 dark:bg-emerald-400/10 dark:text-emerald-400";
       dot := "bg-emerald-500 dark:bg-emerald-400" |});
   ("OFFLINE", OFFLINE_style);
   ("DEGRADED",
    {| classes := "border-amber-500/30 bg-amber-500/10 text-amber-600 dark:border-amber-400/30 dark:bg-amber-400/10 dark:text-amber-400";
       dot := "bg-amber-500 dark:bg-amber-400" |});
   ("PENDING",
    {| classes := "border-blue-500/30 bg-blue-500/10 text-blue-600 dark:border-blue-400/30 dark:bg-blue-400/10 dark:text-blue-400";
       dot := "bg-blue-500 dark:bg-blue-400" |});
   ("UPDATING",
    {| classes := "border-violet-500/30 bg-violet-500/10 text-violet-600 dark:border-violet-400/30 dark:bg-violet-400/10 dark:text-violet-400";
       dot := "bg-violet-500 dark:bg-violet-400" |})].

(** An upper-case key never reaches [Object.prototype], see [upper_case_own]. *)
Definition state_style_of (state : string) : state_style :=
  match obj_get stateConfig (toUpperCase state) with
  | Own c => c
  | _ => OFFLINE_style
  end.

Definition StateBadge (state : string) (className : option string) : node A :=
  let config := state_style_of state in
  let isOnline := String.eqb (toUpperCase state) "ONLINE" in
  Elt "Badge" [AStr "variant" "outline"; cls (cn [Some "gap-1.5"; Some (classes config); className])]
    [Elt "span" [cls "relative flex h-2 w-2"]
       [when isOnline
          (Elt "span" [cls (cn [Some "absolute inline-flex h-full w-full animate-ping rounded-full opacity-50"; Some (dot config)])] []);
        Elt "span" [cls (cn [Some "relative inline-flex h-2 w-2 rounded-full"; Some (dot config)])] []];
     Txt state].

(** ** loading-skeleton.tsx *)

Definition Skeleton (c : string) : node A := Elt "Skeleton" [cls c] [].

Definition MetricCardSkeleton (keyed : option Z) : node A :=
  Elt "Card" (match keyed with Some k => [ANum "key" k] | None => [] end)
    [Elt "CardHeader" [cls "flex flex-row items-center justify-between space-y-0 pb-2"]
       [Skeleton "h-4 w-24"; Skeleton "h-4 w-4"];
     Elt "CardContent" [] [Skeleton "h-7 w-12"; Skeleton "mt-1 h-3 w-32"]].

Definition TableRowSkeleton (columns : nat) : node A :=
  Elt "tr" [cls "border-b"]
    [array_from columns (fun i =>
       Elt "td" [ANum "key" i; cls "p-3"] [Skeleton "h-4 w-full"])].

Definition DeviceDetailSkeleton : node A :=
  Elt "div" [cls "space-y-6"]
    [Elt "div" [cls "flex items-center gap-4"] [Skeleton "h-8 w-48"; Skeleton "h-6 w-20"];
     Elt "div" [cls "grid gap-4 md:grid-cols-2 lg:grid-cols-4"]
       [array_from 4 (fun i => MetricCardSkeleton (Some i))];
     Elt "Card" []
       [Elt "CardHeader" [] [Skeleton "h-5 w-32"];
        Elt "CardContent" [] [Skeleton "h-48 w-full"]]].

(** ** metric-card.tsx *)

Record metric_trend := { trend_value : Z; trend_label : string }.

Definition default_iconColor : string := "text-muted-foreground".

Definition trend_view (t : metric_trend) : node A :=
  Elt "p" [cls (cn [Some "mt-1 text-xs font-semibold";
                    Some (if 0 <=? trend_value t then "text-emerald-500 dark:text-emerald-400"
                          else "text-red-500 dark:text-red-400")])]
    [Txt (if 0 <=? trend_value t then "+" else "");
     Txt (number_to_string (trend_value t)); Txt "% "; Txt (trend_label t)].

Definition MetricCard (title value : string) (description : option string) (Icon : string)
    (iconColor : option string) (trend : option metric_trend) (chart : option (node A))
    (href className : option string) : node A :=
  let iconColor := iconColor ?? default_iconColor in
  let linked := match href with Some h => truthy h | None => false end in
  let content :=
    Elt "Card" [cls (cn [Some "group relative overflow-hidden";
                         class_if linked "cursor-pointer hover:border-primary/30"; className])]
      [Elt "div" [cls "absolute inset-x-0 top-0 h-px bg-gradient-to-r from-transparent via-primary/20 to-transparent"] [];
       Elt "CardHeader" [cls "flex flex-row items-center justify-between space-y-0 pb-2"]
         [Elt "CardTitle" [cls "text-sm font-medium text-muted-foreground"] [Txt title];
          Elt "div" [cls (cn [Some "flex h-8 w-8 items-center justify-center rounded-lg bg-primary/10";
                              class_if (String.eqb iconColor "text-muted-foreground") "bg-muted"])]
            [icon Icon (cn [Some "h-4 w-4"; Some iconColor])]];
       Elt "CardContent" []
         [Elt "div" [cls "flex items-end justify-between"]
            [Elt "div" []
               [Elt "div" [cls "text-2xl font-bold tracking-tight"] [Txt value];
                match description with
                | Some d => when (truthy d) (Elt "p" [cls "text-xs text-muted-foreground"] [Txt d])
                | None => Nothing
                end;
                match trend with Some t => trend_view t | None => Nothing end];
             match chart with
             | Some c => Elt "div" [cls "h-8 w-20"] [c]
             | None => Nothing
             end]]] in
  match href with
  | Some h => if truthy h then Elt "Link" [AStr "href" h] [content] else content
  | None => content
  end.

End components.

(** ** error-boundary.tsx

    [getDerivedStateFromError] records the error, the retry button clears it. *)

Record boundary_state := { hasError : bool; boundary_error : option string }.

Definition boundary_init : boundary_state := {| hasError := false; boundary_error := None |}.

Inductive boundary_action := ChildThrows (message : string) | TryAgain.

Definition boundary_update (s : boundary_state) (a : boundary_action) : boundary_state :=
  match a with
  | ChildThrows e => {| hasError := true; boundary_error := Some e |}
  | TryAgain => {| hasError := false; boundary_error := None |}
  end.

(** [retry] embeds the boundary's own action among those of the page. *)
Definition boundary_render {A} (retry : A) (s : boundary_state) (fallback : option (node A))
    (children : node A) : node A :=
  if hasError s then
    match fallback with
    | Some f => f
    | None =>
        Elt "Card" [cls "mx-auto mt-8 max-w-md"]
          [Elt "CardContent" [cls "flex flex-col items-center gap-4 p-8 text-center"]
             [icon "AlertTriangle" "h-10 w-10 text-destructive";
              Elt "div" []
                [Elt "h3" [cls "text-lg font-semibold"] [Txt "Something went wrong"];
                 Elt "p" [cls "mt-1 text-sm text-muted-foreground"]
                   [Txt (match boundary_error s with
                         | Some m => if truthy m then m else "An unexpected error occurred."
                         | None => "An unexpected error occurred."
                         end)]];
              Elt "Button" [AStr "variant" "outline"; AOn "onClick" retry]
                [icon "RotateCcw" "mr-2 h-4 w-4"; Txt "Try again"]]]
    end
  else children.

(** ** Handlers of the components *)

Section handlers.
Context {styling : Styling} {A : Type}.

Lemma PageHeader_events o t d (kids : list (node A)) c :
  events o (PageHeader t d kids c) = concat (map (events o) kids).
Proof.
  unfold PageHeader. destruct d as [d|]; [destruct (truthy d)|];
    destruct kids; events_simpl; by rewrite ?app_nil_r.
Qed.

Lemma EmptyState_events o i t d : events o (EmptyState (A:=A) i t d []) = [].
Proof.
  unfold EmptyState. destruct d as [d|]; [destruct (truthy d)|]; events_simpl;
    destruct (content_tag (i ?? "Inbox") && negb o); by destruct (dialog_tag (i ?? "Inbox")).
Qed.

(** A confirmation dialog can be dismissed while it is open, and confirms only
    while it is open and not busy. *)
Lemma ConfirmDialog_events open (toggle : bool -> A) t d l v (confirm : A) loading :
  events true (ConfirmDialog open toggle t d l v confirm loading) =
  (if open then [EvUnit (toggle false)] else [])
  ++ (if open && negb loading then [EvUnit confirm] else []).
Proof. unfold ConfirmDialog. by destruct open, loading, v. Qed.

Lemma StateBadge_events o s c : events o (StateBadge (A:=A) s c) = [].
Proof. unfold StateBadge. by destruct (String.eqb (toUpperCase s) "ONLINE"). Qed.

Lemma TableRowSkeleton_events o n : events o (TableRowSkeleton (A:=A) n) = [].
Proof.
  unfold TableRowSkeleton. events_simpl. rewrite app_nil_r. apply events_array_from.
  intros i. by vm_compute.
Qed.

Lemma MetricCard_events o t v d i ic tr ch h c :
  content_tag i = false -> dialog_tag i = false ->
  (forall n, ch = Some n -> events o n = []) ->
  events o (MetricCard (A:=A) t v d i ic tr ch h c) = [].
Proof.
  intros Hc Hd Hch. unfold MetricCard, trend_view.
  assert (match ch with Some n => events o n | None => [] end = []) as Hn
    by (destruct ch; auto).
  destruct h as [h|]; [destruct (truthy h)|]; destruct d as [d|]; try destruct (truthy d);
    destruct tr, ch; events_simpl; rewrite ?Hc, ?Hd; cbn [andb app]; rewrite ?Hn; done.
Qed.
End handlers.

(** ** Lookup by an upper-cased key *)

Lemma toUpperCase_no_lower s : forall_chars (fun c => negb (is_lower c)) (toUpperCase s) = true.
Proof.
  induction s as [|c s IH]; [done|]. unfold toUpperCase in *. cbn [map_string forall_chars]. rewrite IH.
  assert (negb (is_lower (upper_char c)) = true) as ->; [|done].
  clear. revert c. intros [[] [] [] [] [] [] [] []]; vm_compute; done.
Qed.

(** An upper-cased key is an own property or none. *)
Lemma upper_case_own {X} (o : list (string * X)) s : obj_get o (toUpperCase s) <> Inherited.
Proof.
  unfold obj_get. destruct (assoc _ o); [done|].
  assert (existsb (String.eqb (toUpperCase s)) object_prototype_keys = false) as ->; [|done].
  apply existsb_false_forall. intros k Hk. apply String.eqb_neq. intros Heq.
  pose proof (toUpperCase_no_lower s) as Hl. rewrite Heq in Hl.
  cbn in Hk. by repeat destruct Hk as [<-|Hk].
Qed.

#[export] Hint Rewrite @PageHeader_events @EmptyState_events @ConfirmDialog_events
  @StateBadge_events @TableRowSkeleton_events : js_rew.

(** ** Concrete library functions, for examples *)

Definition plain_styling : Styling := {|
  clsx := fun l => join " " (flat_map (fun o => match o with Some s => [s] | None => [] end) l);
  twMerge := fun s => s |}.

Definition plain_dates : Dates := {|
  formatDistanceToNow := fun s => s; format_full := fun s => s; toLocaleDateString := fun s => s;
  getTime := js_Number; toISOString := number_to_string |}.
