(* ===== verification/Charts.v ===== *)
(** * Charts: ui/components/{sparkline,mini-ring-chart,fleet-health-chart,
      resource-utilization-chart,device-resource-chart}.tsx

    A chart is a component that prepares rows of data and hands them, with the
    functions that format labels, to the elements of a drawing library. The
    tooltip formatters return a text and a name; the model has the text. *)

From S2P Require Import Prelude JsString JsNumber JsArray Vdom Api.

(** ** Data *)

Record slice_datum := { sd_name : string; sd_value : Z }.

Definition COLORS : list (string * string) :=
  [("Online", "#34d399"); ("Degraded", "#fbbf24"); ("Offline", "#71717a")].

Definition health_data (online degraded offline : Z) : list slice_datum :=
  List.filter (fun d => 0 <? sd_value d)
    [{| sd_name := "Online"; sd_value := online |}; {| sd_name := "Degraded"; sd_value := degraded |};
     {| sd_name := "Offline"; sd_value := offline |}].

Definition ring_data (value total : Z) : list Z := [value; Z.max 0 (total - value)].

Definition device_cpu (d : Device) : option number := dev_status d ≫= cpuUsagePercent.
Definition cpu_or_zero (d : Device) : number := device_cpu d ?? num_of_Z 0.
Definition reports_cpu (d : Device) : bool := match device_cpu d with Some _ => true | None => false end.

Record bar_datum := { bd_name : string; bd_cpu : number }.

(** The sign of [b - a], which is all [sort] reads. *)
Definition by_cpu (a b : Device) : Z :=
  let d := num_sub (cpu_or_zero b) (cpu_or_zero a) in
  if num_lt d (num_of_Z 0) then -1 else if num_gt d (num_of_Z 0) then 1 else 0.

Definition utilization_data (devices : list Device) : list bar_datum :=
  map (fun d => {| bd_name := hostname d; bd_cpu := math_round (cpu_or_zero d) |})
    (slice (sort_by by_cpu (List.filter reports_cpu devices)) 0 5).

Definition bar_color (cpu : number) : string :=
  if num_gt cpu (num_of_Z 80) then "#f87171"
  else if num_gt cpu (num_of_Z 50) then "#fbbf24" else "#06b6d4".

Record chart_point := { ch_time : string; ch_cpu : number; ch_memory : number }.

(** ** Labels *)

(** [`${name} ${(percent * 100).toFixed(0)}%`] *)
Definition slice_label (name : string) (percent : number) : string :=
  name +++ " " +++ to_fixed 0 (num_mul percent (num_of_Z 100)) +++ "%".

(** [`${value}%`] *)
Definition whole_percent (value : number) : string := number_text value +++ "%".

Definition tenth_percent (v : number) : string := to_fixed 1 v +++ "%".

Section charts.
(** [format(new Date(iso), pattern)] *)
Context {A : Type} (format : string -> string -> string).

(** An element of the drawing library that the page adds nothing to. *)
Definition plain (tag : string) : node A := Elt tag [] [].

Definition chart_box (height : Z) (chart : node A) : node A :=
  Elt "ResponsiveContainer" [AStr "width" "100%"; ANum "height" height] [chart].

Definition no_data (c text : string) : node A :=
  Elt "div" [cls (c +++ " items-center justify-center text-sm text-muted-foreground")] [Txt text].

Definition named (name : string) (k : string) (v : prop_value) : prop_value :=
  DObj [("name", DStr name); (k, v)].

Definition color_of (name : string) : string := assoc name COLORS ?? "".

Definition slice_cell (d : slice_datum) : node A :=
  Elt "Cell" [AStr "key" (sd_name d); AStr "fill" (color_of (sd_name d)); ANum "strokeWidth" 0] [].

Definition FleetHealthChart (online degraded offline : Z) : node A :=
  match health_data online degraded offline with
  | [] => no_data "flex h-[300px]" "No devices registered yet"
  | data =>
      chart_box 300
        (Elt "PieChart" []
           [Elt "Pie" [AProp "data" (DArr (map (fun d => named (sd_name d) "value" (DInt (sd_value d))) data));
                       AStr "cx" "50%"; AStr "cy" "50%"; ANum "innerRadius" 60; ANum "outerRadius" 100;
                       ANum "paddingAngle" 2; AStr "dataKey" "value"; AFormat "label" slice_label]
              [Frag (map slice_cell data)];
            plain "Tooltip"; plain "Legend"])
  end.

Definition MiniRingChart (value total : Z) (color : option string) (size : option Z) : node A :=
  let size := size ?? 36 in
  Elt "PieChart" [ANum "width" size; ANum "height" size]
    [Elt "Pie" [AProp "data" (DArr (map (fun v => DObj [("value", DInt v)]) (ring_data value total)));
                AStr "cx" "50%"; AStr "cy" "50%"; ANum "innerRadius" (size / 2 - 5);
                ANum "outerRadius" (size / 2 - 1); ANum "startAngle" 90; ANum "endAngle" (-270);
                ANum "paddingAngle" 0; AStr "dataKey" "value"; ABool "isAnimationActive" false]
       [Elt "Cell" [AStr "fill" (color ?? "#34d399"); ANum "strokeWidth" 0] [];
        Elt "Cell" [AStr "fill" "var(--color-muted)"; ANum "strokeWidth" 0] []]].

Definition bar_cell (d : bar_datum) : node A :=
  Elt "Cell" [AStr "key" (bd_name d); AStr "fill" (bar_color (bd_cpu d))] [].

Definition ResourceUtilizationChart (devices : list Device) : node A :=
  match utilization_data devices with
  | [] => no_data "flex h-[250px]" "No resource data available"
  | data =>
      chart_box 250
        (Elt "BarChart" [AProp "data" (DArr (map (fun d => named (bd_name d) "cpu" (DNum (bd_cpu d))) data));
                         AStr "layout" "vertical"; AProp "margin" (DObj [("left", DInt 10); ("right", DInt 20)])]
           [Elt "XAxis" [AStr "type" "number"; AProp "domain" (DArr [DInt 0; DInt 100]); AStr "unit" "%";
                         ANum "fontSize" 12] [];
            Elt "YAxis" [AStr "type" "category"; AStr "dataKey" "name"; ANum "width" 100;
                         ANum "fontSize" 12; ABool "tickLine" false] [];
            Elt "Tooltip" [AFormat "formatter" (fun _ value => whole_percent value)] [];
            Elt "Bar" [AStr "dataKey" "cpu"; AProp "radius" (DArr [DInt 0; DInt 4; DInt 4; DInt 0]);
                       ANum "maxBarSize" 24]
              [Frag (map bar_cell data)]])
  end.

Definition spark_row (index : nat) (value : number) : prop_value :=
  DObj [("index", DInt (Z.of_nat index)); ("value", DNum value)].

Definition Sparkline (data : list number) (color : option string) (height : option Z) : node A :=
  chart_box (height ?? 32)
    (Elt "LineChart" [AProp "data" (DArr (imap spark_row data))]
       [Elt "Line" [AStr "type" "monotone"; AStr "dataKey" "value";
                    AStr "stroke" (color ?? "var(--color-primary)");
                    AProp "strokeWidth" (DNum (num_div (num_of_Z 3) (num_of_Z 2)));
                    ABool "dot" false; ABool "isAnimationActive" false] []]).

Definition point_row (p : chart_point) : prop_value :=
  DObj [("time", DStr (ch_time p)); ("cpu", DNum (ch_cpu p)); ("memory", DNum (ch_memory p))].

Definition axis_pattern (axisFormat : string) : string :=
  if String.eqb axisFormat "day" then "MMM d HH:mm" else "HH:mm".

Definition area (key color name : string) : node A :=
  Elt "Area" [AStr "yAxisId" "pct"; AStr "type" "monotone"; AStr "dataKey" key; AStr "stroke" color;
              AStr "fill" color; AProp "fillOpacity" (DNum (num_div (num_of_Z 15) (num_of_Z 100)));
              AStr "name" name; ABool "isAnimationActive" false] [].

Definition small_tick : attr A := AProp "tick" (DObj [("fontSize", DInt 11)]).

Definition DeviceResourceChart (data : list chart_point) (axisFormat : option string) : node A :=
  chart_box 260
    (Elt "AreaChart" [AProp "data" (DArr (map point_row data));
                      AProp "margin" (DObj [("top", DInt 5); ("right", DInt 10); ("left", DInt 0);
                                            ("bottom", DInt 0)])]
       [Elt "CartesianGrid" [AStr "strokeDasharray" "3 3";
                             AProp "opacity" (DNum (num_div (num_of_Z 2) (num_of_Z 10)))] [];
        Elt "XAxis" [AStr "dataKey" "time";
                     AFormat "tickFormatter" (fun iso _ => format iso (axis_pattern (axisFormat ?? "hour")));
                     small_tick; ANum "minTickGap" 40] [];
        Elt "YAxis" [AStr "yAxisId" "pct"; AProp "domain" (DArr [DInt 0; DInt 100]);
                     AFormat "tickFormatter" (fun _ v => whole_percent v); small_tick; ANum "width" 42] [];
        Elt "Tooltip" [AFormat "labelFormatter" (fun label _ => format label "MMM d, yyyy HH:mm:ss");
                       AFormat "formatter" (fun _ v => tenth_percent v)] [];
        Elt "Legend" [AStr "iconType" "line"] [];
        area "cpu" "var(--color-chart-1)" "CPU"; area "memory" "var(--color-chart-4)" "Memory"]).
End charts.
