(* ===== verification/DesignSystem.v ===== *)
(** * The design system: ui/components/ui

    Every component here passes its props and children on to an element or to a
    primitive of a library, with class names of its own. The pages use these
    components as element tags; [expand] replaces the tags by what the
    components render. *)

From S2P Require Import Prelude JsString Vdom Components.

(** class-variance-authority: [cva(base, { variants, defaultVariants })(props)]. *)
Class Variants := {
  cva : string -> list (string * list (string * string)) -> list (string * string) ->
        list (string * option string) -> string
}.

Section design_system.
Context {styling : Styling} {variants : Variants} {A : Type}.

(** ** Props *)

(** Is [a] the data prop [k]? *)
Definition is_prop (k : string) (a : attr A) : bool :=
  match a with AStr k' _ | ANum k' _ | ABool k' _ => String.eqb k k' | _ => false end.

Definition str_prop (k : string) (attrs : list (attr A)) : option string :=
  head (flat_map (fun a => match a with AStr k' v => if String.eqb k k' then [v] else [] | _ => [] end) attrs).
Definition num_prop (k : string) (attrs : list (attr A)) : option Z :=
  head (flat_map (fun a => match a with ANum k' z => if String.eqb k k' then [z] else [] | _ => [] end) attrs).
Definition opt_str (k : string) (v : option string) : list (attr A) :=
  match v with Some v => [AStr k v] | None => [] end.

(** [const { k, ...props } = attrs] *)
Definition drop_prop (k : string) (attrs : list (attr A)) : list (attr A) :=
  List.filter (fun a => negb (is_prop k a)) attrs.
Definition drop_props (ks : list string) (attrs : list (attr A)) : list (attr A) :=
  fold_right drop_prop attrs ks.
Definition class_of (attrs : list (attr A)) : option string := str_prop "className" attrs.

Definition wrapper : Type := list (attr A) -> list (node A) -> node A.

(** [<Prim ...extra className={cn(...bases, className)} {...props} />], where the
    props include the children. *)
Definition forward_with (prim : string) (extra : list (attr A)) (bases : list (option string)) : wrapper :=
  fun attrs kids =>
    Elt prim (extra ++ cls (cn (bases ++ [class_of attrs])) :: drop_prop "className" attrs) kids.
Definition forward (prim base : string) : wrapper := forward_with prim [] [Some base].

(** ** ui/card.tsx *)

Definition Card : wrapper :=
  forward "div" "rounded-xl border bg-card/80 text-card-foreground shadow-sm backdrop-blur-sm transition-all duration-300 hover:shadow-md".
Definition CardHeader : wrapper := forward "div" "flex flex-col space-y-1.5 p-6".
Definition CardTitle : wrapper := forward "div" "font-semibold leading-none tracking-tight".
Definition CardDescription : wrapper := forward "div" "text-sm text-muted-foreground".
Definition CardContent : wrapper := forward "div" "p-6 pt-0".

(** ** ui/table.tsx *)

Definition Table : wrapper := fun attrs kids =>
  Elt "div" [cls "relative w-full overflow-auto"] [forward "table" "w-full caption-bottom text-sm" attrs kids].
Definition TableHeader : wrapper := forward "thead" "[&_tr]:border-b".
Definition TableBody : wrapper := forward "tbody" "[&_tr:last-child]:border-0".
Definition TableRow : wrapper :=
  forward "tr" "border-b border-border/50 transition-colors hover:bg-muted/30 data-[state=selected]:bg-muted/50".
Definition TableHead : wrapper :=
  forward "th" "h-10 px-3 text-left align-middle text-xs font-semibold uppercase tracking-wider text-muted-foreground [&:has([role=checkbox])]:pr-0".
Definition TableCell : wrapper := forward "td" "p-3 align-middle [&:has([role=checkbox])]:pr-0".

(** ** ui/skeleton.tsx *)

Definition Skeleton : wrapper := forward "div" "animate-pulse rounded-lg bg-muted/60".

(** ** ui/avatar.tsx *)

Definition Avatar : wrapper :=
  forward "AvatarPrimitive.Root" "relative flex h-10 w-10 shrink-0 overflow-hidden rounded-full".
Definition AvatarImage : wrapper := forward "AvatarPrimitive.Image" "aspect-square h-full w-full".
Definition AvatarFallback : wrapper :=
  forward "AvatarPrimitive.Fallback" "flex h-full w-full items-center justify-center rounded-full bg-muted".

(** ** ui/input.tsx *)

Definition Input : wrapper := fun attrs kids =>
  forward_with "input" (opt_str "type" (str_prop "type" attrs))
    [Some "flex h-9 w-full rounded-lg border border-input bg-background/50 px-3 py-1 text-base shadow-sm transition-all duration-200 file:border-0 file:bg-transparent file:text-sm file:font-medium file:text-foreground placeholder:text-muted-foreground focus-visible:outline-none focus-visible:ring-2 focus-visible:ring-ring/50 focus-visible:border-primary/50 disabled:cursor-not-allowed disabled:opacity-40 md:text-sm"]
    (drop_prop "type" attrs) kids.

(** ** ui/label.tsx *)

Definition labelVariants : string :=
  cva "text-sm font-medium leading-none peer-disabled:cursor-not-allowed peer-disabled:opacity-70" [] [] [].
Definition Label : wrapper := forward_with "LabelPrimitive.Root" [] [Some labelVariants].

(** ** ui/textarea.tsx *)

Definition Textarea : wrapper :=
  forward "textarea" "flex min-h-[60px] w-full rounded-md border border-input bg-transparent px-3 py-2 text-base shadow-sm placeholder:text-muted-foreground focus-visible:outline-none focus-visible:ring-1 focus-visible:ring-ring disabled:cursor-not-allowed disabled:opacity-50 md:text-sm".

(** ** ui/badge.tsx *)

Definition badgeVariants (variant : option string) : string :=
  cva "inline-flex items-center rounded-full border px-2.5 py-0.5 text-xs font-semibold transition-all duration-200 focus:outline-none focus:ring-2 focus:ring-ring/50 focus:ring-offset-2"
    [("variant",
      [("default", "border-transparent bg-primary text-primary-foreground shadow-sm shadow-primary/20 hover:bg-primary/90");
       ("secondary", "border-transparent bg-secondary text-secondary-foreground hover:bg-secondary/80");
       ("destructive", "border-transparent bg-destructive text-destructive-foreground shadow-sm hover:bg-destructive/90");
       ("outline", "text-foreground")])]
    [("variant", "default")] [("variant", variant)].
Definition Badge : wrapper := fun attrs kids =>
  forward_with "div" [] [Some (badgeVariants (str_prop "variant" attrs))] (drop_prop "variant" attrs) kids.

(** ** ui/button.tsx *)

Definition buttonVariants (variant size className : option string) : string :=
  cva "inline-flex items-center justify-center gap-2 whitespace-nowrap rounded-lg text-sm font-semibold tracking-tight cursor-pointer transition-all duration-200 focus-visible:outline-none focus-visible:ring-2 focus-visible:ring-ring/50 focus-visible:ring-offset-2 focus-visible:ring-offset-background disabled:pointer-events-none disabled:opacity-40 active:scale-[0.97]"
    [("variant",
      [("default", "bg-primary text-primary-foreground shadow-md shadow-primary/20 hover:shadow-lg hover:shadow-primary/30 hover:brightness-110");
       ("destructive", "bg-destructive text-destructive-foreground shadow-md shadow-destructive/20 hover:shadow-lg hover:shadow-destructive/30 hover:brightness-110");
       ("outline", "border border-border bg-transparent shadow-sm hover:bg-accent hover:text-accent-foreground hover:border-primary/30");
       ("secondary", "bg-secondary text-secondary-foreground shadow-sm hover:bg-secondary/80");
       ("ghost", "hover:bg-accent hover:text-accent-foreground");
       ("link", "text-primary underline-offset-4 hover:underline")]);
     ("size",
      [("default", "h-9 px-4 py-2"); ("sm", "h-8 rounded-md px-3 text-xs");
       ("lg", "h-11 rounded-lg px-8 text-base"); ("icon", "h-9 w-9")])]
    [("variant", "default"); ("size", "default")]
    [("variant", variant); ("size", size); ("className", className)].
Definition Button : wrapper := fun attrs kids =>
  Elt (if has_attr "asChild" true attrs then "Slot" else "button")
    (cls (cn [Some (buttonVariants (str_prop "variant" attrs) (str_prop "size" attrs) (class_of attrs))])
     :: drop_props ["className"; "variant"; "size"; "asChild"] attrs) kids.

(** ** ui/checkbox.tsx *)

Definition Checkbox : wrapper := fun attrs _ =>
  forward "CheckboxPrimitive.Root" "peer h-4 w-4 shrink-0 rounded-sm border border-primary shadow focus-visible:outline-none focus-visible:ring-1 focus-visible:ring-ring disabled:cursor-not-allowed disabled:opacity-50 data-[state=checked]:bg-primary data-[state=checked]:text-primary-foreground" attrs
    [Elt "CheckboxPrimitive.Indicator" [cls (cn [Some "flex items-center justify-center text-current"])]
       [icon "Check" "h-4 w-4"]].

(** ** ui/switch.tsx *)

Definition Switch : wrapper := fun attrs _ =>
  forward "SwitchPrimitives.Root" "peer inline-flex h-5 w-9 shrink-0 cursor-pointer items-center rounded-full border-2 border-transparent shadow-sm transition-all duration-200 focus-visible:outline-none focus-visible:ring-2 focus-visible:ring-ring/50 focus-visible:ring-offset-2 focus-visible:ring-offset-background disabled:cursor-not-allowed disabled:opacity-40 data-[state=checked]:bg-primary data-[state=checked]:shadow-primary/25 data-[state=unchecked]:bg-input" attrs
    [Elt "SwitchPrimitives.Thumb"
       [cls (cn [Some "pointer-events-none block h-4 w-4 rounded-full bg-background shadow-lg ring-0 transition-transform data-[state=checked]:translate-x-4 data-[state=unchecked]:translate-x-0"])] []].

(** ** ui/tabs.tsx *)

Definition Tabs : wrapper := Elt "TabsPrimitive.Root".
Definition TabsList : wrapper :=
  forward "TabsPrimitive.List" "inline-flex h-10 items-center justify-center rounded-xl bg-muted/50 p-1 text-muted-foreground".
Definition TabsTrigger : wrapper :=
  forward "TabsPrimitive.Trigger" "inline-flex items-center justify-center whitespace-nowrap rounded-lg px-3 py-1.5 text-sm font-medium ring-offset-background transition-all duration-200 focus-visible:outline-none focus-visible:ring-2 focus-visible:ring-ring/50 focus-visible:ring-offset-2 disabled:pointer-events-none disabled:opacity-50 data-[state=active]:bg-background data-[state=active]:text-foreground data-[state=active]:shadow-sm".
Definition TabsContent : wrapper :=
  forward "TabsPrimitive.Content" "mt-2 ring-offset-background focus-visible:outline-none focus-visible:ring-2 focus-visible:ring-ring focus-visible:ring-offset-2".

(** ** ui/select.tsx *)

Definition Select : wrapper := Elt "SelectPrimitive.Root".
Definition SelectGroup : wrapper := Elt "SelectPrimitive.Group".
Definition SelectValue : wrapper := Elt "SelectPrimitive.Value".
Definition SelectTrigger : wrapper := fun attrs kids =>
  forward "SelectPrimitive.Trigger" "flex h-9 w-full items-center justify-between whitespace-nowrap rounded-lg border border-input bg-background/50 px-3 py-2 text-sm shadow-sm ring-offset-background transition-all duration-200 placeholder:text-muted-foreground focus:outline-none focus:ring-2 focus:ring-ring/50 focus:border-primary/50 disabled:cursor-not-allowed disabled:opacity-40 [&>span]:line-clamp-1" attrs
    (kids ++ [Elt "SelectPrimitive.Icon" [ABool "asChild" true] [icon "ChevronDown" "h-4 w-4 opacity-50"]]).
Definition SelectScrollUpButton : wrapper := fun attrs _ =>
  forward "SelectPrimitive.ScrollUpButton" "flex cursor-default items-center justify-center py-1" attrs
    [icon "ChevronUp" "h-4 w-4"].
Definition SelectScrollDownButton : wrapper := fun attrs _ =>
  forward "SelectPrimitive.ScrollDownButton" "flex cursor-default items-center justify-center py-1" attrs
    [icon "ChevronDown" "h-4 w-4"].
Definition SelectContent : wrapper := fun attrs kids =>
  let position := str_prop "position" attrs ?? "popper" in
  let popper := String.eqb position "popper" in
  Elt "SelectPrimitive.Portal" []
    [Elt "SelectPrimitive.Content"
       (cls (cn [Some "relative z-50 max-h-96 min-w-[8rem] overflow-hidden rounded-xl border bg-popover/95 backdrop-blur-xl text-popover-foreground shadow-xl data-[state=open]:animate-in data-[state=closed]:animate-out data-[state=closed]:fade-out-0 data-[state=open]:fade-in-0 data-[state=closed]:zoom-out-95 data-[state=open]:zoom-in-95 data-[side=bottom]:slide-in-from-top-2 data-[side=left]:slide-in-from-right-2 data-[side=right]:slide-in-from-left-2 data-[side=top]:slide-in-from-bottom-2";
                 class_if popper "data-[side=bottom]:translate-y-1 data-[side=left]:-translate-x-1 data-[side=right]:translate-x-1 data-[side=top]:-translate-y-1";
                 class_of attrs])
        :: AStr "position" position :: drop_props ["className"; "position"] attrs)
       ([SelectScrollUpButton [] [];
         Elt "SelectPrimitive.Viewport"
           [cls (cn [Some "p-1";
                     class_if popper "h-[var(--radix-select-trigger-height)] w-full min-w-[var(--radix-select-trigger-width)]"])]
           kids;
         SelectScrollDownButton [] []])].
Definition SelectLabel : wrapper :=
  forward "SelectPrimitive.Label" "px-2 py-1.5 text-sm font-semibold".
Definition SelectItem : wrapper := fun attrs kids =>
  forward "SelectPrimitive.Item" "relative flex w-full cursor-default select-none items-center rounded-lg py-1.5 pl-2 pr-8 text-sm outline-none transition-colors focus:bg-accent focus:text-accent-foreground data-[disabled]:pointer-events-none data-[disabled]:opacity-50" attrs
    [Elt "span" [cls "absolute right-2 flex h-3.5 w-3.5 items-center justify-center"]
       [Elt "SelectPrimitive.ItemIndicator" [] [icon "Check" "h-4 w-4"]];
     Elt "SelectPrimitive.ItemText" [] kids].
Definition SelectSeparator : wrapper :=
  forward "SelectPrimitive.Separator" "-mx-1 my-1 h-px bg-muted".

(** ** ui/tooltip.tsx *)

Definition TooltipProvider : wrapper := Elt "TooltipPrimitive.Provider".
Definition Tooltip : wrapper := Elt "TooltipPrimitive.Root".
Definition TooltipTrigger : wrapper := Elt "TooltipPrimitive.Trigger".
Definition TooltipContent : wrapper := fun attrs kids =>
  Elt "TooltipPrimitive.Portal" []
    [forward_with "TooltipPrimitive.Content" [ANum "sideOffset" (num_prop "sideOffset" attrs ?? 4)]
       [Some "z-50 overflow-hidden rounded-lg bg-popover/95 backdrop-blur-lg border px-3 py-1.5 text-xs text-popover-foreground shadow-lg animate-in fade-in-0 zoom-in-95 data-[state=closed]:animate-out data-[state=closed]:fade-out-0 data-[state=closed]:zoom-out-95 data-[side=bottom]:slide-in-from-top-2 data-[side=left]:slide-in-from-right-2 data-[side=right]:slide-in-from-left-2 data-[side=top]:slide-in-from-bottom-2"]
       (drop_prop "sideOffset" attrs) kids].

(** ** ui/scroll-area.tsx *)

Definition ScrollBar : wrapper := fun attrs _ =>
  let orientation := str_prop "orientation" attrs ?? "vertical" in
  Elt "ScrollAreaPrimitive.ScrollAreaScrollbar"
    (AStr "orientation" orientation
     :: cls (cn [Some "flex touch-none select-none transition-colors";
                 class_if (String.eqb orientation "vertical") "h-full w-2.5 border-l border-l-transparent p-[1px]";
                 class_if (String.eqb orientation "horizontal") "h-2.5 flex-col border-t border-t-transparent p-[1px]";
                 class_of attrs])
     :: drop_props ["className"; "orientation"] attrs)
    [Elt "ScrollAreaPrimitive.ScrollAreaThumb" [cls "relative flex-1 rounded-full bg-border"] []].
Definition ScrollArea : wrapper := fun attrs kids =>
  forward "ScrollAreaPrimitive.Root" "relative overflow-hidden" attrs
    [Elt "ScrollAreaPrimitive.Viewport" [cls "h-full w-full rounded-[inherit]"] kids;
     ScrollBar [] []; Elt "ScrollAreaPrimitive.Corner" [] []].

(** ** ui/dialog.tsx *)

Definition Dialog : wrapper := Elt "DialogPrimitive.Root".
Definition DialogTrigger : wrapper := Elt "DialogPrimitive.Trigger".
Definition DialogPortal : wrapper := Elt "DialogPrimitive.Portal".
Definition DialogClose : wrapper := Elt "DialogPrimitive.Close".
Definition DialogOverlay : wrapper :=
  forward "DialogPrimitive.Overlay" "fixed inset-0 z-50 bg-black/60 backdrop-blur-sm data-[state=open]:animate-in data-[state=closed]:animate-out data-[state=closed]:fade-out-0 data-[state=open]:fade-in-0".
Definition DialogContent : wrapper := fun attrs kids =>
  DialogPortal []
    [DialogOverlay [] [];
     forward "DialogPrimitive.Content" "fixed left-[50%] top-[50%] z-50 grid w-full max-w-lg translate-x-[-50%] translate-y-[-50%] gap-4 border bg-card/95 backdrop-blur-xl p-6 shadow-2xl shadow-black/20 duration-200 data-[state=open]:animate-in data-[state=closed]:animate-out data-[state=closed]:fade-out-0 data-[state=open]:fade-in-0 data-[state=closed]:zoom-out-95 data-[state=open]:zoom-in-95 data-[state=closed]:slide-out-to-left-1/2 data-[state=closed]:slide-out-to-top-[48%] data-[state=open]:slide-in-from-left-1/2 data-[state=open]:slide-in-from-top-[48%] sm:rounded-xl" attrs
       (kids ++
        [Elt "DialogPrimitive.Close" [cls "absolute right-4 top-4 rounded-sm opacity-70 ring-offset-background transition-opacity hover:opacity-100 focus:outline-none focus:ring-2 focus:ring-ring focus:ring-offset-2 disabled:pointer-events-none data-[state=open]:bg-accent data-[state=open]:text-muted-foreground"]
           [icon "X" "h-4 w-4"; Elt "span" [cls "sr-only"] [Txt "Close"]]])].
Definition DialogHeader : wrapper :=
  forward "div" "flex flex-col space-y-1.5 text-center sm:text-left".
Definition DialogFooter : wrapper :=
  forward "div" "flex flex-col-reverse sm:flex-row sm:justify-end sm:space-x-2".
Definition DialogTitle : wrapper :=
  forward "DialogPrimitive.Title" "text-lg font-semibold leading-none tracking-tight".
Definition DialogDescription : wrapper :=
  forward "DialogPrimitive.Description" "text-sm text-muted-foreground".

(** ** ui/alert-dialog.tsx *)

Definition AlertDialog : wrapper := Elt "AlertDialogPrimitive.Root".
Definition AlertDialogTrigger : wrapper := Elt "AlertDialogPrimitive.Trigger".
Definition AlertDialogPortal : wrapper := Elt "AlertDialogPrimitive.Portal".
Definition AlertDialogOverlay : wrapper :=
  forward "AlertDialogPrimitive.Overlay" "fixed inset-0 z-50 bg-black/60 backdrop-blur-sm data-[state=open]:animate-in data-[state=closed]:animate-out data-[state=closed]:fade-out-0 data-[state=open]:fade-in-0".
Definition AlertDialogContent : wrapper := fun attrs kids =>
  AlertDialogPortal []
    [AlertDialogOverlay [] [];
     forward "AlertDialogPrimitive.Content" "fixed left-[50%] top-[50%] z-50 grid w-full max-w-lg translate-x-[-50%] translate-y-[-50%] gap-4 border bg-card/95 backdrop-blur-xl p-6 shadow-2xl shadow-black/20 duration-200 data-[state=open]:animate-in data-[state=closed]:animate-out data-[state=closed]:fade-out-0 data-[state=open]:fade-in-0 data-[state=closed]:zoom-out-95 data-[state=open]:zoom-in-95 data-[state=closed]:slide-out-to-left-1/2 data-[state=closed]:slide-out-to-top-[48%] data-[state=open]:slide-in-from-left-1/2 data-[state=open]:slide-in-from-top-[48%] sm:rounded-xl" attrs kids].
Definition AlertDialogHeader : wrapper :=
  forward "div" "flex flex-col space-y-2 text-center sm:text-left".
Definition AlertDialogFooter : wrapper :=
  forward "div" "flex flex-col-reverse sm:flex-row sm:justify-end sm:space-x-2".
Definition AlertDialogTitle : wrapper :=
  forward "AlertDialogPrimitive.Title" "text-lg font-semibold".
Definition AlertDialogDescription : wrapper :=
  forward "AlertDialogPrimitive.Description" "text-sm text-muted-foreground".
Definition AlertDialogAction : wrapper :=
  forward_with "AlertDialogPrimitive.Close" [] [Some (buttonVariants None None None)].
Definition AlertDialogCancel : wrapper :=
  forward_with "AlertDialogPrimitive.Close" [] [Some (buttonVariants (Some "outline") None None); Some "mt-2 sm:mt-0"].

(** ** ui/sheet.tsx *)

Definition Sheet : wrapper := Elt "SheetPrimitive.Root".
Definition SheetTrigger : wrapper := Elt "SheetPrimitive.Trigger".
Definition SheetClose : wrapper := Elt "SheetPrimitive.Close".
Definition SheetPortal : wrapper := Elt "SheetPrimitive.Portal".
Definition SheetOverlay : wrapper :=
  forward "SheetPrimitive.Overlay" "fixed inset-0 z-50 bg-black/60 backdrop-blur-sm data-[state=open]:animate-in data-[state=closed]:animate-out data-[state=closed]:fade-out-0 data-[state=open]:fade-in-0".
Definition sheetVariants (side : option string) : string :=
  cva "fixed z-50 gap-4 bg-background/95 backdrop-blur-xl p-6 shadow-2xl transition ease-in-out data-[state=closed]:duration-300 data-[state=open]:duration-500 data-[state=open]:animate-in data-[state=closed]:animate-out"
    [("side",
      [("top", "inset-x-0 top-0 border-b data-[state=closed]:slide-out-to-top data-[state=open]:slide-in-from-top");
       ("bottom", "inset-x-0 bottom-0 border-t data-[state=closed]:slide-out-to-bottom data-[state=open]:slide-in-from-bottom");
       ("left", "inset-y-0 left-0 h-full w-3/4 border-r data-[state=closed]:slide-out-to-left data-[state=open]:slide-in-from-left sm:max-w-sm");
       ("right", "inset-y-0 right-0 h-full w-3/4 border-l data-[state=closed]:slide-out-to-right data-[state=open]:slide-in-from-right sm:max-w-sm")])]
    [("side", "right")] [("side", side)].
Definition SheetContent : wrapper := fun attrs kids =>
  SheetPortal []
    [SheetOverlay [] [];
     forward_with "SheetPrimitive.Content" [] [Some (sheetVariants (Some (str_prop "side" attrs ?? "right")))]
       (drop_prop "side" attrs)
       (Elt "SheetPrimitive.Close" [cls "absolute right-4 top-4 rounded-sm opacity-70 ring-offset-background transition-opacity hover:opacity-100 focus:outline-none focus:ring-2 focus:ring-ring focus:ring-offset-2 disabled:pointer-events-none data-[state=open]:bg-secondary"]
          [icon "X" "h-4 w-4"; Elt "span" [cls "sr-only"] [Txt "Close"]] :: kids)].
Definition SheetHeader : wrapper :=
  forward "div" "flex flex-col space-y-2 text-center sm:text-left".
Definition SheetFooter : wrapper :=
  forward "div" "flex flex-col-reverse sm:flex-row sm:justify-end sm:space-x-2".
Definition SheetTitle : wrapper :=
  forward "SheetPrimitive.Title" "text-lg font-semibold text-foreground".
Definition SheetDescription : wrapper :=
  forward "SheetPrimitive.Description" "text-sm text-muted-foreground".

(** ** ui/dropdown-menu.tsx *)

Definition DropdownMenu : wrapper := Elt "DropdownMenuPrimitive.Root".
Definition DropdownMenuTrigger : wrapper := Elt "DropdownMenuPrimitive.Trigger".
Definition DropdownMenuGroup : wrapper := Elt "DropdownMenuPrimitive.Group".
Definition DropdownMenuPortal : wrapper := Elt "DropdownMenuPrimitive.Portal".
Definition DropdownMenuSub : wrapper := Elt "DropdownMenuPrimitive.Sub".
Definition DropdownMenuRadioGroup : wrapper := Elt "DropdownMenuPrimitive.RadioGroup".
Definition DropdownMenuSubTrigger : wrapper := fun attrs kids =>
  forward_with "DropdownMenuPrimitive.SubTrigger" []
    [Some "flex cursor-default select-none items-center gap-2 rounded-sm px-2 py-1.5 text-sm outline-none focus:bg-accent data-[state=open]:bg-accent [&_svg]:pointer-events-none [&_svg]:size-4 [&_svg]:shrink-0";
     class_if (has_attr "inset" true attrs) "pl-8"]
    (drop_prop "inset" attrs) (kids ++ [icon "ChevronRight" "ml-auto"]).
Definition DropdownMenuSubContent : wrapper :=
  forward "DropdownMenuPrimitive.SubContent" "z-50 min-w-[8rem] overflow-hidden rounded-md border bg-popover p-1 text-popover-foreground shadow-lg data-[state=open]:animate-in data-[state=closed]:animate-out data-[state=closed]:fade-out-0 data-[state=open]:fade-in-0 data-[state=closed]:zoom-out-95 data-[state=open]:zoom-in-95 data-[side=bottom]:slide-in-from-top-2 data-[side=left]:slide-in-from-right-2 data-[side=right]:slide-in-from-left-2 data-[side=top]:slide-in-from-bottom-2".
Definition DropdownMenuContent : wrapper := fun attrs kids =>
  Elt "DropdownMenuPrimitive.Portal" []
    [forward_with "DropdownMenuPrimitive.Content" [ANum "sideOffset" (num_prop "sideOffset" attrs ?? 4)]
       [Some "z-50 min-w-[8rem] overflow-hidden rounded-xl border bg-popover/95 backdrop-blur-xl p-1 text-popover-foreground shadow-xl data-[state=open]:animate-in data-[state=closed]:animate-out data-[state=closed]:fade-out-0 data-[state=open]:fade-in-0 data-[state=closed]:zoom-out-95 data-[state=open]:zoom-in-95 data-[side=bottom]:slide-in-from-top-2 data-[side=left]:slide-in-from-right-2 data-[side=right]:slide-in-from-left-2 data-[side=top]:slide-in-from-bottom-2"]
       (drop_prop "sideOffset" attrs) kids].
Definition DropdownMenuItem : wrapper := fun attrs kids =>
  forward_with "DropdownMenuPrimitive.Item" []
    [Some "relative flex cursor-default select-none items-center gap-2 rounded-lg px-2 py-1.5 text-sm outline-none transition-colors focus:bg-accent focus:text-accent-foreground data-[disabled]:pointer-events-none data-[disabled]:opacity-50 [&_svg]:pointer-events-none [&_svg]:size-4 [&_svg]:shrink-0";
     class_if (has_attr "inset" true attrs) "pl-8"]
    (drop_prop "inset" attrs) kids.
Definition DropdownMenuCheckboxItem : wrapper := fun attrs kids =>
  forward "DropdownMenuPrimitive.CheckboxItem" "relative flex cursor-default select-none items-center rounded-sm py-1.5 pl-8 pr-2 text-sm outline-none transition-colors focus:bg-accent focus:text-accent-foreground data-[disabled]:pointer-events-none data-[disabled]:opacity-50" attrs
    (Elt "span" [cls "absolute left-2 flex h-3.5 w-3.5 items-center justify-center"]
       [Elt "DropdownMenuPrimitive.ItemIndicator" [] [icon "Check" "h-4 w-4"]] :: kids).
Definition DropdownMenuRadioItem : wrapper := fun attrs kids =>
  forward "DropdownMenuPrimitive.RadioItem" "relative flex cursor-default select-none items-center rounded-sm py-1.5 pl-8 pr-2 text-sm outline-none transition-colors focus:bg-accent focus:text-accent-foreground data-[disabled]:pointer-events-none data-[disabled]:opacity-50" attrs
    (Elt "span" [cls "absolute left-2 flex h-3.5 w-3.5 items-center justify-center"]
       [Elt "DropdownMenuPrimitive.ItemIndicator" [] [icon "Circle" "h-2 w-2 fill-current"]] :: kids).
Definition DropdownMenuLabel : wrapper := fun attrs kids =>
  forward_with "DropdownMenuPrimitive.Label" []
    [Some "px-2 py-1.5 text-sm font-semibold";
     class_if (has_attr "inset" true attrs) "pl-8"]
    (drop_prop "inset" attrs) kids.
Definition DropdownMenuSeparator : wrapper :=
  forward "DropdownMenuPrimitive.Separator" "-mx-1 my-1 h-px bg-muted".
Definition DropdownMenuShortcut : wrapper :=
  forward "span" "ml-auto text-xs tracking-widest opacity-60".

(** ** ui/command.tsx *)

Definition Command : wrapper :=
  forward "CommandPrimitive" "flex h-full w-full flex-col overflow-hidden rounded-md bg-popover text-popover-foreground".
Definition CommandInput : wrapper := fun attrs kids =>
  Elt "div" [cls "flex items-center border-b px-3"; AStr "cmdk-input-wrapper" ""]
    [icon "Search" "mr-2 h-4 w-4 shrink-0 opacity-50";
     forward "CommandPrimitive.Input" "flex h-10 w-full rounded-md bg-transparent py-3 text-sm outline-none placeholder:text-muted-foreground disabled:cursor-not-allowed disabled:opacity-50" attrs kids].
Definition CommandList : wrapper :=
  forward "CommandPrimitive.List" "max-h-[300px] overflow-y-auto overflow-x-hidden".
Definition CommandEmpty : wrapper := fun attrs kids =>
  Elt "CommandPrimitive.Empty" (cls (class_of attrs ?? "py-6 text-center text-sm") :: drop_prop "className" attrs) kids.
Definition CommandGroup : wrapper :=
  forward "CommandPrimitive.Group" "overflow-hidden p-1 text-foreground [&_[cmdk-group-heading]]:px-2 [&_[cmdk-group-heading]]:py-1.5 [&_[cmdk-group-heading]]:text-xs [&_[cmdk-group-heading]]:font-medium [&_[cmdk-group-heading]]:text-muted-foreground".
Definition CommandSeparator : wrapper :=
  forward "CommandPrimitive.Separator" "-mx-1 h-px bg-border".
Definition CommandItem : wrapper :=
  forward "CommandPrimitive.Item" "relative flex cursor-default gap-2 select-none items-center rounded-lg px-2 py-1.5 text-sm outline-none transition-colors data-[selected=true]:bg-accent data-[selected=true]:text-accent-foreground data-[disabled=true]:pointer-events-none data-[disabled=true]:opacity-50 [&_svg]:pointer-events-none [&_svg]:size-4 [&_svg]:shrink-0".
Definition CommandShortcut : wrapper :=
  forward "span" "ml-auto text-xs tracking-widest text-muted-foreground".

(** ** Expansion *)

Definition design_system : list (string * wrapper) :=
  [("Card", Card); ("CardHeader", CardHeader); ("CardTitle", CardTitle); ("CardDescription",
   CardDescription); ("CardContent", CardContent); ("Table", Table); ("TableHeader", TableHeader);
   ("TableBody", TableBody); ("TableRow", TableRow); ("TableHead", TableHead); ("TableCell",
   TableCell); ("Skeleton", Skeleton); ("Avatar", Avatar); ("AvatarImage", AvatarImage);
   ("AvatarFallback", AvatarFallback); ("Input", Input); ("Label", Label); ("Textarea", Textarea);
   ("Badge", Badge); ("Button", Button); ("Checkbox", Checkbox); ("Switch", Switch); ("Tabs",
   Tabs); ("TabsList", TabsList); ("TabsTrigger", TabsTrigger); ("TabsContent", TabsContent);
   ("Select", Select); ("SelectGroup", SelectGroup); ("SelectValue", SelectValue);
   ("SelectTrigger", SelectTrigger); ("SelectScrollUpButton", SelectScrollUpButton);
   ("SelectScrollDownButton", SelectScrollDownButton); ("SelectContent", SelectContent);
   ("SelectLabel", SelectLabel); ("SelectItem", SelectItem); ("SelectSeparator", SelectSeparator);
   ("TooltipProvider", TooltipProvider); ("Tooltip", Tooltip); ("TooltipTrigger", TooltipTrigger);
   ("TooltipContent", TooltipContent); ("ScrollBar", ScrollBar); ("ScrollArea", ScrollArea);
   ("Dialog", Dialog); ("DialogTrigger", DialogTrigger); ("DialogPortal", DialogPortal);
   ("DialogClose", DialogClose); ("DialogOverlay", DialogOverlay); ("DialogContent",
   DialogContent); ("DialogHeader", DialogHeader); ("DialogFooter", DialogFooter); ("DialogTitle",
   DialogTitle); ("DialogDescription", DialogDescription); ("AlertDialog", AlertDialog);
   ("AlertDialogTrigger", AlertDialogTrigger); ("AlertDialogPortal", AlertDialogPortal);
   ("AlertDialogOverlay", AlertDialogOverlay); ("AlertDialogContent", AlertDialogContent);
   ("AlertDialogHeader", AlertDialogHeader); ("AlertDialogFooter", AlertDialogFooter);
   ("AlertDialogTitle", AlertDialogTitle); ("AlertDialogDescription", AlertDialogDescription);
   ("AlertDialogAction", AlertDialogAction); ("AlertDialogCancel", AlertDialogCancel); ("Sheet",
   Sheet); ("SheetTrigger", SheetTrigger); ("SheetClose", SheetClose); ("SheetPortal",
   SheetPortal); ("SheetOverlay", SheetOverlay); ("SheetContent", SheetContent); ("SheetHeader",
   SheetHeader); ("SheetFooter", SheetFooter); ("SheetTitle", SheetTitle); ("SheetDescription",
   SheetDescription); ("DropdownMenu", DropdownMenu); ("DropdownMenuTrigger", DropdownMenuTrigger);
   ("DropdownMenuGroup", DropdownMenuGroup); ("DropdownMenuPortal", DropdownMenuPortal);
   ("DropdownMenuSub", DropdownMenuSub); ("DropdownMenuRadioGroup", DropdownMenuRadioGroup);
   ("DropdownMenuSubTrigger", DropdownMenuSubTrigger); ("DropdownMenuSubContent",
   DropdownMenuSubContent); ("DropdownMenuContent", DropdownMenuContent); ("DropdownMenuItem",
   DropdownMenuItem); ("DropdownMenuCheckboxItem", DropdownMenuCheckboxItem);
   ("DropdownMenuRadioItem", DropdownMenuRadioItem); ("DropdownMenuLabel", DropdownMenuLabel);
   ("DropdownMenuSeparator", DropdownMenuSeparator); ("DropdownMenuShortcut",
   DropdownMenuShortcut); ("Command", Command); ("CommandInput", CommandInput); ("CommandList",
   CommandList); ("CommandEmpty", CommandEmpty); ("CommandGroup", CommandGroup);
   ("CommandSeparator", CommandSeparator); ("CommandItem", CommandItem); ("CommandShortcut",
   CommandShortcut)].

(** An element as the library sees it. *)
Definition expand_elt (tag : string) : wrapper :=
  match assoc tag design_system with Some w => w | None => Elt tag end.

Fixpoint expand (n : node A) : node A :=
  match n with
  | Txt s => Txt s
  | Frag l => Frag (map expand l)
  | Elt tag attrs kids =>
      expand_elt tag
        (map (fun a => match a with ANode k m => ANode k (expand m) | _ => a end) attrs)
        (map expand kids)
  end.
End design_system.
