(* ===== verification/DesignFacts.v ===== *)
(** * The design system is transparent

    Two trees agree when a user can trigger the same handlers in both and both
    have the same links. Agreement is an equivalence that elements preserve, and
    expanding the tags of the design system stays within it. *)

From S2P Require Import Prelude JsString Vdom Components DesignSystem.
From Stdlib Require Import Morphisms Setoid.

(** ** Agreement *)

Definition node_events {A} (o : bool) (l : list (attr A)) : list (ui_event A) :=
  concat (map (fun a => match a with ANode _ m => events o m | _ => [] end) l).

Record attrs_agree {A} (a b : list (attr A)) : Prop := {
  aa_own : forall mv cs, concat (map (own_event mv cs) a) = concat (map (own_event mv cs) b);
  aa_disabled : has_attr "disabled" true a = has_attr "disabled" true b;
  aa_nodes : forall o, node_events o a = node_events o b;
  aa_value : attr_value a = attr_value b;
  aa_open : forall v, has_attr "open" v a = has_attr "open" v b;
  aa_href : attr_href a = attr_href b
}.

Record node_agree {A} (n m : node A) : Prop := {
  na_events : forall o, events o n = events o m;
  na_choices : choices n = choices m;
  na_triggers : triggers n = triggers m;
  na_links : links n = links m;
  na_hrefs : hrefs n = hrefs m
}.

#[export] Instance attrs_agree_equiv {A} : Equivalence (@attrs_agree A).
Proof. split; [by split|by intros a b []|]. intros a b c [] []. split; congruence. Qed.

#[export] Instance node_agree_equiv {A} : Equivalence (@node_agree A).
Proof. split; [by split|by intros a b []|]. intros a b c [] []. split; congruence. Qed.

(** Children agree when their fragments do. *)
Definition kids_agree {A} (l k : list (node A)) : Prop := node_agree (Frag l) (Frag k).

#[export] Instance kids_agree_equiv {A} : Equivalence (@kids_agree A).
Proof. unfold kids_agree. split; [by intros l|by intros l k H|by intros l k j -> ->]. Qed.

#[export] Instance Frag_proper {A} : Proper (kids_agree ==> node_agree) (@Frag A).
Proof. by intros l k H. Qed.

#[export] Instance app_kids_proper {A} : Proper (kids_agree ==> kids_agree ==> kids_agree) (@app (node A)).
Proof.
  intros l l' [] k k' []. split; intros; cbn [events choices triggers links hrefs] in *;
    rewrite ?map_app, ?concat_app, ?existsb_app; congruence.
Qed.

#[export] Instance cons_kids_proper {A} : Proper (node_agree ==> kids_agree ==> kids_agree) (@cons (node A)).
Proof.
  intros n n' [] k k' []. split; intros; cbn [events choices triggers links hrefs map concat existsb] in *; congruence.
Qed.

(** What the name of an element means to the reader of a tree. *)
Record same_role (tag prim : string) : Prop := {
  sr_choice : choice_tag tag = choice_tag prim;
  sr_dialog : dialog_tag tag = dialog_tag prim;
  sr_content : content_tag tag = content_tag prim;
  sr_trigger : trigger_tag tag = trigger_tag prim;
  sr_link : String.eqb tag "Link" = String.eqb prim "Link";
  sr_anchor : String.eqb tag "a" = String.eqb prim "a"
}.

Lemma Elt_events {A} o tag (attrs : list (attr A)) kids :
  events o (Elt tag attrs kids) =
  own_events (dialog_moves tag attrs kids) (choices (Frag kids)) attrs ++ node_events o attrs
  ++ (if content_tag tag && negb o then []
      else events (if dialog_tag tag then negb (has_attr "open" false attrs) else o) (Frag kids)).
Proof. done. Qed.

Lemma Elt_agree {A} tag prim (a b : list (attr A)) l k :
  same_role tag prim -> attrs_agree a b -> kids_agree l k -> node_agree (Elt tag a l) (Elt prim b k).
Proof.
  intros [] [Ho Hd Hn Hv Hp Hh] [He Hc Ht Hl Hr]. split.
  - intros o. rewrite !Elt_events.
    assert (dialog_moves tag a l = dialog_moves prim b k) as ->.
    { unfold dialog_moves. cbn [triggers] in Ht. by rewrite sr_dialog0, !Hp, Ht. }
    unfold own_events. rewrite Ho, Hd, Hn, Hp, Hc, sr_dialog0, sr_content0. by rewrite He.
  - cbn [choices] in *. by rewrite sr_choice0, Hv, Hc.
  - cbn [triggers] in *. by rewrite sr_trigger0, Ht.
  - cbn [links] in *. by rewrite sr_link0, Hh, Hl.
  - cbn [hrefs] in *. by rewrite sr_anchor0, Hh, Hr.
Qed.

Lemma same_role_refl tag : same_role tag tag.
Proof. by split. Qed.

#[export] Instance Elt_proper {A} tag : Proper (attrs_agree ==> kids_agree ==> node_agree) (@Elt A tag).
Proof. intros a b Ha l k Hk. by apply Elt_agree; [apply same_role_refl| |]. Qed.

(** ** Props that nobody can trigger *)

(** Data props other than those that say what a control does. *)
Definition plain_key (k : string) : bool :=
  negb (existsb (String.eqb k) ["disabled"; "value"; "open"; "href"]).

Definition inert {A} (a : attr A) : bool :=
  match a with AStr k _ | ANum k _ | ABool k _ => plain_key k | _ => false end.

Lemma plain_key_spec k :
  plain_key k = true ->
  String.eqb "disabled" k = false /\ String.eqb k "value" = false /\ String.eqb "open" k = false /\
  String.eqb k "href" = false.
Proof.
  unfold plain_key. cbn [existsb]. rewrite negb_true_iff, !orb_false_iff, (String.eqb_sym "disabled"), (String.eqb_sym "open").
  tauto.
Qed.

Lemma inert_agree {A} (a : attr A) l : inert a = true -> attrs_agree (a :: l) l.
Proof.
  intros H. destruct a as [k v|k z|k b|k x|k f|k f|k|k v|k f|k n]; try discriminate H; cbn in H;
    apply plain_key_spec in H as (H1 & H2 & H3 & H4); split; intros;
    unfold node_events, attr_value, attr_href, has_attr;
    cbn [own_event existsb attr_is map concat flat_map app]; rewrite ?H1, ?H2, ?H3, ?H4; done.
Qed.

Lemma cons_attr_agree {A} (a : attr A) l k : attrs_agree l k -> attrs_agree (a :: l) (a :: k).
Proof.
  intros [Ho Hd Hn Hv Hp Hh]. split; intros; unfold node_events, attr_value, attr_href, has_attr in *;
    cbn [existsb map concat flat_map]; rewrite ?Ho, ?Hd, ?Hn, ?Hv, ?Hp, ?Hh; done.
Qed.

Lemma app_attr_agree {A} (extra : list (attr A)) l :
  forallb inert extra = true -> attrs_agree (extra ++ l) l.
Proof.
  intros H. induction extra as [|a extra IH]; [done|]. apply andb_prop in H as [Ha Hx]. cbn [app].
  rewrite inert_agree by done. by apply IH.
Qed.

Lemma drop_agree {A} k (l : list (attr A)) : plain_key k = true -> attrs_agree (drop_prop k l) l.
Proof.
  intros H. induction l as [|a l IH]; [done|]. unfold drop_prop in *. cbn [List.filter].
  destruct (is_prop k a) eqn:E; cbn [negb]; [|by apply cons_attr_agree].
  rewrite IH. symmetry. apply inert_agree.
  destruct a; try discriminate E; cbn in E |- *; by apply String.eqb_eq in E as <-.
Qed.

Lemma drops_agree {A} ks (l : list (attr A)) :
  forallb plain_key ks = true -> attrs_agree (drop_props ks l) l.
Proof.
  induction ks as [|k ks IH]; [done|]. intros H. apply andb_prop in H as [Hk Hs].
  cbn [drop_props fold_right]. rewrite drop_agree by done. by apply IH.
Qed.

Lemma silent_right {A} (l k : list (node A)) : kids_agree k [] -> kids_agree (l ++ k) l.
Proof. intros ->. by rewrite app_nil_r. Qed.

Lemma silent_left {A} (n : node A) l : node_agree n Nothing -> kids_agree (n :: l) l.
Proof. intros ->. by split. Qed.

Lemma single_frag {A} (l : list (node A)) : kids_agree [Frag l] l.
Proof. split; intros; cbn [events choices triggers links hrefs map concat existsb]; by rewrite ?app_nil_r, ?orb_false_r. Qed.

(** A wrapper element that adds nothing of its own. *)
Definition neutral (tag : string) : bool :=
  negb (choice_tag tag || dialog_tag tag || content_tag tag || trigger_tag tag || String.eqb tag "Link" || String.eqb tag "a").

Lemma neutral_agree {A} tag (attrs : list (attr A)) kids :
  neutral tag = true -> forallb inert attrs = true -> node_agree (Elt tag attrs kids) (Frag kids).
Proof.
  unfold neutral. rewrite negb_true_iff, !orb_false_iff. intros (((((H1 & H2) & H3) & H4) & H5) & H6) Ha.
  assert (attrs_agree attrs []) as ->.
  { rewrite <- (app_nil_r attrs). by apply app_attr_agree. }
  split; intros; rewrite ?Elt_events; cbn [choices triggers links hrefs]; unfold dialog_moves;
    rewrite ?H1, ?H2, ?H3, ?H4, ?H5, ?H6; done.
Qed.

Lemma neutral_inside {A} tag (attrs : list (attr A)) kids :
  neutral tag = true -> forallb inert attrs = true -> kids_agree [Elt tag attrs kids] kids.
Proof. intros H1 H2. rewrite (neutral_agree tag attrs kids H1 H2). apply single_frag. Qed.

(** ** The components *)

(** Components that render children of their own. *)
Definition childless (tag : string) : bool :=
  existsb (String.eqb tag)
    ["Checkbox"; "Switch"; "SelectScrollUpButton"; "SelectScrollDownButton"; "ScrollBar"].

Fixpoint well_used {A} (n : node A) : bool :=
  match n with
  | Txt _ => true
  | Frag l => forallb well_used l
  | Elt tag attrs kids =>
      (negb (childless tag) || match kids with [] => true | _ => false end)
      && forallb (fun a => match a with ANode _ m => well_used m | _ => true end) attrs
      && forallb well_used kids
  end.

Section components.
Context {styling : Styling} {variants : Variants} {A : Type}.

Definition transparent (tag : string) (w : wrapper (A:=A)) : Prop :=
  forall attrs kids, (childless tag = true -> kids = []) -> node_agree (w attrs kids) (Elt tag attrs kids).

Lemma forward_with_agree tag prim extra bases attrs attrs' (kids kids' : list (node A)) :
  same_role prim tag -> forallb inert extra = true -> attrs_agree attrs attrs' -> kids_agree kids kids' ->
  node_agree (forward_with prim extra bases attrs kids) (Elt tag attrs' kids').
Proof.
  intros Hr He Ha Hk. apply Elt_agree; [done| |done].
  rewrite app_attr_agree by done. rewrite inert_agree by done. by rewrite drop_agree.
Qed.

Lemma around_agree tag prim (own : list (attr A)) attrs ks (kids kids' : list (node A)) :
  same_role prim tag -> forallb inert own = true -> forallb plain_key ks = true -> kids_agree kids kids' ->
  node_agree (Elt prim (own ++ drop_props ks attrs) kids) (Elt tag attrs kids').
Proof.
  intros Hr He Hp Hk. apply Elt_agree; [done| |done]. rewrite app_attr_agree by done. by apply drops_agree.
Qed.

Lemma neutral_one tag attrs (n : node A) :
  neutral tag = true -> forallb inert attrs = true -> node_agree (Elt tag attrs [n]) n.
Proof.
  intros H1 H2. rewrite (neutral_agree tag attrs [n] H1 H2).
  split; intros; cbn [events choices triggers links hrefs map concat existsb]; by rewrite ?app_nil_r, ?orb_false_r.
Qed.

Lemma portal_agree tag (overlay n : node A) :
  neutral tag = true -> node_agree overlay Nothing -> node_agree (Elt tag [] [overlay; n]) n.
Proof.
  intros H1 H2. rewrite (neutral_agree tag [] _ H1 eq_refl).
  assert (kids_agree [overlay; n] [n]) as -> by (by apply silent_left).
  split; intros; cbn [events choices triggers links hrefs map concat existsb]; by rewrite ?app_nil_r, ?orb_false_r.
Qed.

Ltac role := by split.
Ltac silent := split; intros; reflexivity.
Lemma opt_str_inert k v : plain_key k = true -> forallb inert (opt_str (A:=A) k v) = true.
Proof. intros H. destruct v; [|done]. cbn. by rewrite H. Qed.

Ltac forwarded :=
  apply forward_with_agree; [role|first [reflexivity|by apply opt_str_inert]|try reflexivity; by apply drop_agree|].

Lemma select_content_transparent : transparent "SelectContent" SelectContent.
Proof.
  intros attrs kids _. unfold SelectContent. cbv zeta. rewrite neutral_one by done.
  match goal with |- node_agree (Elt _ (?a :: ?b :: drop_props ?ks attrs) _) _ =>
    apply (around_agree "SelectContent" "SelectPrimitive.Content" [a; b] attrs ks) end; try done.
  rewrite (silent_left (SelectScrollUpButton [] [])) by silent.
  change (?x :: [SelectScrollDownButton [] []]) with ([x] ++ [SelectScrollDownButton [] []]).
  rewrite silent_right by silent. by apply neutral_inside.
Qed.

Lemma button_transparent : transparent "Button" Button.
Proof.
  intros attrs kids _. unfold Button.
  apply (around_agree "Button" _ [_] attrs ["className"; "variant"; "size"; "asChild"]); try done.
  by destruct (has_attr "asChild" true attrs).
Qed.

Lemma scroll_bar_transparent : transparent "ScrollBar" ScrollBar.
Proof.
  intros attrs kids H. rewrite (H eq_refl). unfold ScrollBar. cbv zeta.
  apply (around_agree "ScrollBar" _ [_; _] attrs ["className"; "orientation"]); done.
Qed.

Lemma scroll_area_transparent : transparent "ScrollArea" ScrollArea.
Proof.
  intros attrs kids _. unfold ScrollArea, forward. forwarded.
  change (?x :: ?y :: [?z]) with ([x] ++ [y; z]). rewrite silent_right by silent. by apply neutral_inside.
Qed.

Lemma select_item_transparent : transparent "SelectItem" SelectItem.
Proof.
  intros attrs kids _. unfold SelectItem, forward. forwarded.
  rewrite silent_left by silent. by apply neutral_inside.
Qed.

(** A component whose own children, if any, are decoration. *)
Ltac decorated :=
  first [ reflexivity
        | by apply silent_right
        | by apply silent_left ].

Ltac head_of t := lazymatch t with ?f _ => head_of f | _ => t end.

Ltac transparent_solve :=
  let H := fresh in
  intros attrs kids H; try rewrite (H eq_refl);
  match goal with |- node_agree (?w _ _) _ => let h := head_of w in unfold h, forward end;
  first [ apply Elt_agree; [role|reflexivity|reflexivity]
        | forwarded; decorated
        | rewrite neutral_one by done; forwarded; decorated ].

Lemma command_input_transparent : transparent "CommandInput" CommandInput.
Proof.
  intros attrs kids _. unfold CommandInput. rewrite neutral_agree by done.
  transitivity (Frag (A:=A) [Elt "CommandInput" attrs kids]).
  - apply Frag_proper. rewrite silent_left by silent. unfold forward.
    apply cons_kids_proper; [|done]. by forwarded.
  - split; intros; cbn [events choices triggers links hrefs map concat existsb]; by rewrite ?app_nil_r, ?orb_false_r.
Qed.

Lemma command_empty_transparent : transparent "CommandEmpty" CommandEmpty.
Proof.
  intros attrs kids _. unfold CommandEmpty.
  by apply (around_agree "CommandEmpty" _ [_] attrs ["className"]).
Qed.

Lemma dialog_content_transparent : transparent "DialogContent" DialogContent.
Proof.
  intros attrs kids _. unfold DialogContent, DialogPortal, forward.
  rewrite portal_agree by first [done|silent]. forwarded. by apply silent_right.
Qed.

Lemma alert_content_transparent : transparent "AlertDialogContent" AlertDialogContent.
Proof.
  intros attrs kids _. unfold AlertDialogContent, AlertDialogPortal, forward.
  rewrite portal_agree by first [done|silent]. by forwarded.
Qed.

Lemma sheet_content_transparent : transparent "SheetContent" SheetContent.
Proof.
  intros attrs kids _. unfold SheetContent, SheetPortal.
  rewrite portal_agree by first [done|silent]. forwarded. by apply silent_left.
Qed.

Lemma design_system_transparent :
  List.Forall (fun e => transparent (fst e) (snd e)) design_system.
Proof.
  unfold design_system.
  repeat (apply List.Forall_cons; cbn [fst snd];
          [first [ apply select_content_transparent | apply button_transparent
                 | apply scroll_bar_transparent | apply scroll_area_transparent
                 | apply select_item_transparent | apply command_input_transparent
                 | apply command_empty_transparent | apply dialog_content_transparent
                 | apply alert_content_transparent | apply sheet_content_transparent | transparent_solve ]|]).
  apply List.Forall_nil.
Qed.

Lemma expand_elt_agree tag attrs (kids : list (node A)) :
  (childless tag = true -> kids = []) -> node_agree (expand_elt tag attrs kids) (Elt tag attrs kids).
Proof.
  intros H. unfold expand_elt. destruct (assoc tag design_system) as [w|] eqn:E; [|done].
  assert (transparent tag w) as Hw; [|by apply Hw].
  pose proof design_system_transparent as HF.
  induction HF as [|[t u] l Hu _ IH]; [discriminate|]. cbn [assoc] in E.
  destruct (String.eqb_spec tag t) as [->|Ht]; [by injection E as <-|by apply IH].
Qed.

(** ** Trees *)

(** Induction over elements, their children and the nodes in their props. *)
Section induction.
Variable P : node A -> Prop.
Definition attr_holds (a : attr A) : Prop := match a with ANode _ m => P m | _ => True end.
Hypothesis HTxt : forall s, P (Txt s).
Hypothesis HFrag : forall l, List.Forall P l -> P (Frag l).
Hypothesis HElt : forall tag attrs kids,
  List.Forall attr_holds attrs -> List.Forall P kids -> P (Elt tag attrs kids).

Fixpoint node_ind' (n : node A) : P n :=
  let all := fix all (l : list (node A)) : List.Forall P l :=
    match l with [] => List.Forall_nil _ | m :: l => List.Forall_cons _ _ _ (node_ind' m) (all l) end in
  match n with
  | Txt s => HTxt s
  | Frag l => HFrag l (all l)
  | Elt tag attrs kids =>
      HElt tag attrs kids
        ((fix alla (l : list (attr A)) : List.Forall attr_holds l :=
            match l with
            | [] => List.Forall_nil _
            | a :: l => List.Forall_cons _ _ _
                (match a return attr_holds a with ANode _ m => node_ind' m | _ => I end) (alla l)
            end) attrs)
        (all kids)
  end.
End induction.

Lemma map_kids_agree (f : node A -> node A) l :
  List.Forall (fun n => node_agree (f n) n) l -> kids_agree (map f l) l.
Proof. induction 1 as [|n l Hn _ IH]; [done|]. cbn [map]. by rewrite Hn, IH. Qed.

Lemma map_attrs_agree (f : node A -> node A) (l : list (attr A)) :
  List.Forall (attr_holds (fun n : node A => node_agree (f n) n)) l ->
  attrs_agree (map (fun a => match a with ANode k m => ANode k (f m) | _ => a end) l) l.
Proof.
  induction 1 as [|a l Ha _ IH]; [done|]. cbn [map]. destruct a; try by apply cons_attr_agree.
  rewrite (cons_attr_agree _ _ _ IH). destruct Ha as [He _ _ _ _].
  split; try done. intros o. unfold node_events. cbn [map concat]. by rewrite He.
Qed.

Lemma expand_agree (n : node A) : well_used n = true -> node_agree (expand n) n.
Proof.
  induction n as [s|l IH|tag attrs kids IHa IHk] using node_ind'; intros H; [done| |].
  - cbn [expand]. apply map_kids_agree. rewrite List.Forall_forall in IH |- *. intros n Hn.
    apply IH; [done|]. cbn [well_used] in H. rewrite forallb_forall in H. by apply H.
  - cbn [well_used] in H. rewrite !andb_true_iff, !forallb_forall in H. destruct H as [[Hc Ha] Hk].
    cbn [expand]. rewrite expand_elt_agree.
    + apply Elt_agree; [apply same_role_refl|apply map_attrs_agree|apply map_kids_agree].
      * rewrite List.Forall_forall in IHa |- *. intros a Hin. specialize (IHa a Hin). specialize (Ha a Hin).
        destruct a; try done. by apply IHa.
      * rewrite List.Forall_forall in IHk |- *. intros n Hn. apply IHk; [done|by apply Hk].
    + intros Hl. rewrite Hl in Hc. by destruct kids.
Qed.

(** A tree and its expansion. *)
Lemma design_system_is_transparent (n : node A) :
  well_used n = true ->
  (forall a, fires (expand n) a <-> fires n a) /\ links (expand n) = links n /\ hrefs (expand n) = hrefs n.
Proof.
  intros H. destruct (expand_agree n H) as [He _ _ Hl Hr]. split; [|done].
  intros a. unfold fires. by rewrite He.
Qed.
End components.
