(* ===== verification/DevicesPage.v ===== *)
(** * Device list: ui/app/(dashboard)/devices/page.tsx

    The state of the page (filters, sort order, pagination, selection, dialogs,
    and the query and mutation state the page reads), its handlers, the derived
    lists, the rendered tree and the bulk delete. *)

From S2P Require Import Prelude JsString JsArray Vdom UrlCodec Json Endpoints ApiClient Api Components.
From Stdlib Require Import Sorting.Permutation Sorting.Sorted.

(** [localeCompare] depends on the host's collation. *)
Class Locale := { localeCompare : string -> string -> Z }.

Inductive SortKey := sort_hostname | sort_state | sort_lastHeartbeat.
Inductive SortDir := asc | desc.

Definition sort_key_eqb (a b : SortKey) : bool :=
  match a, b with
  | sort_hostname, sort_hostname | sort_state, sort_state
  | sort_lastHeartbeat, sort_lastHeartbeat => true
  | _, _ => false
  end.

Record devices_state := {
  dv_devices : option (list Device);
  dv_isLoading : bool;
  dv_search : string;
  dv_stateFilter : list string;
  dv_archFilter : string;
  dv_sortKey : SortKey;
  dv_sortDir : SortDir;
  dv_page : Z;
  dv_pageSize : Z;
  (** a [Set], in insertion order *)
  dv_selected : list string;
  dv_deleteConfirmOpen : bool;
  dv_enrollDialogOpen : bool;
  dv_copied : bool;
  (** [deleteMutation.isPending] *)
  dv_deleting : bool
}.

Definition devices_initial : devices_state := {|
  dv_devices := None; dv_isLoading := true; dv_search := ""; dv_stateFilter := [];
  dv_archFilter := ""; dv_sortKey := sort_hostname; dv_sortDir := asc; dv_page := 0;
  dv_pageSize := 10; dv_selected := []; dv_deleteConfirmOpen := false;
  dv_enrollDialogOpen := false; dv_copied := false; dv_deleting := false |}.

(** ** Field updates *)

Definition set_filters (search : string) (sf : list string) (arch : string) (s : devices_state) :=
  {| dv_devices := dv_devices s; dv_isLoading := dv_isLoading s; dv_search := search;
     dv_stateFilter := sf; dv_archFilter := arch; dv_sortKey := dv_sortKey s;
     dv_sortDir := dv_sortDir s; dv_page := 0; dv_pageSize := dv_pageSize s;
     dv_selected := dv_selected s; dv_deleteConfirmOpen := dv_deleteConfirmOpen s;
     dv_enrollDialogOpen := dv_enrollDialogOpen s; dv_copied := dv_copied s;
     dv_deleting := dv_deleting s |}.
Definition set_sort (k : SortKey) (d : SortDir) (s : devices_state) :=
  {| dv_devices := dv_devices s; dv_isLoading := dv_isLoading s; dv_search := dv_search s;
     dv_stateFilter := dv_stateFilter s; dv_archFilter := dv_archFilter s; dv_sortKey := k;
     dv_sortDir := d; dv_page := dv_page s; dv_pageSize := dv_pageSize s;
     dv_selected := dv_selected s; dv_deleteConfirmOpen := dv_deleteConfirmOpen s;
     dv_enrollDialogOpen := dv_enrollDialogOpen s; dv_copied := dv_copied s;
     dv_deleting := dv_deleting s |}.
Definition set_paging (p size : Z) (s : devices_state) :=
  {| dv_devices := dv_devices s; dv_isLoading := dv_isLoading s; dv_search := dv_search s;
     dv_stateFilter := dv_stateFilter s; dv_archFilter := dv_archFilter s;
     dv_sortKey := dv_sortKey s; dv_sortDir := dv_sortDir s; dv_page := p; dv_pageSize := size;
     dv_selected := dv_selected s; dv_deleteConfirmOpen := dv_deleteConfirmOpen s;
     dv_enrollDialogOpen := dv_enrollDialogOpen s; dv_copied := dv_copied s;
     dv_deleting := dv_deleting s |}.
Definition set_selected (sel : list string) (s : devices_state) :=
  {| dv_devices := dv_devices s; dv_isLoading := dv_isLoading s; dv_search := dv_search s;
     dv_stateFilter := dv_stateFilter s; dv_archFilter := dv_archFilter s;
     dv_sortKey := dv_sortKey s; dv_sortDir := dv_sortDir s; dv_page := dv_page s;
     dv_pageSize := dv_pageSize s; dv_selected := sel;
     dv_deleteConfirmOpen := dv_deleteConfirmOpen s;
     dv_enrollDialogOpen := dv_enrollDialogOpen s; dv_copied := dv_copied s;
     dv_deleting := dv_deleting s |}.
Definition set_dialogs (del enroll copied deleting : bool) (s : devices_state) :=
  {| dv_devices := dv_devices s; dv_isLoading := dv_isLoading s; dv_search := dv_search s;
     dv_stateFilter := dv_stateFilter s; dv_archFilter := dv_archFilter s;
     dv_sortKey := dv_sortKey s; dv_sortDir := dv_sortDir s; dv_page := dv_page s;
     dv_pageSize := dv_pageSize s; dv_selected := dv_selected s; dv_deleteConfirmOpen := del;
     dv_enrollDialogOpen := enroll; dv_copied := copied; dv_deleting := deleting |}.
Definition set_devices (ds : list Device) (s : devices_state) :=
  {| dv_devices := Some ds; dv_isLoading := false; dv_search := dv_search s;
     dv_stateFilter := dv_stateFilter s; dv_archFilter := dv_archFilter s;
     dv_sortKey := dv_sortKey s; dv_sortDir := dv_sortDir s; dv_page := dv_page s;
     dv_pageSize := dv_pageSize s; dv_selected := dv_selected s;
     dv_deleteConfirmOpen := dv_deleteConfirmOpen s;
     dv_enrollDialogOpen := dv_enrollDialogOpen s; dv_copied := dv_copied s;
     dv_deleting := dv_deleting s |}.

(** ** Derived lists *)

Definition devices_or_empty (s : devices_state) : list Device := dv_devices s ?? [].

Definition matches_search (search : string) (d : Device) : bool :=
  let lower := toLowerCase search in
  includes (toLowerCase (hostname d)) lower || includes (toLowerCase (deviceId d)) lower.

Section page.
Context {locale : Locale}.

Definition sort_cmp (s : devices_state) (a b : Device) : Z :=
  let cmp := match dv_sortKey s with
             | sort_hostname => localeCompare (hostname a) (hostname b)
             | sort_state => localeCompare (dev_state a) (dev_state b)
             | sort_lastHeartbeat =>
                 localeCompare (lastHeartbeat a ?? "") (lastHeartbeat b ?? "")
             end in
  match dv_sortDir s with asc => cmp | desc => - cmp end.

Definition filtered (s : devices_state) : list Device :=
  let result := devices_or_empty s in
  let result := if truthy (dv_search s)
                then List.filter (matches_search (dv_search s)) result else result in
  let result := if 0 <? zlength (dv_stateFilter s)
                then List.filter (fun d => existsb (String.eqb (dev_state d)) (dv_stateFilter s)) result
                else result in
  let result := if truthy (dv_archFilter s)
                then List.filter (fun d => String.eqb (architecture d) (dv_archFilter s)) result
                else result in
  sort_by (sort_cmp s) result.

Definition devices_totalPages (s : devices_state) : Z :=
  total_pages (zlength (filtered s)) (dv_pageSize s).

Definition paginated (s : devices_state) : list Device :=
  page_slice (filtered s) (dv_page s) (dv_pageSize s).

Definition architectures (s : devices_state) : list string :=
  sort_by string_cmp (set_of_list (map architecture (devices_or_empty s))).

Definition hasFilters (s : devices_state) : bool :=
  truthy (dv_search s) || (0 <? zlength (dv_stateFilter s)) || truthy (dv_archFilter s).

(** ** Handlers *)

Inductive devices_action :=
| SetSearch (v : string)
| ToggleState (st : string)
| SetArch (v : string)
| ToggleSort (k : SortKey)
| ClearFilters
| SetPageSize (v : string)
| PreviousPage
| NextPage
| ToggleSelect (id : string)
| ToggleSelectAll
| AskDelete
| SetDeleteOpen (open : bool)
| ConfirmDelete
| SetEnrollOpen (open : bool)
| CopyCommand
| OpenDevice (id : string)
(* not from the user *)
| CopyTimeout
| DevicesArrive (ds : list Device)
| DeleteSucceeded
| DeleteFailed (message : string).

Inductive devices_effect :=
| ToastSuccess (m : string)
| ToastError (m : string)
| InvalidateDevices
| RouterPush (url : string)
| WriteClipboard (text : string)
| StartTimer (ms : Z)
| MutateDelete (ids : list string).

Definition enroll_command : string :=
  "curl -sSL https://get.edgeguardian.io | sh -s -- --token YOUR_ENROLLMENT_TOKEN".

Definition toggleState (st : string) (s : devices_state) : devices_state :=
  set_filters (dv_search s)
    (if existsb (String.eqb st) (dv_stateFilter s)
     then List.filter (fun x => negb (String.eqb x st)) (dv_stateFilter s)
     else dv_stateFilter s ++ [st])
    (dv_archFilter s) s.

Definition toggleSort (k : SortKey) (s : devices_state) : devices_state :=
  if sort_key_eqb (dv_sortKey s) k
  then set_sort (dv_sortKey s) (match dv_sortDir s with asc => desc | desc => asc end) s
  else set_sort k asc s.

Definition clearFilters (s : devices_state) : devices_state := set_filters "" [] "" s.

Definition toggleSelect (id : string) (s : devices_state) : devices_state :=
  set_selected (if set_has id (dv_selected s) then set_delete id (dv_selected s)
                else set_add id (dv_selected s)) s.

Definition toggleSelectAll (s : devices_state) : devices_state :=
  if zlength (dv_selected s) =? zlength (paginated s) then set_selected [] s
  else set_selected (set_of_list (map deviceId (paginated s))) s.

Definition devices_update (s : devices_state) (a : devices_action)
    : devices_state * list devices_effect :=
  match a with
  | SetSearch v => (set_filters v (dv_stateFilter s) (dv_archFilter s) s, [])
  | ToggleState st => (toggleState st s, [])
  | SetArch v =>
      (set_filters (dv_search s) (dv_stateFilter s) (if String.eqb v "all" then "" else v) s, [])
  | ToggleSort k => (toggleSort k s, [])
  | ClearFilters => (clearFilters s, [])
  | SetPageSize v => (set_paging 0 (js_Number v ?? 0) s, [])
  | PreviousPage => (set_paging (dv_page s - 1) (dv_pageSize s) s, [])
  | NextPage => (set_paging (dv_page s + 1) (dv_pageSize s) s, [])
  | ToggleSelect id => (toggleSelect id s, [])
  | ToggleSelectAll => (toggleSelectAll s, [])
  | AskDelete => (set_dialogs true (dv_enrollDialogOpen s) (dv_copied s) (dv_deleting s) s, [])
  | SetDeleteOpen b => (set_dialogs b (dv_enrollDialogOpen s) (dv_copied s) (dv_deleting s) s, [])
  | ConfirmDelete =>
      (set_dialogs false (dv_enrollDialogOpen s) (dv_copied s) true s, [MutateDelete (dv_selected s)])
  | SetEnrollOpen b => (set_dialogs (dv_deleteConfirmOpen s) b (dv_copied s) (dv_deleting s) s, [])
  | CopyCommand =>
      (set_dialogs (dv_deleteConfirmOpen s) (dv_enrollDialogOpen s) true (dv_deleting s) s,
       [WriteClipboard enroll_command; StartTimer 2000])
  | OpenDevice id => (s, [RouterPush ("/devices/" +++ id)])
  | CopyTimeout =>
      (set_dialogs (dv_deleteConfirmOpen s) (dv_enrollDialogOpen s) false (dv_deleting s) s, [])
  | DevicesArrive ds => (set_devices ds s, [])
  | DeleteSucceeded =>
      (set_selected []
         (set_dialogs (dv_deleteConfirmOpen s) (dv_enrollDialogOpen s) (dv_copied s) false s),
       [ToastSuccess ("Deleted " +++ number_to_string (zlength (dv_selected s)) +++ " device(s)");
        InvalidateDevices])
  | DeleteFailed m =>
      (set_dialogs (dv_deleteConfirmOpen s) (dv_enrollDialogOpen s) (dv_copied s) false s,
       [ToastError ("Failed to delete: " +++ m)])
  end.

(** [mutationFn]: one request after the other, the first failure ends it. *)
Fixpoint delete_devices {S} {env : Environment S} (token : string) (ids : list string) : io S unit :=
  match ids with
  | [] => io_ret tt
  | id :: ids' => let! _ := deleteDevice token id in delete_devices token ids'
  end.
End page.

(** Collation by character code, for examples. *)
Definition plain_locale : Locale := {| localeCompare := string_cmp |}.
