(* ===== verification/DevicesView.v ===== *)
(** * Rendering of the device list: ui/app/(dashboard)/devices/page.tsx

    The element tree the page returns, section by section, and the handlers it
    exposes in each state. *)

From S2P Require Import Prelude JsString JsArray Vdom Api Components DevicesPage.

Section view.
Context {locale : Locale} {styling : Styling} {dates : Dates}.

Abbreviation act := devices_action.

Definition SortHeader (label : string) (sortId : SortKey) : node act :=
  Elt "button" [cls "inline-flex items-center gap-1 hover:text-foreground";
                AOn "onClick" (ToggleSort sortId)]
    [Txt label; icon "ArrowUpDown" "h-3 w-3"].

Definition devices_header (s : devices_state) : node act :=
  let n := match dv_devices s with Some ds => zlength ds | None => 0 end in
  PageHeader "Devices"
    (Some (number_to_string n +++ " device" +++ (if negb (n =? 1) then "s" else "") +++ " registered"))
    [Elt "Dialog" [ABool "open" (dv_enrollDialogOpen s); AOnBool "onOpenChange" SetEnrollOpen]
       [Elt "DialogTrigger" [ABool "asChild" true]
          [Elt "Button" [] [icon "Plus" "mr-2 h-4 w-4"; Txt "Add Device"]];
        Elt "DialogContent" []
          [Elt "DialogHeader" []
             [Elt "DialogTitle" [] [Txt "Add a Device"];
              Elt "DialogDescription" []
                [Txt "Run this command on your edge device to enroll it."]];
           Elt "div" [cls "rounded-lg bg-muted/50 border border-border/50 p-4"]
             [Elt "code" [cls "text-sm font-mono break-all text-primary"] [Txt enroll_command]];
           Elt "Button" [AStr "variant" "outline"; AOn "onClick" CopyCommand]
             [if dv_copied s then icon "Check" "mr-2 h-4 w-4" else icon "Copy" "mr-2 h-4 w-4";
              Txt (if dv_copied s then "Copied!" else "Copy Command")]]]]
    None.

Definition state_button (s : devices_state) (st : string) : node act :=
  Elt "Button"
    [AStr "key" st;
     AStr "variant" (if existsb (String.eqb st) (dv_stateFilter s) then "default" else "outline");
     AStr "size" "sm"; AOn "onClick" (ToggleState st)]
    [Txt st].

Definition arch_item (a : string) : node act :=
  Elt "SelectItem" [AStr "key" a; AStr "value" a] [Txt a].

Definition filter_bar (s : devices_state) : node act :=
  Elt "div" [cls "flex flex-wrap items-center gap-2"]
    [Elt "div" [cls "relative w-64"]
       [icon "Search" "absolute left-3 top-1/2 h-4 w-4 -translate-y-1/2 text-muted-foreground";
        Elt "Input" [AStr "placeholder" "Search devices..."; AStr "value" (dv_search s);
                     AOnStr "onChange" SetSearch; cls "pl-9"] []];
     Frag (map (state_button s) ["ONLINE"; "DEGRADED"; "OFFLINE"]);
     Elt "Select" [AStr "value" (dv_archFilter s); AOnStr "onValueChange" SetArch]
       [Elt "SelectTrigger" [cls "w-40"]
          [Elt "SelectValue" [AStr "placeholder" "Architecture"] []];
        Elt "SelectContent" []
          [Elt "SelectItem" [AStr "value" "all"] [Txt "All Architectures"];
           Frag (map arch_item (architectures s))]];
     when (hasFilters s)
       (Elt "Button" [AStr "variant" "ghost"; AStr "size" "sm"; AOn "onClick" ClearFilters]
          [icon "X" "mr-1 h-3 w-3"; Txt "Clear"])].

Definition bulk_bar (s : devices_state) : node act :=
  when (0 <? zlength (dv_selected s))
    (Elt "div" [cls "flex items-center gap-3 rounded-lg border border-primary/20 bg-primary/5 p-2 px-4"]
       [Elt "span" [cls "text-sm font-medium"]
          [Txt (number_to_string (zlength (dv_selected s))); Txt " selected"];
        Elt "Button" [AStr "variant" "destructive"; AStr "size" "sm"; AOn "onClick" AskDelete]
          [icon "Trash2" "mr-1 h-3 w-3"; Txt "Delete"]]).

Definition table_header (s : devices_state) : node act :=
  Elt "TableHeader" []
    [Elt "TableRow" []
       [Elt "TableHead" [cls "w-10"]
          [Elt "Checkbox"
             [ABool "checked" ((0 <? zlength (paginated s)) &&
                               (zlength (dv_selected s) =? zlength (paginated s)));
              AOnBool "onCheckedChange" (fun _ => ToggleSelectAll)] []];
        Elt "TableHead" [] [SortHeader "Hostname" sort_hostname];
        Elt "TableHead" [] [SortHeader "State" sort_state];
        Elt "TableHead" [] [Txt "Architecture"];
        Elt "TableHead" [] [Txt "Version"];
        Elt "TableHead" [] [SortHeader "Last Heartbeat" sort_lastHeartbeat];
        Elt "TableHead" [] [Txt "Labels"]]].

Definition label_badge (kv : string * string) : node act :=
  Elt "Badge" [AStr "key" (fst kv); AStr "variant" "outline"; cls "text-xs"]
    [Txt (fst kv); Txt "="; Txt (snd kv)].

Definition device_row (s : devices_state) (device : Device) : node act :=
  let ls := labels device ?? [] in
  Elt "TableRow" [AStr "key" (deviceId device); cls "cursor-pointer";
                  AOn "onClick" (OpenDevice (deviceId device))]
    [Elt "TableCell" [AOnStop "onClick"]
       [Elt "Checkbox"
          [ABool "checked" (set_has (deviceId device) (dv_selected s));
           AOnBool "onCheckedChange" (fun _ => ToggleSelect (deviceId device))] []];
     Elt "TableCell" [cls "font-medium"] [Txt (hostname device)];
     Elt "TableCell" [] [StateBadge (dev_state device) None];
     Elt "TableCell" []
       [Elt "Badge" [AStr "variant" "secondary"; cls "font-mono text-xs"]
          [Txt (os device); Txt "/"; Txt (architecture device)]];
     Elt "TableCell" []
       [Elt "span" [cls "font-mono text-xs"] [Txt (agentVersion device)]];
     Elt "TableCell" []
       [Txt (match lastHeartbeat device with
             | Some t => if truthy t then formatDistanceToNow t else "Never"
             | None => "Never"
             end)];
     Elt "TableCell" []
       [Elt "div" [cls "flex flex-wrap gap-1"]
          [Frag (map label_badge (slice ls 0 2));
           when (2 <? zlength ls)
             (Elt "Badge" [AStr "variant" "outline"; cls "text-xs"]
                [Txt "+"; Txt (number_to_string (zlength ls - 2))])]]].

Definition table_body (s : devices_state) : node act :=
  Elt "TableBody" []
    [if dv_isLoading s then array_from 5 (fun _ => TableRowSkeleton 7)
     else if zlength (paginated s) =? 0 then
       Elt "TableRow" []
         [Elt "TableCell" [ANum "colSpan" 7]
            [EmptyState None "No devices found"
               (Some "Register your first device to see it here.") []]]
     else Frag (map (device_row s) (paginated s))].

Definition devices_table (s : devices_state) : node act :=
  Elt "div" [cls "rounded-xl border border-border/50 overflow-hidden"]
    [Elt "Table" [] [table_header s; table_body s]].

Definition size_item (n : Z) : node act :=
  Elt "SelectItem" [ANum "key" n; AStr "value" (number_to_string n)] [Txt (number_to_string n)].

Definition devices_pagination (s : devices_state) : node act :=
  let n := zlength (filtered s) in
  when (0 <? n)
    (Elt "div" [cls "flex items-center justify-between"]
       [Elt "p" [cls "text-sm text-muted-foreground"]
          [Txt "Showing "; Txt (number_to_string (dv_page s * dv_pageSize s + 1)); Txt "-";
           Txt (number_to_string (Z.min ((dv_page s + 1) * dv_pageSize s) n)); Txt " of"; Txt " ";
           Txt (number_to_string n)];
        Elt "div" [cls "flex items-center gap-2"]
          [Elt "Select" [AStr "value" (number_to_string (dv_pageSize s));
                         AOnStr "onValueChange" SetPageSize]
             [Elt "SelectTrigger" [cls "w-20"] [Elt "SelectValue" [] []];
              Elt "SelectContent" [] [Frag (map size_item [10; 25; 50])]];
           Elt "Button" [AStr "variant" "outline"; AStr "size" "sm";
                         ABool "disabled" (dv_page s =? 0); AOn "onClick" PreviousPage]
             [Txt "Previous"];
           Elt "Button" [AStr "variant" "outline"; AStr "size" "sm";
                         ABool "disabled" (devices_totalPages s - 1 <=? dv_page s);
                         AOn "onClick" NextPage]
             [Txt "Next"]]]).

Definition delete_dialog (s : devices_state) : node act :=
  ConfirmDialog (dv_deleteConfirmOpen s) SetDeleteOpen "Delete Devices"
    ("Are you sure you want to delete " +++ number_to_string (zlength (dv_selected s)) +++
     " device(s)? This action cannot be undone.")
    (Some "Delete") variant_destructive ConfirmDelete (dv_deleting s).

Definition devices_view (s : devices_state) : node act :=
  Elt "div" [cls "space-y-4"]
    [devices_header s; filter_bar s; bulk_bar s; devices_table s; devices_pagination s;
     delete_dialog s].

(** Query results and mutation outcomes arrive on their own. *)
Definition devices_extern (s : devices_state) (a : devices_action) : Prop :=
  match a with
  | DevicesArrive _ | CopyTimeout => True
  | DeleteSucceeded | DeleteFailed _ => dv_deleting s = true
  | _ => False
  end.

Definition devices_page : page devices_state devices_action devices_effect := {|
  page_init := fun s => s = devices_initial;
  page_view := devices_view;
  page_update := devices_update;
  page_extern := devices_extern
|}.

(** ** The handlers of each section *)

Lemma devices_header_events s :
  events true (devices_header s) =
  EvUnit (SetEnrollOpen (negb (dv_enrollDialogOpen s)))
  :: (if dv_enrollDialogOpen s then [EvUnit CopyCommand] else []).
Proof.
  unfold devices_header. rewrite PageHeader_events.
  destruct (dv_enrollDialogOpen s), (dv_copied s); reflexivity.
Qed.

Lemma filter_bar_events s :
  events true (filter_bar s) =
  [EvStr SetSearch; EvUnit (ToggleState "ONLINE"); EvUnit (ToggleState "DEGRADED");
   EvUnit (ToggleState "OFFLINE"); EvChoice SetArch ("all" :: architectures s)]
  ++ (if hasFilters s then [EvUnit ClearFilters] else []).
Proof.
  unfold filter_bar, state_button.
  assert (concat (map choices (map arch_item (architectures s))) = architectures s) as Hc.
  { rewrite concat_map_map, (concat_map_singleton _ id) by done. apply map_id. }
  assert (concat (map (events true) (map arch_item (architectures s))) = []) as He.
  { rewrite concat_map_map. by apply concat_map_nil. }
  destruct (hasFilters s); events_simpl; by rewrite Hc, He, ?app_nil_r.
Qed.

Lemma bulk_bar_events s :
  events true (bulk_bar s) = if 0 <? zlength (dv_selected s) then [EvUnit AskDelete] else [].
Proof. unfold bulk_bar. by destruct (0 <? zlength (dv_selected s)). Qed.

Lemma device_row_events s d :
  events true (device_row s d) =
  [EvUnit (OpenDevice (deviceId d)); EvBool (fun _ => ToggleSelect (deviceId d))].
Proof.
  unfold device_row. destruct (2 <? zlength (labels d ?? [])); events_simpl;
    rewrite StateBadge_events, concat_map_map, (concat_map_nil _ (slice _ _ _)) by done; done.
Qed.

Definition row_events (d : Device) : list (ui_event act) :=
  [EvUnit (OpenDevice (deviceId d)); EvBool (fun _ => ToggleSelect (deviceId d))].

Lemma devices_table_events s :
  events true (devices_table s) =
  [EvBool (fun _ => ToggleSelectAll); EvUnit (ToggleSort sort_hostname);
   EvUnit (ToggleSort sort_state); EvUnit (ToggleSort sort_lastHeartbeat)]
  ++ (if dv_isLoading s then [] else concat (map row_events (paginated s))).
Proof.
  unfold devices_table, table_header, table_body.
  destruct (dv_isLoading s); [|destruct (zlength (paginated s) =? 0) eqn:E].
  - events_simpl. rewrite events_array_from by (intros; apply TableRowSkeleton_events). done.
  - events_simpl. rewrite EmptyState_events. bool_to_prop. apply zlength_zero in E. by rewrite E.
  - events_simpl. rewrite concat_map_map, !app_nil_r.
    rewrite (map_ext _ row_events) by apply device_row_events. done.
Qed.

Lemma devices_pagination_events s :
  events true (devices_pagination s) =
  if 0 <? zlength (filtered s) then
    [EvChoice SetPageSize (map number_to_string [10; 25; 50])]
    ++ (if dv_page s =? 0 then [] else [EvUnit PreviousPage])
    ++ (if devices_totalPages s - 1 <=? dv_page s then [] else [EvUnit NextPage])
  else [].
Proof.
  unfold devices_pagination. cbv zeta. destruct (0 <? zlength (filtered s)); [|done].
  destruct (dv_page s =? 0), (devices_totalPages s - 1 <=? dv_page s); reflexivity.
Qed.

Lemma devices_view_events s :
  events true (devices_view s) =
  (EvUnit (SetEnrollOpen (negb (dv_enrollDialogOpen s)))
   :: (if dv_enrollDialogOpen s then [EvUnit CopyCommand] else []))
  ++ ([EvStr SetSearch; EvUnit (ToggleState "ONLINE"); EvUnit (ToggleState "DEGRADED");
       EvUnit (ToggleState "OFFLINE"); EvChoice SetArch ("all" :: architectures s)]
      ++ (if hasFilters s then [EvUnit ClearFilters] else []))
  ++ (if 0 <? zlength (dv_selected s) then [EvUnit AskDelete] else [])
  ++ ([EvBool (fun _ => ToggleSelectAll); EvUnit (ToggleSort sort_hostname);
       EvUnit (ToggleSort sort_state); EvUnit (ToggleSort sort_lastHeartbeat)]
      ++ (if dv_isLoading s then [] else concat (map row_events (paginated s))))
  ++ (if 0 <? zlength (filtered s) then
        [EvChoice SetPageSize (map number_to_string [10; 25; 50])]
        ++ (if dv_page s =? 0 then [] else [EvUnit PreviousPage])
        ++ (if devices_totalPages s - 1 <=? dv_page s then [] else [EvUnit NextPage])
      else [])
  ++ ((if dv_deleteConfirmOpen s then [EvUnit (SetDeleteOpen false)] else [])
      ++ (if dv_deleteConfirmOpen s && negb (dv_deleting s) then [EvUnit ConfirmDelete] else [])).
Proof.
  rewrite <- devices_header_events, <- filter_bar_events, <- bulk_bar_events,
    <- devices_table_events, <- devices_pagination_events.
  rewrite <- (ConfirmDialog_events (dv_deleteConfirmOpen s) SetDeleteOpen "Delete Devices"
    ("Are you sure you want to delete " +++ number_to_string (zlength (dv_selected s)) +++
     " device(s)? This action cannot be undone.")
    (Some "Delete") variant_destructive ConfirmDelete (dv_deleting s)).
  unfold devices_view. cbn [events own_events has_attr existsb attr_is concat map app own_event dialog_moves
    content_tag dialog_tag String.eqb Ascii.eqb Bool.eqb orb andb negb cls].
  by rewrite app_nil_r.
Qed.
End view.
