(* ===== verification/DevicesFacts.v ===== *)
(** * Properties of the device list

    What the list shows, how it is paged, what a user can do to it, and what
    the bulk delete sends. *)

From S2P Require Import Prelude JsString JsArray Vdom Json Endpoints ApiClient Api Components DevicesPage DevicesView.
From Stdlib Require Import Sorting.Permutation Sorting.Sorted.

(** ** The filtered and sorted list *)

(** What the active filters ask of a device. *)
Definition passes (s : devices_state) (d : Device) : Prop :=
  (dv_search s <> "" ->
   exists text pre post, (text = hostname d \/ text = deviceId d) /\
     toLowerCase text = pre +++ toLowerCase (dv_search s) +++ post) /\
  (dv_stateFilter s <> [] -> In (dev_state d) (dv_stateFilter s)) /\
  (dv_archFilter s <> "" -> architecture d = dv_archFilter s).

Definition passes_b (s : devices_state) (d : Device) : bool :=
  (negb (truthy (dv_search s)) || matches_search (dv_search s) d)
  && (negb (0 <? zlength (dv_stateFilter s)) || existsb (String.eqb (dev_state d)) (dv_stateFilter s))
  && (negb (truthy (dv_archFilter s)) || String.eqb (architecture d) (dv_archFilter s)).

Lemma matches_search_spec v d :
  matches_search v d = true <->
  exists text pre post, (text = hostname d \/ text = deviceId d) /\
    toLowerCase text = pre +++ toLowerCase v +++ post.
Proof.
  unfold matches_search. rewrite orb_true_iff, !includes_spec. split.
  - intros [(pre & post & H)|(pre & post & H)]; eauto 8.
  - intros (text & pre & post & [->| ->] & H); eauto.
Qed.

Lemma zlength_pos_ne {X} (l : list X) : (0 <? zlength l) = true <-> l <> [].
Proof.
  rewrite Z.ltb_lt. unfold zlength. destruct l; cbn [length]; split; intros; try done; lia.
Qed.

Lemma impl_b (b c : bool) : (negb b || c)%bool = true <-> (b = true -> c = true).
Proof. destruct b, c; simpl; intuition congruence. Qed.

Lemma passes_b_spec s d : passes_b s d = true <-> passes s d.
Proof.
  unfold passes_b, passes. rewrite !andb_true_iff, !impl_b.
  rewrite matches_search_spec, !truthy_true, zlength_pos_ne, existsb_exists, String.eqb_eq.
  assert ((exists x, In x (dv_stateFilter s) /\ String.eqb (dev_state d) x = true) <->
          In (dev_state d) (dv_stateFilter s)) as ->; [|tauto].
  split; [|intros H; exists (dev_state d); by rewrite String.eqb_refl].
  intros (x & Hx & E). by apply String.eqb_eq in E as ->.
Qed.

Lemma filter_if {X} (c : bool) (p : X -> bool) l :
  (if c then List.filter p l else l) = List.filter (fun x => negb c || p x)%bool l.
Proof. destruct c; [done|]. symmetry. by apply filter_all_true. Qed.

Section facts.
Context {locale : Locale}.

Lemma filtered_eq s : filtered s = sort_by (sort_cmp s) (List.filter (passes_b s) (devices_or_empty s)).
Proof.
  unfold filtered. cbv zeta. rewrite !filter_if, !filter_filter_and. f_equal.
  apply List.filter_ext. intros d. unfold passes_b.
  rewrite <- !andb_assoc. f_equal.
Qed.

#[local] Instance sort_cmp_consistent s : ConsistentCmp localeCompare -> ConsistentCmp (sort_cmp s).
Proof.
  intros H. unfold sort_cmp. destruct (dv_sortKey s), (dv_sortDir s); apply _.
Qed.

(** What a column shows of a device, and what it means to come before another
    device: at most the other in the ascending order, at least in the descending. *)
Definition column (k : SortKey) (d : Device) : string :=
  match k with
  | sort_hostname => hostname d
  | sort_state => dev_state d
  | sort_lastHeartbeat => match lastHeartbeat d with Some t => t | None => "" end
  end.

Definition before (dir : SortDir) (x y : string) : Prop :=
  match dir with
  | asc => localeCompare x y <= 0
  | desc => localeCompare y x <= 0
  end.

Definition same_in_column (k : SortKey) (d x : Device) : bool :=
  localeCompare (column k d) (column k x) =? 0.

Lemma sort_cmp_column s a b :
  sort_cmp s a b = match dv_sortDir s with
                   | asc => localeCompare (column (dv_sortKey s) a) (column (dv_sortKey s) b)
                   | desc => - localeCompare (column (dv_sortKey s) a) (column (dv_sortKey s) b)
                   end.
Proof. by unfold sort_cmp; destruct (dv_sortKey s), (dv_sortDir s). Qed.

Lemma sort_cmp_before s a b :
  ConsistentCmp localeCompare ->
  sort_cmp s a b <= 0 <-> before (dv_sortDir s) (column (dv_sortKey s) a) (column (dv_sortKey s) b).
Proof.
  intros H. rewrite sort_cmp_column. unfold before. destruct (dv_sortDir s); [done|].
  rewrite (cmp_flip localeCompare (column _ b)). lia.
Qed.

Lemma sort_cmp_tied s d x : tied (sort_cmp s) d x = same_in_column (dv_sortKey s) d x.
Proof.
  unfold tied, same_in_column. rewrite sort_cmp_column. destruct (dv_sortDir s); [done|].
  apply eq_true_iff_eq. rewrite !Z.eqb_eq. lia.
Qed.

(** C9. The device list shows exactly the devices that pass the active filters, in ascending
    or descending order of the column of the chosen key, with devices equal in that
    column in the order of the server, for a collation that is a consistent comparison. *)
Theorem filtered_spec s :
  ConsistentCmp localeCompare ->
  exists p, (forall d, p d = true <-> passes s d) /\
    Permutation (filtered s) (List.filter p (devices_or_empty s)) /\
    StronglySorted (fun a b => before (dv_sortDir s) (column (dv_sortKey s) a) (column (dv_sortKey s) b))
      (filtered s) /\
    forall d, List.filter (same_in_column (dv_sortKey s) d) (filtered s)
            = List.filter (same_in_column (dv_sortKey s) d) (List.filter p (devices_or_empty s)).
Proof.
  intros Hc. exists (passes_b s). split; [apply passes_b_spec|]. rewrite filtered_eq. split_and!.
  - apply sort_by_perm.
  - pose proof (sort_by_sorted (sort_cmp s) (List.filter (passes_b s) (devices_or_empty s))) as H.
    induction H as [|a l Hl IH Ha]; constructor; [done|].
    eapply List.Forall_impl; [|exact Ha]. intros b. by apply sort_cmp_before.
  - intros d. rewrite <- !(List.filter_ext _ _ (sort_cmp_tied s d)). apply sort_by_stable. apply _.
Qed.

Lemma filtered_sort_length s k d : zlength (filtered (set_sort k d s)) = zlength (filtered s).
Proof. rewrite !filtered_eq. unfold zlength. by rewrite !sort_by_length. Qed.

(** C:pages *)
Theorem devices_pages_cover s :
  0 < dv_pageSize s ->
  concat (map (fun p => paginated (set_paging (Z.of_nat p) (dv_pageSize s) s))
            (seq 0 (Z.to_nat (devices_totalPages s)))) = filtered s /\
  forall p, 0 <= p ->
    (paginated (set_paging p (dv_pageSize s) s) = [] <-> devices_totalPages s <= p).
Proof.
  intros Hs. split.
  - exact (pages_partition (filtered s) (dv_pageSize s) Hs).
  - intros p Hp. exact (page_slice_empty (filtered s) p (dv_pageSize s) Hp Hs).
Qed.
End facts.

(** ** What a user can reach *)

Section reach.
Context {locale : Locale} {styling : Styling} {dates : Dates}.

Record devices_inv (s : devices_state) : Prop := {
  inv_page : 0 <= dv_page s;
  inv_size : In (dv_pageSize s) [10; 25; 50];
  inv_selected : List.NoDup (dv_selected s)
}.

(** The conditions under which the rendering offers a handler. *)
Lemma devices_fires s a :
  fires (devices_view s) a ->
  match a with
  | SetPageSize v => In v (map number_to_string [10; 25; 50])
  | PreviousPage => dv_page s <> 0
  | NextPage => dv_page s < devices_totalPages s - 1
  | ConfirmDelete => dv_deleteConfirmOpen s = true /\ dv_deleting s = false
  | AskDelete => dv_selected s <> []
  | ClearFilters => hasFilters s = true
  | CopyCommand => dv_enrollDialogOpen s = true
  | ToggleSelect id | OpenDevice id => exists d, In d (paginated s) /\ id = deviceId d
  | CopyTimeout | DevicesArrive _ | DeleteSucceeded | DeleteFailed _ => False
  | _ => True
  end.
Proof.
  intros (e & Hin & Hem). rewrite devices_view_events, !in_app_iff in Hin. cbn [In] in Hin.
  assert (forall (b : bool) x, In e (if b then [x] else []) -> b = true /\ x = e) as Hif.
  { intros [] x H; [|done]. by destruct H as [<-|[]]. }
  assert (forall (b : bool) x, In e (if b then [] else [x]) -> b = false /\ x = e) as Hif'.
  { intros [] x H; [done|]. by destruct H as [<-|[]]. }
  repeat match goal with
  | H : _ \/ _ |- _ => destruct H
  | H : False |- _ => destruct H
  | H : In e (if _ then [_] else []) |- _ => apply Hif in H as [? <-]
  | H : In e (if _ then [] else [_]) |- _ => apply Hif' in H as [? <-]
  | H : EvUnit _ = e |- _ => subst e
  | H : EvStr _ = e |- _ => subst e
  | H : EvBool _ = e |- _ => subst e
  | H : EvChoice _ _ = e |- _ => subst e
  | H : In e (if dv_isLoading s then [] else _) |- _ => destruct (dv_isLoading s); [destruct H|]
  | H : In e (concat (map row_events _)) |- _ => apply in_concat_map in H as (? & ? & H); cbn [row_events In] in H
  | H : In e (if 0 <? zlength (filtered s) then _ else []) |- _ =>
      destruct (0 <? zlength (filtered s)); [rewrite !in_app_iff in H; cbn [In] in H|destruct H]
  | H : emits (EvUnit _) a |- _ => cbn [emits] in H; subst a
  | H : emits (EvStr _) a |- _ => cbn [emits] in H; destruct H as [? ->]
  | H : emits (EvBool _) a |- _ => cbn [emits] in H; destruct H as [? ->]
  | H : emits (EvChoice _ _) a |- _ => cbn [emits] in H; destruct H as (? & ? & ->)
  end; bool_to_prop; eauto; try lia.
  by apply zlength_pos_ne, Z.ltb_lt.
Qed.

Lemma page_size_choice v :
  In v (map number_to_string [10; 25; 50]) -> In (js_Number v ?? 0) [10; 25; 50].
Proof.
  intros H. apply in_map_iff in H as (n & <- & Hn). rewrite js_Number_number_to_string. exact Hn.
Qed.

Lemma devices_inv_step s a :
  devices_inv s -> fires (devices_view s) a \/ devices_extern s a ->
  devices_inv (fst (devices_update s a)).
Proof.
  intros [H1 H2 H3] Ha.
  assert (match a with
          | SetPageSize v => In v (map number_to_string [10; 25; 50])
          | PreviousPage => dv_page s <> 0
          | _ => True end) as Hg.
  { destruct Ha as [Ha|Ha]; [apply devices_fires in Ha|]; destruct a; done. }
  destruct a; cbn [devices_update fst toggleState clearFilters]; try (by constructor);
    try (constructor; cbn; try done; lia).
  - unfold toggleSort. destruct (sort_key_eqb _ _); by constructor.
  - constructor; [done| |done]. by apply page_size_choice.
  - unfold toggleSelect. constructor; cbn; try done.
    destruct (set_has _ _); auto with js.
  - unfold toggleSelectAll. destruct (_ =? _); constructor; cbn; try done; auto with js. constructor.
  - constructor; cbn; try done. constructor.
Qed.

(** C14. In every reachable state of the device list the page number is not negative, the
    page size is one of the offered ones and the selection has no duplicates. *)
Theorem devices_reachable_inv s : page_reachable devices_page s -> devices_inv s.
Proof.
  revert s. apply page_invariant.
  - intros s ->. constructor; [done|by left|constructor].
  - intros s a. apply devices_inv_step.
Qed.

(** The current page exists, or is the first. *)
Definition page_exists (s : devices_state) : Prop :=
  dv_page s = 0 \/ dv_page s < devices_totalPages s.

(** C13. User actions alone never move the device list to a page that does not exist. *)
Theorem user_stays_on_a_page s s' :
  user_steps devices_page s s' -> page_exists s -> page_exists s'.
Proof.
  revert s s'. apply user_invariant. intros s a Hp Ha. apply devices_fires in Ha.
  destruct a; cbn [devices_page page_update devices_update fst toggleState clearFilters] in *;
    try (by left); try exact Hp; try done.
  - unfold toggleSort, page_exists, devices_totalPages in *.
    destruct (sort_key_eqb _ _); rewrite filtered_sort_length; exact Hp.
  - right. destruct Hp as [Hp|Hp]; [done|].
    change (dv_page s - 1 < devices_totalPages s). lia.
  - right. change (dv_page s + 1 < devices_totalPages s). lia.
  - unfold toggleSelectAll. destruct (_ =? _); exact Hp.
Qed.
End reach.

(** ** Selecting *)

Section select.
Context {locale : Locale}.

Definition visible (s : devices_state) : list string := map deviceId (paginated s).

(** When only visible devices are selected, the header check box clears a full
    selection and otherwise selects exactly the visible devices. *)
Theorem select_all_toggles s :
  List.NoDup (visible s) -> List.NoDup (dv_selected s) -> incl (dv_selected s) (visible s) ->
  let all := forall id, In id (visible s) -> In id (dv_selected s) in
  (all -> dv_selected (toggleSelectAll s) = []) /\
  (~ all -> dv_selected (toggleSelectAll s) = visible s).
Proof.
  intros Hv Hd Hi all. unfold toggleSelectAll. subst all.
  assert (zlength (paginated s) = zlength (visible s)) as ->
    by (unfold visible, zlength; by rewrite length_map).
  destruct (_ =? _) eqn:E; bool_to_prop; unfold zlength in E; cbn [dv_selected set_selected].
  - split; [done|]. intros Hn. exfalso. apply Hn.
    apply (List.NoDup_length_incl Hd); [lia|exact Hi].
  - rewrite set_of_list_id by exact Hv. split; [|done]. intros Ha. exfalso. apply E.
    pose proof (List.NoDup_incl_length Hd Hi). pose proof (List.NoDup_incl_length Hv Ha). lia.
Qed.

(** Handlers other than the two of the check boxes leave the selection alone,
    whatever the filters then hide. *)
Lemma selection_kept s a :
  match a with ToggleSelect _ | ToggleSelectAll | DeleteSucceeded => False | _ => True end ->
  dv_selected (fst (devices_update s a)) = dv_selected s.
Proof. destruct a; cbn; try done; intros _. unfold toggleSort. by destruct (sort_key_eqb _ _). Qed.
End select.

(** ** Concrete devices *)

Definition sample_device (id host st arch : string) : Device := {|
  deviceId := id; hostname := host; architecture := arch; os := "linux"; agentVersion := "1.0.0";
  labels := None; dev_state := st; registeredAt := "2024-01-01T00:00:00Z"; lastHeartbeat := None;
  autoUpdate := None; dev_status := None |}.

Definition three_devices : list Device :=
  [sample_device "d1" "pump" "ONLINE" "arm64"; sample_device "d2" "gate" "OFFLINE" "amd64";
   sample_device "d3" "Pump-2" "ONLINE" "amd64"].

Definition three_state : devices_state :=
  set_filters "PUMP" ["ONLINE"] "" (set_devices three_devices devices_initial).

Definition numbered (n : nat) : list Device :=
  map (fun i => sample_device (number_to_string (Z.of_nat i)) "host" "ONLINE" "arm64") (seq 0 n).

Lemma filtered_spec_witness :
  map deviceId (filtered (locale:=plain_locale) three_state) = ["d3"; "d1"] /\
  exists p, (forall d, p d = true <-> passes three_state d) /\
    Permutation (filtered (locale:=plain_locale) three_state)
      (List.filter p (devices_or_empty three_state)) /\
    StronglySorted
      (fun a b => before (locale:=plain_locale) asc (column sort_hostname a) (column sort_hostname b))
      (filtered (locale:=plain_locale) three_state) /\
    forall d, List.filter (same_in_column (locale:=plain_locale) sort_hostname d)
                (filtered (locale:=plain_locale) three_state)
            = List.filter (same_in_column (locale:=plain_locale) sort_hostname d)
                (List.filter p (devices_or_empty three_state)).
Proof.
  split; [vm_compute; reflexivity|].
  exact (filtered_spec (locale:=plain_locale) three_state string_cmp_consistent).
Defined.

Lemma devices_pages_cover_witness :
  let s := set_devices (numbered 11) devices_initial in
  0 < dv_pageSize s /\
  concat (map (fun p => paginated (locale:=plain_locale)
                 (set_paging (Z.of_nat p) (dv_pageSize s) s))
            (seq 0 (Z.to_nat (devices_totalPages (locale:=plain_locale) s))))
    = filtered (locale:=plain_locale) s /\
  forall p, 0 <= p ->
    (paginated (locale:=plain_locale) (set_paging p (dv_pageSize s) s) = [] <->
     devices_totalPages (locale:=plain_locale) s <= p).
Proof.
  intros s. split; [reflexivity|].
  exact (devices_pages_cover (locale:=plain_locale) s (eq_refl : (0 ?= 10) = Lt)).
Defined.

Lemma select_all_toggles_witness :
  let s := toggleSelect "d2" (set_devices three_devices devices_initial) in
  dv_selected (toggleSelectAll (locale:=plain_locale) s) = ["d3"; "d2"; "d1"] /\
  dv_selected (toggleSelectAll (locale:=plain_locale) s) = visible (locale:=plain_locale) s.
Proof.
  intros s. split; [vm_compute; reflexivity|].
  refine (proj2 (select_all_toggles (locale:=plain_locale) s _ _ _) _).
  - solve_nodup.
  - solve_nodup.
  - intros id [<-|[]]. vm_compute. auto.
  - intros H. specialize (H "d1"). cbn in H. destruct H as [H|[]]; [|discriminate H].
    vm_compute. tauto.
Defined.

Section sample.
#[local] Existing Instance plain_locale.
#[local] Existing Instance plain_styling.
#[local] Existing Instance plain_dates.

Definition shown (s : devices_state) : list string := texts (table_body s).

Lemma eleven_loaded : page_reachable devices_page (set_devices (numbered 11) devices_initial).
Proof.
  apply (reach_step _ devices_initial (DevicesArrive (numbered 11))); [by constructor|].
  by apply (step_extern devices_page devices_initial (DevicesArrive (numbered 11))).
Qed.

Lemma next_fires :
  fires (devices_view (set_devices (numbered 11) devices_initial)) NextPage.
Proof.
  exists (EvUnit NextPage). split; [|done]. rewrite devices_view_events, !in_app_iff.
  do 4 right. left. vm_compute. tauto.
Qed.

Definition second_page : devices_state := set_paging 1 10 (set_devices (numbered 11) devices_initial).

Lemma second_page_reachable : page_reachable devices_page second_page.
Proof.
  apply (reach_step _ _ NextPage _ eleven_loaded).
  exact (step_user devices_page _ _ next_fires).
Qed.

Lemma devices_reachable_inv_witness : page_reachable devices_page second_page /\ devices_inv second_page.
Proof.
  split; [exact second_page_reachable|].
  exact (devices_reachable_inv second_page second_page_reachable).
Defined.

Lemma user_stays_on_a_page_witness :
  user_steps devices_page (set_devices (numbered 11) devices_initial) second_page /\
  page_exists second_page.
Proof.
  assert (user_steps devices_page (set_devices (numbered 11) devices_initial) second_page) as H
    by (apply (user_step devices_page _ NextPage); [exact next_fires|apply user_refl]).
  split; [exact H|]. refine (user_stays_on_a_page _ second_page H _). left. reflexivity.
Defined.

(** When the list shrinks under the current page, the page stays where it is and the
    table says there are no devices. *)
Theorem page_goes_stale :
  exists s, page_reachable devices_page s /\ zlength (filtered s) = 10 /\
    shown s = ["No devices found"; "Register your first device to see it here."].
Proof.
  exists (set_devices (numbered 10) second_page). split_and!.
  - apply (reach_step _ second_page (DevicesArrive (numbered 10)) _ second_page_reachable).
    by apply (step_extern devices_page second_page (DevicesArrive (numbered 10))).
  - vm_compute. reflexivity.
  - vm_compute. reflexivity.
Qed.

(** C:hidden_selection *)
Theorem select_all_counts_hidden :
  exists s, page_reachable devices_page s /\
    dv_selected s = ["d2"] /\ visible s = ["d1"] /\
    snd (devices_update s ConfirmDelete) = [MutateDelete ["d2"]] /\
    dv_selected (toggleSelectAll s) = [].
Proof.
  exists (set_filters "" [] "arm64" (set_selected ["d2"] (set_devices three_devices devices_initial))).
  split_and!; try reflexivity.
  set (s0 := set_devices three_devices devices_initial).
  assert (page_reachable devices_page s0) as H0.
  { apply (reach_step _ devices_initial (DevicesArrive three_devices)); [by constructor|].
    by apply (step_extern devices_page devices_initial (DevicesArrive three_devices)). }
  assert (page_reachable devices_page (toggleSelect "d2" s0)) as H1.
  { apply (reach_step _ _ (ToggleSelect "d2") _ H0).
    refine (step_user devices_page s0 (ToggleSelect "d2") _).
    exists (EvBool (fun _ => ToggleSelect "d2")). split; [|by exists true].
    cbn [page_view devices_page]. rewrite devices_view_events, !in_app_iff.
    do 3 right. left. vm_compute. tauto. }
  apply (reach_step _ _ (SetArch "arm64") _ H1).
  refine (step_user devices_page (toggleSelect "d2" s0) (SetArch "arm64") _).
  exists (EvChoice SetArch ("all" :: architectures (toggleSelect "d2" s0))). split.
  - cbn [page_view devices_page]. rewrite devices_view_events, !in_app_iff.
    do 1 right. left. vm_compute. tauto.
  - exists "arm64". split; [|done]. vm_compute. tauto.
Qed.
End sample.
