(* ===== verification/DevicesDelete.v ===== *)
(** * Bulk delete of the device list

    The requests that deleting a selection sends, what a failure in the middle
    leaves behind, and how selection and paging can disagree with the list. *)

From S2P Require Import Prelude JsString JsArray Vdom Json Endpoints ApiClient Api Components DevicesPage DevicesView.

Section delete.
Context {S : Type} {env : Environment S}.

Definition delete_request (token id : string) : Request :=
  rawFetch_request (endpoint_path (devices_byId id)) (with_method "DELETE" token).

(** C8. Bulk delete sends one DELETE per id, in order, up to and including the first that
    fails, and succeeds only when all were sent. *)
Theorem delete_sends_prefix token ids w :
  let '(w', r) := delete_devices token ids w in
  exists sent rest, ids = sent ++ rest /\
    net_sent w' = net_sent w ++ map (delete_request token) sent /\
    match r with
    | Ok _ => rest = []
    | Throw e => exists before id wi, sent = before ++ [id] /\
        delete_devices token before w = (wi, Ok tt) /\
        snd (deleteDevice token id wi) = Throw e
    end.
Proof.
  revert w. induction ids as [|id ids IH]; intros w; cbn [delete_devices].
  { exists [], []. cbn. by rewrite app_nil_r. }
  pose proof (apiFetch_sent (endpoint_path (devices_byId id)) (with_method "DELETE" token) w) as Hs.
  change (apiFetch _ _ w) with (deleteDevice token id w) in Hs.
  change (rawFetch_request _ _) with (delete_request token id) in Hs.
  unfold io_bind at 1. destruct (deleteDevice token id w) as [w1 [j|e]] eqn:E; cbn [fst] in Hs.
  - specialize (IH w1). destruct (delete_devices token ids w1) as [w' r] eqn:E'.
    destruct IH as (sent & rest & -> & Hw & Hr). exists (id :: sent), rest.
    split; [done|]. split; [by rewrite Hw, Hs, <- app_assoc|].
    destruct r as [|e]; [done|]. destruct Hr as (before & x & wi & -> & Hb & He).
    exists (id :: before), x, wi. split_and!; [done| |done].
    cbn [delete_devices]. unfold io_bind at 1. by rewrite E.
  - exists [id], ids. split_and!; [done|done|].
    exists [], id, w. split_and!; [done|done|]. by rewrite E.
Qed.
End delete.

(** ** Deleting again after a failure *)

Section retry.
Context {S : Type} {env : Environment S}.

(** What the controller does with a device that is already deleted: it answers
    an error, and the device stays deleted. *)
Variable gone : string -> S -> Prop.
Hypothesis gone_error : forall token id s, gone id s ->
  exists e, raw_outcome (snd (server_fetch (delete_request token id) s)) = Throw e.
Hypothesis gone_delete : forall token id s resp,
  raw_outcome (snd (server_fetch (delete_request token id) s)) = Ok resp ->
  gone id (fst (server_fetch (delete_request token id) s)).
Hypothesis gone_stays : forall token id id' s, gone id s ->
  gone id (fst (server_fetch (delete_request token id') s)).

Lemma deleteDevice_raw token id w :
  net_server (fst (deleteDevice token id w)) = fst (server_fetch (delete_request token id) (net_server w)) /\
  (forall j, snd (deleteDevice token id w) = Ok j ->
     exists resp, raw_outcome (snd (server_fetch (delete_request token id) (net_server w))) = Ok resp) /\
  (forall e, raw_outcome (snd (server_fetch (delete_request token id) (net_server w))) = Throw e ->
     snd (deleteDevice token id w) = Throw e).
Proof.
  unfold deleteDevice, apiFetch, io_bind, delete_request. rewrite rawFetch_spec.
  destruct (server_fetch _ _) as [s' r]. cbn [fst snd].
  destruct (raw_outcome r) as [resp|e]; cbn [fst snd net_server];
    [|split_and!; [done|discriminate|congruence]].
  destruct (status resp =? 204), (json_body resp); cbn; split_and!; eauto; discriminate.
Qed.

Lemma delete_keeps_gone token id ids w :
  gone id (net_server w) -> gone id (net_server (fst (delete_devices token ids w))).
Proof.
  revert w. induction ids as [|x ids IH]; intros w Hg; [done|].
  cbn [delete_devices]. unfold io_bind at 1.
  pose proof (proj1 (deleteDevice_raw token x w)) as Hs.
  destruct (deleteDevice token x w) as [w1 [j|e]]; cbn [fst] in *.
  - apply IH. rewrite Hs. by apply gone_stays.
  - rewrite Hs. by apply gone_stays.
Qed.

(** After a bulk delete that failed halfway, confirming again sends the same ids and
    stops at the first, already deleted, device: the remaining ones are never reached. *)
Theorem retry_stops_at_deleted (s : devices_state) token m id ids w j :
  dv_selected s = id :: ids ->
  snd (deleteDevice token id w) = Ok j ->
  let w' := fst (delete_devices token (dv_selected s) w) in
  let s' := fst (devices_update (locale:=plain_locale) s (DeleteFailed m)) in
  snd (devices_update (locale:=plain_locale) s' ConfirmDelete) = [MutateDelete (id :: ids)] /\
  net_sent (fst (delete_devices token (id :: ids) w')) = net_sent w' ++ [delete_request token id] /\
  exists e', snd (delete_devices token (id :: ids) w') = Throw e'.
Proof.
  intros Hsel Hj. rewrite Hsel. intros w' s'. split; [by subst s'; cbn; rewrite Hsel|].
  assert (gone id (net_server w')) as Hg.
  { subst w'. cbn [delete_devices]. unfold io_bind at 1.
    destruct (deleteDevice_raw token id w) as (Hs & Hok & _).
    destruct (Hok j Hj) as [resp Hr]. apply gone_delete in Hr.
    destruct (deleteDevice token id w) as [w1 [j'|e']]; cbn [fst snd] in *; [|done].
    apply delete_keeps_gone. by rewrite Hs. }
  destruct (gone_error token id _ Hg) as [e' He'].
  pose proof (proj2 (proj2 (deleteDevice_raw token id w')) e' He') as Hd.
  pose proof (apiFetch_sent (endpoint_path (devices_byId id)) (with_method "DELETE" token) w') as Hn.
  change (apiFetch _ _ w') with (deleteDevice token id w') in Hn.
  cbn [delete_devices]. unfold io_bind.
  destruct (deleteDevice token id w') as [w2 [?|?]]; cbn [fst snd] in *; [done|].
  split; [exact Hn|]. eauto.
Qed.
End retry.

(** A controller whose state is the list of device URLs it knows; [locked]
    devices cannot be deleted. *)
Definition answer (code : Z) : result string Response :=
  Ok {| status := code; statusText := ""; text_body := ""; json_body := None |}.

Definition toy_controller : Environment (list string) := {|
  server_fetch := fun rq s =>
    if existsb (String.eqb (rq_url rq)) s then
      if includes (rq_url rq) "locked" then (s, answer 500)
      else (List.filter (fun u => negb (String.eqb (rq_url rq) u)) s, answer 204)
    else (s, answer 404);
  API_BASE_URL := "" |}.

Definition toy_url (id : string) : string := "/api/v1/devices/" +++ id.
Definition toy_gone (id : string) (s : list string) : Prop := ~ In (toy_url id) s.

Lemma toy_known id s :
  existsb (String.eqb (toy_url id)) s = true <-> In (toy_url id) s.
Proof.
  rewrite existsb_exists. split; [|intros H; exists (toy_url id); by rewrite String.eqb_refl].
  intros (u & Hu & E). by apply String.eqb_eq in E as ->.
Qed.

Lemma toy_gone_error token id s : toy_gone id s ->
  exists e, raw_outcome (snd (server_fetch (Environment:=toy_controller)
    (delete_request (env:=toy_controller) token id) s)) = Throw e.
Proof.
  unfold toy_gone. rewrite <- toy_known, not_true_iff_false. intros H.
  cbn [server_fetch toy_controller delete_request rawFetch_request rq_url].
  change (absoluteUrl _) with (toy_url id). rewrite H. cbn. eauto.
Qed.

Lemma toy_gone_delete token id s resp :
  raw_outcome (snd (server_fetch (Environment:=toy_controller)
    (delete_request (env:=toy_controller) token id) s)) = Ok resp ->
  toy_gone id (fst (server_fetch (Environment:=toy_controller)
    (delete_request (env:=toy_controller) token id) s)).
Proof.
  cbn [server_fetch toy_controller delete_request rawFetch_request rq_url].
  change (absoluteUrl _) with (toy_url id).
  destruct (existsb _ s); [|done]. destruct (includes _ _); [done|]. intros _.
  unfold toy_gone. cbn [fst]. rewrite filter_In, String.eqb_refl. by intros [_ ?].
Qed.

Lemma toy_gone_stays token id id' s : toy_gone id s ->
  toy_gone id (fst (server_fetch (Environment:=toy_controller)
    (delete_request (env:=toy_controller) token id') s)).
Proof.
  cbn [server_fetch toy_controller delete_request rawFetch_request rq_url].
  destruct (existsb _ s); [|done]. destruct (includes _ _); [done|].
  unfold toy_gone. cbn [fst]. rewrite filter_In. tauto.
Qed.

Definition two_selected : devices_state := set_selected ["a"; "locked"] devices_initial.
Definition two_known : net (list string) := Net [] [toy_url "a"; toy_url "locked"].

Lemma retry_stops_at_deleted_witness :
  let w' := fst (delete_devices (env:=toy_controller) "t" ["a"; "locked"] two_known) in
  net_server w' = [toy_url "locked"] /\
  snd (delete_devices (env:=toy_controller) "t" ["a"; "locked"] two_known) = Throw (ApiError 500 "") /\
  snd (devices_update (locale:=plain_locale)
         (fst (devices_update (locale:=plain_locale) two_selected (DeleteFailed "500"))) ConfirmDelete)
    = [MutateDelete ["a"; "locked"]] /\
  net_sent (fst (delete_devices (env:=toy_controller) "t" ["a"; "locked"] w'))
    = net_sent w' ++ [delete_request (env:=toy_controller) "t" "a"] /\
  exists e', snd (delete_devices (env:=toy_controller) "t" ["a"; "locked"] w') = Throw e'.
Proof.
  split; [vm_compute; reflexivity|]. split; [vm_compute; reflexivity|].
  exact (retry_stops_at_deleted (env:=toy_controller) toy_gone toy_gone_error toy_gone_delete
    toy_gone_stays two_selected "t" "500" "a" ["locked"] two_known None eq_refl eq_refl).
Defined.
