(* ===== verification/Certificates.v ===== *)
(** * Certificates: ui/app/(dashboard)/certificates/page.tsx

    The queue of certificate requests and the list of issued certificates: the
    state of the page, its derived values, its handlers and its mutations. *)

From S2P Require Import Prelude JsString JsArray Vdom Json Endpoints ApiClient Api OrgContext Components.

(** ** State *)

(** The query results the page reads. *)
Record certs_queries := {
  cq_token : string;
  cq_orgId : option Z;
  cq_requests : option (list CertificateRequest);
  cq_reqLoading : bool;
  cq_certs : option (list Certificate);
  cq_certsLoading : bool
}.

(** Its own state. *)
Record certs_ui := {
  cu_revokeTarget : option Certificate;
  cu_rejectTarget : option CertificateRequest;
  cu_showResolved : bool;
  cu_reqPage : Z;
  cu_certPage : Z
}.

(** [isPending] of the three mutations. *)
Record certs_pending := {
  cp_approve : bool;
  cp_reject : bool;
  cp_revoke : bool
}.

Record certs_state := {
  ct_q : certs_queries;
  ct_ui : certs_ui;
  ct_pending : certs_pending
}.

Definition certs_initial (token : string) (orgId : option Z) : certs_state := {|
  ct_q := {| cq_token := token; cq_orgId := orgId; cq_requests := None; cq_reqLoading := true;
             cq_certs := None; cq_certsLoading := true |};
  ct_ui := {| cu_revokeTarget := None; cu_rejectTarget := None; cu_showResolved := false;
              cu_reqPage := 0; cu_certPage := 0 |};
  ct_pending := {| cp_approve := false; cp_reject := false; cp_revoke := false |} |}.

Definition setRequests (l : list CertificateRequest) (s : certs_state) : certs_state :=
  let q := ct_q s in
  {| ct_q := {| cq_token := cq_token q; cq_orgId := cq_orgId q; cq_requests := Some l;
                cq_reqLoading := false; cq_certs := cq_certs q;
                cq_certsLoading := cq_certsLoading q |};
     ct_ui := ct_ui s; ct_pending := ct_pending s |}.
Definition setCerts (l : list Certificate) (s : certs_state) : certs_state :=
  let q := ct_q s in
  {| ct_q := {| cq_token := cq_token q; cq_orgId := cq_orgId q; cq_requests := cq_requests q;
                cq_reqLoading := cq_reqLoading q; cq_certs := Some l; cq_certsLoading := false |};
     ct_ui := ct_ui s; ct_pending := ct_pending s |}.
Definition setTargets (revoke : option Certificate) (reject : option CertificateRequest)
    (s : certs_state) : certs_state :=
  let u := ct_ui s in
  {| ct_q := ct_q s;
     ct_ui := {| cu_revokeTarget := revoke; cu_rejectTarget := reject;
                 cu_showResolved := cu_showResolved u; cu_reqPage := cu_reqPage u;
                 cu_certPage := cu_certPage u |};
     ct_pending := ct_pending s |}.
Definition setPages (resolved : bool) (reqPage certPage : Z) (s : certs_state) : certs_state :=
  let u := ct_ui s in
  {| ct_q := ct_q s;
     ct_ui := {| cu_revokeTarget := cu_revokeTarget u; cu_rejectTarget := cu_rejectTarget u;
                 cu_showResolved := resolved; cu_reqPage := reqPage; cu_certPage := certPage |};
     ct_pending := ct_pending s |}.
Definition setPending (approve reject revoke : bool) (s : certs_state) : certs_state :=
  {| ct_q := ct_q s; ct_ui := ct_ui s;
     ct_pending := {| cp_approve := approve; cp_reject := reject; cp_revoke := revoke |} |}.

Definition revokeTarget (s : certs_state) := cu_revokeTarget (ct_ui s).
Definition rejectTarget (s : certs_state) := cu_rejectTarget (ct_ui s).
Definition showResolved (s : certs_state) := cu_showResolved (ct_ui s).
Definition reqPage (s : certs_state) := cu_reqPage (ct_ui s).
Definition certPage (s : certs_state) := cu_certPage (ct_ui s).
Definition requests (s : certs_state) := cq_requests (ct_q s) ?? [].
Definition certList (s : certs_state) := cq_certs (ct_q s) ?? [].

(** ** Derived values *)

Section dates.
Context {dates : Dates}.

Definition formatDate (iso : string) : string := toLocaleDateString iso.

(** [now] is [Date.now()]. *)
Definition timeUntil (now : Z) (iso : string) : string :=
  match getTime iso with
  | Some t =>
      let diff := t - now in
      let days := diff / (1000 * 60 * 60 * 24) in
      if days <? 0 then number_to_string (Z.abs days) +++ "d ago"
      else if days =? 0 then "today"
      else "in " +++ number_to_string days +++ "d"
  | None => "in NaNd"
  end.
End dates.

Definition cert_key (deviceId name : string) : string := deviceId +++ "|" +++ name.

Definition certsByDeviceName (certs : list Certificate) : gmap string (list Certificate) :=
  fold_left (fun m c =>
    let key := cert_key (c_deviceId c) (c_name c) in
    <[key := (m !! key ?? []) ++ [c]]> m) certs ∅.

Definition requestEffectiveState (certs : list Certificate) (req : CertificateRequest) : string :=
  if negb (String.eqb (cr_state req) "approved") then cr_state req
  else
    let ms := certsByDeviceName certs !! cert_key (cr_deviceId req) (cr_name req) ?? [] in
    if zlength ms =? 0 then cr_state req
    else
      let hasActive := existsb (fun c => negb (c_revoked c)) ms in
      let hasRevoked := existsb c_revoked ms in
      if negb hasActive && hasRevoked then "revoked" else cr_state req.

Definition pendingCount (s : certs_state) : Z :=
  zlength (List.filter (fun r => String.eqb (cr_state r) "pending") (requests s)).

Definition isActionable (r : CertificateRequest) : bool :=
  String.eqb (cr_state r) "pending" || String.eqb (cr_state r) "blocked".

Definition resolvedCount (s : certs_state) : Z :=
  zlength (List.filter (fun r => negb (isActionable r)) (requests s)).

Definition visibleRequests (s : certs_state) : list CertificateRequest :=
  List.filter (fun r => showResolved s || isActionable r) (requests s).

Definition certs_pageSize : Z := 20.

(** [Math.max(1, Math.ceil(l.length / pageSize))] *)
Definition pages_of {A} (l : list A) : Z := Z.max 1 (total_pages (zlength l) certs_pageSize).
Definition page_safe {A} (l : list A) (p : Z) : Z := Z.min p (pages_of l - 1).

Definition reqPageSafe (s : certs_state) : Z := page_safe (visibleRequests s) (reqPage s).
Definition pagedRequests (s : certs_state) : list CertificateRequest :=
  page_slice (visibleRequests s) (reqPageSafe s) certs_pageSize.
Definition certPageSafe (s : certs_state) : Z := page_safe (certList s) (certPage s).
Definition pagedCerts (s : certs_state) : list Certificate :=
  page_slice (certList s) (certPageSafe s) certs_pageSize.

(** ** Handlers *)

Inductive certs_action :=
| DownloadCa
| ToggleResolved
| RequestsPrevious | RequestsNext
| CertsPrevious | CertsNext
| Approve (id : Z)
| AskReject (req : CertificateRequest)
| AskRevoke (cert : Certificate)
| RejectOpenChange (v : bool)
| RevokeOpenChange (v : bool)
| ConfirmReject
| ConfirmRevoke
(* not from the user *)
| RequestsArrive (l : list CertificateRequest)
| CertsArrive (l : list Certificate)
| ApproveSettled (ok : bool)
| RejectSettled (ok : bool)
| RevokeSettled (ok : bool)
| CaArrives (pem : result exn string).

Inductive certs_effect :=
| MutateApprove (id : Z)
| MutateReject (id : Z)
| MutateRevoke (id : Z)
| FetchCa
| InvalidateCertRequests
| InvalidateCertificates
| CertToastSuccess (m : string)
| CertToastError (m : string)
| SaveFile (content mime filename : string).

Definition downloadCaCert (s : certs_state) : list certs_effect :=
  if negb (truthy (cq_token (ct_q s))) || negb (truthy_id (cq_orgId (ct_q s))) then [] else [FetchCa].

Definition caArrives (pem : result exn string) : list certs_effect :=
  match pem with
  | Ok pem => [SaveFile pem "application/x-pem-file" "edgeguardian-ca.crt"]
  | Throw _ => [CertToastError "Failed to download CA certificate"]
  end.

Definition approveMutation_settled (ok : bool) (s : certs_state) : certs_state * list certs_effect :=
  let p := ct_pending s in
  (setPending false (cp_reject p) (cp_revoke p) s,
   if ok then [InvalidateCertRequests; InvalidateCertificates;
               CertToastSuccess "Certificate approved and issued"]
   else [CertToastError "Failed to approve certificate"]).

Definition rejectMutation_settled (ok : bool) (s : certs_state) : certs_state * list certs_effect :=
  let p := ct_pending s in
  let s' := setPending (cp_approve p) false (cp_revoke p) s in
  if ok then (setTargets (revokeTarget s') None s',
              [InvalidateCertRequests; CertToastSuccess "Certificate request rejected"])
  else (s', [CertToastError "Failed to reject request"]).

Definition revokeMutation_settled (ok : bool) (s : certs_state) : certs_state * list certs_effect :=
  let p := ct_pending s in
  let s' := setPending (cp_approve p) (cp_reject p) false s in
  if ok then (setTargets None (rejectTarget s') s',
              [InvalidateCertificates; CertToastSuccess "Certificate revoked"])
  else (s', [CertToastError "Failed to revoke certificate"]).

Definition certs_update (s : certs_state) (a : certs_action) : certs_state * list certs_effect :=
  let p := ct_pending s in
  match a with
  | DownloadCa => (s, downloadCaCert s)
  | ToggleResolved => (setPages (negb (showResolved s)) 0 (certPage s) s, [])
  | RequestsPrevious => (setPages (showResolved s) (reqPage s - 1) (certPage s) s, [])
  | RequestsNext => (setPages (showResolved s) (reqPage s + 1) (certPage s) s, [])
  | CertsPrevious => (setPages (showResolved s) (reqPage s) (certPage s - 1) s, [])
  | CertsNext => (setPages (showResolved s) (reqPage s) (certPage s + 1) s, [])
  | Approve id => (setPending true (cp_reject p) (cp_revoke p) s, [MutateApprove id])
  | AskReject req => (setTargets (revokeTarget s) (Some req) s, [])
  | AskRevoke cert => (setTargets (Some cert) (rejectTarget s) s, [])
  | RejectOpenChange v => (if v then s else setTargets (revokeTarget s) None s, [])
  | RevokeOpenChange v => (if v then s else setTargets None (rejectTarget s) s, [])
  | ConfirmReject =>
      match rejectTarget s with
      | Some r => (setPending (cp_approve p) true (cp_revoke p) s, [MutateReject (cr_id r)])
      | None => (s, [])
      end
  | ConfirmRevoke =>
      match revokeTarget s with
      | Some c => (setPending (cp_approve p) (cp_reject p) true s, [MutateRevoke (c_id c)])
      | None => (s, [])
      end
  | RequestsArrive l => (setRequests l s, [])
  | CertsArrive l => (setCerts l s, [])
  | ApproveSettled ok => approveMutation_settled ok s
  | RejectSettled ok => rejectMutation_settled ok s
  | RevokeSettled ok => revokeMutation_settled ok s
  | CaArrives pem => (s, caArrives pem)
  end.
