(* ===== verification/CertificatesView.v ===== *)
(** * Rendering of the certificates page: ui/app/(dashboard)/certificates/page.tsx *)

From S2P Require Import Prelude JsString JsArray Vdom Api OrgContext Components Certificates.

Section view.
Context {styling : Styling} {dates : Dates}.

Abbreviation act := certs_action.

Definition colored_badge (c label : string) : node act := Elt "Badge" [cls c] [Txt label].
Definition outline_badge (label : string) : node act :=
  Elt "Badge" [AStr "variant" "outline"] [Txt label].

Definition statusBadge (status : string) : node act :=
  if String.eqb status "valid" then
    colored_badge "bg-emerald-500/10 text-emerald-500 border-emerald-500/20" "Valid"
  else if String.eqb status "expiring" then
    colored_badge "bg-amber-500/10 text-amber-500 border-amber-500/20" "Expiring Soon"
  else if String.eqb status "expired" then
    colored_badge "bg-red-500/10 text-red-500 border-red-500/20" "Expired"
  else if String.eqb status "revoked" then
    colored_badge "bg-zinc-500/10 text-zinc-500 border-zinc-500/20" "Revoked"
  else outline_badge status.

Definition requestStateBadge (state : string) : node act :=
  if String.eqb state "pending" then
    colored_badge "bg-amber-500/10 text-amber-500 border-amber-500/20" "Pending"
  else if String.eqb state "approved" then
    colored_badge "bg-emerald-500/10 text-emerald-500 border-emerald-500/20" "Approved"
  else if String.eqb state "rejected" then
    colored_badge "bg-red-500/10 text-red-500 border-red-500/20" "Rejected"
  else if String.eqb state "revoked" then
    colored_badge "bg-zinc-500/10 text-zinc-500 border-zinc-500/20" "Revoked"
  else if String.eqb state "blocked" then
    colored_badge "bg-red-600/20 text-red-400 border-red-600/30" "Blocked - Compromise"
  else outline_badge state.

Definition certs_header : node act :=
  PageHeader "Certificates" (Some "Manage X.509 certificates for your devices")
    [Elt "Button" [AStr "variant" "outline"; AOn "onClick" DownloadCa]
       [icon "Download" "mr-2 h-4 w-4"; Txt " Download CA Cert"]] None.

Definition tabs_list (s : certs_state) : node act :=
  Elt "TabsList" []
    [Elt "TabsTrigger" [AStr "value" "requests"]
       [Txt "Requests ";
        when (0 <? pendingCount s)
          (Elt "span" [cls "ml-1.5 rounded-full bg-amber-500/20 px-1.5 py-0.5 text-xs text-amber-500"]
             [Txt (number_to_string (pendingCount s))])];
     Elt "TabsTrigger" [AStr "value" "certificates"] [Txt "Issued Certificates"]].

Definition resolved_toggle (s : certs_state) : node act :=
  when (0 <? resolvedCount s)
    (Elt "div" [cls "mb-2 flex justify-end"]
       [Elt "Button" [AStr "variant" "ghost"; AStr "size" "sm"; AOn "onClick" ToggleResolved]
          [Txt (if showResolved s then "Hide resolved"
                else "Show resolved (" +++ number_to_string (resolvedCount s) +++ ")")]]).

Definition heads (l : list string) : node act :=
  Elt "TableHeader" []
    [Elt "TableRow" [] (map (fun h => Elt "TableHead" [] (if truthy h then [Txt h] else [])) l)].

(** The empty table of the requests tab. *)
Definition no_requests (s : certs_state) : node act :=
  Elt "TableRow" []
    [Elt "TableCell" [ANum "colSpan" 7]
       [EmptyState (Some "ShieldCheck")
          (if 0 <? resolvedCount s then "No pending requests" else "No certificate requests")
          (Some (if 0 <? resolvedCount s
                 then "All requests are resolved. Use " +++ dquote +++ "Show resolved" +++ dquote +++
                      " to view " +++ number_to_string (resolvedCount s) +++ " past request" +++
                      (if resolvedCount s =? 1 then "" else "s") +++ "."
                 else "Certificate requests from devices will appear here.")) []]].

Definition request_buttons (s : certs_state) (req : CertificateRequest) : node act :=
  Elt "TableCell" []
    [when (String.eqb (cr_state req) "pending")
       (Elt "div" [cls "flex gap-1"]
          [Elt "Button" [AStr "size" "sm"; AStr "variant" "outline";
                         cls "text-emerald-500 hover:text-emerald-600";
                         AOn "onClick" (Approve (cr_id req));
                         ABool "disabled" (cp_approve (ct_pending s))]
             [icon "Check" "h-4 w-4"];
           Elt "Button" [AStr "size" "sm"; AStr "variant" "outline";
                         cls "text-red-500 hover:text-red-600"; AOn "onClick" (AskReject req)]
             [icon "X" "h-4 w-4"]]);
     when (String.eqb (cr_state req) "blocked") (icon "ShieldAlert" "h-5 w-5 text-red-500")].

Definition request_row (s : certs_state) (req : CertificateRequest) : node act :=
  Elt "TableRow" [ANum "key" (cr_id req);
                  cls (if String.eqb (cr_state req) "blocked" then "bg-red-500/5" else "")]
    [Elt "TableCell" [cls "font-mono text-sm"] [Txt (cr_deviceId req)];
     Elt "TableCell" [] [Txt (cr_name req)];
     Elt "TableCell" [cls "text-muted-foreground"] [Txt (cr_commonName req)];
     Elt "TableCell" [] [outline_badge (cr_type req)];
     Elt "TableCell" [] [requestStateBadge (requestEffectiveState (certList s) req)];
     Elt "TableCell" [cls "text-muted-foreground"] [Txt (formatDate (cr_createdAt req))];
     request_buttons s req].

(** The pager below both tables: [p] is the page shown, [n] the rows there are. *)
Definition pager (n p pages : Z) (previous next : act) : node act :=
  when (certs_pageSize <? n)
    (Elt "div" [cls "mt-3 flex items-center justify-between"]
       [Elt "p" [cls "text-sm text-muted-foreground"]
          [Txt "Showing "; Txt (number_to_string (p * certs_pageSize + 1)); Txt "-";
           Txt (number_to_string (Z.min ((p + 1) * certs_pageSize) n)); Txt " of ";
           Txt (number_to_string n)];
        Elt "div" [cls "flex gap-2"]
          [Elt "Button" [AStr "variant" "outline"; AStr "size" "sm"; ABool "disabled" (p =? 0);
                         AOn "onClick" previous] [Txt "Previous"];
           Elt "Button" [AStr "variant" "outline"; AStr "size" "sm";
                         ABool "disabled" (pages - 1 <=? p); AOn "onClick" next] [Txt "Next"]]]).

Definition requests_tab (s : certs_state) : node act :=
  Elt "TabsContent" [AStr "value" "requests"; cls "mt-4"]
    [resolved_toggle s;
     Elt "Table" []
       [heads ["Device"; "Name"; "Common Name"; "Type"; "State"; "Requested"; ""];
        Elt "TableBody" []
          [if cq_reqLoading (ct_q s) then array_from 3 (fun _ => TableRowSkeleton 7)
           else if zlength (visibleRequests s) =? 0 then no_requests s
           else Frag (map (request_row s) (pagedRequests s))]];
     pager (zlength (visibleRequests s)) (reqPageSafe s) (pages_of (visibleRequests s))
       RequestsPrevious RequestsNext].

Definition cert_row (now : Z) (cert : Certificate) : node act :=
  Elt "TableRow" [ANum "key" (c_id cert)]
    [Elt "TableCell" [cls "font-mono text-sm"] [Txt (c_deviceId cert)];
     Elt "TableCell" [] [Txt (c_name cert)];
     Elt "TableCell" [cls "text-muted-foreground"] [Txt (c_commonName cert)];
     Elt "TableCell" [cls "font-mono text-xs text-muted-foreground"]
       [Txt (take_string 16 (c_serialNumber cert)); Txt "..."];
     Elt "TableCell" [] [statusBadge (c_status cert)];
     Elt "TableCell" [cls "text-muted-foreground"]
       [Txt (formatDate (c_notAfter cert)); Txt " ("; Txt (timeUntil now (c_notAfter cert)); Txt ")"];
     Elt "TableCell" []
       [when (negb (c_revoked cert))
          (Elt "Button" [AStr "size" "sm"; AStr "variant" "outline";
                         cls "text-red-500 hover:text-red-600"; AOn "onClick" (AskRevoke cert)]
             [icon "Ban" "mr-1 h-3 w-3"; Txt " Revoke"])]].

Definition certs_tab (now : Z) (s : certs_state) : node act :=
  Elt "TabsContent" [AStr "value" "certificates"; cls "mt-4"]
    [Elt "Table" []
       [heads ["Device"; "Name"; "Common Name"; "Serial"; "Status"; "Expires"; ""];
        Elt "TableBody" []
          [if cq_certsLoading (ct_q s) then array_from 3 (fun _ => TableRowSkeleton 7)
           else if zlength (certList s) =? 0 then
             Elt "TableRow" []
               [Elt "TableCell" [ANum "colSpan" 7]
                  [EmptyState (Some "ShieldCheck") "No certificates issued"
                     (Some "Approved certificates will appear here.") []]]
           else Frag (map (cert_row now) (pagedCerts s))]];
     pager (zlength (certList s)) (certPageSafe s) (pages_of (certList s)) CertsPrevious CertsNext].

(** [x?.field] in a template literal. *)
Definition or_undefined (o : option string) : string := o ?? "undefined".

Definition reject_dialog (s : certs_state) : node act :=
  ConfirmDialog (bool_decide (is_Some (rejectTarget s))) RejectOpenChange "Reject Certificate Request"
    ("Reject the certificate request " +++ dquote +++ or_undefined (cr_name <$> rejectTarget s) +++
     dquote +++ " from device " +++ or_undefined (cr_deviceId <$> rejectTarget s) +++ "?")
    (Some "Reject") variant_destructive ConfirmReject (cp_reject (ct_pending s)).

Definition revoke_dialog (s : certs_state) : node act :=
  ConfirmDialog (bool_decide (is_Some (revokeTarget s))) RevokeOpenChange "Revoke Certificate"
    ("Revoke certificate " +++ dquote +++ or_undefined (c_name <$> revokeTarget s) +++ dquote +++
     " (serial " +++ or_undefined (take_string 16 ∘ c_serialNumber <$> revokeTarget s) +++
     "...) for device " +++ or_undefined (c_deviceId <$> revokeTarget s) +++
     "? This cannot be undone.")
    (Some "Revoke") variant_destructive ConfirmRevoke (cp_revoke (ct_pending s)).

Definition certs_view (now : Z) (s : certs_state) : node act :=
  Elt "div" [cls "space-y-6"]
    [certs_header;
     Elt "Tabs" [AStr "defaultValue" "requests"] [tabs_list s; requests_tab s; certs_tab now s];
     reject_dialog s; revoke_dialog s].

(** Query results and mutation outcomes arrive on their own. *)
Definition certs_extern (s : certs_state) (a : certs_action) : Prop :=
  match a with
  | RequestsArrive _ | CertsArrive _ | CaArrives _ => True
  | ApproveSettled _ => cp_approve (ct_pending s) = true
  | RejectSettled _ => cp_reject (ct_pending s) = true
  | RevokeSettled _ => cp_revoke (ct_pending s) = true
  | _ => False
  end.

Definition certs_page (now : Z) (token : string) (orgId : option Z)
    : page certs_state certs_action certs_effect := {|
  page_init := fun s => s = certs_initial token orgId;
  page_view := certs_view now;
  page_update := certs_update;
  page_extern := certs_extern
|}.

(** ** The handlers of each section *)

Lemma statusBadge_events o st : events o (statusBadge st) = [].
Proof. unfold statusBadge. by repeat destruct (String.eqb _ _). Qed.
Lemma requestStateBadge_events o st : events o (requestStateBadge st) = [].
Proof. unfold requestStateBadge. by repeat destruct (String.eqb _ _). Qed.
#[local] Hint Rewrite statusBadge_events requestStateBadge_events : js_rew.

Definition request_events (s : certs_state) (req : CertificateRequest) : list (ui_event act) :=
  if String.eqb (cr_state req) "pending" then
    (if cp_approve (ct_pending s) then [] else [EvUnit (Approve (cr_id req))]) ++ [EvUnit (AskReject req)]
  else [].

Lemma request_row_events s req : events true (request_row s req) = request_events s req.
Proof.
  unfold request_row, request_buttons, request_events.
  destruct (String.eqb (cr_state req) "pending"), (String.eqb (cr_state req) "blocked"),
    (cp_approve (ct_pending s)); events_simpl; by rewrite requestStateBadge_events.
Qed.

Definition cert_events (c : Certificate) : list (ui_event act) :=
  if c_revoked c then [] else [EvUnit (AskRevoke c)].

Lemma cert_row_events now c : events true (cert_row now c) = cert_events c.
Proof.
  unfold cert_row, cert_events. destruct (c_revoked c); events_simpl; by rewrite statusBadge_events.
Qed.

Definition pager_events (n p pages : Z) (previous next : act) : list (ui_event act) :=
  if certs_pageSize <? n then
    (if p =? 0 then [] else [EvUnit previous]) ++ (if pages - 1 <=? p then [] else [EvUnit next])
  else [].

Lemma pager_events_eq n p pages a b : events true (pager n p pages a b) = pager_events n p pages a b.
Proof.
  unfold pager, pager_events. destruct (_ <? n); [|done].
  by destruct (p =? 0), (pages - 1 <=? p).
Qed.

Lemma heads_events l : events true (heads l) = [].
Proof.
  unfold heads. events_simpl. rewrite !app_nil_r, concat_map_map.
  apply concat_map_nil. intros h _. by destruct (truthy h).
Qed.

Lemma requests_tab_events s :
  events true (requests_tab s) =
  (if 0 <? resolvedCount s then [EvUnit ToggleResolved] else [])
  ++ (if cq_reqLoading (ct_q s) then [] else if zlength (visibleRequests s) =? 0 then []
      else concat (map (request_events s) (pagedRequests s)))
  ++ pager_events (zlength (visibleRequests s)) (reqPageSafe s) (pages_of (visibleRequests s))
       RequestsPrevious RequestsNext.
Proof.
  unfold requests_tab, resolved_toggle, no_requests.
  destruct (0 <? resolvedCount s), (cq_reqLoading (ct_q s)); try destruct (_ =? 0);
    events_simpl; rewrite pager_events_eq, !app_nil_r, ?heads_events, ?EmptyState_events, ?concat_map_map,
      ?(map_ext _ _ (request_row_events s)); try done;
    by rewrite events_array_from by (intros; apply TableRowSkeleton_events).
Qed.

Lemma certs_tab_events now s :
  events true (certs_tab now s) =
  (if cq_certsLoading (ct_q s) then [] else if zlength (certList s) =? 0 then []
   else concat (map cert_events (pagedCerts s)))
  ++ pager_events (zlength (certList s)) (certPageSafe s) (pages_of (certList s))
       CertsPrevious CertsNext.
Proof.
  unfold certs_tab.
  destruct (cq_certsLoading (ct_q s)); try destruct (_ =? 0);
    events_simpl; rewrite pager_events_eq, !app_nil_r, ?heads_events, ?EmptyState_events, ?concat_map_map,
      ?(map_ext _ _ (cert_row_events now)); try done;
    by rewrite events_array_from by (intros; apply TableRowSkeleton_events).
Qed.

Lemma certs_view_events now s :
  events true (certs_view now s) =
  [EvUnit DownloadCa]
  ++ events true (requests_tab s) ++ events true (certs_tab now s)
  ++ ((if bool_decide (is_Some (rejectTarget s)) then [EvUnit (RejectOpenChange false)] else [])
      ++ (if bool_decide (is_Some (rejectTarget s)) && negb (cp_reject (ct_pending s))
       then [EvUnit ConfirmReject] else []))
  ++ ((if bool_decide (is_Some (revokeTarget s)) then [EvUnit (RevokeOpenChange false)] else [])
      ++ (if bool_decide (is_Some (revokeTarget s)) && negb (cp_revoke (ct_pending s))
       then [EvUnit ConfirmRevoke] else [])).
Proof.
  unfold certs_view, certs_header, tabs_list, reject_dialog, revoke_dialog.
  rewrite <- (ConfirmDialog_events (bool_decide (is_Some (rejectTarget s))) RejectOpenChange
    "Reject Certificate Request"
    ("Reject the certificate request " +++ dquote +++ or_undefined (cr_name <$> rejectTarget s) +++
     dquote +++ " from device " +++ or_undefined (cr_deviceId <$> rejectTarget s) +++ "?")
    (Some "Reject") variant_destructive).
  rewrite <- (ConfirmDialog_events (bool_decide (is_Some (revokeTarget s))) RevokeOpenChange
    "Revoke Certificate"
    ("Revoke certificate " +++ dquote +++ or_undefined (c_name <$> revokeTarget s) +++ dquote +++
     " (serial " +++ or_undefined (take_string 16 ∘ c_serialNumber <$> revokeTarget s) +++
     "...) for device " +++ or_undefined (c_deviceId <$> revokeTarget s) +++
     "? This cannot be undone.")
    (Some "Revoke") variant_destructive).
  generalize (requests_tab s) (certs_tab now s). intros n1 n2.
  match goal with |- context [ConfirmDialog ?a ?b ?c ?d ?e ?f ConfirmReject ?g] =>
    generalize (ConfirmDialog a b c d e f ConfirmReject g) end.
  match goal with |- context [ConfirmDialog ?a ?b ?c ?d ?e ?f ConfirmRevoke ?g] =>
    generalize (ConfirmDialog a b c d e f ConfirmRevoke g) end.
  intros n3 n4. destruct (0 <? pendingCount s); events_simpl; rewrite PageHeader_events;
    events_simpl; by rewrite ?app_nil_r, <- ?app_assoc.
Qed.
End view.
