(* ===== verification/CertificatesFacts.v ===== *)
(** * Properties of the certificates page

    The effective state of a request, the paging, and what a user can do. *)

From S2P Require Import Prelude JsString JsArray Vdom Api OrgContext Components Certificates CertificatesView.

(** ** The effective state of a request *)

Lemma certsByDeviceName_lookup certs k :
  certsByDeviceName certs !! k ?? [] =
  List.filter (fun c => String.eqb k (cert_key (c_deviceId c) (c_name c))) certs.
Proof.
  unfold certsByDeviceName.
  assert (forall m : gmap string (list Certificate),
    fold_left (fun m c => <[cert_key (c_deviceId c) (c_name c) :=
      (m !! cert_key (c_deviceId c) (c_name c) ?? []) ++ [c]]> m) certs m !! k ?? [] =
    (m !! k ?? []) ++ List.filter (fun c => String.eqb k (cert_key (c_deviceId c) (c_name c))) certs) as H.
  { induction certs as [|c certs IH]; intros m; cbn [fold_left List.filter]; [by rewrite app_nil_r|].
    rewrite IH. destruct (String.eqb_spec k (cert_key (c_deviceId c) (c_name c))) as [->|Hk].
    - rewrite lookup_insert_eq. cbn [default from_option id]. by rewrite <- app_assoc.
    - by rewrite lookup_insert_ne. }
  rewrite H, lookup_empty. done.
Qed.

(** Keys determine device and name when no device id contains the separator. *)
Lemma cert_key_inj d1 n1 d2 n2 :
  has_char "|" d1 = false -> has_char "|" d2 = false ->
  cert_key d1 n1 = cert_key d2 n2 -> d1 = d2 /\ n1 = n2.
Proof. exact (append_sep_inj "|" d1 d2 n1 n2). Qed.

(** The certificates issued to the request's device under its name. *)
Definition same_identity (req : CertificateRequest) (c : Certificate) : Prop :=
  c_deviceId c = cr_deviceId req /\ c_name c = cr_name req.

Definition separated (certs : list Certificate) (req : CertificateRequest) : Prop :=
  has_char "|" (cr_deviceId req) = false /\
  Forall (fun c => has_char "|" (c_deviceId c) = false) certs.

Lemma cert_matches certs req c :
  separated certs req ->
  In c (List.filter (fun c => String.eqb (cert_key (cr_deviceId req) (cr_name req))
                       (cert_key (c_deviceId c) (c_name c))) certs) <->
  In c certs /\ same_identity req c.
Proof.
  intros [H1 H2]. rewrite filter_In, String.eqb_eq. split; intros [Hc H]; (split; [done|]).
  - rewrite List.Forall_forall in H2. by apply cert_key_inj in H as [? ?]; auto.
  - by destruct H as [-> ->].
Qed.

(** C6. When no device id contains the separator, an approved request reads as revoked
    exactly when its device and name have a certificate and all of them are revoked;
    otherwise it shows its own state. So one certificate that is not revoked, also an
    expired one, is enough to keep an approved request from reading as revoked. *)
Theorem effective_state_spec certs req :
  separated certs req ->
  let all_revoked := cr_state req = "approved" /\
    (exists c, In c certs /\ same_identity req c) /\
    (forall c, In c certs -> same_identity req c -> c_revoked c = true) in
  (all_revoked -> requestEffectiveState certs req = "revoked") /\
  (~ all_revoked -> requestEffectiveState certs req = cr_state req) /\
  (forall c, In c certs -> same_identity req c -> c_revoked c = false ->
     requestEffectiveState certs req = cr_state req).
Proof.
  intros Hsep all_revoked.
  enough ((all_revoked -> requestEffectiveState certs req = "revoked") /\
          (~ all_revoked -> requestEffectiveState certs req = cr_state req)) as [H1 H2].
  { split_and!; [done|done|]. intros c Hc Hi Hr. apply H2. intros (_ & _ & Hall).
    by rewrite (Hall c Hc Hi) in Hr. }
  subst all_revoked. unfold requestEffectiveState.
  destruct (String.eqb_spec (cr_state req) "approved") as [Ha|Ha]; cbn [negb];
    [|split; [by intros [? _]|done]].
  cbv zeta. rewrite certsByDeviceName_lookup.
  pose proof (fun c => cert_matches certs req c Hsep) as Hm.
  set (ms := List.filter _ certs) in *. clearbody ms.
  destruct (zlength ms =? 0) eqn:E; bool_to_prop.
  { apply zlength_zero in E as ->. split; [|done].
    intros (_ & (c & Hc) & _). by apply Hm in Hc. }
  destruct (existsb (fun c => negb (c_revoked c)) ms) eqn:Ea; cbn [negb andb].
  - split; [|done]. intros (_ & _ & Hall). apply existsb_exists in Ea as (c & Hc & Hr).
    apply Hm in Hc as [Hc Hi]. rewrite (Hall c Hc Hi) in Hr. done.
  - rewrite existsb_false_forall in Ea. destruct ms as [|c ms]; [done|].
    assert (c_revoked c = true) as Hr by (apply negb_false_iff, Ea; by left).
    cbn [existsb]. rewrite Hr. cbn [orb]. split; [done|]. intros Hn. exfalso. apply Hn.
    split_and!; [done| |].
    + exists c. apply Hm. by left.
    + intros c' Hc Hi. apply negb_false_iff, Ea, Hm. done.
Qed.

(** ** Paging *)

Lemma page_safe_range {A} (l : list A) p : 0 <= p -> 0 <= page_safe l p <= pages_of l - 1.
Proof. unfold page_safe, pages_of. lia. Qed.

Lemma pages_of_pos {A} (l : list A) : l <> [] -> pages_of l = total_pages (zlength l) certs_pageSize.
Proof.
  intros H. unfold pages_of. apply zlength_pos in H.
  pose proof (total_pages_pos (zlength l) certs_pageSize). unfold certs_pageSize in *. lia.
Qed.

Lemma page_safe_shows {A} (l : list A) p :
  0 <= p -> l <> [] -> page_slice l (page_safe l p) certs_pageSize <> [].
Proof.
  intros Hp Hl. pose proof (page_safe_range l p Hp) as Hr. rewrite pages_of_pos in Hr by done.
  rewrite page_slice_empty; unfold certs_pageSize in *; lia.
Qed.

Lemma safe_pages_partition {A} (l : list A) :
  concat (map (fun p => page_slice l (page_safe l (Z.of_nat p)) certs_pageSize)
            (seq 0 (Z.to_nat (pages_of l)))) = l.
Proof.
  destruct (decide (zlength l = 0)) as [E|E]; [apply zlength_zero in E as ->; reflexivity|].
  assert (l <> []) as Hl by (intros ->; by apply E).
  etransitivity; [|apply (pages_partition l certs_pageSize); unfold certs_pageSize; lia].
  rewrite pages_of_pos by done. f_equal. apply map_ext_in. intros p Hp. apply in_seq in Hp.
  f_equal. unfold page_safe. rewrite pages_of_pos by done. lia.
Qed.

(** C15. The clamped pages of requests and certificates are never empty while there are
    rows, and one after the other they are all the rows. *)
Theorem certs_pages_cover s :
  0 <= reqPage s -> 0 <= certPage s ->
  (visibleRequests s <> [] -> pagedRequests s <> []) /\
  (certList s <> [] -> pagedCerts s <> []) /\
  concat (map (fun p => pagedRequests (setPages (showResolved s) (Z.of_nat p) 0 s))
            (seq 0 (Z.to_nat (pages_of (visibleRequests s))))) = visibleRequests s /\
  concat (map (fun p => pagedCerts (setPages (showResolved s) 0 (Z.of_nat p) s))
            (seq 0 (Z.to_nat (pages_of (certList s))))) = certList s.
Proof.
  intros Hr Hc. split_and!; try by (intros H; by apply page_safe_shows).
  - apply (safe_pages_partition (visibleRequests s)).
  - apply (safe_pages_partition (certList s)).
Qed.

(** ** What a user can do *)

Section reach.
Context {styling : Styling} {dates : Dates} (now : Z) (token : string) (orgId : option Z).

Abbreviation page := (certs_page now token orgId).

(** The conditions under which the rendering offers a handler. *)
Lemma certs_fires s a :
  fires (certs_view now s) a ->
  match a with
  | Approve id => cp_approve (ct_pending s) = false /\
      exists r, In r (pagedRequests s) /\ cr_state r = "pending" /\ cr_id r = id
  | AskReject r => In r (pagedRequests s) /\ cr_state r = "pending"
  | AskRevoke c => In c (pagedCerts s) /\ c_revoked c = false
  | ConfirmReject => is_Some (rejectTarget s) /\ cp_reject (ct_pending s) = false
  | ConfirmRevoke => is_Some (revokeTarget s) /\ cp_revoke (ct_pending s) = false
  | RequestsPrevious => reqPageSafe s <> 0
  | RequestsNext => reqPageSafe s < pages_of (visibleRequests s) - 1
  | CertsPrevious => certPageSafe s <> 0
  | CertsNext => certPageSafe s < pages_of (certList s) - 1
  | RequestsArrive _ | CertsArrive _ | ApproveSettled _ | RejectSettled _ | RevokeSettled _
  | CaArrives _ => False
  | _ => True
  end.
Proof.
  intros (e & Hin & Hem). rewrite certs_view_events, requests_tab_events, certs_tab_events in Hin.
  unfold pager_events in Hin. rewrite !in_app_iff in Hin.
  assert (forall (b : bool) x, In e (if b then [x] else []) -> b = true /\ x = e) as Hif.
  { intros [] x H; [|done]. by destruct H as [<-|[]]. }
  assert (forall (b : bool) x, In e (if b then [] else [x]) -> b = false /\ x = e) as Hif'.
  { intros [] x H; [done|]. by destruct H as [<-|[]]. }
  repeat match goal with
  | H : _ \/ _ |- _ => destruct H
  | H : False |- _ => destruct H
  | H : In _ [] |- _ => destruct H
  | H : In _ (_ :: _) |- _ => destruct H
  | H : In _ (_ ++ _) |- _ => rewrite in_app_iff in H
  | H : In e (if _ then [_] else []) |- _ => apply Hif in H as [? <-]
  | H : In e (if _ then [] else [_]) |- _ => apply Hif' in H as [? <-]
  | H : EvUnit _ = e |- _ => subst e
  | H : EvBool _ = e |- _ => subst e
  | H : In e (concat (map (request_events _) _)) |- _ =>
      apply in_concat_map in H as (? & ? & H); unfold request_events in H
  | H : In e (concat (map cert_events _)) |- _ =>
      apply in_concat_map in H as (? & ? & H); unfold cert_events in H
  | H : In e (if ?b then _ else _) |- _ => destruct b eqn:?
  | H : emits (EvUnit _) a |- _ => cbn [emits] in H; subst a
  | H : emits (EvBool _) a |- _ => cbn [emits] in H; destruct H as [? ->]
  end; bool_to_prop; try done; try lia; eauto 6.
  all: match goal with H : bool_decide _ = true |- _ => by apply bool_decide_eq_true in H end.
Qed.

(** The dialogs are about what could be rejected or revoked when they were opened. *)
Lemma certs_reachable_targets s :
  page_reachable page s ->
  0 <= reqPage s /\ 0 <= certPage s /\
  (forall r, rejectTarget s = Some r -> cr_state r = "pending") /\
  (forall c, revokeTarget s = Some c -> c_revoked c = false).
Proof.
  revert s. apply page_invariant.
  { intros s H. change (s = certs_initial token orgId) in H. subst s. split_and!; [done|done|intros ? [=]|intros ? [=]]. }
  intros s a (H1 & H2 & H3 & H4) Ha.
  assert (match a with
          | AskReject r => cr_state r = "pending"
          | AskRevoke c => c_revoked c = false
          | RequestsPrevious => reqPageSafe s <> 0
          | CertsPrevious => certPageSafe s <> 0
          | _ => True end) as Hg.
  { destruct Ha as [Ha|Ha]; [apply certs_fires in Ha|]; destruct a; try done; tauto. }
  pose proof (page_safe_range (visibleRequests s) (reqPage s) H1) as Hr.
  pose proof (page_safe_range (certList s) (certPage s) H2) as Hc.
  unfold reqPageSafe, certPageSafe, page_safe in *.
  destruct a; cbn [page_update certs_page certs_update fst]; unfold approveMutation_settled,
    rejectMutation_settled, revokeMutation_settled, reqPage, certPage, rejectTarget, revokeTarget in *;
    repeat case_match; cbn in *; split_and!; try done; try lia; intros; simplify_eq; eauto.
Qed.

(** C7. A click approves only a pending request on the shown page with no approval in
    flight, rejects only the pending request of the open dialog, revokes only the
    unrevoked certificate of the open dialog, and fetches the CA only with a token and
    an organization. *)
Theorem clicks_mutate_what_is_shown s a e :
  page_reachable page s -> fires (certs_view now s) a -> In e (snd (certs_update s a)) ->
  let s' := fst (certs_update s a) in
  match e with
  | MutateApprove id => exists r, In r (pagedRequests s) /\ cr_state r = "pending" /\ cr_id r = id /\
      cp_approve (ct_pending s) = false /\ cp_approve (ct_pending s') = true
  | MutateReject id => exists r, rejectTarget s = Some r /\ cr_state r = "pending" /\ cr_id r = id /\
      cp_reject (ct_pending s) = false /\ cp_reject (ct_pending s') = true
  | MutateRevoke id => exists c, revokeTarget s = Some c /\ c_revoked c = false /\ c_id c = id /\
      cp_revoke (ct_pending s) = false /\ cp_revoke (ct_pending s') = true
  | FetchCa => truthy (cq_token (ct_q s)) = true /\ truthy_id (cq_orgId (ct_q s)) = true
  | _ => False
  end.
Proof.
  intros Hr Hf He. apply certs_reachable_targets in Hr as (_ & _ & Hj & Hv).
  apply certs_fires in Hf.
  destruct a; cbn in Hf, He |- *; try done; try (by destruct v).
  - unfold downloadCaCert in He. destruct (truthy _), (truthy_id _); cbn in He; try done.
    by destruct He as [<-|[]].
  - destruct He as [<-|[]]. destruct Hf as (Hp & r & ? & ? & ?). eauto 8.
  - destruct Hf as [_ Hp]. destruct (rejectTarget s) as [r|] eqn:E; [|done].
    destruct He as [<-|[]]. exists r. cbn. auto.
  - destruct Hf as [_ Hp]. destruct (revokeTarget s) as [c|] eqn:E; [|done].
    destruct He as [<-|[]]. exists c. cbn. auto.
Qed.
End reach.

(** ** Concrete requests *)

Definition sample_request (id : Z) (device name state : string) : CertificateRequest := {|
  cr_id := id; cr_deviceId := device; cr_name := name; cr_commonName := device; cr_sans := [];
  cr_type := "initial"; cr_state := state; cr_rejectReason := None; cr_reviewedAt := None;
  cr_createdAt := "2024-01-01T00:00:00Z" |}.

Definition sample_cert (id : Z) (device name : string) (rev : bool) : Certificate := {|
  c_id := id; c_deviceId := device; c_name := name; c_commonName := device;
  c_serialNumber := "00112233445566778899"; c_status := if rev then "revoked" else "valid";
  c_notBefore := ""; c_notAfter := ""; c_revoked := rev; c_revokeReason := None;
  c_createdAt := "" |}.

Definition pending_requests (n : nat) : list CertificateRequest :=
  map (fun i => sample_request (Z.of_nat i) "edge-1" "mqtt" "pending") (seq 0 n).

Lemma effective_state_spec_witness :
  requestEffectiveState [sample_cert 1 "edge-1" "mqtt" true; sample_cert 2 "edge-2" "mqtt" false]
    (sample_request 9 "edge-1" "mqtt" "approved") = "revoked".
Proof.
  refine (proj1 (effective_state_spec _ (sample_request 9 "edge-1" "mqtt" "approved") _) _).
  - split; [reflexivity|]. repeat constructor.
  - split; [reflexivity|]. split.
    + exists (sample_cert 1 "edge-1" "mqtt" true). split; [left; reflexivity|split; reflexivity].
    + intros c [<-|[<-|[]]]; [reflexivity|]. intros [H _]. discriminate H.
Defined.

(** The comment in the code asks for a certificate that is still valid; one that
    expired counts as well. *)
Lemma expired_certificate_counts :
  let expired := {| c_id := 2; c_deviceId := "edge-1"; c_name := "mqtt"; c_commonName := "edge-1";
    c_serialNumber := "02"; c_status := "expired"; c_notBefore := "2020-01-01T00:00:00Z";
    c_notAfter := "2021-01-01T00:00:00Z"; c_revoked := false; c_revokeReason := None;
    c_createdAt := "2020-01-01T00:00:00Z" |} in
  requestEffectiveState [sample_cert 1 "edge-1" "mqtt" true; expired]
    (sample_request 9 "edge-1" "mqtt" "approved") = "approved".
Proof. reflexivity. Qed.

(** The separator matters: device [a|b] with certificate [c] and device [a] with
    certificate [b|c] share a key, and revoking one marks the other revoked. *)
Lemma cert_key_collision :
  requestEffectiveState [sample_cert 1 "a" "b|c" true] (sample_request 2 "a|b" "c" "approved") = "revoked".
Proof. reflexivity. Qed.

Definition loaded_certs (n : nat) : certs_state :=
  setRequests (pending_requests n) (certs_initial "t" (Some 1)).

Lemma certs_pages_cover_witness :
  let s := loaded_certs 21 in
  (visibleRequests s <> [] -> pagedRequests s <> []) /\
  (certList s <> [] -> pagedCerts s <> []) /\
  concat (map (fun p => pagedRequests (setPages (showResolved s) (Z.of_nat p) 0 s))
            (seq 0 (Z.to_nat (pages_of (visibleRequests s))))) = visibleRequests s /\
  concat (map (fun p => pagedCerts (setPages (showResolved s) 0 (Z.of_nat p) s))
            (seq 0 (Z.to_nat (pages_of (certList s))))) = certList s.
Proof.
  refine (certs_pages_cover (loaded_certs 21) _ _); vm_compute; discriminate.
Defined.

Section sample.
#[local] Existing Instance plain_styling.
#[local] Existing Instance plain_dates.
Abbreviation page := (certs_page 0 "t" (Some 1)).

Lemma loaded_reachable n : page_reachable page (loaded_certs n).
Proof.
  apply (reach_step _ (certs_initial "t" (Some 1)) (RequestsArrive (pending_requests n)));
    [by constructor|].
  by apply (step_extern page (certs_initial "t" (Some 1)) (RequestsArrive (pending_requests n))).
Qed.

Lemma approve_fires : fires (certs_view 0 (loaded_certs 2)) (Approve 1).
Proof.
  exists (EvUnit (Approve 1)). split; [|done].
  rewrite certs_view_events, requests_tab_events, !in_app_iff. right. left. vm_compute. tauto.
Qed.

Lemma clicks_mutate_what_is_shown_witness :
  exists r, In r (pagedRequests (loaded_certs 2)) /\ cr_state r = "pending" /\ cr_id r = 1 /\
    cp_approve (ct_pending (loaded_certs 2)) = false /\
    cp_approve (ct_pending (fst (certs_update (loaded_certs 2) (Approve 1)))) = true.
Proof.
  exact (clicks_mutate_what_is_shown 0 "t" (Some 1) (loaded_certs 2) (Approve 1) (MutateApprove 1)
    (loaded_reachable 2) approve_fires (or_introl eq_refl)).
Defined.

Lemma next_on s :
  page_reachable page s -> (certs_pageSize <? zlength (visibleRequests s)) = true ->
  (pages_of (visibleRequests s) - 1 <=? reqPageSafe s) = false ->
  page_reachable page (fst (certs_update s RequestsNext)).
Proof.
  intros Hr Hn Hp. apply (reach_step _ s RequestsNext _ Hr).
  apply (step_user page s RequestsNext). exists (EvUnit RequestsNext). split; [|done].
  cbn [page_view certs_page].
  rewrite certs_view_events, requests_tab_events. unfold pager_events. rewrite Hn, Hp, !in_app_iff.
  right. left. right. right. right. by left.
Qed.

(** C:previous *)
Theorem previous_can_do_nothing :
  exists s, page_reachable page s /\ fires (certs_view 0 s) RequestsPrevious /\
    let s' := fst (certs_update s RequestsPrevious) in
    map cr_id (pagedRequests s') = map cr_id (pagedRequests s) /\ pagedRequests s <> [].
Proof.
  set (s2 := fst (certs_update (fst (certs_update (loaded_certs 60) RequestsNext)) RequestsNext)).
  assert (page_reachable page s2) as H2.
  { apply next_on; [apply next_on; [apply loaded_reachable|..]|..]; reflexivity. }
  exists (setRequests (pending_requests 40) s2). split_and!.
  - apply (reach_step _ s2 (RequestsArrive (pending_requests 40)) _ H2).
    by apply (step_extern page s2 (RequestsArrive (pending_requests 40))).
  - exists (EvUnit RequestsPrevious). split; [|done].
    rewrite certs_view_events, requests_tab_events, !in_app_iff.
    right. left. right. right. vm_compute. tauto.
  - split; [vm_compute; reflexivity|vm_compute; discriminate].
Qed.
End sample.
