(* ===== verification/Navigation.v ===== *)
(** * Navigation: breadcrumbs, sidebar, command palette, user menu, layout

    ui/components/breadcrumbs.tsx, sidebar.tsx, command-palette.tsx,
    user-menu.tsx and ui/app/(dashboard)/layout.tsx. *)

From S2P Require Import Prelude JsString JsArray Vdom UrlCodec Api Auth Components.

(** ** breadcrumbs.tsx *)

Definition labelMap : list (string * string) :=
  [("dashboard", "Dashboard"); ("devices", "Devices"); ("audit", "Audit Log");
   ("settings", "Settings"); ("logs", "Logs"); ("manifest", "Manifest")].

(** The label of a crumb: a string, a function inherited from
    [Object.prototype] (which renders as nothing), or an exception
    ([decodeURIComponent] throws, and React refuses the object [__proto__]). *)
Inductive crumb_label := Label (s : string) | LabelFunction | LabelThrows.

Definition label_of (segment : string) : crumb_label :=
  match obj_get labelMap segment with
  | Own l => Label l
  | Inherited => if String.eqb segment "__proto__" then LabelThrows else LabelFunction
  | Undefined => match decodeURIComponent segment with Some s => Label s | None => LabelThrows end
  end.

Definition path_segments (pathname : string) : list string :=
  List.filter truthy (split_char "/" pathname).

Definition crumb_href (segments : list string) (i : Z) : string :=
  "/" +++ join "/" (slice segments 0 (i + 1)).

Section crumbs.
Context {A : Type}.

Definition crumb (segments : list string) (i : Z) (segment : string) : option (node A) :=
  let href := crumb_href segments i in
  let isLast := i =? zlength segments - 1 in
  match (match label_of segment with
         | Label s => Some (Txt s) | LabelFunction => Some Nothing | LabelThrows => None end) with
  | Some label =>
      Some (Frag [icon "ChevronRight" "mx-1.5 h-3.5 w-3.5";
                  if isLast then Elt "span" [cls "font-medium text-foreground"] [label]
                  else Elt "Link" [AStr "href" href; cls "hover:text-foreground transition-colors"]
                         [label]])
  | None => None
  end.

Fixpoint crumbs_from (segments : list string) (i : Z) (rest : list string) : option (list (node A)) :=
  match rest with
  | [] => Some []
  | segment :: rest' =>
      match crumb segments i segment, crumbs_from segments (i + 1) rest' with
      | Some n, Some l => Some (n :: l)
      | _, _ => None
      end
  end.

(** [None]: rendering throws. *)
Definition Breadcrumbs (pathname : string) : option (node A) :=
  let segments := path_segments pathname in
  if (zlength segments =? 0)
     || ((zlength segments =? 1) && String.eqb (default "" (segments !! 0%nat)) "dashboard") then
    Some (Elt "nav" [cls "flex items-center text-sm text-muted-foreground"]
            [Elt "span" [cls "font-medium text-foreground"] [Txt "Dashboard"]])
  else
    match crumbs_from segments 0 segments with
    | Some l =>
        Some (Elt "nav" [cls "flex items-center text-sm text-muted-foreground"]
                [Elt "Link" [AStr "href" "/dashboard"; cls "hover:text-foreground transition-colors"]
                   [Txt "Dashboard"];
                 Frag l])
    | None => None
    end.
End crumbs.

(** ** sidebar.tsx *)

Record nav_item := { nav_name : string; nav_href : string; nav_icon : string }.

Definition navigation : list nav_item :=
  [{| nav_name := "Dashboard"; nav_href := "/dashboard"; nav_icon := "LayoutDashboard" |};
   {| nav_name := "Devices"; nav_href := "/devices"; nav_icon := "Cpu" |};
   {| nav_name := "Certificates"; nav_href := "/certificates"; nav_icon := "ShieldCheck" |};
   {| nav_name := "Settings"; nav_href := "/settings"; nav_icon := "Settings" |};
   {| nav_name := "Audit Log"; nav_href := "/audit"; nav_icon := "FileText" |}].

Definition isActive (pathname : string) (item : nav_item) : bool :=
  String.eqb pathname (nav_href item) || startsWith pathname (nav_href item +++ "/").

(** [session.user] *)
Record SessionUser := { su_name : option string; su_email : option string }.

Definition initials (user : option SessionUser) : string :=
  match user with
  | Some u =>
      match su_name u with
      | Some name =>
          toUpperCase (take_string 2
            (join "" (map (fun n => first_char n ?? "") (split_char " " name))))
      | None => "?"
      end
  | None => "?"
  end.

Record sidebar_state := {
  sb_collapsed : bool;
  sb_mounted : bool;
  sb_theme : option string;
  (** [localStorage["sidebar-collapsed"]] *)
  sb_stored : option string
}.

Inductive sidebar_action := SidebarMount | ToggleCollapsed | SetTheme (v : string).

Definition sidebar_initial (theme stored : option string) : sidebar_state :=
  {| sb_collapsed := false; sb_mounted := false; sb_theme := theme; sb_stored := stored |}.

Definition bool_to_string (b : bool) : string := if b then "true" else "false".

Definition is_dark (theme : option string) : bool :=
  match theme with Some t => String.eqb t "dark" | None => false end.

Definition sidebar_update (s : sidebar_state) (a : sidebar_action) : sidebar_state :=
  match a with
  | SidebarMount =>
      {| sb_collapsed := match sb_stored s with
                         | Some v => if String.eqb v "true" then true else sb_collapsed s
                         | None => sb_collapsed s
                         end;
         sb_mounted := true; sb_theme := sb_theme s; sb_stored := sb_stored s |}
  | ToggleCollapsed =>
      let next := negb (sb_collapsed s) in
      {| sb_collapsed := next; sb_mounted := sb_mounted s; sb_theme := sb_theme s;
         sb_stored := Some (bool_to_string next) |}
  | SetTheme v =>
      {| sb_collapsed := sb_collapsed s; sb_mounted := sb_mounted s; sb_theme := Some v;
         sb_stored := sb_stored s |}
  end.

Section sidebar.
Context {styling : Styling} {A : Type} (embed : sidebar_action -> A).

Definition tooltip (trigger : node A) (content : string) : node A :=
  Elt "Tooltip" []
    [Elt "TooltipTrigger" [ABool "asChild" true] [trigger];
     Elt "TooltipContent" [AStr "side" "right"] [Txt content]].

Definition LogoIcon (size : Z) : node A := Elt "LogoIcon" [ANum "size" size] [].

Definition expand_handle (s : sidebar_state) : node A :=
  when (sb_collapsed s)
    (tooltip
       (Elt "button"
          [AOn "onClick" (embed ToggleCollapsed);
           cls "cursor-pointer absolute -right-4 top-8 z-50 flex h-8 w-8 -translate-y-1/2 items-center justify-center rounded-full border border-sidebar-border bg-sidebar-background text-muted-foreground shadow-md opacity-0 transition-opacity duration-200 hover:bg-accent hover:text-foreground group-hover/sidebar:opacity-100"]
          [icon "PanelLeftOpen" "h-4 w-4"])
       "Expand sidebar").

Definition sidebar_logo (s : sidebar_state) : node A :=
  Elt "div" [cls (cn [Some "flex h-16 items-center border-b border-sidebar-border";
                      Some (if sb_collapsed s then "justify-center" else "px-4")])]
    [if sb_collapsed s then
       tooltip (Elt "Link" [AStr "href" "/dashboard"; cls "hover:opacity-80 transition-opacity"]
                  [LogoIcon 28]) "Dashboard"
     else
       Frag [Elt "Link" [AStr "href" "/dashboard";
                         cls "flex items-center gap-3 hover:opacity-80 transition-opacity"]
               [LogoIcon 34;
                Elt "span" [cls "text-lg font-bold tracking-tight text-foreground"]
                  [Txt "Edge"; Elt "span" [cls "text-primary"] [Txt "Guardian"]]];
             Elt "Button" [AStr "variant" "ghost"; AStr "size" "icon";
                           cls "ml-auto h-7 w-7 text-muted-foreground hover:text-foreground";
                           AOn "onClick" (embed ToggleCollapsed)]
               [icon "PanelLeftClose" "h-4 w-4"]]].

Definition nav_link (collapsed : bool) (pathname : string) (item : nav_item) : node A :=
  let active := isActive pathname item in
  let link :=
    Elt "Link"
      [AStr "key" (nav_name item); AStr "href" (nav_href item);
       cls (cn [Some "group relative flex items-center gap-3 rounded-lg px-3 py-2 text-sm font-medium transition-all duration-200";
                class_if collapsed "justify-center px-0";
                Some (if active then "bg-primary/10 text-primary"
                      else "text-muted-foreground hover:bg-accent hover:text-foreground")])]
      [when active
         (icon "div" "absolute left-0 top-1/2 h-5 w-0.5 -translate-y-1/2 rounded-full bg-primary");
       icon (nav_icon item) (cn [Some "h-4 w-4 shrink-0 transition-colors"; class_if active "text-primary"]);
       when (negb collapsed) (Txt (nav_name item))] in
  if collapsed then tooltip link (nav_name item) else link.

Definition avatar (user : SessionUser) : node A :=
  Elt "Avatar" [cls "h-8 w-8 border border-border"]
    [Elt "AvatarFallback" [cls "bg-primary/10 text-xs font-semibold text-primary"]
       [Txt (initials (Some user))]].

Definition opt_text (o : option string) : node A :=
  match o with Some s => Txt s | None => Nothing end.

Definition sidebar_bottom (s : sidebar_state) (user : option SessionUser) : node A :=
  let dark := is_dark (sb_theme s) in
  Elt "div" [cls "border-t border-sidebar-border p-3"]
    [when (negb (sb_collapsed s) && sb_mounted s)
       (Elt "div" [cls "mb-3 flex items-center justify-between rounded-lg bg-muted/30 px-3 py-2"]
          [Elt "div" [cls "flex items-center gap-2 text-sm text-muted-foreground"]
             [icon (if dark then "Moon" else "Sun") "h-3.5 w-3.5";
              Elt "span" [cls "text-xs"] [Txt "Dark mode"]];
           Elt "Switch"
             [ABool "checked" dark;
              AOnBool "onCheckedChange" (fun b => embed (SetTheme (if b then "dark" else "light")))] []]);
     match user with
     | Some u =>
         when (negb (sb_collapsed s))
           (Elt "div" [cls "flex items-center gap-2.5 rounded-lg px-1"]
              [avatar u;
               Elt "div" [cls "min-w-0 flex-1"]
                 [Elt "p" [cls "truncate text-sm font-medium text-foreground"] [opt_text (su_name u)];
                  Elt "p" [cls "truncate text-xs text-muted-foreground"] [opt_text (su_email u)]]])
     | None => Nothing
     end;
     when (sb_collapsed s && sb_mounted s)
       (tooltip
          (Elt "button"
             [AOn "onClick" (embed (SetTheme (if dark then "light" else "dark")));
              cls "flex w-full items-center justify-center rounded-lg py-2 text-muted-foreground hover:bg-accent hover:text-foreground transition-colors mb-2"]
             [icon (if dark then "Moon" else "Sun") "h-4 w-4"])
          "Toggle theme");
     match user with
     | Some u =>
         when (sb_collapsed s)
           (Elt "Tooltip" []
              [Elt "TooltipTrigger" [ABool "asChild" true]
                 [Elt "div" [cls "flex justify-center"] [avatar u]];
               Elt "TooltipContent" [AStr "side" "right"] [opt_text (su_name u)]])
     | None => Nothing
     end].

(** [orgSwitcher] is the rendering of the organization switcher. *)
Definition Sidebar (s : sidebar_state) (pathname : string) (user : option SessionUser)
    (orgSwitcher : node A) : node A :=
  Elt "div"
    [cls (cn [Some "group/sidebar relative z-10 flex h-full flex-col border-r border-sidebar-border bg-sidebar-background/50 backdrop-blur-xl transition-all duration-300 ease-out overflow-visible";
              Some (if sb_collapsed s then "w-16" else "w-64")])]
    [expand_handle s; sidebar_logo s;
     when (negb (sb_collapsed s))
       (Elt "div" [cls "border-b border-sidebar-border px-3 py-2"]
          [Elt "Suspense"
             [ANode "fallback" (icon "div" "h-9 rounded-md bg-muted/30 animate-pulse")] [orgSwitcher]]);
     Elt "nav" [cls "flex-1 space-y-0.5 p-2"]
       [Frag (map (nav_link (sb_collapsed s) pathname) navigation)];
     sidebar_bottom s user].
End sidebar.

(** ** command-palette.tsx *)

Definition palette_pages : list nav_item :=
  [{| nav_name := "Dashboard"; nav_href := "/"; nav_icon := "LayoutDashboard" |};
   {| nav_name := "Devices"; nav_href := "/devices"; nav_icon := "Cpu" |};
   {| nav_name := "Audit Log"; nav_href := "/audit"; nav_icon := "FileText" |};
   {| nav_name := "Settings"; nav_href := "/settings"; nav_icon := "Settings" |}].

Record palette_state := {
  pl_open : bool;
  pl_devices : option (list Device);
  pl_theme : option string
}.

(** [key], [metaKey] and [ctrlKey] of a keyboard event. *)
Inductive palette_action :=
| KeyDown (key : string) (metaKey ctrlKey : bool)
| OpenPalette
| PaletteOpenChange (open : bool)
| RunPush (href : string)
| RunSetTheme (v : string)
| PaletteDevices (l : list Device).

Inductive palette_effect := PreventDefault | PalettePush (url : string) | PaletteSetTheme (v : string).

Definition palette_set_open (b : bool) (s : palette_state) : palette_state :=
  {| pl_open := b; pl_devices := pl_devices s; pl_theme := pl_theme s |}.

(** [runCommand(cmd)]: closes the palette, then runs the command. *)
Definition runCommand (cmd : palette_state -> palette_state * list palette_effect) (s : palette_state)
    : palette_state * list palette_effect :=
  cmd (palette_set_open false s).

Definition palette_update (s : palette_state) (a : palette_action)
    : palette_state * list palette_effect :=
  match a with
  | KeyDown key meta ctrl =>
      if String.eqb key "k" && (meta || ctrl)
      then (palette_set_open (negb (pl_open s)) s, [PreventDefault])
      else (s, [])
  | OpenPalette => (palette_set_open true s, [])
  | PaletteOpenChange b => (palette_set_open b s, [])
  | RunPush href => runCommand (fun s => (s, [PalettePush href])) s
  | RunSetTheme v =>
      runCommand (fun s => ({| pl_open := pl_open s; pl_devices := pl_devices s; pl_theme := Some v |},
                            [PaletteSetTheme v])) s
  | PaletteDevices l =>
      ({| pl_open := pl_open s; pl_devices := Some l; pl_theme := pl_theme s |}, [])
  end.

Section palette.
Context {A : Type} (embed : palette_action -> A).

(** ui/components/ui/command.tsx *)
Definition CommandDialog (open : bool) (onOpenChange : bool -> A) (children : list (node A)) : node A :=
  Elt "Dialog" [ABool "open" open; AOnBool "onOpenChange" onOpenChange]
    [Elt "DialogContent" [cls "overflow-hidden p-0"]
       [Elt "DialogTitle" [cls "sr-only"] [Txt "Command palette"];
        Elt "Command"
          [cls "[&_[cmdk-group-heading]]:px-2 [&_[cmdk-group-heading]]:font-medium [&_[cmdk-group-heading]]:text-muted-foreground [&_[cmdk-group]:not([hidden])_~[cmdk-group]]:pt-0 [&_[cmdk-input-wrapper]_svg]:h-5 [&_[cmdk-input-wrapper]_svg]:w-5 [&_[cmdk-input]]:h-12 [&_[cmdk-item]]:px-2 [&_[cmdk-item]]:py-3 [&_[cmdk-group]]:px-2"]
          children]].

Definition palette_button : node A :=
  Elt "button"
    [AOn "onClick" (embed OpenPalette);
     cls "inline-flex items-center gap-2 rounded-lg border border-border/50 bg-muted/30 px-3 py-1.5 text-sm text-muted-foreground backdrop-blur-sm hover:bg-accent hover:text-accent-foreground transition-all duration-200"]
    [icon "Search" "h-3.5 w-3.5";
     Elt "span" [cls "hidden sm:inline"] [Txt "Search..."];
     Elt "kbd"
       [cls "pointer-events-none hidden h-5 select-none items-center gap-1 rounded-md border border-border/50 bg-muted/50 px-1.5 font-mono text-[10px] font-medium sm:flex"]
       [Elt "span" [cls "text-xs"] [Txt "Ctrl"]; Txt "K"]].

Definition page_item (p : nav_item) : node A :=
  Elt "CommandItem" [AStr "key" (nav_href p); AOn "onSelect" (embed (RunPush (nav_href p)))]
    [icon (nav_icon p) "mr-2 h-4 w-4 text-muted-foreground"; Txt (nav_name p)].

Definition device_item (d : Device) : node A :=
  Elt "CommandItem"
    [AStr "key" (deviceId d); AOn "onSelect" (embed (RunPush ("/devices/" +++ deviceId d)))]
    [icon "Cpu" "mr-2 h-4 w-4 text-muted-foreground"; Txt (hostname d);
     Elt "span" [cls "ml-auto text-xs text-muted-foreground"] [Txt (dev_state d)]].

Definition palette_devices (s : palette_state) : node A :=
  match pl_devices s with
  | Some devices =>
      when (0 <? zlength devices)
        (Frag [icon "CommandSeparator" "";
               Elt "CommandGroup" [AStr "heading" "Devices"]
                 [Frag (map device_item (slice devices 0 10))]])
  | None => Nothing
  end.

Definition theme_item (s : palette_state) : node A :=
  let dark := is_dark (pl_theme s) in
  Elt "CommandItem" [AOn "onSelect" (embed (RunSetTheme (if dark then "light" else "dark")))]
    [icon (if dark then "Sun" else "Moon") "mr-2 h-4 w-4 text-muted-foreground";
     Txt "Toggle "; Txt (if dark then "Light" else "Dark"); Txt " Mode"].

Definition CommandPalette (s : palette_state) : node A :=
  Frag
    [palette_button;
     CommandDialog (pl_open s) (fun b => embed (PaletteOpenChange b))
       [Elt "CommandInput" [AStr "placeholder" "Type a command or search..."] [];
        Elt "CommandList" []
          [Elt "CommandEmpty" [] [Txt "No results found."];
           Elt "CommandGroup" [AStr "heading" "Pages"] [Frag (map page_item palette_pages)];
           palette_devices s;
           icon "CommandSeparator" "";
           Elt "CommandGroup" [AStr "heading" "Theme"] [theme_item s]]]].
End palette.

(** ** user-menu.tsx *)

Inductive menu_action := MenuSetTheme (v : string) | SignOutClick.
Inductive menu_effect := MenuTheme (v : string) | SignOutQuietly | LocationHref (url : string).

(** The effects of a menu item, in order; [signOut] is awaited. *)
Definition menu_update (sess : Session) (a : menu_action) : list menu_effect :=
  match a with
  | MenuSetTheme v => [MenuTheme v]
  | SignOutClick =>
      let logoutUrl := s_logoutUrl sess in
      [SignOutQuietly; LocationHref (logoutUrl ?? "/auth/login")]
  end.

Section menu.
Context {A : Type} (embed : menu_action -> A).

Definition UserMenu (user : option SessionUser) (theme : option string) : node A :=
  let dark := is_dark theme in
  match user with
  | None => Nothing
  | Some u =>
      Elt "DropdownMenu" []
        [Elt "DropdownMenuTrigger"
           [cls "flex items-center gap-2 rounded-lg px-2 py-1 hover:bg-accent transition-colors focus:outline-none"]
           [avatar u];
         Elt "DropdownMenuContent" [AStr "align" "end"; cls "w-56"]
           [Elt "DropdownMenuLabel" []
              [Elt "div" [cls "flex flex-col"]
                 [Elt "span" [cls "text-sm font-medium"] [opt_text (su_name u)];
                  Elt "span" [cls "text-xs text-muted-foreground"] [opt_text (su_email u)]]];
            icon "DropdownMenuSeparator" "";
            Elt "DropdownMenuItem" [ABool "asChild" true]
              [Elt "Link" [AStr "href" "/settings"]
                 [icon "Settings" "mr-2 h-4 w-4"; Txt "Org Settings"]];
            icon "DropdownMenuSeparator" "";
            Elt "div" [cls "flex items-center justify-between px-2 py-1.5"]
              [Elt "div" [cls "flex items-center gap-2 text-sm"]
                 [icon (if dark then "Moon" else "Sun") "h-4 w-4"; Txt "Dark mode"];
               Elt "Switch"
                 [ABool "checked" dark;
                  AOnBool "onCheckedChange"
                    (fun b => embed (MenuSetTheme (if b then "dark" else "light")))] []];
            icon "DropdownMenuSeparator" "";
            Elt "DropdownMenuItem"
              [AOn "onClick" (embed SignOutClick); cls "text-destructive focus:text-destructive"]
              [icon "LogOut" "mr-2 h-4 w-4"; Txt "Sign out"]]]
  end.
End menu.

(** ** layout.tsx *)

Inductive layout_action :=
| OnSidebar (a : sidebar_action)
| OnPalette (a : palette_action)
| OnMenu (a : menu_action)
| SetMobileOpen (b : bool)
| OnRetry
| OnOrg (v : string).

Section layout.
Context {styling : Styling}.
Variables (desktop mobile : sidebar_state) (mobileOpen : bool) (palette : palette_state)
  (pathname : string) (user : option SessionUser) (orgSwitcher : node layout_action)
  (boundary : boundary_state).

Definition menu_button : node layout_action :=
  Elt "Button" [AStr "variant" "ghost"; AStr "size" "icon"; cls "md:hidden"]
    [icon "Menu" "h-5 w-5"].

Definition MobileSidebar : node layout_action :=
  Elt "Suspense" [ANode "fallback" menu_button]
    [Elt "Sheet" [ABool "open" mobileOpen; AOnBool "onOpenChange" SetMobileOpen]
       [Elt "SheetTrigger" [ABool "asChild" true] [menu_button];
        Elt "SheetContent" [AStr "side" "left"; cls "w-64 p-0"]
          [Elt "SheetTitle" [cls "sr-only"] [Txt "Navigation"];
           Sidebar OnSidebar mobile pathname user orgSwitcher]]].

(** [None]: a component above the error boundary throws, and nothing renders. *)
Definition DashboardLayout (children : node layout_action) : option (node layout_action) :=
  match Breadcrumbs pathname with
  | None => None
  | Some crumbs =>
      Some
        (Elt "div" [cls "flex h-screen ambient-glow"]
           [Nothing; (* RefreshErrorGuard renders null *)
            Elt "div" [cls "hidden md:flex"] [Sidebar OnSidebar desktop pathname user orgSwitcher];
            Elt "div" [cls "flex flex-1 flex-col overflow-hidden"]
              [Elt "header"
                 [cls "flex h-14 items-center gap-4 border-b border-border/50 bg-background/80 backdrop-blur-xl px-4 sm:px-6"]
                 [MobileSidebar; crumbs; icon "div" "flex-1";
                  Elt "Suspense" [] [CommandPalette OnPalette palette];
                  Elt "Suspense" [] [UserMenu OnMenu user (pl_theme palette)]];
               Elt "main" [cls "flex-1 overflow-y-auto p-4 sm:p-6"]
                 [boundary_render OnRetry boundary None children]]])
  end.
End layout.
