(* ===== verification/NavigationFacts.v ===== *)
(** * Properties of the navigation components *)

From S2P Require Import Prelude JsString JsArray Vdom UrlCodec Api Auth Components Navigation.

(** ** Breadcrumbs *)

Lemma split_pieces_In c s x : In x (split_char c s) -> has_char c x = false.
Proof. intros H. pose proof (split_pieces_free c s) as F. rewrite List.Forall_forall in F. auto. Qed.

Lemma path_segments_piece pathname x :
  In x (path_segments pathname) -> has_char "/" x = false /\ x <> "".
Proof.
  intros H. apply filter_In in H as [H1 H2]. split; [by eapply split_pieces_In|by apply truthy_true].
Qed.

Lemma path_segments_join l :
  l <> [] -> Forall (fun x => has_char "/" x = false /\ x <> "") l ->
  path_segments ("/" +++ join "/" l) = l.
Proof.
  intros Hne Hl. unfold path_segments. change ("/" +++ join "/" l) with (String "/" (join "/" l)).
  cbn [split_char]. rewrite Ascii.eqb_refl. cbn [List.filter truthy].
  assert (split_char "/" (join "/" l) = l) as ->.
  { apply split_join; [done|]. eapply Forall_impl; [exact Hl|]. by intros x [? _]. }
  cbn. apply filter_all_true. intros x Hx. apply truthy_true.
  rewrite List.Forall_forall in Hl. by apply Hl.
Qed.

Lemma crumb_href_segments pathname k :
  (k < length (path_segments pathname))%nat ->
  path_segments (crumb_href (path_segments pathname) (Z.of_nat k))
    = take (S k) (path_segments pathname).
Proof.
  intros Hk. unfold crumb_href. rewrite slice_nonneg by lia.
  replace (Z.to_nat (Z.of_nat k + 1 - 0)) with (S k) by lia. cbn [Z.to_nat drop].
  apply path_segments_join.
  - intros H. apply (f_equal length) in H. rewrite length_take in H. cbn [length] in H. lia.
  - apply List.Forall_forall. intros x Hx. apply (path_segments_piece pathname).
    rewrite <- (take_drop (S k) (path_segments pathname)), in_app_iff. by left.
Qed.

Section crumbs.
Context {A : Type}.

Lemma crumb_links segs k x (n : node A) :
  crumb segs (Z.of_nat k) x = Some n ->
  links n = if (S k =? length segs)%nat then [] else [crumb_href segs (Z.of_nat k)].
Proof.
  unfold crumb. cbv zeta.
  assert ((Z.of_nat k =? zlength segs - 1) = (S k =? length segs)%nat) as ->.
  { apply eq_true_iff_eq. rewrite Z.eqb_eq, Nat.eqb_eq. unfold zlength. lia. }
  destruct (label_of x) as [l| |]; intros H; simplify_eq; by destruct (S k =? length segs)%nat.
Qed.

Lemma crumbs_from_links segs rest k (l : list (node A)) :
  (k + length rest = length segs)%nat ->
  crumbs_from segs (Z.of_nat k) rest = Some l ->
  concat (map links l) =
    map (fun j => crumb_href segs (Z.of_nat j)) (seq k (length rest - 1)).
Proof.
  revert k l. induction rest as [|x rest IH]; intros k l Hk; cbn [crumbs_from].
  { by intros [= <-]. }
  destruct (crumb segs (Z.of_nat k) x) as [n|] eqn:En; [|done].
  replace (Z.of_nat k + 1) with (Z.of_nat (S k)) by lia.
  destruct (crumbs_from segs (Z.of_nat (S k)) rest) as [l'|] eqn:El; [|done].
  intros [= <-]. cbn [map concat length] in *.
  rewrite (crumb_links _ _ _ _ En), (IH (S k) l') by (done || lia).
  destruct (S k =? length segs)%nat eqn:E.
  - apply Nat.eqb_eq in E. assert (length rest = 0%nat) as -> by lia. done.
  - apply Nat.eqb_neq in E. destruct rest as [|y rest]; [cbn in *; lia|].
    cbn [length]. rewrite !Nat.sub_succ, !Nat.sub_0_r. done.
Qed.

(** The paths on which only the dashboard crumb shows. *)
Definition at_root (pathname : string) : Prop :=
  path_segments pathname = [] \/ path_segments pathname = ["dashboard"].

Lemma root_test pathname :
  (zlength (path_segments pathname) =? 0)
  || ((zlength (path_segments pathname) =? 1)
      && String.eqb (default "" (path_segments pathname !! 0%nat)) "dashboard") = true <->
  at_root pathname.
Proof.
  unfold at_root. destruct (path_segments pathname) as [|x [|y l]].
  - split; [by left|done].
  - change (String.eqb x "dashboard" = true <-> [x] = [] \/ [x] = ["dashboard"]). rewrite String.eqb_eq.
    split; [intros ->; by right|]. by intros [[=]|[= ->]].
  - split; [|by intros [[=]|[=]]]. intros E.
    apply orb_prop in E as [E|E]; [|apply andb_prop in E as [E _]]; apply Z.eqb_eq in E;
      unfold zlength in E; cbn [length] in E; lia.
Qed.

(** The breadcrumbs link to the dashboard and then to every proper ancestor of the
    current path, in order. *)
Theorem breadcrumbs_link_ancestors pathname (n : node A) :
  Breadcrumbs pathname = Some n -> ~ at_root pathname ->
  map path_segments (links n) =
  ["dashboard"] ::
  map (fun k => take (S k) (path_segments pathname)) (seq 0 (length (path_segments pathname) - 1)).
Proof.
  unfold Breadcrumbs. cbv zeta. intros H Hroot. rewrite <- root_test in Hroot.
  pose proof (crumbs_from_links (path_segments pathname) (path_segments pathname) 0) as Hl.
  pose proof (fun k => crumb_href_segments pathname k) as Hh.
  set (segs := path_segments pathname) in *. clearbody segs.
  destruct (_ || _) eqn:E in H.
  - by rewrite E in Hroot.
  - destruct (crumbs_from segs 0 segs) as [l|] eqn:El; [|done]. injection H as <-.
    cbn [links attr_href String.eqb Ascii.eqb Bool.eqb flat_map app concat map cls].
    rewrite app_nil_r, (Hl l eq_refl El), map_map. f_equal.
    apply map_ext_in. intros k Hk. apply in_seq in Hk. apply Hh. lia.
Qed.
End crumbs.

(** ** When the layout renders *)

Lemma crumbs_from_total {A} segs rest i :
  (exists l, crumbs_from (A:=A) segs i rest = Some l) <->
  forall x, In x rest -> label_of x <> LabelThrows.
Proof.
  revert i. induction rest as [|x rest IH]; intros i; cbn [crumbs_from].
  { split; [by intros _ x []|]. eauto. }
  specialize (IH (i + 1)). unfold crumb. cbv zeta. split.
  - intros [l H] y [<-|Hy]; [by destruct (label_of x)|].
    apply IH; [|done]. destruct (label_of x), (crumbs_from segs (i + 1) rest); try done; eauto.
  - intros H. destruct (proj2 IH) as [l Hl]; [intros y Hy; apply H; by right|]. rewrite Hl.
    specialize (H x (or_introl eq_refl)). destruct (label_of x); [eauto..|done].
Qed.

(** A segment has a label when it is well-formed percent encoding and not the one name
    every object inherits with an object as its value. *)
Definition shows_label (segment : string) : Prop := segment <> "__proto__" /\ well_encoded segment.

Lemma known_names_well_encoded x :
  In x (map fst labelMap ++ object_prototype_keys) -> well_encoded x.
Proof.
  intros H. apply decodeURIComponent_well_encoded. cbn in H.
  by repeat destruct H as [<-|H].
Qed.

Lemma assoc_key {A} k (o : list (string * A)) v : assoc k o = Some v -> In k (map fst o).
Proof.
  induction o as [|[k' a] o IH]; [done|]. cbn [assoc map fst].
  destruct (String.eqb_spec k k') as [->|_]; [by left|]. intros H. right. auto.
Qed.

Lemma label_shows x : label_of x <> LabelThrows <-> shows_label x.
Proof.
  unfold label_of, obj_get, shows_label. destruct (assoc x labelMap) as [l|] eqn:Ea.
  - split; [|done]. intros _.
    split; [intros ->; cbn in Ea; done|]. apply known_names_well_encoded, in_app_iff. left. by eapply assoc_key.
  - destruct (existsb (String.eqb x) object_prototype_keys) eqn:Ep.
    + destruct (String.eqb_spec x "__proto__") as [->|Hx]; [split; [done|by intros [? _]]|].
      split; [|done]. intros _. split; [done|]. apply known_names_well_encoded, in_app_iff. right.
      apply existsb_exists in Ep as (y & Hy & Hxy). bool_to_prop. by subst.
    + rewrite <- decodeURIComponent_well_encoded. destruct (decodeURIComponent x); [|by split; [|intros [_ ?]]].
      split; [|done]. intros _. split; [|done]. by intros ->.
Qed.

(** The address of a device's page, with the id escaped. *)
Lemma device_segments id :
  has_char "/" id = false -> id <> "" -> path_segments ("/devices/" +++ id) = ["devices"; id].
Proof.
  intros Hs He. apply (path_segments_join ["devices"; id]); [done|]. by repeat constructor.
Qed.

Lemma escaped_device_segments id x :
  In x (path_segments ("/devices/" +++ encodeURIComponent id)) -> x = "devices" \/ x = encodeURIComponent id.
Proof.
  destruct (String.eqb_spec (encodeURIComponent id) "") as [E|E].
  - rewrite E. change (In x ["devices"] -> x = "devices" \/ x = ""). intros [<-|[]]. by left.
  - rewrite device_segments by (done || apply component_no_slash). cbn [In]. intuition congruence.
Qed.

Lemma encode_proto id : utf8_valid id = true -> encodeURIComponent id = "__proto__" -> id = "__proto__".
Proof.
  intros Hv He. pose proof (decodeURIComponent_encode id Hv) as H. rewrite He in H. by injection H as <-.
Qed.

Section layout.
Context {styling : Styling}.

Lemma layout_renders_iff desktop mobile mobileOpen palette pathname user switcher boundary children :
  (exists n, DashboardLayout desktop mobile mobileOpen palette pathname user switcher boundary children
             = Some n) <->
  at_root pathname \/ forall x, In x (path_segments pathname) -> shows_label x.
Proof.
  unfold DashboardLayout, Breadcrumbs. cbv zeta.
  pose proof (crumbs_from_total (A:=layout_action) (path_segments pathname) (path_segments pathname) 0) as Ht.
  destruct (_ || _) eqn:E.
  { split; [intros _; left; by apply root_test|eauto]. }
  transitivity (exists l, crumbs_from (A:=layout_action) (path_segments pathname) 0 (path_segments pathname) = Some l).
  { destruct (crumbs_from _ _ _); split; intros [? ?]; by eauto. }
  rewrite Ht. split.
  - intros H. right. intros x Hx. by apply label_shows, H.
  - intros [H|H] x Hx; [|by apply label_shows, H]. apply root_test in H. by rewrite H in E.
Qed.

(** C22. The dashboard layout renders a path exactly when it is the root or every segment is
    well-formed percent encoding of UTF-8 and none is __proto__. So the page of a device
    has its layout when the id is escaped in the path, whatever the id (but __proto__),
    and throws, outside the error boundary, when the unescaped id has a percent sign
    that does not begin an escape. *)
Theorem layout_renders desktop mobile mobileOpen palette pathname user switcher boundary children :
  let layout p := DashboardLayout desktop mobile mobileOpen palette p user switcher boundary children in
  ((exists n, layout pathname = Some n) <->
   at_root pathname \/
   forall x, In x (path_segments pathname) -> x <> "__proto__" /\ well_encoded x) /\
  (forall id, utf8_valid id = true -> id <> "__proto__" ->
   exists n, layout ("/devices/" +++ encodeURIComponent id) = Some n) /\
  (forall id h l rest s, has_char "/" id = false -> id = s +++ String "%" (String h (String l rest)) ->
   hex_value h = None \/ hex_value l = None -> layout ("/devices/" +++ id) = None).
Proof.
  cbv zeta. pose proof (layout_renders_iff desktop mobile mobileOpen palette) as Hiff.
  split_and!; [apply Hiff| |].
  - intros id Hv Hp. apply Hiff. right. intros x Hx.
    apply escaped_device_segments in Hx as [->| ->].
    + split; [done|]. by apply decodeURIComponent_well_encoded.
    + split; [intros H; by apply Hp, encode_proto|]. apply decodeURIComponent_well_encoded.
      by rewrite decodeURIComponent_encode.
  - intros id h l rest s Hs -> Hh.
    destruct (DashboardLayout _ _ _ _ _ _ _ _ _) as [n|] eqn:E; [exfalso|done].
    destruct (proj1 (Hiff _ _ _ _ _) (ex_intro _ n E)) as [H|H].
    + unfold at_root in H. rewrite device_segments in H by (done || by destruct s). by destruct H.
    + rewrite device_segments in H by (done || by destruct s).
      destruct (H _ (or_intror (or_introl eq_refl))) as [_ Hw].
      by apply (stray_percent s (String h (String l rest))) in Hw.
Qed.

(** A device whose id has a stray percent sign has a page whose layout throws. *)
Lemma layout_throws_on_percent desktop mobile mobileOpen palette user switcher boundary children :
  DashboardLayout desktop mobile mobileOpen palette ("/devices/" +++ "50%") user switcher boundary children
  = None.
Proof. reflexivity. Qed.

(** ** Sidebar *)

Lemma isActive_segments pathname item :
  isActive pathname item = true -> has_char "/" (drop_string 1 (nav_href item)) = false ->
  nav_href item = "/" +++ drop_string 1 (nav_href item) ->
  exists rest, split_char "/" pathname = "" :: drop_string 1 (nav_href item) :: rest.
Proof.
  unfold isActive. intros Ha Hc Hh. rewrite Hh in Ha. revert Ha Hc.
  generalize (drop_string 1 (nav_href item)) as seg. intros seg Ha Hc.
  apply orb_prop in Ha as [Ha|Ha].
  - bool_to_prop. subst pathname. exists [].
    change ("/" +++ seg) with (String "/" seg). cbn [split_char].
    rewrite Ascii.eqb_refl. by rewrite split_no_sep.
  - apply prefix_exists in Ha as [r ->]. exists (split_char "/" r).
    change (("/" +++ seg) +++ "/") with (String "/" (seg +++ "/")).
    rewrite append_cons, append_assoc. cbn [split_char]. rewrite Ascii.eqb_refl.
    change ("/" +++ r) with (String "/" r). by rewrite split_app_sep.
Qed.

Lemma navigation_hrefs item : In item navigation ->
  has_char "/" (drop_string 1 (nav_href item)) = false /\
  nav_href item = "/" +++ drop_string 1 (nav_href item).
Proof. intros H. cbn in H. by repeat destruct H as [<-|H]. Qed.

(** C23. At most one sidebar item is marked active, and a page whose item is active is
    behind the authentication middleware. *)
Theorem active_item_unique pathname i :
  In i navigation -> isActive pathname i = true ->
  matcher pathname = true /\
  forall j, In j navigation -> isActive pathname j = true -> j = i.
Proof.
  intros Hi Ha. split.
  - assert (startsWith pathname (nav_href i) = true) as Hs.
    { unfold isActive in Ha. apply orb_prop in Ha as [Ha|Ha].
      - bool_to_prop. subst. rewrite <- (append_nil_r (nav_href i)) at 1. apply prefix_app.
      - apply prefix_exists in Ha as [r ->]. rewrite append_assoc. apply prefix_app. }
    unfold matcher. apply existsb_exists. exists (drop_string 1 (nav_href i)).
    rewrite <- (proj2 (navigation_hrefs i Hi)). split; [|exact Hs].
    clear - Hi. cbn in Hi. repeat destruct Hi as [<-|Hi]; vm_compute; tauto.
  - intros j Hj Hb.
    destruct (navigation_hrefs i Hi) as [Hi1 Hi2], (navigation_hrefs j Hj) as [Hj1 Hj2].
    destruct (isActive_segments _ _ Ha Hi1 Hi2) as [r Hr].
    destruct (isActive_segments _ _ Hb Hj1 Hj2) as [r' Hr']. rewrite Hr in Hr'.
    assert (nav_href j = nav_href i) as He by (rewrite Hi2, Hj2; congruence).
    clear - Hi Hj He. cbn in Hi, Hj.
    by repeat destruct Hi as [<-|Hi]; repeat destruct Hj as [<-|Hj].
Qed.
End layout.

(** ** The collapsed sidebar is remembered *)

Definition sidebar_run (s : sidebar_state) (l : list sidebar_action) : sidebar_state :=
  fold_left sidebar_update l s.

Lemma sidebar_run_inv l s :
  sb_collapsed s = match sb_stored s with Some v => String.eqb v "true" | None => false end ->
  let s' := sidebar_run s l in
  sb_collapsed s' = match sb_stored s' with Some v => String.eqb v "true" | None => false end.
Proof.
  revert s. induction l as [|a l IH]; intros s H; [exact H|]. apply IH.
  destruct a; cbn; [|by destruct (sb_collapsed s)|exact H].
  rewrite H. destruct (sb_stored s) as [v|]; [|done]. by destruct (String.eqb v "true").
Qed.

(** A sidebar mounted again is collapsed exactly when it was left collapsed. *)
Theorem collapsed_is_remembered theme theme' stored l :
  let s := sidebar_run (sidebar_initial theme stored) (SidebarMount :: l) in
  sb_collapsed (sidebar_update (sidebar_initial theme' (sb_stored s)) SidebarMount) = sb_collapsed s.
Proof.
  cbv zeta. set (s0 := sidebar_update (sidebar_initial theme stored) SidebarMount).
  change (sidebar_run (sidebar_initial theme stored) (SidebarMount :: l)) with (sidebar_run s0 l).
  rewrite (sidebar_run_inv l s0).
  - cbn [sidebar_update sb_collapsed sidebar_initial sb_stored].
    destruct (sb_stored _) as [v|]; [|done]. by destruct (String.eqb v "true").
  - cbn. destruct stored as [v|]; [|done]. by destruct (String.eqb v "true").
Qed.

(** ** Command palette *)

Lemma palette_events s :
  events true (CommandPalette (fun a => a) s) =
  EvUnit OpenPalette
  :: (if pl_open s then
        EvUnit (PaletteOpenChange false)
        :: map (fun p => EvUnit (RunPush (nav_href p))) palette_pages
        ++ match pl_devices s with
           | Some l => map (fun d => EvUnit (RunPush ("/devices/" +++ deviceId d))) (slice l 0 10)
           | None => []
           end
        ++ [EvUnit (RunSetTheme (if is_dark (pl_theme s) then "light" else "dark"))]
      else []).
Proof.
  unfold CommandPalette, CommandDialog, palette_devices, theme_item. cbv zeta.
  assert (forall l, existsb triggers (map (device_item (fun a => a)) l) = false) as Ht.
  { intros l. induction l as [|d l IH]; [done|]. exact IH. }
  destruct (pl_open s).
  2: { destruct (pl_devices s) as [l|]; [destruct (0 <? zlength l)|]; destruct (is_dark (pl_theme s));
         events_simpl; cbn [triggers trigger_tag existsb String.eqb Ascii.eqb Bool.eqb orb];
         rewrite ?Ht; reflexivity. }
  destruct (pl_devices s) as [l|]; [|by destruct (is_dark (pl_theme s))].
  assert (concat (map (events true) (map (device_item (fun a => a)) (slice l 0 10))) =
    map (fun d => EvUnit (RunPush ("/devices/" +++ deviceId d))) (slice l 0 10)) as Hd.
  { rewrite concat_map_map. by apply concat_map_singleton. }
  destruct (0 <? zlength l) eqn:E; bool_to_prop.
  - destruct (is_dark (pl_theme s)); events_simpl; rewrite Hd, ?app_nil_r; reflexivity.
  - pose proof (zlength_nonneg l). assert (l = []) as -> by (apply zlength_zero; lia).
    by destruct (is_dark (pl_theme s)).
Qed.

(** C:palette *)
Theorem palette_commands s a :
  fires (CommandPalette (fun a => a) s) a ->
  match a with
  | RunPush url => pl_open s = true /\
      (In url (map nav_href palette_pages) \/
       exists l d, pl_devices s = Some l /\ In d (slice l 0 10) /\ url = "/devices/" +++ deviceId d) /\
      palette_update s a = (palette_set_open false s, [PalettePush url])
  | RunSetTheme v => pl_open s = true /\
      pl_open (fst (palette_update s a)) = false /\
      is_dark (pl_theme (fst (palette_update s a))) = negb (is_dark (pl_theme s))
  | OpenPalette => True
  | PaletteOpenChange b => pl_open s = true /\ b = false
  | _ => False
  end.
Proof.
  intros (e & Hin & Hem). rewrite palette_events in Hin.
  destruct Hin as [<-|Hin]; [by cbn in Hem; subst a|].
  destruct (pl_open s) eqn:Eo; [|done]. destruct Hin as [<-|Hin]; [by cbn in Hem; subst a|].
  rewrite !in_app_iff in Hin. destruct Hin as [Hin|[Hin|[<-|[]]]].
  - apply in_map_iff in Hin as (p & <- & Hp). cbn [emits] in Hem. subst a.
    split_and!; [done|left; by apply in_map|done].
  - destruct (pl_devices s) as [l|] eqn:El; [|done].
    apply in_map_iff in Hin as (d & <- & Hd). cbn [emits] in Hem. subst a.
    split_and!; [done| |done]. right. eauto.
  - cbn [emits] in Hem. subst a. split_and!; [done|done|].
    cbn. by destruct (is_dark (pl_theme s)).
Qed.

(** ** Initials *)

(** C:initials *)
Theorem initials_short u :
  (String.length (initials u) <= 2)%nat /\
  forall_chars (fun c => negb (is_lower c)) (initials u) = true.
Proof.
  unfold initials. destruct u as [[[n|] e]|]; cbn [su_name]; [|by split; [vm_compute; lia|]..].
  split; [|apply toUpperCase_no_lower].
  assert (forall k s, (String.length (take_string k s) <= k)%nat) as Ht.
  { induction k as [|k IH]; intros [|c s]; cbn; try lia. specialize (IH s). lia. }
  assert (forall f s, String.length (map_string f s) = String.length s) as Hm.
  { intros f s. induction s as [|c s IH]; [done|]. cbn. by rewrite IH. }
  unfold toUpperCase. rewrite Hm. apply Ht.
Qed.

(** ** Witnesses *)

Lemma breadcrumbs_link_ancestors_witness :
  exists n, Breadcrumbs (A:=unit) "/devices/edge%201/logs" = Some n /\
    texts n = ["Dashboard"; "Devices"; "edge 1"; "Logs"] /\
    map path_segments (links n) = [["dashboard"]; ["devices"]; ["devices"; "edge%201"]].
Proof.
  eexists. split; [reflexivity|]. split; [reflexivity|].
  refine (breadcrumbs_link_ancestors (A:=unit) "/devices/edge%201/logs" _ eq_refl _).
  intros [H|H]; discriminate H.
Defined.

Definition devices_item : nav_item :=
  {| nav_name := "Devices"; nav_href := "/devices"; nav_icon := "Cpu" |}.

Lemma active_item_unique_witness :
  matcher "/devices/edge-1" = true /\
  forall j, In j navigation -> isActive "/devices/edge-1" j = true -> j = devices_item.
Proof.
  exact (active_item_unique "/devices/edge-1" devices_item (or_intror (or_introl eq_refl)) eq_refl).
Defined.

Definition open_palette : palette_state :=
  {| pl_open := true; pl_devices := None; pl_theme := Some "dark" |}.

Lemma palette_commands_witness :
  pl_open open_palette = true /\
  (In "/audit" (map nav_href palette_pages) \/
   exists l d, pl_devices open_palette = Some l /\ In d (slice l 0 10) /\
     "/audit" = "/devices/" +++ deviceId d) /\
  palette_update open_palette (RunPush "/audit")
    = (palette_set_open false open_palette, [PalettePush "/audit"]).
Proof.
  refine (palette_commands open_palette (RunPush "/audit") _).
  exists (EvUnit (RunPush "/audit")). split; [|reflexivity].
  rewrite palette_events. vm_compute. tauto.
Defined.
