(* ===== verification/Terminal.v ===== *)
(** * Remote terminal: ui/app/(dashboard)/devices/[id]/terminal/page.tsx

    The effect that opens a shell session is asynchronous and is cleaned up and
    started again whenever its dependencies change. Every run of the effect is
    a connection with its own [disposed] flag, terminal and socket; the steps
    of several runs interleave. *)

From S2P Require Import Prelude JsString JsArray Vdom Json Endpoints ApiClient Api Auth Components.

Definition ROLE_RANK : list (string * Z) :=
  [("viewer", 0); ("operator", 1); ("admin", 2); ("owner", 3)].

(** [(ROLE_RANK[role] ?? -1) >= ROLE_RANK.operator]; an inherited property is
    not a number and compares false. *)
Definition allowed (role : option string) : bool :=
  match obj_get ROLE_RANK (toLowerCase (role ?? "")) with
  | Own r => 1 <=? r
  | Inherited => false
  | Undefined => 1 <=? -1
  end.

Inductive ConnectionStatus := connecting | open | closed | error.

Definition STATUS_LABEL (s : ConnectionStatus) : string :=
  match s with
  | connecting => "Connecting…"
  | open => "Connected"
  | closed => "Disconnected"
  | error => "Error"
  end.

Definition STATUS_VARIANT (s : ConnectionStatus) : string :=
  match s with
  | connecting => "secondary"
  | open => "default"
  | closed => "secondary"
  | error => "destructive"
  end.

(** [WebSocket.readyState] *)
Inductive ready := CONNECTING | OPEN | CLOSING | CLOSED.

(** Where the asynchronous function of a run stands. *)
Inductive phase := Importing | Requesting | Attached | Finished.

Record conn := {
  (** captured by the closure *)
  k_token : string;
  k_id : string;
  k_disposed : bool;
  k_phase : phase;
  k_ws : option ready;
  (** the terminal: absent, or whether it is disposed *)
  k_term : option bool
}.

Definition new_conn (token id : string) : conn :=
  {| k_token := token; k_id := id; k_disposed := false; k_phase := Importing; k_ws := None;
     k_term := None |}.

Record terminal := {
  tm_token : string;
  tm_id : string;
  tm_role : option string;
  tm_orgLoading : bool;
  tm_mounted : bool;
  tm_status : ConnectionStatus;
  tm_attempt : Z;
  (** the runs of the effect, oldest first *)
  tm_conns : list conn
}.

(** The container is rendered for an allowed role once the organizations are loaded. *)
Definition container (s : terminal) : bool :=
  tm_mounted s && negb (tm_orgLoading s) && allowed (tm_role s).

Inductive term_action :=
| Back
| Reconnect
(* not from the user's clicks *)
| DepsChange (token id : string) (role : option string) (orgLoading : bool)
| Unmount
| ImportsReady (k : nat) (rows cols : Z)
| SessionReply (k : nat) (reply : result exn string)
| SocketOpened (k : nat) (rows cols : Z)
| SocketMessage (k : nat) (binary : bool) (data : string)
| SocketClosed (k : nat)
| SocketErrored (k : nat)
| TermData (k : nat) (data : string)
| TermResized (k : nat) (rows cols : Z).

Inductive term_effect :=
| TermPush (url : string)
| OpenTerminal (k : nat)
| CreateSession (k : nat) (token id : string) (rows cols : Z)
| OpenSocket (k : nat) (url : string)
| SendText (k : nat) (text : string)
| SendBytes (k : nat) (data : string)
| CloseSocket (k : nat)
| DisposeTerminal (k : nat)
| WriteTerminal (k : nat) (data : string)
| WriteLine (k : nat) (text : string)
| FocusTerminal (k : nat).

Definition set_conns (st : ConnectionStatus) (l : list conn) (s : terminal) : terminal :=
  {| tm_token := tm_token s; tm_id := tm_id s; tm_role := tm_role s;
     tm_orgLoading := tm_orgLoading s; tm_mounted := tm_mounted s; tm_status := st;
     tm_attempt := tm_attempt s; tm_conns := l |}.
Definition set_deps (token id : string) (role : option string) (orgLoading mounted : bool) (n : Z)
    (s : terminal) : terminal :=
  {| tm_token := token; tm_id := id; tm_role := role; tm_orgLoading := orgLoading;
     tm_mounted := mounted; tm_status := tm_status s; tm_attempt := n; tm_conns := tm_conns s |}.

(** ** The effect and its cleanup *)

(** [ws?.close()] *)
Definition close_ready (r : ready) : ready :=
  match r with CONNECTING | OPEN => CLOSING | _ => r end.

Definition dispose (c : conn) : conn :=
  {| k_token := k_token c; k_id := k_id c; k_disposed := true; k_phase := k_phase c;
     k_ws := close_ready <$> k_ws c;
     k_term := (fun _ => true) <$> k_term c |}.

Definition cleanup_effects (k : nat) (c : conn) : list term_effect :=
  (match k_ws c with Some _ => [CloseSocket k] | None => [] end)
  ++ (match k_term c with Some _ => [DisposeTerminal k] | None => [] end).

(** The last run, when it started, is cleaned up before the next one. *)
Definition cleanup (l : list conn) : list conn * list term_effect :=
  match rev l with
  | c :: older =>
      if k_disposed c then (l, [])
      else (rev older ++ [dispose c], cleanup_effects (length older) c)
  | [] => ([], [])
  end.

Definition start (s : terminal) : terminal :=
  if negb (truthy (tm_token s)) || negb (truthy (tm_id s)) || negb (allowed (tm_role s))
     || negb (container s) then s
  else set_conns (tm_status s) (tm_conns s ++ [new_conn (tm_token s) (tm_id s)]) s.

Definition rerun (s : terminal) : terminal * list term_effect :=
  let '(l, es) := cleanup (tm_conns s) in
  (start (set_conns (tm_status s) l s), es).

(** ** The steps of a run *)

Definition ESC : string := String (ascii_of_nat 27) EmptyString.
Definition CRLF : string := String (ascii_of_nat 13) (String (ascii_of_nat 10) EmptyString).

Definition resize_message (rows cols : Z) : string :=
  stringify (JObj [("type", JStr "resize"); ("rows", JNum rows); ("cols", JNum cols)]).

Definition is_open (c : conn) : bool := match k_ws c with Some OPEN => true | _ => false end.

Definition sendResize (k : nat) (c : conn) (rows cols : Z) : list term_effect :=
  if is_open c then [SendText k (resize_message rows cols)] else [].

Definition with_phase (p : phase) (c : conn) : conn :=
  {| k_token := k_token c; k_id := k_id c; k_disposed := k_disposed c; k_phase := p; k_ws := k_ws c; k_term := k_term c |}.
Definition with_ws (r : ready) (c : conn) : conn :=
  {| k_token := k_token c; k_id := k_id c; k_disposed := k_disposed c; k_phase := k_phase c; k_ws := Some r; k_term := k_term c |}.
Definition with_term (c : conn) : conn :=
  {| k_token := k_token c; k_id := k_id c; k_disposed := k_disposed c; k_phase := k_phase c; k_ws := k_ws c; k_term := Some false |}.

Section steps.
Context {S : Type} {env : Environment S} (origin : option string).

Definition imports_ready (s : terminal) (k : nat) (rows cols : Z) (c : conn)
    : conn * ConnectionStatus * list term_effect :=
  if k_disposed c || negb (container s) then (with_phase Finished c, tm_status s, [])
  else (with_phase Requesting (with_term c), connecting,
        [OpenTerminal k; CreateSession k (k_token c) (k_id c) rows cols]).

Definition session_reply (st : ConnectionStatus) (k : nat) (reply : result exn string) (c : conn)
    : conn * ConnectionStatus * list term_effect :=
  match reply with
  | Throw e =>
      if k_disposed c then (with_phase Finished c, st, [])
      else (with_phase Finished c, error,
            [WriteLine k (CRLF +++ ESC +++ "[31mFailed to open session: " +++ exn_message e +++
                              ESC +++ "[0m")])
  | Ok ticket =>
      if k_disposed c then (with_phase Finished c, st, [])
      else (with_phase Attached (with_ws CONNECTING c), st,
            [OpenSocket k (shellWebSocketUrl origin ticket)])
  end.

Definition socket_opened (st : ConnectionStatus) (k : nat) (rows cols : Z) (c : conn)
    : conn * ConnectionStatus * list term_effect :=
  let c := with_ws OPEN c in
  if k_disposed c then (c, st, [])
  else (c, open, sendResize k c rows cols ++ [FocusTerminal k]).

Definition socket_message (st : ConnectionStatus) (k : nat) (binary : bool) (data : string) (c : conn)
    : conn * ConnectionStatus * list term_effect :=
  if negb binary then (c, st, [])
  else (c, st, match k_term c with Some _ => [WriteTerminal k data] | None => [] end).

Definition socket_closed (st : ConnectionStatus) (k : nat) (c : conn)
    : conn * ConnectionStatus * list term_effect :=
  let c := with_ws CLOSED c in
  if k_disposed c then (c, st, [])
  else (c, closed,
        match k_term c with
        | Some _ => [WriteLine k (CRLF +++ ESC +++ "[90m── session closed ──" +++ ESC +++ "[0m")]
        | None => []
        end).

Definition socket_errored (st : ConnectionStatus) (c : conn)
    : conn * ConnectionStatus * list term_effect :=
  (c, if k_disposed c then st else error, []).

Definition term_data (st : ConnectionStatus) (k : nat) (data : string) (c : conn)
    : conn * ConnectionStatus * list term_effect :=
  (c, st, if is_open c then [SendBytes k data] else []).

(** A step of run [k]. *)
Definition conn_step (s : terminal) (k : nat)
    (f : conn -> conn * ConnectionStatus * list term_effect) : terminal * list term_effect :=
  match tm_conns s !! k with
  | Some c => let '(c', st, es) := f c in (set_conns st (<[k := c']> (tm_conns s)) s, es)
  | None => (s, [])
  end.

Definition term_update (s : terminal) (a : term_action) : terminal * list term_effect :=
  match a with
  | Back => (s, [TermPush ("/devices/" +++ tm_id s)])
  | Reconnect =>
      rerun (set_deps (tm_token s) (tm_id s) (tm_role s) (tm_orgLoading s) (tm_mounted s)
               (tm_attempt s + 1) s)
  | DepsChange token id role loading =>
      let s' := set_deps token id role loading (tm_mounted s) (tm_attempt s) s in
      if String.eqb token (tm_token s) && String.eqb id (tm_id s)
         && Bool.eqb (allowed role) (allowed (tm_role s))
      then (s', []) else rerun s'
  | Unmount =>
      let '(l, es) := cleanup (tm_conns s) in
      (set_conns (tm_status s) l
         (set_deps (tm_token s) (tm_id s) (tm_role s) (tm_orgLoading s) false (tm_attempt s) s), es)
  | ImportsReady k rows cols => conn_step s k (imports_ready s k rows cols)
  | SessionReply k reply => conn_step s k (session_reply (tm_status s) k reply)
  | SocketOpened k rows cols => conn_step s k (socket_opened (tm_status s) k rows cols)
  | SocketMessage k binary data => conn_step s k (socket_message (tm_status s) k binary data)
  | SocketClosed k => conn_step s k (socket_closed (tm_status s) k)
  | SocketErrored k => conn_step s k (socket_errored (tm_status s))
  | TermData k data => conn_step s k (term_data (tm_status s) k data)
  | TermResized k rows cols =>
      conn_step s k (fun c => (c, tm_status s, sendResize k c rows cols))
  end.
End steps.

(** ** Rendering *)

Section view.
Context {styling : Styling}.

Definition terminal_header (s : terminal) : node term_action :=
  Elt "div" [cls "flex items-center gap-4"]
    [Elt "Button" [AStr "variant" "ghost"; AStr "size" "icon"; AOn "onClick" Back]
       [icon "ArrowLeft" "h-4 w-4"];
     PageHeader "Terminal" (Some (tm_id s)) [] None;
     Elt "div" [cls "ml-auto flex items-center gap-2"]
       [when (allowed (tm_role s))
          (Elt "Badge" [AStr "variant" (STATUS_VARIANT (tm_status s))]
             [Txt (STATUS_LABEL (tm_status s))]);
        when (allowed (tm_role s) &&
              match tm_status s with closed | error => true | _ => false end)
          (Elt "Button" [AStr "variant" "outline"; AStr "size" "sm"; AOn "onClick" Reconnect]
             [icon "RotateCw" "mr-2 h-4 w-4"; Txt "Reconnect"])]].

Definition terminal_body (s : terminal) : node term_action :=
  if tm_orgLoading s then Elt "Skeleton" [cls "h-[600px] w-full"] []
  else if negb (allowed (tm_role s)) then
    Elt "Card" []
      [Elt "CardContent" [cls "flex flex-col items-center gap-3 py-16 text-center"]
         [icon "ShieldAlert" "h-8 w-8 text-muted-foreground";
          Elt "p" [cls "text-sm text-muted-foreground"]
            [Txt "You need the "; Elt "span" [cls "font-medium"] [Txt "Operator"];
             Txt " role or higher to open a terminal on this device."]]]
  else
    Elt "Card" []
      [Elt "CardContent" [cls "p-3"]
         [Elt "div" [cls "h-[600px] w-full overflow-hidden rounded-md bg-[#09090b] p-3"]
            [Elt "div" [AStr "ref" "containerRef"; cls "h-full w-full"] []]]].

Definition terminal_view (s : terminal) : node term_action :=
  Elt "div" [cls "space-y-4"] [terminal_header s; terminal_body s].
End view.

(** ** The page *)

(** The state of the page when it mounts, its effect run once. *)
Definition terminal_mounted (token id : string) (role : option string) (orgLoading : bool) : terminal :=
  start {| tm_token := token; tm_id := id; tm_role := role; tm_orgLoading := orgLoading;
           tm_mounted := true; tm_status := connecting; tm_attempt := 0; tm_conns := [] |}.

(** What can happen on its own: promises settle once, a socket opens once,
    delivers only while it is open, and closes for good. *)
Definition on_conn (s : terminal) (k : nat) (P : conn -> Prop) : Prop :=
  exists c, tm_conns s !! k = Some c /\ P c.

Definition terminal_extern (s : terminal) (a : term_action) : Prop :=
  match a with
  | DepsChange _ _ _ _ => tm_mounted s = true
  | Unmount => tm_mounted s = true
  | ImportsReady k _ _ => on_conn s k (fun c => k_phase c = Importing)
  | SessionReply k _ => on_conn s k (fun c => k_phase c = Requesting)
  | SocketOpened k _ _ => on_conn s k (fun c => k_ws c = Some CONNECTING)
  | SocketMessage k _ _ => on_conn s k (fun c => k_ws c = Some OPEN)
  | SocketClosed k | SocketErrored k =>
      on_conn s k (fun c => exists r, k_ws c = Some r /\ r <> CLOSED)
  | TermData k _ | TermResized k _ _ => on_conn s k (fun c => k_term c = Some false)
  | Back | Reconnect => False
  end.

Definition terminal_page {S} {env : Environment S} {styling : Styling} (origin : option string)
    : page terminal term_action term_effect := {|
  page_init := fun s => exists token id role loading, s = terminal_mounted token id role loading;
  page_view := fun s => if tm_mounted s then terminal_view s else Nothing;
  page_update := term_update origin;
  page_extern := terminal_extern
|}.
