(* ===== verification/TerminalFacts.v ===== *)
(** * Properties of the remote terminal

    However the runs of the effect interleave, at most one socket is live, it
    belongs to the current run, and it is there only for a role that may open
    a shell. *)

From S2P Require Import Prelude JsString JsArray Vdom Json Endpoints ApiClient Api Auth Components Terminal.

(** ** The invariant *)

Definition live (c : conn) : bool :=
  match k_ws c with Some CONNECTING | Some OPEN => true | _ => false end.

(** A run that was cleaned up: no live socket, no live terminal. *)
Definition quiet (c : conn) : Prop :=
  k_disposed c = true /\ live c = false /\ k_term c <> Some false.

(** The current run. *)
Definition current (s : terminal) (c : conn) : Prop :=
  k_disposed c = false /\ tm_mounted s = true /\ allowed (tm_role s) = true /\
  truthy (tm_token s) = true /\ k_token c = tm_token s /\ k_id c = tm_id s.

Definition terminal_inv (s : terminal) : Prop :=
  exists older, Forall quiet older /\
    (tm_conns s = older \/ exists c, tm_conns s = older ++ [c] /\ current s c).

Lemma quiet_dispose c : quiet (dispose c).
Proof.
  unfold quiet, dispose, live. cbn. split_and!; [done| |by destruct (k_term c)].
  by destruct (k_ws c) as [[]|].
Qed.

Lemma cleanup_quiet s : terminal_inv s -> Forall quiet (fst (cleanup (tm_conns s))).
Proof.
  intros (older & Ho & [->|(c & -> & Hc)]); unfold cleanup.
  - destruct (rev older) as [|c l] eqn:E; [done|].
    assert (In c older) as Hin by (apply in_rev; rewrite E; by left).
    rewrite List.Forall_forall in Ho. destruct (Ho c Hin) as [-> _]. by apply List.Forall_forall.
  - rewrite rev_app_distr. cbn [rev app]. rewrite (proj1 Hc), rev_involutive. cbn [fst].
    apply Forall_app. split; [done|]. repeat constructor; apply quiet_dispose.
Qed.

Lemma start_inv s : Forall quiet (tm_conns s) -> terminal_inv (start s).
Proof.
  intros H. unfold start. destruct (_ || _) eqn:E; [by exists (tm_conns s); auto|].
  exists (tm_conns s). split; [done|]. right. eexists. split; [done|].
  unfold container in E. bool_to_prop. by split_and!.
Qed.

Lemma rerun_inv s s' :
  terminal_inv s -> tm_conns s' = tm_conns s -> terminal_inv (fst (rerun s')).
Proof.
  intros H Hc. unfold rerun. rewrite Hc. pose proof (cleanup_quiet s H) as Hq.
  destruct (cleanup (tm_conns s)) as [l es]. apply start_inv. exact Hq.
Qed.

(** A step of a run keeps its flag and its closure, and a cleaned-up run quiet. *)
Lemma conn_step_inv s k f :
  terminal_inv s ->
  (forall c, tm_conns s !! k = Some c ->
     let '(c', _, _) := f c in
     k_disposed c' = k_disposed c /\ k_token c' = k_token c /\ k_id c' = k_id c /\
     (quiet c -> quiet c')) ->
  terminal_inv (fst (conn_step s k f)).
Proof.
  intros (older & Ho & Hs) Hf. unfold conn_step.
  destruct (tm_conns s !! k) as [c|] eqn:Ek; [|by exists older].
  specialize (Hf c eq_refl). destruct (f c) as [[c' st] es].
  destruct Hf as (Hd & Ht & Hi & Hq). cbn [fst].
  assert (forall l : list conn, Forall quiet l -> l !! k = Some c -> Forall quiet (<[k:=c']> l)) as Hins.
  { intros l Hl Hk. apply Forall_insert; [done|]. apply Hq. eapply Forall_lookup_1; eassumption. }
  destruct Hs as [Hs|(c0 & Hs & Hc0)]; rewrite Hs in Ek; unfold terminal_inv;
    cbn [tm_conns set_conns]; rewrite Hs.
  - exists (<[k:=c']> older). split; [by apply Hins|by left].
  - destruct (decide (k < length older)%nat) as [Hk|Hk].
    + rewrite insert_app_l by done. rewrite lookup_app_l in Ek by done.
      exists (<[k:=c']> older). split; [by apply Hins|]. right. by exists c0.
    + rewrite lookup_app_r in Ek by lia.
      destruct (k - length older)%nat as [|j] eqn:Ej; [|by destruct j].
      injection Ek as ->. rewrite insert_app_r_alt, Ej by lia.
      exists older. split; [done|]. right. exists c'. split; [done|].
      unfold current in *. cbn. rewrite Hd, Ht, Hi. exact Hc0.
Qed.

Section reach.
Context {S : Type} {env : Environment S} {styling : Styling} (origin : option string).

Lemma terminal_inv_extern s a :
  terminal_inv s -> terminal_extern s a -> terminal_inv (fst (term_update origin s a)).
Proof.
  intros H Ha. destruct a; cbn [term_update terminal_extern] in *; try done.
  - destruct (_ && _) eqn:E; [|by eapply rerun_inv].
    apply andb_prop in E as [E Er]. apply andb_prop in E as [E1 E2].
    apply String.eqb_eq in E1, E2. apply Bool.eqb_prop in Er. subst.
    destruct H as (older & Ho & Hs). exists older. split; [done|].
    destruct Hs as [Hs|(c & Hs & Hc)]; [by left|]. right. exists c. split; [done|].
    unfold current in *. cbn. by rewrite Er.
  - pose proof (cleanup_quiet s H) as Hq. destruct (cleanup (tm_conns s)) as [l es].
    exists l. split; [exact Hq|by left].
  - apply conn_step_inv; [done|]. intros c _. unfold imports_ready.
    destruct (k_disposed c || negb (container s)) eqn:E; cbn; split_and!; try done.
    bool_to_prop. intros [Hq _]. congruence.
  - apply conn_step_inv; [done|]. intros c _. unfold session_reply.
    destruct reply as [t|e]; destruct (k_disposed c) eqn:E; cbn; split_and!; try done;
      intros [Hq _]; congruence.
  - apply conn_step_inv; [done|]. intros c Hk. destruct Ha as (c' & Hc' & Hw).
    assert (c' = c) as -> by congruence. unfold socket_opened. cbv zeta.
    change (k_disposed (with_ws OPEN c)) with (k_disposed c).
    destruct (k_disposed c) eqn:E; cbn; split_and!; try done;
      intros (_ & Hl & _); unfold live in Hl; by rewrite Hw in Hl.
  - apply conn_step_inv; [done|]. intros c _. unfold socket_message. by destruct binary.
  - apply conn_step_inv; [done|]. intros c _. unfold socket_closed. cbv zeta.
    change (k_disposed (with_ws CLOSED c)) with (k_disposed c).
    destruct (k_disposed c) eqn:E; cbn; split_and!; try done; intros (? & ? & ?); by split_and!.
  - apply conn_step_inv; [done|]. by intros c _.
  - apply conn_step_inv; [done|]. by intros c _.
  - apply conn_step_inv; [done|]. by intros c _.
Qed.

Lemma terminal_fires s a :
  fires (page_view (terminal_page origin) s) a -> a = Back \/ a = Reconnect /\ tm_mounted s = true.
Proof.
  intros (e & Hin & Hem). cbn [page_view terminal_page] in Hin.
  destruct (tm_mounted s); [|done]. unfold terminal_view, terminal_header, terminal_body, PageHeader in Hin.
  cbv zeta in Hin. destruct (truthy (tm_id s)), (tm_orgLoading s), (allowed (tm_role s)), (tm_status s);
    cbn in Hin; repeat destruct Hin as [<-|Hin]; cbn [emits] in Hem; auto; done.
Qed.

Lemma terminal_reachable_inv s : page_reachable (terminal_page origin) s -> terminal_inv s.
Proof.
  revert s. apply page_invariant.
  - intros s (token & id & role & loading & ->). apply start_inv. constructor.
  - intros s a H [Ha|Ha]; [|by apply terminal_inv_extern].
    apply terminal_fires in Ha as [->|[-> _]]; [done|]. by eapply rerun_inv.
Qed.

Lemma terminal_inv_conn s k c :
  terminal_inv s -> tm_conns s !! k = Some c ->
  quiet c \/ current s c /\ Datatypes.S k = length (tm_conns s).
Proof.
  intros (older & Ho & [->|(c0 & -> & Hc)]) Hk.
  - left. eapply Forall_lookup_1; eassumption.
  - destruct (decide (k < length older)%nat).
    + left. rewrite lookup_app_l in Hk by done. eapply Forall_lookup_1; eassumption.
    + right. rewrite lookup_app_r in Hk by lia.
      destruct (k - length older)%nat as [|j] eqn:Ej; [|by destruct j].
      injection Hk as ->. rewrite length_app. cbn. split; [done|lia].
Qed.

(** C3. However the runs of the terminal effect interleave, at most one web socket is
    connecting or open; it belongs to the mounted page, the current token and device,
    and a role that may open a shell. *)
Theorem one_live_socket s k1 k2 c1 c2 :
  page_reachable (terminal_page origin) s ->
  tm_conns s !! k1 = Some c1 -> live c1 = true -> tm_conns s !! k2 = Some c2 -> live c2 = true ->
  k1 = k2 /\ tm_mounted s = true /\ allowed (tm_role s) = true /\
  k_token c1 = tm_token s /\ k_id c1 = tm_id s.
Proof.
  intros Hr H1 L1 H2 L2. apply terminal_reachable_inv in Hr.
  destruct (terminal_inv_conn _ _ _ Hr H1) as [(_ & Hq & _)|[Hc1 E1]]; [congruence|].
  destruct (terminal_inv_conn _ _ _ Hr H2) as [(_ & Hq & _)|[Hc2 E2]]; [congruence|].
  unfold current in Hc1. split_and!; [lia|tauto..].
Qed.

(** The run an action concerns. *)
Definition run_of (a : term_action) : option nat :=
  match a with
  | ImportsReady k _ _ | SessionReply k _ | SocketOpened k _ _ | SocketMessage k _ _
  | SocketClosed k | SocketErrored k | TermData k _ | TermResized k _ _ => Some k
  | _ => None
  end.

(** C5. Whatever still arrives for a run that was cleaned up (imports, session reply, socket
    events) neither changes the displayed status nor has any effect. *)
Theorem cleaned_up_run_is_silent s a k c :
  page_reachable (terminal_page origin) s -> terminal_extern s a -> run_of a = Some k ->
  tm_conns s !! k = Some c -> k_disposed c = true ->
  tm_status (fst (term_update origin s a)) = tm_status s /\ snd (term_update origin s a) = [].
Proof.
  intros Hr Ha Hrun Hk Hd. apply terminal_reachable_inv in Hr.
  destruct (terminal_inv_conn _ _ _ Hr Hk) as [(_ & Hl & Ht)|[Hc _]];
    [|destruct Hc; congruence].
  unfold live in Hl.
  destruct a; try done; injection Hrun as ->; cbn [term_update terminal_extern] in *;
    destruct Ha as (c' & Hc' & Hw); assert (c' = c) as -> by congruence;
    unfold conn_step; rewrite Hk.
  - unfold imports_ready. by rewrite Hd.
  - unfold session_reply. rewrite Hd. by destruct reply.
  - by rewrite Hw in Hl.
  - by rewrite Hw in Hl.
  - unfold socket_closed. cbv zeta. change (k_disposed (with_ws CLOSED c)) with (k_disposed c).
    by rewrite Hd.
  - unfold socket_errored. by rewrite Hd.
  - done.
  - done.
Qed.

(** The effects that reach the server or the shell of a run. *)
Definition traffic (e : term_effect) : option nat :=
  match e with
  | CreateSession k _ _ _ _ | OpenSocket k _ | SendText k _ | SendBytes k _ => Some k
  | _ => None
  end.

(** What a run that reaches the shell is, and what it sends. *)
Definition authorised (s : terminal) (a : term_action) (e : term_effect) (c : conn) : Prop :=
  match e with
  | CreateSession _ token id _ _ => k_phase c = Importing /\ token = tm_token s /\ id = tm_id s
  | OpenSocket k url => exists ticket, a = SessionReply k (Ok ticket) /\ url = shellWebSocketUrl origin ticket
  | SendText k text =>
      exists rows cols, (a = SocketOpened k rows cols \/ a = TermResized k rows cols /\ k_ws c = Some OPEN) /\
                        text = resize_message rows cols
  | SendBytes k data => a = TermData k data /\ k_ws c = Some OPEN
  | _ => True
  end.

Lemma cleanup_silent l e k : In e (snd (cleanup l)) -> traffic e <> Some k.
Proof.
  unfold cleanup, cleanup_effects. destruct (rev l) as [|c older]; [done|]. destruct (k_disposed c); [done|].
  cbn [snd]. rewrite in_app_iff. destruct (k_ws c), (k_term c); cbn; intros H;
    repeat destruct H as [H|H]; try done; by subst e.
Qed.

Lemma rerun_silent s e k : In e (snd (rerun s)) -> traffic e <> Some k.
Proof.
  unfold rerun. pose proof (cleanup_silent (tm_conns s) e k) as H.
  by destruct (cleanup (tm_conns s)) as [l es].
Qed.

(** Only a step of a run reaches the shell. *)
Lemma traffic_of_run s a e k :
  In e (snd (term_update origin s a)) -> traffic e = Some k -> run_of a = Some k.
Proof.
  intros Hin Ht.
  assert (forall j f, In e (snd (conn_step s j f)) ->
    (forall c, Forall (fun e => traffic e = None \/ traffic e = Some j) (snd (f c))) -> j = k) as Hstep.
  { intros j f He Hf. unfold conn_step in He. destruct (tm_conns s !! j) as [c|]; [|done].
    specialize (Hf c). destruct (f c) as [[c' st] es]. cbn [snd] in *.
    rewrite List.Forall_forall in Hf. destruct (Hf e He); congruence. }
  destruct a; cbn [term_update run_of] in *;
    [by destruct Hin as [<-|[]]
    |by destruct (rerun_silent _ _ k Hin)
    |destruct (_ && _); [done|]; by destruct (rerun_silent _ _ k Hin)
    |pose proof (cleanup_silent (tm_conns s) e k) as H; destruct (cleanup (tm_conns s)); by destruct (H Hin)
    |..];
    f_equal; apply (Hstep _ _ Hin); intros c;
    unfold imports_ready, session_reply, socket_opened, socket_message, socket_closed, socket_errored,
      term_data, sendResize; cbv zeta; repeat case_match; simplify_eq; cbn [snd app];
    repeat (apply List.Forall_cons; [first [by left|by right]|]); apply List.Forall_nil.
Qed.

(** C4. Whatever step of the page produces a session request, a socket or data to the shell,
    also a reconnection: it comes from the newest run of the mounted page, not cleaned
    up, in a role that may open a shell; a session request carries the current token and
    device, a socket is opened at the URL of the ticket that was just answered, and data
    goes over an open socket. *)
Theorem shell_traffic_is_authorised s a e k :
  page_reachable (terminal_page origin) s ->
  fires (page_view (terminal_page origin) s) a \/ terminal_extern s a ->
  In e (snd (term_update origin s a)) -> traffic e = Some k ->
  exists c, tm_conns s !! k = Some c /\ Datatypes.S k = length (tm_conns s) /\ k_disposed c = false /\
    tm_mounted s = true /\ allowed (tm_role s) = true /\
    k_token c = tm_token s /\ k_id c = tm_id s /\ authorised s a e c.
Proof.
  intros Hr Ha Hin Ht. pose proof (traffic_of_run _ _ _ _ Hin Ht) as Hrun.
  destruct Ha as [Ha|Ha]; [apply terminal_fires in Ha as [->|[-> _]]; done|].
  apply terminal_reachable_inv in Hr.
  assert (exists c, tm_conns s !! k = Some c) as [c Hc].
  { destruct a; try done; injection Hrun as ->; destruct Ha as (c & Hc & _); by exists c. }
  exists c. split; [done|].
  destruct (terminal_inv_conn _ _ _ Hr Hc) as [(Hd & Hl & _)|[Hcur Hk]].
  - exfalso. unfold live in Hl.
    assert (is_open c = false) as Ho by (unfold is_open; by destruct (k_ws c) as [[]|]).
    destruct a; try done; injection Hrun as ->; cbn [term_update terminal_extern] in *;
      destruct Ha as (c' & Hc' & Hw); assert (c' = c) as -> by congruence;
      unfold conn_step in Hin; rewrite Hc in Hin; cbn [snd] in Hin;
      unfold imports_ready, session_reply, socket_opened, socket_message, socket_closed, socket_errored,
        term_data, sendResize in Hin; rewrite ?Ho in Hin; cbn in Hin; rewrite ?Hd in Hin; try done;
      try (by rewrite Hw in Hl); repeat case_match; simplify_eq; try done; cbn in Hin; repeat destruct Hin as [<-|Hin]; done.
  - destruct Hcur as (Hd & Hm & Hall & _ & Htok & Hid). split_and!; try done.
    destruct a; try done; injection Hrun as ->; cbn [term_update terminal_extern] in *;
      destruct Ha as (c' & Hc' & Hw); assert (c' = c) as -> by congruence;
      unfold conn_step in Hin; rewrite Hc in Hin;
      unfold imports_ready, session_reply, socket_opened, socket_message, socket_closed, socket_errored,
        term_data, sendResize, is_open in Hin; cbn in Hin;
      repeat case_match; simplify_eq; cbn in Hin; repeat destruct Hin as [<-|Hin]; try done; cbn [authorised];
      rewrite ?Htok, ?Hid; eauto 8.
Qed.
End reach.

(** A socket failure is reported as an error only until the close event that
    follows it. *)
Lemma socket_failure_shows_closed {S} {env : Environment S} origin s k c :
  tm_conns s !! k = Some c -> k_disposed c = false ->
  let s' := fst (term_update origin s (SocketErrored k)) in
  tm_status s' = error /\ tm_status (fst (term_update origin s' (SocketClosed k))) = closed.
Proof.
  intros Hk Hd. cbn [term_update]. unfold conn_step. rewrite Hk. unfold socket_errored. rewrite Hd.
  cbn [fst tm_status set_conns]. split; [done|]. cbn [tm_conns set_conns].
  rewrite list_lookup_insert_eq by (by eapply lookup_lt_Some).
  unfold socket_closed. cbv zeta. change (k_disposed (with_ws CLOSED c)) with (k_disposed c).
  by rewrite Hd.
Qed.

(** ** Witnesses *)

Section sample.
#[local] Existing Instance plain_styling.
#[local] Instance sample_env : Environment unit := {|
  server_fetch := fun _ s => (s, Throw "offline"); API_BASE_URL := "https://api.example" |}.

Abbreviation page := (terminal_page None).

Definition mounted : terminal := terminal_mounted "t" "edge-1" (Some "Admin") false.
Definition requesting : terminal := fst (term_update None mounted (ImportsReady 0 24 80)).
Definition attached : terminal := fst (term_update None requesting (SessionReply 0 (Ok "ticket"))).
Definition replaced : terminal :=
  fst (term_update None attached (DepsChange "t2" "edge-1" (Some "Admin") false)).

Lemma mounted_reachable : page_reachable page mounted.
Proof. apply reach_init. by exists "t", "edge-1", (Some "Admin"), false. Qed.
Lemma requesting_reachable : page_reachable page requesting.
Proof.
  apply (reach_step _ mounted (ImportsReady 0 24 80) _ mounted_reachable).
  apply (step_extern page mounted (ImportsReady 0 24 80)). eexists. by split.
Qed.
Lemma attached_reachable : page_reachable page attached.
Proof.
  apply (reach_step _ requesting (SessionReply 0 (Ok "ticket")) _ requesting_reachable).
  apply (step_extern page requesting (SessionReply 0 (Ok "ticket"))). eexists. by split.
Qed.
Lemma replaced_reachable : page_reachable page replaced.
Proof.
  apply (reach_step _ attached (DepsChange "t2" "edge-1" (Some "Admin") false) _ attached_reachable).
  by apply (step_extern page attached (DepsChange "t2" "edge-1" (Some "Admin") false)).
Qed.

Lemma one_live_socket_witness :
  exists c, tm_conns attached !! 0%nat = Some c /\ live c = true /\
    (0%nat = 0%nat /\ tm_mounted attached = true /\ allowed (tm_role attached) = true /\
     k_token c = tm_token attached /\ k_id c = tm_id attached).
Proof.
  eexists. split; [reflexivity|]. split; [reflexivity|].
  exact (one_live_socket None attached 0 0 _ _ attached_reachable eq_refl eq_refl eq_refl eq_refl).
Defined.

Lemma cleaned_up_run_is_silent_witness :
  length (tm_conns replaced) = 2%nat /\
  tm_status (fst (term_update None replaced (SocketClosed 0))) = tm_status replaced /\
  snd (term_update None replaced (SocketClosed 0)) = [].
Proof.
  split; [reflexivity|].
  refine (cleaned_up_run_is_silent None replaced (SocketClosed 0) 0 _ replaced_reachable _
    eq_refl eq_refl eq_refl).
  eexists. split; [reflexivity|]. exists CLOSING. split; [reflexivity|discriminate].
Defined.

Lemma shell_traffic_is_authorised_witness :
  let e := OpenSocket 0 "wss://api.example/api/v1/devices/shell/ws?ticket=ticket" in
  exists c, tm_conns requesting !! 0%nat = Some c /\ 1%nat = length (tm_conns requesting) /\
    k_disposed c = false /\ tm_mounted requesting = true /\ allowed (tm_role requesting) = true /\
    k_token c = "t" /\ k_id c = "edge-1" /\ authorised None requesting (SessionReply 0 (Ok "ticket")) e c.
Proof.
  refine (shell_traffic_is_authorised None requesting (SessionReply 0 (Ok "ticket"))
    (OpenSocket 0 "wss://api.example/api/v1/devices/shell/ws?ticket=ticket") 0 requesting_reachable (or_intror _) _ eq_refl).
  - eexists. split; reflexivity.
  - vm_compute. left. reflexivity.
Defined.
End sample.
