(* ===== verification/AuditLog.v ===== *)
(** * Audit log: ui/app/(dashboard)/audit/page.tsx *)

From S2P Require Import Prelude JsString JsArray Vdom Api Components.

Definition ACTION_COLORS : list (string * string) :=
  [("CREATE", "border-emerald-500/30 bg-emerald-500/10 text-emerald-600 dark:border-emerald-400/30 dark:bg-emerald-400/10 dark:text-emerald-400");
   ("UPDATE", "border-blue-500/30 bg-blue-500/10 text-blue-600 dark:border-blue-400/30 dark:bg-blue-400/10 dark:text-blue-400");
   ("DELETE", "border-red-500/30 bg-red-500/10 text-red-600 dark:border-red-400/30 dark:bg-red-400/10 dark:text-red-400")].

Record audit_state := {
  au_entries : option (list AuditLogEntry);
  au_isLoading : bool;
  au_search : string;
  au_actionFilter : string;
  au_resourceFilter : string;
  au_page : Z
}.

Definition audit_initial : audit_state := {|
  au_entries := None; au_isLoading := true; au_search := ""; au_actionFilter := "";
  au_resourceFilter := ""; au_page := 0 |}.

Definition audit_pageSize : Z := 20.

Definition audit_entries (s : audit_state) : list AuditLogEntry := au_entries s ?? [].

Definition resourceTypes (s : audit_state) : list string :=
  sort_by string_cmp (set_of_list (map al_resourceType (audit_entries s))).

Definition audit_search_matches (search : string) (e : AuditLogEntry) : bool :=
  let lower := toLowerCase search in
  includes (toLowerCase (al_action e)) lower
  || includes (toLowerCase (al_resourceType e)) lower
  || match al_userEmail e with Some m => includes (toLowerCase m) lower | None => false end.

Definition audit_filtered (s : audit_state) : list AuditLogEntry :=
  let result := audit_entries s in
  let result := if truthy (au_search s)
                then List.filter (audit_search_matches (au_search s)) result else result in
  let result := if truthy (au_actionFilter s)
                then List.filter (fun e => String.eqb (toUpperCase (al_action e)) (au_actionFilter s)) result
                else result in
  if truthy (au_resourceFilter s)
  then List.filter (fun e => String.eqb (al_resourceType e) (au_resourceFilter s)) result
  else result.

Definition audit_totalPages (s : audit_state) : Z :=
  total_pages (zlength (audit_filtered s)) audit_pageSize.
Definition audit_paginated (s : audit_state) : list AuditLogEntry :=
  page_slice (audit_filtered s) (au_page s) audit_pageSize.

Inductive audit_action :=
| AuditSearch (v : string)
| AuditAction (v : string)
| AuditResource (v : string)
| AuditPrevious
| AuditNext
| EntriesArrive (l : list AuditLogEntry).

Definition audit_set (search action resource : string) (p : Z) (s : audit_state) : audit_state :=
  {| au_entries := au_entries s; au_isLoading := au_isLoading s; au_search := search;
     au_actionFilter := action; au_resourceFilter := resource; au_page := p |}.

(** The value [all] stands for no filter. *)
Definition all_is_none (v : string) : string := if String.eqb v "all" then "" else v.

Definition audit_update (s : audit_state) (a : audit_action) : audit_state * list unit :=
  (match a with
   | AuditSearch v => audit_set v (au_actionFilter s) (au_resourceFilter s) 0 s
   | AuditAction v => audit_set (au_search s) (all_is_none v) (au_resourceFilter s) 0 s
   | AuditResource v => audit_set (au_search s) (au_actionFilter s) (all_is_none v) 0 s
   | AuditPrevious => audit_set (au_search s) (au_actionFilter s) (au_resourceFilter s) (au_page s - 1) s
   | AuditNext => audit_set (au_search s) (au_actionFilter s) (au_resourceFilter s) (au_page s + 1) s
   | EntriesArrive l =>
       {| au_entries := Some l; au_isLoading := false; au_search := au_search s;
          au_actionFilter := au_actionFilter s; au_resourceFilter := au_resourceFilter s;
          au_page := au_page s |}
   end, []).

(** ** Rendering *)

Section view.
Context {styling : Styling} {dates : Dates}.

Abbreviation act := audit_action.

Definition select_item (v : string) : node act :=
  Elt "SelectItem" [AStr "key" v; AStr "value" v] [Txt v].

Definition audit_select (value : string) (onChange : string -> act) (width placeholder all : string)
    (items : list string) : node act :=
  Elt "Select" [AStr "value" value; AOnStr "onValueChange" onChange]
    [Elt "SelectTrigger" [cls width] [Elt "SelectValue" [AStr "placeholder" placeholder] []];
     Elt "SelectContent" []
       [Elt "SelectItem" [AStr "value" "all"] [Txt all]; Frag (map select_item items)]].

Definition audit_filters (s : audit_state) : node act :=
  Elt "div" [cls "flex flex-wrap items-center gap-2"]
    [Elt "div" [cls "relative w-64"]
       [icon "Search" "absolute left-3 top-1/2 h-4 w-4 -translate-y-1/2 text-muted-foreground";
        Elt "Input" [AStr "placeholder" "Filter by action, resource, or user...";
                     AStr "value" (au_search s); AOnStr "onChange" AuditSearch; cls "pl-9"] []];
     audit_select (au_actionFilter s) AuditAction "w-36" "Action type" "All Actions"
       ["CREATE"; "UPDATE"; "DELETE"];
     audit_select (au_resourceFilter s) AuditResource "w-40" "Resource type" "All Resources"
       (resourceTypes s);
     match au_entries s with
     | Some _ => Elt "Badge" [AStr "variant" "secondary"]
                   [Txt (number_to_string (zlength (audit_filtered s))); Txt " events"]
     | None => Nothing
     end].

(** [ACTION_COLORS[...] ?? ""]; an upper-cased key is never inherited. *)
Definition action_color (action : string) : string :=
  match obj_get ACTION_COLORS (toUpperCase action) with Own c => c | _ => "" end.

Definition audit_entry (e : AuditLogEntry) : node act :=
  let initials := match al_userEmail e with
                  | Some m => if truthy m then toUpperCase (take_string 1 m) else "S"
                  | None => "S"
                  end in
  Elt "div" [ANum "key" (al_id e);
             cls "flex items-start gap-4 rounded-lg border border-border/50 p-4 transition-colors hover:bg-muted/30"]
    [Elt "Avatar" [cls "h-9 w-9"] [Elt "AvatarFallback" [cls "text-xs"] [Txt initials]];
     Elt "div" [cls "flex-1"]
       [Elt "div" [cls "flex items-center gap-2"]
          [Elt "Badge" [AStr "variant" "outline"; cls (action_color (al_action e))] [Txt (al_action e)];
           Elt "Badge" [AStr "variant" "secondary"] [Txt (al_resourceType e)];
           when (truthy (al_resourceId e))
             (Elt "span" [cls "font-mono text-xs text-muted-foreground"] [Txt (al_resourceId e)])];
        Elt "div" [cls "mt-2 flex items-center gap-2 text-xs text-muted-foreground"]
          [Elt "span" [] [Txt (al_userEmail e ?? "system")];
           Elt "span" [] [Txt "·"];
           Elt "span" [AStr "title" (format_full (al_createdAt e))]
             [Txt (formatDistanceToNow (al_createdAt e))]]]].

Definition audit_skeleton (i : Z) : node act :=
  Elt "div" [ANum "key" i; cls "flex gap-4"]
    [Skeleton "h-10 w-10 rounded-full";
     Elt "div" [cls "flex-1 space-y-2"] [Skeleton "h-4 w-3/4"; Skeleton "h-3 w-1/2"]].

Definition audit_card (s : audit_state) : node act :=
  Elt "Card" []
    [Elt "CardHeader" []
       [Elt "CardTitle" [cls "flex items-center gap-2"]
          [icon "FileText" "h-5 w-5"; Txt "Activity Timeline"]];
     Elt "CardContent" []
       [if au_isLoading s then Elt "div" [cls "space-y-4"] [array_from 5 audit_skeleton]
        else if zlength (audit_paginated s) =? 0 then
          EmptyState None "No audit entries" (Some "Actions performed in the system will appear here.") []
        else Elt "div" [cls "space-y-4"] [Frag (map audit_entry (audit_paginated s))]]].

Definition audit_pagination (s : audit_state) : node act :=
  let n := zlength (audit_filtered s) in
  when (audit_pageSize <? n)
    (Elt "div" [cls "flex items-center justify-between"]
       [Elt "p" [cls "text-sm text-muted-foreground"]
          [Txt "Showing "; Txt (number_to_string (au_page s * audit_pageSize + 1)); Txt "-";
           Txt (number_to_string (Z.min ((au_page s + 1) * audit_pageSize) n)); Txt " of ";
           Txt (number_to_string n)];
        Elt "div" [cls "flex gap-2"]
          [Elt "Button" [AStr "variant" "outline"; AStr "size" "sm";
                         ABool "disabled" (au_page s =? 0); AOn "onClick" AuditPrevious]
             [Txt "Previous"];
           Elt "Button" [AStr "variant" "outline"; AStr "size" "sm";
                         ABool "disabled" (audit_totalPages s - 1 <=? au_page s);
                         AOn "onClick" AuditNext]
             [Txt "Next"]]]).

Definition audit_view (s : audit_state) : node act :=
  Elt "div" [cls "space-y-6"]
    [PageHeader "Audit Log" (Some "Track all actions in your organization") [] None;
     audit_filters s; audit_card s; audit_pagination s].

Definition audit_page : page audit_state audit_action unit := {|
  page_init := fun s => s = audit_initial;
  page_view := audit_view;
  page_update := audit_update;
  page_extern := fun _ a => match a with EntriesArrive _ => True | _ => False end
|}.

(** ** Handlers *)

Lemma select_items_choices items :
  concat (map choices (map select_item items)) = items /\
  concat (map (events true) (map select_item items)) = [].
Proof.
  split; rewrite concat_map_map.
  - rewrite (concat_map_singleton _ id) by done. apply map_id.
  - by apply concat_map_nil.
Qed.

Lemma audit_view_events s :
  events true (audit_view s) =
  [EvStr AuditSearch; EvChoice AuditAction ["all"; "CREATE"; "UPDATE"; "DELETE"];
   EvChoice AuditResource ("all" :: resourceTypes s)]
  ++ (if audit_pageSize <? zlength (audit_filtered s) then
        (if au_page s =? 0 then [] else [EvUnit AuditPrevious])
        ++ (if audit_totalPages s - 1 <=? au_page s then [] else [EvUnit AuditNext])
      else []).
Proof.
  assert (events true (audit_card s) = []) as Hcard.
  { unfold audit_card. destruct (au_isLoading s); [|destruct (_ =? 0)]; events_simpl.
    - by rewrite events_array_from.
    - by rewrite EmptyState_events.
    - rewrite concat_map_map. rewrite (concat_map_nil _ (audit_paginated s)); [done|].
      intros e _. unfold audit_entry. by destruct (truthy (al_resourceId e)). }
  assert (events true (audit_pagination s) =
    (if audit_pageSize <? zlength (audit_filtered s) then
        (if au_page s =? 0 then [] else [EvUnit AuditPrevious])
        ++ (if audit_totalPages s - 1 <=? au_page s then [] else [EvUnit AuditNext])
      else [])) as Hpag.
  { unfold audit_pagination. cbv zeta. destruct (audit_pageSize <? _); [|done].
    by destruct (au_page s =? 0), (audit_totalPages s - 1 <=? au_page s). }
  assert (events true (audit_filters s) =
    [EvStr AuditSearch; EvChoice AuditAction ["all"; "CREATE"; "UPDATE"; "DELETE"];
     EvChoice AuditResource ("all" :: resourceTypes s)]) as Hf.
  { unfold audit_filters, audit_select.
    destruct (select_items_choices (resourceTypes s)) as [Hc He].
    destruct (au_entries s); events_simpl; rewrite Hc, He, ?app_nil_r; reflexivity. }
  unfold audit_view. rewrite <- Hf, <- Hpag.
  cbn [events own_events has_attr existsb attr_is concat map app own_event dialog_moves content_tag dialog_tag
       String.eqb Ascii.eqb Bool.eqb orb andb negb cls].
  rewrite PageHeader_events, Hcard. cbn [concat map app]. by rewrite app_nil_r.
Qed.
End view.
