(* ===== verification/AuditFacts.v ===== *)
(** * Properties of the audit log page *)

From S2P Require Import Prelude JsString JsArray Vdom Api Components DevicesFacts AuditLog.

(** What the active filters ask of an entry. *)
Definition audit_passes (s : audit_state) (e : AuditLogEntry) : Prop :=
  (au_search s <> "" ->
   exists text pre post,
     (text = al_action e \/ text = al_resourceType e \/ al_userEmail e = Some text) /\
     toLowerCase text = pre +++ toLowerCase (au_search s) +++ post) /\
  (au_actionFilter s <> "" -> toUpperCase (al_action e) = au_actionFilter s) /\
  (au_resourceFilter s <> "" -> al_resourceType e = au_resourceFilter s).

Lemma audit_search_matches_spec v e :
  audit_search_matches v e = true <->
  exists text pre post,
    (text = al_action e \/ text = al_resourceType e \/ al_userEmail e = Some text) /\
    toLowerCase text = pre +++ toLowerCase v +++ post.
Proof.
  unfold audit_search_matches. cbv zeta. rewrite !orb_true_iff, !includes_spec. split.
  - intros [[(pre & post & H)|(pre & post & H)]|H]; [by eauto 8..|].
    destruct (al_userEmail e) as [m|] eqn:Em; [|done].
    apply includes_spec in H as (pre & post & H). eauto 8.
  - intros (text & pre & post & [->|[->|Em]] & H); [by left; left; eauto|by left; right; eauto|].
    right. rewrite Em. apply includes_spec. eauto.
Qed.

Definition audit_passes_b (s : audit_state) (e : AuditLogEntry) : bool :=
  (negb (truthy (au_search s)) || audit_search_matches (au_search s) e)
  && (negb (truthy (au_actionFilter s)) || String.eqb (toUpperCase (al_action e)) (au_actionFilter s))
  && (negb (truthy (au_resourceFilter s)) || String.eqb (al_resourceType e) (au_resourceFilter s)).

Lemma audit_passes_b_spec s e : audit_passes_b s e = true <-> audit_passes s e.
Proof.
  unfold audit_passes_b, audit_passes.
  rewrite !andb_true_iff, !impl_b, audit_search_matches_spec, !truthy_true, !String.eqb_eq. tauto.
Qed.

Lemma audit_filtered_eq s : audit_filtered s = List.filter (audit_passes_b s) (audit_entries s).
Proof.
  unfold audit_filtered. cbv zeta. rewrite !filter_if, !filter_filter_and.
  apply List.filter_ext. intros e. unfold audit_passes_b. by rewrite !andb_assoc.
Qed.

(** The audit log shows exactly the entries that pass the filters, in the order of the
    server, and its pages one after the other are all of them. *)
Theorem audit_filtered_spec s :
  exists p, (forall e, p e = true <-> audit_passes s e) /\
    audit_filtered s = List.filter p (audit_entries s) /\
    concat (map (fun k => audit_paginated
                   (audit_set (au_search s) (au_actionFilter s) (au_resourceFilter s) (Z.of_nat k) s))
              (seq 0 (Z.to_nat (audit_totalPages s)))) = List.filter p (audit_entries s).
Proof.
  exists (audit_passes_b s). split; [apply audit_passes_b_spec|].
  rewrite <- audit_filtered_eq. split; [done|].
  exact (pages_partition (audit_filtered s) audit_pageSize eq_refl).
Qed.

Section reach.
Context {styling : Styling} {dates : Dates}.

Lemma audit_fires s a :
  fires (audit_view s) a ->
  match a with
  | AuditAction v => In v ["all"; "CREATE"; "UPDATE"; "DELETE"]
  | AuditResource v => In v ("all" :: resourceTypes s)
  | AuditPrevious => au_page s <> 0
  | AuditNext => au_page s < audit_totalPages s - 1
  | AuditSearch _ => True
  | EntriesArrive _ => False
  end.
Proof.
  intros (e & Hin & Hem). rewrite audit_view_events, !in_app_iff in Hin.
  destruct Hin as [[<-|[<-|[<-|[]]]]|Hin].
  - by destruct Hem as [v ->].
  - by destruct Hem as (v & Hv & ->).
  - by destruct Hem as (v & Hv & ->).
  - destruct (audit_pageSize <? _); [|done]. rewrite in_app_iff in Hin.
    destruct Hin as [Hin|Hin]; destruct (_ : bool) eqn:E in Hin; try done;
      destruct Hin as [<-|[]]; cbn in Hem; subst a; bool_to_prop; lia.
Qed.

(** The filters a user can set. *)
Definition audit_inv (s : audit_state) : Prop :=
  0 <= au_page s /\ In (au_actionFilter s) [""; "CREATE"; "UPDATE"; "DELETE"] /\
  au_resourceFilter s <> "all".

Lemma audit_reachable_inv s : page_reachable audit_page s -> audit_inv s.
Proof.
  revert s. apply page_invariant.
  - intros s H. change (s = audit_initial) in H. subst s. by split_and!; [|left|].
  - intros s a (H1 & H2 & H3) Ha. unfold audit_inv.
    assert (fires (audit_view s) a \/ exists l, a = EntriesArrive l) as [Hf|[l ->]]; [|apply audit_fires in Hf|].
    { destruct Ha as [Ha|Ha]; [by left|]. destruct a; try done. right. eauto. }
    + destruct a; cbn; try done; split_and!; try done; try lia.
      * cbn in Hf. by repeat destruct Hf as [<-|Hf]; cbn; auto.
      * unfold all_is_none. by destruct (String.eqb_spec v "all").
    + by split_and!.
Qed.

(** C:audit_page *)
Theorem audit_user_stays_on_a_page s s' :
  user_steps audit_page s s' ->
  (au_page s = 0 \/ au_page s < audit_totalPages s) ->
  au_page s' = 0 \/ au_page s' < audit_totalPages s'.
Proof.
  revert s s'. apply user_invariant. intros s a Hp Ha. apply audit_fires in Ha.
  destruct a; cbn [audit_page page_update audit_update fst] in *; try (by left); try done.
  - right. destruct Hp as [Hp|Hp]; [done|].
    change (au_page s - 1 < audit_totalPages s). lia.
  - right. change (au_page s + 1 < audit_totalPages s). lia.
Qed.

(** With an action filter set, no entry is shown whose action is not one of the three
    words the filter offers. *)
Theorem action_filter_hides_other_actions s :
  page_reachable audit_page s -> au_actionFilter s <> "" ->
  (forall e, In e (audit_entries s) -> ~ In (toUpperCase (al_action e)) ["CREATE"; "UPDATE"; "DELETE"]) ->
  audit_filtered s = [].
Proof.
  intros Hr Ha He. destruct (audit_reachable_inv s Hr) as (_ & [H|H] & _); [by rewrite <- H in Ha|].
  rewrite audit_filtered_eq. destruct (List.filter _ _) as [|e l] eqn:E; [done|]. exfalso.
  assert (In e (List.filter (audit_passes_b s) (audit_entries s))) as Hin by (rewrite E; by left).
  apply filter_In in Hin as [Hin Hp]. apply audit_passes_b_spec in Hp as (_ & Hp & _).
  apply (He e Hin). by rewrite Hp.
Qed.
End reach.

(** ** Concrete entries, named as the controller names them *)

Definition entry (id : Z) (action : string) : AuditLogEntry := {|
  al_id := id; al_userId := 1; al_userEmail := Some "ops@example.org"; al_action := action;
  al_resourceType := "device"; al_resourceId := "edge-1"; al_details := None;
  al_createdAt := "2024-01-01T00:00:00Z" |}.

Definition controller_entries : list AuditLogEntry :=
  [entry 1 "device_deleted"; entry 2 "cert_approved"; entry 3 "cert_revoked"; entry 4 "shell_opened"].

Section sample.
#[local] Existing Instance plain_styling.
#[local] Existing Instance plain_dates.

Definition audit_loaded : audit_state := fst (audit_update audit_initial (EntriesArrive controller_entries)).
Definition audit_deletes : audit_state := fst (audit_update audit_loaded (AuditAction "DELETE")).

Lemma filter_deletes_fires : fires (audit_view audit_loaded) (AuditAction "DELETE").
Proof.
  exists (EvChoice AuditAction ["all"; "CREATE"; "UPDATE"; "DELETE"]). split.
  - rewrite audit_view_events. right. left. reflexivity.
  - exists "DELETE". split; [|reflexivity]. cbn. tauto.
Qed.

Lemma audit_deletes_steps : user_steps audit_page audit_loaded audit_deletes.
Proof.
  apply (user_step audit_page _ (AuditAction "DELETE")); [|apply user_refl].
  exact filter_deletes_fires.
Qed.

Lemma audit_deletes_reachable : page_reachable audit_page audit_deletes.
Proof.
  apply (reach_step _ audit_loaded (AuditAction "DELETE")).
  - apply (reach_step _ audit_initial (EntriesArrive controller_entries)); [by constructor|].
    by apply (step_extern audit_page audit_initial (EntriesArrive controller_entries)).
  - exact (step_user audit_page audit_loaded (AuditAction "DELETE") filter_deletes_fires).
Qed.

Lemma audit_user_stays_on_a_page_witness :
  au_page audit_deletes = 0 \/ au_page audit_deletes < audit_totalPages audit_deletes.
Proof.
  refine (audit_user_stays_on_a_page audit_loaded audit_deletes audit_deletes_steps _).
  left. reflexivity.
Defined.

Lemma action_filter_hides_other_actions_witness :
  zlength (audit_entries audit_deletes) = 4 /\ audit_filtered audit_deletes = [].
Proof.
  split; [reflexivity|].
  refine (action_filter_hides_other_actions audit_deletes audit_deletes_reachable _ _);
    [discriminate|].
  intros e He. cbn in He. repeat destruct He as [<-|He]; vm_compute; intuition discriminate.
Defined.
End sample.
