(* ===== verification/DeviceLogs.v ===== *)
(** * Device logs: ui/app/(dashboard)/devices/[id]/logs/page.tsx *)

From S2P Require Import Prelude JsString JsArray Vdom UrlCodec Json Endpoints ApiClient Api ApiFacts Components.

(** The response as the page reads it; [None] is an absent field. *)
Record log_stream := { ls_values : option (list (string * string)) }.
Record log_data := { ld_result : option (list log_stream) }.
Record log_response := { lr_data : option log_data }.

Record log_line := { ll_timestamp : string; ll_line : string }.

Definition stream_lines (st : log_stream) : list log_line :=
  map (fun v => {| ll_timestamp := fst v; ll_line := snd v |}) (ls_values st ?? []).

Definition logLines (r : option log_response) : list log_line :=
  match r with
  | Some resp => concat (map stream_lines ((lr_data resp ≫= ld_result) ?? []))
  | None => []
  end.

Record logs_state := {
  lg_id : string;
  lg_response : option log_response;
  lg_isLoading : bool;
  lg_search : string;
  lg_level : string;
  lg_timeRange : string
}.

Definition logs_initial (id : string) : logs_state := {|
  lg_id := id; lg_response := None; lg_isLoading := true; lg_search := ""; lg_level := "";
  lg_timeRange := "1h" |}.

Definition time_ranges : list (string * Z) :=
  [("15m", 15 * 60 * 1000); ("1h", 60 * 60 * 1000); ("6h", 6 * 60 * 60 * 1000);
   ("24h", 24 * 60 * 60 * 1000); ("7d", 7 * 24 * 60 * 60 * 1000)].

Section start.
Context {dates : Dates}.

(** [None]: an inherited property makes an invalid date, and [toISOString] throws. *)
Definition getStart (now : Z) (timeRange : string) : option string :=
  match obj_get time_ranges timeRange with
  | Own ms => Some (toISOString (now - ms))
  | Inherited => None
  | Undefined => Some (toISOString (now - 60 * 60 * 1000))
  end.

(** [v || undefined] *)
Definition or_none (v : string) : option string := if truthy v then Some v else None.

Definition logs_params (now : Z) (s : logs_state) : option LogParams :=
  match getStart now (lg_timeRange s) with
  | Some start =>
      Some {| lp_start := Some start; lp_end := None; lp_limit := Some 200;
              lp_level := or_none (lg_level s); lp_search := or_none (lg_search s) |}
  | None => None
  end.
End start.

(** ** The level of a line: the first match of [level=(\w+)] *)

Fixpoint take_word (s : string) : string :=
  match s with
  | String c s' => if is_word c then String c (take_word s') else EmptyString
  | EmptyString => EmptyString
  end.

Definition match_here (s : string) : option string :=
  if startsWith s "level=" then
    let w := take_word (drop_string 6 s) in if truthy w then Some w else None
  else None.

Fixpoint match_level (s : string) : option string :=
  match match_here s with
  | Some w => Some w
  | None => match s with String _ s' => match_level s' | EmptyString => None end
  end.

Definition LEVEL_COLORS : list (string * string) :=
  [("ERROR", "text-red-500 dark:text-red-400"); ("WARN", "text-amber-500 dark:text-amber-400");
   ("INFO", "text-cyan-500 dark:text-cyan-400"); ("DEBUG", "text-zinc-500 dark:text-zinc-500")].

(** [inherited k] is the string of the member [k] of [Object.prototype]. *)
Definition line_color (inherited : string -> string) (line : string) : string :=
  let lineLevel := match_level line ?? "" in
  match obj_get LEVEL_COLORS lineLevel with
  | Own c => c
  | Inherited => inherited lineLevel
  | Undefined => "text-foreground"
  end.

(** ** Handlers *)

Inductive logs_action :=
| LogsBack
| LogsSearch (v : string)
| LogsLevel (v : string)
| LogsRange (v : string)
| Refetch
| DownloadLogs
| LogsArrive (r : option log_response).

Inductive logs_effect :=
| LogsPush (url : string)
| LogsRefetch
| LogsSave (content mime filename : string).

(** The filters are part of the query key: other filters start without data. *)
Definition set_query (search level range : string) (s : logs_state) : logs_state :=
  if String.eqb search (lg_search s) && String.eqb level (lg_level s)
     && String.eqb range (lg_timeRange s)
  then s
  else {| lg_id := lg_id s; lg_response := None; lg_isLoading := true;
          lg_search := search; lg_level := level; lg_timeRange := range |}.

Lemma set_query_fields search level range s :
  lg_id (set_query search level range s) = lg_id s /\
  lg_search (set_query search level range s) = search /\
  lg_level (set_query search level range s) = level /\ lg_timeRange (set_query search level range s) = range.
Proof. unfold set_query. destruct (_ && _) eqn:E; bool_to_prop; auto. Qed.

Definition downloadLogs (s : logs_state) : list logs_effect :=
  [LogsSave (join newline (map ll_line (logLines (lg_response s)))) "text/plain"
     (lg_id s +++ "-logs.txt")].

Definition logs_update (s : logs_state) (a : logs_action) : logs_state * list logs_effect :=
  match a with
  | LogsBack => (s, [LogsPush ("/devices/" +++ lg_id s)])
  | LogsSearch v => (set_query v (lg_level s) (lg_timeRange s) s, [])
  | LogsLevel v => (set_query (lg_search s) v (lg_timeRange s) s, [])
  | LogsRange v => (set_query (lg_search s) (lg_level s) v s, [])
  | Refetch => (s, [LogsRefetch])
  | DownloadLogs => (s, downloadLogs s)
  | LogsArrive r =>
      ({| lg_id := lg_id s; lg_response := r; lg_isLoading := false; lg_search := lg_search s;
          lg_level := lg_level s; lg_timeRange := lg_timeRange s |}, [])
  end.

(** ** Rendering *)

Section view.
Context {styling : Styling} (inherited : string -> string).

Abbreviation act := logs_action.

Definition choice {A} (v label : string) : node A := Elt "SelectItem" [AStr "value" v] [Txt label].

Definition logs_header (s : logs_state) : node act :=
  Elt "div" [cls "flex items-center gap-4"]
    [Elt "Button" [AStr "variant" "ghost"; AStr "size" "icon"; AOn "onClick" LogsBack]
       [icon "ArrowLeft" "h-4 w-4"];
     PageHeader "Device Logs" (Some (lg_id s)) [] None].

Definition logs_toolbar (s : logs_state) : node act :=
  let n := zlength (logLines (lg_response s)) in
  Elt "div" [cls "flex flex-wrap items-center gap-2"]
    [Elt "div" [cls "relative w-64"]
       [icon "Search" "absolute left-3 top-1/2 h-4 w-4 -translate-y-1/2 text-muted-foreground";
        Elt "Input" [AStr "placeholder" "Search logs..."; AStr "value" (lg_search s);
                     AOnStr "onChange" LogsSearch; cls "pl-9"] []];
     Elt "Select" [AStr "value" (lg_level s); AOnStr "onValueChange" LogsLevel]
       [Elt "SelectTrigger" [cls "w-32"] [Elt "SelectValue" [AStr "placeholder" "All Levels"] []];
        Elt "SelectContent" []
          [choice "all" "All Levels"; choice "ERROR" "ERROR"; choice "WARN" "WARN";
           choice "INFO" "INFO"; choice "DEBUG" "DEBUG"]];
     Elt "Select" [AStr "value" (lg_timeRange s); AOnStr "onValueChange" LogsRange]
       [Elt "SelectTrigger" [cls "w-28"] [Elt "SelectValue" [] []];
        Elt "SelectContent" []
          [choice "15m" "15 min"; choice "1h" "1 hour"; choice "6h" "6 hours";
           choice "24h" "24 hours"; choice "7d" "7 days"]];
     Elt "Button" [AStr "variant" "outline"; AStr "size" "icon"; AOn "onClick" Refetch]
       [icon "RefreshCw" "h-4 w-4"];
     Elt "Button" [AStr "variant" "outline"; AStr "size" "sm"; AOn "onClick" DownloadLogs;
                   ABool "disabled" (n =? 0)]
       [icon "Download" "mr-2 h-4 w-4"; Txt "Download"];
     Elt "Badge" [AStr "variant" "secondary"] [Txt (number_to_string n); Txt " lines"]].

Definition log_row (entry : log_line) : node act :=
  Elt "div" [cls (line_color inherited (ll_line entry) +++ " hover:bg-muted rounded px-1")]
    [Txt (ll_line entry)].

Definition logs_card (s : logs_state) : node act :=
  Elt "Card" []
    [Elt "CardContent" [cls "p-0"]
       [if lg_isLoading s then
          Elt "div" [cls "space-y-2 p-4"]
            [array_from 10 (fun i => Elt "Skeleton" [ANum "key" i; cls "h-5 w-full"] [])]
        else if zlength (logLines (lg_response s)) =? 0 then
          Elt "p" [cls "py-12 text-center text-sm text-muted-foreground"]
            [Txt "No log entries found. Logs will appear once the device starts forwarding them."]
        else
          Elt "ScrollArea" [cls "h-[600px]"]
            [Elt "pre" [cls "p-4 text-xs font-mono leading-relaxed"]
               [Frag (map log_row (logLines (lg_response s)))]]]].

Definition logs_view (s : logs_state) : node act :=
  Elt "div" [cls "space-y-4"] [logs_header s; logs_toolbar s; logs_card s].

Definition logs_page (id : string) : page logs_state logs_action logs_effect := {|
  page_init := fun s => s = logs_initial id;
  page_view := logs_view;
  page_update := logs_update;
  page_extern := fun _ a => match a with LogsArrive _ => True | _ => False end
|}.

Lemma logs_view_events s :
  events true (logs_view s) =
  [EvUnit LogsBack; EvStr LogsSearch; EvChoice LogsLevel ["all"; "ERROR"; "WARN"; "INFO"; "DEBUG"];
   EvChoice LogsRange ["15m"; "1h"; "6h"; "24h"; "7d"]; EvUnit Refetch]
  ++ (if zlength (logLines (lg_response s)) =? 0 then [] else [EvUnit DownloadLogs]).
Proof.
  assert (events true (logs_card s) = []) as Hc.
  { unfold logs_card. destruct (lg_isLoading s); [reflexivity|].
    destruct (_ =? 0); [reflexivity|]. events_simpl. rewrite concat_map_map. by rewrite concat_map_nil. }
  assert (events true (logs_header s) = [EvUnit LogsBack]) as Hh.
  { unfold logs_header. events_simpl. by rewrite PageHeader_events. }
  assert (forall x, events true (logs_toolbar s) ++ x =
    [EvStr LogsSearch; EvChoice LogsLevel ["all"; "ERROR"; "WARN"; "INFO"; "DEBUG"];
     EvChoice LogsRange ["15m"; "1h"; "6h"; "24h"; "7d"]; EvUnit Refetch]
    ++ (if zlength (logLines (lg_response s)) =? 0 then [] else [EvUnit DownloadLogs]) ++ x) as Ht.
  { intros x. unfold logs_toolbar. cbv zeta. by destruct (_ =? 0). }
  unfold logs_view. generalize dependent (logs_toolbar s). intros n Ht.
  cbn [events own_events has_attr existsb attr_is concat map app own_event dialog_moves content_tag dialog_tag
       String.eqb Ascii.eqb Bool.eqb orb andb negb cls].
  rewrite Hc, Hh, Ht. by rewrite !app_nil_r.
Qed.
End view.
