(* ===== verification/DeviceLogsFacts.v ===== *)
(** * Properties of the device logs page *)

From S2P Require Import Prelude JsString JsArray Vdom UrlCodec Json Endpoints ApiClient Api ApiFacts Components DeviceLogs.

(** ** The level of a line *)

Lemma take_word_spec s :
  exists post, s = take_word s +++ post /\ forall_chars is_word (take_word s) = true /\
    match post with String c _ => is_word c = false | EmptyString => True end.
Proof.
  induction s as [|c s (post & Hs & Hw & Hp)]; cbn [take_word]; [by exists ""|].
  destruct (is_word c) eqn:E.
  - exists post. rewrite append_cons, <- Hs. split_and!; [done| |done].
    cbn [forall_chars]. by rewrite E, Hw.
  - by exists (String c s).
Qed.

(** A maximal run of word characters after [level=]. *)
Definition level_at (s w : string) : Prop :=
  exists post, s = "level=" +++ w +++ post /\ w <> "" /\ forall_chars is_word w = true /\
    match post with String c _ => is_word c = false | EmptyString => True end.

Lemma take_word_app w post :
  forall_chars is_word w = true ->
  match post with String c _ => is_word c = false | EmptyString => True end ->
  take_word (w +++ post) = w.
Proof.
  intros Hw Hp. induction w as [|c w IH].
  - destruct post as [|c post]; [done|].
    change (take_word (String c post) = ""). cbn [take_word]. by rewrite Hp.
  - rewrite append_cons. cbn [forall_chars take_word] in *. bool_to_prop.
    by rewrite H, IH.
Qed.

Lemma match_here_spec s w : match_here s = Some w <-> level_at s w.
Proof.
  unfold match_here, level_at. split.
  - destruct (startsWith s "level=") eqn:E; [|done]. apply prefix_exists in E as [r ->].
    change (drop_string 6 ("level=" +++ r)) with r.
    destruct (truthy (take_word r)) eqn:Et; [|done]. intros [= <-].
    destruct (take_word_spec r) as (post & Hr & Hw & Hp). exists post.
    rewrite <- Hr. split_and!; [done|by apply truthy_true|done|done].
  - intros (post & -> & Hne & Hw & Hp).
    unfold startsWith. rewrite prefix_app.
    change (drop_string 6 ("level=" +++ w +++ post)) with (w +++ post).
    rewrite take_word_app by done. by rewrite (proj2 (truthy_true w) Hne).
Qed.

(** C21. The level of a log line is the maximal run of word characters after the leftmost
    level= that is followed by one. *)
Theorem match_level_leftmost s w :
  match_level s = Some w <->
  exists pre rest, s = pre +++ rest /\ level_at rest w /\
    forall pre' rest' w', s = pre' +++ rest' -> level_at rest' w' ->
      (String.length pre <= String.length pre')%nat.
Proof.
  revert w. induction s as [|c s IH]; intros w; cbn [match_level].
  - split; [done|]. intros (pre & rest & Hs & (post & -> & _) & _). by destruct pre.
  - destruct (match_here (String c s)) as [w0|] eqn:E.
    + apply match_here_spec in E. split.
      * intros [= <-]. exists "", (String c s). split_and!; [done|done|]. cbn. lia.
      * intros (pre & rest & Hs & Hl & Hmin).
        specialize (Hmin "" (String c s) w0 eq_refl E). destruct pre as [|d pre]; [|cbn in Hmin; lia].
        change ("" +++ rest) with rest in Hs. subst rest. apply match_here_spec in E, Hl. congruence.
    + rewrite IH. split.
      * intros (pre & rest & -> & Hl & Hmin). exists (String c pre), rest.
        rewrite append_cons. split_and!; [done|done|].
        intros [|d pre'] rest' w' Hs Hl'.
        -- change ("" +++ rest') with rest' in Hs. subst rest'. apply match_here_spec in Hl'. congruence.
        -- rewrite append_cons in Hs. injection Hs as <- Hs. cbn.
           specialize (Hmin pre' rest' w' Hs Hl'). lia.
      * intros ([|d pre] & rest & Hs & Hl & Hmin).
        -- change ("" +++ rest) with rest in Hs. subst rest. apply match_here_spec in Hl. congruence.
        -- rewrite append_cons in Hs. injection Hs as <- Hs. exists pre, rest.
           split_and!; [done|done|]. intros pre' rest' w' Hs' Hl'.
           assert (String c s = String c pre' +++ rest') as Hs2 by by rewrite append_cons, Hs'.
           specialize (Hmin (String c pre') rest' w' Hs2 Hl'). cbn in Hmin. lia.
Qed.

(** ** The requests of the page *)

Section requests.
Context {styling : Styling} {dates : Dates} {S : Type} {env : Environment S}.
Variables (inherited : string -> string) (id : string).
Abbreviation page := (logs_page inherited id).

Lemma logs_fires s a :
  fires (logs_view inherited s) a ->
  match a with
  | LogsLevel v => In v ["all"; "ERROR"; "WARN"; "INFO"; "DEBUG"]
  | LogsRange v => In v ["15m"; "1h"; "6h"; "24h"; "7d"]
  | DownloadLogs => logLines (lg_response s) <> []
  | LogsArrive _ => False
  | _ => True
  end.
Proof.
  intros (e & Hin & Hem). rewrite logs_view_events, in_app_iff in Hin. destruct Hin as [Hin|Hin].
  - repeat destruct Hin as [<-|Hin]; cbn [emits] in Hem; try done; try (by subst a);
      [by destruct Hem as [v ->]|destruct Hem as (v & Hv & ->); exact Hv..].
  - destruct (zlength _ =? 0) eqn:E; [done|]. destruct Hin as [<-|[]]. cbn in Hem. subst a.
    bool_to_prop. intros H. apply E. by rewrite H.
Qed.

Lemma logs_reachable_range s :
  page_reachable page s -> lg_id s = id /\ In (lg_timeRange s) (map fst time_ranges).
Proof.
  revert s. apply page_invariant.
  - intros s H. change (s = logs_initial id) in H. subst s. split; [done|]. cbn. auto.
  - intros s a [H1 H2] Ha.
    assert (match a with LogsRange v => In v ["15m"; "1h"; "6h"; "24h"; "7d"] | _ => True end) as Hg.
    { destruct Ha as [Ha|Ha]; [apply logs_fires in Ha|]; by destruct a. }
    destruct a; cbn [page_update logs_page logs_update fst]; auto;
      match goal with |- context [set_query ?a ?b ?c ?d] =>
        destruct (set_query_fields a b c d) as (-> & _ & _ & ->) end; auto.
Qed.

(** The logs page asks for 200 lines since the start of the chosen time range, with the
    chosen level and search text when they are not empty. *)
Theorem logs_page_request now token s st :
  page_reachable page s ->
  has_char "?" API_BASE_URL = false -> has_char "?" id = false ->
  exists p ms, logs_params now s = Some p /\ In (lg_timeRange s, ms) time_ranges /\
    exists rq, requests_of (getDeviceLogs token (lg_id s) p) st = [rq] /\
      query_of (rq_url rq) =
        (if truthy (toISOString (now - ms)) then [("start", toISOString (now - ms))] else [])
        ++ [("limit", "200")]
        ++ (if truthy (lg_level s) then [("level", lg_level s)] else [])
        ++ (if truthy (lg_search s) then [("search", lg_search s)] else []).
Proof.
  intros Hr Hb Hid. apply logs_reachable_range in Hr as [Heq Hin]. rewrite Heq.
  assert (exists ms, obj_get time_ranges (lg_timeRange s) = Own ms /\ In (lg_timeRange s, ms) time_ranges)
    as (ms & Hget & Hms).
  { cbn in Hin. repeat destruct Hin as [<-|Hin]; try done; eexists; (split; [reflexivity|cbn; tauto]). }
  unfold logs_params, getStart. rewrite Hget. eexists _, ms. split; [reflexivity|]. split; [exact Hms|].
  unfold requests_of, getDeviceLogs. rewrite apiFetch_sent. cbn [net_sent app].
  eexists. split; [reflexivity|]. cbn [rq_url rawFetch_request]. unfold absoluteUrl.
  rewrite <- append_assoc, query_of_serialize.
  - rewrite logs_query_spec. cbn [lp_start lp_end lp_limit lp_level lp_search keep keep_num app].
    unfold or_none. by destruct (truthy (lg_level s)) eqn:El, (truthy (lg_search s)) eqn:Es;
      cbn [keep]; rewrite ?El, ?Es.
  - rewrite has_char_append, Hb. apply endpoint_no_query. by intros d [= <-].
Qed.

(** C:level_sticks *)
Theorem level_filter_never_cleared s s' :
  user_steps page s s' -> lg_level s <> "" -> lg_level s' <> "".
Proof.
  revert s s'. apply user_invariant. intros s a Hl Ha. apply logs_fires in Ha.
  destruct a; cbn [page_update logs_page logs_update fst]; try done;
    match goal with |- context [set_query ?a ?b ?c ?d] =>
      destruct (set_query_fields a b c d) as (_ & _ & -> & _) end; try done.
  by repeat destruct Ha as [<-|Ha].
Qed.
End requests.

(** C:download *)
Theorem download_roundtrip s :
  Forall (fun l => has_char "010" (ll_line l) = false) (logLines (lg_response s)) ->
  logLines (lg_response s) <> [] ->
  exists content, downloadLogs s = [LogsSave content "text/plain" (lg_id s +++ "-logs.txt")] /\
    split_char "010" content = map ll_line (logLines (lg_response s)).
Proof.
  intros Hl Hne. eexists. split; [reflexivity|].
  apply (split_join "010").
  - by destruct (logLines (lg_response s)).
  - apply Forall_map. exact Hl.
Qed.

(** ** Witnesses *)

Definition two_streams : log_response :=
  {| lr_data := Some {| ld_result := Some
       [{| ls_values := Some [("1", "t=1 level=WARN disk"); ("2", "t=2 level=ERROR cpu")] |};
        {| ls_values := None |}; {| ls_values := Some [("3", "plain")] |}] |} |}.

Definition loaded_logs : logs_state :=
  fst (logs_update (logs_initial "edge-1") (LogsArrive (Some two_streams))).

Section sample.
#[local] Existing Instance plain_styling.
#[local] Existing Instance plain_dates.
Abbreviation page := (logs_page (fun k => k) "edge-1").

Definition all_levels : logs_state := fst (logs_update loaded_logs (LogsLevel "all")).

Lemma all_levels_fires : fires (logs_view (fun k => k) loaded_logs) (LogsLevel "all").
Proof.
  eexists. split; [rewrite logs_view_events; right; right; left; reflexivity|].
  exists "all". split; [left; reflexivity|reflexivity].
Qed.

Lemma all_levels_reachable : page_reachable page all_levels.
Proof.
  apply (reach_step _ loaded_logs (LogsLevel "all")).
  - apply (reach_step _ (logs_initial "edge-1") (LogsArrive (Some two_streams))); [by constructor|].
    by apply (step_extern page (logs_initial "edge-1") (LogsArrive (Some two_streams))).
  - exact (step_user page loaded_logs (LogsLevel "all") all_levels_fires).
Qed.

(** Choosing the item labelled All Levels sends the level [all]. *)
Lemma logs_page_request_witness :
  exists p ms, logs_params 7200000 all_levels = Some p /\ In ("1h", ms) time_ranges /\
    exists rq, requests_of (getDeviceLogs (env:=silent_env) "t" "edge-1" p) tt = [rq] /\
      query_of (rq_url rq) =
        (if truthy (toISOString (7200000 - ms)) then [("start", toISOString (7200000 - ms))] else [])
        ++ [("limit", "200")] ++ [("level", "all")] ++ [].
Proof.
  exact (logs_page_request (env:=silent_env) (fun k => k) "edge-1" 7200000 "t" all_levels tt
    all_levels_reachable eq_refl eq_refl).
Defined.

Lemma level_filter_never_cleared_witness :
  let error := fst (logs_update loaded_logs (LogsLevel "ERROR")) in
  lg_level error <> "" /\ lg_level (fst (logs_update error (LogsLevel "all"))) <> "".
Proof.
  split; [discriminate|].
  refine (level_filter_never_cleared (fun k => k) "edge-1"
    (fst (logs_update loaded_logs (LogsLevel "ERROR")))
    (fst (logs_update (fst (logs_update loaded_logs (LogsLevel "ERROR"))) (LogsLevel "all"))) _ _).
  - apply (user_step page _ (LogsLevel "all")); [|apply user_refl].
    eexists. split; [cbn [page_view logs_page]; rewrite logs_view_events; right; right; left; reflexivity|].
    exists "all". split; [left; reflexivity|reflexivity].
  - discriminate.
Defined.
End sample.

Lemma download_roundtrip_witness :
  exists content, downloadLogs loaded_logs = [LogsSave content "text/plain" "edge-1-logs.txt"] /\
    split_char "010" content = ["t=1 level=WARN disk"; "t=2 level=ERROR cpu"; "plain"].
Proof.
  refine (download_roundtrip loaded_logs _ _); [|discriminate].
  repeat constructor.
Defined.
