(* ===== verification/ManifestEditor.v ===== *)
(** * Manifest editor: ui/app/(dashboard)/devices/[id]/manifest/page.tsx

    The Monaco editor keeps its own text: [me_shown] is what it displays, which
    starts as its [defaultValue] when the editor mounts and changes with the user's
    edits only. The editor is not mounted while the query is loading, that is, fetching
    without data. *)

From S2P Require Import Prelude JsString Vdom Json Components.

(** Truthiness of a parsed JSON value. *)
Definition json_truthy (j : json) : bool :=
  match j with
  | JNull => false
  | JBool b => b
  | JNum n => negb (n =? 0)
  | JStr s => truthy s
  | JArr _ | JObj _ => true
  end.

Definition initialYaml (manifest : option json) : string :=
  match manifest with
  | Some (JStr s) => s
  | Some j => if json_truthy j then stringify_2 j else ""
  | None => ""
  end.

Record editor_state := {
  me_id : string;
  me_manifest : option json;
  me_isLoading : bool;
  me_editorValue : option string;
  (** [mutation.isPending], with the text being saved *)
  me_saving : option string;
  (** the text in the mounted editor *)
  me_shown : option string;
  me_dark : bool
}.

(** The query of a page that has no session yet is idle, not loading. *)
Definition editor_initial (id : string) (dark loading : bool) : editor_state := {|
  me_id := id; me_manifest := None; me_isLoading := loading; me_editorValue := None;
  me_saving := None; me_shown := if loading then None else Some (initialYaml None); me_dark := dark |}.

Definition currentValue (s : editor_state) : string :=
  me_editorValue s ?? initialYaml (me_manifest s).

Definition hasChanges (s : editor_state) : bool :=
  match me_editorValue s with
  | Some v => negb (String.eqb v (initialYaml (me_manifest s)))
  | None => false
  end.

Inductive editor_action :=
| EditorBack
| SaveClick
| EditorChange (value : option string)
| EditorKey (key : string) (ctrlKey metaKey : bool)
(* not from the user *)
| ManifestStarts
| ManifestFails
| ManifestArrives (j : json)
| SaveSucceeds
| SaveFails (message : string).

Inductive editor_effect :=
| EditorPush (url : string)
| PreventKey
| PutManifest (text : string)
| EditorToast (m : string)
| EditorToastError (m : string)
| InvalidateManifest.

Definition set_editor (value saving shown : option string) (s : editor_state) : editor_state :=
  {| me_id := me_id s; me_manifest := me_manifest s; me_isLoading := me_isLoading s;
     me_editorValue := value; me_saving := saving; me_shown := shown; me_dark := me_dark s |}.

Definition handleSave (s : editor_state) : editor_state * list editor_effect :=
  if truthy (currentValue s)
  then (set_editor (me_editorValue s) (Some (currentValue s)) (me_shown s) s,
        [PutManifest (currentValue s)])
  else (s, []).

Definition editor_update (s : editor_state) (a : editor_action) : editor_state * list editor_effect :=
  match a with
  | EditorBack => (s, [EditorPush ("/devices/" +++ me_id s)])
  | SaveClick => handleSave s
  | EditorChange value =>
      (set_editor (Some (value ?? "")) (me_saving s) (Some (value ?? "")) s, [])
  | EditorKey key ctrl meta =>
      if (ctrl || meta) && String.eqb key "s"
      then let '(s', es) := handleSave s in (s', PreventKey :: es)
      else (s, [])
  | ManifestStarts =>
      ({| me_id := me_id s; me_manifest := me_manifest s; me_isLoading := true;
          me_editorValue := me_editorValue s; me_saving := me_saving s;
          me_shown := None; me_dark := me_dark s |}, [])
  | ManifestFails =>
      ({| me_id := me_id s; me_manifest := me_manifest s; me_isLoading := false;
          me_editorValue := me_editorValue s; me_saving := me_saving s;
          me_shown := Some (me_shown s ?? initialYaml (me_manifest s)); me_dark := me_dark s |}, [])
  | ManifestArrives j =>
      ({| me_id := me_id s; me_manifest := Some j; me_isLoading := false;
          me_editorValue := me_editorValue s; me_saving := me_saving s;
          me_shown := Some (me_shown s ?? initialYaml (Some j)); me_dark := me_dark s |}, [])
  | SaveSucceeds =>
      (set_editor None None (me_shown s) s,
       [EditorToast "Manifest saved. Changes will be applied on next reconciliation.";
        InvalidateManifest])
  | SaveFails m =>
      (set_editor (me_editorValue s) None (me_shown s) s, [EditorToastError ("Failed to save: " +++ m)])
  end.

(** ** Rendering *)

Section view.
Context {styling : Styling}.

Definition editor_toolbar (s : editor_state) : node editor_action :=
  let pending := bool_decide (is_Some (me_saving s)) in
  Elt "div" [cls "flex items-center justify-between"]
    [Elt "div" [cls "flex items-center gap-4"]
       [Elt "Button" [AStr "variant" "ghost"; AStr "size" "icon"; AOn "onClick" EditorBack]
          [icon "ArrowLeft" "h-4 w-4"];
        PageHeader "Manifest Editor" (Some (me_id s +++ " | Ctrl+S to save")) [] None];
     Elt "Button" [AOn "onClick" SaveClick; ABool "disabled" (negb (hasChanges s) || pending)]
       [icon "Save" "mr-2 h-4 w-4"; Txt (if pending then "Saving..." else "Save Manifest")]].

Definition editor_body (s : editor_state) : node editor_action :=
  Elt "Card" []
    [Elt "CardContent" [cls "p-0"]
       [if me_isLoading s then Elt "Skeleton" [cls "h-[500px] w-full"] []
        else
          Elt "Editor"
            [AStr "height" "500px"; AStr "defaultLanguage" "yaml";
             AStr "defaultValue" (initialYaml (me_manifest s));
             AOnStr "onChange" (fun v => EditorChange (Some v));
             AStr "theme" (if me_dark s then "vs-dark" else "vs");
             ABool "minimap" false; ANum "fontSize" 13; AStr "lineNumbers" "on";
             ABool "scrollBeyondLastLine" false; AStr "wordWrap" "on"; ANum "tabSize" 2] []]].

Definition editor_view (s : editor_state) : node editor_action :=
  Elt "div" [cls "space-y-4"] [editor_toolbar s; editor_body s].

(** Key presses reach the window at any time. A fetch may fail; one that begins before
    any manifest was loaded (the session arrives, a failed query is fetched again) makes
    the query loading. *)
Definition editor_extern (s : editor_state) (a : editor_action) : Prop :=
  match a with
  | ManifestArrives _ | ManifestFails | EditorKey _ _ _ => True
  | ManifestStarts => me_manifest s = None
  | SaveSucceeds | SaveFails _ => is_Some (me_saving s)
  | EditorChange None => me_isLoading s = false
  | _ => False
  end.

Definition editor_page (id : string) (dark : bool) : page editor_state editor_action editor_effect := {|
  page_init := fun s => exists loading, s = editor_initial id dark loading;
  page_view := editor_view;
  page_update := editor_update;
  page_extern := editor_extern
|}.

(** The same page where no fetch starts over text already typed. *)
Definition calm_page (id : string) (dark : bool) : page editor_state editor_action editor_effect := {|
  page_init := page_init (editor_page id dark);
  page_view := editor_view;
  page_update := editor_update;
  page_extern := fun s a => editor_extern s a /\ (a = ManifestStarts -> me_editorValue s = None)
|}.

Lemma editor_fires s a :
  fires (editor_view s) a ->
  match a with
  | EditorBack => True
  | SaveClick => hasChanges s = true /\ me_saving s = None
  | EditorChange _ => me_isLoading s = false
  | _ => False
  end.
Proof.
  intros (e & Hin & Hem). unfold editor_view, editor_toolbar, editor_body, PageHeader in Hin.
  cbv zeta in Hin.
  destruct (truthy _), (hasChanges s), (bool_decide (is_Some (me_saving s))) eqn:Es, (me_isLoading s);
    cbn in Hin; repeat destruct Hin as [<-|Hin]; cbn [emits] in Hem; try done;
    match type of Hem with ex _ => destruct Hem as [? ->] | _ => subst a end; try done;
    (split; [done|]); apply bool_decide_eq_false in Es; by apply eq_None_not_Some.
Qed.
Lemma change_fires s v : me_isLoading s = false -> fires (editor_view s) (EditorChange (Some v)).
Proof.
  intros Hl. exists (EvStr (fun v => EditorChange (Some v))). split; [|by exists v].
  unfold editor_view, editor_toolbar, editor_body, PageHeader. cbv zeta.
  rewrite Hl. destruct (truthy _), (hasChanges s), (bool_decide _); cbn; tauto.
Qed.
End view.

(** ** Properties *)

Section facts.
Context {styling : Styling} (id : string) (dark : bool).
Abbreviation page := (editor_page id dark).

(** What the page holds as edited is what the editor shows. *)
Lemma edits_are_shown s :
  page_reachable (calm_page id dark) s -> forall v, me_editorValue s = Some v -> me_shown s = Some v.
Proof.
  revert s. apply (page_invariant (calm_page id dark) (fun s => forall v, me_editorValue s = Some v -> me_shown s = Some v)).
  - intros s [loading ->]. done.
  - intros s a IH Ha v. destruct a; cbn [page_update calm_page editor_update]; cbn; auto.
    + unfold handleSave. destruct (truthy _); cbn; auto.
    + destruct (_ && _); [|auto]. unfold handleSave. destruct (truthy _); cbn; auto.
    + intros H. destruct Ha as [Hf|[_ Hs]]; [by apply editor_fires in Hf|].
      rewrite (Hs eq_refl) in H. done.
    + intros H. by rewrite (IH v H).
    + intros H. by rewrite (IH v H).
    + done.
Qed.

(** C26. While no fetch starts over text already typed, the save button is offered only when
    the editor shows a text other than the loaded manifest; a click sends exactly that
    text, unless it is empty, when the click sends nothing and changes nothing. *)
Theorem save_sends_what_is_shown s s' es :
  page_reachable (calm_page id dark) s -> fires (editor_view s) SaveClick ->
  editor_update s SaveClick = (s', es) ->
  exists v, me_shown s = Some v /\ me_editorValue s = Some v /\ v <> initialYaml (me_manifest s) /\
    (v <> "" -> es = [PutManifest v] /\ me_saving s' = Some v) /\
    (v = "" -> es = [] /\ s' = s).
Proof.
  intros Hr Hf He. apply editor_fires in Hf as [Hc _]. unfold hasChanges in Hc.
  pose proof (edits_are_shown s Hr) as Hinv.
  destruct (me_editorValue s) as [v|] eqn:Ev; [|done]. exists v. bool_to_prop.
  split_and!; [by apply Hinv|done|done|..].
  all: intros Hv; cbn [editor_update] in He; unfold handleSave, currentValue in He; rewrite Ev in He; cbn in He.
  - rewrite (proj2 (truthy_true v) Hv) in He. by injection He as <- <-.
  - subst v. by injection He as <- <-.
Qed.

(** Text typed before a fetch without data starts disappears from the editor, which then
    shows the manifest that arrives; the save button is enabled and sends the text
    that is no longer shown. *)
Theorem typed_text_is_hidden v j :
  v <> "" -> v <> initialYaml (Some j) ->
  let s0 := editor_initial id dark false in
  let s1 := fst (editor_update s0 (EditorChange (Some v))) in
  let s2 := fst (editor_update s1 ManifestStarts) in
  let s3 := fst (editor_update s2 (ManifestArrives j)) in
  page_reachable page s3 /\ me_shown s3 = Some (initialYaml (Some j)) /\
  fires (editor_view s3) SaveClick /\ snd (editor_update s3 SaveClick) = [PutManifest v].
Proof.
  intros Hv Hj s0 s1 s2 s3. split_and!.
  - apply (reach_step _ s2 (ManifestArrives j)); [|by apply (step_extern page s2 (ManifestArrives j))].
    apply (reach_step _ s1 ManifestStarts); [|by apply (step_extern page s1 ManifestStarts)].
    apply (reach_step _ s0 (EditorChange (Some v))); [constructor; by exists false|].
    apply (step_user page s0 (EditorChange (Some v))). by apply change_fires.
  - done.
  - exists (EvUnit SaveClick). split; [|done].
    assert (hasChanges s3 = true) as Hc.
    { cbn. by apply negb_true_iff, String.eqb_neq. }
    unfold editor_view, editor_toolbar, editor_body, PageHeader. cbv zeta. rewrite Hc.
    destruct (truthy _); cbn; tauto.
  - cbn [editor_update]. unfold handleSave. change (currentValue s3) with v.
    by rewrite (proj2 (truthy_true v) Hv).
Qed.

(** Text typed while a save is in flight stays in the editor but is no longer counted
    as a change once the save succeeds. *)
Theorem edit_during_save_is_dropped s v v' j :
  page_reachable page s -> me_isLoading s = false -> me_saving s = Some v ->
  let s1 := fst (editor_update s (EditorChange (Some v'))) in
  let s2 := fst (editor_update s1 SaveSucceeds) in
  let s3 := fst (editor_update s2 (ManifestArrives j)) in
  page_reachable page s3 /\ me_shown s3 = Some v' /\ hasChanges s3 = false /\
  currentValue s3 = initialYaml (Some j).
Proof.
  intros Hr Hl Hv s1 s2 s3. split_and!; try reflexivity.
  apply (reach_step _ s2 (ManifestArrives j)); [|by apply (step_extern page s2 (ManifestArrives j))].
  apply (reach_step _ s1 SaveSucceeds); [|apply (step_extern page s1 SaveSucceeds); by exists v].
  apply (reach_step _ s (EditorChange (Some v'))); [done|].
  apply (step_user page s (EditorChange (Some v'))). by apply change_fires.
Qed.
End facts.

(** ** Witnesses *)

Section sample.
#[local] Existing Instance plain_styling.
Abbreviation page := (editor_page "edge-1" false).

Definition editing : editor_state :=
  fst (editor_update (fst (editor_update (editor_initial "edge-1" false true) (ManifestArrives (JStr "a: 1"))))
         (EditorChange (Some "a: 2"))).
Definition saving : editor_state := fst (editor_update editing SaveClick).

Lemma editing_reachable : page_reachable page editing.
Proof.
  apply (reach_step _ (fst (editor_update (editor_initial "edge-1" false true) (ManifestArrives (JStr "a: 1"))))
    (EditorChange (Some "a: 2"))).
  - apply (reach_step _ (editor_initial "edge-1" false true) (ManifestArrives (JStr "a: 1"))); [constructor; by exists true|].
    by apply (step_extern page (editor_initial "edge-1" false true) (ManifestArrives (JStr "a: 1"))).
  - apply (step_user page _ (EditorChange (Some "a: 2"))). by apply change_fires.
Qed.

Lemma save_fires : fires (editor_view editing) SaveClick.
Proof. exists (EvUnit SaveClick). split; [vm_compute; tauto|done]. Qed.

Lemma saving_reachable : page_reachable page saving.
Proof.
  apply (reach_step _ editing SaveClick _ editing_reachable).
  exact (step_user page editing SaveClick save_fires).
Qed.

Lemma editing_calm : page_reachable (calm_page "edge-1" false) editing.
Proof.
  apply (reach_step _ (fst (editor_update (editor_initial "edge-1" false true) (ManifestArrives (JStr "a: 1"))))
    (EditorChange (Some "a: 2"))).
  - apply (reach_step _ (editor_initial "edge-1" false true) (ManifestArrives (JStr "a: 1")));
      [constructor; by exists true|].
    by apply (step_extern (calm_page "edge-1" false) (editor_initial "edge-1" false true) (ManifestArrives (JStr "a: 1"))).
  - apply (step_user (calm_page "edge-1" false) _ (EditorChange (Some "a: 2"))). by apply change_fires.
Qed.

Lemma save_sends_what_is_shown_witness :
  exists v, me_shown editing = Some v /\ me_editorValue editing = Some v /\
    v <> initialYaml (me_manifest editing) /\
    (v <> "" -> [PutManifest "a: 2"] = [PutManifest v] /\ me_saving saving = Some v) /\
    (v = "" -> [PutManifest "a: 2"] = [] /\ saving = editing).
Proof.
  exact (save_sends_what_is_shown "edge-1" false editing saving [PutManifest "a: 2"]
    editing_calm save_fires eq_refl).
Defined.

Lemma typed_text_is_hidden_witness :
  let s0 := editor_initial "edge-1" false false in
  let s1 := fst (editor_update s0 (EditorChange (Some "b: 1"))) in
  let s2 := fst (editor_update s1 ManifestStarts) in
  let s3 := fst (editor_update s2 (ManifestArrives (JStr "a: 1"))) in
  page_reachable page s3 /\ me_shown s3 = Some "a: 1" /\
  fires (editor_view s3) SaveClick /\ snd (editor_update s3 SaveClick) = [PutManifest "b: 1"].
Proof. refine (typed_text_is_hidden "edge-1" false "b: 1" (JStr "a: 1") _ _); discriminate. Defined.

Lemma edit_during_save_is_dropped_witness :
  let s1 := fst (editor_update saving (EditorChange (Some "a: 3"))) in
  let s2 := fst (editor_update s1 SaveSucceeds) in
  let s3 := fst (editor_update s2 (ManifestArrives (JStr "a: 2"))) in
  page_reachable page s3 /\ me_shown s3 = Some "a: 3" /\ hasChanges s3 = false /\
  currentValue s3 = "a: 2".
Proof.
  exact (edit_during_save_is_dropped "edge-1" false saving "a: 2" "a: 3" (JStr "a: 2")
    saving_reachable eq_refl eq_refl).
Defined.
End sample.
