(* ===== verification/DeviceDetail.v ===== *)
(** * Device detail: ui/app/(dashboard)/devices/[id]/page.tsx

    The state of the page, its derived values and its handlers. Rendering is in
    [DeviceDetailView]. *)

From S2P Require Import Prelude JsString JsNumber JsArray Vdom UrlCodec Json Endpoints ApiClient Api PollingHistory Components Charts DeviceLogs ManifestEditor.

(** ** Formatting *)

(** [sizes[i]] in a template literal; out of range it is [undefined]. *)
Definition size_unit (i : Z) : string :=
  if i <? 0 then "undefined" else ["B"; "KB"; "MB"; "GB"; "TB"] !! Z.to_nat i ?? "undefined".

(** [Math.floor(Math.log(bytes) / Math.log(1024))] is the exact integer
    logarithm for the byte counts below [2^49]; above, the host's [Math.log]
    may round up to the next power. *)
Definition size_index (bytes : Z) : Z := Z.log2 bytes / 10.

Definition formatBytes (bytes : Z) : string :=
  if bytes =? 0 then "0 B"
  else if bytes <? 0 then "NaN undefined"
  else
    let i := size_index bytes in
    to_fixed 1 (num_div (num_of_Z bytes) (num_of_Z (1024 ^ i))) +++ " " +++ size_unit i.

(** [Math.floor(a / b)] and [%] on non-negative integers. *)
Definition formatUptime (seconds : Z) : string :=
  let days := seconds / 86400 in
  let hours := (seconds mod 86400) / 3600 in
  if 0 <? days then number_to_string days +++ "d " +++ number_to_string hours +++ "h"
  else
    let minutes := (seconds mod 3600) / 60 in
    number_to_string hours +++ "h " +++ number_to_string minutes +++ "m".

Definition DETAIL_LEVEL_COLORS : list (string * string) :=
  [("ERROR", "text-red-600 dark:text-red-400"); ("WARN", "text-yellow-600 dark:text-yellow-400");
   ("INFO", "text-blue-600 dark:text-blue-400"); ("DEBUG", "text-gray-500")].

Definition canOpenShell (role : option string) : bool :=
  existsb (String.eqb (toLowerCase (role ?? ""))) ["operator"; "admin"; "owner"].

(** [(used / total) * 100] *)
Definition usage_percent (used total : Z) : number :=
  num_mul (num_div (num_of_Z used) (num_of_Z total)) (num_of_Z 100).

(** ** Time ranges *)

Definition TIME_RANGE_MS : list (string * Z) :=
  [("15m", 15 * 60 * 1000); ("1h", 60 * 60 * 1000); ("6h", 6 * 60 * 60 * 1000);
   ("24h", 24 * 60 * 60 * 1000); ("7d", 7 * 24 * 60 * 60 * 1000);
   ("30d", 30 * 24 * 60 * 60 * 1000)].

(** [None]: the date is invalid and [toISOString] throws. *)
Definition rangeStartIso {dates : Dates} (now : Z) (range : string) : option string :=
  match obj_get TIME_RANGE_MS range with
  | Own ms => Some (toISOString (now - ms))
  | Inherited => None
  | Undefined => Some (toISOString (now - 60 * 60 * 1000))
  end.

(** [TIME_RANGE_MS[range] > TIME_RANGE_MS["6h"]]; [undefined] compares false. *)
Definition telemetryBucket (range : string) : TelemetryBucket :=
  match obj_get TIME_RANGE_MS range with
  | Own ms => if 6 * 60 * 60 * 1000 <? ms then bucket_hourly else bucket_raw
  | _ => bucket_raw
  end.

Definition chart_data (p : TelemetryDataPoint) : chart_point :=
  {| ch_time := tp_time p;
     ch_cpu := tp_cpuUsagePercent p ?? num_of_Z 0;
     ch_memory := if tp_memoryTotalBytes p =? 0 then num_of_Z 0
                  else usage_percent (tp_memoryUsedBytes p) (tp_memoryTotalBytes p) |}.

(** ** Labels as a JavaScript object

    The entries of an object list the keys that are array indices first, in
    ascending order, and the others in the order of their insertion. *)

Definition array_index (k : string) : option Z :=
  match js_Number k with
  | Some z => if (0 <=? z) && (z <? 2 ^ 32 - 1) && String.eqb (number_to_string z) k
              then Some z else None
  | None => None
  end.

Fixpoint index_insert (z : Z) (kv : string * string) (o : list (string * string))
    : list (string * string) :=
  match o with
  | [] => [kv]
  | kv' :: o' =>
      match array_index (fst kv') with
      | Some z' => if z' <? z then kv' :: index_insert z kv o' else kv :: kv' :: o'
      | None => kv :: kv' :: o'
      end
  end.

(** [{ ...o, [k]: v }] *)
Definition obj_put (k v : string) (o : list (string * string)) : list (string * string) :=
  match assoc k o with
  | Some _ => obj_set k v o
  | None => match array_index k with
            | Some z => index_insert z (k, v) o
            | None => o ++ [(k, v)]
            end
  end.

(** [delete next[k]] on a copy *)
Definition obj_delete (k : string) (o : list (string * string)) : list (string * string) :=
  List.filter (fun kv => negb (String.eqb k (fst kv))) o.

(** ** State *)

#[global] Instance spec_float_eq_dec : EqDecision SpecFloat.spec_float.
Proof. solve_decision. Defined.
#[global] Instance DeviceStatus_eq_dec : EqDecision DeviceStatus.
Proof. unfold EqDecision. change number with SpecFloat.spec_float. solve_decision. Defined.
#[global] Instance Device_eq_dec : EqDecision Device.
Proof. solve_decision. Defined.

(** Query results; [isLoading] is false for a query that is not enabled. *)
Record detail_queries := {
  dq_device : option Device;
  dq_isLoading : bool;
  dq_logs : option log_response;
  dq_logsLoading : bool;
  dq_telemetry : list TelemetryDataPoint;
  dq_manifest : option json;
  dq_manifestLoading : bool
}.

(** The label editor. *)
Record label_editor := {
  le_editing : bool;
  le_key : string;
  le_value : string;
  le_local : list (string * string);
  le_saving : bool
}.

(** The selections of the other panels. *)
Record detail_ranges := {
  dr_logSearch : string;
  dr_logLevel : string;
  dr_logTimeRange : string;
  dr_telemetryRange : string
}.

(** The manifest tab. [mp_tab] is the selected tab, which [Tabs] keeps itself,
    and [mp_shown] the text of the mounted editor: [TabsContent] mounts its
    children only while its tab is selected, and a mounted Monaco editor keeps
    its own text, which starts as [defaultValue]. *)
Record manifest_panel := {
  mp_tab : string;
  mp_editorValue : option string;
  mp_shown : option string;
  mp_saving : bool
}.

Record detail_state := {
  dd_token : string;
  dd_id : string;
  dd_role : option string;
  dd_q : detail_queries;
  dd_labels : label_editor;
  dd_ranges : detail_ranges;
  dd_panel : manifest_panel;
  dd_deleteOpen : bool;
  dd_deleting : bool;
  dd_history : history
}.

Definition detail_enabled (token id : string) : bool := truthy token && truthy id.

Definition detail_initial (token id : string) (role : option string) : detail_state :=
  let l := detail_enabled token id in {|
  dd_token := token; dd_id := id; dd_role := role;
  dd_q := {| dq_device := None; dq_isLoading := l; dq_logs := None; dq_logsLoading := l;
             dq_telemetry := []; dq_manifest := None; dq_manifestLoading := l |};
  dd_labels := {| le_editing := false; le_key := ""; le_value := ""; le_local := [];
                  le_saving := false |};
  dd_ranges := {| dr_logSearch := ""; dr_logLevel := ""; dr_logTimeRange := "1h";
                  dr_telemetryRange := "1h" |};
  dd_panel := {| mp_tab := "overview"; mp_editorValue := None; mp_shown := None; mp_saving := false |};
  dd_deleteOpen := false; dd_deleting := false; dd_history := new_history |}.

Definition with_q (q : detail_queries) (s : detail_state) : detail_state :=
  {| dd_token := dd_token s; dd_id := dd_id s; dd_role := dd_role s; dd_q := q;
     dd_labels := dd_labels s; dd_ranges := dd_ranges s; dd_panel := dd_panel s;
     dd_deleteOpen := dd_deleteOpen s; dd_deleting := dd_deleting s; dd_history := dd_history s |}.
Definition with_labels (l : label_editor) (s : detail_state) : detail_state :=
  {| dd_token := dd_token s; dd_id := dd_id s; dd_role := dd_role s; dd_q := dd_q s;
     dd_labels := l; dd_ranges := dd_ranges s; dd_panel := dd_panel s;
     dd_deleteOpen := dd_deleteOpen s; dd_deleting := dd_deleting s; dd_history := dd_history s |}.
Definition with_ranges (r : detail_ranges) (s : detail_state) : detail_state :=
  {| dd_token := dd_token s; dd_id := dd_id s; dd_role := dd_role s; dd_q := dd_q s;
     dd_labels := dd_labels s; dd_ranges := r; dd_panel := dd_panel s;
     dd_deleteOpen := dd_deleteOpen s; dd_deleting := dd_deleting s; dd_history := dd_history s |}.
Definition with_panel (tab : string) (v shown : option string) (saving : bool) (s : detail_state)
    : detail_state :=
  {| dd_token := dd_token s; dd_id := dd_id s; dd_role := dd_role s; dd_q := dd_q s;
     dd_labels := dd_labels s; dd_ranges := dd_ranges s;
     dd_panel := {| mp_tab := tab; mp_editorValue := v; mp_shown := shown; mp_saving := saving |};
     dd_deleteOpen := dd_deleteOpen s; dd_deleting := dd_deleting s; dd_history := dd_history s |}.
Definition with_delete (open deleting : bool) (s : detail_state) : detail_state :=
  {| dd_token := dd_token s; dd_id := dd_id s; dd_role := dd_role s; dd_q := dd_q s;
     dd_labels := dd_labels s; dd_ranges := dd_ranges s; dd_panel := dd_panel s;
     dd_deleteOpen := open; dd_deleting := deleting; dd_history := dd_history s |}.
Definition with_history (h : history) (s : detail_state) : detail_state :=
  {| dd_token := dd_token s; dd_id := dd_id s; dd_role := dd_role s; dd_q := dd_q s;
     dd_labels := dd_labels s; dd_ranges := dd_ranges s; dd_panel := dd_panel s;
     dd_deleteOpen := dd_deleteOpen s; dd_deleting := dd_deleting s; dd_history := h |}.

Definition set_label_editor (editing : bool) (k v : string) (l : list (string * string)) (saving : bool)
    (s : detail_state) : detail_state :=
  with_labels {| le_editing := editing; le_key := k; le_value := v; le_local := l; le_saving := saving |} s.

(** A log filter is part of the query key: the page has no data for a new key
    until it arrives. *)
Definition set_log_query (search level range : string) (s : detail_state) : detail_state :=
  let q := dd_q s in
  with_q {| dq_device := dq_device q; dq_isLoading := dq_isLoading q; dq_logs := None;
            dq_logsLoading := detail_enabled (dd_token s) (dd_id s);
            dq_telemetry := dq_telemetry q; dq_manifest := dq_manifest q;
            dq_manifestLoading := dq_manifestLoading q |}
    (with_ranges {| dr_logSearch := search; dr_logLevel := level; dr_logTimeRange := range;
                    dr_telemetryRange := dr_telemetryRange (dd_ranges s) |} s).

Definition set_telemetry (range : string) (points : list TelemetryDataPoint) (s : detail_state)
    : detail_state :=
  let q := dd_q s in
  let r := dd_ranges s in
  with_q {| dq_device := dq_device q; dq_isLoading := dq_isLoading q; dq_logs := dq_logs q;
            dq_logsLoading := dq_logsLoading q; dq_telemetry := points; dq_manifest := dq_manifest q;
            dq_manifestLoading := dq_manifestLoading q |}
    (with_ranges {| dr_logSearch := dr_logSearch r; dr_logLevel := dr_logLevel r;
                    dr_logTimeRange := dr_logTimeRange r; dr_telemetryRange := range |} s).

Definition set_manifest (j : option json) (s : detail_state) : detail_state :=
  let q := dd_q s in
  with_q {| dq_device := dq_device q; dq_isLoading := dq_isLoading q; dq_logs := dq_logs q;
            dq_logsLoading := dq_logsLoading q; dq_telemetry := dq_telemetry q; dq_manifest := j;
            dq_manifestLoading := false |} s.

(** ** Derived values *)

Definition detail_manifest (s : detail_state) : option json := dq_manifest (dd_q s).
Definition detail_currentValue (s : detail_state) : string :=
  mp_editorValue (dd_panel s) ?? initialYaml (detail_manifest s).
Definition hasManifestChanges (s : detail_state) : bool :=
  match mp_editorValue (dd_panel s) with
  | Some v => negb (String.eqb v (initialYaml (detail_manifest s)))
  | None => false
  end.

Definition resourceChartData (s : detail_state) : list chart_point :=
  map chart_data (dq_telemetry (dd_q s)).

Definition device_labels (s : detail_state) : list (string * string) :=
  match dq_device (dd_q s) with Some d => labels d ?? [] | None => [] end.

(** [total ? Math.round((used / total) * 100) : 0] *)
Definition rounded_percent (used total : Z) : string :=
  if total =? 0 then "0" else integral_to_string (math_round (usage_percent used total)).

Definition memPercent (st : option DeviceStatus) : string :=
  match st with Some st => rounded_percent (memoryUsedBytes st) (memoryTotalBytes st) | None => "0" end.
Definition diskPercent (st : option DeviceStatus) : string :=
  match st with Some st => rounded_percent (diskUsedBytes st) (diskTotalBytes st) | None => "0" end.

(** The effect on [[device, history]]. *)
Definition record_samples (s : detail_state) : detail_state :=
  match dq_device (dd_q s) ≫= dev_status with
  | Some st =>
      let h := push MAX_POINTS "cpu" (cpuUsagePercent st) (dd_history s) in
      let memPct := if memoryTotalBytes st =? 0 then None
                    else Some (usage_percent (memoryUsedBytes st) (memoryTotalBytes st)) in
      with_history (push MAX_POINTS "memory" memPct h) s
  | None => s
  end.

(** The parameters of the log query. *)
Definition detail_log_params {dates : Dates} (now : Z) (s : detail_state) : option LogParams :=
  let r := dd_ranges s in
  match rangeStartIso now (dr_logTimeRange r) with
  | Some start =>
      Some {| lp_start := Some start; lp_end := None; lp_limit := Some 200;
              lp_level := or_none (dr_logLevel r); lp_search := or_none (dr_logSearch r) |}
  | None => None
  end.

Definition fetch_telemetry {S} {env : Environment S} {dates : Dates} (now : Z) (s : detail_state)
    : option (io S (option json)) :=
  let range := dr_telemetryRange (dd_ranges s) in
  match rangeStartIso now range with
  | Some start =>
      Some (getDeviceTelemetry (dd_token s) (dd_id s) start (toISOString now)
              (Some (telemetryBucket range)))
  | None => None
  end.

(** [refetchInterval] of the telemetry query, in milliseconds. *)
Definition telemetry_interval (range : string) : Z :=
  match telemetryBucket range with bucket_raw => 30000 | bucket_hourly => 5 * 60000 end.

(** ** Handlers *)

Inductive detail_action :=
| GoDevices
| GoTerminal
| EditLabels
| AskDeleteDevice
| DeleteOpenChange (open : bool)
| ConfirmDeleteDevice
| LabelKey (v : string)
| LabelValue (v : string)
| AddLabel
| RemoveLabel (k : string)
| SaveLabels
| CancelLabels
| PickTelemetry (v : string)
| PickLogSearch (v : string)
| PickLogLevel (v : string)
| PickLogRange (v : string)
| SaveManifest
| ManifestChange (v : option string)
(* not from handlers of the page *)
| SelectTab (v : string)
| DetailKey (key : string) (ctrlKey metaKey : bool)
| SampleEffect
| DeviceArrives (d : Device)
| DeviceFails
| DetailLogsArrive (r : option log_response)
| TelemetryArrives (l : list TelemetryDataPoint)
| DetailManifestArrives (j : option json)
| DeleteSettled (r : result string unit)
| LabelsSettled (r : result string unit)
| ManifestSettled (r : result string unit).

Inductive detail_effect :=
| DetailPush (url : string)
| DetailPrevent
| MutateDeleteDevice
| MutateLabels (l : list (string * string))
| MutateManifest (text : string)
| DetailToast (m : string)
| DetailToastError (m : string)
| InvalidateDevice
| InvalidateDeviceManifest.

(** A poll. Equal data keeps its identity in the cache, so that neither the
    page nor the effect on [[device]] sees a change; other data resets the
    local labels. *)
Definition device_arrives (d : Device) (s : detail_state) : detail_state :=
  if decide (dq_device (dd_q s) = Some d) then s
  else
    let q := dd_q s in
    let l := dd_labels s in
    set_label_editor (le_editing l) (le_key l) (le_value l) (labels d ?? []) (le_saving l)
      (with_q {| dq_device := Some d; dq_isLoading := false; dq_logs := dq_logs q;
                 dq_logsLoading := dq_logsLoading q; dq_telemetry := dq_telemetry q;
                 dq_manifest := dq_manifest q; dq_manifestLoading := dq_manifestLoading q |} s).

Definition device_fails (s : detail_state) : detail_state :=
  let q := dd_q s in
  with_q {| dq_device := dq_device q; dq_isLoading := false; dq_logs := dq_logs q;
            dq_logsLoading := dq_logsLoading q; dq_telemetry := dq_telemetry q;
            dq_manifest := dq_manifest q; dq_manifestLoading := dq_manifestLoading q |} s.

Definition saveManifest (s : detail_state) : detail_state * list detail_effect :=
  let p := dd_panel s in
  (with_panel (mp_tab p) (mp_editorValue p) (mp_shown p) true s, [MutateManifest (detail_currentValue s)]).

(** The text of the editor after a render: it is mounted while the manifest tab
    is selected and the device and the manifest are loaded. *)
Definition remount (s : detail_state) : detail_state :=
  let p := dd_panel s in
  let q := dd_q s in
  let mounted := String.eqb (mp_tab p) "manifest" && negb (dq_manifestLoading q)
                 && negb (dq_isLoading q) && bool_decide (is_Some (dq_device q)) in
  with_panel (mp_tab p) (mp_editorValue p)
    (if mounted then Some (mp_shown p ?? initialYaml (detail_manifest s)) else None)
    (mp_saving p) s.

Definition detail_step (s : detail_state) (a : detail_action) : detail_state * list detail_effect :=
  let q := dd_q s in
  let l := dd_labels s in
  let r := dd_ranges s in
  let p := dd_panel s in
  match a with
  | GoDevices => (s, [DetailPush "/devices"])
  | GoTerminal => (s, [DetailPush ("/devices/" +++ dd_id s +++ "/terminal")])
  | EditLabels => (set_label_editor true (le_key l) (le_value l) (le_local l) (le_saving l) s, [])
  | AskDeleteDevice => (with_delete true (dd_deleting s) s, [])
  | DeleteOpenChange b => (with_delete b (dd_deleting s) s, [])
  | ConfirmDeleteDevice => (with_delete (dd_deleteOpen s) true s, [MutateDeleteDevice])
  | LabelKey v => (set_label_editor (le_editing l) v (le_value l) (le_local l) (le_saving l) s, [])
  | LabelValue v => (set_label_editor (le_editing l) (le_key l) v (le_local l) (le_saving l) s, [])
  | AddLabel =>
      (set_label_editor (le_editing l) "" "" (obj_put (le_key l) (le_value l) (le_local l)) (le_saving l) s, [])
  | RemoveLabel k =>
      (set_label_editor (le_editing l) (le_key l) (le_value l) (obj_delete k (le_local l)) (le_saving l) s, [])
  | SaveLabels =>
      (set_label_editor (le_editing l) (le_key l) (le_value l) (le_local l) true s,
       [MutateLabels (le_local l)])
  | CancelLabels =>
      (set_label_editor false (le_key l) (le_value l) (device_labels s) (le_saving l) s, [])
  | PickTelemetry v =>
      (if String.eqb v (dr_telemetryRange r) then s else set_telemetry v [] s, [])
  | PickLogSearch v =>
      (if String.eqb v (dr_logSearch r) then s
       else set_log_query v (dr_logLevel r) (dr_logTimeRange r) s, [])
  | PickLogLevel v =>
      (if String.eqb v (dr_logLevel r) then s
       else set_log_query (dr_logSearch r) v (dr_logTimeRange r) s, [])
  | PickLogRange v =>
      (if String.eqb v (dr_logTimeRange r) then s
       else set_log_query (dr_logSearch r) (dr_logLevel r) v s, [])
  | SaveManifest => saveManifest s
  | ManifestChange v =>
      (with_panel (mp_tab p) (Some (v ?? "")) (Some (v ?? "")) (mp_saving p) s, [])
  | SelectTab v => (with_panel v (mp_editorValue p) (mp_shown p) (mp_saving p) s, [])
  | DetailKey key ctrl meta =>
      if (ctrl || meta) && String.eqb key "s" then
        if hasManifestChanges s && truthy (detail_currentValue s)
        then let '(s', es) := saveManifest s in (s', DetailPrevent :: es)
        else (s, [DetailPrevent])
      else (s, [])
  | SampleEffect => (record_samples s, [])
  | DeviceArrives d => (device_arrives d s, [])
  | DeviceFails => (device_fails s, [])
  | DetailLogsArrive resp =>
      (with_q {| dq_device := dq_device q; dq_isLoading := dq_isLoading q; dq_logs := resp;
                 dq_logsLoading := false; dq_telemetry := dq_telemetry q; dq_manifest := dq_manifest q;
                 dq_manifestLoading := dq_manifestLoading q |} s, [])
  | TelemetryArrives t => (set_telemetry (dr_telemetryRange r) t s, [])
  | DetailManifestArrives j => (set_manifest j s, [])
  | DeleteSettled (Ok _) =>
      (with_delete (dd_deleteOpen s) false s, [DetailToast "Device deleted"; DetailPush "/devices"])
  | DeleteSettled (Throw m) => (with_delete (dd_deleteOpen s) false s, [DetailToastError m])
  | LabelsSettled (Ok _) =>
      (set_label_editor false (le_key l) (le_value l) (le_local l) false s,
       [DetailToast "Labels updated"; InvalidateDevice])
  | LabelsSettled (Throw m) =>
      (set_label_editor (le_editing l) (le_key l) (le_value l) (le_local l) false s, [DetailToastError m])
  | ManifestSettled (Ok _) =>
      (with_panel (mp_tab p) None (mp_shown p) false s,
       [DetailToast "Manifest saved"; InvalidateDeviceManifest])
  | ManifestSettled (Throw m) =>
      (with_panel (mp_tab p) (mp_editorValue p) (mp_shown p) false s, [DetailToastError m])
  end.

Definition detail_update (s : detail_state) (a : detail_action) : detail_state * list detail_effect :=
  let '(s', es) := detail_step s a in (remount s', es).
