(* ===== verification/DeviceDetailView.v ===== *)
(** * Rendering of the device page: ui/app/(dashboard)/devices/[id]/page.tsx *)

From S2P Require Import Prelude JsString JsNumber JsArray Vdom Json Api PollingHistory Components Charts DeviceLogs ManifestEditor DeviceDetail.

Section view.
Context {styling : Styling} {dates : Dates} (inherited : string -> string).

Abbreviation act := detail_action.

Definition ago (t : string) : string := formatDistanceToNow t.

(** [t ? ... : ...] on an optional time *)
Definition when_seen (t : option string) (some : string -> string) (none : string) : string :=
  match t with Some t => if truthy t then some t else none | None => none end.

Definition uptime_text (st : option DeviceStatus) : string :=
  match st with
  | Some st => if uptimeSeconds st =? 0 then "--" else formatUptime (uptimeSeconds st)
  | None => "--"
  end.

Definition usage_text (used total : DeviceStatus -> Z) (st : option DeviceStatus) : string :=
  match st with
  | Some st => formatBytes (used st) +++ " / " +++ formatBytes (total st)
  | None => "--"
  end.

Definition detail_head (s : detail_state) (device : Device) : node act :=
  Elt "div" [cls "flex items-center gap-4"]
    [Elt "Button" [AStr "variant" "ghost"; AStr "size" "icon"; AOn "onClick" GoDevices]
       [icon "ArrowLeft" "h-4 w-4"];
     Elt "div" [cls "flex-1"]
       [Elt "div" [cls "flex items-center gap-3"]
          [Elt "h1" [cls "text-2xl font-bold"]
             [Txt (if truthy (hostname device) then hostname device else deviceId device)];
           StateBadge (dev_state device) None];
        Elt "p" [cls "font-mono text-sm text-muted-foreground"] [Txt (deviceId device)]];
     when (canOpenShell (dd_role s))
       (Elt "Button" [AStr "variant" "outline"; AOn "onClick" GoTerminal]
          [icon "SquareTerminal" "mr-2 h-4 w-4"; Txt "Terminal"]);
     Elt "DropdownMenu" []
       [Elt "DropdownMenuTrigger" [ABool "asChild" true]
          [Elt "Button" [AStr "variant" "outline"; AStr "size" "icon"] [icon "MoreVertical" "h-4 w-4"]];
        Elt "DropdownMenuContent" [AStr "align" "end"]
          [Elt "DropdownMenuItem" [AOn "onClick" EditLabels]
             [icon "Tag" "mr-2 h-4 w-4"; Txt "Edit Labels"];
           Elt "DropdownMenuSeparator" [] [];
           Elt "DropdownMenuItem" [cls "text-destructive"; AOn "onClick" AskDeleteDevice]
             [icon "Trash2" "mr-2 h-4 w-4"; Txt "Delete Device"]]]].

(** The chart draws [get key history]; its points are not part of the tree. *)
Definition sparkline (color : string) : node act := Elt "Sparkline" [AStr "color" color] [].

Definition cpu_text (st : option DeviceStatus) : string :=
  match st ≫= cpuUsagePercent with Some v => to_fixed 1 v | None => "--" end +++ "%".

Definition metric_cards (device : Device) : node act :=
  let st := dev_status device in
  Elt "div" [cls "grid gap-4 sm:grid-cols-2 lg:grid-cols-4"]
    [MetricCard "CPU Usage" (cpu_text st) (Some "Current utilization") "Cpu" (Some "text-blue-500")
       None (Some (sparkline "#3b82f6")) None None;
     MetricCard "Memory" (memPercent st +++ "%") (Some (usage_text memoryUsedBytes memoryTotalBytes st))
       "MemoryStick" (Some "text-purple-500") None (Some (sparkline "#a855f7")) None None;
     MetricCard "Disk" (diskPercent st +++ "%") (Some (usage_text diskUsedBytes diskTotalBytes st))
       "HardDrive" (Some "text-orange-500") None None None None;
     MetricCard "Uptime" (uptime_text st)
       (Some (when_seen (lastHeartbeat device) (fun t => "Last seen " +++ ago t) "Never seen"))
       "Clock" (Some "text-green-500") None None None None].

Definition resource_card (s : detail_state) : node act :=
  let range := dr_telemetryRange (dd_ranges s) in
  Elt "Card" []
    [Elt "CardHeader" [cls "flex flex-row items-center justify-between"]
       [Elt "CardTitle" [] [Txt "Resource Usage"];
        Elt "Select" [AStr "value" range; AOnStr "onValueChange" PickTelemetry]
          [Elt "SelectTrigger" [cls "h-8 w-32"] [Elt "SelectValue" [] []];
           Elt "SelectContent" []
             [choice "15m" "Last 15 min"; choice "1h" "Last 1 hour"; choice "6h" "Last 6 hours";
              choice "24h" "Last 24 hours"; choice "7d" "Last 7 days"; choice "30d" "Last 30 days"]]];
     Elt "CardContent" []
       [if 0 <? zlength (resourceChartData s) then
          Elt "DeviceResourceChart"
            [AProp "data" (DArr (map point_row (resourceChartData s)));
             AStr "axisFormat" (match telemetryBucket range with
                                | bucket_hourly => "day" | bucket_raw => "hour" end)] []
        else
          Elt "div" [cls "flex h-[260px] items-center justify-center text-sm text-muted-foreground"]
            [Txt "No telemetry in selected range"]]].

Definition info_row (term : string) (value : node act) : node act :=
  Frag [Elt "dt" [cls "text-muted-foreground"] [Txt term]; value].

Definition info_card (device : Device) : node act :=
  let mono l := Elt "dd" [cls "font-mono"] l in
  let badge t := Elt "dd" [] [Elt "Badge" [AStr "variant" "outline"] [Txt t]] in
  Elt "Card" []
    [Elt "CardHeader" [] [Elt "CardTitle" [] [Txt "Device Information"]];
     Elt "CardContent" []
       [Elt "dl" [cls "grid grid-cols-2 gap-x-4 gap-y-3 text-sm"]
          [info_row "OS / Arch" (mono [Txt (os device); Txt "/"; Txt (architecture device)]);
           info_row "Agent Version" (mono [Txt (agentVersion device)]);
           info_row "Uptime" (Elt "dd" [] [Txt (uptime_text (dev_status device))]);
           info_row "Last Heartbeat"
             (Elt "dd" [] [Txt (when_seen (lastHeartbeat device) ago "Never")]);
           info_row "Registered" (Elt "dd" [] [Txt (ago (registeredAt device))]);
           info_row "Reconcile Status"
             (badge (match dev_status device with
                     | Some st => reconcileStatus st | None => "unknown" end));
           info_row "Auto-update"
             (badge (match autoUpdate device with Some true => "on" | _ => "off" end))]]].

(** ** The label editor *)

Definition edited_label (kv : string * string) : node act :=
  Elt "Badge" [AStr "key" (fst kv); AStr "variant" "outline"; cls "gap-1 font-mono text-xs"]
    [Txt (fst kv); Txt "="; Txt (snd kv);
     Elt "button" [AOn "onClick" (RemoveLabel (fst kv))] [icon "X" "h-3 w-3"]].

Definition shown_label (kv : string * string) : node act :=
  Elt "Badge" [AStr "key" (fst kv); AStr "variant" "outline"; cls "font-mono text-xs"]
    [Txt (fst kv); Txt "="; Txt (snd kv)].

Definition label_inputs (l : label_editor) : node act :=
  Elt "div" [cls "flex gap-2"]
    [Elt "Input" [AStr "placeholder" "key"; AStr "value" (le_key l); AOnStr "onChange" LabelKey;
                  cls "w-32"] [];
     Elt "Input" [AStr "placeholder" "value"; AStr "value" (le_value l);
                  AOnStr "onChange" LabelValue; cls "w-32"] [];
     Elt "Button" [AStr "variant" "outline"; AStr "size" "sm";
                   ABool "disabled" (negb (truthy (le_key l))); AOn "onClick" AddLabel]
       [icon "Plus" "h-3 w-3"]].

Definition label_buttons (l : label_editor) : node act :=
  Elt "div" [cls "flex gap-2"]
    [Elt "Button" [AStr "size" "sm"; AOn "onClick" SaveLabels; ABool "disabled" (le_saving l)]
       [Txt (if le_saving l then "Saving..." else "Save Labels")];
     Elt "Button" [AStr "variant" "outline"; AStr "size" "sm"; AOn "onClick" CancelLabels]
       [Txt "Cancel"]].

Definition labels_card (s : detail_state) (device : Device) : node act :=
  let l := dd_labels s in
  Elt "Card" []
    [Elt "CardHeader" [cls "flex flex-row items-center justify-between"]
       [Elt "CardTitle" [] [Txt "Labels"];
        when (negb (le_editing l))
          (Elt "Button" [AStr "variant" "outline"; AStr "size" "sm"; AOn "onClick" EditLabels]
             [icon "Tag" "mr-2 h-3 w-3"; Txt "Edit"])];
     Elt "CardContent" []
       [if le_editing l then
          Elt "div" [cls "space-y-3"]
            [Elt "div" [cls "flex flex-wrap gap-2"] [Frag (map edited_label (le_local l))];
             label_inputs l; label_buttons l]
        else if 0 <? zlength (labels device ?? []) then
          Elt "div" [cls "flex flex-wrap gap-2"] [Frag (map shown_label (labels device ?? []))]
        else
          Elt "p" [cls "text-sm text-muted-foreground"] [Txt "No labels assigned to this device."]]].

Definition overview_tab (s : detail_state) (device : Device) : node act :=
  Elt "TabsContent" [AStr "value" "overview"; cls "space-y-4"]
    [Elt "div" [cls "grid gap-4 lg:grid-cols-2"] [resource_card s; info_card device];
     labels_card s device].

(** ** The other tabs *)

Definition detail_line_color (line : string) : string :=
  let lineLevel := match_level line ?? "" in
  match obj_get DETAIL_LEVEL_COLORS lineLevel with
  | Own c => c
  | Inherited => inherited lineLevel
  | Undefined => "text-foreground"
  end.

Definition detail_log_row (entry : log_line) : node act :=
  Elt "div" [cls (detail_line_color (ll_line entry) +++ " hover:bg-muted rounded px-1")]
    [Txt (ll_line entry)].

Definition log_filters (s : detail_state) : node act :=
  let r := dd_ranges s in
  Elt "div" [cls "flex flex-wrap items-center gap-2"]
    [Elt "div" [cls "relative w-64"]
       [icon "Search" "absolute left-3 top-1/2 h-4 w-4 -translate-y-1/2 text-muted-foreground";
        Elt "Input" [AStr "placeholder" "Search logs..."; AStr "value" (dr_logSearch r);
                     AOnStr "onChange" PickLogSearch; cls "pl-9"] []];
     Elt "Select" [AStr "value" (dr_logLevel r); AOnStr "onValueChange" PickLogLevel]
       [Elt "SelectTrigger" [cls "w-32"] [Elt "SelectValue" [AStr "placeholder" "All Levels"] []];
        Elt "SelectContent" []
          [choice "all" "All Levels"; choice "ERROR" "ERROR"; choice "WARN" "WARN";
           choice "INFO" "INFO"; choice "DEBUG" "DEBUG"]];
     Elt "Select" [AStr "value" (dr_logTimeRange r); AOnStr "onValueChange" PickLogRange]
       [Elt "SelectTrigger" [cls "w-28"] [Elt "SelectValue" [] []];
        Elt "SelectContent" []
          [choice "15m" "15 min"; choice "1h" "1 hour"; choice "6h" "6 hours";
           choice "24h" "24 hours"; choice "7d" "7 days"]];
     Elt "Badge" [AStr "variant" "secondary"]
       [Txt (number_to_string (zlength (logLines (dq_logs (dd_q s))))); Txt " lines"]].

Definition logs_tab (s : detail_state) : node act :=
  let lines := logLines (dq_logs (dd_q s)) in
  Elt "TabsContent" [AStr "value" "logs"; cls "space-y-4"]
    [log_filters s;
     Elt "Card" []
       [Elt "CardContent" [cls "p-0"]
          [if dq_logsLoading (dd_q s) then
             Elt "div" [cls "space-y-2 p-4"]
               [array_from 10 (fun i => Elt "Skeleton" [ANum "key" i; cls "h-5 w-full"] [])]
           else if zlength lines =? 0 then
             Elt "p" [cls "p-8 text-center text-sm text-muted-foreground"]
               [Txt "No log entries found."]
           else
             Elt "ScrollArea" [cls "h-[500px]"]
               [Elt "pre" [cls "p-4 text-xs font-mono leading-relaxed"]
                  [Frag (map detail_log_row lines)]]]]].

Definition manifest_tab (s : detail_state) : node act :=
  let saving := mp_saving (dd_panel s) in
  Elt "TabsContent" [AStr "value" "manifest"; cls "space-y-4"]
    [Elt "div" [cls "flex items-center justify-between"]
       [Elt "p" [cls "text-sm text-muted-foreground"]
          [Txt "Edit the YAML manifest for this device. Press Ctrl+S to save."];
        Elt "Button" [AOn "onClick" SaveManifest;
                      ABool "disabled" (negb (hasManifestChanges s) || saving)]
          [Txt (if saving then "Saving..." else "Save Manifest")]];
     Elt "Card" []
       [Elt "CardContent" [cls "p-0"]
          [if dq_manifestLoading (dd_q s) then Elt "Skeleton" [cls "h-[500px] w-full"] []
           else
             Elt "Editor"
               [AStr "height" "500px"; AStr "defaultLanguage" "yaml";
                AStr "defaultValue" (initialYaml (detail_manifest s));
                AOnStr "onChange" (fun v => ManifestChange (Some v)); AStr "theme" "vs-dark";
                ABool "minimap" false; ANum "fontSize" 13; AStr "lineNumbers" "on";
                ABool "scrollBeyondLastLine" false; AStr "wordWrap" "on"; ANum "tabSize" 2] []]]].

Definition ota_tab : node act :=
  Elt "TabsContent" [AStr "value" "ota"]
    [Elt "Card" []
       [Elt "CardContent" [cls "p-6"]
          [Elt "p" [cls "text-sm text-muted-foreground"]
             [Txt "OTA deployment history for this device will appear here once deployments target it."]]]].

Definition tab_trigger (v label : string) : node act :=
  Elt "TabsTrigger" [AStr "value" v] [Txt label].

(** Only the content of the selected tab is mounted. *)
Definition tabs (s : detail_state) (device : Device) : node act :=
  let tab := mp_tab (dd_panel s) in
  Elt "Tabs" [AStr "defaultValue" "overview"; cls "space-y-4"]
    [Elt "TabsList" []
       [tab_trigger "overview" "Overview"; tab_trigger "logs" "Logs";
        tab_trigger "manifest" "Manifest"; tab_trigger "ota" "OTA History"];
     when (String.eqb tab "overview") (overview_tab s device);
     when (String.eqb tab "logs") (logs_tab s);
     when (String.eqb tab "manifest") (manifest_tab s);
     when (String.eqb tab "ota") ota_tab].

Definition delete_device_dialog (s : detail_state) (device : Device) : node act :=
  ConfirmDialog (dd_deleteOpen s) DeleteOpenChange "Delete Device"
    ("Are you sure you want to delete " +++ hostname device +++ "? This action cannot be undone.")
    (Some "Delete") variant_destructive ConfirmDeleteDevice (dd_deleting s).

Definition detail_view (s : detail_state) : node act :=
  if dq_isLoading (dd_q s) then DeviceDetailSkeleton
  else match dq_device (dd_q s) with
       | None => DeviceDetailSkeleton
       | Some device =>
           Elt "div" [cls "space-y-6"]
             [detail_head s device; metric_cards device; tabs s device;
              delete_device_dialog s device]
       end.

(** Queries run when the session has a token, and parsed labels have distinct
    keys; the four tabs belong to [Tabs]; key presses reach the window at any
    time; mutations settle while pending. *)
Definition detail_extern (s : detail_state) (a : detail_action) : Prop :=
  let enabled := detail_enabled (dd_token s) (dd_id s) = true in
  match a with
  | SelectTab v => In v ["overview"; "logs"; "manifest"; "ota"]
  | DetailKey _ _ _ | SampleEffect => True
  | DeviceArrives d => enabled /\ List.NoDup (map fst (labels d ?? []))
  | DeviceFails | DetailLogsArrive _ | TelemetryArrives _ | DetailManifestArrives _ => enabled
  | DeleteSettled _ => dd_deleting s = true
  | LabelsSettled _ => le_saving (dd_labels s) = true
  | ManifestSettled _ => mp_saving (dd_panel s) = true
  | ManifestChange None => is_Some (mp_shown (dd_panel s))
  | _ => False
  end.

Definition detail_page (token id : string) (role : option string)
    : page detail_state detail_action detail_effect := {|
  page_init := fun s => s = detail_initial token id role;
  page_view := detail_view;
  page_update := detail_update;
  page_extern := detail_extern
|}.
End view.
