(* ===== verification/DeviceDetailFacts.v ===== *)
(** * Properties of the device page *)

From S2P Require Import Prelude JsString JsNumber JsArray Vdom UrlCodec Json Endpoints ApiClient Api ApiFacts PollingHistory Components Charts DeviceLogs ManifestEditor DeviceDetail DeviceDetailView Terminal.

(** ** The handlers of the page *)

Section handlers.
Context {styling : Styling} {dates : Dates} (inherited : string -> string).
Abbreviation act := detail_action.

Lemma detail_head_events s d :
  events true (detail_head s d) =
  EvUnit GoDevices :: (if canOpenShell (dd_role s) then [EvUnit GoTerminal] else [])
  ++ [EvUnit EditLabels; EvUnit AskDeleteDevice].
Proof.
  unfold detail_head. destruct (canOpenShell _); events_simpl; by rewrite StateBadge_events.
Qed.

Lemma metric_cards_events d : events true (metric_cards d) = [].
Proof.
  unfold metric_cards. cbv zeta. events_simpl.
  rewrite !MetricCard_events; try done; by intros n [= <-].
Qed.

Definition label_events (l : label_editor) : list (ui_event act) :=
  if le_editing l then
    map (fun kv => EvUnit (RemoveLabel (fst kv))) (le_local l)
    ++ [EvStr LabelKey; EvStr LabelValue]
    ++ (if truthy (le_key l) then [EvUnit AddLabel] else [])
    ++ (if le_saving l then [] else [EvUnit SaveLabels]) ++ [EvUnit CancelLabels]
  else [EvUnit EditLabels].

Lemma labels_card_events s d : events true (labels_card s d) = label_events (dd_labels s).
Proof.
  unfold labels_card, label_events, label_inputs, label_buttons. cbv zeta.
  destruct (le_editing (dd_labels s)).
  - destruct (truthy _), (le_saving _); events_simpl;
      rewrite concat_map_map, (concat_map_singleton _ (fun kv => EvUnit (RemoveLabel (fst kv)))) by done;
      by rewrite <- ?app_assoc, ?app_nil_r.
  - destruct (0 <? _); [|reflexivity]. events_simpl. rewrite concat_map_map.
    by rewrite concat_map_nil.
Qed.

Definition telemetry_ranges : list string := ["15m"; "1h"; "6h"; "24h"; "7d"; "30d"].
Definition log_levels : list string := ["all"; "ERROR"; "WARN"; "INFO"; "DEBUG"].
Definition log_ranges : list string := ["15m"; "1h"; "6h"; "24h"; "7d"].

Lemma overview_tab_events s d :
  events true (overview_tab s d) =
  EvChoice PickTelemetry telemetry_ranges :: label_events (dd_labels s).
Proof.
  rewrite <- (labels_card_events s d). unfold overview_tab. generalize (labels_card s d) as n. intros n.
  unfold resource_card. cbv zeta. destruct (0 <? _); events_simpl; by rewrite ?app_nil_r.
Qed.

Lemma logs_tab_events s :
  events true (logs_tab inherited s) =
  [EvStr PickLogSearch; EvChoice PickLogLevel log_levels; EvChoice PickLogRange log_ranges].
Proof.
  unfold logs_tab. cbv zeta. destruct (dq_logsLoading _); [reflexivity|].
  destruct (_ =? 0); [reflexivity|]. events_simpl. rewrite concat_map_map. by rewrite concat_map_nil.
Qed.

Lemma manifest_tab_events s :
  events true (manifest_tab s) =
  (if hasManifestChanges s && negb (mp_saving (dd_panel s)) then [EvUnit SaveManifest] else [])
  ++ (if dq_manifestLoading (dd_q s) then [] else [EvStr (fun v => ManifestChange (Some v))]).
Proof.
  unfold manifest_tab. cbv zeta.
  by destruct (hasManifestChanges s), (mp_saving _), (dq_manifestLoading _).
Qed.

Definition tab_events (s : detail_state) : list (ui_event act) :=
  let tab := mp_tab (dd_panel s) in
  (if String.eqb tab "overview" then
     EvChoice PickTelemetry telemetry_ranges :: label_events (dd_labels s) else [])
  ++ (if String.eqb tab "logs" then
        [EvStr PickLogSearch; EvChoice PickLogLevel log_levels; EvChoice PickLogRange log_ranges]
      else [])
  ++ (if String.eqb tab "manifest" then
        (if hasManifestChanges s && negb (mp_saving (dd_panel s)) then [EvUnit SaveManifest] else [])
        ++ (if dq_manifestLoading (dd_q s) then [] else [EvStr (fun v => ManifestChange (Some v))])
      else []).

Lemma tabs_events s d : events true (tabs inherited s d) = tab_events s.
Proof.
  unfold tab_events. cbv zeta.
  rewrite <- (overview_tab_events s d), <- (logs_tab_events s), <- (manifest_tab_events s).
  rewrite <- (events_when true _ (overview_tab s d)), <- (events_when true _ (logs_tab inherited s)),
    <- (events_when true _ (manifest_tab s)).
  unfold tabs. cbv zeta.
  generalize (when (String.eqb (mp_tab (dd_panel s)) "overview") (overview_tab s d)) as n1,
    (when (String.eqb (mp_tab (dd_panel s)) "logs") (logs_tab inherited s)) as n2,
    (when (String.eqb (mp_tab (dd_panel s)) "manifest") (manifest_tab s)) as n3.
  intros n1 n2 n3. unfold tab_trigger, ota_tab.
  destruct (String.eqb (mp_tab (dd_panel s)) "ota"); events_simpl; by rewrite ?app_nil_r.
Qed.

Lemma detail_view_events s :
  events true (detail_view inherited s) =
  if dq_isLoading (dd_q s) then [] else
  match dq_device (dd_q s) with
  | None => []
  | Some d =>
      (EvUnit GoDevices :: (if canOpenShell (dd_role s) then [EvUnit GoTerminal] else [])
       ++ [EvUnit EditLabels; EvUnit AskDeleteDevice])
      ++ tab_events s
      ++ (if dd_deleteOpen s then [EvUnit (DeleteOpenChange false)] else [])
         ++ (if dd_deleteOpen s && negb (dd_deleting s) then [EvUnit ConfirmDeleteDevice] else [])
  end.
Proof.
  unfold detail_view. destruct (dq_isLoading _); [reflexivity|].
  destruct (dq_device (dd_q s)) as [d|]; [|reflexivity].
  rewrite <- (detail_head_events s d), <- (tabs_events s d).
  rewrite <- (ConfirmDialog_events (dd_deleteOpen s) DeleteOpenChange "Delete Device"
    ("Are you sure you want to delete " +++ hostname d +++ "? This action cannot be undone.")
    (Some "Delete") variant_destructive ConfirmDeleteDevice (dd_deleting s)).
  cbn [events own_events has_attr existsb attr_is concat map app own_event dialog_moves
    content_tag dialog_tag String.eqb Ascii.eqb Bool.eqb orb andb negb cls].
  rewrite metric_cards_events, app_nil_r. unfold delete_device_dialog. by rewrite app_nil_l.
Qed.

(** When each handler can fire. *)
Definition detail_guard (s : detail_state) (a : act) : Prop :=
  let tab v := mp_tab (dd_panel s) = v in
  let l := dd_labels s in
  let editing := tab "overview" /\ le_editing l = true in
  match a with
  | GoDevices | EditLabels | AskDeleteDevice => True
  | DeleteOpenChange b => dd_deleteOpen s = true /\ b = false
  | GoTerminal => canOpenShell (dd_role s) = true
  | ConfirmDeleteDevice => dd_deleteOpen s = true /\ dd_deleting s = false
  | LabelKey _ | LabelValue _ | CancelLabels => editing
  | AddLabel => editing /\ le_key l <> ""
  | RemoveLabel k => editing /\ In k (map fst (le_local l))
  | SaveLabels => editing /\ le_saving l = false
  | PickTelemetry v => tab "overview" /\ In v telemetry_ranges
  | PickLogSearch _ => tab "logs"
  | PickLogLevel v => tab "logs" /\ In v log_levels
  | PickLogRange v => tab "logs" /\ In v log_ranges
  | SaveManifest => tab "manifest" /\ hasManifestChanges s = true /\ mp_saving (dd_panel s) = false
  | ManifestChange v => tab "manifest" /\ dq_manifestLoading (dd_q s) = false /\ is_Some v
  | _ => False
  end.

Lemma label_events_emit s a :
  mp_tab (dd_panel s) = "overview" ->
  emitted (label_events (dd_labels s)) a <->
  match a with
  | EditLabels => le_editing (dd_labels s) = false
  | LabelKey _ | LabelValue _ | CancelLabels | AddLabel | RemoveLabel _ | SaveLabels => detail_guard s a
  | _ => False
  end.
Proof.
  intros Htab. unfold label_events. destruct (le_editing (dd_labels s)) eqn:E.
  - rewrite !emitted_app, !emitted_cons, emitted_if, emitted_unless, emitted_nil.
    rewrite (emitted_rows (fun kv : string * string => RemoveLabel (fst kv))).
    cbn [emits]. rewrite truthy_true.
    destruct a; cbn [detail_guard]; rewrite ?E, ?Htab, ?in_map_iff; emits_solve.
  - rewrite emitted_cons, emitted_nil. cbn [emits].
    destruct a; cbn [detail_guard]; rewrite ?E; emits_solve.
Qed.

Lemma tab_events_emit s a :
  emitted (tab_events s) a <->
  match a with
  | EditLabels => mp_tab (dd_panel s) = "overview" /\ le_editing (dd_labels s) = false
  | GoDevices | AskDeleteDevice | DeleteOpenChange _ | GoTerminal | ConfirmDeleteDevice => False
  | _ => detail_guard s a
  end.
Proof.
  unfold tab_events. cbv zeta. rewrite !emitted_app.
  destruct (String.eqb_spec (mp_tab (dd_panel s)) "overview") as [E|E];
    [|destruct (String.eqb_spec (mp_tab (dd_panel s)) "logs") as [E'|E'];
      [|destruct (String.eqb_spec (mp_tab (dd_panel s)) "manifest") as [E''|E'']]].
  - rewrite E. cbn [String.eqb Ascii.eqb Bool.eqb andb].
    rewrite emitted_cons, (label_events_emit s a E), !emitted_nil. cbn [emits].
    destruct a; cbn [detail_guard]; rewrite ?E; emits_solve.
  - rewrite E'. cbn [String.eqb Ascii.eqb Bool.eqb andb].
    rewrite !emitted_cons, !emitted_nil. cbn [emits].
    destruct a; cbn [detail_guard]; rewrite ?E'; emits_solve.
  - rewrite E''. cbn [String.eqb Ascii.eqb Bool.eqb andb].
    rewrite emitted_app, emitted_if, emitted_unless, !emitted_nil, andb_true_iff, negb_true_iff.
    cbn [emits]. destruct a; cbn [detail_guard]; rewrite ?E''; emits_solve.
  - rewrite !emitted_nil. destruct a; cbn [detail_guard]; emits_solve.
Qed.

Lemma detail_fires s a :
  fires (detail_view inherited s) a <->
  dq_isLoading (dd_q s) = false /\ is_Some (dq_device (dd_q s)) /\ detail_guard s a.
Proof.
  rewrite fires_emitted, detail_view_events.
  destruct (dq_isLoading (dd_q s)); [rewrite emitted_nil; by split; [|intros []]|].
  destruct (dq_device (dd_q s)) as [d|];
    [|rewrite emitted_nil; split; [done|by intros (_ & [] & _)]].
  rewrite !emitted_app, !emitted_cons, emitted_app, tab_events_emit, !emitted_if.
  rewrite !emitted_cons, !emitted_nil, andb_true_iff, negb_true_iff. cbn [emits].
  destruct a; cbn [detail_guard]; emits_solve.
Qed.

Lemma canOpenShell_allowed role : allowed role = canOpenShell role.
Proof.
  unfold allowed, canOpenShell, obj_get. generalize (toLowerCase (role ?? "")) as r. intros r.
  cbn [ROLE_RANK assoc existsb].
  destruct (String.eqb_spec r "viewer") as [->|]; [done|].
  destruct (String.eqb_spec r "operator") as [->|]; [done|].
  destruct (String.eqb_spec r "admin") as [->|]; [done|].
  destruct (String.eqb_spec r "owner") as [->|]; [done|].
  by destruct (existsb _ object_prototype_keys).
Qed.

(** C25. A loaded device page offers the terminal exactly to the roles the terminal page
    lets in: operator, admin and owner, in any case. *)
Theorem terminal_offered s :
  dq_isLoading (dd_q s) = false -> is_Some (dq_device (dd_q s)) ->
  (fires (detail_view inherited s) GoTerminal <-> allowed (dd_role s) = true) /\
  (allowed (dd_role s) = true <->
   In (toLowerCase (dd_role s ?? "")) ["operator"; "admin"; "owner"]).
Proof.
  intros Hl Hd. rewrite detail_fires, canOpenShell_allowed. cbn [detail_guard].
  split; [tauto|]. unfold canOpenShell. rewrite existsb_exists. split.
  - intros (x & Hx & E). apply String.eqb_eq in E as ->. exact Hx.
  - intros H. eexists. split; [exact H|apply String.eqb_refl].
Qed.
End handlers.

(** ** Labels *)

Definition label_map (l : list (string * string)) : gmap string string := list_to_map l.

Lemma assoc_None k (o : list (string * string)) : assoc k o = None <-> ~ In k (map fst o).
Proof.
  induction o as [|[k' v'] o IH]; cbn [assoc map fst]; [by split; [intros _ []|]|].
  destruct (String.eqb_spec k k') as [->|Hne]; [split; [done|intros H; destruct H; by left]|].
  rewrite IH. cbn [In]. split; [intros H [->|H']; auto|auto].
Qed.

Lemma obj_set_keys k v o : In k (map fst o) -> map fst (obj_set k v o) = map fst o.
Proof.
  induction o as [|[k' v'] o IH]; cbn [obj_set map fst]; [intros []|].
  destruct (String.eqb_spec k k') as [->|Hne]; [done|].
  intros [->|H]; [done|]. cbn [map fst]. by rewrite IH.
Qed.

Lemma label_map_obj_set k v o : label_map (obj_set k v o) = <[k := v]> (label_map o).
Proof.
  unfold label_map. induction o as [|[k' v'] o IH]; cbn [obj_set list_to_map foldr]; [done|].
  destruct (String.eqb_spec k k') as [->|Hne].
  - change (list_to_map ((k', v) :: o)) with (<[k' := v]> (list_to_map o : gmap string string)).
    change (list_to_map ((k', v') :: o)) with (<[k' := v']> (list_to_map o : gmap string string)).
    by rewrite insert_insert_eq.
  - change (list_to_map ((k', v') :: obj_set k v o))
      with (<[k' := v']> (list_to_map (obj_set k v o) : gmap string string)).
    change (list_to_map ((k', v') :: o)) with (<[k' := v']> (list_to_map o : gmap string string)).
    rewrite IH. by apply insert_insert_ne.
Qed.

Lemma index_insert_perm z kv o : Permutation (index_insert z kv o) (kv :: o).
Proof.
  induction o as [|kv' o IH]; cbn [index_insert]; [done|].
  destruct (array_index (fst kv')) as [z'|]; [|done]. destruct (z' <? z); [|done].
  rewrite IH. apply perm_swap.
Qed.

Lemma obj_put_fresh k v o : ~ In k (map fst o) -> Permutation (obj_put k v o) ((k, v) :: o).
Proof.
  intros H. unfold obj_put. rewrite (proj2 (assoc_None k o) H).
  destruct (array_index k); [apply index_insert_perm|]. symmetry. apply Permutation_cons_append.
Qed.

Lemma obj_put_nodup k v o :
  List.NoDup (map fst o) -> List.NoDup (map fst (obj_put k v o)).
Proof.
  intros Hnd. destruct (in_dec string_dec k (map fst o)) as [H|H].
  - unfold obj_put. destruct (assoc k o) eqn:E; [by rewrite obj_set_keys|].
    by apply assoc_None in E.
  - rewrite (obj_put_fresh k v o H). cbn [map fst]. by constructor.
Qed.

Lemma label_map_obj_put k v o :
  List.NoDup (map fst o) -> label_map (obj_put k v o) = <[k := v]> (label_map o).
Proof.
  intros Hnd. destruct (in_dec string_dec k (map fst o)) as [H|H].
  - unfold obj_put. destruct (assoc k o) eqn:E; [apply label_map_obj_set|].
    by apply assoc_None in E.
  - unfold label_map. rewrite <- list_to_map_cons. apply list_to_map_proper; [|by apply obj_put_fresh].
    apply NoDup_ListNoDup. by apply obj_put_nodup.
Qed.

Lemma obj_delete_nodup k o : List.NoDup (map fst o) -> List.NoDup (map fst (obj_delete k o)).
Proof.
  intros H. unfold obj_delete. induction o as [|[k' v'] o IH]; cbn [List.filter map fst negb] in *; [done|].
  inversion_clear H as [|? ? Hni Hnd]. destruct (negb (String.eqb k k')); [|by apply IH].
  cbn [map fst]. constructor; [|by apply IH]. intros Hin. apply Hni.
  apply in_map_iff in Hin as (kv & <- & Hf). apply in_map. by apply filter_In in Hf as [Hf _].
Qed.

Lemma label_map_obj_delete k o :
  List.NoDup (map fst o) -> label_map (obj_delete k o) = delete k (label_map o).
Proof.
  intros H. unfold obj_delete, label_map.
  induction o as [|[k' v'] o IH]; cbn [List.filter map fst negb list_to_map foldr] in *;
    [by rewrite delete_empty|].
  inversion_clear H as [|? ? Hni Hnd].
  change (list_to_map ((k', v') :: o)) with (<[k' := v']> (list_to_map o : gmap string string)).
  destruct (String.eqb_spec k k') as [->|Hne]; cbn [negb].
  - rewrite (IH Hnd), delete_insert_eq. done.
  - change (list_to_map ((k', v') :: List.filter (fun kv => negb (String.eqb k kv.1)) o))
      with (<[k' := v']> (list_to_map (List.filter (fun kv => negb (String.eqb k kv.1)) o) : gmap string string)).
    rewrite (IH Hnd). by rewrite delete_insert_ne.
Qed.

Inductive label_edit := PutLabel (k v : string) | DropLabel (k : string).

(** The clicks of an edit. *)
Definition edit_actions (e : label_edit) : list detail_action :=
  match e with
  | PutLabel k v => [LabelKey k; LabelValue v; AddLabel]
  | DropLabel k => [RemoveLabel k]
  end.
Definition detail_run (s : detail_state) (l : list detail_action) : detail_state :=
  fold_left (fun s a => fst (detail_update s a)) l s.

Lemma detail_update_fst s a : fst (detail_update s a) = remount (fst (detail_step s a)).
Proof. unfold detail_update. by destruct (detail_step s a). Qed.
Lemma detail_update_snd s a : snd (detail_update s a) = snd (detail_step s a).
Proof. unfold detail_update. by destruct (detail_step s a). Qed.

Definition local (s : detail_state) : list (string * string) := le_local (dd_labels s).

(** ** Reachable states *)

Section reachable.
Context {styling : Styling} {dates : Dates}.
Variables (inherited : string -> string) (token id : string) (role : option string).
Abbreviation page := (detail_page inherited token id role).

Record detail_inv (s : detail_state) : Prop := {
  inv_fixed : dd_token s = token /\ dd_id s = id /\ dd_role s = role;
  inv_keys : List.NoDup (map fst (local s)) /\ List.NoDup (map fst (device_labels s));
  inv_ranges : In (dr_telemetryRange (dd_ranges s)) telemetry_ranges /\
               In (dr_logTimeRange (dd_ranges s)) log_ranges;
  inv_shown : mp_shown (dd_panel s) = None \/
              mp_tab (dd_panel s) = "manifest" /\ dq_manifestLoading (dd_q s) = false
}.

(** What a step may assume: the guard of a click or the premise of an outside step. *)
Definition admissible (s : detail_state) (a : detail_action) : Prop :=
  detail_guard s a \/ detail_extern s a.

Lemma detail_inv_step s a : detail_inv s -> admissible s a -> detail_inv (remount (fst (detail_step s a))).
Proof.
  intros [Hf [Hk Hd] [Ht Hl] Hs] Ha.
  assert (Hshown : forall s', mp_shown (dd_panel (remount s')) = None \/
    mp_tab (dd_panel (remount s')) = "manifest" /\ dq_manifestLoading (dd_q (remount s')) = false).
  { intros s'. cbn. destruct (String.eqb_spec (mp_tab (dd_panel s')) "manifest") as [->|]; [|by left].
    destruct (dq_manifestLoading (dd_q s')); [by left|]. by right. }
  destruct a; cbn [detail_step fst snd]; unfold admissible in Ha; cbn [detail_guard detail_extern] in Ha;
    try (split; [done|by split|by split|apply Hshown]).
  - split; [done|split; [by apply obj_put_nodup|done]|by split|apply Hshown].
  - split; [done|split; [by apply obj_delete_nodup|done]|by split|apply Hshown].
  - destruct (String.eqb v _); (split; [done|by split| |apply Hshown]); [by split|].
    destruct Ha as [[_ Hv]|[]]. by split.
  - destruct (String.eqb v _); (split; [done|by split|by split|apply Hshown]).
  - destruct (String.eqb v _); (split; [done|by split|by split|apply Hshown]).
  - destruct (String.eqb v _); (split; [done|by split| |apply Hshown]); [by split|].
    destruct Ha as [[_ Hv]|[]]. by split.
  - destruct (_ && _); [destruct (_ && _)|]; (split; [done|by split|by split|apply Hshown]).
  - unfold record_samples. destruct (dq_device (dd_q s) ≫= dev_status); (split; [done|by split|by split|apply Hshown]).
  - destruct Ha as [[]|[_ Hn]]. unfold device_arrives. destruct (decide _); (split; [done| |by split|apply Hshown]);
      by split.
  - destruct r; (split; [done|by split|by split|apply Hshown]).
  - destruct r; (split; [done|by split|by split|apply Hshown]).
  - destruct r; (split; [done|by split|by split|apply Hshown]).
Qed.

Lemma detail_reachable_inv s : page_reachable page s -> detail_inv s.
Proof.
  revert s. apply page_invariant.
  - intros s H. change (s = detail_initial token id role) in H. subst s.
    split; [done|split; constructor|split; cbn; auto|by left].
  - intros s a Hi Ha. cbn [page_update detail_page]. rewrite detail_update_fst.
    apply detail_inv_step; [done|]. destruct Ha as [Ha|Ha]; [|by right].
    left. by apply (detail_fires inherited s a) in Ha as (_ & _ & Hg).
Qed.

(** The label editor on a finite map: the device loaded last, the two inputs, and the
    labels to save. *)
Record editor_spec := EditorSpec {
  es_device : option Device; es_key : string; es_value : string; es_map : gmap string string }.

Definition server_labels (d : option Device) : gmap string string :=
  label_map (match d with Some d => labels d ?? [] | None => [] end).

Definition editor_spec_step (m : editor_spec) (a : detail_action) : editor_spec :=
  let '(EditorSpec d k v labels) := m in
  match a with
  | LabelKey k' => EditorSpec d k' v labels
  | LabelValue v' => EditorSpec d k v' labels
  | AddLabel => EditorSpec d "" "" (<[k := v]> labels)
  | RemoveLabel x => EditorSpec d k v (delete x labels)
  | CancelLabels => EditorSpec d k v (server_labels d)
  | DeviceArrives d' =>
      if decide (d = Some d') then m else EditorSpec (Some d') k v (server_labels (Some d'))
  | _ => m
  end.

Definition implements (s : detail_state) (m : editor_spec) : Prop :=
  detail_inv s /\ dq_device (dd_q s) = es_device m /\
  le_key (dd_labels s) = es_key m /\ le_value (dd_labels s) = es_value m /\
  label_map (local s) = es_map m.

Lemma implements_step s m a :
  implements s m -> fires (detail_view inherited s) a \/ detail_extern s a ->
  implements (fst (detail_update s a)) (editor_spec_step m a).
Proof.
  intros (Hi & Hd & Hk & Hv & Hm) Ha. split.
  { rewrite detail_update_fst. apply detail_inv_step; [done|]. destruct Ha as [Ha|Ha]; [left|by right].
    by apply detail_fires in Ha as (_ & _ & ?). }
  clear Ha. destruct Hi as [_ [Hn _] _ _]. destruct m as [d k v l].
  cbn [es_device es_key es_value es_map] in *. subst d k v l. rewrite detail_update_fst.
  destruct a; cbn [detail_step editor_spec_step fst es_device es_key es_value es_map];
    try (split_and!; done).
  - split_and!; [done..|]. by apply label_map_obj_put.
  - split_and!; [done..|]. by apply label_map_obj_delete.
  - by destruct (String.eqb v _).
  - by destruct (String.eqb v _).
  - by destruct (String.eqb v _).
  - by destruct (String.eqb v _).
  - destruct (_ && _); [destruct (_ && _)|]; done.
  - unfold record_samples. by destruct (dq_device (dd_q s) ≫= dev_status).
  - unfold device_arrives. by destruct (decide _).
  - by destruct r.
  - by destruct r.
  - by destruct r.
Qed.

(** C24. After any run of the device page, with any clicks and any polls in between, saving
    the labels sends each key once and exactly the labels of a finite map on which the
    same steps were taken: a put inserts what was typed, a removal deletes, cancelling
    and a poll that changes the device replace the map by the server's labels (dropping
    the edits), and nothing else touches it; every label that can be removed is in it. *)
Theorem label_edits_saved actions s :
  page_run page (detail_initial token id role) actions s ->
  let m := fold_left editor_spec_step actions (EditorSpec None "" "" ∅) in
  exists l, snd (detail_update s SaveLabels) = [MutateLabels l] /\
    List.NoDup (map fst l) /\ label_map l = es_map m /\
    forall k, fires (detail_view inherited s) (RemoveLabel k) ->
      is_Some (es_map m !! k).
Proof.
  intros Hr m. destruct (run_relation page implements editor_spec_step implements_step _ _ _ Hr
    (EditorSpec None "" "" ∅)) as ([_ [Hn _] _ _] & _ & _ & _ & Hm); [by repeat constructor|].
  fold m in Hm. exists (local s). split_and!; [done..|]. intros k Hk.
  apply detail_fires in Hk as (_ & _ & _ & Hk). rewrite <- Hm.
  destruct (label_map (local s) !! k) as [v|] eqn:E; [eauto|].
  apply not_elem_of_list_to_map_2 in E. destruct E. by apply list_elem_of_In.
Qed.

(** When a poll brings anything new about the device, such as a heartbeat, the edits of
    the open label editor are lost: saving then sends the labels of the server. *)
Theorem poll_drops_label_edits s d d' edits :
  page_reachable page s -> detail_enabled token id = true ->
  dq_device (dd_q s) = Some d -> d' <> d -> labels d' = labels d ->
  let s1 := fold_left (fun s e => detail_run s (edit_actions e)) edits s in
  let s2 := fst (detail_update s1 (DeviceArrives d')) in
  detail_extern s1 (DeviceArrives d') /\
  le_editing (dd_labels s2) = le_editing (dd_labels s1) /\
  snd (detail_update s2 SaveLabels) = [MutateLabels (labels d ?? [])].
Proof.
  intros Hr He Hd Hne Hl s1 s2.
  assert (forall es s, dd_token (fold_left (fun s e => detail_run s (edit_actions e)) es s) = dd_token s /\
    dd_id (fold_left (fun s e => detail_run s (edit_actions e)) es s) = dd_id s /\
    dq_device (dd_q (fold_left (fun s e => detail_run s (edit_actions e)) es s)) = dq_device (dd_q s)) as Hkeep.
  { induction es as [|e es IH]; intros s0; [by split_and!|]. cbn [fold_left].
    destruct (IH (detail_run s0 (edit_actions e))) as (-> & -> & ->). by destruct e. }
  destruct (Hkeep edits s) as (Ht & Hi & Hdev). fold s1 in Ht, Hi, Hdev.
  apply detail_reachable_inv in Hr as [(Ht0 & Hi0 & _) [_ Hn] _ _].
  unfold device_labels in Hn. rewrite Hd in Hn. split.
  - cbn [detail_extern]. rewrite Ht, Hi, Ht0, Hi0, Hl. by split.
  - assert (s2 = remount (device_arrives d' s1)) as -> by reflexivity.
    unfold device_arrives. destruct (decide _) as [H|_]; [rewrite Hdev, Hd in H; congruence|].
    cbn. by rewrite Hl.
Qed.

(** After leaving the manifest tab with unsaved text and coming back, the editor shows
    the loaded manifest while the save button is enabled and sends the unsaved text. *)
Theorem draft_survives_hidden s v :
  page_reachable page s -> fires (detail_view inherited s) (ManifestChange (Some v)) ->
  v <> initialYaml (detail_manifest s) -> mp_saving (dd_panel s) = false ->
  let s1 := fst (detail_update s (ManifestChange (Some v))) in
  let s2 := fst (detail_update s1 (SelectTab "overview")) in
  let s3 := fst (detail_update s2 (SelectTab "manifest")) in
  page_reachable page s3 /\
  mp_shown (dd_panel s3) = Some (initialYaml (detail_manifest s)) /\
  fires (detail_view inherited s3) SaveManifest /\
  snd (detail_update s3 SaveManifest) = [MutateManifest v].
Proof.
  intros Hr Hf Hv Hs s1 s2 s3.
  pose proof (proj1 (detail_fires inherited s _) Hf) as (Hl & Hd & Htab & Hm & _).
  assert (page_reachable page s3) as Hr3.
  { apply (reach_step _ s2 (SelectTab "manifest")).
    2: { apply (step_extern page s2 (SelectTab "manifest")). cbn. auto. }
    apply (reach_step _ s1 (SelectTab "overview")).
    2: { apply (step_extern page s1 (SelectTab "overview")). cbn. auto. }
    apply (reach_step _ s (ManifestChange (Some v))); [done|].
    by apply (step_user page s (ManifestChange (Some v))). }
  split; [exact Hr3|]. split_and!.
  - cbn. rewrite Hm, Hl. by rewrite bool_decide_eq_true_2.
  - apply detail_fires. cbn. split_and!; try done. by apply negb_true_iff, String.eqb_neq.
  - reflexivity.
Qed.

(** The window of a range, in milliseconds. *)
Definition window (range : string) : Z := default 0 (assoc range TIME_RANGE_MS).

Lemma window_spec range now :
  In range telemetry_ranges ->
  rangeStartIso now range = Some (toISOString (now - window range)) /\
  (telemetryBucket range = if 6 * 60 * 60 * 1000 <? window range then bucket_hourly else bucket_raw).
Proof. intros H. cbn in H. repeat destruct H as [<-|H]; try done; by split. Qed.

(** The chart of the device page asks for the chosen window up to now, hourly averages
    when the window is longer than six hours and raw points otherwise. *)
Theorem telemetry_request {S} {env : Environment S} now s st :
  page_reachable page s ->
  has_char "?" API_BASE_URL = false -> has_char "?" id = false ->
  let range := dr_telemetryRange (dd_ranges s) in
  In range telemetry_ranges /\
  exists call rq, fetch_telemetry now s = Some call /\ requests_of call st = [rq] /\
    rq_method rq = "GET" /\
    startsWith (rq_url rq)
      (API_BASE_URL +++ endpoint_path (if 6 * 60 * 60 * 1000 <? window range
                                       then devices_telemetryHourly id else devices_telemetry id)
       +++ "?") = true /\
    query_of (rq_url rq) = [("start", toISOString (now - window range)); ("end", toISOString now)].
Proof.
  intros Hr Hb Hid range. apply detail_reachable_inv in Hr as [(_ & Hi & _) _ [Ht _] _].
  split; [exact Ht|]. fold range in Ht. destruct (window_spec range now Ht) as [Hw Hk].
  unfold fetch_telemetry. fold range. rewrite Hw, Hk, Hi.
  generalize (6 * 60 * 60 * 1000 <? window range) as hourly. intros hourly.
  eexists _, _. split; [reflexivity|]. unfold requests_of, getDeviceTelemetry. rewrite apiFetch_sent.
  split; [reflexivity|]. cbn [rq_method rawFetch_request with_token opt_method rq_url].
  split; [done|]. unfold absoluteUrl, startsWith. split.
  - destruct hourly; rewrite <- !append_assoc; apply prefix_app.
  - rewrite <- append_assoc. apply query_of_serialize. rewrite has_char_append, Hb.
    destruct hourly; apply endpoint_no_query; by intros d [= <-].
Qed.
End reachable.

(** ** Formatting *)

(** C:uptime *)
Theorem uptime_spec seconds :
  0 <= seconds ->
  exists days hours minutes rest,
    seconds = ((days * 24 + hours) * 60 + minutes) * 60 + rest /\
    0 <= days /\ 0 <= hours < 24 /\ 0 <= minutes < 60 /\ 0 <= rest < 60 /\
    formatUptime seconds =
      if 0 <? days then number_to_string days +++ "d " +++ number_to_string hours +++ "h"
      else number_to_string hours +++ "h " +++ number_to_string minutes +++ "m".
Proof.
  intros H. exists (seconds / 86400), (seconds mod 86400 / 3600), (seconds mod 3600 / 60), (seconds mod 60).
  unfold formatUptime.
  assert (seconds mod 3600 = (seconds mod 86400) mod 3600) as E1
    by (symmetry; apply Z.mod_mod_divide; by exists 24).
  assert (seconds mod 60 = (seconds mod 3600) mod 60) as E2
    by (symmetry; apply Z.mod_mod_divide; by exists 60).
  pose proof (Z.div_mod seconds 86400 ltac:(lia)).
  pose proof (Z.div_mod (seconds mod 86400) 3600 ltac:(lia)).
  pose proof (Z.div_mod (seconds mod 3600) 60 ltac:(lia)).
  pose proof (Z.mod_pos_bound seconds 86400 ltac:(lia)).
  pose proof (Z.mod_pos_bound seconds 3600 ltac:(lia)).
  pose proof (Z.mod_pos_bound seconds 60 ltac:(lia)).
  split_and!; try lia; try reflexivity; try (apply Z.div_pos; lia); apply Z.div_lt_upper_bound; lia.
Qed.

Lemma size_index_spec bytes :
  0 < bytes -> 1024 ^ size_index bytes <= bytes < 1024 ^ (size_index bytes + 1).
Proof.
  intros H. unfold size_index. pose proof (Z.log2_spec bytes H) as [H1 H2].
  pose proof (Z.log2_nonneg bytes) as H0.
  pose proof (Z.div_mod (Z.log2 bytes) 10 ltac:(lia)) as Hd.
  pose proof (Z.mod_pos_bound (Z.log2 bytes) 10 ltac:(lia)) as Hm.
  assert (0 <= Z.log2 bytes / 10) as Hq by (apply Z.div_pos; lia).
  change 1024 with (2 ^ 10). rewrite <- !Z.pow_mul_r by lia. split.
  - etransitivity; [|exact H1]. apply Z.pow_le_mono_r; lia.
  - eapply Z.lt_le_trans; [exact H2|]. apply Z.pow_le_mono_r; lia.
Qed.

Definition size_units : list string := ["B"; "KB"; "MB"; "GB"; "TB"].

(** C:bytes *)
Theorem bytes_unit bytes :
  0 < bytes ->
  exists i, 1024 ^ i <= bytes < 1024 ^ (i + 1) /\ 0 <= i /\
    formatBytes bytes =
      to_fixed 1 (num_div (num_of_Z bytes) (num_of_Z (1024 ^ i))) +++ " " +++
      (size_units !! Z.to_nat i ?? "undefined").
Proof.
  intros H. exists (size_index bytes).
  assert (0 <= size_index bytes) by (apply Z.div_pos; [apply Z.log2_nonneg|lia]).
  split; [by apply size_index_spec|]. split; [done|].
  unfold formatBytes, size_unit. destruct (bytes =? 0) eqn:E; bool_to_prop; [lia|].
  destruct (bytes <? 0) eqn:E'; bool_to_prop; [lia|].
  destruct (size_index bytes <? 0) eqn:E''; bool_to_prop; [lia|done].
Qed.

Example bytes_samples :
  map formatBytes [0; 1023; 1536; 1048575; 1024 ^ 5]
  = ["0 B"; "1023.0 B"; "1.5 KB"; "1024.0 KB"; "1.0 undefined"].
Proof. reflexivity. Qed.

(** ** Witnesses *)

Section sample.
#[local] Existing Instance plain_styling.
#[local] Existing Instance plain_dates.
Abbreviation page := (detail_page (fun k => k) "t" "edge-1" (Some "operator")).

Definition sample_device : Device := {|
  deviceId := "edge-1"; hostname := "edge"; architecture := "arm64"; os := "linux";
  agentVersion := "1.0"; labels := Some [("site", "lab")]; dev_state := "ONLINE";
  registeredAt := "2024"; lastHeartbeat := Some "2024"; autoUpdate := Some true; dev_status := None |}.

(** The same device after its next heartbeat. *)
Definition beaten : Device := {|
  deviceId := "edge-1"; hostname := "edge"; architecture := "arm64"; os := "linux";
  agentVersion := "1.0"; labels := Some [("site", "lab")]; dev_state := "ONLINE";
  registeredAt := "2024"; lastHeartbeat := Some "2025"; autoUpdate := Some true; dev_status := None |}.

Definition s0 : detail_state := detail_initial "t" "edge-1" (Some "operator").
Definition arrived : detail_state := fst (detail_update s0 (DeviceArrives sample_device)).
Definition with_text : detail_state := fst (detail_update arrived (DetailManifestArrives (Some (JStr "a: 1")))).
Definition on_manifest : detail_state := fst (detail_update with_text (SelectTab "manifest")).

Lemma arrived_reachable : page_reachable page arrived.
Proof.
  apply (reach_step _ s0 (DeviceArrives sample_device)); [by constructor|].
  apply (step_extern page s0 (DeviceArrives sample_device)).
  split; [reflexivity|]. repeat constructor. by intros [].
Qed.

Lemma on_manifest_reachable : page_reachable page on_manifest.
Proof.
  apply (reach_step _ with_text (SelectTab "manifest")).
  2: { apply (step_extern page with_text (SelectTab "manifest")). cbn. auto. }
  apply (reach_step _ arrived (DetailManifestArrives (Some (JStr "a: 1"))) _ arrived_reachable).
  by apply (step_extern page arrived (DetailManifestArrives (Some (JStr "a: 1")))).
Qed.

Lemma terminal_offered_witness :
  (fires (detail_view (fun k => k) arrived) GoTerminal <-> allowed (dd_role arrived) = true) /\
  (allowed (dd_role arrived) = true <-> In "operator" ["operator"; "admin"; "owner"]).
Proof. refine (terminal_offered (fun k => k) arrived eq_refl _). by eexists. Defined.

(** A label typed, a heartbeat, a label typed and put, another one dropped. *)
Definition sample_actions : list detail_action :=
  [DeviceArrives sample_device; EditLabels; LabelKey "rack"; LabelValue "7"; AddLabel;
   DeviceArrives beaten; LabelKey "row"; LabelValue "2"; AddLabel; RemoveLabel "site"].

Lemma sample_actions_run : page_run page s0 sample_actions (detail_run s0 sample_actions).
Proof.
  repeat (eapply run_cons;
    [first [apply step_extern; split; [reflexivity|]; repeat constructor; by intros []
           |apply step_user, detail_fires; split; [reflexivity|]; split; [by eexists|]; vm_compute; intuition discriminate]|]).
  apply run_nil.
Qed.

Lemma label_edits_saved_witness :
  exists l, snd (detail_update (detail_run s0 sample_actions) SaveLabels) = [MutateLabels l] /\
    List.NoDup (map fst l) /\ label_map l = <["row" := "2"]> ∅ /\
    forall k, fires (detail_view (fun k => k) (detail_run s0 sample_actions)) (RemoveLabel k) ->
      is_Some ((<["row" := "2"]> ∅ : gmap string string) !! k).
Proof.
  exact (label_edits_saved (fun k => k) "t" "edge-1" (Some "operator") sample_actions _ sample_actions_run).
Defined.

Lemma poll_drops_label_edits_witness :
  let s1 := detail_run arrived (edit_actions (PutLabel "rack" "7")) in
  let s2 := fst (detail_update s1 (DeviceArrives beaten)) in
  detail_extern s1 (DeviceArrives beaten) /\
  le_editing (dd_labels s2) = le_editing (dd_labels s1) /\
  snd (detail_update s2 SaveLabels) = [MutateLabels [("site", "lab")]].
Proof.
  refine (poll_drops_label_edits (fun k => k) "t" "edge-1" (Some "operator") arrived sample_device
    beaten [PutLabel "rack" "7"] arrived_reachable eq_refl eq_refl _ eq_refl). discriminate.
Defined.

Lemma draft_survives_hidden_witness :
  let s1 := fst (detail_update on_manifest (ManifestChange (Some "a: 2"))) in
  let s2 := fst (detail_update s1 (SelectTab "overview")) in
  let s3 := fst (detail_update s2 (SelectTab "manifest")) in
  page_reachable page s3 /\ mp_shown (dd_panel s3) = Some "a: 1" /\
  fires (detail_view (fun k => k) s3) SaveManifest /\
  snd (detail_update s3 SaveManifest) = [MutateManifest "a: 2"].
Proof.
  refine (draft_survives_hidden (fun k => k) "t" "edge-1" (Some "operator") on_manifest "a: 2"
    on_manifest_reachable _ _ eq_refl); [|discriminate].
  apply detail_fires. repeat split; try reflexivity; by eexists.
Defined.

Lemma telemetry_request_witness :
  In "1h" telemetry_ranges /\
  exists call rq, fetch_telemetry (env:=silent_env) 7200000 arrived = Some call /\ requests_of (call) tt = [rq] /\
    rq_method rq = "GET" /\
    startsWith (rq_url rq) "https://api.example/api/v1/devices/edge-1/telemetry?" = true /\
    query_of (rq_url rq) = [("start", "3600000"); ("end", "7200000")].
Proof.
  exact (telemetry_request (env:=silent_env) (fun k => k) "t" "edge-1" (Some "operator") 7200000 arrived tt
    arrived_reachable eq_refl eq_refl).
Defined.
End sample.

Lemma uptime_spec_witness :
  0 <= 93784 /\ formatUptime 93784 = "1d 2h".
Proof.
  split; [lia|]. destruct (uptime_spec 93784 ltac:(lia)) as (d & h & m & r & _). reflexivity.
Defined.

Lemma bytes_unit_witness :
  exists i, 1024 ^ i <= 1536 < 1024 ^ (i + 1) /\ 0 <= i /\
    formatBytes 1536 =
      to_fixed 1 (num_div (num_of_Z 1536) (num_of_Z (1024 ^ i))) +++ " " +++
      (size_units !! Z.to_nat i ?? "undefined").
Proof. refine (bytes_unit 1536 _). lia. Defined.
