(* ===== verification/Settings.v ===== *)
(** * Settings: ui/app/(dashboard)/settings/page.tsx

    The state of the page, its handlers and the outcomes of its mutations, for
    one organization. Rendering is in [SettingsView]. *)

From S2P Require Import Prelude JsString JsArray Json Endpoints ApiClient Api.

(** ** Data *)

Record Organization := {
  og_id : Z;
  og_name : string;
  og_slug : string;
  og_description : option string;
  og_createdAt : string
}.

Record OrgMember := {
  mb_id : Z;
  mb_userId : Z;
  mb_email : option string;
  mb_displayName : option string;
  mb_avatarUrl : option string;
  mb_role : string;
  mb_joinedAt : string
}.

Record EnrollmentToken := {
  et_id : Z;
  et_token : string;
  et_name : string;
  et_maxUses : Z;
  et_useCount : Z;
  et_expiresAt : option string;
  et_createdAt : string
}.

Record ApiKeyEntry := {
  ak_id : Z;
  ak_name : string;
  ak_prefix : string;
  ak_lastUsedAt : option string;
  ak_expiresAt : option string;
  ak_createdAt : string
}.

Record Invitation := {
  iv_id : Z;
  iv_email : string;
  iv_role : string;
  iv_createdAt : string
}.

Inductive InviteStatus := invite_added | invite_invited.

(** ** State *)

(** The organization form. [of_saving] is the context of a pending save: what
    [onMutate] returned. *)
Record org_form := {
  of_org : option Organization;
  of_name : option string;
  of_desc : option string;
  of_dirty : bool;
  of_saving : option (option Organization)
}.

Record members_panel := {
  mp_members : option (list OrgMember);
  mp_membersLoading : bool;
  mp_invitations : option (list Invitation);
  mp_inviteOpen : bool;
  mp_inviteEmail : string;
  mp_inviteRole : string;
  mp_inviting : bool;
  mp_removeTarget : option OrgMember;
  mp_removing : bool;
  mp_revoking : bool
}.

Record tokens_panel := {
  tk_tokens : option (list EnrollmentToken);
  tk_loading : bool;
  tk_open : bool;
  tk_desc : string;
  tk_maxUses : string;
  tk_deleteTarget : option EnrollmentToken;
  tk_created : option string;
  tk_creating : bool;
  tk_deleting : bool
}.

Record keys_panel := {
  kp_keys : option (list ApiKeyEntry);
  kp_loading : bool;
  kp_open : bool;
  kp_name : string;
  kp_created : option string;
  kp_deleteTarget : option ApiKeyEntry;
  kp_copied : bool;
  kp_usageCopied : bool;
  kp_creating : bool;
  kp_deleting : bool
}.

(** [st_tab] is the selected tab, which [Tabs] keeps itself. *)
Record settings := {
  st_role : option string;
  st_origin : string;
  st_tab : string;
  st_form : org_form;
  st_members : members_panel;
  st_tokens : tokens_panel;
  st_keys : keys_panel
}.

(** [enabled]: there is a token and an organization. *)
Definition settings_initial (enabled : bool) (role : option string) : settings := {|
  st_role := role; st_origin := ""; st_tab := "general";
  st_form := {| of_org := None; of_name := None; of_desc := None; of_dirty := false;
                of_saving := None |};
  st_members := {| mp_members := None; mp_membersLoading := enabled; mp_invitations := None;
                   mp_inviteOpen := false; mp_inviteEmail := ""; mp_inviteRole := "VIEWER";
                   mp_inviting := false; mp_removeTarget := None; mp_removing := false;
                   mp_revoking := false |};
  st_tokens := {| tk_tokens := None; tk_loading := enabled; tk_open := false; tk_desc := "";
                  tk_maxUses := "100"; tk_deleteTarget := None; tk_created := None;
                  tk_creating := false; tk_deleting := false |};
  st_keys := {| kp_keys := None; kp_loading := enabled; kp_open := false; kp_name := "";
                kp_created := None; kp_deleteTarget := None; kp_copied := false;
                kp_usageCopied := false; kp_creating := false; kp_deleting := false |} |}.

(** ** Actions and effects *)

Inductive settings_action :=
| TabChange (v : string)
| OrgNameChange (v : string)
| OrgDescChange (v : string)
| SaveOrg
| OpenInvite
| InviteOpenChange (v : bool)
| InviteEmail (v : string)
| InviteRole (v : string)
| CancelInvite
| SubmitInvite
| AskRemoveMember (m : OrgMember)
| RemoveOpenChange (v : bool)
| ConfirmRemoveMember
| RevokeInvitation (id : Z)
| OpenToken
| TokenOpenChange (v : bool)
| CopyToken (t : string)
| DoneToken
| TokenDesc (v : string)
| TokenMaxUses (v : string)
| CancelToken
| SubmitToken
| AskDeleteToken (t : EnrollmentToken)
| DeleteTokenOpenChange (v : bool)
| ConfirmDeleteToken
| OpenApiKey
| ApiKeyOpenChange (v : bool)
| ApiKeyName (v : string)
| CancelApiKey
| SubmitApiKey
| CopyKey (k : string)
| CopyUsage
| AskDeleteKey (k : ApiKeyEntry)
| DeleteKeyOpenChange (v : bool)
| ConfirmDeleteKey
(* not from handlers *)
| OriginKnown (origin : string)
| OrgArrives (o : Organization)
| MembersArrive (l : option (list OrgMember))
| InvitationsArrive (l : list Invitation)
| TokensArrive (l : option (list EnrollmentToken))
| KeysArrive (l : option (list ApiKeyEntry))
| CopiedOver
| UsageCopiedOver
| OrgSettled (r : result string unit)
| InviteSettled (r : result string InviteStatus)
| RemoveSettled (r : result string unit)
| RevokeSettled (r : result string unit)
| TokenSettled (r : result string string)
| TokenDeleteSettled (r : result string unit)
| KeySettled (r : result string string)
| KeyDeleteSettled (r : result string unit).

Inductive query_name := q_me | q_members | q_invitations | q_tokens | q_keys.

Inductive settings_effect :=
| CallUpdateOrganization (name description : string)
| CallInviteMember (email role : string)
| CallRemoveMember (id : Z)
| CallRevokeInvitation (id : Z)
| CallCreateToken (description maxUses : string)
| CallDeleteToken (id : Z)
| CallCreateApiKey (name : string)
| CallDeleteApiKey (id : Z)
| Invalidate (q : query_name)
| SettingsToast (m : string)
| SettingsToastError (m : string)
| WriteClipboard (text : string).

(** The call a mutation makes. [Number(tokenMaxUses)] is modelled on decimal
    integers and blank input; elsewhere the call is not determined. *)
Definition settings_call {S} {env : Environment S} (token : string) (e : settings_effect)
    : option (io S (option json)) :=
  match e with
  | CallUpdateOrganization name description =>
      Some (updateOrganization token (Some name) (Some description))
  | CallInviteMember email role => Some (inviteMember token email role)
  | CallRemoveMember id => Some (removeMember token id)
  | CallRevokeInvitation id => Some (revokeInvitation token id)
  | CallCreateToken description maxUses =>
      match js_Number maxUses with
      | Some n => Some (createEnrollmentToken token description (JNum n))
      | None => None
      end
  | CallDeleteToken id => Some (deleteEnrollmentToken token id)
  | CallCreateApiKey name => Some (createApiKey token name)
  | CallDeleteApiKey id => Some (deleteApiKey token id)
  | _ => None
  end.

(** ** The organization form *)

Definition set_form (org : option Organization) (name desc : option string) (dirty : bool)
    (saving : option (option Organization)) : org_form :=
  {| of_org := org; of_name := name; of_desc := desc; of_dirty := dirty; of_saving := saving |}.

Definition initOrgForm (f : org_form) : org_form :=
  match of_org f with
  | Some org => set_form (of_org f) (Some (og_name org)) (Some (og_description org ?? "")) false (of_saving f)
  | None => f
  end.

(** What the two inputs show. *)
Definition shown_name (f : org_form) : string := of_name f ?? (og_name <$> of_org f) ?? "".
Definition shown_desc (f : org_form) : string :=
  of_desc f ?? (of_org f ≫= og_description) ?? "".

Definition optimistic (f : org_form) (old : Organization) : Organization :=
  {| og_id := og_id old; og_name := of_name f ?? og_name old; og_slug := og_slug old;
     og_description := match of_desc f with Some d => Some d | None => og_description old end;
     og_createdAt := og_createdAt old |}.

Definition form_step (f : org_form) (a : settings_action) : org_form * list settings_effect :=
  match a with
  | OrgNameChange v => (set_form (of_org f) (Some v) (of_desc f) true (of_saving f), [])
  | OrgDescChange v => (set_form (of_org f) (of_name f) (Some v) true (of_saving f), [])
  | SaveOrg =>
      (set_form (optimistic f <$> of_org f) (of_name f) (of_desc f) (of_dirty f) (Some (of_org f)),
       [CallUpdateOrganization (shown_name f) (shown_desc f)])
  | OrgArrives o => (set_form (Some o) (of_name f) (of_desc f) (of_dirty f) (of_saving f), [])
  | OrgSettled (Ok _) =>
      (set_form (of_org f) None None false None,
       [SettingsToast "Organization updated"; Invalidate q_me])
  | OrgSettled (Throw m) =>
      (set_form (match of_saving f with Some (Some previous) => Some previous | _ => of_org f end)
         (of_name f) (of_desc f) (of_dirty f) None,
       [SettingsToastError m])
  | _ => (f, [])
  end.

(** ** Members and invitations *)

Definition set_invite (open : bool) (email role : string) (inviting : bool) (m : members_panel)
    : members_panel :=
  {| mp_members := mp_members m; mp_membersLoading := mp_membersLoading m;
     mp_invitations := mp_invitations m; mp_inviteOpen := open; mp_inviteEmail := email;
     mp_inviteRole := role; mp_inviting := inviting; mp_removeTarget := mp_removeTarget m;
     mp_removing := mp_removing m; mp_revoking := mp_revoking m |}.
Definition set_removal (target : option OrgMember) (removing revoking : bool) (m : members_panel)
    : members_panel :=
  {| mp_members := mp_members m; mp_membersLoading := mp_membersLoading m;
     mp_invitations := mp_invitations m; mp_inviteOpen := mp_inviteOpen m;
     mp_inviteEmail := mp_inviteEmail m; mp_inviteRole := mp_inviteRole m;
     mp_inviting := mp_inviting m; mp_removeTarget := target;
     mp_removing := removing; mp_revoking := revoking |}.
Definition set_people (members : option (list OrgMember)) (loading : bool)
    (invitations : option (list Invitation)) (m : members_panel) : members_panel :=
  {| mp_members := members; mp_membersLoading := loading;
     mp_invitations := invitations; mp_inviteOpen := mp_inviteOpen m;
     mp_inviteEmail := mp_inviteEmail m; mp_inviteRole := mp_inviteRole m;
     mp_inviting := mp_inviting m; mp_removeTarget := mp_removeTarget m;
     mp_removing := mp_removing m; mp_revoking := mp_revoking m |}.

Definition members_step (m : members_panel) (a : settings_action)
    : members_panel * list settings_effect :=
  let email := mp_inviteEmail m in
  let role := mp_inviteRole m in
  let inviting := mp_inviting m in
  match a with
  | OpenInvite => (set_invite true email role inviting m, [])
  | InviteOpenChange v => (set_invite v email role inviting m, [])
  | InviteEmail v => (set_invite (mp_inviteOpen m) v role inviting m, [])
  | InviteRole v => (set_invite (mp_inviteOpen m) email v inviting m, [])
  | CancelInvite => (set_invite false email role inviting m, [])
  | SubmitInvite => (set_invite (mp_inviteOpen m) email role true m, [CallInviteMember email role])
  | InviteSettled (Ok status) =>
      (set_invite false "" "VIEWER" false m,
       [SettingsToast (match status with
                       | invite_added => "Member added to the organization"
                       | invite_invited => "Invitation sent — they'll join when they first sign in"
                       end); Invalidate q_members; Invalidate q_invitations])
  | InviteSettled (Throw e) =>
      (set_invite (mp_inviteOpen m) email role false m, [SettingsToastError e])
  | AskRemoveMember t => (set_removal (Some t) (mp_removing m) (mp_revoking m) m, [])
  | RemoveOpenChange v =>
      (if v then m else set_removal None (mp_removing m) (mp_revoking m) m, [])
  | ConfirmRemoveMember =>
      match mp_removeTarget m with
      | Some t => (set_removal (Some t) true (mp_revoking m) m, [CallRemoveMember (mb_id t)])
      | None => (m, [])
      end
  | RemoveSettled (Ok _) =>
      (set_removal None false (mp_revoking m) m,
       [SettingsToast "Member removed"; Invalidate q_members])
  | RemoveSettled (Throw e) =>
      (set_removal (mp_removeTarget m) false (mp_revoking m) m, [SettingsToastError e])
  | RevokeInvitation id =>
      (set_removal (mp_removeTarget m) (mp_removing m) true m, [CallRevokeInvitation id])
  | RevokeSettled (Ok _) =>
      (set_removal (mp_removeTarget m) (mp_removing m) false m,
       [SettingsToast "Invitation revoked"; Invalidate q_invitations])
  | RevokeSettled (Throw e) =>
      (set_removal (mp_removeTarget m) (mp_removing m) false m, [SettingsToastError e])
  | MembersArrive l =>
      (set_people (match l with Some _ => l | None => mp_members m end) false (mp_invitations m) m, [])
  | InvitationsArrive l => (set_people (mp_members m) (mp_membersLoading m) (Some l) m, [])
  | _ => (m, [])
  end.

(** ** Enrollment tokens *)

Definition set_token_form (open : bool) (desc maxUses : string) (created : option string)
    (creating : bool) (t : tokens_panel) : tokens_panel :=
  {| tk_tokens := tk_tokens t; tk_loading := tk_loading t; tk_open := open; tk_desc := desc;
     tk_maxUses := maxUses; tk_deleteTarget := tk_deleteTarget t; tk_created := created;
     tk_creating := creating; tk_deleting := tk_deleting t |}.
Definition set_token_delete (target : option EnrollmentToken) (deleting : bool) (t : tokens_panel)
    : tokens_panel :=
  {| tk_tokens := tk_tokens t; tk_loading := tk_loading t; tk_open := tk_open t;
     tk_desc := tk_desc t; tk_maxUses := tk_maxUses t; tk_deleteTarget := target;
     tk_created := tk_created t; tk_creating := tk_creating t; tk_deleting := deleting |}.

Definition tokens_step (t : tokens_panel) (a : settings_action)
    : tokens_panel * list settings_effect :=
  let open := tk_open t in
  let desc := tk_desc t in
  let max := tk_maxUses t in
  let created := tk_created t in
  let creating := tk_creating t in
  match a with
  | OpenToken => (set_token_form true desc max created creating t, [])
  | TokenOpenChange v =>
      (set_token_form v desc max (if v then created else None) creating t, [])
  | CopyToken k => (t, [WriteClipboard k; SettingsToast "Copied!"])
  | DoneToken => (set_token_form false desc max None creating t, [])
  | TokenDesc v => (set_token_form open v max created creating t, [])
  | TokenMaxUses v => (set_token_form open desc v created creating t, [])
  | CancelToken => (set_token_form false desc max created creating t, [])
  | SubmitToken => (set_token_form open desc max created true t, [CallCreateToken desc max])
  | TokenSettled (Ok k) =>
      (set_token_form open "" max (Some k) false t, [Invalidate q_tokens])
  | TokenSettled (Throw m) =>
      (set_token_form open desc max created false t, [SettingsToastError m])
  | AskDeleteToken x => (set_token_delete (Some x) (tk_deleting t) t, [])
  | DeleteTokenOpenChange v => (if v then t else set_token_delete None (tk_deleting t) t, [])
  | ConfirmDeleteToken =>
      match tk_deleteTarget t with
      | Some x => (set_token_delete (Some x) true t, [CallDeleteToken (et_id x)])
      | None => (t, [])
      end
  | TokenDeleteSettled (Ok _) =>
      (set_token_delete None false t, [SettingsToast "Token revoked"; Invalidate q_tokens])
  | TokenDeleteSettled (Throw m) =>
      (set_token_delete (tk_deleteTarget t) false t, [SettingsToastError m])
  | TokensArrive l =>
      ({| tk_tokens := match l with Some _ => l | None => tk_tokens t end; tk_loading := false;
          tk_open := open; tk_desc := desc; tk_maxUses := max; tk_deleteTarget := tk_deleteTarget t;
          tk_created := created; tk_creating := creating; tk_deleting := tk_deleting t |}, [])
  | _ => (t, [])
  end.

(** ** API keys *)

Definition set_key_form (open : bool) (name : string) (created : option string) (creating : bool)
    (k : keys_panel) : keys_panel :=
  {| kp_keys := kp_keys k; kp_loading := kp_loading k; kp_open := open; kp_name := name;
     kp_created := created; kp_deleteTarget := kp_deleteTarget k; kp_copied := kp_copied k;
     kp_usageCopied := kp_usageCopied k; kp_creating := creating; kp_deleting := kp_deleting k |}.
Definition set_key_rest (target : option ApiKeyEntry) (copied usageCopied deleting : bool)
    (k : keys_panel) : keys_panel :=
  {| kp_keys := kp_keys k; kp_loading := kp_loading k; kp_open := kp_open k; kp_name := kp_name k;
     kp_created := kp_created k; kp_deleteTarget := target; kp_copied := copied;
     kp_usageCopied := usageCopied; kp_creating := kp_creating k; kp_deleting := deleting |}.

Definition apiKeyUsageExample (origin : string) : string :=
  "curl -H " +++ quote_mark +++ "X-API-Key: YOUR_API_KEY" +++ quote_mark +++ " \" +++ newline +++ "  "
  +++ origin +++ "/api/v1/devices".

Definition keys_step (origin : string) (k : keys_panel) (a : settings_action)
    : keys_panel * list settings_effect :=
  let open := kp_open k in
  let name := kp_name k in
  let created := kp_created k in
  let creating := kp_creating k in
  let copied := kp_copied k in
  let usage := kp_usageCopied k in
  let deleting := kp_deleting k in
  match a with
  | OpenApiKey => (set_key_form true name created creating k, [])
  | ApiKeyOpenChange v => (set_key_form v name (if v then created else None) creating k, [])
  | ApiKeyName v => (set_key_form open v created creating k, [])
  | CancelApiKey => (set_key_form false name created creating k, [])
  | SubmitApiKey => (set_key_form open name created true k, [CallCreateApiKey name])
  | KeySettled (Ok raw) =>
      (set_key_form open "" (Some raw) false k, [SettingsToast "API key created"; Invalidate q_keys])
  | KeySettled (Throw m) => (set_key_form open name created false k, [SettingsToastError m])
  | CopyKey raw => (set_key_rest (kp_deleteTarget k) true usage deleting k, [WriteClipboard raw])
  | CopyUsage =>
      (set_key_rest (kp_deleteTarget k) copied true deleting k,
       [WriteClipboard (apiKeyUsageExample origin)])
  | CopiedOver => (set_key_rest (kp_deleteTarget k) false usage deleting k, [])
  | UsageCopiedOver => (set_key_rest (kp_deleteTarget k) copied false deleting k, [])
  | AskDeleteKey x => (set_key_rest (Some x) copied usage deleting k, [])
  | DeleteKeyOpenChange v => (if v then k else set_key_rest None copied usage deleting k, [])
  | ConfirmDeleteKey =>
      match kp_deleteTarget k with
      | Some x => (set_key_rest (Some x) copied usage true k, [CallDeleteApiKey (ak_id x)])
      | None => (k, [])
      end
  | KeyDeleteSettled (Ok _) =>
      (set_key_rest None copied usage false k, [SettingsToast "API key revoked"; Invalidate q_keys])
  | KeyDeleteSettled (Throw m) =>
      (set_key_rest (kp_deleteTarget k) copied usage false k, [SettingsToastError m])
  | KeysArrive l =>
      ({| kp_keys := match l with Some _ => l | None => kp_keys k end; kp_loading := false;
          kp_open := open; kp_name := name; kp_created := created;
          kp_deleteTarget := kp_deleteTarget k; kp_copied := copied; kp_usageCopied := usage;
          kp_creating := creating; kp_deleting := deleting |}, [])
  | _ => (k, [])
  end.

(** ** The page *)

(** Every action belongs to one panel. [Tabs] reports only a change of tab. *)
Definition settings_update (s : settings) (a : settings_action) : settings * list settings_effect :=
  let '(f, e1) := form_step (st_form s) a in
  let '(m, e2) := members_step (st_members s) a in
  let '(t, e3) := tokens_step (st_tokens s) a in
  let '(k, e4) := keys_step (st_origin s) (st_keys s) a in
  let '(origin, tab, f) :=
    match a with
    | OriginKnown o => (o, st_tab s, f)
    | TabChange v =>
        (st_origin s, v,
         if String.eqb v "general" && negb (String.eqb v (st_tab s)) then initOrgForm f else f)
    | _ => (st_origin s, st_tab s, f)
    end in
  ({| st_role := st_role s; st_origin := origin; st_tab := tab; st_form := f; st_members := m;
      st_tokens := t; st_keys := k |}, e1 ++ e2 ++ e3 ++ e4).
