(* ===== verification/SettingsView.v ===== *)
(** * Rendering of the settings page: ui/app/(dashboard)/settings/page.tsx *)

From S2P Require Import Prelude JsString JsArray Vdom Json Endpoints ApiClient Api Components Settings.

Section view.
Context {styling : Styling} {dates : Dates} {S : Type} {env : Environment S}.

Abbreviation act := settings_action.

Definition field (kids : list (node act)) : node act := Elt "div" [cls "space-y-2"] kids.

Definition general_tab (s : settings) : node act :=
  let f := st_form s in
  let pending := bool_decide (is_Some (of_saving f)) in
  Elt "TabsContent" [AStr "value" "general"; cls "mt-4"]
    [Elt "Card" []
       [Elt "CardHeader" []
          [Elt "CardTitle" [] [Txt "Organization"];
           Elt "CardDescription" [] [Txt "Update your organization details."]];
        Elt "CardContent" [cls "space-y-4 max-w-lg"]
          [field [Elt "Label" [AStr "htmlFor" "org-name"] [Txt "Name"];
                  Elt "Input" [AStr "id" "org-name"; AStr "value" (shown_name f);
                               AOnStr "onChange" OrgNameChange] []];
           field [Elt "Label" [AStr "htmlFor" "org-desc"] [Txt "Description"];
                  Elt "Textarea" [AStr "id" "org-desc"; AStr "value" (shown_desc f);
                                  AOnStr "onChange" OrgDescChange; ANum "rows" 3] []];
           field [Elt "Label" [] [Txt "Slug"];
                  Elt "Input" [AStr "value" ((og_slug <$> of_org f) ?? ""); ABool "disabled" true] []];
           field [Elt "Label" [] [Txt "Your Role"];
                  Elt "div" [] [Elt "Badge" [] [Txt (st_role s ?? "--")]]];
           Elt "Button" [AOn "onClick" SaveOrg; ABool "disabled" (negb (of_dirty f) || pending)]
             [Txt (if pending then "Saving..." else "Save Changes")]]]].

(** ** Members *)

Definition email_user (email : option string) : option string :=
  (fun e => hd "" (split_char "@" e)) <$> email.

Definition member_name (m : OrgMember) (unknown : string) : string :=
  match mb_displayName m with
  | Some n => n
  | None => email_user (mb_email m) ?? unknown
  end.

Definition member_initials (m : OrgMember) : string :=
  toUpperCase (take_string 2 (join "" (map (fun n => first_char n ?? "") (split_char " " (member_name m "?"))))).

Definition opt_txt (o : option string) : node act := match o with Some s => Txt s | None => Nothing end.

Definition trash_button (a : act) : node act :=
  Elt "Button" [AStr "variant" "ghost"; AStr "size" "icon"; cls "h-8 w-8 text-destructive";
                AOn "onClick" a]
    [icon "Trash2" "h-4 w-4"].

Definition member_row (m : OrgMember) : node act :=
  Elt "TableRow" [ANum "key" (mb_userId m)]
    [Elt "TableCell" []
       [Elt "div" [cls "flex items-center gap-3"]
          [Elt "Avatar" [cls "h-8 w-8"] [Elt "AvatarFallback" [cls "text-xs"] [Txt (member_initials m)]];
           Elt "div" []
             [Elt "p" [cls "text-sm font-medium"] [Txt (member_name m "Unknown")];
              Elt "p" [cls "text-xs text-muted-foreground"] [opt_txt (mb_email m)]]]];
     Elt "TableCell" []
       [Elt "Badge" [AStr "variant" (if String.eqb (mb_role m) "OWNER" then "default" else "secondary")]
          [Txt (mb_role m)]];
     Elt "TableCell" [] [Txt (formatDistanceToNow (mb_joinedAt m))];
     Elt "TableCell" []
       [when (negb (String.eqb (mb_role m) "OWNER")) (trash_button (AskRemoveMember m))]].

Definition skeleton_rows (rows columns : nat) : node act :=
  array_from rows (fun i =>
    Elt "TableRow" [ANum "key" i]
      [array_from columns (fun j =>
         Elt "TableCell" [ANum "key" j] [Elt "Skeleton" [cls "h-4 w-full"] []])]).

Definition empty_row (columns : Z) (title description : string) : node act :=
  Elt "TableRow" []
    [Elt "TableCell" [ANum "colSpan" columns] [EmptyState None title (Some description) []]].

(** The rows of a table whose query is [l]. *)
Definition rows_or {X} (loading : bool) (skeleton empty : node act) (row : X -> node act)
    (l : option (list X)) : node act :=
  if loading then skeleton
  else match l with
       | None | Some [] => empty
       | Some l => Frag (map row l)
       end.

Definition heads (l : list string) : node act :=
  Elt "TableHeader" []
    [Elt "TableRow" []
       [Frag (map (fun h => Elt "TableHead" [] [Txt h]) l); Elt "TableHead" [cls "w-10"] []]].

Definition table (header body : node act) : node act :=
  Elt "div" [cls "rounded-xl border border-border/50 overflow-hidden"]
    [Elt "Table" [] [header; Elt "TableBody" [] [body]]].

Definition panel_header (ic title description : string) (open : act) (label : string) : node act :=
  Elt "CardHeader" [cls "flex flex-row items-center justify-between"]
    [Elt "div" []
       [Elt "CardTitle" [cls "flex items-center gap-2"] [icon ic "h-5 w-5"; Txt title];
        Elt "CardDescription" [] [Txt description]];
     Elt "Button" [AOn "onClick" open] [icon "Plus" "mr-2 h-4 w-4"; Txt label]].

Definition invitation_row (m : members_panel) (inv : Invitation) : node act :=
  Elt "TableRow" [ANum "key" (iv_id inv)]
    [Elt "TableCell" [cls "text-sm"] [Txt (iv_email inv)];
     Elt "TableCell" [] [Elt "Badge" [AStr "variant" "secondary"] [Txt (iv_role inv)]];
     Elt "TableCell" [cls "text-sm text-muted-foreground"] [Txt (formatDistanceToNow (iv_createdAt inv))];
     Elt "TableCell" []
       [Elt "Button" [AStr "variant" "ghost"; AStr "size" "icon"; cls "h-8 w-8 text-destructive";
                      ABool "disabled" (mp_revoking m); AOn "onClick" (RevokeInvitation (iv_id inv))]
          [icon "Trash2" "h-4 w-4"]]].

Definition invitations_card (m : members_panel) : node act :=
  match mp_invitations m with
  | None | Some [] => Nothing
  | Some l =>
      Elt "Card" [cls "mt-4"]
        [Elt "CardHeader" []
           [Elt "CardTitle" [cls "flex items-center gap-2"]
              [icon "Mail" "h-5 w-5"; Txt "Pending Invitations"];
            Elt "CardDescription" []
              [Txt "These people will join automatically the first time they sign in."]];
         Elt "CardContent" []
           [table (heads ["Email"; "Role"; "Invited"]) (Frag (map (invitation_row m) l))]]
  end.

Definition members_tab (m : members_panel) : node act :=
  Elt "TabsContent" [AStr "value" "members"; cls "mt-4"]
    [Elt "Card" []
       [panel_header "Users" "Members" "Manage team access to your organization." OpenInvite "Invite";
        Elt "CardContent" []
          [table (heads ["User"; "Role"; "Joined"])
             (rows_or (mp_membersLoading m) (skeleton_rows 3 4)
                (empty_row 4 "No members" "Invite team members.") member_row (mp_members m))]];
     invitations_card m].

(** ** Enrollment tokens *)

Definition installers : list (string * string * string) :=
  [("windows", "amd64", "Windows"); ("linux", "amd64", "Linux x64"); ("linux", "arm64", "Linux arm64");
   ("darwin", "amd64", "macOS Intel"); ("darwin", "arm64", "macOS Apple Silicon")].

Definition installer_link (t : EnrollmentToken) (i : string * string * string) : node act :=
  let '(os, arch, label) := i in
  Elt "Button" [ABool "asChild" true; AStr "variant" "ghost"; AStr "size" "sm"; cls "h-8 gap-1"]
    [Elt "a" [AStr "href" (buildInstallerUrl os arch (et_token t)); ABool "download" true]
       [icon "Download" "h-3.5 w-3.5"; Txt (" " +++ label)]].

(** [t ? formatDistanceToNow(...) : none] *)
Definition when_ago (t : option string) (none : string) : string :=
  match t with Some t => if truthy t then formatDistanceToNow t else none | None => none end.

Definition token_row (t : EnrollmentToken) : node act :=
  Elt "TableRow" [ANum "key" (et_id t)]
    [Elt "TableCell" [cls "font-mono text-xs"] [Txt (take_string 16 (et_token t)); Txt "..."];
     Elt "TableCell" [] [Txt (et_name t)];
     Elt "TableCell" []
       [Txt (number_to_string (et_useCount t)); Txt " / "; Txt (number_to_string (et_maxUses t))];
     Elt "TableCell" [] [Txt (when_ago (et_expiresAt t) "Never")];
     Elt "TableCell" []
       [Elt "div" [cls "flex items-center justify-end gap-1"]
          [Frag (map (installer_link t) installers); trash_button (AskDeleteToken t)]]].

Definition tokens_tab (t : tokens_panel) : node act :=
  Elt "TabsContent" [AStr "value" "tokens"; cls "mt-4"]
    [Elt "Card" []
       [panel_header "Key" "Enrollment Tokens" "Tokens used by devices to register with the fleet."
          OpenToken "Create Token";
        Elt "CardContent" []
          [table (heads ["Token"; "Description"; "Usage"; "Expires"])
             (rows_or (tk_loading t) (skeleton_rows 2 5)
                (empty_row 5 "No tokens" "Create a token to enroll devices.") token_row (tk_tokens t))]]].

(** ** API keys *)

Definition created_key (k : keys_panel) : node act :=
  match kp_created k with
  | None => Nothing
  | Some raw =>
      when (truthy raw)
        (Elt "div" [cls "rounded-lg border border-emerald-500/30 bg-emerald-500/5 p-3"]
           [Elt "p" [cls "text-sm font-medium text-green-800 dark:text-green-200"]
              [Txt "API Key created! Copy it now - it won't be shown again."];
            Elt "div" [cls "mt-2 flex items-center gap-2"]
              [Elt "code" [cls "rounded bg-green-100 px-2 py-1 text-xs font-mono dark:bg-green-800"] [Txt raw];
               Elt "Button" [AStr "variant" "ghost"; AStr "size" "icon"; AOn "onClick" (CopyKey raw)]
                 [if kp_copied k then icon "Check" "h-4 w-4" else icon "Copy" "h-4 w-4"]]])
  end.

Definition key_row (k : ApiKeyEntry) : node act :=
  Elt "TableRow" [ANum "key" (ak_id k)]
    [Elt "TableCell" [cls "font-medium"] [Txt (ak_name k)];
     Elt "TableCell" [cls "font-mono text-xs"] [Txt (ak_prefix k); Txt "..."];
     Elt "TableCell" [] [Txt (when_ago (ak_lastUsedAt k) "Never")];
     Elt "TableCell" [] [Txt (formatDistanceToNow (ak_createdAt k))];
     Elt "TableCell" [] [trash_button (AskDeleteKey k)]].

Definition usage_example (origin : string) (k : keys_panel) : node act :=
  Elt "div" []
    [Elt "div" [cls "mb-1 flex items-center justify-between"]
       [Elt "p" [cls "text-xs font-medium text-muted-foreground"] [Txt "Usage"];
        Elt "Button" [AStr "variant" "ghost"; AStr "size" "icon"; cls "h-7 w-7"; AOn "onClick" CopyUsage]
          [if kp_usageCopied k then icon "Check" "h-3.5 w-3.5" else icon "Copy" "h-3.5 w-3.5"]];
     Elt "pre" [cls "rounded-lg bg-muted/50 border border-border/50 p-3 text-xs font-mono overflow-x-auto"]
       [Txt (apiKeyUsageExample origin)];
     Elt "p" [cls "mt-2 text-xs text-muted-foreground"]
       [Txt "Send the key in the "; Elt "code" [cls "font-mono"] [Txt "X-API-Key"];
        Txt " header. Keys act at OPERATOR level, scoped to this organization."]].

Definition keys_tab (origin : string) (k : keys_panel) : node act :=
  Elt "TabsContent" [AStr "value" "api-keys"; cls "mt-4"]
    [Elt "Card" []
       [panel_header "KeyRound" "API Keys" "Keys for programmatic access to the EdgeGuardian API."
          OpenApiKey "Create Key";
        Elt "CardContent" [cls "space-y-4"]
          [created_key k;
           table (heads ["Name"; "Prefix"; "Last Used"; "Created"])
             (rows_or (kp_loading k) (skeleton_rows 2 5)
                (empty_row 5 "No API keys" "Create a key for programmatic access.") key_row (kp_keys k));
           usage_example origin k]]].
(** ** Dialogs *)

Definition dialog_header (title description : string) : node act :=
  Elt "DialogHeader" [] [Elt "DialogTitle" [] [Txt title]; Elt "DialogDescription" [] [Txt description]].

Definition cancel_button (a : act) : node act :=
  Elt "Button" [AStr "variant" "outline"; AOn "onClick" a] [Txt "Cancel"].

Definition submit_button (a : act) (disabled : bool) (label : string) : node act :=
  Elt "Button" [AOn "onClick" a; ABool "disabled" disabled] [Txt label].

Definition role_item (v label : string) : node act := Elt "SelectItem" [AStr "value" v] [Txt label].

Definition invite_dialog (m : members_panel) : node act :=
  Elt "Dialog" [ABool "open" (mp_inviteOpen m); AOnBool "onOpenChange" InviteOpenChange]
    [Elt "DialogContent" []
       [dialog_header "Invite Member" "Add a new member to your organization.";
        Elt "div" [cls "space-y-4"]
          [field [Elt "Label" [AStr "htmlFor" "invite-email"] [Txt "Email"];
                  Elt "Input" [AStr "id" "invite-email"; AStr "type" "email";
                               AStr "placeholder" "name@example.com"; AStr "value" (mp_inviteEmail m);
                               AOnStr "onChange" InviteEmail] []];
           field [Elt "Label" [] [Txt "Role"];
                  Elt "Select" [AStr "value" (mp_inviteRole m); AOnStr "onValueChange" InviteRole]
                    [Elt "SelectTrigger" [] [Elt "SelectValue" [] []];
                     Elt "SelectContent" []
                       [role_item "ADMIN" "Admin — manage org, members, devices";
                        role_item "OPERATOR" "Operator — operate devices, open terminals";
                        role_item "VIEWER" "Viewer — read-only access"]]]];
        Elt "DialogFooter" []
          [cancel_button CancelInvite;
           submit_button SubmitInvite (negb (truthy (mp_inviteEmail m)) || mp_inviting m)
             (if mp_inviting m then "Inviting..." else "Invite")]]].

Definition token_created (raw : string) : node act :=
  Elt "div" [cls "space-y-3"]
    [Elt "div" [cls "rounded-lg border border-emerald-500/30 bg-emerald-500/5 p-3"]
       [Elt "p" [cls "text-sm font-medium mb-2"]
          [Txt "Token created! Copy it now - it won't be shown again."];
        Elt "div" [cls "flex items-center gap-2"]
          [Elt "code" [cls "flex-1 rounded bg-muted px-2 py-1 text-xs break-all"] [Txt raw];
           Elt "Button" [AStr "size" "sm"; AStr "variant" "outline"; AOn "onClick" (CopyToken raw)]
             [Txt "Copy"]]];
     Elt "DialogFooter" [] [Elt "Button" [AOn "onClick" DoneToken] [Txt "Done"]]].

Definition token_form (t : tokens_panel) : node act :=
  Frag
    [Elt "div" [cls "space-y-4"]
       [field [Elt "Label" [AStr "htmlFor" "token-desc"] [Txt "Name"];
               Elt "Input" [AStr "id" "token-desc"; AStr "placeholder" "Production fleet";
                            AStr "value" (tk_desc t); AOnStr "onChange" TokenDesc] []];
        field [Elt "Label" [AStr "htmlFor" "token-max"] [Txt "Max Uses"];
               Elt "Input" [AStr "id" "token-max"; AStr "type" "number"; AStr "value" (tk_maxUses t);
                            AOnStr "onChange" TokenMaxUses] []]];
     Elt "DialogFooter" []
       [cancel_button CancelToken;
        submit_button SubmitToken (negb (truthy (tk_desc t)) || tk_creating t)
          (if tk_creating t then "Creating..." else "Create")]].

Definition token_dialog (t : tokens_panel) : node act :=
  Elt "Dialog" [ABool "open" (tk_open t); AOnBool "onOpenChange" TokenOpenChange]
    [Elt "DialogContent" []
       [dialog_header "Create Enrollment Token" "Create a token devices will use to register.";
        match tk_created t with
        | Some raw => if truthy raw then token_created raw else token_form t
        | None => token_form t
        end]].

Definition key_dialog (k : keys_panel) : node act :=
  Elt "Dialog" [ABool "open" (kp_open k); AOnBool "onOpenChange" ApiKeyOpenChange]
    [Elt "DialogContent" []
       [dialog_header "Create API Key" "Create a key for programmatic API access.";
        Elt "div" [cls "space-y-4"]
          [field [Elt "Label" [AStr "htmlFor" "api-key-name"] [Txt "Name"];
                  Elt "Input" [AStr "id" "api-key-name"; AStr "placeholder" "CI/CD Pipeline";
                               AStr "value" (kp_name k); AOnStr "onChange" ApiKeyName] []]];
        Elt "DialogFooter" []
          [cancel_button CancelApiKey;
           submit_button SubmitApiKey (negb (truthy (kp_name k)) || kp_creating k)
             (if kp_creating k then "Creating..." else "Create")]]].

Definition some {X} (o : option X) : bool := match o with Some _ => true | None => false end.

Definition remove_dialog (m : members_panel) : node act :=
  let name := match mp_removeTarget m with
              | Some t => member_name t "this member"
              | None => "this member"
              end in
  ConfirmDialog (some (mp_removeTarget m)) RemoveOpenChange "Remove Member"
    ("Remove " +++ name +++ " from the organization?") (Some "Remove") variant_destructive
    ConfirmRemoveMember (mp_removing m).

Definition revoke_token_dialog (t : tokens_panel) : node act :=
  ConfirmDialog (some (tk_deleteTarget t)) DeleteTokenOpenChange "Revoke Token"
    "Devices using this token will no longer be able to enroll." (Some "Revoke")
    variant_destructive ConfirmDeleteToken (tk_deleting t).

Definition revoke_key_dialog (k : keys_panel) : node act :=
  ConfirmDialog (some (kp_deleteTarget k)) DeleteKeyOpenChange "Revoke API Key"
    ("Revoke " +++ quote_mark +++ ((ak_name <$> kp_deleteTarget k) ?? "undefined") +++ quote_mark
     +++ "? Any integrations using this key will stop working.")
    (Some "Revoke") variant_destructive ConfirmDeleteKey (kp_deleting k).

(** ** The page *)

(** Only the content of the selected tab is mounted. *)
Definition settings_tabs (s : settings) : node act :=
  let tab v := String.eqb (st_tab s) v in
  Elt "Tabs" [AStr "defaultValue" "general"; AOnStr "onValueChange" TabChange]
    [Elt "TabsList" []
       [Elt "TabsTrigger" [AStr "value" "general"] [Txt "General"];
        Elt "TabsTrigger" [AStr "value" "members"] [Txt "Members"];
        Elt "TabsTrigger" [AStr "value" "tokens"] [Txt "Tokens"];
        Elt "TabsTrigger" [AStr "value" "api-keys"] [Txt "API Keys"]];
     when (tab "general") (general_tab s);
     when (tab "members") (members_tab (st_members s));
     when (tab "tokens") (tokens_tab (st_tokens s));
     when (tab "api-keys") (keys_tab (st_origin s) (st_keys s))].

Definition settings_dialogs (s : settings) : list (node act) :=
  [invite_dialog (st_members s); token_dialog (st_tokens s); key_dialog (st_keys s);
   remove_dialog (st_members s); revoke_token_dialog (st_tokens s); revoke_key_dialog (st_keys s)].

Definition settings_view (s : settings) : node act :=
  Elt "div" [cls "space-y-6"]
    (PageHeader "Settings" (Some "Manage your organization") [] None :: settings_tabs s
     :: settings_dialogs s).

(** Data arrives for an enabled page; a mutation settles while it is pending. *)
Definition settings_extern (enabled : bool) (s : settings) (a : settings_action) : Prop :=
  match a with
  | OriginKnown _ | CopiedOver | UsageCopiedOver => True
  | OrgArrives _ | MembersArrive _ | InvitationsArrive _ | TokensArrive _ | KeysArrive _ =>
      enabled = true
  | OrgSettled _ => is_Some (of_saving (st_form s))
  | InviteSettled _ => mp_inviting (st_members s) = true
  | RemoveSettled _ => mp_removing (st_members s) = true
  | RevokeSettled _ => mp_revoking (st_members s) = true
  | TokenSettled _ => tk_creating (st_tokens s) = true
  | TokenDeleteSettled _ => tk_deleting (st_tokens s) = true
  | KeySettled _ => kp_creating (st_keys s) = true
  | KeyDeleteSettled _ => kp_deleting (st_keys s) = true
  | _ => False
  end.

Definition settings_page (enabled : bool) (role : option string)
    : page settings settings_action settings_effect := {|
  page_init := fun s => s = settings_initial enabled role;
  page_view := settings_view;
  page_update := settings_update;
  page_extern := settings_extern enabled
|}.
End view.
