(* ===== verification/SettingsFacts.v ===== *)
(** * Properties of the settings page *)

From S2P Require Import Prelude JsString JsArray Vdom UrlCodec Json Endpoints ApiClient Api ApiFacts Components Settings SettingsView.

(** ** The handlers of the page *)

Section handlers.
Context {styling : Styling} {dates : Dates} {St : Type} {env : Environment St}.
Abbreviation act := settings_action.

Definition loaded_rows {X} (loading : bool) (l : option (list X)) : list X :=
  if loading then [] else l ?? [].

Lemma rows_or_events {X} loading skeleton empty (row : X -> node act) l :
  events true skeleton = [] -> events true empty = [] ->
  events true (rows_or loading skeleton empty row l) =
  concat (map (fun x => events true (row x)) (loaded_rows loading l)).
Proof.
  intros Hs He. unfold rows_or, loaded_rows. destruct loading; [done|].
  destruct l as [[|x l]|]; [done| |done]. apply events_Frag_map.
Qed.

Lemma skeleton_rows_events r c : events true (skeleton_rows r c) = [].
Proof.
  apply events_array_from. intros i. events_simpl. rewrite events_array_from by done. done.
Qed.

Lemma empty_row_events c t d : events true (empty_row c t d) = [].
Proof. unfold empty_row. events_simpl. by rewrite EmptyState_events. Qed.

Lemma table_events l body :
  events true (table (heads l) body) = events true body.
Proof.
  unfold table, heads. events_simpl. rewrite concat_map_map, concat_map_nil by done.
  by rewrite !app_nil_r.
Qed.

Lemma panel_header_events i t d o l :
  content_tag i = false -> dialog_tag i = false ->
  events true (panel_header i t d o l) = [EvUnit o].
Proof. intros H1 H2. unfold panel_header. events_simpl. rewrite H1. by destruct (dialog_tag i). Qed.

Definition not_owner (m : OrgMember) : bool := negb (String.eqb (mb_role m) "OWNER").

Definition member_events (m : OrgMember) : list (ui_event act) :=
  if not_owner m then [EvUnit (AskRemoveMember m)] else [].

Lemma member_row_events m : events true (member_row m) = member_events m.
Proof.
  unfold member_row, member_events, not_owner. destruct (String.eqb (mb_role m) "OWNER"), (mb_email m); reflexivity.
Qed.

Definition invitation_events (p : members_panel) : list (ui_event act) :=
  if mp_revoking p then []
  else map (fun i => EvUnit (RevokeInvitation (iv_id i))) (mp_invitations p ?? []).

Lemma invitations_card_events p : events true (invitations_card p) = invitation_events p.
Proof.
  unfold invitations_card, invitation_events.
  destruct (mp_invitations p) as [[|i l]|]; [by destruct (mp_revoking p)| |by destruct (mp_revoking p)].
  generalize (i :: l) as inv. intros inv.
  transitivity (events true (Frag (map (invitation_row p) inv))).
  - generalize (Frag (map (invitation_row p) inv)) as body. intros body.
    cbn [events own_events has_attr existsb attr_is concat map app own_event dialog_moves content_tag dialog_tag
      String.eqb Ascii.eqb Bool.eqb orb andb negb cls icon].
    by rewrite table_events, !app_nil_r.
  - rewrite events_Frag_map. cbn [default]. destruct (mp_revoking p) eqn:E.
    + apply concat_map_nil. intros x _. unfold invitation_row. by rewrite E.
    + apply concat_map_singleton. intros x. unfold invitation_row. by rewrite E.
Qed.

Lemma members_tab_events p :
  events true (members_tab p) =
  EvUnit OpenInvite :: concat (map member_events (loaded_rows (mp_membersLoading p) (mp_members p)))
  ++ invitation_events p.
Proof.
  rewrite <- (invitations_card_events p). unfold members_tab.
  generalize (invitations_card p) as card. intros card.
  cbn [events own_events has_attr existsb attr_is concat map app own_event dialog_moves content_tag dialog_tag
    String.eqb Ascii.eqb Bool.eqb orb andb negb cls].
  rewrite table_events, rows_or_events by (apply skeleton_rows_events || apply empty_row_events).
  rewrite panel_header_events by done. rewrite (map_ext _ member_events) by apply member_row_events.
  cbn [app]. by rewrite !app_nil_r.
Qed.

Lemma installer_link_events t i : events true (installer_link t i) = [].
Proof. by destruct i as [[os arch] label]. Qed.

Lemma tokens_tab_events t :
  events true (tokens_tab t) =
  EvUnit OpenToken :: map (fun x => EvUnit (AskDeleteToken x)) (loaded_rows (tk_loading t) (tk_tokens t)).
Proof.
  unfold tokens_tab.
  cbn [events own_events has_attr existsb attr_is concat map app own_event dialog_moves content_tag dialog_tag
    String.eqb Ascii.eqb Bool.eqb orb andb negb cls].
  rewrite table_events, rows_or_events by (apply skeleton_rows_events || apply empty_row_events).
  rewrite panel_header_events by done. cbn [app]. rewrite !app_nil_r. f_equal.
  apply concat_map_singleton. intros x. by destruct x.
Qed.

Definition created_events (k : keys_panel) : list (ui_event act) :=
  match kp_created k with
  | Some raw => if truthy raw then [EvUnit (CopyKey raw)] else []
  | None => []
  end.

Lemma created_key_events k : events true (created_key k) = created_events k.
Proof.
  unfold created_key, created_events. destruct (kp_created k) as [raw|]; [|done].
  destruct (truthy raw); [|done]. by destruct (kp_copied k).
Qed.

Lemma keys_tab_events origin k :
  events true (keys_tab origin k) =
  EvUnit OpenApiKey :: created_events k
  ++ map (fun x => EvUnit (AskDeleteKey x)) (loaded_rows (kp_loading k) (kp_keys k))
  ++ [EvUnit CopyUsage].
Proof.
  unfold keys_tab.
  cbn [events own_events has_attr existsb attr_is concat map app own_event dialog_moves content_tag dialog_tag
    String.eqb Ascii.eqb Bool.eqb orb andb negb cls].
  rewrite table_events, rows_or_events by (apply skeleton_rows_events || apply empty_row_events).
  rewrite panel_header_events, created_key_events by done. cbn [app].
  rewrite (concat_map_singleton _ (fun x => EvUnit (AskDeleteKey x))) by (by intros []).
  rewrite !app_nil_r. assert (events true (usage_example origin k) = [EvUnit CopyUsage]) as ->; [|done].
  unfold usage_example. by destruct (kp_usageCopied k).
Qed.

Definition pending (f : org_form) : bool := bool_decide (is_Some (of_saving f)).

Lemma general_tab_events s :
  events true (general_tab s) =
  [EvStr OrgNameChange; EvStr OrgDescChange]
  ++ (if of_dirty (st_form s) && negb (pending (st_form s)) then [EvUnit SaveOrg] else []).
Proof.
  unfold general_tab, pending. by destruct (of_dirty _), (bool_decide _).
Qed.

Definition invite_events (m : members_panel) : list (ui_event act) :=
  (if mp_inviteOpen m then [EvUnit (InviteOpenChange false)] else [])
  ++ (if mp_inviteOpen m then
     [EvStr InviteEmail; EvChoice InviteRole ["ADMIN"; "OPERATOR"; "VIEWER"]; EvUnit CancelInvite]
     ++ (if truthy (mp_inviteEmail m) && negb (mp_inviting m) then [EvUnit SubmitInvite] else [])
   else []).

Lemma invite_dialog_events m : events true (invite_dialog m) = invite_events m.
Proof.
  unfold invite_dialog, invite_events. by destruct (mp_inviteOpen m), (truthy _), (mp_inviting m).
Qed.

Definition token_form_events (t : tokens_panel) : list (ui_event act) :=
  [EvStr TokenDesc; EvStr TokenMaxUses; EvUnit CancelToken]
  ++ (if truthy (tk_desc t) && negb (tk_creating t) then [EvUnit SubmitToken] else []).

Definition token_events (t : tokens_panel) : list (ui_event act) :=
  (if tk_open t then [EvUnit (TokenOpenChange false)] else [])
  ++ (if tk_open t then
     match tk_created t with
     | Some raw => if truthy raw then [EvUnit (CopyToken raw); EvUnit DoneToken] else token_form_events t
     | None => token_form_events t
     end
   else []).

Lemma token_dialog_events t : events true (token_dialog t) = token_events t.
Proof.
  unfold token_dialog, token_events, token_form, token_form_events, submit_button.
  destruct (tk_open t), (tk_created t) as [raw|]; try destruct (truthy raw);
    by destruct (truthy (tk_desc t)), (tk_creating t).
Qed.

Definition key_events (k : keys_panel) : list (ui_event act) :=
  (if kp_open k then [EvUnit (ApiKeyOpenChange false)] else [])
  ++ (if kp_open k then
     [EvStr ApiKeyName; EvUnit CancelApiKey]
     ++ (if truthy (kp_name k) && negb (kp_creating k) then [EvUnit SubmitApiKey] else [])
   else []).

Lemma key_dialog_events k : events true (key_dialog k) = key_events k.
Proof. unfold key_dialog, key_events. by destruct (kp_open k), (truthy _), (kp_creating k). Qed.

Definition confirm_events (open : bool) (toggle : bool -> act) (confirm : act) (busy : bool)
    : list (ui_event act) :=
  (if open then [EvUnit (toggle false)] else []) ++ (if open && negb busy then [EvUnit confirm] else []).

Definition tab_events (s : settings) : list (ui_event act) :=
  let tab v := String.eqb (st_tab s) v in
  (if tab "general" then
     [EvStr OrgNameChange; EvStr OrgDescChange]
     ++ (if of_dirty (st_form s) && negb (pending (st_form s)) then [EvUnit SaveOrg] else [])
   else [])
  ++ (if tab "members" then
        EvUnit OpenInvite
        :: concat (map member_events (loaded_rows (mp_membersLoading (st_members s)) (mp_members (st_members s))))
        ++ invitation_events (st_members s)
      else [])
  ++ (if tab "tokens" then
        EvUnit OpenToken :: map (fun x => EvUnit (AskDeleteToken x))
                              (loaded_rows (tk_loading (st_tokens s)) (tk_tokens (st_tokens s)))
      else [])
  ++ (if tab "api-keys" then
        EvUnit OpenApiKey :: created_events (st_keys s)
        ++ map (fun x => EvUnit (AskDeleteKey x))
             (loaded_rows (kp_loading (st_keys s)) (kp_keys (st_keys s)))
        ++ [EvUnit CopyUsage]
      else []).

Definition tab_names : list string := ["general"; "members"; "tokens"; "api-keys"].

Lemma rows_or_choices {X} loading skeleton empty (row : X -> node act) l :
  choices skeleton = [] -> choices empty = [] -> (forall x, choices (row x) = []) ->
  choices (rows_or loading skeleton empty row l) = [].
Proof.
  intros Hs He Hr. unfold rows_or. destruct loading; [done|].
  destruct l as [[|x l]|]; [done| |done]. rewrite choices_Frag_map. by apply concat_map_nil.
Qed.

Lemma table_choices l body : choices (table (heads l) body) = choices body.
Proof.
  unfold table, heads. cbn. rewrite map_map, concat_map_nil by done. by rewrite !app_nil_r.
Qed.

Lemma member_row_choices m : choices (member_row m) = [].
Proof. unfold member_row. by destruct (mb_email m), (negb _). Qed.

Lemma invitations_card_choices p : choices (invitations_card p) = [].
Proof.
  unfold invitations_card. destruct (mp_invitations p) as [[|i l]|]; [done| |done].
  generalize (i :: l) as inv. intros inv.
  cbn [choices map concat app choice_tag String.eqb Ascii.eqb Bool.eqb orb].
  rewrite table_choices, choices_Frag_map, concat_map_nil by done. done.
Qed.

Lemma created_key_choices k : choices (created_key k) = [].
Proof.
  unfold created_key. destruct (kp_created k) as [raw|]; [|done].
  destruct (truthy raw); [|done]. by destruct (kp_copied k).
Qed.

Lemma members_tab_choices p : choices (members_tab p) = [].
Proof.
  unfold members_tab. cbn [choices map concat app choice_tag String.eqb Ascii.eqb Bool.eqb orb].
  rewrite table_choices, invitations_card_choices, rows_or_choices;
    [done|by vm_compute|by vm_compute|apply member_row_choices].
Qed.

Lemma tokens_tab_choices t : choices (tokens_tab t) = [].
Proof.
  unfold tokens_tab. cbn [choices map concat app choice_tag String.eqb Ascii.eqb Bool.eqb orb].
  rewrite table_choices, rows_or_choices; [done|by vm_compute|by vm_compute|by intros []].
Qed.

Lemma keys_tab_choices origin k : choices (keys_tab origin k) = [].
Proof.
  unfold keys_tab. cbn [choices map concat app choice_tag String.eqb Ascii.eqb Bool.eqb orb].
  rewrite table_choices, created_key_choices, rows_or_choices;
    [|by vm_compute|by vm_compute|by intros []].
  unfold usage_example. by destruct (kp_usageCopied k).
Qed.

Lemma when_choices (c : bool) (n : node act) : choices n = [] -> choices (when c n) = [].
Proof. by destruct c. Qed.

Lemma settings_tabs_events s :
  events true (settings_tabs s) = EvChoice TabChange tab_names :: tab_events s.
Proof.
  unfold tab_events. cbv zeta.
  pose proof (when_choices (String.eqb (st_tab s) "general") (general_tab s) eq_refl) as H1.
  pose proof (when_choices (String.eqb (st_tab s) "members") _ (members_tab_choices (st_members s))) as H2.
  pose proof (when_choices (String.eqb (st_tab s) "tokens") _ (tokens_tab_choices (st_tokens s))) as H3.
  pose proof (when_choices (String.eqb (st_tab s) "api-keys") _
    (keys_tab_choices (st_origin s) (st_keys s))) as H4.
  revert H1 H2 H3 H4.
  rewrite <- (general_tab_events s), <- (members_tab_events (st_members s)),
    <- (tokens_tab_events (st_tokens s)), <- (keys_tab_events (st_origin s) (st_keys s)).
  rewrite <- !(events_when true).
  unfold settings_tabs. cbv zeta.
  generalize (when (String.eqb (st_tab s) "general") (general_tab s)) as n1,
    (when (String.eqb (st_tab s) "members") (members_tab (st_members s))) as n2,
    (when (String.eqb (st_tab s) "tokens") (tokens_tab (st_tokens s))) as n3,
    (when (String.eqb (st_tab s) "api-keys") (keys_tab (st_origin s) (st_keys s))) as n4.
  intros n1 n2 n3 n4 H1 H2 H3 H4. events_simpl. rewrite H1, H2, H3, H4. cbn [app].
  by rewrite ?app_nil_r.
Qed.

Lemma settings_view_events s :
  events true (settings_view s) =
  (EvChoice TabChange tab_names :: tab_events s)
  ++ invite_events (st_members s) ++ token_events (st_tokens s) ++ key_events (st_keys s)
  ++ confirm_events (some (mp_removeTarget (st_members s))) RemoveOpenChange ConfirmRemoveMember
       (mp_removing (st_members s))
  ++ confirm_events (some (tk_deleteTarget (st_tokens s))) DeleteTokenOpenChange ConfirmDeleteToken
       (tk_deleting (st_tokens s))
  ++ confirm_events (some (kp_deleteTarget (st_keys s))) DeleteKeyOpenChange ConfirmDeleteKey
       (kp_deleting (st_keys s)).
Proof.
  rewrite <- (settings_tabs_events s), <- invite_dialog_events, <- token_dialog_events, <- key_dialog_events.
  unfold settings_view, settings_dialogs, remove_dialog, revoke_token_dialog, revoke_key_dialog. cbv zeta.
  cbn [events own_events has_attr existsb attr_is concat map app own_event dialog_moves content_tag dialog_tag
    String.eqb Ascii.eqb Bool.eqb orb andb negb cls].
  rewrite PageHeader_events, !ConfirmDialog_events. cbn [map concat app]. by rewrite app_nil_r.
Qed.

(** ** When each handler can fire *)

Definition shown_secret (o : option string) : bool :=
  match o with Some raw => truthy raw | None => false end.

Definition settings_guard (s : settings) (a : act) : Prop :=
  let tab v := st_tab s = v in
  let f := st_form s in
  let m := st_members s in
  let t := st_tokens s in
  let k := st_keys s in
  let token_entry := tk_open t = true /\ shown_secret (tk_created t) = false in
  match a with
  | TabChange v => In v tab_names
  | OrgNameChange _ | OrgDescChange _ => tab "general"
  | SaveOrg => tab "general" /\ of_dirty f = true /\ of_saving f = None
  | OpenInvite => tab "members"
  | InviteEmail _ | CancelInvite => mp_inviteOpen m = true
  | InviteRole v => mp_inviteOpen m = true /\ In v ["ADMIN"; "OPERATOR"; "VIEWER"]
  | SubmitInvite => mp_inviteOpen m = true /\ mp_inviteEmail m <> "" /\ mp_inviting m = false
  | AskRemoveMember x =>
      tab "members" /\ In x (loaded_rows (mp_membersLoading m) (mp_members m)) /\ mb_role x <> "OWNER"
  | ConfirmRemoveMember => is_Some (mp_removeTarget m) /\ mp_removing m = false
  | RevokeInvitation id =>
      tab "members" /\ mp_revoking m = false /\
      exists i, id = iv_id i /\ In i (mp_invitations m ?? [])
  | OpenToken => tab "tokens"
  | CopyToken raw => tk_open t = true /\ tk_created t = Some raw /\ truthy raw = true
  | DoneToken => tk_open t = true /\ shown_secret (tk_created t) = true
  | TokenDesc _ | TokenMaxUses _ | CancelToken => token_entry
  | SubmitToken => token_entry /\ tk_desc t <> "" /\ tk_creating t = false
  | AskDeleteToken x => tab "tokens" /\ In x (loaded_rows (tk_loading t) (tk_tokens t))
  | ConfirmDeleteToken => is_Some (tk_deleteTarget t) /\ tk_deleting t = false
  | OpenApiKey | CopyUsage => tab "api-keys"
  | CopyKey raw => tab "api-keys" /\ kp_created k = Some raw /\ truthy raw = true
  | ApiKeyName _ | CancelApiKey => kp_open k = true
  | SubmitApiKey => kp_open k = true /\ kp_name k <> "" /\ kp_creating k = false
  | AskDeleteKey x => tab "api-keys" /\ In x (loaded_rows (kp_loading k) (kp_keys k))
  | ConfirmDeleteKey => is_Some (kp_deleteTarget k) /\ kp_deleting k = false
  | InviteOpenChange v => mp_inviteOpen m = true /\ v = false
  | RemoveOpenChange v => is_Some (mp_removeTarget m) /\ v = false
  | TokenOpenChange v => tk_open t = true /\ v = false
  | DeleteTokenOpenChange v => is_Some (tk_deleteTarget t) /\ v = false
  | ApiKeyOpenChange v => kp_open k = true /\ v = false
  | DeleteKeyOpenChange v => is_Some (kp_deleteTarget k) /\ v = false
  | _ => False
  end.

Lemma emitted_members l a :
  emitted (concat (map member_events l)) a <->
  exists m, a = AskRemoveMember m /\ In m l /\ mb_role m <> "OWNER".
Proof.
  induction l as [|m l IH]; cbn [map concat]; [rewrite emitted_nil; firstorder|].
  rewrite emitted_app, IH. unfold member_events at 1, not_owner. rewrite emitted_if, negb_true_iff, String.eqb_neq.
  cbn [emits In]. emits_solve.
Qed.

Lemma pending_false f : pending f = false <-> of_saving f = None.
Proof. unfold pending. rewrite bool_decide_eq_false. symmetry. apply eq_None_not_Some. Qed.

Lemma some_true {X} (o : option X) : some o = true <-> is_Some o.
Proof. destruct o; split; intros H; first [done|by eexists|by destruct H]. Qed.

Lemma emitted_created raw k a :
  raw = kp_created k ->
  emitted (created_events k) a <-> exists v, a = CopyKey v /\ raw = Some v /\ truthy v = true.
Proof.
  intros ->. unfold created_events. destruct (kp_created k) as [v|]; [|rewrite emitted_nil; firstorder congruence].
  rewrite emitted_if. cbn [emits]. emits_solve.
Qed.

Lemma emitted_token_entry (t : tokens_panel) a :
  emitted (token_events t) a <->
  match a with
  | TokenOpenChange v => tk_open t = true /\ v = false
  | CopyToken raw => tk_open t = true /\ tk_created t = Some raw /\ truthy raw = true
  | DoneToken => tk_open t = true /\ shown_secret (tk_created t) = true
  | TokenDesc _ | TokenMaxUses _ | CancelToken => tk_open t = true /\ shown_secret (tk_created t) = false
  | SubmitToken => (tk_open t = true /\ shown_secret (tk_created t) = false) /\
                   tk_desc t <> "" /\ tk_creating t = false
  | _ => False
  end.
Proof.
  unfold token_events, token_form_events. rewrite emitted_app, emitted_if. cbn [emits].
  destruct (tk_open t); [|rewrite emitted_nil; destruct a; emits_solve].
  destruct (tk_created t) as [raw|]; [destruct (truthy raw) eqn:E|]; cbn [shown_secret]; rewrite ?E;
    rewrite ?emitted_app, ?emitted_cons, ?emitted_if, ?emitted_nil, ?andb_true_iff, ?negb_true_iff, ?truthy_true;
    cbn [emits]; destruct a; emits_solve.
Qed.

Lemma settings_tab_emitted s a :
  emitted (tab_events s) a <->
  match a with
  | OrgNameChange _ | OrgDescChange _ | SaveOrg | OpenInvite | AskRemoveMember _ | RevokeInvitation _
  | OpenToken | AskDeleteToken _ | OpenApiKey | CopyKey _ | CopyUsage | AskDeleteKey _ =>
      settings_guard s a
  | _ => False
  end.
Proof.
  unfold tab_events. cbv zeta. rewrite !emitted_app.
  destruct (String.eqb_spec (st_tab s) "general") as [E|E];
    [|destruct (String.eqb_spec (st_tab s) "members") as [E1|E1];
      [|destruct (String.eqb_spec (st_tab s) "tokens") as [E2|E2];
        [|destruct (String.eqb_spec (st_tab s) "api-keys") as [E3|E3]]]].
  - rewrite E. cbn [String.eqb Ascii.eqb Bool.eqb andb].
    rewrite !emitted_app, !emitted_cons, emitted_if, !emitted_nil, andb_true_iff, negb_true_iff, pending_false.
    cbn [emits]. destruct a; cbn [settings_guard]; rewrite ?E; emits_solve.
  - rewrite E1. cbn [String.eqb Ascii.eqb Bool.eqb andb]. unfold invitation_events.
    rewrite emitted_cons, emitted_app, emitted_members, !emitted_nil.
    assert (forall l, emitted (if mp_revoking (st_members s) then [] else
      map (fun i => EvUnit (RevokeInvitation (iv_id i))) l) a <->
      mp_revoking (st_members s) = false /\ exists i, a = RevokeInvitation (iv_id i) /\ In i l) as ->.
    { intros l. destruct (mp_revoking _); [rewrite emitted_nil|rewrite emitted_rows]; intuition congruence. }
    cbn [emits]. destruct a; cbn [settings_guard]; rewrite ?E1; emits_solve.
  - rewrite E2. cbn [String.eqb Ascii.eqb Bool.eqb andb].
    rewrite !emitted_cons, emitted_rows, !emitted_nil.
    cbn [emits]. destruct a; cbn [settings_guard]; rewrite ?E2; emits_solve.
  - cbn [String.eqb Ascii.eqb Bool.eqb andb].
    rewrite !emitted_cons, !emitted_app, emitted_rows, emitted_cons, !emitted_nil.
    rewrite (emitted_created (kp_created (st_keys s))) by done.
    cbn [emits]. destruct a; cbn [settings_guard]; rewrite ?E3; emits_solve.
  - rewrite !emitted_nil. destruct a; cbn [settings_guard]; emits_solve.
Qed.

Lemma settings_fires s a : fires (settings_view s) a <-> settings_guard s a.
Proof.
  rewrite fires_emitted, settings_view_events.
  unfold invite_events, key_events, confirm_events.
  rewrite !emitted_app, !emitted_cons, settings_tab_emitted, emitted_token_entry, !emitted_if.
  rewrite !andb_true_iff, !negb_true_iff, !some_true. cbn [emits].
  assert (forall (c : bool) l, emitted (if c then l else []) a <-> c = true /\ emitted l a) as Hc.
  { intros [] l; rewrite ?emitted_nil; intuition congruence. }
  rewrite !Hc, !emitted_app, !emitted_cons, !emitted_if, !emitted_nil, !andb_true_iff, !negb_true_iff, !truthy_true.
  cbn [emits]. destruct a; cbn [settings_guard]; emits_solve.
Qed.
End handlers.

(** ** Steps by panel *)

Lemma update_form s a :
  st_form (fst (settings_update s a)) =
  match a with
  | TabChange v =>
      if String.eqb v "general" && negb (String.eqb v (st_tab s))
      then initOrgForm (st_form s) else st_form s
  | _ => fst (form_step (st_form s) a)
  end.
Proof.
  unfold settings_update. destruct (form_step _ a) as [f e1] eqn:Ef, (members_step _ a), (tokens_step _ a), (keys_step _ _ a).
  destruct a; try reflexivity. cbn in Ef. by injection Ef as <- _.
Qed.

Lemma update_members s a :
  st_members (fst (settings_update s a)) = fst (members_step (st_members s) a).
Proof.
  unfold settings_update. destruct (form_step _ a), (members_step _ a), (tokens_step _ a), (keys_step _ _ a).
  by destruct a.
Qed.

Lemma update_tokens s a : st_tokens (fst (settings_update s a)) = fst (tokens_step (st_tokens s) a).
Proof.
  unfold settings_update. destruct (form_step _ a), (members_step _ a), (tokens_step _ a), (keys_step _ _ a).
  by destruct a.
Qed.

Lemma update_keys s a :
  st_keys (fst (settings_update s a)) = fst (keys_step (st_origin s) (st_keys s) a).
Proof.
  unfold settings_update. destruct (form_step _ a), (members_step _ a), (tokens_step _ a), (keys_step _ _ a).
  by destruct a.
Qed.

Lemma update_effects s a :
  snd (settings_update s a) =
  snd (form_step (st_form s) a) ++ snd (members_step (st_members s) a)
  ++ snd (tokens_step (st_tokens s) a) ++ snd (keys_step (st_origin s) (st_keys s) a).
Proof.
  unfold settings_update. destruct (form_step _ a), (members_step _ a), (tokens_step _ a), (keys_step _ _ a).
  by destruct a.
Qed.

(** ** What a click can call *)

Definition invite_roles : list string := ["ADMIN"; "OPERATOR"; "VIEWER"].

(** The role of an invitation is one of the offered ones, and an owner is never
    up for removal. *)
Definition settings_inv (s : settings) : Prop :=
  In (mp_inviteRole (st_members s)) invite_roles /\
  forall m, mp_removeTarget (st_members s) = Some m -> mb_role m <> "OWNER".

(** The calls that a state allows. *)
Definition call_allowed (s : settings) (e : settings_effect) : Prop :=
  let f := st_form s in
  let m := st_members s in
  let t := st_tokens s in
  let k := st_keys s in
  match e with
  | CallUpdateOrganization name description =>
      st_tab s = "general" /\ name = shown_name f /\ description = shown_desc f /\ of_dirty f = true /\
      of_saving f = None
  | CallInviteMember email role =>
      mp_inviteOpen m = true /\ email = mp_inviteEmail m /\ email <> "" /\
      role = mp_inviteRole m /\ In role invite_roles /\ mp_inviting m = false
  | CallRemoveMember id =>
      mp_removing m = false /\
      exists x, mp_removeTarget m = Some x /\ id = mb_id x /\ mb_role x <> "OWNER"
  | CallRevokeInvitation id =>
      mp_revoking m = false /\ exists i, id = iv_id i /\ In i (mp_invitations m ?? [])
  | CallCreateToken description maxUses =>
      tk_open t = true /\ description = tk_desc t /\ description <> "" /\ maxUses = tk_maxUses t /\
      tk_creating t = false
  | CallDeleteToken id =>
      tk_deleting t = false /\ exists x, tk_deleteTarget t = Some x /\ id = et_id x
  | CallCreateApiKey name =>
      kp_open k = true /\ name = kp_name k /\ name <> "" /\ kp_creating k = false
  | CallDeleteApiKey id =>
      kp_deleting k = false /\ exists x, kp_deleteTarget k = Some x /\ id = ak_id x
  | _ => True
  end.

Section facts.
Context {styling : Styling} {dates : Dates} {St : Type} {env : Environment St}.
Variables (enabled : bool) (role : option string).
Abbreviation page := (settings_page enabled role).

Lemma settings_reachable_inv s : page_reachable page s -> settings_inv s.
Proof.
  revert s. apply page_invariant.
  - intros s H. change (s = settings_initial enabled role) in H. subst s.
    split; [cbn; auto|by intros m [=]].
  - intros s a [Hr Ho] Ha. cbn [page_update settings_page]. unfold settings_inv. rewrite update_members.
    assert (match a with
            | InviteRole v => In v invite_roles
            | AskRemoveMember m => mb_role m <> "OWNER"
            | _ => True
            end) as Hg.
    { destruct Ha as [Ha|Ha]; [apply settings_fires in Ha|]; destruct a; try done; cbn in Ha; by destruct_and?. }
    destruct a; try (by split); cbn [members_step fst]; try (split; [cbn; tauto|done]).
    + split; [done|]. by intros x [= <-].
    + destruct v; split; cbn; try done; by intros m [=].
    + destruct (mp_removeTarget (st_members s)) eqn:E; (split; [done|]); cbn; intros x Hx;
        [|rewrite E in Hx]; apply Ho; congruence.
    + destruct r; split; cbn; auto.
    + destruct r; split; cbn; auto; by intros m [=].
    + destruct r; split; cbn; auto.
Qed.

(** C27. In a reachable state of the settings page, a click only sends what the page shows:
    the invitation, token and key of an open dialog with a name and nothing pending, the
    removal of the member, token or key of the open confirmation, never of an owner, and
    the shown organization name and description after a change. *)
Theorem clicks_call_what_is_shown s a e :
  page_reachable page s -> fires (settings_view s) a -> In e (snd (settings_update s a)) ->
  call_allowed s e.
Proof.
  intros Hr Hf He. apply settings_reachable_inv in Hr as [Hrole Hown].
  apply settings_fires in Hf. rewrite update_effects, !in_app_iff in He.
  destruct a; cbn [form_step members_step tokens_step keys_step snd settings_guard] in *;
    try (destruct (mp_removeTarget _) eqn:E1); try (destruct (tk_deleteTarget _) eqn:E2);
    try (destruct (kp_deleteTarget _) eqn:E3); cbn in He;
    repeat match goal with H : _ \/ _ |- _ => destruct H | H : False |- _ => destruct H end;
    subst e; cbn [call_allowed]; destruct_and?; eauto 10.
Qed.
End facts.
