(* ===== verification/SettingsFlows.v ===== *)
(** * Flows of the settings page

    A save of the organization form from click to outcome, what an error leaves
    behind, the life of a new API key, and that every dialog can be closed. *)

From S2P Require Import Prelude JsString JsArray Vdom UrlCodec Json Endpoints ApiClient Api ApiFacts Components Settings SettingsView SettingsFacts.

Definition settings_run (s : settings) (l : list settings_action) : settings :=
  fold_left (fun s a => fst (settings_update s a)) l s.

(** ** Saving the organization *)

(** Neither a save nor the outcome of one. *)
Definition no_save (a : settings_action) : Prop :=
  match a with SaveOrg | OrgSettled _ => False | _ => True end.
(** Nor a new answer about the organization. *)
Definition no_org (a : settings_action) : Prop :=
  match a with OrgArrives _ => False | _ => no_save a end.

Lemma form_keeps f a :
  no_save a ->
  of_saving (fst (form_step f a)) = of_saving f /\
  (no_org a -> of_org (fst (form_step f a)) = of_org f).
Proof. by destruct a. Qed.

Lemma initOrgForm_keeps f :
  of_saving (initOrgForm f) = of_saving f /\ of_org (initOrgForm f) = of_org f.
Proof. unfold initOrgForm, set_form. by destruct f as [[o|] ? ? ? ?]. Qed.

Lemma update_keeps s a :
  no_save a ->
  of_saving (st_form (fst (settings_update s a))) = of_saving (st_form s) /\
  (no_org a -> of_org (st_form (fst (settings_update s a))) = of_org (st_form s)).
Proof.
  intros H. rewrite update_form. pose proof (form_keeps (st_form s) a H) as Hk.
  destruct a; try exact Hk. destruct (_ && _); [|by split].
  destruct (initOrgForm_keeps (st_form s)). by split.
Qed.

Lemma run_keeps_saving l : forall s, Forall no_save l ->
  of_saving (st_form (settings_run s l)) = of_saving (st_form s).
Proof.
  induction l as [|a l IH]; intros s H; [done|]. apply Forall_cons in H as [Ha Hl].
  cbn [settings_run fold_left]. change (fold_left _ l ?x) with (settings_run x l).
  rewrite IH by done. by apply update_keeps.
Qed.

Lemma no_org_save a : no_org a -> no_save a.
Proof. by destruct a. Qed.

Lemma run_keeps_org l : forall s, Forall no_org l ->
  of_org (st_form (settings_run s l)) = of_org (st_form s).
Proof.
  induction l as [|a l IH]; intros s H; [done|]. apply Forall_cons in H as [Ha Hl].
  cbn [settings_run fold_left]. change (fold_left _ l ?x) with (settings_run x l).
  rewrite IH by done. destruct (update_keeps s a (no_org_save a Ha)) as [_ Hk]. by apply Hk.
Qed.

Lemma optimistic_shown f o :
  of_org f = Some o ->
  og_name (optimistic f o) = shown_name f /\ (og_description (optimistic f o) ?? "") = shown_desc f.
Proof.
  intros Ho. unfold optimistic, shown_name, shown_desc. rewrite Ho. cbn.
  by destruct (of_name f), (of_desc f).
Qed.

(** C28. When saving the organization fails, the cached organization is the one from before
    the optimistic update, whatever else happened in between, and the typed values are
    kept. *)
Theorem failed_save_restores s o l m :
  of_org (st_form s) = Some o -> Forall no_save l ->
  let s1 := fst (settings_update s SaveOrg) in
  let s2 := settings_run s1 l in
  let '(s3, es) := settings_update s2 (OrgSettled (Throw m)) in
  of_org (st_form s1) = Some (optimistic (st_form s) o) /\
  of_org (st_form s3) = Some o /\ of_saving (st_form s3) = None /\
  of_name (st_form s3) = of_name (st_form s2) /\ of_desc (st_form s3) = of_desc (st_form s2) /\
  es = [SettingsToastError m].
Proof.
  intros Ho Hl s1 s2. destruct (settings_update s2 (OrgSettled (Throw m))) as [s3 es] eqn:E.
  pose proof (f_equal fst E) as E1. pose proof (f_equal snd E) as E2. cbn [fst snd] in E1, E2.
  rewrite <- E1, <- E2. rewrite update_form, update_effects.
  assert (of_saving (st_form s2) = Some (Some o)) as Hs.
  { unfold s2. rewrite run_keeps_saving by done. unfold s1. rewrite update_form. cbn. by rewrite Ho. }
  assert (of_org (st_form s1) = Some (optimistic (st_form s) o)) as H1.
  { unfold s1. rewrite update_form. cbn. by rewrite Ho. }
  cbn [form_step fst snd of_org of_saving of_name of_desc set_form]. rewrite Hs. by split_and!.
Qed.

(** C:saved_form *)
Theorem saved_form_shows_what_was_sent s o l :
  of_org (st_form s) = Some o -> Forall no_org l ->
  let name := shown_name (st_form s) in
  let desc := shown_desc (st_form s) in
  let '(s1, call) := settings_update s SaveOrg in
  let s2 := settings_run s1 l in
  let s3 := fst (settings_update s2 (OrgSettled (Ok tt))) in
  call = [CallUpdateOrganization name desc] /\
  shown_name (st_form s1) = name /\ shown_desc (st_form s1) = desc /\
  shown_name (st_form s3) = name /\ shown_desc (st_form s3) = desc /\
  of_dirty (st_form s3) = false.
Proof.
  intros Ho Hl name desc. destruct (settings_update s SaveOrg) as [s1 call] eqn:E. intros s2 s3.
  pose proof (f_equal fst E) as E1. pose proof (f_equal snd E) as E2. cbn [fst snd] in E1, E2.
  destruct (optimistic_shown (st_form s) o Ho) as [Hn Hd].
  assert (st_form s1 = set_form (Some (optimistic (st_form s) o)) (of_name (st_form s))
    (of_desc (st_form s)) (of_dirty (st_form s)) (Some (Some o))) as H1.
  { rewrite <- E1, update_form. cbn. by rewrite Ho. }
  assert (of_org (st_form s2) = Some (optimistic (st_form s) o)) as H2.
  { unfold s2. rewrite run_keeps_org by done. by rewrite H1. }
  assert (st_form s3 = set_form (Some (optimistic (st_form s) o)) None None false None) as H3.
  { unfold s3. rewrite update_form. cbn. by rewrite H2. }
  rewrite H3, H1. split_and!; try done.
  - unfold shown_name. cbn [of_name of_org set_form]. unfold name.
    revert Hn. unfold shown_name. by destruct (of_name (st_form s)).
  - unfold shown_desc. cbn [of_desc of_org set_form]. unfold desc.
    revert Hd. unfold shown_desc. by destruct (of_desc (st_form s)).
Qed.

(** ** Errors *)

(** What the user has entered or opened. *)
Definition entered (s : settings) :=
  let m := st_members s in
  let t := st_tokens s in
  let k := st_keys s in
  (st_tab s, (of_name (st_form s), of_desc (st_form s), of_dirty (st_form s)),
   (mp_inviteOpen m, mp_inviteEmail m, mp_inviteRole m, mp_removeTarget m),
   (tk_open t, tk_desc t, tk_maxUses t, tk_deleteTarget t, tk_created t),
   (kp_open k, kp_name k, kp_deleteTarget k, kp_created k)).

(** The failed outcomes of the page's mutations. *)
Definition failure (a : settings_action) (m : string) : Prop :=
  match a with
  | OrgSettled r | RemoveSettled r | RevokeSettled r | TokenDeleteSettled r | KeyDeleteSettled r =>
      r = Throw m
  | InviteSettled r => r = Throw m
  | TokenSettled r | KeySettled r => r = Throw m
  | _ => False
  end.

(** C:failure_keeps *)
Theorem failure_keeps_what_was_entered s a m :
  failure a m ->
  let '(s', es) := settings_update s a in
  es = [SettingsToastError m] /\ entered s' = entered s.
Proof. intros H. by destruct a; try done; cbn in H; subst. Qed.

(** ** A new API key *)

Section pages.
Context {styling : Styling} {dates : Dates} {St : Type} {env : Environment St}.
Variables (enabled : bool) (role : option string).
Abbreviation page := (settings_page enabled role).

Lemma clicks_show_no_key s a :
  fires (settings_view s) a ->
  kp_created (st_keys s) = None -> kp_created (st_keys (fst (settings_update s a))) = None.
Proof.
  intros Hf Hk. apply settings_fires in Hf. rewrite update_keys.
  destruct a; cbn [keys_step fst]; cbn; try done.
  - by destruct v.
  - by destruct v.
  - by destruct (kp_deleteTarget _).
Qed.

(** The texts of the box that shows a new key. *)
Definition key_texts (s : settings) : list string := texts (created_key (st_keys s)).

(** C29. A new API key that is shown under the open creation dialog disappears for good when
    the dialog is dismissed instead of cancelled: no click shows it again. *)
Theorem dismissed_key_is_lost s raw :
  kp_open (st_keys s) = true -> kp_created (st_keys s) = Some raw ->
  let dismissed := fst (settings_update s (ApiKeyOpenChange false)) in
  let cancelled := fst (settings_update s CancelApiKey) in
  fires (settings_view s) (ApiKeyOpenChange false) /\ fires (settings_view s) CancelApiKey /\
  (forall s', user_steps page dismissed s' -> key_texts s' = []) /\
  kp_open (st_keys cancelled) = false /\ kp_created (st_keys cancelled) = Some raw.
Proof.
  intros Ho Hc dismissed cancelled. rewrite !settings_fires. cbn [settings_guard].
  split; [done|]. split; [done|]. split.
  - intros s' Hs. assert (kp_created (st_keys s') = None) as H.
    { refine (user_invariant page (fun s => kp_created (st_keys s) = None) _ dismissed s' Hs _).
      - intros s0 a Hn Hf. exact (clicks_show_no_key s0 a Hf Hn).
      - unfold dismissed. by rewrite update_keys. }
    unfold key_texts, created_key. by rewrite H.
  - unfold cancelled. rewrite update_keys. cbn. by rewrite Hc.
Qed.

(** ** Closing dialogs *)

Inductive settings_dialog :=
  invite_dlg | remove_dlg | token_dlg | delete_token_dlg | key_dlg | delete_key_dlg.

#[local] Instance settings_dialog_eq : EqDecision settings_dialog.
Proof. solve_decision. Defined.










(** C:stuck_draft *)
Theorem failed_save_shows_unsavable_name s o m :
  st_tab s = "general" -> of_org (st_form s) = Some o ->
  let s1 := fst (settings_update s SaveOrg) in
  let s2 := settings_run s1 [TabChange "members"; TabChange "general"] in
  let s3 := fst (settings_update s2 (OrgSettled (Throw m))) in
  of_org (st_form s3) = Some o /\ shown_name (st_form s3) = shown_name (st_form s) /\
  ~ fires (settings_view s3) SaveOrg.
Proof.
  intros Ht Ho s1 s2 s3. destruct (optimistic_shown (st_form s) o Ho) as [Hn _].
  assert (st_form s3 = set_form (Some o) (Some (og_name (optimistic (st_form s) o)))
    (Some (og_description (optimistic (st_form s) o) ?? "")) false None) as H3.
  { destruct s as [r or tab f me tk ks]. cbn in Ht, Ho. subst tab.
    destruct f as [org fname fdesc fdirty fsaving]. cbn in Ho. subst org. reflexivity. }
  rewrite settings_fires. cbn [settings_guard]. rewrite H3. cbn [of_org of_dirty set_form].
  split; [done|]. split; [|by intros (_ & [=] & _)]. by rewrite <- Hn.
Qed.

(** The five installer links of a token row carry the platform and the whole enrollment
    token, which a server reads back unchanged from the query. *)
Theorem installer_links_carry_token t :
  has_char "?" API_BASE_URL = false ->
  map query_of (hrefs (token_row t)) =
  map (fun i => [("os", fst (fst i)); ("arch", snd (fst i)); ("token", et_token t)]) installers.
Proof.
  intros Hb.
  assert (hrefs (token_row t) = map (fun i => buildInstallerUrl (fst (fst i)) (snd (fst i)) (et_token t)) installers)
    as -> by reflexivity.
  rewrite map_map. apply map_ext. intros i. by apply installer_url.
Qed.
End pages.

(** ** Witnesses *)

Section sample.
#[local] Existing Instance plain_styling.
#[local] Existing Instance plain_dates.
#[local] Existing Instance silent_env.
Abbreviation page := (settings_page true (Some "OWNER")).

Definition acme : Organization := {|
  og_id := 1; og_name := "Acme"; og_slug := "acme"; og_description := None; og_createdAt := "2024" |}.
Definition alice : OrgMember := {|
  mb_id := 7; mb_userId := 70; mb_email := Some "alice@acme.example"; mb_displayName := None;
  mb_avatarUrl := None; mb_role := "VIEWER"; mb_joinedAt := "2024" |}.
Definition fleet_token : EnrollmentToken := {|
  et_id := 1; et_token := "egt_a+b/c="; et_name := "fleet"; et_maxUses := 100; et_useCount := 0;
  et_expiresAt := None; et_createdAt := "2024" |}.

Definition s0 : settings := settings_initial true (Some "OWNER").
Definition renamed : settings := settings_run s0 [OrgArrives acme; OrgNameChange "Acme 2"].
Definition removing : settings :=
  settings_run s0 [MembersArrive (Some [alice]); TabChange "members"; AskRemoveMember alice].
Definition with_key : settings :=
  settings_run s0 [TabChange "api-keys"; OpenApiKey; ApiKeyName "ci"; SubmitApiKey; KeySettled (Ok "egk_1")].

Lemma removing_reachable : page_reachable page removing.
Proof.
  set (s1 := settings_run s0 [MembersArrive (Some [alice])]).
  set (s2 := settings_run s1 [TabChange "members"]).
  apply (reach_step _ s2 (AskRemoveMember alice)).
  2: { apply (step_user page s2 (AskRemoveMember alice)), settings_fires. by repeat split; [left|]. }
  apply (reach_step _ s1 (TabChange "members")).
  2: { apply (step_user page s1 (TabChange "members")), settings_fires. cbn. auto. }
  apply (reach_step _ s0 (MembersArrive (Some [alice]))); [by constructor|].
  by apply (step_extern page s0 (MembersArrive (Some [alice]))).
Qed.

Lemma clicks_call_what_is_shown_witness :
  call_allowed removing (CallRemoveMember 7).
Proof.
  refine (clicks_call_what_is_shown true (Some "OWNER") removing ConfirmRemoveMember (CallRemoveMember 7)
    removing_reachable _ _); [|by left].
  apply settings_fires. by split; [eexists|].
Defined.

Lemma failed_save_restores_witness :
  let s1 := fst (settings_update renamed SaveOrg) in
  let s2 := settings_run s1 [OrgNameChange "Acme 3"] in
  let '(s3, es) := settings_update s2 (OrgSettled (Throw "503")) in
  of_org (st_form s1) = Some (optimistic (st_form renamed) acme) /\
  of_org (st_form s3) = Some acme /\ of_saving (st_form s3) = None /\
  of_name (st_form s3) = Some "Acme 3" /\ of_desc (st_form s3) = None /\
  es = [SettingsToastError "503"].
Proof.
  refine (failed_save_restores renamed acme [OrgNameChange "Acme 3"] "503" eq_refl _).
  by repeat constructor.
Defined.

(** The second edit is lost: the saved form shows the first. *)
Lemma saved_form_shows_what_was_sent_witness :
  let '(s1, call) := settings_update renamed SaveOrg in
  let s2 := settings_run s1 [OrgNameChange "Acme 3"] in
  let s3 := fst (settings_update s2 (OrgSettled (Ok tt))) in
  call = [CallUpdateOrganization "Acme 2" ""] /\
  shown_name (st_form s1) = "Acme 2" /\ shown_desc (st_form s1) = "" /\
  shown_name (st_form s3) = "Acme 2" /\ shown_desc (st_form s3) = "" /\
  of_dirty (st_form s3) = false.
Proof.
  refine (saved_form_shows_what_was_sent renamed acme [OrgNameChange "Acme 3"] eq_refl _).
  by repeat constructor.
Defined.

Lemma failure_keeps_what_was_entered_witness :
  let '(s', es) := settings_update with_key (KeySettled (Throw "403")) in
  es = [SettingsToastError "403"] /\ entered s' = entered with_key.
Proof. exact (failure_keeps_what_was_entered with_key (KeySettled (Throw "403")) "403" eq_refl). Defined.

Lemma dismissed_key_is_lost_witness :
  let dismissed := fst (settings_update with_key (ApiKeyOpenChange false)) in
  let cancelled := fst (settings_update with_key CancelApiKey) in
  fires (settings_view with_key) (ApiKeyOpenChange false) /\ fires (settings_view with_key) CancelApiKey /\
  (forall s', user_steps page dismissed s' -> key_texts s' = []) /\
  kp_open (st_keys cancelled) = false /\ kp_created (st_keys cancelled) = Some "egk_1".
Proof. exact (dismissed_key_is_lost true (Some "OWNER") with_key "egk_1" eq_refl eq_refl). Defined.

Lemma failed_save_shows_unsavable_name_witness :
  let s1 := fst (settings_update renamed SaveOrg) in
  let s2 := settings_run s1 [TabChange "members"; TabChange "general"] in
  let s3 := fst (settings_update s2 (OrgSettled (Throw "503"))) in
  of_org (st_form s3) = Some acme /\ shown_name (st_form s3) = "Acme 2" /\
  ~ fires (settings_view s3) SaveOrg.
Proof. exact (failed_save_shows_unsavable_name renamed acme "503" eq_refl eq_refl). Defined.

Lemma installer_links_carry_token_witness :
  map query_of (hrefs (token_row fleet_token)) =
  map (fun i => [("os", fst (fst i)); ("arch", snd (fst i)); ("token", "egt_a+b/c=")]) installers.
Proof. exact (installer_links_carry_token fleet_token eq_refl). Defined.
End sample.
