(* ===== verification/Dashboard.v ===== *)
(** * Dashboard: ui/app/(dashboard)/dashboard/page.tsx

    The page has no handlers: it is a function of two query results. *)

From S2P Require Import Prelude JsString JsNumber JsArray Vdom Api Components Charts.

Record dashboard := {
  db_devices : option (list Device);
  db_devicesLoading : bool;
  db_auditLog : option (list AuditLogEntry)
}.

Definition db_list (s : dashboard) : list Device := db_devices s ?? [].

Definition in_state (st : string) (d : Device) : bool := String.eqb (dev_state d) st.

(** [devices?.filter(...).length ?? 0] *)
Definition count_state (st : string) (s : dashboard) : Z :=
  zlength (List.filter (in_state st) (db_list s)).
Definition db_total (s : dashboard) : Z := zlength (db_list s).
Definition db_online (s : dashboard) : Z := count_state "ONLINE" s.
Definition db_degraded (s : dashboard) : Z := count_state "DEGRADED" s.
Definition db_offline (s : dashboard) : Z := count_state "OFFLINE" s.

(** The sum is taken from the left, over all devices; the count is of those that
    report; [|| 0] turns [NaN] into zero before rounding. *)
Definition avgCpu (s : dashboard) : number :=
  if 0 <? db_total s then
    math_round
      (or_zero
         (num_div (fold_left (fun sum d => num_add sum (cpu_or_zero d)) (db_list s) (num_of_Z 0))
                  (num_of_Z (zlength (List.filter reports_cpu (db_list s))))))
  else num_of_Z 0.

(** [total ? (used / total) * 100 : none] *)
Definition memory_load (d : Device) : option number :=
  match dev_status d with
  | Some st =>
      if memoryTotalBytes st =? 0 then None
      else Some (num_mul (num_div (num_of_Z (memoryUsedBytes st)) (num_of_Z (memoryTotalBytes st)))
                   (num_of_Z 100))
  | None => None
  end.

Definition is_degraded_or_loaded (d : Device) : bool :=
  in_state "DEGRADED" d
  || num_gt (cpu_or_zero d) (num_of_Z 80)
  || num_gt (memory_load d ?? num_of_Z 0) (num_of_Z 80).

Definition needsAttention (s : dashboard) : list Device :=
  List.filter is_degraded_or_loaded (db_list s).

Section view.
Context {styling : Styling} {dates : Dates} {A : Type}.

(** ** The page *)

Definition summary_cards (s : dashboard) : node A :=
  Elt "div" [cls "grid gap-4 sm:grid-cols-2 lg:grid-cols-4 stagger-children"]
    [if db_devicesLoading s then array_from 4 (fun i => MetricCardSkeleton (Some i))
     else
       Frag
         [MetricCard "Total Devices" (number_to_string (db_total s)) (Some "Across all sites") "Cpu"
            None None None (Some "/devices") None;
          MetricCard "Online" (number_to_string (db_online s) +++ " / " +++ number_to_string (db_total s))
            (Some "Reporting heartbeat") "Wifi" (Some "text-emerald-500") None
            (if 0 <? db_total s then Some (MiniRingChart (db_online s) (db_total s) None None) else None) (Some "/devices") None;
          MetricCard "Needs Attention" (number_to_string (zlength (needsAttention s)))
            (Some "Degraded or high load") "AlertTriangle" (Some "text-yellow-500") None None
            (Some "/devices") None;
          MetricCard "Avg CPU Usage" (integral_to_string (avgCpu s) +++ "%") (Some "Fleet average")
            "Activity" (Some "text-violet-500") None None None None]].

Definition health_card (s : dashboard) : node A :=
  Elt "Card" []
    [Elt "CardHeader" [] [Elt "CardTitle" [] [Txt "Fleet Health"]];
     Elt "CardContent" [] [FleetHealthChart (db_online s) (db_degraded s) (db_offline s)]].

Definition consumers_card (s : dashboard) : node A :=
  Elt "Card" []
    [Elt "CardHeader" [] [Elt "CardTitle" [] [Txt "Top Resource Consumers"]];
     Elt "CardContent" []
       [match db_devices s with
        | Some devices => ResourceUtilizationChart devices
        | None =>
            Elt "div" [cls "flex h-[250px] items-center justify-center text-sm text-muted-foreground"]
              [Txt "Loading..."]
        end]].

Definition link (href c : string) (kids : list (node A)) : node A :=
  Elt "Link" [AStr "href" href; cls c] kids.

Definition view_all (href title : string) : node A :=
  Elt "CardHeader" [cls "flex flex-row items-center justify-between"]
    [Elt "CardTitle" [] [Txt title];
     link href "text-sm text-primary hover:text-primary/80 transition-colors" [Txt "View all"]].

Definition state_line (label variant : string) (n : Z) : node A :=
  Elt "div" [cls "flex items-center justify-between rounded-lg border border-border/50 p-3"]
    [Elt "span" [cls "text-sm text-muted-foreground"] [Txt label];
     Elt "Badge" [AStr "variant" variant] [Txt (number_to_string n)]].

Definition fleet_card (s : dashboard) : node A :=
  Elt "Card" []
    [view_all "/devices" "Fleet State";
     Elt "CardContent" []
       [Elt "div" [cls "space-y-3"]
          [state_line "Online" "default" (db_online s); state_line "Degraded" "secondary" (db_degraded s);
           state_line "Offline" "destructive" (db_offline s)]]].

Definition attention_row (d : Device) : node A :=
  Elt "TableRow" [AStr "key" (deviceId d)]
    [Elt "TableCell" []
       [link ("/devices/" +++ deviceId d) "font-medium hover:underline" [Txt (hostname d)]];
     Elt "TableCell" [] [StateBadge (dev_state d) None];
     Elt "TableCell" []
       [Txt (match device_cpu d with Some c => to_fixed 0 c | None => "--" end); Txt "%"];
     Elt "TableCell" []
       [Txt (match memory_load d with
             | Some m => integral_to_string (math_round m) | None => "--" end); Txt "%"]].

Definition attention_card (s : dashboard) : node A :=
  Elt "Card" []
    [Elt "CardHeader" []
       [Elt "CardTitle" [cls "flex items-center gap-2"]
          [icon "AlertTriangle" "h-4 w-4 text-yellow-500"; Txt "Devices Needing Attention"]];
     Elt "CardContent" []
       [if 0 <? zlength (needsAttention s) then
          Elt "Table" []
            [Elt "TableHeader" []
               [Elt "TableRow" []
                  [Elt "TableHead" [] [Txt "Hostname"]; Elt "TableHead" [] [Txt "State"];
                   Elt "TableHead" [] [Txt "CPU"]; Elt "TableHead" [] [Txt "Memory"]]];
             Elt "TableBody" [] [Frag (map attention_row (slice (needsAttention s) 0 5))]]
        else
          Elt "p" [cls "text-sm text-muted-foreground"] [Txt "All devices are healthy"]]].

Definition activity_row (e : AuditLogEntry) : node A :=
  Elt "div" [ANum "key" (al_id e);
             cls "flex items-start justify-between gap-2 rounded-lg border border-border/50 p-3 transition-colors hover:bg-muted/30"]
    [Elt "div" [cls "min-w-0 flex-1"]
       [Elt "p" [cls "text-sm font-medium"] [Txt (al_action e)];
        Elt "p" [cls "truncate text-xs text-muted-foreground"]
          [Txt (al_resourceType e); Txt " "; Txt (al_resourceId e); Txt " by"; Txt " ";
           match al_userEmail e with Some m => Txt m | None => Nothing end]];
     Elt "span" [cls "shrink-0 text-xs text-muted-foreground"]
       [Txt (formatDistanceToNow (al_createdAt e))]].

Definition activity_card (s : dashboard) : node A :=
  Elt "Card" []
    [view_all "/audit" "Recent Activity";
     Elt "CardContent" []
       [match db_auditLog s with
        | None | Some [] =>
            Elt "p" [cls "text-sm text-muted-foreground"] [Txt "No recent activity to display"]
        | Some l => Elt "div" [cls "space-y-3"] [Frag (map activity_row l)]
        end]].

Definition DashboardHome (s : dashboard) : node A :=
  Elt "div" [cls "space-y-6"]
    [PageHeader "Fleet Overview" (Some "Monitor your IoT fleet at a glance") [] None;
     summary_cards s; health_card s;
     Elt "div" [cls "grid gap-4 lg:grid-cols-2"] [consumers_card s; fleet_card s];
     Elt "div" [cls "grid gap-4 lg:grid-cols-2"] [attention_card s; activity_card s]].
End view.
