(* ===== verification/DashboardFacts.v ===== *)
(** * Properties of the dashboard *)

From S2P Require Import Prelude JsString JsNumber JsArray Vdom Api Components Charts Dashboard.
From Stdlib Require Import SpecFloat Sorted.

(** ** Counters *)

Definition three_states : list string := ["ONLINE"; "DEGRADED"; "OFFLINE"].

Definition known_state (d : Device) : bool := existsb (fun st => in_state st d) three_states.

Lemma zlength_filter_le {X} (f : X -> bool) l : 0 <= zlength (List.filter f l) <= zlength l.
Proof.
  unfold zlength. induction l as [|x l IH]; cbn [List.filter]; [done|].
  destruct (f x); cbn [length]; lia.
Qed.

Lemma zlength_filter_impl {X} (f g : X -> bool) l :
  (forall x, f x = true -> g x = true) -> zlength (List.filter f l) <= zlength (List.filter g l).
Proof.
  intros H. unfold zlength. induction l as [|x l IH]; cbn [List.filter]; [done|].
  specialize (H x). destruct (f x), (g x); cbn [length]; lia.
Qed.

(** Counting with disjoint predicates counts their union. *)
Lemma three_counts l :
  zlength (List.filter (in_state "ONLINE") l) + zlength (List.filter (in_state "DEGRADED") l)
  + zlength (List.filter (in_state "OFFLINE") l) = zlength (List.filter known_state l).
Proof.
  unfold zlength. induction l as [|d l IH]; [done|]. cbn [List.filter]. unfold known_state, three_states in *.
  cbn [existsb] in *. unfold in_state in *.
  destruct (String.eqb_spec (dev_state d) "ONLINE") as [E|E]; rewrite ?E;
    [|destruct (String.eqb_spec (dev_state d) "DEGRADED") as [E'|E']; rewrite ?E';
      [|destruct (String.eqb_spec (dev_state d) "OFFLINE")]]; cbn [orb length]; cbn; lia.
Qed.

Lemma filter_full {X} (f : X -> bool) l :
  zlength (List.filter f l) = zlength l <-> List.Forall (fun x => f x = true) l.
Proof.
  unfold zlength. induction l as [|x l IH]; cbn [List.filter]; [split; [constructor|done]|].
  pose proof (zlength_filter_le f l) as Hl. unfold zlength in Hl. rewrite List.Forall_cons_iff.
  destruct (f x); cbn [length]; [rewrite <- IH; intuition lia|]. intuition (try lia; congruence).
Qed.

(** C31. The counters of the dashboard are at least zero and add up to at most the fleet, to
    all of it exactly when no device is in another state; the devices needing attention
    are between the degraded ones and all, and the two parts of the ring add up to the
    fleet. *)
Theorem fleet_counts s :
  0 <= db_online s /\ 0 <= db_degraded s /\ 0 <= db_offline s /\
  db_online s + db_degraded s + db_offline s <= db_total s /\
  (db_online s + db_degraded s + db_offline s = db_total s <->
   List.Forall (fun d => known_state d = true) (db_list s)) /\
  db_degraded s <= zlength (needsAttention s) <= db_total s /\
  fold_right Z.add 0 (ring_data (db_online s) (db_total s)) = db_total s.
Proof.
  unfold db_online, db_degraded, db_offline, count_state, db_total, needsAttention, ring_data.
  pose proof (three_counts (db_list s)) as H3.
  pose proof (zlength_filter_le known_state (db_list s)) as Hk.
  pose proof (fun st => zlength_filter_le (in_state st) (db_list s)) as Hs.
  pose proof (Hs "ONLINE"). pose proof (Hs "DEGRADED"). pose proof (Hs "OFFLINE").
  pose proof (zlength_filter_le is_degraded_or_loaded (db_list s)).
  pose proof (zlength_filter_impl (in_state "DEGRADED") is_degraded_or_loaded (db_list s)) as Hd.
  rewrite <- filter_full. split_and!; try lia; try (cbn [fold_right]; lia).
  apply Hd. intros d Hd'. unfold is_degraded_or_loaded. by rewrite Hd'.
Qed.

Lemma health_data_nil online degraded offline :
  0 <= online -> 0 <= degraded -> 0 <= offline ->
  health_data online degraded offline = [] <-> online + degraded + offline = 0.
Proof.
  intros H1 H2 H3. unfold health_data. cbn [List.filter sd_value].
  destruct (Z.ltb_spec 0 online); [split; [done|lia]|].
  destruct (Z.ltb_spec 0 degraded); [split; [done|lia]|].
  destruct (Z.ltb_spec 0 offline); split; try done; lia.
Qed.

Lemma zlength_filter_none {X} (f : X -> bool) l :
  zlength (List.filter f l) = 0 <-> List.Forall (fun x => f x = false) l.
Proof.
  unfold zlength. induction l as [|x l IH]; cbn [List.filter]; [split; [constructor|done]|].
  rewrite List.Forall_cons_iff. destruct (f x); cbn [length]; [|rewrite <- IH; tauto].
  split; [lia|]. by intros [[=] _].
Qed.

Section facts.
Context {styling : Styling} {dates : Dates} {A : Type}.

(** C:health_chart *)
Theorem health_chart_denies_other_states s :
  texts (A:=A) (FleetHealthChart (db_online s) (db_degraded s) (db_offline s))
    = ["No devices registered yet"] <->
  List.Forall (fun d => known_state d = false) (db_list s).
Proof.
  pose proof (fun st => zlength_filter_le (in_state st) (db_list s)) as Hs.
  pose proof (Hs "ONLINE"). pose proof (Hs "DEGRADED"). pose proof (Hs "OFFLINE").
  rewrite <- zlength_filter_none, <- three_counts.
  rewrite <- (health_data_nil (db_online s) (db_degraded s) (db_offline s)) by apply Hs.
  unfold FleetHealthChart. destruct (health_data _ _ _) as [|d l]; [by split|].
  split; [|done]. cbn.
  rewrite map_map, concat_map_nil by done. discriminate.
Qed.

(** ** The attention list *)

Lemma attention_row_links d : links (attention_row (A:=A) d) = ["/devices/" +++ deviceId d].
Proof. unfold attention_row, StateBadge. by destruct (String.eqb _ _). Qed.

(** C:attention *)
Theorem attention_links s :
  links (A:=A) (attention_card s) =
    map (fun d => "/devices/" +++ deviceId d) (take 5 (needsAttention s)) /\
  (forall d, In d (needsAttention s) <->
     In d (db_list s) /\
     (dev_state d = "DEGRADED" \/ num_gt (cpu_or_zero d) (num_of_Z 80) = true \/
      exists m, memory_load d = Some m /\ num_gt m (num_of_Z 80) = true)).
Proof.
  split.
  - unfold attention_card. destruct (Z.ltb_spec 0 (zlength (needsAttention s))) as [H|H].
    + assert (slice (needsAttention s) 0 5 = take 5 (needsAttention s)) as ->.
      { rewrite slice_nonneg by lia. done. }
      transitivity (links (A:=A) (Frag (map attention_row (take 5 (needsAttention s))))).
      * generalize (Frag (A:=A) (map attention_row (take 5 (needsAttention s)))) as n. intros n.
        cbn. by rewrite !app_nil_r.
      * cbn [links]. rewrite map_map. apply concat_map_singleton, attention_row_links.
    + pose proof (zlength_nonneg (needsAttention s)).
      assert (needsAttention s = []) as -> by (apply zlength_zero; lia). done.
  - intros d. unfold needsAttention. rewrite filter_In. unfold is_degraded_or_loaded.
    rewrite !orb_true_iff. unfold in_state. rewrite String.eqb_eq.
    destruct (memory_load d) as [m|]; cbn [default].
    + split; [intros [H1 H2]; split; [done|]; destruct H2 as [[H2|H2]|H2]; eauto|].
      intros [H1 H2]. split; [done|]. destruct H2 as [H2|[H2|(m' & [= <-] & H2)]]; auto.
    + split; [intros [H1 H2]; split; [done|]; destruct H2 as [[H2|H2]|H2]; auto; discriminate|].
      intros [H1 H2]. split; [done|]. destruct H2 as [H2|[H2|(m' & [=] & H2)]]; auto.
Qed.
End facts.

(** ** The average *)

Lemma shr_1_nonneg r : 0 <= shr_m r -> 0 <= shr_m (shr_1 r).
Proof. by destruct r as [[|[p|p|]|[p|p|]] b s]. Qed.

Lemma iter_shr_nonneg n : forall r, 0 <= shr_m r -> 0 <= shr_m (iter_pos shr_1 n r).
Proof. induction n; intros r H; cbn [iter_pos]; auto using shr_1_nonneg. Qed.

Lemma shr_fexp_nonneg m e l : 0 <= m -> 0 <= shr_m (fst (shr_fexp 53 1024 m e l)).
Proof.
  intros H. unfold shr_fexp, shr. assert (0 <= shr_m (shr_record_of_loc m l)) by (by destruct l as [|[]]).
  destruct (_ - _); cbn [fst]; auto using iter_shr_nonneg.
Qed.

Lemma round_nearest_even_nonneg m l : 0 <= m -> 0 <= round_nearest_even m l.
Proof. intros H. destruct l as [|[]]; cbn; try destruct (Z.even m); lia. Qed.

Lemma binary_round_aux_not_nan sx m e l : 0 <= m -> isNaN (binary_round_aux 53 1024 sx m e l) = false.
Proof.
  intros H. unfold binary_round_aux.
  pose proof (shr_fexp_nonneg m e l H) as H1. destruct (shr_fexp 53 1024 m e l) as [r1 e1]. cbn [fst] in H1.
  pose proof (shr_fexp_nonneg _ e1 loc_Exact (round_nearest_even_nonneg _ (loc_of_shr_record r1) H1)) as H2.
  destruct (shr_fexp _ _ _ e1 _) as [r2 e2]. cbn [fst] in H2.
  destruct (shr_m r2); [done| |lia]. by destruct (_ <=? _).
Qed.

Lemma num_of_Z_not_nan z : isNaN (num_of_Z z) = false.
Proof.
  unfold num_of_Z, binary_normalize, binary_round. destruct z as [|p|p]; [done| |];
    destruct (shl_align _ _ _); by apply binary_round_aux_not_nan.
Qed.

(** C:avg_cpu *)
Theorem avg_cpu_never_nan s :
  isNaN (avgCpu s) = false /\
  (List.Forall (fun d => reports_cpu d = false) (db_list s) -> avgCpu s = num_of_Z 0).
Proof.
  split.
  - unfold avgCpu. destruct (0 <? db_total s); [|done].
    generalize (num_div (fold_left (fun sum d => num_add sum (cpu_or_zero d)) (db_list s) (num_of_Z 0))
      (num_of_Z (zlength (List.filter reports_cpu (db_list s))))) as x.
    intros [b|b| |b m e]; try done. cbn [or_zero math_round]. destruct (_ =? 0); [done|].
    apply num_of_Z_not_nan.
  - intros H. unfold avgCpu. destruct (0 <? db_total s); [|done].
    assert (fold_left (fun sum d => num_add sum (cpu_or_zero d)) (db_list s) (num_of_Z 0) = num_of_Z 0) as ->.
    { induction (db_list s) as [|d l IH]; [done|]. apply List.Forall_cons_iff in H as [Hd Hl].
      cbn [fold_left]. replace (num_add (num_of_Z 0) (cpu_or_zero d)) with (num_of_Z 0); [by apply IH|].
      unfold cpu_or_zero, reports_cpu in *. by destruct (device_cpu d). }
    apply zlength_filter_none in H. rewrite H. done.
Qed.

(** ** The five bars *)

Definition sign_of (x : number) : Z :=
  if num_lt x (num_of_Z 0) then -1 else if num_gt x (num_of_Z 0) then 1 else 0.

Lemma sign_of_opp x : sign_of (SFopp x) = - sign_of x.
Proof. by destruct x as [[]|[]| |[] m e]. Qed.

Lemma binary_round_opp s m e :
  binary_round 53 1024 (negb s) m e = SFopp (binary_round 53 1024 s m e).
Proof.
  unfold binary_round. destruct (shl_align _ _ _) as [mz ez]. unfold binary_round_aux.
  destruct (shr_fexp _ _ (Zpos mz) ez loc_Exact) as [r1 e1]. destruct (shr_fexp _ _ _ e1 _) as [r2 e2].
  destruct (shr_m r2); try done. by destruct (_ <=? _).
Qed.

Lemma sign_of_normalize z e :
  sign_of (binary_normalize 53 1024 (- z) e false) = - sign_of (binary_normalize 53 1024 z e false).
Proof.
  destruct z as [|p|p]; [done| |]; cbn [Z.opp binary_normalize].
  - rewrite <- sign_of_opp. by rewrite <- (binary_round_opp false).
  - rewrite <- sign_of_opp. by rewrite <- (binary_round_opp true).
Qed.

Lemma sign_of_sub x y : sign_of (num_sub y x) = - sign_of (num_sub x y).
Proof.
  destruct x as [[]|[]| |sx mx ex], y as [[]|[]| |sy my ey]; try done; try (by destruct sx); try (by destruct sy).
  unfold num_sub, SFsub. cbv zeta. rewrite (Z.min_comm ex ey), <- sign_of_normalize. do 2 f_equal. lia.
Qed.

Lemma by_cpu_flip a b : by_cpu a b = - by_cpu b a.
Proof. apply sign_of_sub. Qed.

Lemma insert_by_adjacent x l :
  Sorted (fun a b => by_cpu a b <= 0) l -> Sorted (fun a b => by_cpu a b <= 0) (insert_by by_cpu x l).
Proof.
  intros H. induction H as [|y l Hl IH Hy]; cbn [insert_by]; [by repeat constructor|].
  destruct (Z.leb_spec (by_cpu x y) 0) as [E|E]; [repeat constructor; done|].
  constructor; [exact IH|]. pose proof (by_cpu_flip x y).
  destruct l as [|z l]; cbn [insert_by]; [constructor; lia|].
  destruct (by_cpu x z <=? 0); constructor; [lia|]. by inversion Hy.
Qed.

Lemma sort_by_adjacent l : Sorted (fun a b => by_cpu a b <= 0) (sort_by by_cpu l).
Proof. induction l as [|x l IH]; [constructor|]. by apply insert_by_adjacent. Qed.

Lemma Sorted_take {X} (R : X -> X -> Prop) n : forall l, Sorted R l -> Sorted R (take n l).
Proof.
  induction n as [|n IH]; intros l H; [constructor|]. destruct H as [|x l Hl Hx]; [constructor|].
  cbn [take firstn]. constructor; [by apply IH|]. destruct Hx; destruct n; by constructor.
Qed.

(** C32. The bars of the dashboard are the first five, in descending order, of all the
    devices that report a CPU load, with their loads rounded. *)
Theorem utilization_top_five devices :
  exists top rest,
    utilization_data devices =
      map (fun d => {| bd_name := hostname d; bd_cpu := math_round (cpu_or_zero d) |}) top /\
    Permutation (top ++ rest) (List.filter reports_cpu devices) /\
    length top = Nat.min 5 (length (List.filter reports_cpu devices)) /\
    Sorted (fun a b => num_gt (num_sub (cpu_or_zero b) (cpu_or_zero a)) (num_of_Z 0) = false) (top ++ rest).
Proof.
  set (all := sort_by by_cpu (List.filter reports_cpu devices)).
  exists (take 5 all), (drop 5 all). rewrite take_drop. split_and!.
  - unfold utilization_data. fold all. by rewrite slice_nonneg by lia.
  - apply sort_by_perm.
  - rewrite length_take. unfold all. by rewrite sort_by_length.
  - pose proof (sort_by_adjacent (List.filter reports_cpu devices)) as H. fold all in H.
    induction H as [|x l Hl IH Hx]; constructor; [done|]. destruct Hx as [|y l Hxy]; constructor.
    unfold by_cpu in Hxy. destruct (num_lt _ _) eqn:El; [|by destruct (num_gt _ _)].
    revert El. generalize (num_sub (cpu_or_zero y) (cpu_or_zero x)) as d. by intros [[]|[]| |[] m e].
Qed.
