(* ===== verification/Queries.v ===== *)
(** * The shared query cache: ui/components/providers.tsx and every [useQuery]

    All pages share one cache, indexed by query keys. This file lists the
    queries of the dashboard with their keys and the calls behind them. Two
    queries with one key share an answer, so they should make the same call. *)

From S2P Require Import Prelude JsString JsArray Vdom UrlCodec Json Endpoints ApiClient Api ApiFacts Components OrgContext DeviceLogs ManifestEditor DeviceDetail DeviceDetailFacts.

(** [staleTime], in milliseconds. *)
Definition staleTime : Z := 30 * 1000.

(** ** Queries

    [uq_me]: use-organization.ts. [uq_devices]: devices/page.tsx,
    command-palette.tsx, dashboard/page.tsx. [uq_device], [uq_telemetry], and
    [uq_manifest] and [uq_logs] with [own_page = false]: devices/[id]/page.tsx;
    with [own_page = true]: its manifest and logs subpages. [uq_requests] and
    [uq_certs]: certificates/page.tsx. [uq_organization] to [uq_keys]:
    settings/page.tsx. [uq_audit]: audit/page.tsx. [uq_recent]:
    dashboard/page.tsx. *)

Inductive devices_reader := in_list | in_palette | in_dashboard.

Inductive use_query :=
| uq_me
| uq_devices (where_ : devices_reader)
| uq_device (id : string)
| uq_manifest (own_page : bool) (id : string)
| uq_logs (own_page : bool) (id level search range : string)
| uq_telemetry (id range : string)
| uq_requests
| uq_certs
| uq_organization
| uq_members
| uq_invitations
| uq_tokens
| uq_keys
| uq_audit
| uq_recent.

(** Components of a key: strings, ids, and an id that is [undefined]. *)
Inductive key_part := KStr (s : string) | KNum (z : Z) | KUndefined.

Definition query_key_of : Type := list key_part.

Definition org_part (orgId : option Z) : key_part :=
  match orgId with Some z => KNum z | None => KUndefined end.

Section calls.
Context {dates : Dates} {St : Type} {env : Environment St}.

(** The [queryKey], and [queryFn] at a moment; no call: it throws before any. *)
Record query := {
  key : option Z -> query_key_of;
  call : string -> Z -> option (io St (option json))
}.

(** use-organization.ts *)

Definition me_query : query := {|
  key orgId := [KStr "me"];
  call token now := Some (getMe token)
|}.

(** devices/page.tsx, components/command-palette.tsx *)

Definition devices_page_query : query := {|
  key orgId := [KStr "devices"];
  call token now := Some (listDevices token)
|}.

Definition palette_query : query := {|
  key orgId := [KStr "devices"];
  call token now := Some (listDevices token)
|}.

(** dashboard/page.tsx *)

Definition dashboard_devices_query : query := {|
  key orgId := [KStr "devices"];
  call token now := Some (listDevices token)
|}.

Definition recent_audit_query : query := {|
  key orgId := [KStr "audit-log"; org_part orgId];
  call token now := Some (listAuditLog token None (Some 10) None None)
|}.

(** devices/[id]/page.tsx *)

Definition device_query (id : string) : query := {|
  key orgId := [KStr "device"; KStr id];
  call token now := Some (getDevice token id)
|}.

Definition device_logs_query (id level search range : string) : query := {|
  key orgId := [KStr "device-logs"; KStr id; KStr level; KStr search; KStr range];
  call token now := getDeviceLogs token id <$>
    detail_log_params now
      (with_ranges {| dr_logSearch := search; dr_logLevel := level; dr_logTimeRange := range;
                      dr_telemetryRange := "1h" |} (detail_initial token id None))
|}.

Definition telemetry_query (id range : string) : query := {|
  key orgId := [KStr "device-telemetry"; KStr id; KStr range];
  call token now := fetch_telemetry now
    (with_ranges {| dr_logSearch := ""; dr_logLevel := ""; dr_logTimeRange := "1h";
                    dr_telemetryRange := range |} (detail_initial token id None))
|}.

Definition device_manifest_query (id : string) : query := {|
  key orgId := [KStr "device-manifest"; KStr id];
  call token now := Some (getDeviceManifest token id)
|}.

(** devices/[id]/logs/page.tsx, devices/[id]/manifest/page.tsx *)

Definition logs_page_query (id level search range : string) : query := {|
  key orgId := [KStr "device-logs"; KStr id; KStr level; KStr search; KStr range];
  call token now := getDeviceLogs token id <$>
    logs_params now {| lg_id := id; lg_response := None; lg_isLoading := true; lg_search := search;
                       lg_level := level; lg_timeRange := range |}
|}.

Definition manifest_page_query (id : string) : query := {|
  key orgId := [KStr "device-manifest"; KStr id];
  call token now := Some (getDeviceManifest token id)
|}.

(** certificates/page.tsx *)

Definition requests_query : query := {|
  key orgId := [KStr "cert-requests"; org_part orgId];
  call token now := Some (listCertificateRequests token)
|}.

Definition certificates_query : query := {|
  key orgId := [KStr "certificates"; org_part orgId];
  call token now := Some (listCertificates token)
|}.

(** settings/page.tsx *)

Definition organization_query : query := {|
  key orgId := [KStr "organization"; org_part orgId];
  call token now := Some (getOrganization token)
|}.

Definition members_query : query := {|
  key orgId := [KStr "org-members"; org_part orgId];
  call token now := Some (listMembers token)
|}.

Definition invitations_query : query := {|
  key orgId := [KStr "org-invitations"; org_part orgId];
  call token now := Some (listInvitations token)
|}.

Definition tokens_query : query := {|
  key orgId := [KStr "enrollment-tokens"; org_part orgId];
  call token now := Some (listEnrollmentTokens token)
|}.

Definition api_keys_query : query := {|
  key orgId := [KStr "api-keys"; org_part orgId];
  call token now := Some (listApiKeys token)
|}.

(** audit/page.tsx *)

Definition audit_page_query : query := {|
  key orgId := [KStr "audit-log"; org_part orgId];
  call token now := Some (listAuditLog token None None None None)
|}.

Definition query_of_use (q : use_query) : query :=
  match q with
  | uq_me => me_query
  | uq_devices in_list => devices_page_query
  | uq_devices in_palette => palette_query
  | uq_devices in_dashboard => dashboard_devices_query
  | uq_device id => device_query id
  | uq_manifest true id => manifest_page_query id
  | uq_manifest false id => device_manifest_query id
  | uq_logs true id level search range => logs_page_query id level search range
  | uq_logs false id level search range => device_logs_query id level search range
  | uq_telemetry id range => telemetry_query id range
  | uq_requests => requests_query
  | uq_certs => certificates_query
  | uq_organization => organization_query
  | uq_members => members_query
  | uq_invitations => invitations_query
  | uq_tokens => tokens_query
  | uq_keys => api_keys_query
  | uq_audit => audit_page_query
  | uq_recent => recent_audit_query
  end.

Definition queryKey (orgId : option Z) (q : use_query) : query_key_of := key (query_of_use q) orgId.
Definition queryFn (token : string) (now : Z) (q : use_query) : option (io St (option json)) :=
  call (query_of_use q) token now.

(** The filters of a query are ones the pages offer. *)
Definition offered (q : use_query) : Prop :=
  match q with uq_logs _ _ _ _ range => In range log_ranges | _ => True end.

Lemma log_start_agrees now range :
  In range log_ranges -> getStart now range = rangeStartIso now range.
Proof. intros H. cbn in H. by repeat destruct H as [<-|H]. Qed.

Definition is_audit (q : use_query) : bool :=
  match q with uq_audit | uq_recent => true | _ => false end.

(** C33. Apart from the audit log, queries that share a cache key, also from different
    pages, make the same call: one page may use the answer another one fetched. *)
Theorem same_key_same_call orgId token now q1 q2 :
  queryKey orgId q1 = queryKey orgId q2 -> offered q1 -> offered q2 ->
  is_audit q1 = false -> queryFn token now q1 = queryFn token now q2.
Proof.
  assert (forall own1 own2 id level search range, In range log_ranges ->
    queryFn token now (uq_logs own1 id level search range) =
    queryFn token now (uq_logs own2 id level search range)) as Hlogs.
  { intros own1 own2 id level search range Hr.
    assert (queryFn token now (uq_logs true id level search range) =
            queryFn token now (uq_logs false id level search range)) as E.
    { unfold queryFn. cbn [query_of_use call logs_page_query device_logs_query]. unfold logs_params, detail_log_params. cbn [lg_timeRange dd_ranges with_ranges dr_logTimeRange].
      by rewrite log_start_agrees. }
    destruct own1, own2; congruence. }
  intros Hk Ho1 Ho2 Ha.
  unfold queryKey in Hk. destruct q1, q2;
    repeat match goal with b : bool |- _ => destruct b | w : devices_reader |- _ => destruct w end;
    try discriminate Hk; try discriminate Ha; try reflexivity; injection Hk; intros; subst;
    first [reflexivity | by apply Hlogs].
Qed.

(** The dashboard and the audit page cache under one key the answers of two different
    requests, one for ten entries and one without a size. *)
Theorem audit_log_key_is_shared orgId token (st : St) :
  has_char "?" API_BASE_URL = false ->
  queryKey orgId uq_audit = queryKey orgId uq_recent /\
  exists all recent,
    requests_of (listAuditLog token None None None None) st = [all] /\
    requests_of (listAuditLog token None (Some 10) None None) st = [recent] /\
    query_of (rq_url all) = [] /\ query_of (rq_url recent) = [("size", "10")].
Proof.
  intros Hb. split; [done|].
  assert (forall size, exists rq, requests_of (listAuditLog token None size None None) st = [rq] /\
    query_of (rq_url rq) = keep_defined "size" size) as H.
  { intros size. unfold requests_of, listAuditLog. rewrite apiFetch_sent. cbn [net_sent app].
    eexists. split; [done|]. cbn [rq_url rawFetch_request]. unfold absoluteUrl.
    rewrite <- append_assoc, query_of_optional.
    - rewrite audit_query_spec. cbn [keep keep_defined app]. by rewrite !app_nil_r.
    - rewrite has_char_append, Hb. by apply endpoint_no_query. }
  destruct (H None) as (all & Ha & Qa), (H (Some 10)) as (recent & Hr & Qr).
  exists all, recent. by split_and!.
Qed.
End calls.

Lemma same_key_same_call_witness :
  queryFn (dates:=plain_dates) (env:=silent_env) "t" 0 (uq_logs true "edge-1" "error" "disk" "6h") =
  queryFn (dates:=plain_dates) (env:=silent_env) "t" 0 (uq_logs false "edge-1" "error" "disk" "6h").
Proof.
  refine (same_key_same_call (dates:=plain_dates) (env:=silent_env) (Some 7) "t" 0
    (uq_logs true "edge-1" "error" "disk" "6h") (uq_logs false "edge-1" "error" "disk" "6h") eq_refl _ _ eq_refl);
    cbn; auto.
Defined.

Lemma audit_log_key_is_shared_witness :
  queryKey (dates:=plain_dates) (env:=silent_env) (Some 7) uq_audit =
  queryKey (dates:=plain_dates) (env:=silent_env) (Some 7) uq_recent /\
  exists all recent,
    requests_of (listAuditLog (env:=silent_env) "t" None None None None) tt = [all] /\
    requests_of (listAuditLog (env:=silent_env) "t" None (Some 10) None None) tt = [recent] /\
    query_of (rq_url all) = [] /\ query_of (rq_url recent) = [("size", "10")].
Proof. exact (audit_log_key_is_shared (dates:=plain_dates) (env:=silent_env) (Some 7) "t" tt eq_refl). Defined.
