(* ===== verification/DesignPages.v ===== *)
(** * The pages as the design system draws them

    A page whose view is expanded to elements and primitives has the same steps,
    so every theorem about its reachable states holds of what is drawn. *)

From S2P Require Import Prelude JsString JsArray Vdom Json Endpoints ApiClient Api Components DesignSystem DesignFacts.
From S2P Require DevicesPage DevicesView CertificatesView AuditLog DeviceLogs ManifestEditor DeviceDetail DeviceDetailView Settings SettingsView Terminal.

(** ** Trees that respect the design system *)

Section well_used.
Context {A : Type}.

Definition attr_used (a : attr A) : bool := match a with ANode _ m => well_used m | _ => true end.

Lemma wu_elt tag (attrs : list (attr A)) kids :
  childless tag = false -> forallb attr_used attrs = true -> forallb well_used kids = true ->
  well_used (Elt tag attrs kids) = true.
Proof. intros H1 H2 H3. cbn [well_used]. rewrite H1. cbn [negb orb andb]. unfold attr_used in H2. by rewrite H2. Qed.

Lemma wu_leaf tag (attrs : list (attr A)) :
  forallb attr_used attrs = true -> well_used (Elt tag attrs []) = true.
Proof. intros H. cbn [well_used forallb]. unfold attr_used in H. rewrite H. by destruct (childless tag). Qed.

Lemma wu_map {X} (f : X -> node A) l :
  (forall x, well_used (f x) = true) -> forallb well_used (map f l) = true.
Proof. intros H. rewrite forallb_forall. intros n Hn. apply in_map_iff in Hn as (x & <- & _). apply H. Qed.

Lemma wu_app (l k : list (node A)) :
  forallb well_used l = true -> forallb well_used k = true -> forallb well_used (l ++ k) = true.
Proof. intros H1 H2. by rewrite forallb_app, H1. Qed.

Lemma wu_attrs_app (l k : list (attr A)) :
  forallb attr_used l = true -> forallb attr_used k = true -> forallb attr_used (l ++ k) = true.
Proof. intros H1 H2. by rewrite forallb_app, H1. Qed.

Lemma wu_cons (n : node A) l :
  well_used n = true -> forallb well_used l = true -> forallb well_used (n :: l) = true.
Proof. intros H1 H2. cbn [forallb]. by rewrite H1. Qed.

Lemma wu_attrs_cons (a : attr A) l :
  attr_used a = true -> forallb attr_used l = true -> forallb attr_used (a :: l) = true.
Proof. intros H1 H2. cbn [forallb]. by rewrite H1. Qed.
End well_used.

(** Walks down a view. *)
Ltac wu_head t := lazymatch t with ?f _ => wu_head f | _ => t end.
Ltac wu :=
  intros; cbv zeta beta;
  lazymatch goal with
  | |- well_used (Txt _) = true => reflexivity
  | |- well_used (Frag ?l) = true => change (forallb well_used l = true); wu
  | |- well_used (Elt _ _ []) = true => apply wu_leaf; wu
  | |- well_used (Elt _ _ _) = true => apply wu_elt; [try reflexivity|wu|wu]
  | |- well_used (if ?b then _ else _) = true => destruct b; wu
  | |- well_used (match ?x with _ => _ end) = true => destruct x; wu
  | |- forallb well_used [] = true => reflexivity
  | |- forallb well_used (_ :: _) = true => apply wu_cons; wu
  | |- forallb well_used (_ ++ _) = true => apply wu_app; wu
  | |- forallb well_used (map _ _) = true => apply wu_map; wu
  | |- forallb well_used (match ?x with _ => _ end) = true => destruct x; wu
  | |- forallb attr_used [] = true => reflexivity
  | |- forallb attr_used (_ :: _) = true => apply wu_attrs_cons; wu
  | |- forallb attr_used (_ ++ _) = true => apply wu_attrs_app; wu
  | |- forallb attr_used (match ?x with _ => _ end) = true => destruct x; wu
  | |- attr_used (ANode _ _) = true => cbn [attr_used]; wu
  | |- attr_used (match ?x with _ => _ end) = true => destruct x; wu
  | |- attr_used _ = true => reflexivity
  | |- well_used ?t = true => let h := wu_head t in unfold h; wu
  | |- forallb _ ?t = true => let h := wu_head t in unfold h; wu
  end.

(** ** Pages *)

Section drawn.
Context {styling : Styling} {variants : Variants} {State Act Eff : Type} (p : page State Act Eff).

Definition drawn : page State Act Eff := {|
  page_init := page_init p;
  page_view := fun s => expand (page_view p s);
  page_update := page_update p;
  page_extern := page_extern p
|}.

Definition same_steps (q : page State Act Eff) : Prop :=
  (forall s a s', page_step p s a s' <-> page_step q s a s') /\
  (forall s, page_reachable p s <-> page_reachable q s).

Lemma drawn_same_steps : (forall s, well_used (page_view p s) = true) -> same_steps drawn.
Proof.
  intros Hw.
  assert (forall s a, fires (page_view drawn s) a <-> fires (page_view p s) a) as Hf.
  { intros s a. pose proof (expand_agree _ (Hw s)) as [He _ _ _ _]. cbn [drawn page_view].
    unfold fires. by rewrite He. }
  assert (forall s a s', page_step p s a s' <-> page_step drawn s a s') as Hs.
  { intros s a s'. split; intros H; destruct H as [s a H|s a H].
    - apply (step_user drawn), Hf, H.
    - by apply (step_extern drawn).
    - apply (step_user p), Hf, H.
    - by apply (step_extern p). }
  split; [done|]. intros s. split; intros H; induction H as [s H|s a s' _ IH H].
  - by apply (reach_init drawn).
  - by apply (reach_step drawn s a), Hs.
  - by apply (reach_init p).
  - by apply (reach_step p s a), Hs.
Qed.
End drawn.

Section pages.
Context {styling : Styling} {variants : Variants} {locale : DevicesPage.Locale} {dates : Dates} {St : Type} {env : Environment St}.

Lemma settings_used s : well_used (SettingsView.settings_view s) = true.
Proof. wu. Qed.
Lemma audit_used s : well_used (AuditLog.audit_view s) = true.
Proof. wu. Qed.
Lemma editor_used s : well_used (ManifestEditor.editor_view s) = true.
Proof. wu. Qed.
Lemma logs_used inherited s : well_used (DeviceLogs.logs_view inherited s) = true.
Proof. wu. Qed.
Lemma terminal_used s : well_used (Terminal.terminal_view s) = true.
Proof. wu. Qed.
Lemma certs_used now s : well_used (CertificatesView.certs_view now s) = true.
Proof. wu. Qed.
Lemma devices_used s : well_used (DevicesView.devices_view s) = true.
Proof. wu. Qed.
Lemma detail_used inherited s : well_used (DeviceDetailView.detail_view inherited s) = true.
Proof. wu. Qed.

Lemma terminal_page_used origin s : well_used (page_view (Terminal.terminal_page origin) s) = true.
Proof. cbn [Terminal.terminal_page page_view]. destruct (Terminal.tm_mounted s); [apply terminal_used|done]. Qed.

(** C34. Every component of ui/components/ui but CommandDialog, with any attributes and
    children, has exactly the handlers of the tag it is drawn for: none dropped, added
    or re-labelled, none enabled while disabled (components that take no children are
    used without; a button that closes its dialog does so through the handler of the
    dialog). Hence a well-used tree and its drawing have the same handlers, and eight
    pages drawn with the components have the same user steps and reachable states as the
    pages drawn with tags. *)
Theorem drawn_pages_have_same_steps :
  (forall A, List.Forall (fun e => transparent (A:=A) (fst e) (snd e)) design_system) /\
  (forall A (n : node A), well_used n = true -> node_agree (expand n) n) /\
  same_steps DevicesView.devices_page (drawn DevicesView.devices_page) /\
  (forall now token org,
     same_steps (CertificatesView.certs_page now token org) (drawn (CertificatesView.certs_page now token org))) /\
  (forall inherited token id role,
     same_steps (DeviceDetailView.detail_page inherited token id role)
       (drawn (DeviceDetailView.detail_page inherited token id role))) /\
  (forall enabled role,
     same_steps (SettingsView.settings_page enabled role) (drawn (SettingsView.settings_page enabled role))) /\
  (forall origin, same_steps (Terminal.terminal_page origin) (drawn (Terminal.terminal_page origin))) /\
  (forall id dark, same_steps (ManifestEditor.editor_page id dark) (drawn (ManifestEditor.editor_page id dark))) /\
  (forall inherited id, same_steps (DeviceLogs.logs_page inherited id) (drawn (DeviceLogs.logs_page inherited id))) /\
  same_steps AuditLog.audit_page (drawn AuditLog.audit_page).
Proof.
  split; [intros A; apply design_system_transparent|].
  split; [intros A n; apply expand_agree|].
  split_and!; intros; apply drawn_same_steps; intros;
    [apply devices_used|apply certs_used|apply detail_used|apply settings_used|apply terminal_page_used
    |apply editor_used|apply logs_used|apply audit_used].
Qed.
End pages.
