(* ===== verification/SignIn.v ===== *)
(** * Entering the dashboard: the login page, the landing page's guard and
      navigation bar, the logo and the theme

    ui/app/auth/login/page.tsx, ui/components/logo.tsx, ui/components/providers.tsx
    (theme cookie) and ui/components/landing/{navbar,sign-in-button}.tsx. *)

From S2P Require Import Prelude JsString Vdom Components Auth.

(** ** State and actions

    The entry pages share their actions; [en_theme] is [resolvedTheme] of
    next-themes, [en_scrolled] is read by the navigation bar only. *)

Record entry := { en_mounted : bool; en_theme : option string; en_scrolled : bool }.

Definition entry_initial : entry := {| en_mounted := false; en_theme := None; en_scrolled := false |}.

Inductive entry_action :=
| SignInWith (provider callbackUrl : string)
| SetTheme (theme : string)
| ScrollTop
(* not from handlers *)
| Mounted
| ThemeResolved (theme : option string)
| WindowScrolled (scrollY : Z).

Inductive entry_effect :=
| EntrySignIn (provider callbackUrl : string)
| EntrySetTheme (theme : string)
| EntryScrollTo (top : Z).

Definition entry_update (s : entry) (a : entry_action) : entry * list entry_effect :=
  match a with
  | SignInWith provider callbackUrl => (s, [EntrySignIn provider callbackUrl])
  | SetTheme theme => (s, [EntrySetTheme theme])
  | ScrollTop => (s, [EntryScrollTo 0])
  | Mounted => ({| en_mounted := true; en_theme := en_theme s; en_scrolled := en_scrolled s |}, [])
  | ThemeResolved theme =>
      ({| en_mounted := en_mounted s; en_theme := theme; en_scrolled := en_scrolled s |}, [])
  | WindowScrolled y =>
      ({| en_mounted := en_mounted s; en_theme := en_theme s; en_scrolled := 20 <? y |}, [])
  end.

Definition entry_extern (_ : entry) (a : entry_action) : Prop :=
  match a with Mounted | ThemeResolved _ | WindowScrolled _ => True | _ => False end.

(** ** Theme *)

Definition other_theme (resolvedTheme : option string) : string :=
  match resolvedTheme with
  | Some t => if String.eqb t "dark" then "light" else "dark"
  | None => "dark"
  end.

(** [ThemeCookieSync]: the cookie to write, if any. *)
Definition theme_cookie (resolvedTheme : option string) : option string :=
  match resolvedTheme with
  | Some t => if truthy t then Some ("eg-theme=" +++ t +++ ";path=/;max-age=31536000;SameSite=Lax") else None
  | None => None
  end.

(** ** The landing page's guard *)

(** [LandingPage] redirects a user whose session has no error. *)
Definition landing_redirect (user : bool) (session : option Session) : option string :=
  match session with
  | Some s => if user && negb (truthy_opt (s_error s)) then Some "/dashboard" else None
  | None => None
  end.

Section entry_views.
Context {styling : Styling}.

Abbreviation act := entry_action.

Section logo.
Context {A : Type}.

(** The three device nodes of the logo. *)
Definition logo_nodes (r : string) (outlined : bool) : node A :=
  let style := if outlined then [AStr "stroke" "currentColor"; AStr "strokeWidth" "1.8"]
               else [AStr "fill" "currentColor"] in
  let dot cx cy := Elt "circle" ([AStr "cx" cx; AStr "cy" cy; AStr "r" r] ++ style) [] in
  Frag [dot "24" "10"; dot "15" "32"; dot "33" "32"].

Definition LogoIcon (className : option string) (size : option Z) (outlined : bool) : node A :=
  let size := size ?? 32 in
  Elt "svg"
    [ANum "width" size; ANum "height" size; AStr "viewBox" "0 0 48 48"; AStr "fill" "none";
     AStr "xmlns" "http://www.w3.org/2000/svg"; cls (cn [Some "shrink-0 text-primary"; className])]
    [Elt "path"
       [AStr "d" "M24 4 L40 12 V28 L24 44 L8 28 V12 Z"; AStr "stroke" "currentColor";
        AStr "strokeWidth" (if outlined then "2" else "2.5"); AStr "strokeLinejoin" "round";
        AStr "fill" "none"] [];
     Elt "path"
       [AStr "d" "M24 20 L15 32 M24 20 L33 32 M24 20 V10"; AStr "stroke" "currentColor";
        AStr "strokeWidth" (if outlined then "1.8" else "1.5"); AStr "strokeLinecap" "round"] [];
     Elt "circle"
       ([AStr "cx" "24"; AStr "cy" "20"; AStr "r" (if outlined then "4" else "3.5");
         AStr "fill" (if outlined then "none" else "currentColor");
         AStr "stroke" (if outlined then "currentColor" else "none")]
        ++ (if outlined then [AStr "strokeWidth" "2"] else [])) [];
     (if outlined then logo_nodes "2.5" true else logo_nodes "2" false)].

Inductive logo_size := sm | md | lg.
Definition logo_sizes (s : logo_size) : Z * string :=
  match s with sm => (24, "text-base") | md => (32, "text-lg") | lg => (40, "text-2xl") end.

Definition LogoFull (className : option string) (size : logo_size) (collapsed : bool) : node A :=
  let '(icon_size, text) := logo_sizes size in
  Elt "div" [cls (cn [Some "flex items-center gap-2.5"; className])]
    [Elt "div" [cls "relative flex items-center justify-center"]
       [Elt "div" [cls "absolute inset-0 rounded-xl bg-primary/10 blur-lg"; ABool "aria-hidden" true] [];
        LogoIcon None (Some icon_size) false];
     when (negb collapsed)
       (Elt "span" [cls (cn [Some text; Some "font-bold tracking-tight text-foreground"])]
          [Txt "Edge"; Elt "span" [cls "text-primary"] [Txt "Guardian"]])].
End logo.

Definition theme_icon (theme : option string) : node act :=
  if match theme with Some t => String.eqb t "dark" | None => false end
  then Elt "Sun" [ANum "size" 20] [] else Elt "Moon" [ANum "size" 20] [].

(** ** Login page *)

Definition login_toggle (theme : option string) : node act :=
  Elt "button"
    [AOn "onClick" (SetTheme (other_theme theme));
     cls "absolute right-6 top-6 cursor-pointer rounded-xl p-2.5 text-muted-foreground hover:text-foreground hover:bg-muted/50 transition-all duration-200";
     AStr "aria-label" "Toggle theme"]
    [theme_icon theme].

Definition login_view (s : entry) : node act :=
  Elt "div" [cls "relative flex min-h-screen items-center justify-center bg-background"]
    [when (en_mounted s) (login_toggle (en_theme s));
     Elt "div" [cls "w-full max-w-sm px-6"]
       [Elt "div" [cls "flex flex-col items-center text-center"]
          [Elt "div" [cls "relative mb-6"]
             [Elt "div" [cls "absolute inset-0 rounded-full bg-primary/10 blur-2xl"; ABool "aria-hidden" true] [];
              LogoIcon (Some "relative") (Some 56) false];
           Elt "h1" [cls "text-2xl font-bold tracking-tight text-foreground"]
             [Txt "Edge"; Elt "span" [cls "text-primary"] [Txt "Guardian"]];
           Elt "p" [cls "mt-2 text-sm text-muted-foreground"] [Txt "Sign in to manage your fleet"];
           Elt "Button"
             [AOn "onClick" (SignInWith "keycloak" "/dashboard"); AStr "size" "lg";
              cls "mt-8 w-full cursor-pointer"]
             [Elt "LogIn" [cls "mr-2 h-4 w-4"] []; Txt "Sign in"]]]].

(** ** sign-in-button.tsx and navbar.tsx *)

(** The caller's props come first, so that it cannot replace [onClick]. *)
Definition SignInButton (props : list (attr act)) (kids : list (node act)) : node act :=
  Elt "Button" (props ++ [AOn "onClick" (SignInWith "keycloak" "/dashboard")]) kids.

Definition navbar_links : list (string * string) :=
  [("Features", "features"); ("Discovery", "discovery"); ("Demo", "terminal")].

Definition navbar_link (link : string * string) : node act :=
  let '(label, id) := link in
  Elt "a"
    [AStr "key" id; AStr "href" ("#" +++ id);
     cls "cursor-pointer hover:text-foreground transition-colors duration-200"]
    [Txt label].

Definition navbar_toggle (theme : option string) : node act :=
  Elt "button"
    [AOn "onClick" (SetTheme (other_theme theme));
     cls "cursor-pointer rounded-xl p-2.5 text-muted-foreground hover:text-foreground hover:bg-muted/50 transition-all duration-200";
     AStr "aria-label" "Toggle theme"]
    [theme_icon theme].

Definition LandingNavbar (s : entry) : node act :=
  Elt "nav"
    [cls ("fixed top-0 z-50 w-full transition-all duration-500 " +++ (if en_scrolled s then "backdrop-blur-xl bg-background/80 border-b border-border/50 shadow-sm" else "bg-transparent border-b border-transparent"))]
    [Elt "div" [cls "mx-auto grid max-w-7xl grid-cols-3 items-center px-6 py-3.5 sm:px-12 lg:px-16"]
       [Elt "div" [cls "hidden md:flex items-center gap-8 text-sm font-medium text-muted-foreground"]
          [Frag (map navbar_link navbar_links)];
        Elt "div" [cls "md:hidden"] [];
        Elt "a"
          [AStr "href" "#"; AOn "onClick" ScrollTop;
           cls "flex items-center justify-center gap-3 cursor-pointer"]
          [LogoIcon (Some "-my-2") (Some 44) true;
           Elt "span" [cls "text-xl font-bold tracking-tight"]
             [Txt "Edge"; Elt "span" [cls "text-primary"] [Txt "Guardian"]]];
        Elt "div" [cls "flex items-center justify-end gap-3"]
          [when (en_mounted s) (navbar_toggle (en_theme s));
           Elt "Button" [AStr "size" "default"; cls "px-6"; AOn "onClick" (SignInWith "keycloak" "/dashboard")]
             [Txt "Get Started"]]]].
End entry_views.
