(* ===== verification/Marquee.v ===== *)
(** * The platform marquee: ui/components/landing/marquee-section.tsx

    Two endless rows of platforms. A row repeats its items until it is wide
    enough, and an animation callback moves it. *)

From S2P Require Import Prelude JsString JsNumber JsArray Vdom.

Record PlatformItem := { pi_name : string; pi_detail : option string; pi_icon : string }.
Definition platform (name : string) (detail : option string) (icon : string) : PlatformItem :=
  {| pi_name := name; pi_detail := detail; pi_icon := icon |}.

Definition OS_ITEMS : list PlatformItem :=
  [platform "Linux" None "linux";
   platform "Raspberry Pi" None "raspberrypi";
   platform "Ubuntu" None "ubuntu";
   platform "Debian" None "debian";
   platform "Alpine Linux" None "alpine";
   platform "NVIDIA Jetson" None "nvidia";
   platform "Intel NUC" None "intel";
   platform "ESP32" None "espressif";
   platform "Android" None "android"].

Definition ARCH_ITEMS : list PlatformItem :=
  [platform "ARM64" (Some "aarch64") "arm";
   platform "ARMv7" (Some "armhf") "arm";
   platform "x86_64" (Some "amd64") "intel";
   platform "RISC-V" (Some "riscv64") "riscv"].

Definition ICON_FILE : list (string * string) :=
  [("linux", "/icons/linux.svg");
   ("raspberrypi", "/icons/raspberrypi.svg")].

Definition ICON_COLOR : list (string * string) :=
  [("ubuntu", "text-[#E95420]");
   ("debian", "text-[#A81D33] dark:text-[#D64468]");
   ("alpine", "text-[#0D597F]");
   ("nvidia", "text-[#76B900]");
   ("intel", "text-[#0071C5]");
   ("arm", "text-[#0091BD]");
   ("espressif", "text-[#E7352C]");
   ("android", "text-[#34A853]");
   ("riscv", "text-[#283272] dark:text-[#6478D8]")].

(** The outlines of the icons, by name. *)
Definition PLATFORM_ICONS : list (string * string) :=
  [("ubuntu", "M17.61.455a3.41 3.41 0 00-3.41 3.41 3.41 3.41 0 003.41 3.41 3.41 3.41 0 003.41-3.41 3.41 3.41 0 00-3.41-3.41zM12.92.8C8.923.777 5.137 2.941 3.148 6.451a4.5 4.5 0 01.26-.007 4.92 4.92 0 012.585.737A8.316 8.316 0 0112.688 3.6 4.944 4.944 0 0113.723.834 11.008 11.008 0 0012.92.8zm9.226 4.994a4.915 4.915 0 01-1.918 2.246 8.36 8.36 0 01-.273 8.303 4.89 4.89 0 011.632 2.54 11.156 11.156 0 00.559-13.089zM3.41 7.932A3.41 3.41 0 000 11.342a3.41 3.41 0 003.41 3.409 3.41 3.41 0 003.41-3.41 3.41 3.41 0 00-3.41-3.41zm2.027 7.866a4.908 4.908 0 01-2.915.358 11.1 11.1 0 007.991 6.698 11.234 11.234 0 002.422.249 4.879 4.879 0 01-.999-2.85 8.484 8.484 0 01-.836-.136 8.304 8.304 0 01-5.663-4.32zm11.405.928a3.41 3.41 0 00-3.41 3.41 3.41 3.41 0 003.41 3.41 3.41 3.41 0 003.41-3.41 3.41 3.41 0 00-3.41-3.41z");
   ("debian", "M13.88 12.685c-.4 0 .08.2.601.28.14-.1.27-.22.39-.33a3 3 0 01-.99.05m2.14-.53c.23-.33.4-.69.47-1.06-.06.27-.2.5-.33.73-.75.47-.07-.27 0-.56-.8 1.01-.11.6-.14.89m.781-2.05c.05-.721-.14-.501-.2-.221.07.04.13.5.2.22M12.38.31c.2.04.45.07.42.12.23-.05.28-.1-.43-.12m.43.12l-.15.03.14-.01V.43m6.633 9.944c.02.64-.2.95-.38 1.5l-.35.181c-.28.54.03.35-.17.78-.44.39-1.34 1.22-1.62 1.301-.201 0 .14-.25.19-.34-.591.4-.481.6-1.371.85l-.03-.06c-2.221 1.04-5.303-1.02-5.253-3.842-.03.17-.07.13-.12.2a3.551 3.552 0 012.001-3.501 3.361 3.362 0 013.732.48 3.341 3.342 0 00-2.721-1.3c-1.18.01-2.281.76-2.651 1.57-.6.38-.67 1.47-.93 1.661-.361 2.601.66 3.722 2.38 5.042.27.19.08.21.12.35a4.702 4.702 0 01-1.53-1.16c.23.33.47.66.8.91-.55-.18-1.27-1.3-1.48-1.35.93 1.66 3.78 2.921 5.261 2.3a6.203 6.203 0 01-2.33-.28c-.33-.16-.77-.51-.7-.57a5.802 5.803 0 005.902-.84c.44-.35.93-.94 1.07-.95-.2.32.04.16-.12.44.44-.72-.2-.3.46-1.24l.24.33c-.09-.6.74-1.321.66-2.262.19-.3.2.3 0 .97.29-.74.08-.85.15-1.46.08.2.18.42.23.63-.18-.7.2-1.2.28-1.6-.09-.05-.28.3-.32-.53 0-.37.1-.2.14-.28-.08-.05-.26-.32-.38-.861.08-.13.22.33.34.34-.08-.42-.2-.75-.2-1.08-.34-.68-.12.1-.4-.3-.34-1.091.3-.25.34-.74.54.77.84 1.96.981 2.46-.1-.6-.28-1.2-.49-1.76.16.07-.26-1.241.21-.37A7.823 7.824 0 0017.702 1.6c.18.17.42.39.33.42-.75-.45-.62-.48-.73-.67-.61-.25-.65.02-1.06 0C15.082.73 14.862.8 13.8.4l.05.23c-.77-.25-.9.1-1.73 0-.05-.04.27-.14.53-.18-.741.1-.701-.14-1.431.03.17-.13.36-.21.55-.32-.6.04-1.44.35-1.18.07C9.6.68 7.847 1.3 6.867 2.22L6.838 2c-.45.54-1.96 1.611-2.08 2.311l-.131.03c-.23.4-.38.85-.57 1.261-.3.52-.45.2-.4.28-.6 1.22-.9 2.251-1.16 3.102.18.27 0 1.65.07 2.76-.3 5.463 3.84 10.776 8.363 12.006.67.23 1.65.23 2.49.25-.99-.28-1.12-.15-2.08-.49-.7-.32-.85-.7-1.34-1.13l.2.35c-.971-.34-.57-.42-1.361-.67l.21-.27c-.31-.03-.83-.53-.97-.81l-.34.01c-.41-.501-.63-.871-.61-1.161l-.111.2c-.13-.21-1.52-1.901-.8-1.511-.13-.12-.31-.2-.5-.55l.14-.17c-.35-.44-.64-1.02-.62-1.2.2.24.32.3.45.33-.88-2.172-.93-.12-1.601-2.202l.15-.02c-.1-.16-.18-.34-.26-.51l.06-.6c-.63-.74-.18-3.102-.09-4.402.07-.54.53-1.1.88-1.981l-.21-.04c.4-.71 2.341-2.872 3.241-2.761.43-.55-.09 0-.18-.14.96-.991 1.26-.7 1.901-.88.7-.401-.6.16-.27-.151 1.2-.3.85-.7 2.421-.85.16.1-.39.14-.52.26 1-.49 3.151-.37 4.562.27 1.63.77 3.461 3.011 3.531 5.132l.08.02c-.04.85.13 1.821-.17 2.711l.2-.42");
   ("alpine", "M5.998 1.607L0 12l5.998 10.393h12.004L24 12 18.002 1.607H5.998zM9.965 7.12L12.66 9.9l1.598 1.595.002-.002 2.41 2.363c-.2.14-.386.252-.563.344a3.756 3.756 0 01-.496.217 2.702 2.702 0 01-.425.111c-.131.023-.25.034-.358.034-.13 0-.242-.014-.338-.034a1.317 1.317 0 01-.24-.072.95.95 0 01-.2-.113l-1.062-1.092-3.039-3.041-1.1 1.053-3.07 3.072a.974.974 0 01-.2.111 1.274 1.274 0 01-.237.073c-.096.02-.209.033-.338.033-.108 0-.227-.009-.358-.031a2.7 2.7 0 01-.425-.114 3.748 3.748 0 01-.496-.217 5.228 5.228 0 01-.563-.343l6.803-6.727zm4.72.785l4.579 4.598 1.382 1.353a5.24 5.24 0 01-.564.344 3.73 3.73 0 01-.494.217 2.697 2.697 0 01-.426.111c-.13.023-.251.034-.36.034-.129 0-.241-.014-.337-.034a1.285 1.285 0 01-.385-.146c-.033-.02-.05-.036-.053-.04l-1.232-1.218-2.111-2.111-.334.334L12.79 9.8l1.896-1.897zm-5.966 4.12v2.529a2.128 2.128 0 01-.356-.035 2.765 2.765 0 01-.422-.116 3.708 3.708 0 01-.488-.214 5.217 5.217 0 01-.555-.34l1.82-1.825Z");
   ("nvidia", "M8.948 8.798v-1.43a6.7 6.7 0 01.424-.018c3.922-.124 6.493 3.374 6.493 3.374s-2.774 3.851-5.75 3.851c-.398 0-.787-.062-1.158-.185v-4.346c1.528.185 1.837.857 2.747 2.385l2.04-1.714s-1.492-1.952-4-1.952a6.016 6.016 0 00-.796.035m0-4.735v2.138l.424-.027c5.45-.185 9.01 4.47 9.01 4.47s-4.08 4.964-8.33 4.964c-.37 0-.733-.035-1.095-.097v1.325c.3.035.61.062.91.062 3.957 0 6.82-2.023 9.593-4.408.459.371 2.34 1.263 2.73 1.652-2.633 2.208-8.772 3.984-12.253 3.984-.335 0-.653-.018-.971-.053v1.864H24V4.063zm0 10.326v1.131c-3.657-.654-4.673-4.46-4.673-4.46s1.758-1.944 4.673-2.262v1.237H8.94c-1.528-.186-2.73 1.245-2.73 1.245s.68 2.412 2.739 3.11M2.456 10.9s2.164-3.197 6.5-3.533V6.201C4.153 6.59 0 10.653 0 10.653s2.35 6.802 8.948 7.42v-1.237c-4.84-.6-6.492-5.936-6.492-5.936z");
   ("intel", "M20.42 7.345v9.18h1.651v-9.18zM0 7.475v1.737h1.737V7.474zm9.78.352v6.053c0 .513.044.945.13 1.292.087.34.235.618.44.828.203.21.475.359.803.451.334.093.754.136 1.255.136h.216v-1.533c-.24 0-.445-.012-.593-.037a.672.672 0 01-.39-.173.693.693 0 01-.173-.377 4.002 4.002 0 01-.037-.606v-2.182h1.193v-1.416h-1.193V7.827zm-3.505 2.312c-.396 0-.76.08-1.082.241-.327.161-.6.384-.822.668l-.087.117v-.902H2.658v6.256h1.639v-3.214c.018-.588.16-1.02.433-1.299.29-.297.642-.445 1.044-.445.476 0 .841.149 1.082.433.235.284.359.686.359 1.2v3.324h1.663V12.97c.006-.89-.229-1.595-.686-2.09-.458-.495-1.1-.742-1.917-.742zm10.065.006a3.252 3.252 0 00-2.306.946c-.29.29-.525.637-.692 1.033a3.145 3.145 0 00-.254 1.273c0 .452.08.878.241 1.274.161.395.39.742.674 1.032.284.29.637.526 1.045.693.408.173.86.26 1.342.26 1.397 0 2.262-.637 2.782-1.23l-1.187-.904c-.248.297-.841.699-1.583.699-.464 0-.847-.105-1.138-.321a1.588 1.588 0 01-.593-.872l-.019-.056h4.915v-.587c0-.451-.08-.872-.235-1.267a3.393 3.393 0 00-.661-1.033 3.013 3.013 0 00-1.02-.692 3.345 3.345 0 00-1.311-.248zm-16.297.118v6.256h1.651v-6.256zm16.278 1.286c1.132 0 1.664.797 1.664 1.255l-3.32.006c0-.458.525-1.255 1.656-1.261z");
   ("arm", "M5.419 8.534h1.614v6.911H5.419v-.72c-.71.822-1.573.933-2.07.933C1.218 15.658 0 13.882 0 11.985c0-2.253 1.542-3.633 3.37-3.633.507 0 1.4.132 2.049.984zm-3.765 3.491c0 1.198.751 2.202 1.918 2.202 1.015 0 1.959-.74 1.959-2.181 0-1.512-.934-2.233-1.959-2.233-1.167-.01-1.918.974-1.918 2.212zm7.297-3.49h1.613v.618a3 3 0 01.67-.578c.314-.183.619-.233.984-.233.396 0 .822.06 1.269.324l-.66 1.462a1.432 1.432 0 00-.822-.244c-.345 0-.69.05-1.005.376-.446.477-.446 1.136-.446 1.593v3.582H8.94zm5.56 0h1.614v.639c.538-.66 1.177-.822 1.705-.822.72 0 1.4.345 1.786 1.015.579-.822 1.441-1.015 2.05-1.015.842 0 1.573.396 1.969 1.086.132.233.365.74.365 1.745v4.272h-1.614V11.65c0-.771-.08-1.086-.152-1.228-.101-.264-.345-.609-.923-.609-.396 0-.741.213-.954.508-.284.395-.315.984-.315 1.572v3.562H18.43V11.65c0-.771-.081-1.086-.152-1.228-.102-.264-.345-.609-.924-.609-.396 0-.74.213-.954.508-.284.395-.314.984-.314 1.572v3.562h-1.573z");
   ("espressif", "M12.926 19.324a7.6 7.6 0 00-2.983-6.754 7.44 7.44 0 00-3.828-1.554.697.697 0 01-.606-.731.674.674 0 01.743-.617 8.97 8.97 0 018 9.805 7.828 7.828 0 01-.298 1.542l1.989.56a11.039 11.039 0 001.714-.651 12.159 12.159 0 00.217-2.343A12.57 12.57 0 007.212 6.171a5.53 5.53 0 00-2 0 4.354 4.354 0 00-2.16 1.337 4.274 4.274 0 001.909 6.856 9.896 9.896 0 001.074.195 4.011 4.011 0 013.337 3.954 3.965 3.965 0 01-.64 2.16l1.371.88a10.182 10.182 0 002.057.342 7.52 7.52 0 00.754-2.628m.16 4.73A13.073 13.073 0 01.001 10.983 12.982 12.982 0 013.83 1.737l.743.697a12.067 12.067 0 000 17.141 12.067 12.067 0 0017.141 0l.697.697a12.97 12.97 0 01-9.336 3.726M24 10.993A10.993 10.993 0 0012.949 0c-.389 0-.766 0-1.143.057l-.252.732a18.912 18.912 0 0111.588 11.576l.731-.263c0-.366.069-.732.069-1.143m-1.269 5.165A17.53 17.53 0 007.818 1.27a11.119 11.119 0 00-2.457 1.77v1.635A13.919 13.919 0 0119.268 18.57h1.634a11.713 11.713 0 001.771-2.446M7.92 17.884a1.691 1.691 0 11-1.69-1.691 1.691 1.691 0 011.69 1.691");
   ("android", "M18.4395 5.5586c-.675 1.1664-1.352 2.3318-2.0274 3.498-.0366-.0155-.0742-.0286-.1113-.043-1.8249-.6957-3.484-.8-4.42-.787-1.8551.0185-3.3544.4643-4.2597.8203-.084-.1494-1.7526-3.021-2.0215-3.4864a1.1451 1.1451 0 00-.1406-.1914c-.3312-.364-.9054-.4859-1.379-.203-.475.282-.7136.9361-.3886 1.5019 1.9466 3.3696-.0966-.2158 1.9473 3.3593.0172.031-.4946.2642-1.3926 1.0177C2.8987 12.176.452 14.772 0 18.9902h24c-.119-1.1108-.3686-2.099-.7461-3.0683-.7438-1.9118-1.8435-3.2928-2.7402-4.1836a12.1048 12.1048 0 00-2.1309-1.6875c.6594-1.122 1.312-2.2559 1.9649-3.3848.2077-.3615.1886-.7956-.0079-1.1191a1.1001 1.1001 0 00-.8515-.5332c-.5225-.0536-.9392.3128-1.0488.5449zm-.0391 8.461c.3944.5926.324 1.3306-.1563 1.6503-.4799.3197-1.188.0985-1.582-.4941-.3944-.5927-.324-1.3307.1563-1.6504.4727-.315 1.1812-.1086 1.582.4941zM7.207 13.5273c.4803.3197.5506 1.0577.1563 1.6504-.394.5926-1.1038.8138-1.584.4941-.48-.3197-.5503-1.0577-.1563-1.6504.4008-.6021 1.1087-.8106 1.584-.4941z");
   ("riscv", "M2.94 3.39h3.98v17.22H2.94zm5.09 0h4.32l3.7 10.49h.06l3.79-10.49h4.16L17.84 20.61h-3.66z")].

(** [table[key] || other] *)
Definition lookup_or (table : list (string * string)) (key other : string) : string :=
  match assoc key table with Some v => if truthy v then v else other | None => other end.

(** ** The loop

    [while (repeated.length < 24) repeated.push(...items)]; [None] when the fuel
    is used up before the loop ends. *)
Fixpoint fill_row (fuel : nat) (items repeated : list PlatformItem) : option (list PlatformItem) :=
  if zlength repeated <? 24 then
    match fuel with
    | O => None
    | S fuel => fill_row fuel items (repeated ++ items)
    end
  else Some repeated.

(** ** Motion *)

Inductive direction := left | right.

(** The refs of a row and the variables of its effect; times are in
    milliseconds. [mq_half] is half the width of the track. *)
Record marquee := {
  mq_half : number;
  mq_pos : number;
  mq_speed : number;
  mq_target : number;
  mq_visible : bool;
  mq_last : number
}.

Definition num_opp (x : number) : number := SpecFloat.SFopp x.
Definition num_min (x y : number) : number :=
  if isNaN x || isNaN y then SpecFloat.S754_nan else if num_lt y x then y else x.
Definition num_le (x y : number) : bool := num_lt x y || same_number x y.
Definition tenth (z : Z) : number := num_div (num_of_Z z) (num_of_Z 10).

(** The first run of the animation effect, at time [now]. *)
Definition marquee_start (dir : direction) (half now : number) : marquee :=
  {| mq_half := half; mq_pos := match dir with right => num_opp half | left => num_of_Z 0 end;
     mq_speed := num_of_Z 1; mq_target := num_of_Z 1; mq_visible := true; mq_last := now |}.

(** [tick]: the next state and the position written to the style, if any. *)
Definition tick (dir : direction) (baseSpeed now : number) (m : marquee) : marquee * option number :=
  if negb (mq_visible m) then
    ({| mq_half := mq_half m; mq_pos := mq_pos m; mq_speed := mq_speed m; mq_target := mq_target m;
        mq_visible := false; mq_last := now |}, None)
  else
    let dt := num_min (num_div (num_sub now (mq_last m)) (num_of_Z 1000)) (tenth 1) in
    let speed := num_add (mq_speed m)
                   (num_mul (num_sub (mq_target m) (mq_speed m)) (num_div (num_of_Z 4) (num_of_Z 100))) in
    let move := num_mul (num_mul baseSpeed speed) dt in
    let pos :=
      match dir with
      | left =>
          let pos := num_sub (mq_pos m) move in
          if num_le pos (num_opp (mq_half m)) then num_add pos (mq_half m) else pos
      | right =>
          let pos := num_add (mq_pos m) move in
          if num_le (num_of_Z 0) pos then num_sub pos (mq_half m) else pos
      end in
    ({| mq_half := mq_half m; mq_pos := pos; mq_speed := speed; mq_target := mq_target m;
        mq_visible := true; mq_last := now |}, Some pos).

(** [translateX(${pos}px)] *)
Definition transform (pos : number) : string := "translateX(" +++ number_text pos +++ "px)".

Inductive marquee_action := Enter | Leave | Intersects (visible : bool).

Definition marquee_event (a : marquee_action) (m : marquee) : marquee :=
  match a with
  | Enter => {| mq_half := mq_half m; mq_pos := mq_pos m; mq_speed := mq_speed m; mq_target := tenth 2;
                mq_visible := mq_visible m; mq_last := mq_last m |}
  | Leave => {| mq_half := mq_half m; mq_pos := mq_pos m; mq_speed := mq_speed m; mq_target := num_of_Z 1;
                mq_visible := mq_visible m; mq_last := mq_last m |}
  | Intersects v => {| mq_half := mq_half m; mq_pos := mq_pos m; mq_speed := mq_speed m;
                       mq_target := mq_target m; mq_visible := v; mq_last := mq_last m |}
  end.

(** ** Rendering *)

Definition platform_icon (item : PlatformItem) : node marquee_action :=
  let file := lookup_or ICON_FILE (pi_icon item) "" in
  if truthy file then
    Elt "img" [AStr "src" file; AStr "alt" ""; cls "h-9 w-9 shrink-0"; ABool "draggable" false] []
  else
    Elt "svg"
      [AStr "viewBox" "0 0 24 24";
       cls ("h-9 w-9 shrink-0 fill-current " +++ lookup_or ICON_COLOR (pi_icon item) "text-foreground");
       AStr "aria-hidden" "true"]
      [Elt "path" [AStr "d" (lookup_or PLATFORM_ICONS (pi_icon item) "")] []].

Definition platform_detail (item : PlatformItem) : node marquee_action :=
  match pi_detail item with
  | Some detail =>
      when (truthy detail)
        (Elt "span" [cls "text-sm text-muted-foreground font-mono whitespace-nowrap"] [Txt detail])
  | None => Nothing
  end.

Definition renderPill (item : PlatformItem) (i : Z) : node marquee_action :=
  Elt "div"
    [ANum "key" i;
     cls "flex shrink-0 items-center gap-4 rounded-full border border-border bg-card shadow-sm shadow-black/[0.02] dark:shadow-none px-7 py-3.5"]
    [platform_icon item; Elt "span" [cls "text-lg font-semibold whitespace-nowrap"] [Txt (pi_name item)];
     platform_detail item].

Definition mask : string :=
  "linear-gradient(90deg, transparent 0%, black 8%, black 92%, transparent 100%)".

Definition marquee_view (repeated : list PlatformItem) : node marquee_action :=
  Elt "div"
    [cls "relative overflow-hidden py-1"; AOn "onMouseEnter" Enter; AOn "onMouseLeave" Leave;
     AProp "style" (DObj [("maskImage", DStr mask); ("WebkitMaskImage", DStr mask)])]
    [Elt "div" [cls "flex w-max gap-5 will-change-transform"]
       [Frag (imap (fun i item => renderPill item (Z.of_nat i)) repeated);
        Frag (imap (fun i item => renderPill item (Z.of_nat i + zlength repeated)) repeated)]].

(** [None]: rendering does not end. *)
Definition MarqueeRow (fuel : nat) (items : list PlatformItem) : option (node marquee_action) :=
  marquee_view <$> fill_row fuel items [].

(** The rows of [MarqueeSection] with their directions and speeds. *)
Definition marquee_rows : list (list PlatformItem * direction * Z) :=
  [(OS_ITEMS, left, 45); (ARCH_ITEMS, right, 40)].

Definition MarqueeSection (fuel : nat) : option (node marquee_action) :=
  (fun rows => Elt "div" [cls "reveal reveal-up space-y-5"] rows) <$>
    mapM (fun r => MarqueeRow fuel (fst (fst r))) marquee_rows.
