(* ===== verification/TerminalDemo.v ===== *)
(** * The terminal demo: ui/components/landing/terminal-section.tsx

    When the section scrolls into view, timers show the lines of a recorded
    session one after the other. *)

From S2P Require Import Prelude JsString JsArray Vdom.

Inductive line_type := cmd | out | gap.

Record terminal_line := { tl_type : line_type; tl_text : string; tl_cls : option string }.
Definition line (t : line_type) (text : string) (c : option string) : terminal_line :=
  {| tl_type := t; tl_text := text; tl_cls := c |}.

Definition TERMINAL_LINES : list terminal_line :=
  [line cmd "ssh edge@rpi-gateway-01" None;
   line out "Connected to rpi-gateway-01 (192.168.1.42)" (Some "text-emerald-600 dark:text-emerald-400");
   line gap "" None;
   line cmd "edgeguard status" None;
   line out "● EdgeGuardian Agent v2.4.1" (Some "font-semibold text-cyan-700 dark:text-cyan-300");
   line out "  Status:     active (running)" None;
   line out "  Uptime:     14d 6h 32m" None;
   line out "  Fleet:      connected (1,847 devices)" None;
   line out "  Last sync:  2s ago" None;
   line gap "" None;
   line cmd "edgeguard deploy --rolling firmware-v2.5.0" None;
   line out "✓ Artifact signature verified (sha256:a3f8…c291)" (Some "text-emerald-600 dark:text-emerald-400");
   line out "▸ Rolling deployment to 847 devices…" (Some "text-cyan-700 dark:text-cyan-400");
   line out "  ████████████████░░░░  78% complete" (Some "text-cyan-600 dark:text-cyan-300/80");
   line out "  661 updated · 183 pending · 3 queued" None].

(** ** Timers *)

(** [text.length]: the commands are ASCII. *)
Definition delay (l : terminal_line) : Z :=
  match tl_type l with
  | cmd => 500 + Z.of_nat (String.length (tl_text l)) * 22
  | gap => 150
  | out => 90
  end.

(** The timers of the effect that runs once the section is active: when they
    fire, in milliseconds, and the count they set. *)
Fixpoint timers_from (cumulative : Z) (i : Z) (l : list terminal_line) : list (Z * Z) :=
  match l with
  | [] => []
  | line :: l =>
      let cumulative := cumulative + delay line in
      (cumulative, i + 1) :: timers_from cumulative (i + 1) l
  end.
Definition timers : list (Z * Z) := timers_from 400 0 TERMINAL_LINES.

Record demo := {
  td_mounted : bool;
  td_active : bool;
  td_visibleCount : Z;
  td_pending : list (Z * Z)
}.

Definition demo_initial : demo :=
  {| td_mounted := true; td_active := false; td_visibleCount := 0; td_pending := [] |}.

(** [Intersects]: the observer reports; it disconnects at the first
    intersection. [Fire]: the first pending timer fires. [Unmount]: the observer
    disconnects and the timers are cleared. *)
Inductive demo_action := Intersects (isIntersecting : bool) | Fire | Unmount.

Definition set_demo (active : bool) (count : Z) (pending : list (Z * Z)) (s : demo) : demo :=
  {| td_mounted := td_mounted s; td_active := active; td_visibleCount := count; td_pending := pending |}.

Definition demo_step (s : demo) (a : demo_action) : demo :=
  match a with
  | Intersects isIntersecting =>
      if isIntersecting && td_mounted s && negb (td_active s)
      then set_demo true (td_visibleCount s) timers s else s
  | Fire =>
      match td_pending s with
      | (_, n) :: l => set_demo (td_active s) n l s
      | [] => s
      end
  | Unmount =>
      {| td_mounted := false; td_active := td_active s; td_visibleCount := td_visibleCount s;
         td_pending := [] |}
  end.

(** The state [t] milliseconds after the section became active: the timers that
    are due have fired, in order. *)
Fixpoint fire_due (t : Z) (due : list (Z * Z)) (s : demo) : demo :=
  match due with
  | [] => s
  | (at_, _) :: due => if at_ <=? t then fire_due t due (demo_step s Fire) else s
  end.
Definition demo_at (t : Z) : demo :=
  let s := demo_step demo_initial (Intersects true) in fire_due t (td_pending s) s.

(** ** Rendering *)

Section view.
Context {A : Type}.

Definition line_class (l : terminal_line) : string :=
  match tl_cls l with
  | Some c => if truthy c then c else "text-slate-600 dark:text-zinc-400"
  | None => "text-slate-600 dark:text-zinc-400"
  end.

Definition is_cmd (l : terminal_line) : bool := match tl_type l with cmd => true | _ => false end.

Definition prompt (visible : bool) : node A :=
  Elt "span"
    [cls (if visible then "text-emerald-600 dark:text-emerald-400 select-none" else "select-none")]
    [Txt "$"; Txt " "].

Definition demo_line (visibleCount i : Z) (l : terminal_line) : node A :=
  let visible := i <? visibleCount in
  match tl_type l with
  | gap => Elt "div" [ANum "key" i; cls "h-3"] []
  | _ =>
      Elt "div"
        [ANum "key" i;
         cls ((if visible then line_class l else "invisible") +++ " " +++ (if visible && (i =? visibleCount - 1) then "animate-[fadeIn_0.15s_ease-out]" else ""))]
        [when (is_cmd l) (prompt visible); Txt (tl_text l)]
  end.

Definition cursor : node A :=
  Elt "span"
    [cls "inline-block w-2.5 h-5 bg-emerald-600 dark:bg-emerald-400/90 mt-1 align-middle";
     AProp "style" (DObj [("animation", DStr "cursorBlink 1s step-end infinite")])] [].

Definition TerminalSection (s : demo) : node A :=
  let visibleCount := td_visibleCount s in
  Elt "div" [cls "reveal reveal-scale"]
    [Elt "div"
       [cls "mx-auto max-w-4xl rounded-2xl bg-white dark:bg-[#0c0c16] border border-border dark:border-white/10 shadow-xl shadow-black/[0.06] dark:shadow-black/40 overflow-hidden"]
       [Elt "div"
          [cls "flex items-center gap-2.5 px-5 py-3.5 border-b border-border dark:border-white/[0.08] bg-slate-50 dark:bg-white/[0.04]"]
          [Elt "div" [cls "h-3 w-3 rounded-full bg-red-500/80"] [];
           Elt "div" [cls "h-3 w-3 rounded-full bg-amber-500/80"] [];
           Elt "div" [cls "h-3 w-3 rounded-full bg-emerald-500/80"] [];
           Elt "span" [cls "ml-4 text-xs text-muted-foreground dark:text-zinc-500 tracking-wide font-mono"]
             [Txt "edge@rpi-gateway-01 — edgeguard"]];
        Elt "div" [cls "p-6 sm:p-8 font-mono text-sm sm:text-base leading-relaxed"]
          [Frag (imap (fun i l => demo_line visibleCount (Z.of_nat i) l) TERMINAL_LINES);
           when (0 <? visibleCount) cursor]]].
End view.
