(* ===== verification/Discovery.v ===== *)
(** * The discovery picture: ui/components/landing/discovery-section.tsx *)

From S2P Require Import Prelude JsString JsNumber JsArray Vdom Marquee.

Record discovery_device := {
  dn_x : Z; dn_y : Z; dn_name : string; dn_delay : Z; dn_status : string; dn_color : string
}.

Definition hub_x : Z := 400.
Definition hub_y : Z := 250.

Definition nodes : list discovery_device :=
  [{| dn_x := 140; dn_y := 70; dn_name := "rpi-gateway-01"; dn_delay := 0; dn_status := "Connected"; dn_color := "#10b981" |};
   {| dn_x := 675; dn_y := 75; dn_name := "jetson-ai-07"; dn_delay := 300; dn_status := "Syncing"; dn_color := "#06b6d4" |};
   {| dn_x := 670; dn_y := 300; dn_name := "esp32-temp-04"; dn_delay := 600; dn_status := "Connected"; dn_color := "#10b981" |};
   {| dn_x := 620; dn_y := 440; dn_name := "nuc-edge-05"; dn_delay := 900; dn_status := "Connected"; dn_color := "#10b981" |};
   {| dn_x := 170; dn_y := 435; dn_name := "rpi-sensor-02"; dn_delay := 1200; dn_status := "Discovered"; dn_color := "#f59e0b" |};
   {| dn_x := 135; dn_y := 295; dn_name := "android-field"; dn_delay := 1500; dn_status := "Syncing"; dn_color := "#06b6d4" |}].

Definition px (z : Z) : string := number_to_string z +++ "px".
Definition hub_origin : string := px hub_x +++ " " +++ px hub_y.
Definition point (x y : Z) : string := number_to_string x +++ "," +++ number_to_string y.

Section view.
(** [Math.hypot], which the language leaves to the implementation. *)
Context {A : Type} (hypot : Z -> Z -> number).

Definition discovery_link (active : bool) (i : Z) (n : discovery_device) : node A :=
  let len := hypot (hub_x - dn_x n) (hub_y - dn_y n) in
  Elt "g" [AStr "key" ("l-" +++ number_to_string i)]
    [Elt "line"
       [ANum "x1" (dn_x n); ANum "y1" (dn_y n); ANum "x2" hub_x; ANum "y2" hub_y;
        AStr "stroke" "var(--color-primary)"; AStr "strokeOpacity" "0.06"; AStr "strokeWidth" "1"] [];
     Elt "line"
       [ANum "x1" (dn_x n); ANum "y1" (dn_y n); ANum "x2" hub_x; ANum "y2" hub_y;
        AStr "stroke" "var(--color-primary)"; AStr "strokeOpacity" "0.3"; AStr "strokeWidth" "1.5";
        AProp "strokeDasharray" (DNum len);
        AProp "strokeDashoffset" (DNum (if active then num_of_Z 0 else len));
        AProp "style" (DObj [("transition", DStr ("stroke-dashoffset 1.5s ease-out " +++ number_to_string (dn_delay n + 400) +++ "ms"))])] []].

Definition discovery_rings : node A :=
  Frag
          [Elt "circle"
             [ANum "cx" hub_x; ANum "cy" hub_y; AStr "r" "44"; AStr "fill" "none";
              AStr "stroke" "var(--color-primary)"; AStr "strokeWidth" "1"; cls "discovery-ring";
              AProp "style" (DObj [("transformOrigin", DStr hub_origin)])] [];
           Elt "circle"
             [ANum "cx" hub_x; ANum "cy" hub_y; AStr "r" "44"; AStr "fill" "none";
              AStr "stroke" "var(--color-primary)"; AStr "strokeWidth" "1"; cls "discovery-ring";
              AProp "style" (DObj [("transformOrigin", DStr hub_origin); ("animationDelay", DStr "1.5s")])] []].

Definition discovery_node (active : bool) (i : Z) (n : discovery_device) : node A :=
  let isLeft := dn_x n <? hub_x in
  let lx := if isLeft then dn_x n - 18 else dn_x n + 18 in
  let anchor := if isLeft then "end" else "start" in
  Elt "g" [AStr "key" ("d-" +++ number_to_string i)]
    [Elt "circle"
       [ANum "cx" (dn_x n); ANum "cy" (dn_y n); AStr "r" "10"; AStr "fill" "var(--color-card)";
        AStr "stroke" "var(--color-primary)"; AStr "strokeOpacity" "0.5"; AStr "strokeWidth" "2";
        AProp "style" (DObj [("opacity", DInt (if active then 1 else 0)); ("transform", DStr (if active then "scale(1)" else "scale(0)")); ("transformOrigin", DStr (px (dn_x n) +++ " " +++ px (dn_y n))); ("transition", DStr ("all 0.5s cubic-bezier(0.16,1,0.3,1) " +++ number_to_string (dn_delay n + 200) +++ "ms"))])] [];
     Elt "circle"
       [ANum "cx" (dn_x n); ANum "cy" (dn_y n); AStr "r" "4"; AStr "fill" "var(--color-primary)";
        AProp "style" (DObj [("opacity", DInt (if active then 1 else 0)); ("transition", DStr ("opacity 0.4s " +++ number_to_string (dn_delay n + 400) +++ "ms"))])] [];
     Elt "text"
       [ANum "x" lx; ANum "y" (dn_y n - 2); AStr "textAnchor" anchor; AStr "fill" "var(--color-foreground)";
        AProp "style" (DObj [("fontSize", DStr "12px"); ("fontWeight", DInt 600); ("fontFamily", DStr "var(--font-mono)"); ("opacity", DInt (if active then 1 else 0)); ("transition", DStr ("opacity 0.5s " +++ number_to_string (dn_delay n + 600) +++ "ms"))])]
       [Txt (dn_name n)];
     Elt "text"
       [ANum "x" lx; ANum "y" (dn_y n + 14); AStr "textAnchor" anchor; AStr "fill" (dn_color n);
        AProp "style" (DObj [("fontSize", DStr "10px"); ("fontWeight", DInt 600); ("letterSpacing", DStr "0.05em"); ("opacity", DInt (if active then 1 else 0)); ("transition", DStr ("opacity 0.5s " +++ number_to_string (dn_delay n + 1400) +++ "ms"))])]
       [Txt "● "; Txt (dn_status n)]].

Definition discovery_pulse (i : Z) (n : discovery_device) : node A :=
  Elt "circle"
    [AStr "key" ("p-" +++ number_to_string i); AStr "r" "3"; AStr "fill" "var(--color-primary)";
     AStr "filter" "url(#pulse-glow)"]
    [Elt "animateMotion"
       [AStr "dur" (number_text (num_add (num_of_Z 2) (num_mul (num_of_Z i) (tenth 3))) +++ "s");
        AStr "repeatCount" "indefinite";
        AStr "path" ("M" +++ point (dn_x n) (dn_y n) +++ " L" +++ point hub_x hub_y)] []].

Definition DiscoverySection (active : bool) : node A :=
  Elt "div" [cls "reveal reveal-scale"]
    [Elt "div" [cls "mx-auto max-w-4xl"]
       [Elt "svg" [AStr "viewBox" "0 0 800 500"; cls "w-full h-auto"]
          [Elt "defs" []
             [Elt "filter" [AStr "id" "pulse-glow"]
                [Elt "feGaussianBlur" [AStr "stdDeviation" "3"; AStr "result" "blur"] [];
                 Elt "feMerge" []
                   [Elt "feMergeNode" [AStr "in" "blur"] []; Elt "feMergeNode" [AStr "in" "SourceGraphic"] []]];
              Elt "radialGradient" [AStr "id" "hub-bg"; AStr "cx" "50%"; AStr "cy" "50%"; AStr "r" "50%"]
                [Elt "stop" [AStr "offset" "0%"; AStr "stopColor" "var(--color-primary)"; AStr "stopOpacity" "0.15"] [];
                 Elt "stop" [AStr "offset" "100%"; AStr "stopColor" "var(--color-primary)"; AStr "stopOpacity" "0"] []]];
           Frag (imap (fun i n => discovery_link active (Z.of_nat i) n) nodes);
           Elt "circle"
             [ANum "cx" hub_x; ANum "cy" hub_y; AStr "r" "80"; AStr "fill" "url(#hub-bg)";
              AProp "style" (DObj [("opacity", DInt (if active then 1 else 0)); ("transition", DStr "opacity 1s")])] [];
           when active discovery_rings;
           Elt "circle"
             [ANum "cx" hub_x; ANum "cy" hub_y; AStr "r" "36"; AStr "fill" "var(--color-primary)";
              AStr "fillOpacity" "0.1"; AStr "stroke" "var(--color-primary)"; AStr "strokeOpacity" "0.5";
              AStr "strokeWidth" "2";
              AProp "style" (DObj [("opacity", DInt (if active then 1 else 0)); ("transform", DStr (if active then "scale(1)" else "scale(0.3)")); ("transformOrigin", DStr hub_origin); ("transition", DStr "all 0.8s cubic-bezier(0.16,1,0.3,1)")])] [];
           Elt "path"
             [AStr "d" "M400,237 l-12,6 v10 c0,8 5.5,14 12,16 c6.5,-2 12,-8 12,-16 v-10 z";
              AStr "fill" "var(--color-primary)"; AStr "fillOpacity" "0.25"; AStr "stroke" "var(--color-primary)";
              AStr "strokeWidth" "1.5"; AStr "strokeLinejoin" "round";
              AProp "style" (DObj [("opacity", DInt (if active then 1 else 0)); ("transition", DStr "opacity 0.6s ease-out 300ms")])] [];
           Elt "path"
             [AStr "d" "M394,253 l4,4 l8,-8"; AStr "fill" "none"; AStr "stroke" "var(--color-primary)";
              AStr "strokeWidth" "2"; AStr "strokeLinecap" "round"; AStr "strokeLinejoin" "round";
              AProp "style" (DObj [("opacity", DInt (if active then 1 else 0)); ("transition", DStr "opacity 0.6s ease-out 500ms")])] [];
           Elt "text"
             [ANum "x" hub_x; ANum "y" (hub_y + 55); AStr "textAnchor" "middle";
              AStr "fill" "var(--color-primary)";
              AProp "style" (DObj [("fontSize", DStr "13px"); ("fontWeight", DInt 700); ("fontFamily", DStr "var(--font-sans)"); ("opacity", DInt (if active then 1 else 0)); ("transition", DStr "opacity 0.6s ease-out 200ms")])]
             [Txt "EdgeGuardian Controller"];
           Frag (imap (fun i n => discovery_node active (Z.of_nat i) n) nodes);
           when active (Frag (imap (fun i n => discovery_pulse (Z.of_nat i) n) nodes))]]].
End view.
