(* ===== verification/Landing.v ===== *)
(** * The landing page: ui/app/page.tsx

    The static sections of the page. [MarqueeSection], [TerminalSection] and
    [DiscoverySection] are client components with files of their own. *)

From S2P Require Import Prelude JsString JsNumber JsArray Vdom Components SignIn.

Record mock_device_row := {
  md_name : string; md_status : string; md_cpu : string; md_mem : string; md_region : string
}.
Definition mock_row (name status cpu mem region : string) : mock_device_row :=
  {| md_name := name; md_status := status; md_cpu := cpu; md_mem := mem; md_region := region |}.

Definition MOCK_DEVICES : list mock_device_row :=
  [mock_row "rpi-gateway-01" "online" "23%" "41%" "us-west";
   mock_row "jetson-ai-07" "online" "67%" "72%" "eu-central";
   mock_row "esp32-temp-04" "degraded" "89%" "34%" "ap-south";
   mock_row "nuc-edge-05" "online" "12%" "28%" "us-east";
   mock_row "rpi-sensor-02" "online" "45%" "55%" "eu-west"].

Definition CHART_BARS : list Z := [40; 55; 38; 72; 65; 48; 82; 58; 45; 90; 75; 62; 50; 68; 78; 42; 85; 55; 70; 60].

Record mock_log := { le_time : string; le_level : string; le_msg : string; le_src : string }.
Definition log_row (time level msg src : string) : mock_log :=
  {| le_time := time; le_level := level; le_msg := msg; le_src := src |}.

Definition LOG_ENTRIES : list mock_log :=
  [log_row "14:32:01" "info" "Heartbeat received from rpi-gateway-01" "fleet";
   log_row "14:32:03" "warn" "CPU threshold exceeded (89%) on esp32-temp-04" "health";
   log_row "14:32:05" "info" "Firmware v2.5.0 verified, initiating install" "ota";
   log_row "14:32:06" "info" "Desired state reconciled on jetson-ai-07" "reconciler";
   log_row "14:32:08" "info" "OTA rollout 92% complete for fleet-west" "deploy"].

Definition ST_DOT : list (string * string) :=
  [("online", "bg-emerald-400"); ("degraded", "bg-amber-400"); ("offline", "bg-zinc-600")].

Section landing.
Context {styling : Styling}.
Abbreviation act := entry_action.

Definition SectionLabel (text : string) : node act :=
  Elt "div" [cls "text-sm text-primary font-semibold uppercase tracking-widest mb-4"] [Txt text].

(** ** Dashboard mock-up *)

Definition mock_dot (i : Z) : node act :=
  Elt "div"
    [ANum "key" i;
     cls ("w-6 h-1 rounded-full " +++ (if i =? 2 then "bg-primary/30" else "bg-slate-200 dark:bg-white/10"))] [].

Definition mock_tile (m : string * string) : node act :=
  let '(label, val) := m in
  Elt "div"
    [AStr "key" label;
     cls "rounded-xl bg-slate-50 dark:bg-white/[0.06] border border-slate-200 dark:border-white/[0.08] p-3"]
    [Elt "div" [cls "text-[10px] text-slate-500 dark:text-zinc-500 uppercase tracking-wider font-medium"]
       [Txt label];
     Elt "div" [cls "text-base sm:text-lg font-bold mt-1 text-primary"] [Txt val]].

Definition mock_bar (h i : Z) : node act :=
  Elt "div"
    [ANum "key" i; cls "flex-1 rounded-t landing-bar";
     AProp "style" (DObj [("height", DStr (number_to_string h +++ "%")); ("background", DStr (if 80 <? h then "linear-gradient(to top, rgba(251,191,36,0.6), rgba(251,191,36,0.15))" else "linear-gradient(to top, rgba(6,182,212,0.6), rgba(6,182,212,0.1))")); ("animationDelay", DStr (number_to_string (800 + i * 50) +++ "ms"))])] [].

Definition mock_device (d : mock_device_row) : node act :=
  Elt "div"
    [AStr "key" (md_name d);
     cls "flex items-center gap-2.5 rounded-lg bg-slate-50 dark:bg-white/[0.05] px-3 py-2"]
    [Elt "div" [cls ("h-2 w-2 rounded-full shrink-0 " +++ (assoc (md_status d) ST_DOT ?? "undefined"))] [];
     Elt "span" [cls "text-xs text-slate-600 dark:text-zinc-400 font-mono truncate"] [Txt (md_name d)];
     Elt "span" [cls "ml-auto text-[11px] text-slate-400 dark:text-zinc-600 shrink-0 font-mono"]
       [Txt (md_cpu d)]].

Definition DashboardMockup : node act :=
  Elt "div" [cls "relative"]
    [Elt "div"
       [cls "absolute inset-0 -m-12 rounded-3xl bg-primary/[0.05] dark:bg-cyan-500/[0.07] blur-[100px]"] [];
     Elt "div" [cls "relative"; AProp "style" (DObj [("perspective", DStr "1200px")])]
       [Elt "div"
          [cls "rounded-2xl border border-slate-200 dark:border-white/10 bg-white dark:bg-[#0c0c16] overflow-hidden shadow-2xl shadow-black/10 dark:shadow-black/50";
           AProp "style" (DObj [("animation", DStr "floatDashboard 6s ease-in-out infinite")])]
          [Elt "div"
             [cls "flex items-center gap-2 px-5 py-3 border-b border-slate-200 dark:border-white/[0.08] bg-slate-50 dark:bg-white/[0.04]"]
             [Elt "div" [cls "h-3 w-3 rounded-full bg-red-400/80"] [];
              Elt "div" [cls "h-3 w-3 rounded-full bg-amber-400/80"] [];
              Elt "div" [cls "h-3 w-3 rounded-full bg-emerald-400/80"] [];
              Elt "span" [cls "ml-4 text-xs text-muted-foreground dark:text-zinc-500 tracking-wide"]
                [Txt "EdgeGuardian Dashboard"]];
           Elt "div" [cls "flex"]
             [Elt "div"
                [cls "w-12 sm:w-14 shrink-0 border-r border-slate-200 dark:border-white/[0.08] py-4 flex flex-col items-center gap-3"]
                [Elt "div" [cls "w-6 h-6 rounded-lg bg-primary/20 flex items-center justify-center"]
                   [Elt "div" [cls "w-3 h-3 rounded bg-primary/50"] []];
                 Frag (map mock_dot [1; 2; 3; 4; 5])];
              Elt "div" [cls "flex-1 p-4 sm:p-5 min-w-0"]
                [Elt "div" [cls "grid grid-cols-3 gap-2.5 mb-4"]
                   [Frag (map mock_tile [("Devices", "1,847"); ("Online", "1,823"); ("Deploying", "12")])];
                 Elt "div"
                   [cls "rounded-xl bg-slate-50 dark:bg-white/[0.06] border border-slate-200 dark:border-white/[0.08] p-3 sm:p-4 mb-4"]
                   [Elt "div"
                      [cls "text-[10px] text-slate-500 dark:text-zinc-500 uppercase tracking-wider mb-3 font-medium"]
                      [Txt "Fleet CPU — 24h"];
                    Elt "div" [cls "flex items-end gap-[3px] h-14 sm:h-16"]
                      [Frag (imap (fun i h => mock_bar h (Z.of_nat i)) CHART_BARS)]];
                 Elt "div" [cls "space-y-1.5"] [Frag (map mock_device (slice MOCK_DEVICES 0 4))]]]]]].

(** ** Sections *)

Definition atmosphere : node act :=
  Elt "div" [cls "pointer-events-none fixed inset-0 z-0"]
    [Elt "div"
       [cls "absolute -top-40 right-1/4 h-[700px] w-[700px] rounded-full bg-cyan-400/[0.08] dark:bg-cyan-500/[0.07] blur-[200px]"] [];
     Elt "div"
       [cls "absolute top-2/3 -left-20 h-[600px] w-[600px] rounded-full bg-violet-400/[0.06] dark:bg-violet-500/[0.05] blur-[180px]"] [];
     Elt "div"
       [cls "absolute bottom-0 right-0 h-[500px] w-[500px] rounded-full bg-emerald-400/[0.05] dark:bg-emerald-500/[0.03] blur-[160px]"] [];
     Elt "div"
       [cls "absolute inset-0 dark:hidden opacity-[0.03]";
        AProp "style" (DObj [("backgroundImage", DStr "linear-gradient(rgba(0,0,0,.06) 1px, transparent 1px), linear-gradient(90deg, rgba(0,0,0,.06) 1px, transparent 1px)"); ("backgroundSize", DStr "80px 80px")])] [];
     Elt "div"
       [cls "absolute inset-0 hidden dark:block opacity-[0.02]";
        AProp "style" (DObj [("backgroundImage", DStr "linear-gradient(rgba(255,255,255,.1) 1px, transparent 1px), linear-gradient(90deg, rgba(255,255,255,.1) 1px, transparent 1px)"); ("backgroundSize", DStr "80px 80px")])] []].

Definition hero : node act :=
  Elt "section"
    [cls "relative z-10 mx-auto max-w-7xl px-6 pt-32 pb-24 sm:px-12 lg:px-16 lg:pt-40 min-h-screen flex items-center"]
    [Elt "div" [cls "grid lg:grid-cols-[1fr_1.2fr] gap-16 lg:gap-24 items-center w-full"]
       [Elt "div" [cls "reveal reveal-up"]
          [Elt "p" [cls "text-sm font-semibold text-primary uppercase tracking-widest mb-6"]
             [Txt "Kubernetes-style orchestration for IoT"];
           Elt "h1" [cls "text-4xl font-bold tracking-tight sm:text-5xl lg:text-6xl leading-[1.1]"]
             [Txt "Deploy to thousands."; Elt "br" [] [];
              Elt "span" [cls "text-gradient"] [Txt "Monitor everything."]];
           Elt "p" [cls "mt-6 max-w-lg text-lg text-muted-foreground leading-relaxed"]
             [Txt "Sub-5MB agents that self-heal. Declarative YAML config. OTA updates with automatic rollback. Built for ARM, x86, and everything in between."];
           Elt "div" [cls "mt-10 flex flex-wrap gap-4"]
             [SignInButton [AStr "size" "lg"; cls "px-10 text-base font-bold h-13"] [Txt "Get Started"];
              Elt "a"
                [AStr "href" "#terminal";
                 cls "inline-flex items-center justify-center rounded-md border border-input bg-background px-10 text-base h-13 font-medium hover:bg-accent hover:text-accent-foreground transition-colors"]
                [Txt "See It In Action"]]];
        Elt "div" [cls "reveal reveal-right hidden lg:block"] [Elt "ParallaxWrapper" [] [DashboardMockup]]]].

Definition landing_stats : list (string * string * string) :=
  [("1,847", "Devices Managed", ""); ("99.9", "Uptime SLA", "%"); ("< 5", "Agent Binary", " MB");
   ("30", "Reconcile Cycle", "s")].

Definition stat_card (x : string * string * string) : node act :=
  let '(value, label, suffix) := x in
  Elt "div" [AStr "key" label; cls "bg-card px-6 py-8 sm:px-8 sm:py-10 text-center"]
    [Elt "div" [cls "text-3xl sm:text-4xl lg:text-5xl font-black tracking-tight tabular-nums"]
       [Txt value; Elt "span" [cls "text-primary"] [Txt suffix]];
     Elt "div" [cls "mt-2 text-sm text-muted-foreground font-medium uppercase tracking-wider"] [Txt label]].

Definition stats_section : node act :=
  Elt "section" [cls "relative z-10 mx-auto max-w-6xl px-6 sm:px-12 lg:px-16"]
    [Elt "div"
       [cls "reveal reveal-up grid grid-cols-2 lg:grid-cols-4 gap-px rounded-2xl border border-border bg-border overflow-hidden shadow-sm shadow-black/[0.03] dark:shadow-none"]
       [Frag (map stat_card landing_stats)]].

Definition compatibility_section : node act :=
  Elt "section" [cls "relative z-10 pt-28 lg:pt-36"]
    [Elt "div" [cls "reveal reveal-up text-center mb-12 px-6"]
       [SectionLabel "Compatibility";
        Elt "h2" [cls "text-3xl sm:text-4xl font-bold tracking-tight"]
          [Txt "Runs "; Elt "span" [cls "text-gradient"] [Txt "everywhere"]];
        Elt "p" [cls "mt-3 text-lg text-muted-foreground max-w-xl mx-auto"]
          [Txt "From single-board computers to industrial gateways - one agent binary, every platform."]];
     Elt "MarqueeSection" [] []].

Definition fleet_stats : list (string * string * string) :=
  [("1,847", "total", "text-foreground"); ("1,823", "online", "text-emerald-600 dark:text-emerald-400");
   ("24", "attention", "text-amber-600 dark:text-amber-400")].

Definition fleet_stat (m : string * string * string) : node act :=
  let '(v, l, c) := m in
  Elt "div" [AStr "key" l; cls "rounded-lg bg-slate-50 dark:bg-white/[0.07] px-3 py-2 text-center"]
    [Elt "div" [cls ("text-sm font-bold " +++ c)] [Txt v];
     Elt "div" [cls "text-[11px] text-muted-foreground"] [Txt l]].

Definition fleet_device (d : mock_device_row) : node act :=
  Elt "div"
    [AStr "key" (md_name d);
     cls "flex items-center gap-3 rounded-lg bg-slate-50 dark:bg-white/[0.05] px-3 py-2"]
    [Elt "div" [cls ("h-2 w-2 rounded-full shrink-0 " +++ (assoc (md_status d) ST_DOT ?? "undefined"))] [];
     Elt "span" [cls "text-sm text-slate-600 dark:text-zinc-300 font-mono truncate"] [Txt (md_name d)];
     Elt "span" [cls "ml-auto text-xs text-slate-400 dark:text-zinc-500 shrink-0 font-mono"] [Txt (md_cpu d)]].

Definition fleet_feature : node act :=
  Elt "div"
    [cls "reveal reveal-up group relative rounded-2xl border border-border bg-card shadow-sm shadow-black/[0.03] dark:shadow-none p-8 overflow-hidden transition-all duration-300 hover:border-primary/30 hover:shadow-lg hover:shadow-primary/5 hover:-translate-y-1"]
    [Elt "div"
       [cls "absolute top-0 left-0 right-0 h-px bg-gradient-to-r from-transparent via-primary/40 to-transparent opacity-0 group-hover:opacity-100 transition-opacity duration-300"] [];
     SectionLabel "Fleet Dashboard";
     Elt "h3" [cls "text-2xl font-bold mb-3"] [Txt "Every device. One view."];
     Elt "p" [cls "text-base text-muted-foreground leading-relaxed mb-8"]
       [Txt "Real-time visibility into your entire fleet. Health scores, resource metrics, connection status - filter and drill into any device instantly."];
     Elt "div" [cls "rounded-xl bg-slate-50 dark:bg-[#0c0c16] border border-border dark:border-white/10 p-4"]
       [Elt "div" [cls "grid grid-cols-3 gap-2 mb-3"] [Frag (map fleet_stat fleet_stats)];
        Elt "div" [cls "space-y-1.5"] [Frag (map fleet_device MOCK_DEVICES)]]].

Definition rollout_cell (i : Z) : node act :=
  Elt "div"
    [ANum "key" i;
     cls ("h-2 flex-1 rounded-full transition-all duration-500 " +++ (if i <? 12 then "bg-emerald-500/60" else if i <? 13 then "bg-primary/60 landing-pulse" else "bg-slate-200 dark:bg-white/10"))] [].

Definition updates_feature : node act :=
  Elt "div"
    [AStr "id" "updates";
     cls "reveal reveal-up group relative rounded-2xl border border-border bg-card shadow-sm shadow-black/[0.03] dark:shadow-none p-8 overflow-hidden transition-all duration-300 hover:border-primary/30 hover:shadow-lg hover:shadow-primary/5 hover:-translate-y-1";
     AProp "style" (DObj [("transitionDelay", DStr "100ms")])]
    [Elt "div"
       [cls "absolute top-0 left-0 right-0 h-px bg-gradient-to-r from-transparent via-primary/40 to-transparent opacity-0 group-hover:opacity-100 transition-opacity duration-300"] [];
     SectionLabel "OTA Updates"; Elt "h3" [cls "text-2xl font-bold mb-3"] [Txt "Ship fearlessly."];
     Elt "p" [cls "text-base text-muted-foreground leading-relaxed mb-8"]
       [Txt "Rolling, canary, and immediate deployment strategies. Signed artifacts with integrity verification. Automatic rollback on failure."];
     Elt "div" [cls "rounded-xl bg-slate-50 dark:bg-[#0c0c16] border border-border dark:border-white/10 p-5"]
       [Elt "div" [cls "flex items-center justify-between mb-3"]
          [Elt "span" [cls "text-sm text-foreground font-medium font-mono"] [Txt "firmware-v2.5.0"];
           Elt "span" [cls "text-xs text-primary font-semibold px-2.5 py-1 rounded-full bg-primary/10"]
             [Txt "Rolling"]];
        Elt "div" [cls "h-2.5 bg-slate-200 dark:bg-white/10 rounded-full overflow-hidden mb-3"]
          [Elt "div"
             [cls "h-full rounded-full bg-gradient-to-r from-primary/80 to-primary w-[78%] landing-progress"] []];
        Elt "div" [cls "flex justify-between text-sm text-muted-foreground mb-4"]
          [Elt "span" [] [Txt "78% complete"]; Elt "span" [] [Txt "3 remaining"]];
        Elt "div" [cls "flex gap-1"] [array_from 16 rollout_cell]]].

Definition security_feature : node act :=
  Elt "div"
    [AStr "id" "security";
     cls "reveal reveal-up group relative rounded-2xl border border-border bg-card shadow-sm shadow-black/[0.03] dark:shadow-none p-8 overflow-hidden transition-all duration-300 hover:border-primary/30 hover:shadow-lg hover:shadow-primary/5 hover:-translate-y-1";
     AProp "style" (DObj [("transitionDelay", DStr "200ms")])]
    [Elt "div"
       [cls "absolute top-0 left-0 right-0 h-px bg-gradient-to-r from-transparent via-primary/40 to-transparent opacity-0 group-hover:opacity-100 transition-opacity duration-300"] [];
     SectionLabel "Zero-Trust Security";
     Elt "h3" [cls "text-2xl font-bold mb-3"] [Txt "Secured from day one."];
     Elt "p" [cls "text-base text-muted-foreground leading-relaxed mb-8"]
       [Txt "Mutual TLS on every connection. Encrypted, ticket-authenticated remote shells. Role-based access control with a full audit trail."];
     Elt "div" [cls "flex items-center justify-center py-8"]
       [Elt "div" [cls "relative"]
          [Elt "div" [cls "absolute -inset-16 rounded-full border border-primary/[0.06]"] [];
           Elt "div" [cls "absolute -inset-11 rounded-full border border-primary/10"] [];
           Elt "div" [cls "absolute -inset-16 rounded-full border border-primary/[0.08] landing-ring"] [];
           Elt "div"
             [cls "absolute -inset-11 rounded-full border border-primary/[0.06] landing-ring";
              AProp "style" (DObj [("animationDelay", DStr "1s")])] [];
           Elt "div"
             [cls "relative h-24 w-24 rounded-2xl bg-gradient-to-br from-primary/25 to-primary/[0.03] border border-primary/25 flex items-center justify-center shadow-lg shadow-primary/10"]
             [Elt "svg" [AStr "width" "44"; AStr "height" "44"; AStr "viewBox" "0 0 24 24"; AStr "fill" "none"]
                [Elt "path"
                   [AStr "d" "M12 2L4 6v5c0 5.55 3.84 10.74 8 12 4.16-1.26 8-6.45 8-12V6l-8-4z";
                    AStr "stroke" "currentColor"; cls "text-primary"; AStr "strokeWidth" "1.5";
                    AStr "fill" "currentColor"; AStr "fillOpacity" "0.1"] [];
                 Elt "path"
                   [AStr "d" "M9 12l2 2 4-4"; AStr "stroke" "currentColor"; cls "text-primary"; AStr "strokeWidth" "2";
                    AStr "strokeLinecap" "round"; AStr "strokeLinejoin" "round"] []]]]]].

Definition features_section : node act :=
  Elt "section"
    [AStr "id" "features"; cls "relative z-10 mx-auto max-w-7xl px-6 py-32 lg:py-40 sm:px-12 lg:px-16"]
    [Elt "div" [cls "reveal reveal-up text-center mb-20"]
       [SectionLabel "Platform";
        Elt "h2" [cls "text-3xl sm:text-4xl lg:text-5xl font-bold tracking-tight"]
          [Txt "Everything you need for"; Elt "span" [cls "text-gradient"] [Txt " edge operations"]];
        Elt "p" [cls "mt-4 text-lg text-muted-foreground max-w-2xl mx-auto"]
          [Txt "A complete platform for managing IoT devices at any scale - from prototypes to production fleets."]];
     Elt "div" [cls "grid gap-6 lg:grid-cols-3"] [fleet_feature; updates_feature; security_feature]].

Definition discovery_section : node act :=
  Elt "section"
    [AStr "id" "discovery";
     cls "relative z-10 mx-auto max-w-7xl px-6 pt-28 lg:pt-36 pb-8 sm:px-12 lg:px-16"]
    [Elt "div" [cls "reveal reveal-up text-center mb-16"]
       [SectionLabel "Auto-Discovery";
        Elt "h2" [cls "text-3xl sm:text-4xl lg:text-5xl font-bold tracking-tight"]
          [Txt "Devices find "; Elt "span" [cls "text-gradient"] [Txt "their way home"]];
        Elt "p" [cls "mt-4 text-lg text-muted-foreground max-w-2xl mx-auto"]
          [Txt "Zero-touch provisioning. Devices automatically discover, register, and sync with your controller - no manual configuration required."]];
     Elt "DiscoverySection" [] []].

Definition terminal_section : node act :=
  Elt "section" [AStr "id" "terminal"; cls "relative z-10 mt-32 lg:mt-40"]
    [Elt "div" [cls "absolute inset-0 bg-slate-50 dark:bg-transparent"] [];
     Elt "div" [cls "absolute inset-0 dark:bg-card/60"] [];
     Elt "div" [cls "relative mx-auto max-w-7xl px-6 py-24 sm:px-12 lg:px-16 lg:py-32"]
       [Elt "div" [cls "reveal reveal-up text-center mb-16"]
          [SectionLabel "Live Demo";
           Elt "h2" [cls "text-3xl sm:text-4xl lg:text-5xl font-bold tracking-tight"] [Txt "See it in action"];
           Elt "p" [cls "mt-4 text-lg text-muted-foreground max-w-2xl mx-auto"]
             [Txt "Connect to any device via web terminal or SSH. Deploy firmware updates. Monitor fleet health - all from a single interface."]];
        Elt "TerminalSection" [] []]].

Definition config_card : node act :=
  Elt "div" [cls "reveal reveal-left"]
    [Elt "div"
       [cls "h-full rounded-2xl border border-border bg-card shadow-sm shadow-black/[0.03] dark:shadow-none p-8 lg:p-10"]
       [SectionLabel "Declarative Config";
        Elt "h3" [cls "text-2xl font-bold mb-3"] [Txt "Define once. Converge always."];
        Elt "p" [cls "text-base text-muted-foreground leading-relaxed mb-8"]
          [Txt "Push YAML manifests describing desired device state. The agent reconciles automatically - services, files, network config."];
        Elt "div"
          [cls "rounded-xl bg-slate-50 dark:bg-[#0c0c16] border border-border dark:border-white/10 p-5 font-mono text-sm leading-relaxed overflow-hidden"]
          [Elt "div" []
             [Elt "span" [cls "text-violet-600 dark:text-violet-400"] [Txt "kind"];
              Elt "span" [cls "text-slate-400 dark:text-zinc-600"] [Txt ":"]; Txt " ";
              Elt "span" [cls "text-emerald-600 dark:text-emerald-400"] [Txt "DeviceManifest"]];
           Elt "div" []
             [Elt "span" [cls "text-violet-600 dark:text-violet-400"] [Txt "spec"];
              Elt "span" [cls "text-slate-400 dark:text-zinc-600"] [Txt ":"]];
           Elt "div" [cls "pl-4"]
             [Elt "span" [cls "text-violet-600 dark:text-violet-400"] [Txt "services"];
              Elt "span" [cls "text-slate-400 dark:text-zinc-600"] [Txt ":"]];
           Elt "div" [cls "pl-6"]
             [Elt "span" [cls "text-slate-400 dark:text-zinc-600"] [Txt "- "];
              Elt "span" [cls "text-slate-500 dark:text-zinc-400"] [Txt "name:"]; Txt " ";
              Elt "span" [cls "text-cyan-700 dark:text-cyan-300"] [Txt "sensor-agent"]];
           Elt "div" [cls "pl-8"]
             [Elt "span" [cls "text-slate-500 dark:text-zinc-400"] [Txt "state:"]; Txt " ";
              Elt "span" [cls "text-emerald-600 dark:text-emerald-400"] [Txt "running"]];
           Elt "div" [cls "pl-8"]
             [Elt "span" [cls "text-slate-500 dark:text-zinc-400"] [Txt "restart:"]; Txt " ";
              Elt "span" [cls "text-amber-600 dark:text-amber-300"] [Txt "on-failure"]];
           Elt "div" [cls "pl-6"]
             [Elt "span" [cls "text-slate-400 dark:text-zinc-600"] [Txt "- "];
              Elt "span" [cls "text-slate-500 dark:text-zinc-400"] [Txt "name:"]; Txt " ";
              Elt "span" [cls "text-cyan-700 dark:text-cyan-300"] [Txt "data-relay"]];
           Elt "div" [cls "pl-8"]
             [Elt "span" [cls "text-slate-500 dark:text-zinc-400"] [Txt "state:"]; Txt " ";
              Elt "span" [cls "text-emerald-600 dark:text-emerald-400"] [Txt "running"]];
           Elt "div" [cls "pl-4"]
             [Elt "span" [cls "text-violet-600 dark:text-violet-400"] [Txt "files"];
              Elt "span" [cls "text-slate-400 dark:text-zinc-600"] [Txt ":"]];
           Elt "div" [cls "pl-6"]
             [Elt "span" [cls "text-slate-400 dark:text-zinc-600"] [Txt "- "];
              Elt "span" [cls "text-slate-500 dark:text-zinc-400"] [Txt "path:"]; Txt " ";
              Elt "span" [cls "text-cyan-700 dark:text-cyan-300"] [Txt "/etc/edge/config.yaml"]];
           Elt "div" [cls "pl-8"]
             [Elt "span" [cls "text-slate-500 dark:text-zinc-400"] [Txt "mode:"]; Txt " ";
              Elt "span" [cls "text-amber-600 dark:text-amber-300"] [Txt "0644"]]]]].

Definition log_entry (i : Z) (e : mock_log) : node act :=
  Elt "div" [ANum "key" i; cls "flex items-start gap-3 text-sm leading-relaxed"]
    [Elt "span" [cls "text-slate-400 dark:text-muted-foreground/40 shrink-0 tabular-nums"] [Txt (le_time e)];
     Elt "span"
       [cls ("shrink-0 uppercase font-semibold tracking-wide text-xs mt-0.5 " +++ (if String.eqb (le_level e) "warn" then "text-amber-600 dark:text-amber-400" else "text-emerald-600 dark:text-emerald-400/70"))]
       [Txt (le_level e)];
     Elt "span" [cls "text-slate-600 dark:text-muted-foreground"] [Txt (le_msg e)]].

Definition observability_card : node act :=
  Elt "div" [cls "reveal reveal-right"]
    [Elt "div"
       [cls "h-full rounded-2xl border border-border bg-card shadow-sm shadow-black/[0.03] dark:shadow-none p-8 lg:p-10"]
       [SectionLabel "Observability";
        Elt "h3" [cls "text-2xl font-bold mb-3"] [Txt "Logs, metrics, insights."];
        Elt "p" [cls "text-base text-muted-foreground leading-relaxed mb-8"]
          [Txt "Centralized log aggregation, health dashboards, and real-time alerting. Everything you need to understand your fleet."];
        Elt "div"
          [cls "rounded-xl bg-slate-50 dark:bg-[#0c0c16] border border-border dark:border-white/10 p-5 font-mono overflow-hidden"]
          [Elt "div" [cls "flex items-center gap-2 mb-4"]
             [Elt "div" [cls "h-2 w-2 rounded-full bg-emerald-400 landing-pulse"] [];
              Elt "span"
                [cls "text-xs text-slate-500 dark:text-muted-foreground uppercase tracking-wider font-semibold"]
                [Txt "Live Log Stream"]];
           Elt "div" [cls "space-y-2"] [Frag (imap (fun i e => log_entry (Z.of_nat i) e) LOG_ENTRIES)]]]].

Definition deep_dive_section : node act :=
  Elt "section"
    [AStr "id" "deep-dive"; cls "relative z-10 mx-auto max-w-7xl px-6 py-32 lg:py-40 sm:px-12 lg:px-16"]
    [Elt "div" [cls "reveal reveal-up text-center mb-20"]
       [SectionLabel "Under the Hood";
        Elt "h2" [cls "text-3xl sm:text-4xl lg:text-5xl font-bold tracking-tight"]
          [Txt "Declarative control."; Elt "span" [cls "text-gradient"] [Txt " Total visibility."]];
        Elt "p" [cls "mt-4 text-lg text-muted-foreground max-w-2xl mx-auto"]
          [Txt "Define desired state in YAML. Monitor everything with centralized logs and real-time metrics."]];
     Elt "div" [cls "grid lg:grid-cols-2 gap-8"] [config_card; observability_card]].

Definition call_to_action : node act :=
  Elt "section" [cls "relative z-10 mx-auto max-w-5xl px-6 pb-32 sm:px-12"]
    [Elt "div"
       [cls "reveal reveal-scale relative overflow-hidden rounded-3xl border border-border bg-card shadow-sm shadow-black/[0.03] dark:shadow-none"]
       [Elt "div"
          [cls "absolute inset-0 bg-gradient-to-br from-primary/[0.06] via-transparent to-violet-500/[0.04] dark:from-primary/[0.08] dark:to-violet-500/[0.05]"] [];
        Elt "div"
          [cls "absolute top-0 left-1/2 h-px w-2/3 -translate-x-1/2 bg-gradient-to-r from-transparent via-primary/50 to-transparent"] [];
        Elt "div"
          [cls "absolute bottom-0 left-1/2 h-px w-1/3 -translate-x-1/2 bg-gradient-to-r from-transparent via-primary/20 to-transparent"] [];
        Elt "div" [cls "relative z-10 flex flex-col items-center py-20 lg:py-28 px-8 text-center"]
          [LogoIcon None (Some 56) false;
           Elt "h2" [cls "mt-8 text-3xl sm:text-4xl lg:text-5xl font-bold tracking-tight"]
             [Txt "Ready to take control?"];
           Elt "p" [cls "mt-5 max-w-md text-lg text-muted-foreground"]
             [Txt "Sign in to your fleet dashboard or create a new account to get started with EdgeGuardian."];
           SignInButton
             [AStr "size" "lg";
              cls "mt-10 px-12 h-13 text-base font-bold shadow-lg shadow-primary/25 hover:shadow-xl hover:shadow-primary/30"]
             [Txt "Get Started"];
           Elt "p" [cls "mt-5 text-sm text-muted-foreground"] [Txt "Google & GitHub SSO available"]]]].

Definition landing_footer (year : Z) : node act :=
  Elt "footer" [cls "relative z-10 border-t border-border py-10 px-6 sm:px-12"]
    [Elt "div" [cls "reveal reveal-up mx-auto max-w-7xl"]
       [Elt "div" [cls "flex flex-col items-center justify-between gap-6 sm:flex-row"]
          [Elt "div" [cls "flex items-center gap-3"]
             [LogoIcon None (Some 24) false;
              Elt "span" [cls "text-base font-semibold text-muted-foreground"] [Txt "EdgeGuardian"]];
           Elt "div" [cls "flex items-center gap-6 text-sm text-muted-foreground"]
             [Elt "a" [AStr "href" "/terms"; cls "hover:text-foreground transition-colors"] [Txt "Terms & Legal"];
              Elt "a" [AStr "href" "#features"; cls "hover:text-foreground transition-colors"] [Txt "Features"];
              Elt "a" [AStr "href" "#terminal"; cls "hover:text-foreground transition-colors"] [Txt "Demo"]]];
        Elt "div"
          [cls "mt-6 pt-6 border-t border-border/50 flex flex-col items-center gap-3 sm:flex-row sm:justify-between"]
          [Elt "p" [cls "text-xs text-muted-foreground"]
             [Txt "© "; Txt (number_to_string year); Txt " EdgeGuardian. All rights reserved."];
           Elt "p" [cls "text-xs text-muted-foreground/60 text-center sm:text-right leading-relaxed"]
             [Txt "Currently in beta. Use at your own risk. No warranties expressed or implied. ";
              Elt "a"
                [AStr "href" "/terms";
                 cls "underline underline-offset-2 hover:text-muted-foreground transition-colors"]
                [Txt "Full terms"];
              Txt "."]]]].

(** [year]: [new Date().getFullYear()]. *)
Definition landing_view (year : Z) (s : entry) : node act :=
  Elt "ScrollReveal" []
    [Elt "div" [cls "relative min-h-screen bg-background text-foreground [overflow-x:clip]"]
       [atmosphere; LandingNavbar s; hero; stats_section; compatibility_section; features_section;
        discovery_section; terminal_section; deep_dive_section; call_to_action; landing_footer year]].
End landing.
