(* ===== verification/Terms.v ===== *)
(** * The terms page: ui/app/terms/page.tsx *)

From S2P Require Import Prelude JsString Vdom Components SignIn.

Definition LAST_UPDATED : string := "March 9, 2026".

Section terms.
Context {styling : Styling}.
Abbreviation act := entry_action.

(** [Section] *)
Definition Section_ (n title : string) (children : list (node act)) : node act :=
  Elt "section" []
    [Elt "h2" [cls "text-lg font-bold text-foreground mb-3"] [Txt n; Txt ". "; Txt title];
     Elt "div" [cls "space-y-3 [&_ul]:list-disc [&_ul]:pl-6 [&_ul]:space-y-1.5 [&_strong]:text-foreground"]
       children].

Definition terms_toggle (theme : option string) : node act :=
  Elt "button"
    [AOn "onClick" (SetTheme (other_theme theme));
     cls "cursor-pointer rounded-xl p-2.5 text-muted-foreground hover:text-foreground hover:bg-muted/50 transition-all duration-200";
     AStr "aria-label" "Toggle theme"]
    [theme_icon theme].

Definition terms_header (s : entry) : node act :=
  Elt "header" [cls "sticky top-0 z-50 backdrop-blur-xl bg-background/80 border-b border-border/50"]
    [Elt "div" [cls "mx-auto max-w-4xl flex items-center justify-between px-6 py-3.5 sm:px-12"]
       [Elt "Link"
          [AStr "href" "/";
           cls "flex items-center gap-3 text-muted-foreground hover:text-foreground transition-colors"]
          [Elt "ArrowLeft" [ANum "size" 18] []; LogoIcon None (Some 28) false;
           Elt "span" [cls "text-lg font-bold tracking-tight text-foreground"]
             [Txt "Edge"; Elt "span" [cls "text-primary"] [Txt "Guardian"]]];
        when (en_mounted s) (terms_toggle (en_theme s))]].

Definition terms_1 : node act :=
  Section_ "1" "Acceptance of Terms"
    [Elt "p" []
       [Txt "By accessing or using the EdgeGuardian platform - including the web dashboard, controller API, agent binary, and all related services (collectively, the “Service”) - you agree to be bound by these Terms of Service (“Terms”). If you do not agree, do not use the Service. Continued use constitutes acceptance of these Terms and any future amendments."]].

Definition terms_2 : node act :=
  Section_ "2" "Beta Status & Assumption of Risk"
    [Elt "p" [cls "uppercase font-semibold text-foreground text-sm tracking-wide"]
       [Txt "EdgeGuardian is currently in beta. By using the Service, you expressly acknowledge and accept all risks associated with beta software."];
     Elt "p" []
       [Txt "The Service is under active development. Features may be incomplete, changed, or removed without notice. APIs, protocols, and data formats may change between releases. While we work to ensure stability and reliability, beta software by its nature may contain bugs, defects, or unexpected behavior."];
     Elt "p" [] [Txt "You assume sole and complete responsibility for:"];
     Elt "ul" []
       [Elt "li" [] [Txt "Evaluating whether the Service is suitable for your intended use case;"];
        Elt "li" []
          [Txt "Any and all consequences arising from your deployment of the Service on your devices and infrastructure;"];
        Elt "li" []
          [Txt "Maintaining adequate backups, failover mechanisms, and recovery procedures for any systems managed through the Service;"];
        Elt "li" []
          [Txt "Ensuring compliance with all laws, regulations, and industry standards applicable to your use."]]].

Definition terms_3 : node act :=
  Section_ "3" "Disclaimer of Warranties"
    [Elt "p" [cls "uppercase font-semibold text-foreground text-sm tracking-wide"]
       [Txt "The Service is provided “as is” and “as available” without warranty of any kind, whether express, implied, statutory, or otherwise."];
     Elt "p" []
       [Txt "To the maximum extent permitted by applicable law, EdgeGuardian disclaims all warranties, including but not limited to:"];
     Elt "ul" []
       [Elt "li" []
          [Txt "Implied warranties of merchantability, fitness for a particular purpose, and non-infringement;"];
        Elt "li" []
          [Txt "Any warranty that the Service will operate without interruption, error, or data loss;"];
        Elt "li" []
          [Txt "Any warranty of compatibility with any specific hardware platform, architecture (ARM, x86, RISC-V, or otherwise), operating system, kernel version, or system configuration;"];
        Elt "li" []
          [Txt "Any warranty that over-the-air updates, binary deployments, or configuration reconciliation will complete successfully on all target devices;"];
        Elt "li" []
          [Txt "Any warranty regarding the preservation, integrity, or recoverability of device data, telemetry, configurations, or logs."]]].

Definition terms_4 : node act :=
  Section_ "4" "Limitation of Liability"
    [Elt "p" [cls "uppercase font-semibold text-foreground text-sm tracking-wide"]
       [Txt "In no event shall EdgeGuardian, its author(s), contributors, or affiliates be liable for any direct, indirect, incidental, special, consequential, or exemplary damages arising out of or in connection with your use of the Service."];
     Elt "p" []
       [Txt "This includes, without limitation: loss of data or configurations; loss of revenue or profits; business interruption; device malfunction, instability, or unrecoverable failure; unauthorized access to your data; failed or partial OTA updates; service outages; or any other damages - regardless of whether EdgeGuardian has been advised of the possibility of such damages. You use the Service entirely at your own risk and expense. In jurisdictions that do not permit full exclusion of liability, liability is limited to the maximum extent permitted by law. The aggregate liability of EdgeGuardian shall in no case exceed zero euros (€0.00)."]].

Definition terms_5 : node act :=
  Section_ "5" "Device & Infrastructure Risks"
    [Elt "p" []
       [Txt "The EdgeGuardian agent operates at a system level on target devices. It may manage services, write files, apply configurations, and perform binary updates as part of its normal operation. You acknowledge and agree that:"];
     Elt "ul" []
       [Elt "li" []
          [Txt "All installation and deployment of agent software is performed at your sole risk and discretion;"];
        Elt "li" []
          [Txt "The agent modifies system state by design - including services, files, and network configuration - as directed by the desired-state manifests you define;"];
        Elt "li" []
          [Txt "Over-the-air binary updates carry inherent risk including device instability, boot failure, or data loss;"];
        Elt "li" []
          [Txt "Watchdog and rollback mechanisms operate on a best-effort basis and cannot guarantee recovery in all failure scenarios;"];
        Elt "li" []
          [Txt "EdgeGuardian bears no responsibility for hardware damage, data loss, voided manufacturer warranties, or any other consequence resulting from agent operation on your devices;"];
        Elt "li" []
          [Txt "You are solely responsible for testing in a controlled environment before deploying to any devices you cannot afford to lose."]]].

Definition terms_6 : node act :=
  Section_ "6" "Data & Privacy"
    [Elt "p" []
       [Txt "The Service processes the following data categories in the course of normal operation:"];
     Elt "ul" []
       [Elt "li" []
          [Elt "strong" [] [Txt "Account data:"];
           Txt " authentication credentials and profile information via third-party identity providers;"];
        Elt "li" []
          [Elt "strong" [] [Txt "Device telemetry:"];
           Txt " hardware metrics, OS information, network status, and agent version;"];
        Elt "li" []
          [Elt "strong" [] [Txt "Operational data:"];
           Txt " service state, reconciliation events, deployment progress, and error reports;"];
        Elt "li" []
          [Elt "strong" [] [Txt "Usage metadata:"];
           Txt " dashboard interactions, API request logs, and session information."]];
     Elt "p" []
       [Txt "Data is processed solely to provide and improve the Service. No data is sold to third parties. Data is stored on infrastructure under the Service operator's control. Given the beta status of the Service, no guarantee is made regarding the security, integrity, or availability of stored data. You are responsible for compliance with all applicable data protection legislation, including the General Data Protection Regulation (GDPR) where applicable."]].

Definition terms_7 : node act :=
  Section_ "7" "Third-Party Dependencies"
    [Elt "p" []
       [Txt "The Service relies on third-party software and services including, but not limited to: PostgreSQL, Keycloak, EMQX, Grafana, Loki, and various open-source libraries. EdgeGuardian makes no warranties regarding the availability, performance, or security of any third-party component. Their use is governed by their respective licenses and terms. EdgeGuardian is not liable for any failure, outage, vulnerability, or data breach originating from a third-party dependency."]].

Definition terms_8 : node act :=
  Section_ "8" "Indemnification"
    [Elt "p" []
       [Txt "You agree to indemnify, defend, and hold harmless EdgeGuardian and its author(s), contributors, and affiliates from any claims, damages, liabilities, costs, or expenses (including legal fees) arising from: (a) your use of the Service; (b) your breach of these Terms; (c) your violation of any third-party right; or (d) any damage to third parties resulting from your use of the Service or devices managed through it."]].

Definition terms_9 : node act :=
  Section_ "9" "Changes & Termination"
    [Elt "p" []
       [Txt "EdgeGuardian reserves the right to modify, suspend, or discontinue any part of the Service at any time without notice. These Terms may be revised at any time; the date at the top of this page reflects the latest revision. Continued use after changes constitutes acceptance. EdgeGuardian may restrict or terminate your access at its sole discretion, without prior notice or liability."]].

Definition terms_10 : node act :=
  Section_ "10" "Governing Law"
    [Elt "p" []
       [Txt "These Terms are governed by the laws of the jurisdiction in which the Service operator resides, without regard to conflict-of-law provisions. Disputes shall be resolved exclusively in the competent courts of that jurisdiction. If any provision is found unenforceable, the remaining provisions remain in full effect."]].

Definition terms_11 : node act :=
  Section_ "11" "Entire Agreement"
    [Elt "p" []
       [Txt "These Terms constitute the entire agreement between you and EdgeGuardian regarding the Service. They supersede all prior agreements and understandings. Failure to enforce any provision does not constitute a waiver of that or any other provision."]].

Definition terms_contact : node act :=
  Elt "div" [cls "pt-6 border-t border-border"]
    [Elt "h2" [cls "text-lg font-bold text-foreground mb-2"] [Txt "Contact"];
     Elt "p" []
       [Txt "For questions regarding these Terms, open an issue in the project repository or contact the maintainer through the appropriate institutional channels."]].

Definition terms_footer (year : Z) : node act :=
  Elt "footer" [cls "border-t border-border py-8 px-6 sm:px-12"]
    [Elt "div" [cls "mx-auto max-w-4xl flex flex-col items-center justify-between gap-4 sm:flex-row"]
       [Elt "div" [cls "flex items-center gap-3"]
          [LogoIcon None (Some 20) false;
           Elt "span" [cls "text-sm font-semibold text-muted-foreground"] [Txt "EdgeGuardian"]];
        Elt "p" [cls "text-xs text-muted-foreground"]
          [Txt "© "; Txt (number_to_string year); Txt " EdgeGuardian. All rights reserved."]]].

(** [year]: [new Date().getFullYear()]. *)
Definition terms_view (year : Z) (s : entry) : node act :=
  Elt "div" [cls "relative min-h-screen bg-background text-foreground"]
    [terms_header s;
     Elt "main" [cls "mx-auto max-w-4xl px-6 py-16 sm:px-12 lg:py-24"]
       [Elt "h1" [cls "text-3xl sm:text-4xl font-bold tracking-tight mb-2"] [Txt "Terms of Service"];
        Elt "p" [cls "text-sm text-muted-foreground mb-12"] [Txt "Last updated: "; Txt LAST_UPDATED];
        Elt "div" [cls "prose-legal space-y-10 text-[15px] leading-relaxed text-muted-foreground"]
          [terms_1; terms_2; terms_3; terms_4; terms_5; terms_6; terms_7; terms_8; terms_9; terms_10; terms_11;
           terms_contact]];
     terms_footer year].
End terms.
