(* ===== verification/EntryFacts.v ===== *)
(** * Properties of the entry pages

    Where signing in leads, which sessions skip the landing page, the links of
    the landing page, and that its animations end or do not. *)

From S2P Require Import Prelude JsString JsNumber JsArray Vdom UrlCodec ApiClient Components Auth SignIn Landing Terms.
From S2P Require Marquee TerminalDemo.

(** ** Handlers *)

Section handlers.
Context {styling : Styling}.

Lemma login_events s :
  events true (login_view s) =
  (if en_mounted s then [EvUnit (SetTheme (other_theme (en_theme s)))] else [])
  ++ [EvUnit (SignInWith "keycloak" "/dashboard")].
Proof. destruct s as [[] theme scrolled]; unfold login_view, login_toggle, theme_icon; by destruct (match theme with Some _ => _ | None => _ end). Qed.

Lemma landing_events year s :
  events true (landing_view year s) =
  EvUnit ScrollTop
  :: (if en_mounted s then [EvUnit (SetTheme (other_theme (en_theme s)))] else [])
  ++ repeat (EvUnit (SignInWith "keycloak" "/dashboard")) 3.
Proof.
  destruct s as [[] theme scrolled]; unfold landing_view, LandingNavbar, navbar_toggle, theme_icon;
    destruct (match theme with Some _ => _ | None => _ end); reflexivity.
Qed.

Lemma landing_hrefs year s :
  hrefs (landing_view year s) =
  ["#features"; "#discovery"; "#terminal"; "#"; "#terminal"; "/terms"; "#features"; "#terminal"; "/terms"].
Proof.
  destruct s as [[] theme scrolled]; unfold landing_view, LandingNavbar, navbar_toggle, theme_icon;
    destruct (match theme with Some _ => _ | None => _ end); reflexivity.
Qed.
End handlers.

(** Ids of the elements of a tree: what an in-page link can lead to. *)
Fixpoint ids {A} (n : node A) : list string :=
  match n with
  | Txt _ => []
  | Frag l => concat (map ids l)
  | Elt _ attrs kids =>
      flat_map (fun a => match a with AStr k v => if String.eqb k "id" then [v] else [] | _ => [] end) attrs
      ++ concat (map ids kids)
  end.

Lemma landing_ids {styling : Styling} year s :
  ids (landing_view year s) = ["features"; "updates"; "security"; "discovery"; "terminal"; "deep-dive"].
Proof.
  destruct s as [[] theme scrolled]; unfold landing_view, LandingNavbar, navbar_toggle, theme_icon;
    destruct (match theme with Some _ => _ | None => _ end); reflexivity.
Qed.

Section properties.
Context {env : AuthEnv} {styling : Styling}.

(** ** Signing in *)

Definition is_sign_in (a : entry_action) : Prop :=
  match a with SignInWith _ _ => True | _ => False end.

(** C35. Whenever the middleware redirects a request, the login URL carries the requested
    URL as callbackUrl; the login page and the landing page offer a sign-in, and every
    sign-in they offer returns to /dashboard instead, whatever was requested. *)
Theorem requested_page_is_forgotten auth url u year s :
  middleware auth url = NextResponse_redirect u ->
  (exists q, u = url_origin url +++ "/auth/login?" +++ q /\ form_parse q = [("callbackUrl", url)]) /\
  (exists a, fires (login_view s) a /\ is_sign_in a) /\
  (exists a, fires (landing_view year s) a /\ is_sign_in a) /\
  (forall a, fires (login_view s) a \/ fires (landing_view year s) a -> is_sign_in a ->
     snd (entry_update s a) = [EntrySignIn "keycloak" "/dashboard"]).
Proof.
  intros Hm. split_and!.
  - unfold middleware in Hm. destruct (match SKIP_AUTH with Some _ => _ | None => _ end); [done|].
    destruct auth; [done|]. injection Hm as <-. eexists. split; [done|]. by rewrite form_parse_serialize.
  - exists (SignInWith "keycloak" "/dashboard"). split; [|done].
    rewrite fires_emitted, login_events, emitted_app, emitted_cons. right. by left.
  - exists (SignInWith "keycloak" "/dashboard"). split; [|done].
    rewrite fires_emitted, landing_events. cbn [repeat].
    repeat rewrite ?emitted_app, ?emitted_cons, ?emitted_if, ?emitted_nil. cbn [emits]. tauto.
  - intros a. rewrite !fires_emitted, login_events, landing_events. cbn [repeat].
    repeat rewrite ?emitted_app, ?emitted_cons, ?emitted_if, ?emitted_nil. cbn [emits].
    intros H Ha. destruct a; try done. by intuition (try congruence; simplify_eq).
Qed.

(** C36. The landing page redirects, to /dashboard, exactly the sessions with a user and no
    error; the middleware lets such a session through and nothing asks it to sign in
    again, so there is no redirect loop. *)
Theorem landing_redirect_is_final user session url :
  (landing_redirect user session = Some url <->
   url = "/dashboard" /\ user = true /\ exists s, session = Some s /\ truthy_opt (s_error s) = false) /\
  (landing_redirect user session = Some url ->
   matcher url = true /\ middleware session url = NextResponse_next /\ RefreshErrorGuard session = []).
Proof.
  unfold landing_redirect, RefreshErrorGuard. destruct session as [s|].
  - destruct user, (truthy_opt (s_error s)) eqn:Et; cbn [andb negb]; split; try done;
      try (by split; [done|]; intros (_ & ? & ? & [= <-] & ?); congruence).
    + split; [intros [= <-]; eauto 6|]. by intros (-> & _).
    + intros [= <-]. split_and!; [done| |].
      * unfold middleware. by destruct (match SKIP_AUTH with Some _ => _ | None => _ end).
      * unfold truthy_opt in Et. destruct (s_error s) as [e|]; [|done]. by apply truthy_false in Et as ->.
  - split; [|done]. split; [done|]. by intros (_ & _ & s & [=] & _).
Qed.

(** Every link of the landing page leads to the top, the terms or a section that is there. *)
Theorem landing_links_resolve year s h :
  In h (hrefs (landing_view year s)) ->
  h = "#" \/ h = "/terms" \/ exists id, h = "#" +++ id /\ In id (ids (landing_view year s)).
Proof.
  rewrite landing_hrefs, landing_ids. intros H. cbn in H.
  repeat destruct H as [<-|H]; try done; auto; right; right; eexists; (split; [reflexivity|]); cbn; auto 7.
Qed.
End properties.

(** ** The marquee *)

Section marquee.
Import Marquee.

Lemma fill_row_full fuel items l : 24 <= zlength l -> fill_row fuel items l = Some l.
Proof. intros H. destruct fuel; cbn [fill_row]; by destruct (Z.ltb_spec (zlength l) 24); try lia. Qed.

Lemma fill_row_rounds items fuel : forall k l,
  items <> [] -> l = concat (repeat items k) -> 24 <= zlength l + Z.of_nat fuel ->
  zlength l < 24 + zlength items ->
  exists r m, fill_row fuel items l = Some r /\ r = concat (repeat items m) /\
              24 <= zlength r < 24 + zlength items.
Proof.
  assert (items <> [] -> 0 < zlength items) as Hpos.
  { intros H. unfold zlength. destruct items; [done|]. cbn [length]. lia. }
  induction fuel as [|fuel IH]; intros k l Hi Hl Hf Hb.
  - exists l, k. rewrite fill_row_full by lia. split_and!; try done; lia.
  - destruct (Z.ltb_spec (zlength l) 24) as [H|H].
    + cbn [fill_row]. rewrite (proj2 (Z.ltb_lt _ _) H). specialize (Hpos Hi).
      assert (zlength (l ++ items) = zlength l + zlength items) as Hn
        by (unfold zlength; rewrite length_app; lia).
      apply (IH (S k)); [done| |lia|lia].
      rewrite <- Nat.add_1_r, repeat_app, concat_app, <- Hl. cbn [repeat concat]. by rewrite app_nil_r.
    + exists l, k. rewrite fill_row_full by lia. split_and!; try done; lia.
Qed.

(** C37. The loop that fills a marquee row ends, within 24 rounds, for every list that is
    not empty, with whole copies of the list, at least 24 entries and fewer than 24 plus
    the length of the list; for an empty list it never ends. Both rows of the page are
    drawn. *)
Theorem marquee_row_terminates items :
  (items <> [] -> forall fuel, (24 <= fuel)%nat ->
     exists r m, fill_row fuel items [] = Some r /\ r = concat (repeat items m) /\
                 24 <= zlength r < 24 + zlength items) /\
  (items = [] -> forall fuel, fill_row fuel items [] = None) /\
  (exists n, MarqueeSection 24 = Some n).
Proof.
  split_and!.
  - intros Hi fuel Hf. apply (fill_row_rounds items fuel 0); [done|done| |]; unfold zlength; cbn [length]; lia.
  - intros -> fuel. induction fuel as [|fuel IH]; [done|]. exact IH.
  - by eexists.
Qed.
End marquee.

(** ** The terminal demo *)

Section demo.
Import TerminalDemo.

Lemma delay_pos l : 0 < delay l.
Proof. unfold delay. destruct (tl_type l); lia. Qed.

(** The timer of line [j] sets the count to [i + j + 1], after the starting time. *)
Lemma timers_from_spec l : forall c i j d n,
  timers_from c i l !! j = Some (d, n) -> c < d /\ n = i + Z.of_nat j + 1.
Proof.
  induction l as [|x l IH]; intros c i j d n H; [by destruct j|]. pose proof (delay_pos x).
  cbn [timers_from] in H. destruct j as [|j]; cbn in H; [simplify_eq; lia|].
  apply IH in H as [? ->]. split; lia.
Qed.

Lemma fire_due_ge t l : forall c i s,
  td_pending s = timers_from c i l -> td_visibleCount s <= i ->
  td_visibleCount s <= td_visibleCount (fire_due t (timers_from c i l) s).
Proof.
  induction l as [|x l IH]; intros c i s Hp Hi; cbn [timers_from fire_due] in *; [done|].
  destruct (_ <=? t); [|done]. etrans; [|apply IH]; cbn [demo_step]; rewrite Hp; cbn; try done; lia.
Qed.

Lemma fire_due_line t l : forall c i s j d n,
  td_pending s = timers_from c i l -> td_visibleCount s = i -> timers_from c i l !! j = Some (d, n) ->
  (i + Z.of_nat j < td_visibleCount (fire_due t (timers_from c i l) s) <-> d <= t).
Proof.
  induction l as [|x l IH]; intros c i s j d n Hp Hi Hj; [by destruct j|].
  pose proof (timers_from_spec (x :: l) c i j d n Hj) as [Hd _]. cbn [timers_from fire_due] in *.
  set (s' := demo_step s Fire).
  assert (td_pending s' = timers_from (c + delay x) (i + 1) l /\ td_visibleCount s' = i + 1) as [Hp' Hi'].
  { unfold s'. cbn [demo_step]. by rewrite Hp. }
  destruct (Z.leb_spec (c + delay x) t) as [Ht|Ht]; destruct j as [|j]; cbn in Hj.
  - simplify_eq. pose proof (fire_due_ge t l _ _ s' Hp'). lia.
  - rewrite <- (IH _ _ s' j d n Hp' Hi' Hj). lia.
  - simplify_eq. lia.
  - apply timers_from_spec in Hj. lia.
Qed.

Definition demo_run (l : list demo_action) : demo := fold_left demo_step l demo_initial.

(** Nothing is pending before the section is active; then exactly the lines
    that are not shown yet are, until the page is left. *)
Definition demo_inv (s : demo) : Prop :=
  (td_active s = false -> td_visibleCount s = 0 /\ td_pending s = []) /\
  (td_active s = true -> td_mounted s = true ->
   exists k, (k <= length timers)%nat /\ td_visibleCount s = Z.of_nat k /\ td_pending s = drop k timers) /\
  (td_mounted s = false -> td_pending s = []) /\
  td_visibleCount s <= zlength timers.

Lemma timers_lookup k d n : timers !! k = Some (d, n) -> n = Z.of_nat k + 1.
Proof. intros H. apply timers_from_spec in H. lia. Qed.

Lemma demo_inv_step s a : demo_inv s -> demo_inv (demo_step s a).
Proof.
  intros Hs. pose proof Hs as (Hn & Ha & Hu & Hb). destruct a as [b| |]; cbn [demo_step].
  - destruct (b && td_mounted s && negb (td_active s)) eqn:E; [|done].
    rewrite !andb_true_iff, negb_true_iff in E. destruct E as [[_ Em] Ea]. destruct (Hn Ea) as [Hc _].
    unfold demo_inv. cbn [td_active td_mounted td_pending td_visibleCount set_demo]. rewrite Em.
    split_and!; [done| |done..]. intros _ _. exists 0%nat. split_and!; [lia|done..].
  - destruct (td_pending s) as [|[d n] l] eqn:Ep; [done|].
    destruct (td_mounted s) eqn:Em; [|specialize (Hu eq_refl); congruence].
    destruct (td_active s) eqn:Ea; [|destruct (Hn eq_refl); congruence].
    destruct (Ha eq_refl eq_refl) as (k & Hk & Hc & Hd).
    assert (timers !! k = Some (d, n)) as Hl by (rewrite <- (Nat.add_0_r k), <- lookup_drop, <- Hd; done).
    pose proof (lookup_lt_Some _ _ _ Hl). apply timers_lookup in Hl as Hv.
    unfold demo_inv. cbn [td_active td_mounted td_pending td_visibleCount set_demo]. rewrite Em.
    split_and!; [done| |done|unfold zlength; lia]. intros _ _. exists (S k). split_and!; [lia..|].
    rewrite (drop_S timers (d, n) k Hl) in Hd. by injection Hd.
  - unfold demo_inv. cbn [td_active td_mounted td_pending td_visibleCount]. split_and!; try done.
    intros H. by destruct (Hn H).
Qed.

Lemma demo_run_inv l : demo_inv (demo_run l).
Proof.
  unfold demo_run. assert (demo_inv demo_initial) as H by (split_and!; done).
  revert H. generalize demo_initial. induction l as [|a l IH]; intros s H; [done|].
  cbn [fold_left]. by apply IH, demo_inv_step.
Qed.

Lemma fire_all s : forall k,
  (k <= length timers)%nat -> td_visibleCount s = Z.of_nat k -> td_pending s = drop k timers ->
  td_visibleCount (fold_left demo_step (repeat Fire (length timers - k)) s) = zlength timers.
Proof.
  intros k. remember (length timers - k)%nat as m eqn:Em. revert s k Em.
  induction m as [|m IH]; intros s k Em Hk Hc Hp; cbn [repeat fold_left].
  - unfold zlength. lia.
  - destruct (lookup_lt_is_Some_2 timers k) as [[d n] Hl]; [lia|].
    rewrite (drop_S timers (d, n) k Hl) in Hp.
    apply (IH _ (S k)); [lia|lia| |]; cbn [demo_step]; rewrite Hp; cbn; [|done].
    apply timers_lookup in Hl. lia.
Qed.

(** C38. Line i of the terminal demo is shown exactly from the time its timer is due; once
    the section was active and while it is mounted, the pending timers lead to all lines
    being shown, and never more than there are. *)
Theorem demo_plays_to_the_end :
  (forall t i d n, timers !! i = Some (d, n) ->
     (Z.of_nat i < td_visibleCount (demo_at t) <-> d <= t)) /\
  (forall l, td_mounted (demo_run l) = true -> td_active (demo_run l) = true ->
     exists k, td_visibleCount (demo_run (l ++ repeat Fire k)) = zlength TERMINAL_LINES) /\
  (forall l, td_visibleCount (demo_run l) <= zlength TERMINAL_LINES).
Proof.
  assert (length timers = length TERMINAL_LINES) as Hlen by reflexivity.
  split_and!.
  - intros t i d n H. exact (fire_due_line t TERMINAL_LINES 400 0
      (demo_step demo_initial (Intersects true)) i d n eq_refl eq_refl H).
  - intros l Hm Ha. destruct (demo_run_inv l) as (_ & H & _ & _). destruct (H Ha Hm) as (k & Hk & Hc & Hp).
    exists (length timers - k)%nat. unfold demo_run in *. rewrite fold_left_app.
    rewrite (fire_all _ k Hk Hc Hp). unfold zlength. lia.
  - intros l. destruct (demo_run_inv l) as (_ & _ & _ & H). unfold zlength in *. lia.
Qed.
End demo.

(** ** Witnesses *)

#[local] Existing Instance plain_styling.

Lemma requested_page_is_forgotten_witness :
  let u := "http://localhost:3000/auth/login?callbackUrl=http%3A%2F%2Flocalhost%3A3000%2Fdevices" in
  middleware None "http://localhost:3000/devices" = NextResponse_redirect u /\
  (exists q, u = url_origin "http://localhost:3000/devices" +++ "/auth/login?" +++ q /\
             form_parse q = [("callbackUrl", "http://localhost:3000/devices")]).
Proof.
  assert (middleware None "http://localhost:3000/devices" = NextResponse_redirect
    "http://localhost:3000/auth/login?callbackUrl=http%3A%2F%2Flocalhost%3A3000%2Fdevices") as H by reflexivity.
  exact (conj H (proj1 (requested_page_is_forgotten None "http://localhost:3000/devices" _ 2026 entry_initial H))).
Defined.

Lemma landing_links_resolve_witness :
  "#terminal" = "#" \/ "#terminal" = "/terms" \/
  exists id, "#terminal" = "#" +++ id /\ In id (ids (landing_view 2026 entry_initial)).
Proof.
  refine (landing_links_resolve 2026 entry_initial "#terminal" _).
  rewrite landing_hrefs. right. right. left. reflexivity.
Defined.
