(* ===== verification/SessionPolling.v ===== *)
(** * The session a page holds: ui/components/providers.tsx with ui/lib/auth.ts

    [SessionProvider] fetches the session every [refetchInterval] seconds and whenever
    the window gets the focus; for each fetch the [jwt] callback decides whether to
    renew the token of the cookie the fetch was sent with. Fetches may overlap. The
    page and its cookie hold the token of the fetch that arrived last. *)

From Stdlib Require Import Sorting.Sorted.
From S2P Require Import Prelude JsString ApiClient Auth.

(** In seconds. *)
Definition refetchInterval : Z := 4 * 60.

(** A fetch of the session that is answered: when it is sent, when the callback compares
    the expiry, when it computes the expiry of a renewed token, and when the reply
    arrives, in milliseconds; and the token endpoint the callback finds. *)
Record session_fetch := {
  f_sent : Z;
  f_checked : Z;
  f_renewed : Z;
  f_arrived : Z;
  f_endpoint : Request -> reply
}.

Section polling.
Context {env : AuthEnv}.

(** The token a page loaded with [t] holds at [now], given its fetches, the last to arrive
    first. *)
Fixpoint held (t : JWT) (fetches : list session_fetch) (now : Z) : JWT :=
  match fetches with
  | [] => t
  | f :: older =>
      if f_arrived f <=? now
      then jwt (f_checked f) (f_endpoint f) (f_renewed f) (held t older (f_sent f)) None
      else held t older now
  end.

(** The page was loaded at [start]; the interval timer fires at these times. *)
Variables (start : Z).
Definition poll_time (k : nat) : Z := start + Z.of_nat k * (refetchInterval * 1000).

(** ** Properties *)

(** The endpoint grants every refresh, with a positive lifetime. *)
Definition grants_renewal (r : Request -> reply) : Prop :=
  forall rq, exists b d, granted (r rq) = Some b /\ tb_expires_in b = Some d /\ 0 < d /\
                         tb_refresh_token b <> Some "".

Definition well_formed (t : JWT) : Prop :=
  jwt_error t = None /\ truthy_opt (jwt_refreshToken t) = true.

(** Fetches in the order of their arrival, each answered within [latency]. *)
Variables (latency : Z).

Definition timely (f : session_fetch) : Prop :=
  start <= f_sent f /\ f_sent f <= f_checked f /\ f_checked f <= f_renewed f /\
  f_renewed f <= f_arrived f /\ f_arrived f <= f_sent f + latency /\ grants_renewal (f_endpoint f).

Definition timeline (fetches : list session_fetch) : Prop :=
  Forall timely fetches /\ StronglySorted (fun newer older => f_arrived older <= f_arrived newer) fetches.

(** Every firing of the timer up to [now] sent a fetch. *)
Definition polled (fetches : list session_fetch) (now : Z) : Prop :=
  forall k, poll_time (S k) <= now -> exists f, In f fetches /\ f_sent f = poll_time (S k).

Lemma floor_expiry later d : 0 < d -> later < (later / 1000 + d) * 1000.
Proof. intros. pose proof (Z.mod_pos_bound later 1000 eq_refl). pose proof (Z.div_mod later 1000). lia. Qed.

(** A fetch leaves a token that is well formed and lasts beyond the time of its check. *)
Lemma fetched_token f t :
  timely f -> well_formed t -> let t' := jwt (f_checked f) (f_endpoint f) (f_renewed f) t None in
  well_formed t' /\ unexpired (f_sent f) (jwt_expiresAt t') = true.
Proof.
  intros (_ & Hs & Hc & _ & _ & Hg) [He Hr]. cbv zeta. rewrite jwt_step.
  destruct (unexpired (f_checked f) (jwt_expiresAt t)) eqn:E.
  - split; [done|]. destruct (jwt_expiresAt t) as [[e|]|]; try done.
    apply unexpired_spec in E. apply unexpired_spec. lia.
  - destruct (Hg (refresh_request (jwt_refreshToken t ?? ""))) as (b & d & Hb & Hx & H0 & Hn).
    unfold must_sign_in. rewrite E, Hr, Hb, (granted_not_rejected _ _ Hb).
    cbn [negb orb andb refreshed_token jwt_expiresAt]. rewrite Hx. cbn [expiry]. split; [split; [done|]|].
    + cbn [refreshed_token jwt_refreshToken]. destruct (tb_refresh_token b) as [r|]; [|exact Hr].
      apply truthy_true. congruence.
    + apply unexpired_spec. pose proof (floor_expiry (f_renewed f) d H0). lia.
Qed.

(** The token held at [now] is the one of the load or of a fetch that arrived last. *)
Lemma held_source t fetches now :
  well_formed t -> unexpired start (jwt_expiresAt t) = true -> timeline fetches ->
  well_formed (held t fetches now) /\
  exists since, unexpired since (jwt_expiresAt (held t fetches now)) = true /\ start <= since /\
    forall f, In f fetches -> f_arrived f <= now -> f_arrived f - latency <= since.
Proof.
  intros Hw Hu. revert now. induction fetches as [|f older IH]; intros now [Ht Hs]; cbn [held].
  { split; [done|]. exists start. split; [done|]. split; [lia|]. intros f []. }
  inversion_clear Ht as [|? ? Hf Ho]. inversion_clear Hs as [|? ? Hso Hfirst].
  destruct (Z.leb_spec (f_arrived f) now) as [Ha|Ha].
  - destruct (IH (f_sent f) (conj Ho Hso)) as [Hwf _].
    destruct (fetched_token f _ Hf Hwf) as [Hw' Hu']. split; [done|]. exists (f_sent f). split; [done|].
    destruct Hf as (H0 & _ & _ & _ & Hl & _). split; [done|].
    intros g [<-|Hg] _; [lia|]. rewrite List.Forall_forall in Hfirst. specialize (Hfirst g Hg). lia.
  - destruct (IH now (conj Ho Hso)) as (Hwf & since & H1 & H2 & H3). split; [done|]. exists since.
    split_and!; [done|done|]. intros g [<-|Hg] Hn; [lia|auto].
Qed.

(** The last firing of the timer whose fetch has surely arrived. *)
Lemma last_poll now :
  start + refetchInterval * 1000 + latency <= now ->
  exists k, poll_time (S k) + latency <= now < poll_time (S k) + refetchInterval * 1000 + latency.
Proof.
  intros H. set (m := (now - latency - start) / (refetchInterval * 1000)).
  assert (0 < refetchInterval * 1000) as Hp by reflexivity.
  assert (1 <= m) as Hm by (apply Z.div_le_lower_bound; lia).
  exists (Z.to_nat (m - 1)). unfold poll_time. rewrite Nat2Z.inj_succ, Z2Nat.id by lia.
  replace (Z.succ (m - 1)) with m by lia.
  pose proof (Z.mod_pos_bound (now - latency - start) _ Hp).
  pose proof (Z.div_mod (now - latency - start) (refetchInterval * 1000)). fold m in H1. lia.
Qed.

(** While the token lasts, fetches do not replace it. *)
Lemma held_unchanged t e fetches now :
  jwt_expiresAt t = Some (Num e) -> StronglySorted (fun newer older => f_arrived older <= f_arrived newer) fetches ->
  (forall f, In f fetches -> f_arrived f <= now -> f_checked f < e * 1000) ->
  (forall f, In f fetches -> f_sent f <= f_arrived f) ->
  held t fetches now = t.
Proof.
  intros He. revert now. induction fetches as [|f older IH]; intros now Hs Hc Hsa; cbn [held]; [done|].
  inversion_clear Hs as [|? ? Hso Hfirst].
  destruct (Z.leb_spec (f_arrived f) now) as [Ha|Ha].
  - rewrite IH; [|done| |by intros g Hg; apply Hsa; right].
    + rewrite jwt_step. unfold must_sign_in. rewrite He.
      by rewrite (proj2 (unexpired_spec _ _) (Hc f (or_introl eq_refl) Ha)).
    + intros g Hg Hn. apply Hc; [by right|]. pose proof (Hsa f (or_introl eq_refl)). lia.
  - apply IH; [done| |by intros g Hg; apply Hsa; right]. intros g Hg. apply Hc. by right.
Qed.

(** C39. When the page starts with an unexpired token that has a refresh token and no error,
    every fetch of the session (each 240 seconds, and on focus, possibly overlapping) is
    answered within a bound, and every refresh is granted with a positive lifetime: the
    token the page holds never carries an error and is never expired for 240 seconds and
    twice that bound; but from the end of the token until a fetch checked after it
    arrives, every API request carries the expired token and nothing asks the user to
    sign in. *)
Theorem expired_token_window t fetches now :
  well_formed t -> unexpired start (jwt_expiresAt t) = true -> timeline fetches -> start <= now -> 0 <= latency ->
  (polled fetches now ->
   jwt_error (held t fetches now) = None /\
   exists e, jwt_expiresAt (held t fetches now) = Some (Num e) /\
     now - e * 1000 < refetchInterval * 1000 + 2 * latency) /\
  (forall e s, jwt_expiresAt t = Some (Num e) -> e * 1000 <= now ->
     (forall f, In f fetches -> f_arrived f <= now -> f_checked f < e * 1000) ->
     session_callback fresh_session (held t fetches now) = Ok s ->
     unexpired now (jwt_expiresAt (held t fetches now)) = false /\ RefreshErrorGuard (Some s) = [] /\
     forall path a options {W} {net : Environment W},
       opt_token options = s_accessToken s -> jwt_accessToken t = Some a -> a <> "" ->
       assoc "Authorization" (rq_headers (rawFetch_request path options)) = Some ("Bearer " +++ a)).
Proof.
  intros Hw Hu Ht Hn HL. split.
  - intros Hp. destruct (held_source t fetches now Hw Hu Ht) as ([He _] & since & Hs & H0 & Hall).
    split; [done|]. destruct (jwt_expiresAt (held t fetches now)) as [[e|]|]; try done.
    exists e. split; [done|]. apply unexpired_spec in Hs.
    destruct (Z_lt_le_dec now (start + refetchInterval * 1000 + latency)) as [Hl|Hl].
    + lia.
    + destruct (last_poll now Hl) as (k & Hk & Hk').
      destruct (Hp k) as (f & Hf & Hsent); [lia|].
      destruct Ht as [Ht _]. rewrite List.Forall_forall in Ht. specialize (Ht f Hf) as Hft.
      destruct Hft as (_ & ? & ? & ? & Harr & _). specialize (Hall f Hf). lia.
  - intros e s He Hexp Hc Hs. destruct Ht as [Ht Hsorted]. rewrite List.Forall_forall in Ht.
    assert (held t fetches now = t) as Hheld.
    { apply (held_unchanged t e fetches now He Hsorted Hc).
      intros f Hf. destruct (Ht f Hf) as (_ & ? & ? & ? & _). lia. }
    rewrite Hheld in Hs |- *.
    split_and!.
    + rewrite He. apply Z.ltb_ge. lia.
    + rewrite (guard_error _ _ Hs). by destruct Hw as [-> _].
    + intros path a options W net Ho Ha Hne.
      apply (proj1 (rawFetch_request_headers path options)); [|done]. rewrite Ho.
      unfold session_callback in Hs. destruct (url_href _); [|done]. by injection Hs as <-.
Qed.
End polling.

(** ** A lifetime of 300 seconds

    A token granted at 700 s lasts until 1000 s. The poll at 940 s keeps it, a fetch on
    focus at 960 s too; the poll at 1180 s, answered at 1180.2 s, renews it: it is sent
    for 180 s after its end. *)

Definition fetch_at (at_ : Z) : session_fetch := {|
  f_sent := at_; f_checked := at_ + 50; f_renewed := at_ + 100; f_arrived := at_ + 200;
  f_endpoint := grants |}.
Definition sample_fetches : list session_fetch := [fetch_at 1180000; fetch_at 960000; fetch_at 940000].

Lemma sample_timeline : timeline 700000 200 sample_fetches.
Proof.
  assert (grants_renewal grants) as Hg.
  { intros rq. exists sample_body, 300. split_and!; [reflexivity|reflexivity|lia|discriminate]. }
  split; [|repeat constructor; cbn; lia].
  repeat constructor; try exact Hg; cbn; lia.
Qed.

Lemma sample_polled : polled 700000 sample_fetches 1180100.
Proof.
  intros k Hk. unfold poll_time, refetchInterval in *. destruct k as [|[|k]]; [..|lia].
  - exists (fetch_at 940000). split; [right; right; by left|done].
  - exists (fetch_at 1180000). split; [by left|done].
Qed.

Lemma expired_token_window_witness :
  unexpired 700000 (jwt_expiresAt sample_token) = true /\
  (exists e, jwt_expiresAt (held sample_token sample_fetches 1180100) = Some (Num e) /\
     1180100 - e * 1000 < 240400) /\
  unexpired 1180100 (jwt_expiresAt (held sample_token sample_fetches 1180100)) = false /\
  unexpired 1180200 (jwt_expiresAt (held sample_token sample_fetches 1180200)) = true.
Proof.
  refine (match expired_token_window 700000 200 sample_token sample_fetches 1180100
                  (conj eq_refl eq_refl) eq_refl sample_timeline ltac:(lia) ltac:(lia) with
          | conj Hall Hwin => conj eq_refl (conj (proj2 (Hall sample_polled)) (conj _ eq_refl))
          end).
  refine (proj1 (Hwin 1000 _ eq_refl _ _ eq_refl)); [lia|].
  intros f [<-|[<-|[<-|[]]]]; cbn; lia.
Defined.
