(* ===== verification/Routing.v ===== *)
(** * Routing: ui/next.config.ts with ui/middleware.ts

    The browser talks to one origin. The middleware guards the application
    pages; the rewrites forward the paths of the controller and of Keycloak to
    their servers; everything else is served by the application. *)

From S2P Require Import Prelude JsString UrlCodec Endpoints Auth.

(** ** next.config.ts *)

Class Upstreams := { INTERNAL_API_URL : option string; INTERNAL_KEYCLOAK_URL : option string }.

Record rewrite := { source : string; destination : string }.

Section config.
Context {up : Upstreams}.

Definition apiUpstream : string := INTERNAL_API_URL ?? "http://controller:8443".
Definition keycloakUpstream : string := INTERNAL_KEYCLOAK_URL ?? "http://keycloak:9090".

Definition rewrites : list rewrite :=
  [{| source := "/api/v1/:path*"; destination := apiUpstream +++ "/api/v1/:path*" |};
   {| source := "/kc/:path*"; destination := keycloakUpstream +++ "/kc/:path*" |}].
End config.

(** ** The router

    [apply_rewrite r pathname] is what the framework does with one rewrite:
    the URL it forwards a request to, if the source matches. A parameter
    [:path*] stands for any number of segments. What is assumed is said of rules
    like the two of the configuration, on text without any pattern or escape: a server
    written with its scheme, host and port, and paths of letters, digits, [-], [_],
    [.] and [~]. Sources match whatever the case of the path. *)
Class Router := { apply_rewrite : rewrite -> string -> option string }.

Definition plain_char (c : ascii) : bool := alphanumeric c || has_char c "-_.~".
Definition plain_segment (s : string) : Prop :=
  s <> "" /\ s <> "." /\ s <> ".." /\ forall_chars plain_char s = true.

(** [rest] is one or more plain segments. *)
Definition plain_path (rest : string) : Prop := Forall plain_segment (split_char "/" rest).

Definition plain_server (s : string) : Prop :=
  exists scheme host port, In scheme ["http"; "https"] /\ plain_segment host /\
    (port = "" \/ exists n, 0 <= n /\ port = ":" +++ number_to_string n) /\
    s = scheme +++ "://" +++ host +++ port.

(** A rule like those of the configuration: the same path on another server. *)
Definition forward_rule (server prefix : string) : rewrite :=
  {| source := prefix +++ "/:path*"; destination := server +++ prefix +++ "/:path*" |}.

Record router_laws (router : Router) : Prop := {
  wildcard_forwards server prefix rest :
    plain_server server -> plain_path prefix -> plain_path rest ->
    apply_rewrite (forward_rule server ("/" +++ prefix)) ("/" +++ prefix +++ "/" +++ rest)
      = Some (server +++ "/" +++ prefix +++ "/" +++ rest);
  wildcard_scope server prefix p :
    plain_server server -> plain_path prefix ->
    apply_rewrite (forward_rule server ("/" +++ prefix)) p <> None ->
    startsWith (toLowerCase p) (toLowerCase ("/" +++ prefix)) = true
}.
Arguments wildcard_forwards {router} _ server prefix rest _ _ _.
Arguments wildcard_scope {router} _ server prefix p _ _ _.

(** The first rewrite that matches. *)
Definition proxied {up : Upstreams} {router : Router} (pathname : string) : option string :=
  head (omap (fun r => apply_rewrite r pathname) rewrites).

(** ** Properties *)

Ltac plain := repeat first [discriminate | reflexivity | constructor].

Lemma number_plain n : plain_segment (number_to_string n).
Proof.
  assert (forall x : N, forall_chars plain_char (pretty x) = true) as Hpos.
  { intros x. pose proof (pretty_N_digits x) as H. revert H. generalize (pretty x : string).
    induction s as [|c s IH]; [done|]. cbn [forall_chars]. intros H. bool_to_prop.
    rewrite IH by done. unfold plain_char, alphanumeric. by rewrite H, orb_true_r. }
  assert (forall_chars plain_char (number_to_string n) = true) as Hc.
  { destruct n as [|p|p]; [by apply (Hpos 0%N)|apply (Hpos (N.pos p))|].
    change (number_to_string (Z.neg p)) with (String "-" (pretty (N.pos p))). apply Hpos. }
  split_and!; [apply number_to_string_nonempty|..|done];
    intros H; apply (f_equal parseInt) in H; by rewrite parseInt_number_to_string in H.
Qed.

Lemma plain_join l : l <> [] -> Forall plain_segment l -> plain_path (join "/" l).
Proof.
  intros Hne Hl. unfold plain_path. rewrite split_join; [done|done|].
  eapply Forall_impl; [exact Hl|]. intros s (_ & _ & _ & Hs).
  by eapply forall_chars_has_char; [|exact Hs].
Qed.

Section properties.
Context {up : Upstreams} {router : Router} (laws : router_laws router).
Context (api_plain : plain_server apiUpstream) (keycloak_plain : plain_server keycloakUpstream).

Lemma rewrites_forward : rewrites = [forward_rule apiUpstream "/api/v1"; forward_rule keycloakUpstream "/kc"].
Proof. reflexivity. Qed.

Lemma prefixes_plain : plain_path "api/v1" /\ plain_path "kc".
Proof. split; plain. Qed.

Lemma forward_ignores server prefix p :
  plain_server server -> plain_path prefix ->
  startsWith (toLowerCase p) (toLowerCase ("/" +++ prefix)) = false ->
  apply_rewrite (forward_rule server ("/" +++ prefix)) p = None.
Proof.
  intros Hs Hp H. destruct (apply_rewrite _ p) eqn:E; [|done]. exfalso.
  assert (apply_rewrite (forward_rule server ("/" +++ prefix)) p <> None) as Hn by congruence.
  apply (wildcard_scope laws server prefix p Hs Hp) in Hn. congruence.
Qed.

Lemma not_proxied p :
  startsWith (toLowerCase p) "/api/v1" = false -> startsWith (toLowerCase p) "/kc" = false -> proxied p = None.
Proof.
  intros Ha Hk. unfold proxied. rewrite rewrites_forward. cbn [omap list_omap].
  assert (apply_rewrite (forward_rule apiUpstream "/api/v1") p = None) as ->.
  { apply (forward_ignores apiUpstream "api/v1"); [done|apply prefixes_plain|done]. }
  assert (apply_rewrite (forward_rule keycloakUpstream "/kc") p = None) as ->; [|done].
  apply (forward_ignores keycloakUpstream "kc"); [done|apply prefixes_plain|done].
Qed.

Lemma proxied_api rest :
  plain_path rest -> proxied ("/api/v1/" +++ rest) = Some (apiUpstream +++ "/api/v1/" +++ rest).
Proof.
  intros H. unfold proxied. rewrite rewrites_forward. cbn [omap list_omap].
  assert (apply_rewrite (forward_rule apiUpstream "/api/v1") ("/api/v1/" +++ rest)
    = Some (apiUpstream +++ "/api/v1/" +++ rest)) as ->; [|done].
  exact (wildcard_forwards laws apiUpstream "api/v1" rest api_plain (proj1 prefixes_plain) H).
Qed.

Lemma proxied_kc rest :
  plain_path rest -> proxied ("/kc/" +++ rest) = Some (keycloakUpstream +++ "/kc/" +++ rest).
Proof.
  intros H. unfold proxied. rewrite rewrites_forward. cbn [omap list_omap].
  assert (apply_rewrite (forward_rule apiUpstream "/api/v1") ("/kc/" +++ rest) = None) as ->.
  { apply (forward_ignores apiUpstream "api/v1"); [done|apply prefixes_plain|done]. }
  assert (apply_rewrite (forward_rule keycloakUpstream "/kc") ("/kc/" +++ rest)
    = Some (keycloakUpstream +++ "/kc/" +++ rest)) as ->; [|done].
  exact (wildcard_forwards laws keycloakUpstream "kc" rest keycloak_plain (proj2 prefixes_plain) H).
Qed.

Lemma endpoint_rest e : endpoint_path e = "/api/v1/" +++ join "/" (endpoint_segments e).
Proof. by destruct e. Qed.

Lemma endpoint_rest_plain e :
  (forall d, endpoint_device e = Some d -> plain_segment d) -> plain_path (join "/" (endpoint_segments e)).
Proof.
  intros Hd. apply plain_join; [by destruct e|].
  destruct e; cbn [endpoint_segments endpoint_device] in *;
    repeat first [apply Forall_cons; split | apply Forall_nil; done];
    first [apply number_plain | by apply Hd | by plain].
Qed.

Lemma matcher_not_proxied p : matcher p = true -> proxied p = None.
Proof.
  unfold matcher. cbn [existsb]. intros H.
  repeat (apply orb_prop in H as [H|H]); try done; apply prefix_exists in H as [rest ->]; by apply not_proxied.
Qed.

(** C40. With upstreams that are plain http or https servers, and a router that forwards the
    two wildcard rules on plain paths as documented and matches sources in any case:
    every endpoint path whose device id is one segment of letters, digits, -, _, . and ~
    (not . or ..) is left alone by the route guard and forwarded to the controller
    unchanged, every plain path below /kc goes to Keycloak, and the guarded pages, the
    public pages and the authentication routes are served by the application. *)
Theorem requests_reach_their_server :
  (forall e, (forall d, endpoint_device e = Some d -> plain_segment d) ->
     matcher (endpoint_path e) = false /\ proxied (endpoint_path e) = Some (apiUpstream +++ endpoint_path e)) /\
  (forall rest, plain_path rest ->
     matcher ("/kc/" +++ rest) = false /\ proxied ("/kc/" +++ rest) = Some (keycloakUpstream +++ "/kc/" +++ rest)) /\
  (forall p, matcher p = true -> proxied p = None) /\
  Forall (fun p => matcher p = false /\ proxied p = None) ["/"; "/auth/login"; "/terms"] /\
  (forall rest, matcher ("/api/auth/" +++ rest) = false /\ proxied ("/api/auth/" +++ rest) = None).
Proof.
  split_and!.
  - intros e Hd. rewrite endpoint_rest. split; [done|]. by apply proxied_api, endpoint_rest_plain.
  - intros rest H. split; [done|]. by apply proxied_kc.
  - apply matcher_not_proxied.
  - repeat constructor; by apply not_proxied.
  - intros rest. split; [done|]. by apply not_proxied.
Qed.
End properties.

(** ** A router *)

(** [source] without the wildcard, when it has one. *)
Fixpoint strip_wildcard (s : string) : option string :=
  if String.eqb s "/:path*" then Some ""
  else match s with
       | EmptyString => None
       | String c s => match strip_wildcard s with Some p => Some (String c p) | None => None end
       end.

#[export] Instance wildcard_router : Router := {|
  apply_rewrite r p :=
    match strip_wildcard (source r), strip_wildcard (destination r) with
    | Some prefix, Some dest =>
        if String.prefix (toLowerCase (prefix +++ "/")) (toLowerCase p)
        then Some (dest +++ drop_string (String.length prefix) p)
        else None
    | _, _ => None
    end
|}.

#[export] Instance default_upstreams : Upstreams := {| INTERNAL_API_URL := None; INTERNAL_KEYCLOAK_URL := None |}.

Lemma strip_wildcard_app prefix : strip_wildcard (prefix +++ "/:path*") = Some prefix.
Proof.
  induction prefix as [|c s IH]; [done|]. rewrite append_cons. cbn [strip_wildcard].
  destruct (String.eqb _ _) eqn:E; [|by rewrite IH]. apply String.eqb_eq in E.
  injection E as -> E. apply (f_equal String.length) in E.
  rewrite string_length_append in E. cbn in E. lia.
Qed.

Lemma toLowerCase_append s t : toLowerCase (s +++ t) = toLowerCase s +++ toLowerCase t.
Proof. induction s as [|c s IH]; [done|]. exact (f_equal (String (lower_char c)) IH). Qed.

Lemma wildcard_router_laws : router_laws wildcard_router.
Proof.
  split.
  - intros server prefix rest _ _ _. unfold forward_rule. cbn [apply_rewrite wildcard_router source destination].
    rewrite <- (append_assoc server), !strip_wildcard_app.
    rewrite <- (append_assoc "/" prefix). set (q := "/" +++ prefix).
    assert (String.prefix (toLowerCase (q +++ "/")) (toLowerCase (q +++ "/" +++ rest)) = true) as ->.
    { rewrite <- (append_assoc q "/"), (toLowerCase_append (q +++ "/")). apply prefix_app. }
    by rewrite drop_string_app, append_assoc.
  - intros server prefix p _ _. unfold forward_rule. cbn [apply_rewrite wildcard_router source destination].
    rewrite <- (append_assoc server), !strip_wildcard_app.
    destruct (String.prefix _ _) eqn:E; [|done]. intros _.
    apply prefix_exists in E as [rest E]. unfold startsWith.
    rewrite E, (toLowerCase_append ("/" +++ prefix)), append_assoc.
    apply prefix_app.
Qed.

Lemma default_servers_plain : plain_server apiUpstream /\ plain_server keycloakUpstream.
Proof.
  split.
  - exists "http", "controller", ":8443". split_and!; [by left|plain|right|done].
    exists 8443. split; [lia|done].
  - exists "http", "keycloak", ":9090". split_and!; [by left|plain|right|done].
    exists 9090. split; [lia|done].
Qed.

Lemma requests_reach_their_server_witness :
  matcher (endpoint_path (devices_logs "edge-1")) = false /\
  proxied (endpoint_path (devices_logs "edge-1")) = Some "http://controller:8443/api/v1/devices/edge-1/logs".
Proof.
  refine (proj1 (requests_reach_their_server wildcard_router_laws (proj1 default_servers_plain)
    (proj2 default_servers_plain)) (devices_logs "edge-1") _).
  intros d [= <-]. plain.
Defined.
