(* ===== verification/Frame.v ===== *)
(** * Around the pages: root layout, providers, toaster, icons, scroll effects

    ui/app/{layout,icon,apple-icon}.tsx, ui/components/{providers,toaster}.tsx
    and ui/components/landing/{scroll-reveal,parallax-wrapper}.tsx. *)

From S2P Require Import Prelude JsString JsNumber JsArray Vdom Queries SessionPolling.

(** ** Providers and root layout *)

(** [defaultOptions.queries.retry]: a failed query is sent once more. *)
Definition retry : Z := 1.

Section frame.
Context {A : Type}.

(** The client by the options it is built from. *)
Definition queryClient : attr A :=
  AProp "client"
    (DObj [("defaultOptions", DObj [("queries", DObj [("staleTime", DInt staleTime); ("retry", DInt retry)])])]).

Definition Toaster (theme : option string) : node A :=
  Elt "Sonner"
    [AStr "theme" (theme ?? "system"); cls "toaster group";
     AProp "toastOptions"
       (DObj [("classNames",
          DObj [("toast", DStr "group toast group-[.toaster]:bg-card/95 group-[.toaster]:backdrop-blur-xl group-[.toaster]:text-foreground group-[.toaster]:border-border/50 group-[.toaster]:shadow-xl");
                ("description", DStr "group-[.toast]:text-muted-foreground");
                ("actionButton", DStr "group-[.toast]:bg-primary group-[.toast]:text-primary-foreground");
                ("cancelButton", DStr "group-[.toast]:bg-muted group-[.toast]:text-muted-foreground")])])] [].

(** [ThemeCookieSync] renders nothing; its effect is [SignIn.theme_cookie]. *)
Definition Providers (theme : option string) (children : node A) : node A :=
  Elt "ThemeProvider" [AStr "attribute" "class"; AStr "defaultTheme" "dark"; ABool "enableSystem" true]
    [Elt "SessionProvider" [ANum "refetchInterval" refetchInterval; ABool "refetchOnWindowFocus" true]
       [Elt "QueryClientProvider" [queryClient]
          [Elt "TooltipProvider" []
             [Elt "OrganizationProvider" [] [children; Nothing; Toaster theme]]]]].

(** [jakarta], [jetbrains]: the class names of the two fonts. *)
Definition RootLayout (jakarta jetbrains : string) (theme : option string) (children : node A) : node A :=
  Elt "html" [AStr "lang" "en"; ABool "suppressHydrationWarning" true]
    [Elt "body" [cls (jakarta +++ " " +++ jetbrains +++ " font-sans min-h-screen antialiased")]
       [Providers theme children]].

(** [metadata] *)
Definition metadata : prop_value :=
  DObj
    [("title", DObj [("default", DStr "EdgeGuardian"); ("template", DStr "%s | EdgeGuardian")]);
     ("description", DStr "Kubernetes-style IoT fleet management. Sub-5MB agents, declarative YAML config, OTA updates with automatic rollback. Built for ARM, x86, and everything in between.");
     ("openGraph",
       DObj
         [("title", DStr "EdgeGuardian - IoT Fleet Management");
          ("description", DStr "Deploy to thousands. Monitor everything. Sub-5MB agents that self-heal with declarative config and OTA updates.");
          ("siteName", DStr "EdgeGuardian"); ("type", DStr "website")]);
     ("twitter",
       DObj
         [("card", DStr "summary_large_image"); ("title", DStr "EdgeGuardian - IoT Fleet Management");
          ("description", DStr "Deploy to thousands. Monitor everything. Sub-5MB agents that self-heal with declarative config and OTA updates.")])].

(** ** Icons *)

(** [new ImageResponse(element, { width, height })] *)
Record ImageResponse := { ir_element : node A; ir_width : Z; ir_height : Z }.

Definition icon_box (size radius : Z) (background : string) (svg : node A) : ImageResponse :=
  {| ir_element :=
       Elt "div"
         [AProp "style"
            (DObj [("width", DInt size); ("height", DInt size); ("display", DStr "flex");
                   ("alignItems", DStr "center"); ("justifyContent", DStr "center");
                   ("background", DStr background); ("borderRadius", DInt radius)])] [svg];
     ir_width := size; ir_height := size |}.

Definition icon_svg (size : string) (kids : list (node A)) : node A :=
  Elt "svg"
    [AStr "width" size; AStr "height" size; AStr "viewBox" "0 0 48 48"; AStr "fill" "none";
     AStr "xmlns" "http://www.w3.org/2000/svg"] kids.

Definition shield : node A :=
  Elt "path" [AStr "d" "M24 4 L40 12 V28 L24 44 L8 28 V12 Z"; AStr "fill" "#06b6d4"] [].
Definition cutout (cx cy r fill : string) : node A :=
  Elt "circle" [AStr "cx" cx; AStr "cy" cy; AStr "r" r; AStr "fill" fill] [].

Definition Icon : ImageResponse :=
  icon_box 32 6 "#06060a"
    (icon_svg "26"
       [shield; cutout "24" "20" "4" "#06060a"; cutout "24" "10" "2.5" "#06060a";
        cutout "15" "32" "2.5" "#06060a"; cutout "33" "32" "2.5" "#06060a"]).

Definition AppleIcon : ImageResponse :=
  icon_box 180 40 "linear-gradient(135deg, #06060a 0%, #0c1220 100%)"
    (icon_svg "120"
       [shield;
        Elt "path"
          [AStr "d" "M24 20 L15 32 M24 20 L33 32 M24 20 V10"; AStr "stroke" "#080e18";
           AStr "strokeWidth" "2"; AStr "strokeLinecap" "round"] [];
        cutout "24" "20" "4" "#080e18"; cutout "24" "10" "2.5" "#080e18";
        cutout "15" "32" "2.5" "#080e18"; cutout "33" "32" "2.5" "#080e18"]).

(** ** Scroll effects *)

Definition ScrollReveal (children : list (node A)) : node A := Elt "div" [] children.
Definition ParallaxWrapper (children : list (node A)) : node A :=
  Elt "div" [cls "will-change-transform"] children.
End frame.

(** [translateY(${window.scrollY * 0.12}px)] *)
Definition parallax_transform (scrollY : number) : string :=
  "translateY(" +++ number_text (num_mul scrollY (num_div (num_of_Z 12) (num_of_Z 100))) +++ "px)".

(** The parallax effect: a frame may be requested, and writes the transform.
    [raf] is the last request; earlier ones still run. *)
Record parallax := {
  px_mounted : bool;
  px_frames : list Z;
  px_raf : option Z;
  px_next : Z;
  px_style : option string
}.

Inductive parallax_action := Scroll | Frame (id : Z) (scrollY : number) | LeavePage.

Definition parallax_step (s : parallax) (a : parallax_action) : parallax :=
  match a with
  | Scroll =>
      if px_mounted s
      then {| px_mounted := true; px_frames := px_frames s ++ [px_next s]; px_raf := Some (px_next s);
              px_next := px_next s + 1; px_style := px_style s |}
      else s
  | Frame id scrollY =>
      if existsb (Z.eqb id) (px_frames s)
      then {| px_mounted := px_mounted s; px_frames := List.filter (fun x => negb (id =? x)) (px_frames s);
              px_raf := px_raf s; px_next := px_next s;
              px_style := if px_mounted s then Some (parallax_transform scrollY) else px_style s |}
      else s
  | LeavePage =>
      {| px_mounted := false;
         px_frames := match px_raf s with
                      | Some raf => List.filter (fun x => negb (raf =? x)) (px_frames s)
                      | None => px_frames s
                      end;
         px_raf := px_raf s; px_next := px_next s; px_style := px_style s |}
  end.

(** The observer of [ScrollReveal]: the elements it still observes and those
    that carry the class [revealed], by their position among the [els]. *)
Record reveal := { rv_observed : list Z; rv_revealed : list Z }.

Definition reveal_mount (els : nat) : reveal :=
  {| rv_observed := map Z.of_nat (seq 0 els); rv_revealed := [] |}.

Inductive reveal_action := Entries (entries : list (Z * bool)) | Disconnect.

(** The observer reports elements it observes; [classList.add] adds a class once. *)
Definition reveal_entry (s : reveal) (e : Z * bool) : reveal :=
  let '(i, isIntersecting) := e in
  if isIntersecting
  then {| rv_observed := List.filter (fun x => negb (i =? x)) (rv_observed s);
          rv_revealed := if existsb (Z.eqb i) (rv_revealed s) then rv_revealed s else rv_revealed s ++ [i] |}
  else s.
Definition reveal_step (s : reveal) (a : reveal_action) : reveal :=
  match a with
  | Entries entries => fold_left reveal_entry entries s
  | Disconnect => {| rv_observed := []; rv_revealed := rv_revealed s |}
  end.

(** ** Properties *)

(** The elements around the first element with tag [t], outermost first. *)
Fixpoint around {A} (t : string) (n : node A) : option (list string) :=
  match n with
  | Txt _ => None
  | Frag l => head (omap (around t) l)
  | Elt tag _ kids =>
      if String.eqb tag t then Some []
      else match head (omap (around t) kids) with Some l => Some (tag :: l) | None => None end
  end.

(** Whatever page is rendered, the organization context has the session and the
    query cache it uses around it. *)
Lemma providers_around {A} j1 j2 theme (children : node A) :
  around "OrganizationProvider" (RootLayout j1 j2 theme children) =
  Some ["html"; "body"; "ThemeProvider"; "SessionProvider"; "QueryClientProvider"; "TooltipProvider"].
Proof. reflexivity. Qed.

(** The frame adds no handlers to a page and hides none. *)
Lemma frame_events {A} j1 j2 theme (children : node A) :
  events true (RootLayout j1 j2 theme children) = events true children.
Proof. cbn. by rewrite !app_nil_r. Qed.

(** *** Scroll reveal *)

Lemma existsb_Z i l : existsb (Z.eqb i) l = true <-> In i l.
Proof.
  rewrite existsb_exists. split.
  - intros (x & Hx & He). apply Z.eqb_eq in He as ->. done.
  - intros H. exists i. split; [done|]. apply Z.eqb_refl.
Qed.

Lemma reveal_entry_spec s e i :
  let s' := reveal_entry s e in
  (In i (rv_revealed s') <-> In i (rv_revealed s) \/ e = (i, true)) /\
  (In i (rv_observed s') <-> In i (rv_observed s) /\ e <> (i, true)).
Proof.
  destruct e as [j b]. cbn [reveal_entry].
  destruct b; cbn [rv_revealed rv_observed]; [|split; (split; [intros; split_and?; auto; congruence|])].
  - split.
    + destruct (existsb (Z.eqb j) (rv_revealed s)) eqn:E.
      * split; [auto|]. intros [H|[= ->]]; [done|]. by apply existsb_Z.
      * rewrite in_app_iff. cbn. split; intros [H|H]; auto; [destruct H as [->|[]]|injection H as ->]; auto.
    + rewrite List.filter_In, negb_true_iff, Z.eqb_neq. split; intros [H1 H2]; split; congruence.
  - by intros [H|[=]].
  - by intros [H _].
Qed.

(** As long as the page is there, the elements that were reported as visible
    once are revealed, and exactly the others are still observed. *)
Lemma revealed_spec n reports i :
  let s := fold_left reveal_step (map Entries reports) (reveal_mount n) in
  (In i (rv_revealed s) <-> In (i, true) (concat reports)) /\
  (In i (rv_observed s) <-> 0 <= i < Z.of_nat n /\ ~ In (i, true) (concat reports)).
Proof.
  cbv zeta. set (P s l := (In i (rv_revealed s) <-> In (i, true) l) /\
                          (In i (rv_observed s) <-> 0 <= i < Z.of_nat n /\ ~ In (i, true) l)).
  assert (forall es s l, P s l -> P (fold_left reveal_entry es s) (l ++ es)) as Hes.
  { induction es as [|e es IH]; intros s l [Hr Ho]; cbn [fold_left]; [by rewrite app_nil_r|].
    replace (l ++ e :: es) with ((l ++ [e]) ++ es) by (by rewrite <- app_assoc). apply IH.
    destruct (reveal_entry_spec s e i) as [H1 H2]. unfold P. rewrite H1, H2, Hr, Ho, !in_app_iff.
    cbn [In]. split; intuition congruence. }
  assert (forall rs s l, P s l -> P (fold_left reveal_step (map Entries rs) s) (l ++ concat rs)) as Hrs.
  { induction rs as [|r rs IH]; intros s l H; cbn [fold_left map concat reveal_step]; [by rewrite app_nil_r|].
    rewrite app_assoc. by apply IH, Hes. }
  apply (Hrs reports (reveal_mount n) []). split; cbn; [done|].
  rewrite in_map_iff. split.
  - intros (k & <- & Hk). apply in_seq in Hk. split; [lia|auto].
  - intros [Hi _]. exists (Z.to_nat i). split; [lia|]. apply in_seq. lia.
Qed.
